(* ===== verification/_CoqProject ===== *)
-Q . S2P
Prelude.v
OpenStackErrors.v
Api.v
Identity.v
Planner.v
Metrics.v
OwnedVMs.v
VsphereObjects.v
Sha256.v
Effects.v
K8s.v
Telemetry.v
Objects.v
VmCleanup.v
VMProvider.v
IsoCache.v
InfraEnv.v
AgentMachine.v
VsphereAgent.v
PoolController.v
PoolMetrics.v
Startup.v
Govc.v
VsphereProgress.v
GovcCommand.v
OpenStackClient.v
OpenStackRoundTrip.v
OpenStackImages.v
OpenStackAgent.v
OpenStackCreate.v
OpenStackStatus.v
OpenStackCleanup.v
OpenStackLink.v
OpenStackLinkCreate.v
OpenStackProgress.v
OpenStackProvision.v
OpenStackImageRefs.v
OpenStackPool.v
Fixtures.v
Witnesses.v
OpenStackWitnesses.v
