(* ===== verification/Prelude.v ===== *)
(** * Agent Forge operator: verification development

    The Agent Forge operator (src/) supplies hosts for HyperShift node pools.  CAPI
    creates an AgentMachine for every worker it wants; the operator creates a VM
    that boots a discovery ISO, the assisted installer reports the booted host as
    an Agent, and the operator labels, names and approves the Agent so that the
    AgentMachine binds it.  When the Machine goes away the VM is deleted again.  VMs
    are made in vSphere (with govc) or in OpenStack (with its APIs).

    ** The program and its model

    Every Go function with effects is a program of the call language of [K8s]
    ([callE]: reads and writes of API objects, govc commands, calls of the OpenStack
    client, the clock, HTTP and files, events and metrics) over the free monad of [Effects].  A run is a
    history of calls and answers; the answers are chosen by an arbitrary environment,
    which stands for the API server, its caches, the other controllers, vCenter and
    OpenStack.  A theorem about [reach anyAnswer [] p h q] therefore holds for every
    interleaving of the program with the rest of the world and after every prefix of
    its calls.  Pure Go functions are Rocq functions; int32 counters wrap at 32 bits,
    int64 sizes at 64; Go maps are gmaps; an error is a class (what the code tests
    with errors.Is and errors.As) and a message.

    - [Prelude]: Go's strings package, int32, record update, tactics, shared lemmas.
    - [OpenStackErrors]: internal/openstack/errors.go, the classification and
      sanitising of errors, and the kinds of resources.
    - [Api]: the structs of api/v1alpha1 (VsphereAgentPool, VsphereAgent,
      OpenStackAgentPool, OpenStackAgent).
    - [Identity]: which Agent runs on which VM (planner.go and
      vsphereagentpool_controller.go: agentIdentityLookup, ownedVMLookup,
      mergeOwnedVMStatuses, assignedAgentHostnames, normalizeVMwareSerialUUID).
    - [Planner]: planner.go, buildPlan: the deficit, the Agents to patch and the VMs
      to delete.
    - [Metrics]: metrics.go, the vectors with their labels and the operations on them;
      the registry of the Prometheus client is the class [Prometheus] with laws.
    - [OwnedVMs]: refreshOwnedVMStatuses, the life cycle of an owned VM.
    - [VsphereObjects]: spec defaults and membership of VsphereAgents in pools.
    - [Sha256]: SHA-256 and hexadecimal encoding, executable, with test vectors.
    - [Effects], [K8s]: programs, their semantics and proof rules; the objects and
      calls; the library functions of Kubernetes as the class [KubeLib] with the
      documented laws [KubeLaws], met by the instance [refKubeLib].
    - [Telemetry]: event_recorder.go and the functions that record events and metrics,
      as calls of the programs.
    - [Objects]: how Agents, Machines, AgentMachines and InfraEnvs are read, and the
      watch predicates.
    - [VmCleanup]: vm_cleanup.go, the preparation of a VM deletion.
    - [VMProvider]: the interface of vsphere_provider.go as a class with laws;
      the controllers are verified against the laws, [Govc] discharges them.
    - [IsoCache]: iso_cache.go, the image of a pool and its bounded history.
    - [InfraEnv]: the availability of the discovery image.
    - [AgentMachine]: agentmachine_controller.go and the demand half of
      openstackagentpool_controller.go.
    - [VsphereAgent]: vsphereagent_controller.go, creation, adoption, ejection of the
      installation media and deletion of one VM.
      [VsphereProgress] proves that the deletion finishes.
    - [PoolController]: vsphereagentpool_controller.go, the pass over a pool.
      [PoolMetrics] relates its metric calls to the series of a registry.
    - [Startup]: cmd/main.go and the SetupWithManager methods: the options, the
      controllers with their watches and field indexes, the order of registration.
      Its calls are [startE].
    - [Govc]: vsphere_provider.go, the provider that runs govc; [GovcCommand]: the
      environment and deadline of a command and the cleaning of its output.
    - [OpenStackClient]: internal/openstack/client.go, the client as a program over
      the calls of the SDK ([sdkE]), authentication and the cache of clients.
      [OpenStackRoundTrip] proves that it finds what it creates.
    - [OpenStackImages]: openstack_iso_cache.go, the reference-counted discovery
      images; [OpenStackImageRefs] verifies them as a state machine.
    - [OpenStackAgent]: openstackagent_controller.go, the whole reconciler of a worker.
      [OpenStackCreate] verifies its creation protocol over the life of a worker,
      [OpenStackStatus] the shape of its status, [OpenStackCleanup] its deletion,
      [OpenStackLink] and [OpenStackLinkCreate] the reconciler linked with the client,
      [OpenStackProgress] that the deletion finishes and [OpenStackProvision] that the
      creation does.
    - [OpenStackPool]: the reconciler of openstackagentpool_controller.go.
    - [Fixtures], [Witnesses], [OpenStackWitnesses]: a concrete cluster and cloud, and
      every property with hypotheses applied to them.

    ** What the theorems show

    - Deletion is safe.  No VM is destroyed by a VsphereAgent unless its Machine was
      seen gone and all its Agents were unbound and unapproved under an optimistic
      lock, and never during an ejection, except a VM that the same reconciliation just
      created and could not finish; the command names exactly that VM (C1); a pool deletes
      a VsphereAgent only when the plan made from what this pass observed allows it and the VM
      is prepared (C5, C7); a VM with a recorded
      owner is destroyed only by the identity of a VM that carries the owner
      annotation (C34).  OpenStack resources are deleted in order, after the same
      evidence (C18), and down to the SDK only if they are in the project of the
      worker's Secret and carry the UID of the worker (C3, C21).
    - Creation is at most once: a resource of a worker is never requested again while
      an earlier request may have been carried out, across crashes (C2); a request
      that reaches the SDK is marked with its owner and follows a recorded intent
      (C4); and creation terminates with a server (C12).
    - Finalizers go only when nothing is left that the policies do not retain (C8, C14,
      C32; a VsphereAgent without a pool also loses its finalizer), and they do go: the
      cleanup of a worker terminates (C10), and that of a VsphereAgent takes one
      reconciliation and removes exactly what is its own (C11).
    - Shared images are deleted only without references, over any sequence of writes
      by any workers (C9, C20).
    - Demand is served once, by one pool, after a claim and a pinned selector, and
      claims are never stolen (C15-C17).
    - Identity: the lookup tables implement the reference definition of a unique
      match (C6), host names are given out injectively (C13).
    - The life cycle of owned VMs refines a reference table and orphans nothing that
      is in use, an orphan is deleted only after its grace period, and VMs only known
      through their Agents never are (C23-C25); plans have the exact deficit and bounded surplus (C27, C28).
    - The watches that start-up registers, with its indexes, enqueue exactly the objects
      that a change concerns, and drop only updates that change nothing a pass reads (C26); the manager starts only fully configured
      ([manager_starts_configured]).
    - Agents are bound as intended (C19, C29); status writers do not overwrite each
      other (C30); the gauges of a pool show its plan and go with it (C31); the status of a worker
      is well formed (C39).
    - The govc provider meets its interface (C33), recognises a missing VM (C35),
      publishes only images read back from the datastore (C36) and the cache leaks none (C37).
    - The OpenStack factory makes authenticated clients only (C22), and what is
      published of errors is sanitised (C38).  What the client creates it finds again
      (C40), on which the recovery of a creation with an unknown outcome relies.
    - Two theorems document defects: [ejectCheckpoint_second_lost] (the second
      checkpoint of one ejection is lost) and [failure_read_as_missing_vm] (the
      arguments of a command are part of the message that is searched for a missing
      VM).

    ** Assumptions about the world

    Most theorems need none.  [OpenStackCreate] assumes what the API server promises
    for the status of one object ([world]: reads answer what was written last, a
    failed write may or may not have been stored, nobody else writes it);
    [OpenStackStatus] that the workers answered are well formed.  The theorem on
    deleted images ranges over [cacheLife]: ConfigMaps with the label of the caches are
    written by reconciliations only, a read answers a version that was stored, and the
    API server accepts an update only for the version that is stored.  The theorem on the
    linked deletion assumes that cached clients are for the project of their key
    ([rightCache]) and that a key stands for one version of a Secret.  [OpenStackProgress] runs the reconciler against a project that
    answers: calls succeed, and volumes and the port are attached to the server as
    long as it exists; [OpenStackProvision] against a site that cooperates: what is
    created is usable from the next reconciliation on; [VsphereProgress] against a
    vCenter and a cluster that answer and store what they are sent.  [PoolMetrics] assumes the
    documented laws of the Prometheus client, [Startup] the documented behaviour of
    the cache over registered indexes ([cacheAnswers]) and of the watches ([watchRequests]:
    a mapping function runs on the old and on the new version of an update).  [OpenStackRoundTrip] runs the client against a project that
    stores the options of a creation.

    ** Bounds

    Recursion is structural wherever the code's loops are over lists.  Fuel is used
    in five places: [trimLeftRunes], [replaceTempISO], [hashBlocks] and
    [removeEscapes] take the length of their input, and every step consumes at least
    one element ([removeEscapes_fuel]);
    [disconnectLoop] takes the ticks that fit into govcCommandTimeout plus two, since
    the loop in the code ends with its context.  [retryTimes n] is the conflict retry
    with an arbitrary number of attempts.  [runTo] stops a run at a chosen call and
    is used by witnesses only.  The number of reconciliations in C10 is exact: one per
    resource and image step that is left, and one more; C12 needs at most one per
    step that is left, and nine at most.

    ** Not modelled

    Log output and the parsing of the command line; generated deep copies (values are
    copied by construction; the one place where sharing matters, the ejection record,
    models it); the decoding of govc's JSON, URL parsing and HTTP dates, which are
    parameters; of the OpenStack client, the set-up of TLS and time-outs, which are
    part of the SDK calls in the model, and the rate limiter, whose answer is a
    parameter.  The helpers of the end-to-end tests.  That the creation of a
    VM in vSphere succeeds, the counterpart of C12, is not proved. *)
From Stdlib Require Export ZArith Lia Ascii.
From stdpp Require Export base gmap strings list pretty.

#[export] Set Warnings "-clear-no-such-hyp,-register-all".

(** ** Notations

    Go compares values with [==] and [!=]; both are decidable tests here. *)
Declare Scope go_scope.
Delimit Scope go_scope with go.

Notation "x == y" := (bool_decide (x = y)) (at level 70, no associativity) : go_scope.
Notation "x != y" := (negb (bool_decide (x = y))) (at level 70, no associativity) : go_scope.

Global Open Scope string_scope.
Global Open Scope list_scope.
Global Open Scope Z_scope.
Global Open Scope bool_scope.
Global Open Scope go_scope.

(** ** Functional record update

    [r <| f := v |>] is the Go assignment [r.f = v] on a struct value.  A
    record declares its expansion once ([Eta]); the setter of a projection is
    found by abstracting that projection in the expansion. *)
Class Eta (R : Type) := eta : R → R.
Class Setter {R T : Type} (proj : R → T) := modify : (T → T) → R → R.

Ltac build_setter proj :=
  match type of proj with
  | ?R → ?T =>
      let g := constr:(fun (g : T → T) (r : R) =>
        ltac:(let e := eval cbv beta delta [eta] in (eta r) in
              let e := eval hnf in e in
              match eval pattern (proj r) in e with
              | ?f _ => let t := eval cbv beta in (f (g (proj r))) in exact t
              end)) in
      exact g
  end.

#[export] Hint Extern 1 (Setter ?proj) => build_setter proj : typeclass_instances.

Notation "r <| f := v |>" := (modify (proj := f) (λ _, v) r)
  (at level 1, left associativity, f at next level, v at level 200,
   format "r  <| f  :=  v |>") : go_scope.

(** ** Integers

    Go's [int32] arithmetic wraps around; [wrap32] is the conversion of a
    mathematical integer to [int32]. *)
Definition int32_modulus : Z := 4294967296.
Definition int32_half : Z := 2147483648.

Definition wrap32 (z : Z) : Z := (z + int32_half) mod int32_modulus - int32_half.

(** [int32] addition and subtraction. *)
Definition add32 (a b : Z) : Z := wrap32 (a + b).
Definition sub32 (a b : Z) : Z := wrap32 (a - b).

(** [int32(len(l))]. *)
Definition len32 {A} (l : list A) : Z := wrap32 (Z.of_nat (length l)).

(** ** Time

    A [time.Time] is the number of nanoseconds since Go's zero time
    (1 January of year 1), so [IsZero] is the test against 0; a
    [time.Duration] is a number of nanoseconds. *)
Definition Time : Type := Z.
Definition Duration : Type := Z.

Definition IsZero (t : Time) : bool := t == 0.
Definition Before (a b : Time) : bool := a <? b.
Definition second : Duration := 1000000000.
Definition minute : Duration := 60 * second.

(** ** Strings

    A Go string is a sequence of bytes: [String.string].  Case mapping is that
    of ASCII; white space is that of [unicode.IsSpace], in its UTF-8
    encodings. *)
Definition is_empty (s : string) : bool := s == "".

Fixpoint mapString (f : ascii → ascii) (s : string) : string :=
  match s with
  | EmptyString => EmptyString
  | String c s' => String (f c) (mapString f s')
  end.

Fixpoint filterString (f : ascii → bool) (s : string) : string :=
  match s with
  | EmptyString => EmptyString
  | String c s' => if f c then String c (filterString f s') else filterString f s'
  end.

Fixpoint forallString (f : ascii → bool) (s : string) : bool :=
  match s with
  | EmptyString => true
  | String c s' => f c && forallString f s'
  end.

Definition lowerAscii (c : ascii) : ascii :=
  let n := nat_of_ascii c in
  if (65 <=? n)%nat && (n <=? 90)%nat then ascii_of_nat (n + 32) else c.

(** [strings.ToLower]. *)
Definition ToLower (s : string) : string := mapString lowerAscii s.

(** [strings.EqualFold]. *)
Definition EqualFold (a b : string) : bool := ToLower a == ToLower b.

(** [strings.HasPrefix], [strings.HasSuffix]. *)
Definition HasPrefix (s p : string) : bool := String.prefix p s.

Fixpoint dropString (n : nat) (s : string) : string :=
  match n, s with
  | O, _ => s
  | S n', EmptyString => EmptyString
  | S n', String _ s' => dropString n' s'
  end.

Fixpoint takeString (n : nat) (s : string) : string :=
  match n, s with
  | O, _ => EmptyString
  | S n', EmptyString => EmptyString
  | S n', String c s' => String c (takeString n' s')
  end.

Definition HasSuffix (s p : string) : bool :=
  (String.length p <=? String.length s)%nat &&
  (dropString (String.length s - String.length p) s == p).

(** [strings.TrimPrefix], [strings.TrimSuffix]. *)
Definition TrimPrefix (s p : string) : string :=
  if HasPrefix s p then dropString (String.length p) s else s.

Definition TrimSuffix (s p : string) : string :=
  if HasSuffix s p then takeString (String.length s - String.length p) s else s.

(** [strings.Contains]. *)
Fixpoint Contains (s sub : string) : bool :=
  HasPrefix s sub ||
  match s with
  | EmptyString => false
  | String _ s' => Contains s' sub
  end.

(** The slice expression [s[i:j]]. *)
Definition sliceString (s : string) (i j : nat) : string := takeString (j - i) (dropString i s).

Definition byte (n : nat) : ascii := ascii_of_nat n.
Definition bytes (l : list nat) : string := fold_right (λ n s, String (byte n) s) "" l.

(** The UTF-8 encodings of the code points of [unicode.IsSpace]. *)
Definition spaceRunes : list string :=
  map bytes
    ([[9]; [10]; [11]; [12]; [13]; [32]; [194; 133]; [194; 160]; [225; 154; 128];
      [226; 128; 128]; [226; 128; 129]; [226; 128; 130]; [226; 128; 131]; [226; 128; 132];
      [226; 128; 133]; [226; 128; 134]; [226; 128; 135]; [226; 128; 136]; [226; 128; 137];
      [226; 128; 138]; [226; 128; 168]; [226; 128; 169]; [226; 128; 175]; [226; 129; 159];
      [227; 128; 128]]%nat).

(** Drop the members of [runes] at the front of [s] (at most [fuel] of them). *)
Fixpoint trimLeftRunes (runes : list string) (fuel : nat) (s : string) : string :=
  match fuel with
  | O => s
  | S fuel' =>
      match List.find (λ r, HasPrefix s r) runes with
      | Some r => trimLeftRunes runes fuel' (dropString (String.length r) s)
      | None => s
      end
  end.

Definition trimLeft (runes : list string) (s : string) : string :=
  trimLeftRunes runes (String.length s) s.

Definition trimBoth (runes : list string) (s : string) : string :=
  String.rev (trimLeft (map String.rev runes) (String.rev (trimLeft runes s))).

(** [strings.TrimSpace] and [strings.Trim] with a one-byte cut set. *)
Definition TrimSpace (s : string) : string := trimBoth spaceRunes s.
Definition Trim (s : string) (c : ascii) : string := trimBoth [String c ""] s.

(** [strings.ReplaceAll] of a one-byte string by a one-byte string. *)
Definition ReplaceAll (s : string) (old new : ascii) : string :=
  mapString (λ c, if Ascii.eqb c old then new else c) s.

(** [strings.Split] on a one-byte separator. *)
Fixpoint Split (s : string) (sep : ascii) : list string :=
  match s with
  | EmptyString => [""]
  | String c s' =>
      if Ascii.eqb c sep then "" :: Split s' sep
      else match Split s' sep with
           | w :: ws => String c w :: ws
           | [] => [String c ""]
           end
  end.

(** [strings.Join]. *)
Definition Join (parts : list string) (sep : string) : string := String.concat sep parts.

(** [fmt.Sprintf] with the verb [%d]. *)
Definition fmt_d (z : Z) : string := pretty z.

(** The verb [%q] on printable ASCII: quotes around the string, quotes and
    backslashes escaped. *)
Definition quoteByte : ascii := ascii_of_nat 34.
Definition backslashByte : ascii := ascii_of_nat 92.

Fixpoint escapeString (s : string) : string :=
  match s with
  | EmptyString => ""
  | String c s' =>
      if Ascii.eqb c quoteByte || Ascii.eqb c backslashByte
      then String backslashByte (String c (escapeString s'))
      else String c (escapeString s')
  end.

Definition fmt_q (s : string) : string :=
  String quoteByte (escapeString s) +:+ String quoteByte "".

(** Hexadecimal digits, and the success of [hex.DecodeString]. *)
Definition isHexDigit (c : ascii) : bool :=
  let n := nat_of_ascii c in
  ((48 <=? n)%nat && (n <=? 57)%nat) || ((97 <=? n)%nat && (n <=? 102)%nat) ||
  ((65 <=? n)%nat && (n <=? 70)%nat).

Definition hexDecodes (s : string) : bool :=
  Nat.even (String.length s) && forallString isHexDigit s.

(** [path.Clean] of ["/" ++ s]: empty and ["."] elements are dropped and
    [".."] removes the element before it, never leaving the root. *)
Definition cleanStep (stack : list string) (seg : string) : list string :=
  if is_empty seg || (seg == ".") then stack
  else if seg == ".." then tail stack
  else seg :: stack.

Definition cleanSegments (s : string) : list string :=
  rev (foldl cleanStep [] (Split s "/"%char)).

Definition CleanRooted (s : string) : string := "/" +:+ Join (cleanSegments s) "/".

(** ** Maps

    Reading a missing key of a [map[string]string] gives the zero value. *)
Definition mapGet (m : gmap string string) (k : string) : string := default "" (m !! k).

(** ** Tactics

    [gobool] turns the boolean tests of the code that appear in hypotheses into
    propositions; [gosplit] does the same case analysis on the goal. *)
Ltac gobool_step :=
  match goal with
  | H : andb _ _ = true |- _ => apply andb_prop in H as [? ?]
  | H : andb _ _ = false |- _ => apply andb_false_iff in H as [H | H]
  | H : orb _ _ = false |- _ => apply orb_false_elim in H as [? ?]
  | H : orb _ _ = true |- _ => apply orb_prop in H as [H | H]
  | H : negb _ = true |- _ => apply negb_true_iff in H
  | H : negb _ = false |- _ => apply negb_false_iff in H
  | H : bool_decide _ = true |- _ => apply bool_decide_eq_true_1 in H
  | H : bool_decide _ = false |- _ => apply bool_decide_eq_false_1 in H
  | H : is_empty _ = _ |- _ => unfold is_empty in H
  | H : (_ <? _) = true |- _ => apply Z.ltb_lt in H
  | H : (_ <? _) = false |- _ => apply Z.ltb_ge in H
  | H : (_ <=? _) = true |- _ => apply Z.leb_le in H
  | H : (_ <=? _) = false |- _ => apply Z.leb_gt in H
  end.
Ltac gobool := repeat gobool_step.

(** Evaluate the decidable tests of the goal (or of [H]) that the context decides. *)
Ltac bd_decides := first [done | congruence | by eauto].
Ltac bdsimp :=
  repeat match goal with
  | |- context [bool_decide ?P] =>
      first [rewrite (bool_decide_true P) by bd_decides
            | rewrite (bool_decide_false P) by bd_decides]
  end; simpl.
Ltac bdsimp_in H :=
  repeat match type of H with
  | context [bool_decide ?P] =>
      first [rewrite (bool_decide_true P) in H by bd_decides
            | rewrite (bool_decide_false P) in H by bd_decides]
  end; simpl in H.

(** Case analysis on the innermost test of a conditional of the goal. *)
Ltac gocase :=
  match goal with
  | |- context [if ?b then _ else _] =>
      lazymatch b with
      | context [if _ then _ else _] => fail
      | _ => let E := fresh "E" in destruct b eqn:E
      end
  end.
Ltac gocases := repeat (gocase; gobool; simplify_eq/=).

(** ** Hint databases

    [golib] resolves the routine facts on lists and options, [gorw] normalises
    by rewriting. *)
Create HintDb golib discriminated.
Create Rewrite HintDb gorw.

(** ** Integers *)
Lemma wrap32_small z : - int32_half ≤ z < int32_half → wrap32 z = z.
Proof.
  unfold wrap32, int32_half, int32_modulus. intros H.
  rewrite Z.mod_small by lia. lia.
Qed.

Lemma wrap32_range z : - int32_half ≤ wrap32 z < int32_half.
Proof.
  unfold wrap32, int32_half, int32_modulus.
  pose proof (Z.mod_pos_bound (z + 2147483648) 4294967296). lia.
Qed.

Lemma len32_small {A} (l : list A) :
  Z.of_nat (length l) < int32_half → len32 l = Z.of_nat (length l).
Proof. intros H. apply wrap32_small. unfold int32_half in *. lia. Qed.

(** ** Lists *)
Lemma in_filter_true {A} (f : A → bool) l x :
  In x (List.filter f l) → In x l ∧ f x = true.
Proof. apply filter_In. Qed.
#[export] Hint Resolve in_filter_true : golib.

Lemma nodup_map_filter {A B} (g : A → B) (f : A → bool) l :
  List.NoDup (map g l) → List.NoDup (map g (List.filter f l)).
Proof.
  induction l as [|a l IH]; simpl; [done|].
  inversion_clear 1 as [|? ? Hnin Hnd]. destruct (f a); simpl; [|auto].
  constructor; [|auto]. intros (b & Hgb & Hb)%in_map_iff.
  apply filter_In in Hb as [Hb _]. apply Hnin. rewrite <- Hgb. by apply in_map.
Qed.

Lemma nodup_app_disjoint {A} (l1 l2 : list A) :
  List.NoDup l1 → List.NoDup l2 → (∀ x, In x l1 → ¬ In x l2) → List.NoDup (l1 ++ l2).
Proof.
  intros H1 H2 Hd. induction H1 as [|a l Hnin Hnd IH]; simpl; [done|].
  constructor.
  - rewrite in_app_iff. intros [?|?]; [done|]. eapply Hd; [by left|done].
  - apply IH. intros x Hx. apply Hd. by right.
Qed.

(** ** Strings *)
Lemma string_cons_app c s t : String c s +:+ t = String c (s +:+ t).
Proof. reflexivity. Qed.
Lemma string_nil_app t : "" +:+ t = t.
Proof. reflexivity. Qed.
#[export] Hint Rewrite string_cons_app string_nil_app : gorw.

Lemma string_app_nil_r s : s +:+ "" = s.
Proof. induction s as [|c s IH]; [done|]. by rewrite string_cons_app, IH. Qed.

Lemma string_app_assoc s1 s2 s3 : (s1 +:+ s2) +:+ s3 = s1 +:+ (s2 +:+ s3).
Proof. induction s1 as [|c s IH]; [done|]. by rewrite !string_cons_app, IH. Qed.

Lemma forallString_app f s1 s2 : forallString f (s1 +:+ s2) = forallString f s1 && forallString f s2.
Proof. induction s1 as [|c s IH]; [done|]. rewrite string_cons_app. simpl. by rewrite IH, andb_assoc. Qed.

Lemma forallString_take f n s : forallString f s = true → forallString f (takeString n s) = true.
Proof.
  revert s. induction n as [|n IH]; intros [|c s]; simpl; try done. intros [-> Hs]%andb_prop. by apply IH.
Qed.

Lemma forallString_drop f n s : forallString f s = true → forallString f (dropString n s) = true.
Proof.
  revert s. induction n as [|n IH]; intros [|c s]; simpl; try done. intros [_ Hs]%andb_prop. by apply IH.
Qed.

Lemma forallString_impl (f g : ascii → bool) s :
  (∀ c, f c = true → g c = true) → forallString f s = true → forallString g s = true.
Proof.
  intros Hfg. induction s as [|c s IH]; simpl; [done|]. intros [Hc Hs]%andb_prop.
  by rewrite (Hfg c Hc), IH.
Qed.

Lemma forallString_map f g s : forallString f (mapString g s) = forallString (λ c, f (g c)) s.
Proof. induction s as [|c s IH]; simpl; [done|]. by rewrite IH. Qed.

Lemma mapString_app g s1 s2 : mapString g (s1 +:+ s2) = mapString g s1 +:+ mapString g s2.
Proof. induction s1 as [|c s IH]; [done|]. rewrite string_cons_app. simpl. by rewrite IH. Qed.

Lemma mapString_take g n s : mapString g (takeString n s) = takeString n (mapString g s).
Proof. revert s. induction n as [|n IH]; intros [|c s]; simpl; try done. by rewrite IH. Qed.

Lemma mapString_drop g n s : mapString g (dropString n s) = dropString n (mapString g s).
Proof. revert s. induction n as [|n IH]; intros [|c s]; simpl; try done. Qed.

Lemma mapString_length g s : String.length (mapString g s) = String.length s.
Proof. induction s as [|c s IH]; simpl; [done|]. by rewrite IH. Qed.

Lemma mapString_ext f g s : (∀ c, f c = g c) → mapString f s = mapString g s.
Proof. intros Hfg. induction s as [|c s IH]; simpl; [done|]. by rewrite Hfg, IH. Qed.

Lemma mapString_compose f g s : mapString f (mapString g s) = mapString (λ c, f (g c)) s.
Proof. induction s as [|c s IH]; simpl; [done|]. by rewrite IH. Qed.

Lemma filterString_app f s1 s2 : filterString f (s1 +:+ s2) = filterString f s1 +:+ filterString f s2.
Proof. induction s1 as [|c s IH]; [done|]. rewrite string_cons_app. simpl. rewrite IH. by destruct (f c). Qed.

Lemma filterString_all f s : forallString f s = true → filterString f s = s.
Proof. induction s as [|c s IH]; simpl; [done|]. intros [-> Hs]%andb_prop. by rewrite IH. Qed.

Lemma take_drop_string n s : takeString n s +:+ dropString n s = s.
Proof. revert s. induction n as [|n IH]; intros [|c s]; simpl; try done. by rewrite string_cons_app, IH. Qed.

Lemma dropString_add n m s : dropString n (dropString m s) = dropString (m + n) s.
Proof. revert s. induction m as [|m IH]; intros [|c s]; simpl; try done. by destruct n. Qed.

Lemma dropString_all n s : (String.length s ≤ n)%nat → dropString n s = "".
Proof. revert s. induction n as [|n IH]; intros [|c s]; simpl; intros; try done; [lia|]. apply IH. lia. Qed.

Lemma dropString_length n s : String.length (dropString n s) = (String.length s - n)%nat.
Proof. revert s. induction n as [|n IH]; intros [|c s]; simpl; try done. Qed.

Lemma takeString_all n s : (String.length s ≤ n)%nat → takeString n s = s.
Proof.
  revert s. induction n as [|n IH]; intros [|c s]; simpl; intros; try done; [lia|]. rewrite IH; [done|lia].
Qed.

Lemma rev_app_rev_app s a b : String.rev_app (String.rev_app s a) b = String.rev_app a (s +:+ b).
Proof. revert a. induction s as [|c s IH]; intros a; simpl; [done|]. by rewrite IH, string_cons_app. Qed.

Lemma string_rev_involutive s : String.rev (String.rev s) = s.
Proof. unfold String.rev. rewrite rev_app_rev_app. simpl. apply string_app_nil_r. Qed.

Lemma forallString_rev_app f s a : forallString f (String.rev_app s a) = forallString f s && forallString f a.
Proof.
  revert a. induction s as [|c s IH]; intros a; simpl; [done|]. rewrite IH. simpl.
  by destruct (f c), (forallString f s), (forallString f a).
Qed.

Lemma forallString_rev f s : forallString f (String.rev s) = forallString f s.
Proof. unfold String.rev. rewrite forallString_rev_app. simpl. apply andb_true_r. Qed.

(** Visible ASCII characters are not trimmed. *)
Definition isVisible (c : ascii) : bool :=
  let n := nat_of_ascii c in (33 <=? n)%nat && (n <=? 126)%nat.

Definition startsInvisible (r : string) : bool :=
  match r with String c _ => negb (isVisible c) | EmptyString => false end.

Lemma trimLeft_visible runes s :
  forallb startsInvisible runes = true → forallString isVisible s = true → trimLeft runes s = s.
Proof.
  intros Hr Hs. unfold trimLeft. destruct s as [|c s]; [done|]. simpl in *. apply andb_prop in Hs as [Hc _].
  destruct (List.find _ runes) as [r|] eqn:Ef; [|done]. exfalso. apply find_some in Ef as [Hin Hp].
  rewrite forallb_forall in Hr. apply Hr in Hin. destruct r as [|d r]; [done|]. simpl in *.
  unfold HasPrefix in Hp. simpl in Hp. destruct (ascii_dec d c) as [->|]; [|done]. by rewrite Hc in Hin.
Qed.

Lemma TrimSpace_visible s : forallString isVisible s = true → TrimSpace s = s.
Proof.
  intros Hs. unfold TrimSpace, trimBoth. rewrite (trimLeft_visible spaceRunes) by (done || by vm_compute).
  rewrite trimLeft_visible; [apply string_rev_involutive|by vm_compute|]. by rewrite forallString_rev.
Qed.

(** Trimming drops characters only. *)
Lemma string_length_app s t : String.length (s +:+ t) = (String.length s + String.length t)%nat.
Proof. induction s as [|c s IH]; [done|]. rewrite string_cons_app. simpl. by rewrite IH. Qed.

Lemma takeString_length n s : String.length (takeString n s) = Nat.min n (String.length s).
Proof. revert s. induction n as [|n IH]; intros [|c s]; simpl; auto. Qed.

Lemma string_rev_length s : String.length (String.rev s) = String.length s.
Proof.
  unfold String.rev. assert (∀ a, String.length (String.rev_app s a) = (String.length s + String.length a)%nat) as ->;
    [|simpl; lia].
  induction s as [|c s IH]; intros a; simpl; [done|]. rewrite IH. simpl. lia.
Qed.

Lemma trimLeftRunes_drop runes fuel s : ∃ n, trimLeftRunes runes fuel s = dropString n s.
Proof.
  revert s. induction fuel as [|fuel IH]; intros s; simpl; [by exists 0%nat|].
  destruct (List.find _ runes) as [r|]; [|by exists 0%nat].
  destruct (IH (dropString (String.length r) s)) as [n ->]. rewrite dropString_add. by eexists.
Qed.

Lemma trimBoth_length runes s : (String.length (trimBoth runes s) ≤ String.length s)%nat.
Proof.
  unfold trimBoth, trimLeft. rewrite string_rev_length.
  destruct (trimLeftRunes_drop (map String.rev runes) (String.length (String.rev (trimLeft runes s)))
    (String.rev (trimLeft runes s))) as [n Hn]. unfold trimLeft in Hn. rewrite Hn.
  destruct (trimLeftRunes_drop runes (String.length s) s) as [m Hm]. rewrite Hm.
  rewrite dropString_length, string_rev_length, dropString_length. lia.
Qed.

Lemma forallString_trimBoth f runes s : forallString f s = true → forallString f (trimBoth runes s) = true.
Proof.
  intros Hs. unfold trimBoth, trimLeft. rewrite forallString_rev.
  destruct (trimLeftRunes_drop (map String.rev runes) (String.length (String.rev (trimLeft runes s)))
    (String.rev (trimLeft runes s))) as [n Hn]. unfold trimLeft in Hn. rewrite Hn. clear Hn.
  apply forallString_drop. rewrite forallString_rev.
  destruct (trimLeftRunes_drop runes (String.length s) s) as [m ->]. by apply forallString_drop.
Qed.

Lemma HasPrefix_app p s : HasPrefix (p +:+ s) p = true.
Proof.
  unfold HasPrefix. induction p as [|c p IH]; [by destruct s|]. change (String c p +:+ s) with (String c (p +:+ s)).
  cbn [String.prefix]. by destruct (ascii_dec c c).
Qed.

Lemma TrimPrefix_app p s : TrimPrefix (p +:+ s) p = s.
Proof.
  unfold TrimPrefix. rewrite HasPrefix_app. induction p as [|c p IH]; [by destruct s|exact IH].
Qed.

(** Searching, splitting and joining. *)
Lemma Contains_app_l p s m : Contains s m = true → Contains (p +:+ s) m = true.
Proof.
  intros Hs. induction p as [|c p IH]; [done|]. change (String c p +:+ s) with (String c (p +:+ s)).
  cbn [Contains]. by rewrite IH, orb_true_r.
Qed.

Lemma Join_snoc init l sep : ∃ p, Join (init ++ [l]) sep = p +:+ l.
Proof.
  induction init as [|x init [p IH]]; [by exists ""|]. unfold Join in *. simpl.
  destruct (init ++ [l]) eqn:E; [by destruct init|]. rewrite IH. exists (x +:+ sep +:+ p). by rewrite !string_app_assoc.
Qed.

Lemma ToLower_app s t : ToLower (s +:+ t) = ToLower s +:+ ToLower t.
Proof. apply mapString_app. Qed.

Lemma Split_forall f sep s : forallString f s = true → Forall (λ w, forallString f w = true) (Split s sep).
Proof.
  induction s as [|c s IH]; simpl; [by repeat constructor|]. intros [Hc Hs]%andb_prop. specialize (IH Hs).
  destruct (Ascii.eqb c sep); [by constructor|]. destruct (Split s sep) as [|w ws]; [by repeat constructor; simpl; rewrite Hc|].
  apply Forall_cons in IH as [? ?]. constructor; [simpl; by rewrite Hc|done].
Qed.

Lemma Split_no_sep sep s : Forall (λ w, forallString (λ c, negb (Ascii.eqb c sep)) w = true) (Split s sep).
Proof.
  induction s as [|c s IH]; simpl; [by repeat constructor|]. destruct (Ascii.eqb c sep) eqn:E; [by constructor|].
  destruct (Split s sep) as [|w ws]; [by repeat constructor; simpl; rewrite E|].
  apply Forall_cons in IH as [? ?]. constructor; [simpl; by rewrite E|done].
Qed.

Lemma Join_forall f sep parts :
  forallString f sep = true → Forall (λ w, forallString f w = true) parts → forallString f (Join parts sep) = true.
Proof.
  intros Hsep. unfold Join. induction 1 as [|x parts Hx Hf IH]; simpl; [done|]. destruct parts; [done|].
  by rewrite !forallString_app, Hx, Hsep, IH.
Qed.

(** ** Filters on lists *)
Lemma filter_filter_and {A} (p q : A → bool) l : List.filter p (List.filter q l) = List.filter (λ a, q a && p a) l.
Proof. induction l as [|a l IH]; simpl; [done|]. destruct (q a); simpl; by rewrite IH. Qed.

Lemma filter_perm {A} (p : A → bool) (l l' : list A) : l ≡ₚ l' → List.filter p l ≡ₚ List.filter p l'.
Proof. induction 1 as [|a l l' _ IH|a b l|]; simpl; repeat case_match; eauto using Permutation. Qed.

Lemma filter_true {A} (l : list A) : List.filter (λ _, true) l = l.
Proof. induction l; simpl; congruence. Qed.
