(* ===== verification/OpenStackErrors.v ===== *)
(** * Sanitised errors of the OpenStack client

    internal/openstack/errors.go: an error of the SDK, of the transport or of the
    client itself becomes an [osError], which holds safe diagnostics only.  A Go
    error is the list of the errors its Unwrap chain visits, outermost first
    ([cause]); errors.As finds the first cause of a type, errors.Is a cause that
    is, or says it is, the target.  The theorems say that nothing of the free text
    of an error survives, and which answers count as a definite rejection. *)
From S2P Require Import Prelude.

(** ** Errors *)
Record osError := mkOsError {
  oe_Reason : string;
  oe_Retryable : bool;
  oe_Rejected : bool;
  oe_service : string;
  oe_operation : string;
  oe_category : string;
  oe_requestID : string;
  oe_statusCode : Z }.

#[export] Instance eta_osError : Eta osError := λ r,
  mkOsError (oe_Reason r) (oe_Retryable r) (oe_Rejected r) (oe_service r) (oe_operation r)
    (oe_category r) (oe_requestID r) (oe_statusCode r).
#[export] Instance osError_eq_dec : EqDecision osError.
Proof. solve_decision. Defined.

(** The literal [&Error{Reason: ..., Retryable: ..., Rejected: ...}]. *)
Definition newError (reason : string) (retryable rejected : bool) : osError :=
  mkOsError reason retryable rejected "" "" "" "" 0.

Definition ErrNotFound : osError := newError "ResourceNotFound" false true.
Definition ErrOwnership : osError := newError "ResourceOwnershipMismatch" false true.
Definition ErrThrottle : osError := newError "RateLimited" true true.

Definition reasonHTTPSRequired : string := "HTTPSRequired".

(** errors.Is(e, target) for a sentinel: the method Is compares the reasons, and
    the sentinel itself has its reason. *)
Definition errorIs (e target : osError) : bool := oe_Reason e == oe_Reason target.

(** http.StatusText. *)
Definition StatusText (code : Z) : string :=
  match code with
  | 100 => "Continue" | 101 => "Switching Protocols" | 102 => "Processing" | 103 => "Early Hints"
  | 200 => "OK" | 201 => "Created" | 202 => "Accepted" | 203 => "Non-Authoritative Information"
  | 204 => "No Content" | 205 => "Reset Content" | 206 => "Partial Content" | 207 => "Multi-Status"
  | 208 => "Already Reported" | 226 => "IM Used"
  | 300 => "Multiple Choices" | 301 => "Moved Permanently" | 302 => "Found" | 303 => "See Other"
  | 304 => "Not Modified" | 305 => "Use Proxy" | 307 => "Temporary Redirect" | 308 => "Permanent Redirect"
  | 400 => "Bad Request" | 401 => "Unauthorized" | 402 => "Payment Required" | 403 => "Forbidden"
  | 404 => "Not Found" | 405 => "Method Not Allowed" | 406 => "Not Acceptable"
  | 407 => "Proxy Authentication Required" | 408 => "Request Timeout" | 409 => "Conflict" | 410 => "Gone"
  | 411 => "Length Required" | 412 => "Precondition Failed" | 413 => "Request Entity Too Large"
  | 414 => "Request URI Too Long" | 415 => "Unsupported Media Type"
  | 416 => "Requested Range Not Satisfiable" | 417 => "Expectation Failed" | 418 => "I'm a teapot"
  | 421 => "Misdirected Request" | 422 => "Unprocessable Entity" | 423 => "Locked"
  | 424 => "Failed Dependency" | 425 => "Too Early" | 426 => "Upgrade Required"
  | 428 => "Precondition Required" | 429 => "Too Many Requests"
  | 431 => "Request Header Fields Too Large" | 451 => "Unavailable For Legal Reasons"
  | 500 => "Internal Server Error" | 501 => "Not Implemented" | 502 => "Bad Gateway"
  | 503 => "Service Unavailable" | 504 => "Gateway Timeout" | 505 => "HTTP Version Not Supported"
  | 506 => "Variant Also Negotiates" | 507 => "Insufficient Storage" | 508 => "Loop Detected"
  | 510 => "Not Extended" | 511 => "Network Authentication Required"
  | _ => ""
  end.

(** The explanation that Error appends to three of the reasons. *)
Definition reasonAdvice (reason : string) : string :=
  if reason == reasonHTTPSRequired then
    "; HTTP is disabled; use HTTPS or explicitly set allow-insecure-http=true in the credentials Secret (plaintext credentials and tokens)"
  else if reason == "InvalidHTTPPolicy" then
    "; allow-insecure-http must be exactly true or false when present in the credentials Secret"
  else if reason == "InvalidAuthenticationURL" then
    "; auth-url must be an absolute HTTP(S) URL without user information, query, or fragment"
  else "".

(** The method Error. *)
Definition errorMessage (e : osError) : string :=
  let message := oe_Reason e +:+ reasonAdvice (oe_Reason e) in
  let message := if oe_service e != "" then message +:+ "; service=" +:+ oe_service e +:+ "; operation=" +:+ oe_operation e
                 else message in
  let message := if oe_category e != "" then message +:+ "; category=" +:+ oe_category e else message in
  let message := if oe_statusCode e != 0
                 then message +:+ "; HTTP " +:+ fmt_d (oe_statusCode e) +:+ " " +:+ StatusText (oe_statusCode e)
                 else message in
  if oe_requestID e != "" then message +:+ "; request_id=" +:+ oe_requestID e else message.

(** ** Causes *)

(** http.Header: the values of the canonical keys. *)
Abbreviation Header := (gmap string (list string)).
Definition headerGet (h : Header) (key : string) : string :=
  match h !! key with Some (v :: _) => v | _ => "" end.

Inductive cause :=
| CauseSafe (e : osError)                                        (* *Error *)
| CauseResponse (pointer : bool) (actual : Z) (headers : Header) (* gophercloud.ErrUnexpectedResponseCode *)
| CauseSchemeMismatch                                            (* http.ErrSchemeMismatch *)
| CauseCanceled                                                  (* context.Canceled *)
| CauseDeadlineExceeded                                          (* context.DeadlineExceeded *)
| CauseUnknownAuthority                                          (* x509.UnknownAuthorityError *)
| CauseHostname                                                  (* x509.HostnameError *)
| CauseCertificateInvalid                                        (* x509.CertificateInvalidError *)
| CauseVerification                                              (* *tls.CertificateVerificationError *)
| CauseRecordHeader                                              (* tls.RecordHeaderError *)
| CauseAlert                                                     (* tls.AlertError *)
| CauseDNS (timeout : bool)                                      (* *net.DNSError *)
| CauseNetwork (timeout deadline : bool)                         (* another net.Error, deadline: Is(context.DeadlineExceeded) *)
| CauseConnRefused                                               (* syscall.ECONNREFUSED *)
| CauseConnReset                                                 (* syscall.ECONNRESET *)
| CauseNetUnreach                                                (* syscall.ENETUNREACH *)
| CauseHostUnreach                                               (* syscall.EHOSTUNREACH *)
| CauseEndpointNotFound                                          (* gophercloud.ErrEndpointNotFound *)
| CauseServiceNotFound                                           (* gophercloud.ErrServiceNotFound *)
| CauseInvalidInput                                              (* gophercloud.ErrInvalidInput *)
| CauseMissingInput                                              (* gophercloud.ErrMissingInput *)
| CauseSyntax                                                    (* *json.SyntaxError *)
| CauseUnmarshalType                                             (* *json.UnmarshalTypeError *)
| CauseEOF                                                       (* io.EOF *)
| CauseUnexpectedEOF                                             (* io.ErrUnexpectedEOF *)
| CauseOther (text : string).

#[export] Instance cause_eq_dec : EqDecision cause.
Proof. solve_decision. Defined.

(** A non-nil Go error. *)
Definition goError : Type := list cause.

(** errors.As for a type: the first cause the test recognises. *)
Fixpoint errorsAs {A} (test : cause → option A) (err : goError) : option A :=
  match err with
  | [] => None
  | c :: rest => match test c with Some a => Some a | None => errorsAs test rest end
  end.

(** errors.As for a type without content that is read, and errors.Is. *)
Definition hasCause (err : goError) (c : cause) : bool := existsb (λ d, d == c) err.

Definition asSafe (c : cause) : option osError := match c with CauseSafe e => Some e | _ => None end.
Definition asResponse (pointer : bool) (c : cause) : option (Z * Header) :=
  match c with
  | CauseResponse p actual headers => if bool_decide (p = pointer) then Some (actual, headers) else None
  | _ => None
  end.
Definition isDeadline (c : cause) : bool :=
  match c with CauseDeadlineExceeded | CauseNetwork _ true => true | _ => false end.
Definition isDNS (c : cause) : bool := match c with CauseDNS _ => true | _ => false end.
(** The causes that implement net.Error, with their Timeout. *)
Definition asNetwork (c : cause) : option bool :=
  match c with
  | CauseDNS timeout | CauseNetwork timeout _ => Some timeout
  | CauseDeadlineExceeded => Some true
  | CauseConnRefused | CauseConnReset | CauseNetUnreach | CauseHostUnreach => Some false
  | _ => None
  end.

(** ** Classification *)
Definition clientErrorCategory (err : goError) : string :=
  if hasCause err CauseEndpointNotFound then "EndpointNotFound"
  else if hasCause err CauseServiceNotFound then "ServiceNotFound"
  else if hasCause err CauseInvalidInput || hasCause err CauseMissingInput then "InvalidSDKInput"
  else if hasCause err CauseSyntax || hasCause err CauseUnmarshalType then "InvalidAPIResponse"
  else if hasCause err CauseEOF || hasCause err CauseUnexpectedEOF then "UnexpectedEndOfResponse"
  else "UnclassifiedClientError".

Definition errorCategory (err : goError) : string :=
  if hasCause err CauseSchemeMismatch then "HTTPResponseToHTTPSClient"
  else if hasCause err CauseCanceled then "RequestCanceled"
  else if existsb isDeadline err then "RequestTimeout"
  else if hasCause err CauseUnknownAuthority then "TLSUnknownAuthority"
  else if hasCause err CauseHostname then "TLSHostnameMismatch"
  else if hasCause err CauseCertificateInvalid then "TLSCertificateInvalid"
  else if hasCause err CauseVerification || hasCause err CauseRecordHeader || hasCause err CauseAlert
  then "TLSHandshakeFailed"
  else if existsb isDNS err then "DNSResolutionFailed"
  else if bool_decide (errorsAs asNetwork err = Some true) then "RequestTimeout"
  else if hasCause err CauseConnRefused then "ConnectionRefused"
  else if hasCause err CauseConnReset then "ConnectionReset"
  else if hasCause err CauseNetUnreach || hasCause err CauseHostUnreach then "NetworkUnreachable"
  else clientErrorCategory err.

(** The pattern [^req-[0-9a-fA-F]{8}-...-[0-9a-fA-F]{12}$]: runs of hexadecimal digits separated by dashes. *)
Fixpoint hexRuns (runs : list nat) (s : string) : bool :=
  match runs with
  | [] => s == ""
  | n :: rest =>
      (String.length (takeString n s) =? n)%nat && forallString isHexDigit (takeString n s) &&
      match rest with
      | [] => dropString n s == ""
      | _ => HasPrefix (dropString n s) "-" && hexRuns rest (TrimPrefix (dropString n s) "-")
      end
  end.
Definition requestIDPattern (s : string) : bool :=
  HasPrefix s "req-" && hexRuns [8; 4; 4; 4; 12]%nat (TrimPrefix s "req-").

Definition requestIDHeaders : list string := ["X-Openstack-Request-Id"; "X-Compute-Request-Id"].

Definition responseRequestID (headers : Header) : string :=
  default "" (List.find requestIDPattern (map (headerGet headers) requestIDHeaders)).

(** The answers that are known not to have created anything. *)
Definition configurationRejected (actual : Z) : bool :=
  bool_decide (actual ∈ [400; 401; 403; 405; 413; 422]).

Definition responseError (actual : Z) (headers : Header) : osError :=
  let result :=
    if actual == 404 then ErrNotFound
    else if configurationRejected actual then newError "ConfigurationRejected" false true
    else if actual == 429 then ErrThrottle
    else newError "OpenStackRequestFailed" true false in
  let result := result <| oe_category := "HTTPResponse" |> in
  let result := if (100 <=? actual) && (actual <=? 599) then result <| oe_statusCode := actual |> else result in
  result <| oe_requestID := responseRequestID headers |>.

Definition SafeError (err : goError) : osError :=
  match errorsAs asSafe err with
  | Some safe => safe
  | None =>
      match errorsAs (asResponse false) err with
      | Some (actual, headers) => responseError actual headers
      | None =>
          match errorsAs (asResponse true) err with
          | Some (actual, headers) => responseError actual headers
          | None => (newError "OpenStackRequestFailed" true false) <| oe_category := errorCategory err |>
          end
      end
  end.

Definition safeErrorAt (err : goError) (service operation : string) : osError :=
  let safe := SafeError err in
  if oe_service safe == "" then safe <| oe_service := service |> <| oe_operation := operation |> else safe.

(** ** Kinds of resources *)

(** The Go type Kind is a string; these are its values. *)
Definition Kind : Type := string.
Definition Port : Kind := "port".
Definition OSVolume : Kind := "os-volume".
Definition DiscoveryVolume : Kind := "discovery-volume".
Definition Server : Kind := "server".
Definition Image : Kind := "image".
Definition OwnerKey : string := "agent_forge_owner".

Definition serviceKeystone : string := "keystone".
Definition serviceNova : string := "nova".
Definition serviceNeutron : string := "neutron".
Definition serviceCinder : string := "cinder".
Definition serviceGlance : string := "glance".

(** The labels of the switch in safeResourceError. *)
Definition resourceLabels (kind : Kind) : string * string :=
  if kind == Port then (serviceNeutron, "port")
  else if kind == OSVolume then (serviceCinder, "os-volume")
  else if kind == DiscoveryVolume then (serviceCinder, "discovery-volume")
  else if kind == Server then (serviceNova, "server")
  else if kind == Image then (serviceGlance, "image")
  else ("openstack", "resource").

Definition safeResourceError (err : goError) (kind : Kind) (action : string) : osError :=
  safeErrorAt err (resourceLabels kind).1 (action +:+ "-" +:+ (resourceLabels kind).2).

(** ** Properties *)

(** What may be published of a cause: its type, the HTTP status, and a request id
    that has the form of one. *)
Definition publicHeaders (headers : Header) : Header :=
  {["X-Openstack-Request-Id" := [responseRequestID headers]]}.
Definition publicCause (c : cause) : cause :=
  match c with
  | CauseResponse pointer actual headers => CauseResponse pointer actual (publicHeaders headers)
  | CauseOther _ => CauseOther ""
  | _ => c
  end.

Lemma responseRequestID_pattern headers :
  responseRequestID headers = "" ∨ requestIDPattern (responseRequestID headers) = true.
Proof.
  unfold responseRequestID. destruct (List.find _ _) as [s|] eqn:E; [|by left].
  right. by apply find_some in E as [_ E].
Qed.

Lemma publicHeaders_id headers : responseRequestID (publicHeaders headers) = responseRequestID headers.
Proof.
  unfold responseRequestID at 1, publicHeaders, requestIDHeaders, headerGet. cbn [map List.find].
  rewrite lookup_singleton_eq, lookup_singleton_ne by done.
  destruct (responseRequestID_pattern headers) as [->|Hp]; [done|]. by rewrite Hp.
Qed.

Lemma responseError_public actual headers :
  responseError actual (publicHeaders headers) = responseError actual headers.
Proof. unfold responseError. by rewrite publicHeaders_id. Qed.

Lemma existsb_public (f : cause → bool) err :
  (∀ c, f (publicCause c) = f c) → existsb f (map publicCause err) = existsb f err.
Proof. intros Hf. induction err as [|c err IH]; simpl; [done|]. by rewrite Hf, IH. Qed.

Lemma errorsAs_public {A} (f : cause → option A) (g : A → A) err :
  (∀ c, f (publicCause c) = g <$> f c) → errorsAs f (map publicCause err) = g <$> errorsAs f err.
Proof.
  intros Hf. induction err as [|c err IH]; simpl; [done|]. rewrite Hf, IH. by destruct (f c).
Qed.

(** A cause without content is recognised in the published chain. *)
Definition plainCause (c : cause) : bool :=
  match c with CauseResponse _ _ _ | CauseOther _ => false | _ => true end.

Lemma hasCause_public err c : plainCause c = true → hasCause (map publicCause err) c = hasCause err c.
Proof.
  intros Hc. apply existsb_public. intros d. apply bool_decide_ext.
  destruct d; simpl; try done; destruct c; try done; split; intros [=].
Qed.

Lemma errorCategory_public err : errorCategory (map publicCause err) = errorCategory err.
Proof.
  unfold errorCategory, clientErrorCategory. rewrite !hasCause_public by done.
  rewrite (existsb_public isDeadline), (existsb_public isDNS) by (by intros []).
  rewrite (errorsAs_public asNetwork id) by (by intros []). by destruct (errorsAs asNetwork err).
Qed.

Lemma errorsAs_in {A} (f : cause → option A) err a : errorsAs f err = Some a → ∃ c, In c err ∧ f c = Some a.
Proof.
  induction err as [|c err IH]; simpl; [done|]. destruct (f c) eqn:E; [intros [= ->]; eauto|].
  intros (d & ? & ?)%IH. eauto.
Qed.

Lemma asResponse_in pointer err actual headers :
  errorsAs (asResponse pointer) err = Some (actual, headers) → In (CauseResponse pointer actual headers) err.
Proof.
  intros (c & Hin & Hc)%errorsAs_in. destruct c; try done. simpl in Hc. gobool. by case_bool_decide; simplify_eq.
Qed.

Lemma responseError_rejected actual headers :
  oe_Rejected (responseError actual headers) = true → actual ∈ [400; 401; 403; 404; 405; 413; 422; 429].
Proof.
  unfold responseError. destruct (actual == 404) eqn:E1; [gobool; subst; set_solver|].
  destruct (configurationRejected actual) eqn:E2.
  { unfold configurationRejected in E2. gobool. set_solver. }
  destruct (actual == 429) eqn:E3; [gobool; subst; set_solver|]. by destruct (_ && _).
Qed.

Lemma responseError_requestID actual headers :
  oe_requestID (responseError actual headers) = responseRequestID headers.
Proof. done. Qed.

(** C38: what the client publishes of an error of the SDK or of the network is a
    function of the types of its causes, of the HTTP status and of a well-formed
    request id: no other text of it survives; and an error counts as a definite
    rejection of the request only for an HTTP status that says so. *)
Theorem SafeError_sanitised (err : goError) :
  SafeError (map publicCause err) = SafeError err ∧
  (errorsAs asSafe err = None →
     (oe_requestID (SafeError err) = "" ∨ requestIDPattern (oe_requestID (SafeError err)) = true) ∧
     (oe_Rejected (SafeError err) = true → ∃ pointer actual headers,
        In (CauseResponse pointer actual headers) err ∧ actual ∈ [400; 401; 403; 404; 405; 413; 422; 429])).
Proof.
  split.
  - unfold SafeError. rewrite (errorsAs_public asSafe id) by (by intros []).
    rewrite !(errorsAs_public (asResponse _) (λ r, (r.1, publicHeaders r.2)))
      by (intros []; simpl; try done; by case_bool_decide).
    rewrite errorCategory_public. destruct (errorsAs asSafe err); [done|]. simpl.
    destruct (errorsAs (asResponse false) err) as [[]|]; simpl; [apply responseError_public|].
    destruct (errorsAs (asResponse true) err) as [[]|]; simpl; [apply responseError_public|done].
  - unfold SafeError. intros ->.
    destruct (errorsAs (asResponse false) err) as [[]|] eqn:E1;
      [|destruct (errorsAs (asResponse true) err) as [[]|] eqn:E2]; [..|split; [by left|done]];
      rewrite responseError_requestID; (split; [apply responseRequestID_pattern|]);
      intros ?%responseError_rejected; eauto 6 using asResponse_in.
Qed.

Lemma safeErrorAt_decision err service operation :
  oe_Reason (safeErrorAt err service operation) = oe_Reason (SafeError err) ∧
  oe_Retryable (safeErrorAt err service operation) = oe_Retryable (SafeError err) ∧
  oe_Rejected (safeErrorAt err service operation) = oe_Rejected (SafeError err).
Proof. unfold safeErrorAt. by destruct (_ == _). Qed.
