(* ===== verification/Api.v ===== *)
(** * API types

    The structs of api/v1alpha1 and the small part of the Kubernetes object
    metadata the controllers read.  A Go pointer is an [option], a Go map a
    [gmap string _], a [metav1.Time] a [Time] (zero when unset).  Fields keep
    their Go names behind a prefix naming the struct. *)
From S2P Require Import Prelude.

(** ** Kubernetes metadata *)
Record ObjectReference := mkObjectReference {
  or_APIVersion : string;
  or_Kind : string;
  or_Namespace : string;
  or_Name : string;
  or_UID : string }.

Record OwnerReference := mkOwnerReference {
  ow_APIVersion : string;
  ow_Kind : string;
  ow_Name : string;
  ow_UID : string }.

Record ObjectMeta := mkObjectMeta {
  om_Name : string;
  om_Namespace : string;
  om_UID : string;
  om_ResourceVersion : string;
  om_Generation : Z;
  om_DeletionTimestamp : option Time;
  om_Labels : gmap string string;
  om_Annotations : gmap string string;
  om_OwnerReferences : list OwnerReference;
  om_Finalizers : list string }.

Record Condition := mkCondition {
  cd_Type : string;
  cd_Status : string;
  cd_ObservedGeneration : Z;
  cd_LastTransitionTime : Time;
  cd_Reason : string;
  cd_Message : string }.

Definition ConditionTrue : string := "True".
Definition ConditionFalse : string := "False".
Definition ConditionUnknown : string := "Unknown".

(** ** vsphereagentpool_types.go *)
Record LocalObjectReference := mkLocalObjectReference { lor_Name : string }.

Record SecretReference := mkSecretReference {
  sr_Name : string;
  sr_Namespace : string }.

Record VspherePlacementSpec := mkVspherePlacementSpec {
  vp_CredentialsSecretRef : SecretReference;
  vp_Datacenter : string;
  vp_DatastoreCluster : string;
  vp_ISODatastore : string;
  vp_ResourcePool : string;
  vp_Folder : string;
  vp_Network : string;
  vp_VMTags : list string;
  vp_GuestID : string;
  vp_SCSIType : string;
  vp_Firmware : string;
  vp_NetworkAdapterType : string;
  vp_DiskEagerlyScrub : bool }.

Record VMTemplateSpec := mkVMTemplateSpec {
  vt_NamePrefix : string;
  vt_NumCPUs : Z;
  vt_MemoryMiB : Z;
  vt_DiskGiB : Z }.

Record AgentBindingSpec := mkAgentBindingSpec {
  ab_Role : string;
  ab_Labels : gmap string string;
  ab_Approve : option bool }.

Record ISOCacheSpec := mkISOCacheSpec {
  ic_EjectAfterInstall : bool;
  ic_CheckInterval : Duration;
  ic_RetainVersions : Z;
  ic_PathPrefix : string }.

(** The type CleanupPolicy is a string with two named values. *)
Definition CleanupPolicyDelete : string := "Delete".
Definition CleanupPolicyRetain : string := "Retain".

Record VsphereAgentPoolSpec := mkVsphereAgentPoolSpec {
  ps_HostedClusterRef : LocalObjectReference;
  ps_NodePoolRef : LocalObjectReference;
  ps_InfraEnvRef : LocalObjectReference;
  ps_ControlPlaneNamespace : string;
  ps_VSphere : VspherePlacementSpec;
  ps_Template : VMTemplateSpec;
  ps_Agent : AgentBindingSpec;
  ps_ISO : ISOCacheSpec;
  ps_CleanupPolicy : string }.

Record OwnedVMStatus := mkOwnedVMStatus {
  vm_Name : string;
  vm_OwnerUID : string;
  vm_Source : string;
  vm_BIOSUUID : string;
  vm_MACAddress : string;
  vm_AgentRef : option ObjectReference;
  vm_MachineRef : option ObjectReference;
  vm_Phase : string;
  vm_Reason : string;
  vm_LastTransitionTime : Time }.

Record PlannedActionStatus := mkPlannedActionStatus {
  pa_Type : string;
  pa_Name : string;
  pa_Reason : string }.

Record ISOCacheHistoryEntry := mkISOCacheHistoryEntry {
  ih_Path : string;
  ih_SHA256 : string;
  ih_SizeBytes : Z;
  ih_UploadedAt : Time }.

Record ISOCacheStatus := mkISOCacheStatus {
  is_URL : string;
  is_URLHash : string;
  is_Path : string;
  is_SHA256 : string;
  is_SizeBytes : Z;
  is_LastModified : string;
  is_CheckedAt : Time;
  is_UploadedAt : Time;
  is_ForceRefreshToken : string;
  is_History : list ISOCacheHistoryEntry }.

Record VsphereAgentPoolStatus := mkVsphereAgentPoolStatus {
  pt_ObservedGeneration : Z;
  pt_DesiredReplicas : Z;
  pt_AgentMachines : Z;
  pt_WaitingAgentMachines : Z;
  pt_UnreadyAgentMachines : Z;
  pt_AgentMachinesWithoutAgent : Z;
  pt_MatchingAgents : Z;
  pt_BoundAgents : Z;
  pt_AvailableAgents : Z;
  pt_OwnedVMs : list OwnedVMStatus;
  pt_PlannedActions : list PlannedActionStatus;
  pt_ISO : ISOCacheStatus;
  pt_Conditions : list Condition }.

Record VsphereAgentPool := mkVsphereAgentPool {
  pl_Meta : ObjectMeta;
  pl_Spec : VsphereAgentPoolSpec;
  pl_Status : VsphereAgentPoolStatus }.

(** ** vsphereagent_types.go *)
Record VsphereAgentSpec := mkVsphereAgentSpec { vs_PoolRef : LocalObjectReference }.

Record ISOEjectionStatus := mkISOEjectionStatus {
  ej_VMName : string;
  ej_BIOSUUID : string;
  ej_OwnerUID : string;
  ej_Datacenter : string;
  ej_DeviceKey : Z;
  ej_ISOPath : string;
  ej_StartedAt : Time;
  ej_DisconnectStarted : bool;
  ej_QuestionID : string }.

Record VsphereAgentStatus := mkVsphereAgentStatus {
  vst_ObservedGeneration : Z;
  vst_VM : OwnedVMStatus;
  vst_ISOEjection : option ISOEjectionStatus;
  vst_Conditions : list Condition }.

Record VsphereAgent := mkVsphereAgent {
  va_Meta : ObjectMeta;
  va_Spec : VsphereAgentSpec;
  va_Status : VsphereAgentStatus }.

(** ** openstack_types.go *)
Record OpenStackPlacementSpec := mkOpenStackPlacementSpec {
  op_CredentialsSecretRef : LocalObjectReference;
  op_Region : string;
  op_NetworkID : string;
  op_NetworkName : string;
  op_FlavorID : string;
  op_FlavorName : string;
  op_SubnetID : string;
  op_DHCPEnabled : option bool;
  op_PortSecurityEnabled : option bool;
  op_SecurityGroupIDs : list string;
  op_PortTags : list string;
  op_AvailabilityZone : string;
  op_APITimeoutSeconds : Z }.

Record OpenStackTemplateSpec := mkOpenStackTemplateSpec {
  ot_DiskGiB : Z;
  ot_VolumeType : string;
  ot_VolumeAvailabilityZone : string;
  ot_VolumeMetadata : gmap string string;
  ot_DiscoveryVolumeMinGiB : Z;
  ot_DiscoveryVolumeType : string;
  ot_OSDiskBus : string;
  ot_DiscoveryDiskBus : string;
  ot_InstallationDisk : string;
  ot_OSVolumePolicy : string }.

Record OpenStackAgentPoolSpec := mkOpenStackAgentPoolSpec {
  os_HostedClusterRef : LocalObjectReference;
  os_NodePoolRef : LocalObjectReference;
  os_InfraEnvRef : LocalObjectReference;
  os_ControlPlaneNamespace : string;
  os_OpenStack : OpenStackPlacementSpec;
  os_Template : OpenStackTemplateSpec;
  os_Agent : AgentBindingSpec;
  os_CleanupPolicy : string;
  os_DiscoveryTimeoutSeconds : Z }.

Record OpenStackAgentPoolStatus := mkOpenStackAgentPoolStatus {
  ops_ObservedGeneration : Z;
  ops_DesiredReplicas : Z;
  ops_ReadyReplicas : Z;
  ops_Conditions : list Condition }.

Record OpenStackAgentPool := mkOpenStackAgentPool {
  osp_Meta : ObjectMeta;
  osp_Spec : OpenStackAgentPoolSpec;
  osp_Status : OpenStackAgentPoolStatus }.

Record OpenStackAgentSpec := mkOpenStackAgentSpec {
  oas_PoolRef : LocalObjectReference;
  oas_PoolUID : string;
  oas_AgentMachineRef : ObjectReference;
  oas_MachineRef : option ObjectReference;
  oas_Configuration : OpenStackAgentPoolSpec;
  oas_FixedIPAddress : string }.

Record OpenStackAgentStatus := mkOpenStackAgentStatus {
  st_ObservedGeneration : Z;
  st_Phase : string;
  st_ScopeHash : string;
  st_PendingCreate : string;
  st_PortID : string;
  st_MACAddress : string;
  st_OSVolumeID : string;
  st_DiscoveryVolumeID : string;
  st_ImageID : string;
  st_ImageCacheName : string;
  st_ISOSHA256 : string;
  st_ISOSizeBytes : Z;
  st_InfraEnvUID : string;
  st_ServerID : string;
  st_AgentRef : option ObjectReference;
  st_InstanceCreatedAt : option Time;
  st_Conditions : list Condition }.

Record OpenStackAgent := mkOpenStackAgent {
  oa_Meta : ObjectMeta;
  oa_Spec : OpenStackAgentSpec;
  oa_Status : OpenStackAgentStatus }.

(** ** Functional update *)
#[export] Instance eta_ObjectReference : Eta ObjectReference := λ r,
  mkObjectReference (or_APIVersion r) (or_Kind r) (or_Namespace r) (or_Name r) (or_UID r).
#[export] Instance eta_OwnerReference : Eta OwnerReference := λ r,
  mkOwnerReference (ow_APIVersion r) (ow_Kind r) (ow_Name r) (ow_UID r).
#[export] Instance eta_ObjectMeta : Eta ObjectMeta := λ r,
  mkObjectMeta (om_Name r) (om_Namespace r) (om_UID r) (om_ResourceVersion r) (om_Generation r)
    (om_DeletionTimestamp r) (om_Labels r) (om_Annotations r) (om_OwnerReferences r)
    (om_Finalizers r).
#[export] Instance eta_Condition : Eta Condition := λ r,
  mkCondition (cd_Type r) (cd_Status r) (cd_ObservedGeneration r) (cd_LastTransitionTime r)
    (cd_Reason r) (cd_Message r).
#[export] Instance eta_LocalObjectReference : Eta LocalObjectReference := λ r,
  mkLocalObjectReference (lor_Name r).
#[export] Instance eta_SecretReference : Eta SecretReference := λ r,
  mkSecretReference (sr_Name r) (sr_Namespace r).
#[export] Instance eta_VspherePlacementSpec : Eta VspherePlacementSpec := λ r,
  mkVspherePlacementSpec (vp_CredentialsSecretRef r) (vp_Datacenter r) (vp_DatastoreCluster r)
    (vp_ISODatastore r) (vp_ResourcePool r) (vp_Folder r) (vp_Network r) (vp_VMTags r)
    (vp_GuestID r) (vp_SCSIType r) (vp_Firmware r) (vp_NetworkAdapterType r)
    (vp_DiskEagerlyScrub r).
#[export] Instance eta_VMTemplateSpec : Eta VMTemplateSpec := λ r,
  mkVMTemplateSpec (vt_NamePrefix r) (vt_NumCPUs r) (vt_MemoryMiB r) (vt_DiskGiB r).
#[export] Instance eta_AgentBindingSpec : Eta AgentBindingSpec := λ r,
  mkAgentBindingSpec (ab_Role r) (ab_Labels r) (ab_Approve r).
#[export] Instance eta_ISOCacheSpec : Eta ISOCacheSpec := λ r,
  mkISOCacheSpec (ic_EjectAfterInstall r) (ic_CheckInterval r) (ic_RetainVersions r)
    (ic_PathPrefix r).
#[export] Instance eta_VsphereAgentPoolSpec : Eta VsphereAgentPoolSpec := λ r,
  mkVsphereAgentPoolSpec (ps_HostedClusterRef r) (ps_NodePoolRef r) (ps_InfraEnvRef r)
    (ps_ControlPlaneNamespace r) (ps_VSphere r) (ps_Template r) (ps_Agent r) (ps_ISO r)
    (ps_CleanupPolicy r).
#[export] Instance eta_OwnedVMStatus : Eta OwnedVMStatus := λ r,
  mkOwnedVMStatus (vm_Name r) (vm_OwnerUID r) (vm_Source r) (vm_BIOSUUID r) (vm_MACAddress r)
    (vm_AgentRef r) (vm_MachineRef r) (vm_Phase r) (vm_Reason r) (vm_LastTransitionTime r).
#[export] Instance eta_PlannedActionStatus : Eta PlannedActionStatus := λ r,
  mkPlannedActionStatus (pa_Type r) (pa_Name r) (pa_Reason r).
#[export] Instance eta_ISOCacheHistoryEntry : Eta ISOCacheHistoryEntry := λ r,
  mkISOCacheHistoryEntry (ih_Path r) (ih_SHA256 r) (ih_SizeBytes r) (ih_UploadedAt r).
#[export] Instance eta_ISOCacheStatus : Eta ISOCacheStatus := λ r,
  mkISOCacheStatus (is_URL r) (is_URLHash r) (is_Path r) (is_SHA256 r) (is_SizeBytes r)
    (is_LastModified r) (is_CheckedAt r) (is_UploadedAt r) (is_ForceRefreshToken r)
    (is_History r).
#[export] Instance eta_VsphereAgentPoolStatus : Eta VsphereAgentPoolStatus := λ r,
  mkVsphereAgentPoolStatus (pt_ObservedGeneration r) (pt_DesiredReplicas r) (pt_AgentMachines r)
    (pt_WaitingAgentMachines r) (pt_UnreadyAgentMachines r) (pt_AgentMachinesWithoutAgent r)
    (pt_MatchingAgents r) (pt_BoundAgents r) (pt_AvailableAgents r) (pt_OwnedVMs r)
    (pt_PlannedActions r) (pt_ISO r) (pt_Conditions r).
#[export] Instance eta_VsphereAgentPool : Eta VsphereAgentPool := λ r,
  mkVsphereAgentPool (pl_Meta r) (pl_Spec r) (pl_Status r).
#[export] Instance eta_VsphereAgentSpec : Eta VsphereAgentSpec := λ r,
  mkVsphereAgentSpec (vs_PoolRef r).
#[export] Instance eta_ISOEjectionStatus : Eta ISOEjectionStatus := λ r,
  mkISOEjectionStatus (ej_VMName r) (ej_BIOSUUID r) (ej_OwnerUID r) (ej_Datacenter r)
    (ej_DeviceKey r) (ej_ISOPath r) (ej_StartedAt r) (ej_DisconnectStarted r) (ej_QuestionID r).
#[export] Instance eta_VsphereAgentStatus : Eta VsphereAgentStatus := λ r,
  mkVsphereAgentStatus (vst_ObservedGeneration r) (vst_VM r) (vst_ISOEjection r)
    (vst_Conditions r).
#[export] Instance eta_VsphereAgent : Eta VsphereAgent := λ r,
  mkVsphereAgent (va_Meta r) (va_Spec r) (va_Status r).
#[export] Instance eta_OpenStackPlacementSpec : Eta OpenStackPlacementSpec := λ r,
  mkOpenStackPlacementSpec (op_CredentialsSecretRef r) (op_Region r) (op_NetworkID r)
    (op_NetworkName r) (op_FlavorID r) (op_FlavorName r) (op_SubnetID r) (op_DHCPEnabled r)
    (op_PortSecurityEnabled r) (op_SecurityGroupIDs r) (op_PortTags r) (op_AvailabilityZone r)
    (op_APITimeoutSeconds r).
#[export] Instance eta_OpenStackTemplateSpec : Eta OpenStackTemplateSpec := λ r,
  mkOpenStackTemplateSpec (ot_DiskGiB r) (ot_VolumeType r) (ot_VolumeAvailabilityZone r)
    (ot_VolumeMetadata r) (ot_DiscoveryVolumeMinGiB r) (ot_DiscoveryVolumeType r)
    (ot_OSDiskBus r) (ot_DiscoveryDiskBus r) (ot_InstallationDisk r) (ot_OSVolumePolicy r).
#[export] Instance eta_OpenStackAgentPoolSpec : Eta OpenStackAgentPoolSpec := λ r,
  mkOpenStackAgentPoolSpec (os_HostedClusterRef r) (os_NodePoolRef r) (os_InfraEnvRef r)
    (os_ControlPlaneNamespace r) (os_OpenStack r) (os_Template r) (os_Agent r)
    (os_CleanupPolicy r) (os_DiscoveryTimeoutSeconds r).
#[export] Instance eta_OpenStackAgentPoolStatus : Eta OpenStackAgentPoolStatus := λ r,
  mkOpenStackAgentPoolStatus (ops_ObservedGeneration r) (ops_DesiredReplicas r)
    (ops_ReadyReplicas r) (ops_Conditions r).
#[export] Instance eta_OpenStackAgentPool : Eta OpenStackAgentPool := λ r,
  mkOpenStackAgentPool (osp_Meta r) (osp_Spec r) (osp_Status r).
#[export] Instance eta_OpenStackAgentSpec : Eta OpenStackAgentSpec := λ r,
  mkOpenStackAgentSpec (oas_PoolRef r) (oas_PoolUID r) (oas_AgentMachineRef r)
    (oas_MachineRef r) (oas_Configuration r) (oas_FixedIPAddress r).
#[export] Instance eta_OpenStackAgentStatus : Eta OpenStackAgentStatus := λ r,
  mkOpenStackAgentStatus (st_ObservedGeneration r) (st_Phase r) (st_ScopeHash r)
    (st_PendingCreate r) (st_PortID r) (st_MACAddress r) (st_OSVolumeID r)
    (st_DiscoveryVolumeID r) (st_ImageID r) (st_ImageCacheName r) (st_ISOSHA256 r)
    (st_ISOSizeBytes r) (st_InfraEnvUID r) (st_ServerID r) (st_AgentRef r)
    (st_InstanceCreatedAt r) (st_Conditions r).
#[export] Instance eta_OpenStackAgent : Eta OpenStackAgent := λ r,
  mkOpenStackAgent (oa_Meta r) (oa_Spec r) (oa_Status r).

(** ** Decidable equality (the tests [==] and [reflect.DeepEqual]) *)
#[export] Instance ObjectReference_eq_dec : EqDecision ObjectReference.
Proof. solve_decision. Defined.
#[export] Instance OwnerReference_eq_dec : EqDecision OwnerReference.
Proof. solve_decision. Defined.
#[export] Instance ObjectMeta_eq_dec : EqDecision ObjectMeta.
Proof. solve_decision. Defined.
#[export] Instance Condition_eq_dec : EqDecision Condition.
Proof. solve_decision. Defined.
#[export] Instance LocalObjectReference_eq_dec : EqDecision LocalObjectReference.
Proof. solve_decision. Defined.
#[export] Instance SecretReference_eq_dec : EqDecision SecretReference.
Proof. solve_decision. Defined.
#[export] Instance VspherePlacementSpec_eq_dec : EqDecision VspherePlacementSpec.
Proof. solve_decision. Defined.
#[export] Instance VMTemplateSpec_eq_dec : EqDecision VMTemplateSpec.
Proof. solve_decision. Defined.
#[export] Instance AgentBindingSpec_eq_dec : EqDecision AgentBindingSpec.
Proof. solve_decision. Defined.
#[export] Instance ISOCacheSpec_eq_dec : EqDecision ISOCacheSpec.
Proof. solve_decision. Defined.
#[export] Instance VsphereAgentPoolSpec_eq_dec : EqDecision VsphereAgentPoolSpec.
Proof. solve_decision. Defined.
#[export] Instance OwnedVMStatus_eq_dec : EqDecision OwnedVMStatus.
Proof. solve_decision. Defined.
#[export] Instance PlannedActionStatus_eq_dec : EqDecision PlannedActionStatus.
Proof. solve_decision. Defined.
#[export] Instance ISOCacheHistoryEntry_eq_dec : EqDecision ISOCacheHistoryEntry.
Proof. solve_decision. Defined.
#[export] Instance ISOCacheStatus_eq_dec : EqDecision ISOCacheStatus.
Proof. solve_decision. Defined.
#[export] Instance VsphereAgentPoolStatus_eq_dec : EqDecision VsphereAgentPoolStatus.
Proof. solve_decision. Defined.
#[export] Instance VsphereAgentPool_eq_dec : EqDecision VsphereAgentPool.
Proof. solve_decision. Defined.
#[export] Instance VsphereAgentSpec_eq_dec : EqDecision VsphereAgentSpec.
Proof. solve_decision. Defined.
#[export] Instance ISOEjectionStatus_eq_dec : EqDecision ISOEjectionStatus.
Proof. solve_decision. Defined.
#[export] Instance VsphereAgentStatus_eq_dec : EqDecision VsphereAgentStatus.
Proof. solve_decision. Defined.
#[export] Instance VsphereAgent_eq_dec : EqDecision VsphereAgent.
Proof. solve_decision. Defined.
#[export] Instance OpenStackPlacementSpec_eq_dec : EqDecision OpenStackPlacementSpec.
Proof. solve_decision. Defined.
#[export] Instance OpenStackTemplateSpec_eq_dec : EqDecision OpenStackTemplateSpec.
Proof. solve_decision. Defined.
#[export] Instance OpenStackAgentPoolSpec_eq_dec : EqDecision OpenStackAgentPoolSpec.
Proof. solve_decision. Defined.
#[export] Instance OpenStackAgentPoolStatus_eq_dec : EqDecision OpenStackAgentPoolStatus.
Proof. solve_decision. Defined.
#[export] Instance OpenStackAgentPool_eq_dec : EqDecision OpenStackAgentPool.
Proof. solve_decision. Defined.
#[export] Instance OpenStackAgentSpec_eq_dec : EqDecision OpenStackAgentSpec.
Proof. solve_decision. Defined.
#[export] Instance OpenStackAgentStatus_eq_dec : EqDecision OpenStackAgentStatus.
Proof. solve_decision. Defined.
#[export] Instance OpenStackAgent_eq_dec : EqDecision OpenStackAgent.
Proof. solve_decision. Defined.

(** ** Zero values *)
Definition zeroMeta : ObjectMeta := mkObjectMeta "" "" "" "" 0 None ∅ ∅ [] [].
Definition zeroVM : OwnedVMStatus := mkOwnedVMStatus "" "" "" "" "" None None "" "" 0.
Definition zeroPoolSpec : VsphereAgentPoolSpec :=
  mkVsphereAgentPoolSpec (mkLocalObjectReference "") (mkLocalObjectReference "") (mkLocalObjectReference "") ""
    (mkVspherePlacementSpec (mkSecretReference "" "") "" "" "" "" "" "" [] "" "" "" "" false)
    (mkVMTemplateSpec "" 0 0 0) (mkAgentBindingSpec "" ∅ None) (mkISOCacheSpec false 0 0 "") "".
Definition zeroISO : ISOCacheStatus := mkISOCacheStatus "" "" "" "" 0 "" 0 0 "" [].
Definition zeroPoolStatus : VsphereAgentPoolStatus :=
  mkVsphereAgentPoolStatus 0 0 0 0 0 0 0 0 0 [] [] zeroISO [].
Definition zeroPool : VsphereAgentPool := mkVsphereAgentPool zeroMeta zeroPoolSpec zeroPoolStatus.
Definition zeroVsphereAgent : VsphereAgent :=
  mkVsphereAgent zeroMeta (mkVsphereAgentSpec (mkLocalObjectReference "")) (mkVsphereAgentStatus 0 zeroVM None []).
Definition zeroOpenStackPoolSpec : OpenStackAgentPoolSpec :=
  mkOpenStackAgentPoolSpec (mkLocalObjectReference "") (mkLocalObjectReference "") (mkLocalObjectReference "") ""
    (mkOpenStackPlacementSpec (mkLocalObjectReference "") "" "" "" "" "" "" None None [] [] "" 0)
    (mkOpenStackTemplateSpec 0 "" "" ∅ 0 "" "" "" "" "") (mkAgentBindingSpec "" ∅ None) "" 0.
Definition zeroOpenStackPool : OpenStackAgentPool :=
  mkOpenStackAgentPool zeroMeta zeroOpenStackPoolSpec (mkOpenStackAgentPoolStatus 0 0 0 []).
