(* ===== verification/Identity.v ===== *)
(** * Agent and VM identity

    Assisted Installer Agents and the VMs the operator owns are correlated by
    hardware identity (BIOS UUID, MAC address), by host name and by the recorded
    Agent reference.  This file models the identity helpers of
    internal/controller/vsphereagentpool_controller.go and planner.go: the
    normalisers, the pairwise tests, the two lookup tables, the merge of the
    recorded VM status into the observed one and the assignment of host names to
    Agents.  The theorems say that an ambiguous identity never selects an Agent,
    that a selected Agent really carries the identity, and that host names are
    handed out injectively. *)
From S2P Require Import Prelude Api.

(** ** Constants of planner.go and vsphere_provider.go *)
Definition phaseAvailable : string := "Available".
Definition phaseBound : string := "Bound".
Definition phaseOrphaned : string := "Orphaned".
Definition phaseProvisioning : string := "Provisioning".
Definition phaseReleased : string := "Released".

Definition reasonAgentReleased : string := "AgentReleased".
Definition reasonAgentNotDiscovered : string := "AgentNotDiscovered".
Definition reasonMachineDeleted : string := "MachineDeleted".
Definition reasonMachineDeleting : string := "MachineDeleting".
Definition reasonVMCreateRequested : string := "CreateRequested".

Definition vmSourceVsphereAgent : string := "VsphereAgent".
Definition vmSourceDiscoveredAgent : string := "DiscoveredAgent".

(** ** planner.go: AgentInfo *)
Record AgentInfo := mkAgentInfo {
  ai_Name : string;
  ai_Bound : bool;
  ai_Deleting : bool;
  ai_MachineName : string;
  ai_Approved : bool;
  ai_SpecRole : string;
  ai_RoleLabel : string;
  ai_PoolLabel : string;
  ai_SelectionLabel : string;
  ai_Hostname : string;
  ai_InventoryHostname : string;
  ai_MAC : string;
  ai_BIOSUUID : string }.

#[export] Instance eta_AgentInfo : Eta AgentInfo := λ r,
  mkAgentInfo (ai_Name r) (ai_Bound r) (ai_Deleting r) (ai_MachineName r) (ai_Approved r)
    (ai_SpecRole r) (ai_RoleLabel r) (ai_PoolLabel r) (ai_SelectionLabel r) (ai_Hostname r)
    (ai_InventoryHostname r) (ai_MAC r) (ai_BIOSUUID r).
#[export] Instance AgentInfo_eq_dec : EqDecision AgentInfo.
Proof. solve_decision. Defined.

(** ** Normal forms *)
Definition normalizeMAC (value : string) : string :=
  ReplaceAll (ToLower (TrimSpace value)) ":"%char "-"%char.

(** strings.NewReplacer(" ", "", "-", ""). *)
Definition isSeparator (c : ascii) : bool := Ascii.eqb c " "%char || Ascii.eqb c "-"%char.
Definition stripSeparators (s : string) : string := filterString (λ c, negb (isSeparator c)) s.

Definition dashedUUID (value : string) : string :=
  sliceString value 0 8 +:+ "-" +:+ sliceString value 8 12 +:+ "-" +:+ sliceString value 12 16 +:+ "-" +:+
  sliceString value 16 20 +:+ "-" +:+ sliceString value 20 32.

Definition normalizeVMwareSerialUUID (value : string) : string :=
  let value := TrimSpace (TrimPrefix value "VMware-") in
  let value := stripSeparators value in
  if negb (String.length value =? 32)%nat then ""
  else if negb (hexDecodes value) then ""
  else ToLower (dashedUUID value).

(** ** Pairwise tests *)
Definition objectReferenceName (ref : option ObjectReference) : string :=
  match ref with None => "" | Some r => or_Name r end.

Definition ownedVMAgentName (vm : OwnedVMStatus) : string :=
  match vm_AgentRef vm with None => "" | Some r => or_Name r end.

Definition agentObservedHostname (agent : AgentInfo) : string :=
  if ai_Hostname agent != "" then ai_Hostname agent else ai_InventoryHostname agent.

Definition vmMatchesAgentIdentity (vm : OwnedVMStatus) (agent : AgentInfo) : bool :=
  if (vm_BIOSUUID vm != "") && (ai_BIOSUUID agent != "") && (vm_BIOSUUID vm == ai_BIOSUUID agent)
  then true
  else (vm_MACAddress vm != "") && (ai_MAC agent != "") && (vm_MACAddress vm == ai_MAC agent).

(** The variable [checked] of the source is the value returned when no identity
    agrees: whether some identity was known on both sides. *)
Definition vmIdentityConflictsAgent (vm : OwnedVMStatus) (agent : AgentInfo) : bool :=
  let bios := (vm_BIOSUUID vm != "") && (ai_BIOSUUID agent != "") in
  if bios && (vm_BIOSUUID vm == ai_BIOSUUID agent) then false
  else
    let mac := (vm_MACAddress vm != "") && (ai_MAC agent != "") in
    if mac && (vm_MACAddress vm == ai_MAC agent) then false
    else bios || mac.

Definition vmMatchesAgentRef (vm : OwnedVMStatus) (agent : AgentInfo) : bool :=
  match vm_AgentRef vm with
  | None => false
  | Some ref => (or_Name ref == ai_Name agent) && negb (vmIdentityConflictsAgent vm agent)
  end.

(** One iteration of the loops of agentAssociatedWithOwnedVM and
    agentAssociatedWithActiveOwnedVM once the VM has not been skipped. *)
Definition vmAssociated (vm : OwnedVMStatus) (agent : AgentInfo) : bool :=
  let hostname := agentObservedHostname agent in
  if vmMatchesAgentIdentity vm agent || vmMatchesAgentRef vm agent then true
  else (hostname != "") && (vm_Name vm == hostname) && negb (vmIdentityConflictsAgent vm agent).

Definition agentAssociatedWithOwnedVM (vms : list OwnedVMStatus) (agent : AgentInfo) : bool :=
  existsb (λ vm, if vm_Name vm == "" then false else vmAssociated vm agent) vms.

Definition agentAssociatedWithActiveOwnedVM (vms : list OwnedVMStatus) (agent : AgentInfo) : bool :=
  existsb (λ vm,
    if (vm_Name vm == "") || (vm_Phase vm == phaseReleased) || (vm_Phase vm == phaseOrphaned)
    then false else vmAssociated vm agent) vms.

(** ** agentIdentityLookup *)
Record agentIdentityLookup := mkAgentIdentityLookup {
  al_byHostname : gmap string AgentInfo;
  al_byName : gmap string AgentInfo;
  al_byBIOSUUID : gmap string AgentInfo;
  al_byMAC : gmap string AgentInfo;
  al_ambiguousHostname : gset string;
  al_ambiguousBIOSUUID : gset string;
  al_ambiguousMAC : gset string }.

(** addUniqueAgentIdentity updates the index and the set of ambiguous keys. *)
Definition addUniqueAgentIdentity
    (s : gmap string AgentInfo * gset string) (key : string) (agent : AgentInfo)
    : gmap string AgentInfo * gset string :=
  let '(index, ambiguous) := s in
  if bool_decide (key ∈ ambiguous) then (index, ambiguous)
  else match index !! key with
       | Some existing =>
           if ai_Name existing != ai_Name agent
           then (delete key index, {[key]} ∪ ambiguous)
           else (<[key := agent]> index, ambiguous)
       | None => (<[key := agent]> index, ambiguous)
       end.

(** The guarded call [if key != "" { addUniqueAgentIdentity(...) }]. *)
Definition addIdentity (key : AgentInfo → string)
    (s : gmap string AgentInfo * gset string) (agent : AgentInfo)
    : gmap string AgentInfo * gset string :=
  if key agent != "" then addUniqueAgentIdentity s (key agent) agent else s.

Definition emptyLookup : agentIdentityLookup := mkAgentIdentityLookup ∅ ∅ ∅ ∅ ∅ ∅ ∅.

(** One iteration of the loop of newAgentIdentityLookup. *)
Definition addAgent (l : agentIdentityLookup) (agent : AgentInfo) : agentIdentityLookup :=
  let h := addIdentity agentObservedHostname (al_byHostname l, al_ambiguousHostname l) agent in
  let b := addIdentity ai_BIOSUUID (al_byBIOSUUID l, al_ambiguousBIOSUUID l) agent in
  let m := addIdentity ai_MAC (al_byMAC l, al_ambiguousMAC l) agent in
  mkAgentIdentityLookup h.1 (<[ai_Name agent := agent]> (al_byName l)) b.1 m.1 h.2 b.2 m.2.

Definition newAgentIdentityLookup (agents : list AgentInfo) : agentIdentityLookup :=
  foldl addAgent emptyLookup agents.

Definition matchHostname (l : agentIdentityLookup) (vm : OwnedVMStatus) : option AgentInfo :=
  if bool_decide (vm_Name vm ∈ al_ambiguousHostname l) then None
  else match al_byHostname l !! vm_Name vm with
       | Some candidate => if negb (vmIdentityConflictsAgent vm candidate) then Some candidate else None
       | None => None
       end.

Definition matchAgentRef (l : agentIdentityLookup) (vm : OwnedVMStatus) : option AgentInfo :=
  match vm_AgentRef vm with
  | None => None
  | Some ref =>
      if or_Name ref == "" then None
      else match al_byName l !! or_Name ref with
           | Some candidate => if negb (vmIdentityConflictsAgent vm candidate) then Some candidate else None
           | None => None
           end
  end.

(** The lookup by one hardware identity inside match. *)
Definition matchIdentity (index : gmap string AgentInfo) (ambiguous : gset string) (key : string)
    : option AgentInfo :=
  if key != "" then if bool_decide (key ∈ ambiguous) then None else index !! key else None.

Definition lookupMatch (l : agentIdentityLookup) (vm : OwnedVMStatus) : option AgentInfo :=
  match matchIdentity (al_byBIOSUUID l) (al_ambiguousBIOSUUID l) (vm_BIOSUUID vm) with
  | Some agent => Some agent
  | None =>
      match matchIdentity (al_byMAC l) (al_ambiguousMAC l) (vm_MACAddress vm) with
      | Some agent => Some agent
      | None =>
          match matchHostname l vm with
          | Some agent => Some agent
          | None => matchAgentRef l vm
          end
      end
  end.

(** ** ownedVMLookup and mergeOwnedVMStatuses *)
Record ownedVMLookup := mkOwnedVMLookup {
  ol_byName : gmap string OwnedVMStatus;
  ol_byBIOSUUID : gmap string OwnedVMStatus;
  ol_byMAC : gmap string OwnedVMStatus }.

(** The guarded assignment [if key != "" { index[key] = vm }]. *)
Definition addKey (key : OwnedVMStatus → string) (m : gmap string OwnedVMStatus) (vm : OwnedVMStatus)
    : gmap string OwnedVMStatus :=
  if key vm != "" then <[key vm := vm]> m else m.

Definition newOwnedVMLookup (vms : list OwnedVMStatus) : ownedVMLookup :=
  foldl (λ l vm, mkOwnedVMLookup (addKey vm_Name (ol_byName l) vm)
                   (addKey vm_BIOSUUID (ol_byBIOSUUID l) vm) (addKey vm_MACAddress (ol_byMAC l) vm))
    (mkOwnedVMLookup ∅ ∅ ∅) vms.

Definition keyLookup (m : gmap string OwnedVMStatus) (key : string) : option OwnedVMStatus :=
  if key != "" then m !! key else None.

Definition ownedVMMatch (l : ownedVMLookup) (vm : OwnedVMStatus) : option OwnedVMStatus :=
  match keyLookup (ol_byName l) (vm_Name vm) with
  | Some previous => Some previous
  | None =>
      match keyLookup (ol_byBIOSUUID l) (vm_BIOSUUID vm) with
      | Some previous => Some previous
      | None => keyLookup (ol_byMAC l) (vm_MACAddress vm)
      end
  end.

(** Whether two records name different owners or different hardware. *)
Definition recordsConflict (vm previousVM : OwnedVMStatus) : bool :=
  ((vm_OwnerUID vm != "") && (vm_OwnerUID previousVM != "") && (vm_OwnerUID vm != vm_OwnerUID previousVM)) ||
  ((vm_BIOSUUID vm != "") && (vm_BIOSUUID previousVM != "") && (vm_BIOSUUID vm != vm_BIOSUUID previousVM)).

Definition orElse (a b : string) : string := if a == "" then b else a.

(** The body of the loop of mergeOwnedVMStatuses. *)
Definition mergeOwnedVM (lookup : ownedVMLookup) (vm : OwnedVMStatus) : OwnedVMStatus :=
  match ownedVMMatch lookup vm with
  | None => vm
  | Some previousVM =>
      if recordsConflict vm previousVM then vm
      else vm <| vm_Phase := vm_Phase previousVM |>
              <| vm_Reason := vm_Reason previousVM |>
              <| vm_LastTransitionTime := vm_LastTransitionTime previousVM |>
              <| vm_AgentRef := vm_AgentRef previousVM |>
              <| vm_MachineRef := vm_MachineRef previousVM |>
              <| vm_BIOSUUID := orElse (vm_BIOSUUID vm) (vm_BIOSUUID previousVM) |>
              <| vm_OwnerUID := orElse (vm_OwnerUID vm) (vm_OwnerUID previousVM) |>
              <| vm_Source := orElse (vm_Source vm) (vm_Source previousVM) |>
              <| vm_MACAddress := orElse (vm_MACAddress vm) (vm_MACAddress previousVM) |>
  end.

Definition mergeOwnedVMStatuses (previous current : list OwnedVMStatus) : list OwnedVMStatus :=
  if (length previous =? 0)%nat || (length current =? 0)%nat then current
  else map (mergeOwnedVM (newOwnedVMLookup previous)) current.

(** ** assignedAgentHostnames *)
Record hostnameAssignment := mkHostnameAssignment {
  ha_assigned : gmap string string;
  ha_reserved : gset string }.

(** The inner loop of every pass: the first eligible VM whose name is not
    reserved is given to the Agent. *)
Definition assignFirst (vms : list OwnedVMStatus) (eligible : OwnedVMStatus → bool)
    (agent : AgentInfo) (s : hostnameAssignment) : hostnameAssignment :=
  match List.find (λ vm, eligible vm && negb (bool_decide (vm_Name vm ∈ ha_reserved s))) vms with
  | Some vm => mkHostnameAssignment (<[ai_Name agent := vm_Name vm]> (ha_assigned s))
                 ({[vm_Name vm]} ∪ ha_reserved s)
  | None => s
  end.

Definition isAssigned (s : hostnameAssignment) (agent : AgentInfo) : bool :=
  mapGet (ha_assigned s) (ai_Name agent) != "".

Definition assignPass1 (vms : list OwnedVMStatus) (s : hostnameAssignment) (agent : AgentInfo) :=
  assignFirst vms (λ vm, (vm_Name vm != "") && (vm_Phase vm != phaseBound) &&
                         vmMatchesAgentIdentity vm agent) agent s.

Definition assignPass2 (vms : list OwnedVMStatus) (s : hostnameAssignment) (agent : AgentInfo) :=
  if isAssigned s agent || (ai_Hostname agent == "") then s
  else assignFirst vms (λ vm, (vm_Name vm == ai_Hostname agent) && (vm_Phase vm != phaseBound) &&
                              negb (vmIdentityConflictsAgent vm agent)) agent s.

Definition assignPass3 (vms : list OwnedVMStatus) (s : hostnameAssignment) (agent : AgentInfo) :=
  if isAssigned s agent then s
  else assignFirst vms (λ vm, (vm_Name vm != "") && (vm_Phase vm != phaseBound) &&
                              vmMatchesAgentRef vm agent) agent s.

Definition assignPass4 (vms : list OwnedVMStatus) (s : hostnameAssignment) (agent : AgentInfo) :=
  if isAssigned s agent then s
  else
    let hostname := agentObservedHostname agent in
    if hostname == "" then s
    else assignFirst vms (λ vm, (vm_Name vm == hostname) && (vm_Phase vm != phaseBound) &&
                                negb (vmIdentityConflictsAgent vm agent)) agent s.

Definition assignedAgentHostnames (pool : VsphereAgentPool) (agents : list AgentInfo) : gmap string string :=
  let vms := pt_OwnedVMs (pl_Status pool) in
  let s := foldl (assignPass1 vms) (mkHostnameAssignment ∅ ∅) agents in
  let s := foldl (assignPass2 vms) s agents in
  let s := foldl (assignPass3 vms) s agents in
  let s := foldl (assignPass4 vms) s agents in
  ha_assigned s.

(** ** Reference definitions

    What a lookup table built by [addUniqueAgentIdentity] answers for a key: the
    Agents carrying the key are absent, all of one name, or of several names. *)
Inductive carrierVerdict :=
| Absent
| Ambiguous
| Sole (agent : AgentInfo).

Definition carriers (key : AgentInfo → string) (agents : list AgentInfo) (k : string) : list AgentInfo :=
  List.filter (λ a, key a == k) agents.

Definition verdict (l : list AgentInfo) : carrierVerdict :=
  match last l with
  | None => Absent
  | Some a => if forallb (λ b, ai_Name b == ai_Name a) l then Sole a else Ambiguous
  end.

(** The only Agent (up to repeated observations of one name) that carries the
    non-empty key [k]. *)
Definition soleCarrier (key : AgentInfo → string) (agents : list AgentInfo) (k : string) : option AgentInfo :=
  if k == "" then None
  else match verdict (carriers key agents k) with Sole a => Some a | _ => None end.

Definition withoutConflict (vm : OwnedVMStatus) (candidate : option AgentInfo) : option AgentInfo :=
  match candidate with
  | Some a => if negb (vmIdentityConflictsAgent vm a) then Some a else None
  | None => None
  end.

Definition namedAgent (agents : list AgentInfo) (name : string) : option AgentInfo :=
  if name == "" then None else last (carriers ai_Name agents name).

(** The Agent of a VM, by decreasing strength of evidence. *)
Definition matchSpec (agents : list AgentInfo) (vm : OwnedVMStatus) : option AgentInfo :=
  match soleCarrier ai_BIOSUUID agents (vm_BIOSUUID vm) with
  | Some a => Some a
  | None =>
      match soleCarrier ai_MAC agents (vm_MACAddress vm) with
      | Some a => Some a
      | None =>
          match withoutConflict vm (soleCarrier agentObservedHostname agents (vm_Name vm)) with
          | Some a => Some a
          | None => withoutConflict vm (namedAgent agents (ownedVMAgentName vm))
          end
      end
  end.

(** ** Normal forms of UUIDs *)

(** Lower-case hexadecimal digits. *)
Definition isLowerHex (c : ascii) : bool := isHexDigit c && Ascii.eqb (lowerAscii c) c.

Lemma hexDigit_lower c : isHexDigit c = true → isLowerHex (lowerAscii c) = true.
Proof. destruct c as [[] [] [] [] [] [] [] []]; vm_compute; done. Qed.

Lemma lowerHex_visible c :
  isLowerHex c = true → isVisible c = true ∧ isSeparator c = false ∧ isHexDigit c = true ∧
  lowerAscii c = c ∧ Ascii.eqb c "V"%char = false.
Proof. destruct c as [[] [] [] [] [] [] [] []]; vm_compute; done. Qed.

Lemma lowerString_id s : forallString isLowerHex s = true → ToLower s = s.
Proof.
  induction s as [|c s IH]; simpl; [done|]. intros [Hc Hs]%andb_prop. unfold ToLower in *. simpl.
  rewrite IH by done. by apply lowerHex_visible in Hc as (_ & _ & _ & -> & _).
Qed.

Lemma ToLower_dashed v : ToLower (dashedUUID v) = dashedUUID (ToLower v).
Proof.
  unfold dashedUUID. rewrite !ToLower_app. unfold sliceString, ToLower.
  by rewrite !mapString_take, !mapString_drop.
Qed.

(** The slices of a 32-byte value make up the value again. *)
Lemma slices_concat v :
  String.length v = 32%nat →
  sliceString v 0 8 +:+ sliceString v 8 12 +:+ sliceString v 12 16 +:+ sliceString v 16 20 +:+
  sliceString v 20 32 = v.
Proof.
  intros Hlen. unfold sliceString. simpl (12 - 8)%nat. simpl (16 - 12)%nat. simpl (20 - 16)%nat.
  simpl (32 - 20)%nat. simpl (8 - 0)%nat.
  rewrite (takeString_all 12) by (rewrite dropString_length; lia).
  replace (dropString 20 v) with (dropString 4 (dropString 16 v)) by apply dropString_add.
  rewrite take_drop_string.
  replace (dropString 16 v) with (dropString 4 (dropString 12 v)) by apply dropString_add.
  rewrite take_drop_string.
  replace (dropString 12 v) with (dropString 4 (dropString 8 v)) by apply dropString_add.
  rewrite take_drop_string. simpl (dropString 0 v). by rewrite take_drop_string.
Qed.

Lemma slice_forall f v i j : forallString f v = true → forallString f (sliceString v i j) = true.
Proof. intros. unfold sliceString. by apply forallString_take, forallString_drop. Qed.

(** A dashed value of lower-case digits is visible, starts with a digit, and
    stripping the dashes gives the value back. *)
Lemma dashed_visible v : forallString isLowerHex v = true → forallString isVisible (dashedUUID v) = true.
Proof.
  intros Hv. unfold dashedUUID. rewrite !forallString_app. simpl.
  assert (∀ i j, forallString isVisible (sliceString v i j) = true) as Hs.
  { intros i j. eapply forallString_impl; [|apply slice_forall, Hv]. intros c Hc. by apply lowerHex_visible. }
  by rewrite !Hs.
Qed.

Lemma dashed_strip v :
  String.length v = 32%nat → forallString isLowerHex v = true → stripSeparators (dashedUUID v) = v.
Proof.
  intros Hlen Hv. unfold stripSeparators, dashedUUID. rewrite !filterString_app.
  assert (∀ i j, filterString (λ c, negb (isSeparator c)) (sliceString v i j) = sliceString v i j) as Hs.
  { intros i j. apply filterString_all. eapply forallString_impl; [|apply slice_forall, Hv].
    intros c Hc. by apply lowerHex_visible in Hc as (_ & -> & _). }
  rewrite !Hs. simpl (filterString _ "-"). rewrite !string_nil_app. by apply slices_concat.
Qed.

Lemma dashed_TrimPrefix v :
  String.length v = 32%nat → forallString isLowerHex v = true →
  TrimPrefix (dashedUUID v) "VMware-" = dashedUUID v ∧ dashedUUID v ≠ "".
Proof.
  intros Hlen Hv. destruct v as [|c v]; [done|]. simpl in Hv. apply andb_prop in Hv as [Hc _].
  apply lowerHex_visible in Hc as (_ & _ & _ & _ & HV). unfold dashedUUID, TrimPrefix, HasPrefix.
  cbn [sliceString dropString takeString Nat.sub]. rewrite !string_cons_app.
  cbn [String.prefix]. split; [|done].
  destruct (ascii_dec "V" c) as [<-|]; [by vm_compute in HV|done].
Qed.

Lemma normalizeUUID_cases s :
  normalizeVMwareSerialUUID s = "" ∨
  ∃ v, normalizeVMwareSerialUUID s = dashedUUID v ∧ String.length v = 32%nat ∧ forallString isLowerHex v = true.
Proof.
  unfold normalizeVMwareSerialUUID. set (v := stripSeparators _).
  destruct (String.length v =? 32)%nat eqn:El; simpl; [|by left]. apply Nat.eqb_eq in El.
  destruct (hexDecodes v) eqn:Eh; simpl; [|by left]. right. exists (ToLower v).
  rewrite ToLower_dashed. split; [done|]. unfold ToLower at 1. rewrite mapString_length. split; [done|].
  unfold ToLower. rewrite forallString_map. unfold hexDecodes in Eh. apply andb_prop in Eh as [_ Eh].
  eapply forallString_impl; [|exact Eh]. apply hexDigit_lower.
Qed.

Lemma normalizeUUID_no_space s : TrimSpace (normalizeVMwareSerialUUID s) = "" → normalizeVMwareSerialUUID s = "".
Proof.
  destruct (normalizeUUID_cases s) as [->|(v & -> & Hl & Hv)]; [done|].
  rewrite TrimSpace_visible by (by apply dashed_visible). done.
Qed.

(** The normal form of a VMware serial number is canonical: normalising it
    again changes nothing, so UUIDs from Agents, from vCenter and from recorded
    status compare as strings. *)
Theorem normalizeVMwareSerialUUID_idempotent (s : string) :
  normalizeVMwareSerialUUID (normalizeVMwareSerialUUID s) = normalizeVMwareSerialUUID s.
Proof.
  destruct (normalizeUUID_cases s) as [->|(v & -> & Hl & Hv)]; [reflexivity|].
  destruct (dashed_TrimPrefix v Hl Hv) as [Hp _].
  unfold normalizeVMwareSerialUUID. rewrite Hp, TrimSpace_visible by (by apply dashed_visible).
  rewrite dashed_strip by done. rewrite Hl. simpl.
  assert (hexDecodes v = true) as ->.
  { unfold hexDecodes. rewrite Hl. simpl. eapply forallString_impl; [|exact Hv].
    intros c Hc. by apply lowerHex_visible in Hc as (_ & _ & ? & _). }
  simpl. by rewrite ToLower_dashed, lowerString_id.
Qed.

(** ** Lemmas on the lookup tables *)
Lemma carriers_snoc key agents x k :
  carriers key (agents ++ [x]) k = carriers key agents k ++ (if key x == k then [x] else []).
Proof.
  unfold carriers. rewrite List.filter_app. simpl. by destruct (key x == k).
Qed.

Lemma carriers_in key agents k a : In a (carriers key agents k) ↔ In a agents ∧ key a = k.
Proof. unfold carriers. rewrite filter_In. by rewrite bool_decide_eq_true. Qed.

Lemma verdict_snoc l x :
  verdict (l ++ [x]) =
    match verdict l with
    | Absent => Sole x
    | Ambiguous => Ambiguous
    | Sole a => if ai_Name a == ai_Name x then Sole x else Ambiguous
    end.
Proof.
  unfold verdict. rewrite last_snoc, forallb_app. simpl.
  rewrite bool_decide_true by done. rewrite andb_true_r.
  destruct (last l) as [a|] eqn:Hl; [|by apply last_None in Hl as ->].
  apply last_Some in Hl as [l' ->]. rewrite !forallb_app; simpl.
  rewrite (bool_decide_true (ai_Name a = ai_Name a)) by done. rewrite !andb_true_r.
  destruct (decide (ai_Name a = ai_Name x)) as [Hn|Hn].
  - rewrite <- Hn, (bool_decide_true (ai_Name a = ai_Name a)), andb_true_r by done.
    destruct (forallb _ l'); [|done]. by rewrite bool_decide_true.
  - rewrite (bool_decide_false (ai_Name a = ai_Name x)), andb_false_r by done.
    destruct (forallb _ l'); [|done]. by rewrite bool_decide_false.
Qed.

Lemma verdict_sole l a :
  verdict l = Sole a → In a l ∧ ∀ b, In b l → ai_Name b = ai_Name a.
Proof.
  unfold verdict. destruct (last l) as [c|] eqn:Hl; [|done].
  destruct (forallb _ l) eqn:Hf; [|done]. intros [= ->]. split.
  - apply last_Some in Hl as [l' ->]. apply in_app_iff. right; by left.
  - intros b Hb. rewrite forallb_forall in Hf. by apply Hf, bool_decide_eq_true in Hb.
Qed.

(** What the index and the set of ambiguous keys hold for a key, given the
    verdict on its carriers. *)
Definition holdsVerdict (s : gmap string AgentInfo * gset string) (k : string) (v : carrierVerdict) : Prop :=
  match v with
  | Absent => s.1 !! k = None ∧ k ∉ s.2
  | Ambiguous => s.1 !! k = None ∧ k ∈ s.2
  | Sole a => s.1 !! k = Some a ∧ k ∉ s.2
  end.

Definition indexInv (key : AgentInfo → string) (agents : list AgentInfo)
    (s : gmap string AgentInfo * gset string) : Prop :=
  ∀ k, holdsVerdict s k (if k == "" then Absent else verdict (carriers key agents k)).

Lemma holdsVerdict_ext s s' k v :
  s'.1 !! k = s.1 !! k → (k ∈ s'.2 ↔ k ∈ s.2) → holdsVerdict s k v → holdsVerdict s' k v.
Proof. unfold holdsVerdict. intros -> Hk. destruct v; rewrite Hk; done. Qed.

Lemma indexInv_empty key : indexInv key [] (∅, ∅).
Proof. intros k. simpl. destruct (k == ""); set_solver. Qed.

(** Adding an Agent under its key moves the verdict of that key only. *)
Lemma addUnique_holds s key x v :
  holdsVerdict s key v →
  holdsVerdict (addUniqueAgentIdentity s key x) key
    match v with
    | Absent => Sole x
    | Ambiguous => Ambiguous
    | Sole a => if ai_Name a == ai_Name x then Sole x else Ambiguous
    end.
Proof.
  destruct s as [idx amb]. unfold addUniqueAgentIdentity, holdsVerdict.
  destruct v as [| |a]; simpl; intros [Hi Ha]; bdsimp; rewrite ?Hi; simpl.
  - by rewrite lookup_insert_eq.
  - done.
  - destruct (decide (ai_Name a = ai_Name x)) as [Hn|Hn]; bdsimp.
    + by rewrite lookup_insert_eq.
    + rewrite lookup_delete_eq. set_solver.
Qed.

Lemma addUnique_other s key x k v :
  key ≠ k → holdsVerdict s k v → holdsVerdict (addUniqueAgentIdentity s key x) k v.
Proof.
  intros Hne. destruct s as [idx amb]. apply holdsVerdict_ext; unfold addUniqueAgentIdentity;
    destruct (bool_decide (key ∈ amb)); try done;
    destruct (idx !! key) as [e|]; try destruct (ai_Name e != ai_Name x); simpl;
    rewrite ?lookup_insert_ne, ?lookup_delete_ne by done; set_solver.
Qed.

Lemma indexInv_step key agents s x :
  indexInv key agents s → indexInv key (agents ++ [x]) (addIdentity key s x).
Proof.
  intros Hinv k. specialize (Hinv k). unfold addIdentity. rewrite carriers_snoc.
  destruct (decide (key x = "")) as [Hx|Hx].
  { destruct (decide (k = "")) as [->|Hk0]; bdsimp_in Hinv; bdsimp; [done|].
    by rewrite app_nil_r. }
  rewrite (bool_decide_false (key x = "")) by done. simpl.
  destruct (decide (key x = k)) as [<-|Hne].
  - bdsimp_in Hinv. bdsimp. rewrite verdict_snoc. by apply addUnique_holds.
  - rewrite (bool_decide_false (key x = k)), app_nil_r by done. by apply addUnique_other.
Qed.

(** The components of the lookup built by newAgentIdentityLookup. *)
Lemma newAgentIdentityLookup_inv agents :
  let l := newAgentIdentityLookup agents in
  indexInv agentObservedHostname agents (al_byHostname l, al_ambiguousHostname l) ∧
  indexInv ai_BIOSUUID agents (al_byBIOSUUID l, al_ambiguousBIOSUUID l) ∧
  indexInv ai_MAC agents (al_byMAC l, al_ambiguousMAC l) ∧
  ∀ n, al_byName l !! n = last (carriers ai_Name agents n).
Proof.
  unfold newAgentIdentityLookup. induction agents as [|x agents IH] using rev_ind; simpl.
  { repeat split; try apply indexInv_empty. }
  destruct IH as (Hh & Hb & Hm & Hn). rewrite foldl_snoc. simpl.
  split_and!; try (rewrite <- surjective_pairing; by apply indexInv_step).
  intros n. rewrite carriers_snoc, lookup_insert.
  destruct (decide (ai_Name x = n)) as [->|Hne].
  - rewrite bool_decide_true by done. by rewrite last_snoc.
  - rewrite bool_decide_false by done. by rewrite app_nil_r.
Qed.

Lemma matchIdentity_sole key agents s k :
  indexInv key agents s → matchIdentity s.1 s.2 k = soleCarrier key agents k.
Proof.
  intros Hinv. specialize (Hinv k). unfold matchIdentity, soleCarrier.
  destruct (k == ""); simpl; [done|].
  destruct (verdict (carriers key agents k)) as [| |a]; destruct Hinv as [-> Ha];
    by destruct (bool_decide (k ∈ s.2)) eqn:E; gobool.
Qed.

Lemma soleCarrier_sound key agents k a :
  soleCarrier key agents k = Some a →
  k ≠ "" ∧ In a agents ∧ key a = k ∧ ∀ b, In b agents → key b = k → ai_Name b = ai_Name a.
Proof.
  unfold soleCarrier. destruct (k == "") eqn:E; gobool; [done|].
  destruct (verdict _) as [| |c] eqn:Hv; try done. intros [= ->].
  apply verdict_sole in Hv as [Hin Hall]. apply carriers_in in Hin as [Hin Hkey].
  split_and!; auto. intros b Hb1 Hb2. apply Hall. by apply carriers_in.
Qed.

Lemma withoutConflict_sound vm o a :
  withoutConflict vm o = Some a → o = Some a ∧ vmIdentityConflictsAgent vm a = false.
Proof.
  unfold withoutConflict. destruct o as [b|]; [|done].
  destruct (vmIdentityConflictsAgent vm b) eqn:E; simpl; [done|]. by intros [= ->].
Qed.

Lemma namedAgent_sound agents name a :
  namedAgent agents name = Some a → name ≠ "" ∧ In a agents ∧ ai_Name a = name.
Proof.
  unfold namedAgent. destruct (name == "") eqn:E; gobool; [done|].
  intros [l' Hl]%last_Some. split; [done|].
  apply (carriers_in ai_Name). rewrite Hl. apply in_app_iff. right; by left.
Qed.

(** An identity match excludes a conflict. *)
Lemma identity_match_no_conflict vm agent :
  vmMatchesAgentIdentity vm agent = true → vmIdentityConflictsAgent vm agent = false.
Proof.
  unfold vmMatchesAgentIdentity, vmIdentityConflictsAgent.
  by destruct (vm_BIOSUUID vm != ""), (ai_BIOSUUID agent != ""),
    (vm_BIOSUUID vm == ai_BIOSUUID agent), (vm_MACAddress vm != ""), (ai_MAC agent != ""),
    (vm_MACAddress vm == ai_MAC agent).
Qed.

(** ** The lookup of the Agent of a VM *)

Lemma lookupMatch_refines agents vm :
  lookupMatch (newAgentIdentityLookup agents) vm = matchSpec agents vm.
Proof.
  destruct (newAgentIdentityLookup_inv agents) as (Hh & Hb & Hm & Hn).
  unfold lookupMatch, matchSpec.
  rewrite (matchIdentity_sole _ _ _ _ Hb), (matchIdentity_sole _ _ _ _ Hm).
  destruct (soleCarrier ai_BIOSUUID agents (vm_BIOSUUID vm)); [done|].
  destruct (soleCarrier ai_MAC agents (vm_MACAddress vm)); [done|].
  assert (matchHostname (newAgentIdentityLookup agents) vm =
    withoutConflict vm (soleCarrier agentObservedHostname agents (vm_Name vm))) as ->.
  { unfold matchHostname, soleCarrier. specialize (Hh (vm_Name vm)).
    destruct (vm_Name vm == ""); simpl in Hh.
    - destruct Hh as [-> Ha]. by bdsimp.
    - destruct (verdict _) as [| |a]; simpl in Hh; destruct Hh as [-> Ha]; by bdsimp. }
  destruct (withoutConflict vm _); [done|].
  unfold matchAgentRef, namedAgent, ownedVMAgentName.
  destruct (vm_AgentRef vm) as [ref|]; [|done].
  rewrite Hn. by destruct (or_Name ref == "").
Qed.

(** C6: the Agent found by the lookup tables that newAgentIdentityLookup fills
    incrementally is the Agent given by the reference definition over the whole
    list: the sole carrier of the VM's BIOS UUID, else of its MAC address, else
    the sole Agent of that host name without contradicting hardware identity,
    else the recorded Agent without contradicting hardware identity. *)
Theorem lookupMatch_refines_matchSpec (agents : list AgentInfo) (vm : OwnedVMStatus) :
  lookupMatch (newAgentIdentityLookup agents) vm = matchSpec agents vm.
Proof. apply lookupMatch_refines. Qed.

(** A matched Agent was observed and really carries the identity it was
    matched by; an identity shared by Agents of different names selects nobody,
    and a match by host name or recorded reference never contradicts the
    hardware identity. *)
Theorem lookupMatch_sound (agents : list AgentInfo) (vm : OwnedVMStatus) (a : AgentInfo)
    (Hmatch : lookupMatch (newAgentIdentityLookup agents) vm = Some a) :
  In a agents ∧
  ((vm_BIOSUUID vm ≠ "" ∧ ai_BIOSUUID a = vm_BIOSUUID vm ∧
    ∀ b, In b agents → ai_BIOSUUID b = vm_BIOSUUID vm → ai_Name b = ai_Name a) ∨
   (vm_MACAddress vm ≠ "" ∧ ai_MAC a = vm_MACAddress vm ∧
    ∀ b, In b agents → ai_MAC b = vm_MACAddress vm → ai_Name b = ai_Name a) ∨
   (vm_Name vm ≠ "" ∧ agentObservedHostname a = vm_Name vm ∧
    (∀ b, In b agents → agentObservedHostname b = vm_Name vm → ai_Name b = ai_Name a) ∧
    vmIdentityConflictsAgent vm a = false) ∨
   (ai_Name a ≠ "" ∧ ownedVMAgentName vm = ai_Name a ∧ vmIdentityConflictsAgent vm a = false)).
Proof.
  rewrite lookupMatch_refines in Hmatch. unfold matchSpec in Hmatch.
  destruct (soleCarrier ai_BIOSUUID _ _) as [x|] eqn:E1.
  { simplify_eq. apply soleCarrier_sound in E1. naive_solver. }
  destruct (soleCarrier ai_MAC _ _) as [x|] eqn:E2.
  { simplify_eq. apply soleCarrier_sound in E2. naive_solver. }
  destruct (withoutConflict vm (soleCarrier _ _ _)) as [x|] eqn:E3.
  - simplify_eq. apply withoutConflict_sound in E3 as [E3 ?].
    apply soleCarrier_sound in E3. naive_solver.
  - apply withoutConflict_sound in Hmatch as [Hm ?].
    apply namedAgent_sound in Hm as (Hne & Hin & Hn). split; [done|].
    do 3 right. by rewrite Hn.
Qed.

(** ** The assignment of host names *)

(** Every handed-out name is reserved, belongs to an unbound owned VM whose
    identity does not contradict the Agent's, and is handed out once. *)
Record assignmentInv (vms : list OwnedVMStatus) (agents : list AgentInfo) (s : hostnameAssignment) : Prop := {
  ai_reserved n v : ha_assigned s !! n = Some v → v ∈ ha_reserved s;
  ai_origin n v : ha_assigned s !! n = Some v →
    ∃ agent vm, In agent agents ∧ ai_Name agent = n ∧ In vm vms ∧ vm_Name vm = v ∧ v ≠ "" ∧
      vm_Phase vm ≠ phaseBound ∧ vmIdentityConflictsAgent vm agent = false;
  ai_injective n1 n2 v :
    ha_assigned s !! n1 = Some v → ha_assigned s !! n2 = Some v → n1 = n2 }.

Lemma assignmentInv_empty vms agents : assignmentInv vms agents (mkHostnameAssignment ∅ ∅).
Proof. split; simpl; intros *; by rewrite lookup_empty. Qed.

Lemma assignFirst_inv vms agents eligible agent s :
  In agent agents →
  (∀ vm, eligible vm = true →
     vm_Name vm ≠ "" ∧ vm_Phase vm ≠ phaseBound ∧ vmIdentityConflictsAgent vm agent = false) →
  assignmentInv vms agents s → assignmentInv vms agents (assignFirst vms eligible agent s).
Proof.
  intros Hin Helig [Hres Horig Hinj]. unfold assignFirst.
  destruct (List.find _ vms) as [vm|] eqn:Hf; [|by split].
  apply find_some in Hf as [Hvm Hcond]. gobool. apply Helig in H as (Hn & Hp & Hc).
  split; simpl.
  - intros n v. rewrite lookup_insert, elem_of_union, elem_of_singleton.
    case_decide; intros Hn1; simplify_eq; [by left|right; by eapply Hres].
  - intros n v. rewrite lookup_insert. case_decide; intros; simplify_eq; naive_solver.
  - intros n1 n2 v. rewrite !lookup_insert.
    repeat case_decide; intros Hn1 Hn2; simplify_eq; try done.
    + by apply Hres in Hn2.
    + by apply Hres in Hn1.
    + by eapply Hinj.
Qed.

(** Every pass of assignedAgentHostnames is an instance of [assignFirst]. *)
Lemma assignPasses_inv vms agents agent s :
  In agent agents → assignmentInv vms agents s →
  assignmentInv vms agents (assignPass1 vms s agent) ∧
  assignmentInv vms agents (assignPass2 vms s agent) ∧
  assignmentInv vms agents (assignPass3 vms s agent) ∧
  assignmentInv vms agents (assignPass4 vms s agent).
Proof.
  intros Hin Hs.
  assert (∀ eligible, (∀ vm, eligible vm = true →
     vm_Name vm ≠ "" ∧ vm_Phase vm ≠ phaseBound ∧ vmIdentityConflictsAgent vm agent = false) →
     assignmentInv vms agents (assignFirst vms eligible agent s)) as Hgen
    by (intros; by apply assignFirst_inv).
  unfold assignPass1, assignPass2, assignPass3, assignPass4. split_and!; simpl; gocases;
    try done; apply Hgen; intros vm Hvm; gobool; split_and!; try congruence.
  - by apply identity_match_no_conflict.
  - unfold vmMatchesAgentRef in *. destruct (vm_AgentRef vm); [gobool; done|done].
Qed.

Lemma foldl_inv {S A} (P : S → Prop) (f : S → A → S) l s :
  (∀ s a, In a l → P s → P (f s a)) → P s → P (foldl f s l).
Proof.
  revert s. induction l as [|a l IH]; simpl; [done|]. intros s Hstep Hs.
  apply IH; [|auto]. intros; apply Hstep; auto.
Qed.

Lemma assignedAgentHostnames_inv pool agents :
  ∃ s, ha_assigned s = assignedAgentHostnames pool agents ∧
       assignmentInv (pt_OwnedVMs (pl_Status pool)) agents s.
Proof.
  eexists; split; [reflexivity|].
  do 4 (apply foldl_inv; [intros s a Ha Hs; by apply (assignPasses_inv _ _ _ _ Ha Hs)|]).
  apply assignmentInv_empty.
Qed.

(** A host name assigned to an Agent for patching is the name of an owned VM
    that is not bound and whose hardware identity does not contradict the
    Agent's. *)
Theorem assignedAgentHostnames_sound (pool : VsphereAgentPool) (agents : list AgentInfo) (n v : string)
    (Hassigned : assignedAgentHostnames pool agents !! n = Some v) :
  ∃ agent vm, In agent agents ∧ ai_Name agent = n ∧
    In vm (pt_OwnedVMs (pl_Status pool)) ∧ vm_Name vm = v ∧ v ≠ "" ∧
    vm_Phase vm ≠ phaseBound ∧ vmIdentityConflictsAgent vm agent = false.
Proof.
  destruct (assignedAgentHostnames_inv pool agents) as (s & Hs & Hinv).
  rewrite <- Hs in Hassigned. by eapply ai_origin.
Qed.

(** C13: no two Agents are given the same host name, so no two Agents are pinned
    to the same VM (and through it to the same AgentMachine). *)
Theorem assignedAgentHostnames_injective (pool : VsphereAgentPool) (agents : list AgentInfo)
    (n1 n2 v : string)
    (H1 : assignedAgentHostnames pool agents !! n1 = Some v)
    (H2 : assignedAgentHostnames pool agents !! n2 = Some v) :
  n1 = n2.
Proof.
  destruct (assignedAgentHostnames_inv pool agents) as (s & Hs & Hinv).
  rewrite <- Hs in H1, H2. by eapply ai_injective.
Qed.

(** ** The merge of recorded and observed VM status *)

(** Every record found by the lookup was in the list it was built from. *)
Lemma addKey_in (P : OwnedVMStatus → Prop) key m vm k x :
  (∀ k x, m !! k = Some x → P x) → P vm → addKey key m vm !! k = Some x → P x.
Proof.
  intros Hm Hvm. unfold addKey. destruct (key vm != ""); [|apply Hm].
  rewrite lookup_insert. case_decide; [|apply Hm]. by intros [= <-].
Qed.

Lemma newOwnedVMLookup_in vms vm x :
  ownedVMMatch (newOwnedVMLookup vms) vm = Some x → In x vms.
Proof.
  pose (all l := (∀ k x, ol_byName l !! k = Some x → In x vms) ∧
    (∀ k x, ol_byBIOSUUID l !! k = Some x → In x vms) ∧
    (∀ k x, ol_byMAC l !! k = Some x → In x vms)).
  assert (all (newOwnedVMLookup vms)) as (H1 & H2 & H3).
  { apply (foldl_inv all); [|by split_and!; simpl; intros *; rewrite lookup_empty].
    intros l v Hv (? & ? & ?). split_and!; simpl; intros k y;
      apply (addKey_in (λ y, In y vms)); done. }
  unfold ownedVMMatch, keyLookup. repeat case_match; naive_solver.
Qed.

Lemma orElse_keeps a b : a ≠ "" → orElse a b = a.
Proof. intros. unfold orElse. by bdsimp. Qed.
#[export] Hint Resolve orElse_keeps : golib.

(** What a merged record may differ in from the observed record. *)
Definition mergeKeeps (vm m : OwnedVMStatus) : Prop :=
  vm_Name m = vm_Name vm ∧
  (vm_BIOSUUID vm ≠ "" → vm_BIOSUUID m = vm_BIOSUUID vm) ∧
  (vm_OwnerUID vm ≠ "" → vm_OwnerUID m = vm_OwnerUID vm) ∧
  (vm_Source vm ≠ "" → vm_Source m = vm_Source vm) ∧
  (vm_MACAddress vm ≠ "" → vm_MACAddress m = vm_MACAddress vm).

Lemma mergeOwnedVM_keeps lookup vm : mergeKeeps vm (mergeOwnedVM lookup vm).
Proof.
  unfold mergeOwnedVM, mergeKeeps. destruct (ownedVMMatch lookup vm) as [p|]; [|done].
  destruct (recordsConflict vm p); [done|]. split_and!; simpl; auto with golib.
Qed.

(** Merging the recorded VM statuses into the observed ones keeps every
    observed VM in its place, never overwrites an observed name, hardware
    identity, owner or source, and takes lifecycle fields only from a recorded
    VM that does not name another owner or other hardware. *)
Theorem mergeOwnedVMStatuses_keeps (previous current : list OwnedVMStatus) :
  Forall2 (λ vm m, mergeKeeps vm m ∧
    (m = vm ∨ ∃ p, In p previous ∧ recordsConflict vm p = false ∧
       vm_Phase m = vm_Phase p ∧ vm_Reason m = vm_Reason p ∧
       vm_LastTransitionTime m = vm_LastTransitionTime p ∧
       vm_AgentRef m = vm_AgentRef p ∧ vm_MachineRef m = vm_MachineRef p))
    current (mergeOwnedVMStatuses previous current).
Proof.
  unfold mergeOwnedVMStatuses. destruct (_ || _).
  { apply Forall_Forall2_diag, Forall_true. intros vm. split; [|by left]. by unfold mergeKeeps. }
  apply Forall2_fmap_r, Forall_Forall2_diag, Forall_true. intros vm.
  split; [apply mergeOwnedVM_keeps|]. unfold mergeOwnedVM.
  destruct (ownedVMMatch _ vm) as [p|] eqn:Hp; [|by left].
  apply newOwnedVMLookup_in in Hp.
  destruct (recordsConflict vm p) eqn:Hc; [by left|]. right. by exists p.
Qed.
