(* ===== verification/Planner.v ===== *)
(** * The capacity planner

    internal/controller/planner.go: the pure function buildPlan turns one
    observation of the cluster (PoolSnapshot) into the plan of the reconcile
    pass.  Counters are [int32] and wrap around as in the source; the clock read
    by orphanedDeletionTargets is the argument [now]. *)
From S2P Require Import Prelude Api Identity.

(** ** Constants *)
Definition actionDemandDeficit : string := "DemandDeficit".
Definition actionDeleteVM : string := "DeleteVM".
Definition actionDeleteAgent : string := "DeleteAgent".
Definition actionPatchAgent : string := "PatchAgent".
Definition actionNoop : string := "Noop".
Definition poolLabelKey : string := "agent-forge.containeroo.ch/nodepool".
Definition reasonMachineDeletedPolicy : string := "CAPI Machine has been deleted".

(** 30 * time.Minute (vsphereagentpool_controller.go). *)
Definition orphanedOwnedVMGracePeriod : Duration := 30 * minute.

(** ** Snapshot and plan *)
Record PoolSnapshot := mkPoolSnapshot {
  sn_AgentMachines : Z;
  sn_WaitingAgentMachines : Z;
  sn_UnreadyAgentMachines : Z;
  sn_AgentMachinesWithoutAgent : Z;
  sn_MatchingAgents : list AgentInfo;
  sn_OwnedVMs : list OwnedVMStatus }.

Record PoolPlan := mkPoolPlan {
  pp_AgentMachines : Z;
  pp_WaitingAgentMachines : Z;
  pp_UnreadyAgentMachines : Z;
  pp_AgentMachinesWithoutAgent : Z;
  pp_DesiredReplicas : Z;
  pp_MatchingAgents : Z;
  pp_BoundAgents : Z;
  pp_AvailableAgents : Z;
  pp_PendingOwnedVMs : Z;
  pp_DemandDeficit : Z;
  pp_VMsToDelete : list OwnedVMStatus;
  pp_AgentsToDelete : list AgentInfo;
  pp_AgentsToPatch : list AgentInfo;
  pp_Actions : list PlannedActionStatus }.

(** ** Policies (vsphereagentpool_controller.go) *)
Definition approveAgents (pool : VsphereAgentPool) : bool :=
  match ab_Approve (ps_Agent (pl_Spec pool)) with None => true | Some b => b end.

Definition cleanupEnabled (pool : VsphereAgentPool) : bool :=
  ps_CleanupPolicy (pl_Spec pool) != CleanupPolicyRetain.

(** ** Helpers *)

(** A counter incremented for the elements that pass the test. *)
Definition count32 {A} (test : A → bool) (l : list A) : Z :=
  foldl (λ c x, if test x then add32 c 1 else c) 0 l.

Definition countPendingOwnedVMs (vms : list OwnedVMStatus) : Z :=
  count32 (λ vm, negb ((vm_Name vm == "") || (vm_Phase vm != phaseProvisioning))) vms.

Definition agentNeedsPatch (pool : VsphereAgentPool) (agent : AgentInfo) : bool :=
  let binding := ps_Agent (pl_Spec pool) in
  if match ab_Labels binding !! poolLabelKey with
     | Some desiredPoolLabel => ai_PoolLabel agent != desiredPoolLabel
     | None => false
     end
  then true
  else (approveAgents pool && negb (ai_Approved agent)) ||
       (ai_SpecRole agent != ab_Role binding) ||
       (ai_RoleLabel agent != ab_Role binding) ||
       (ai_Hostname agent == "").

Definition agentNeedsSelectionLabelPatch (agent : AgentInfo) : bool :=
  (ai_Hostname agent != "") && (ai_SelectionLabel agent != ai_Hostname agent).

Definition vmEligibleForCleanup (vm : OwnedVMStatus) : bool :=
  vm_Source vm != vmSourceDiscoveredAgent.

Definition selectedVMNames (vms : list OwnedVMStatus) : gset string :=
  foldl (λ s vm, if vm_Name vm != "" then {[vm_Name vm]} ∪ s else s) ∅ vms.

Definition orphanedVMCleanupDue (vm : OwnedVMStatus) (now : Time) : bool :=
  if IsZero (vm_LastTransitionTime vm) then true
  else negb (Before now (vm_LastTransitionTime vm + orphanedOwnedVMGracePeriod)).

Definition deletedMachineTarget (vm : OwnedVMStatus) : bool :=
  negb ((vm_Name vm == "") || negb (vmEligibleForCleanup vm) || (vm_Phase vm != phaseReleased) ||
        (vm_Reason vm != reasonMachineDeleted)).

Definition deletedMachineTargets (vms : list OwnedVMStatus) (agents : list AgentInfo)
    : list OwnedVMStatus * list AgentInfo :=
  let agentsByName : gmap string AgentInfo := foldl (λ m a, <[ai_Name a := a]> m) ∅ agents in
  let selectedVMs := List.filter deletedMachineTarget vms in
  let selectedAgents :=
    omap (λ vm, match vm_AgentRef vm with
                | None => None
                | Some ref => if or_Name ref == "" then None else agentsByName !! or_Name ref
                end) selectedVMs in
  (selectedVMs, selectedAgents).

(** Whether a VM is a surplus candidate: available, or returned after its Agent
    was released. *)
Definition surplusCandidate (vm : OwnedVMStatus) : bool :=
  let released := (vm_Phase vm == phaseReleased) && (vm_Reason vm == reasonAgentReleased) in
  negb ((vm_Name vm == "") || negb (vmEligibleForCleanup vm) ||
        ((vm_Phase vm != phaseAvailable) && negb released)).

(** The loop of surplusAvailableDeletionTargets with its two result slices. *)
Fixpoint surplusLoop (selected : gset string) (unboundAgentsByName : gmap string AgentInfo) (surplus : Z)
    (vms : list OwnedVMStatus) (selectedVMs : list OwnedVMStatus) (selectedAgents : list AgentInfo)
    : list OwnedVMStatus * list AgentInfo :=
  match vms with
  | [] => (selectedVMs, selectedAgents)
  | vm :: rest =>
      if surplus <=? len32 selectedVMs then (selectedVMs, selectedAgents)
      else
        let skip := surplusLoop selected unboundAgentsByName surplus rest selectedVMs selectedAgents in
        if negb (surplusCandidate vm) then skip
        else if bool_decide (vm_Name vm ∈ selected) then skip
        else if ownedVMAgentName vm == "" then skip
        else match unboundAgentsByName !! ownedVMAgentName vm with
             | None => skip
             | Some agent =>
                 surplusLoop selected unboundAgentsByName surplus rest
                   (selectedVMs ++ [vm]) (selectedAgents ++ [agent])
             end
  end.

Definition unboundAgents (agents : list AgentInfo) : gmap string AgentInfo :=
  foldl (λ m a, if (ai_Name a == "") || ai_Bound a then m else <[ai_Name a := a]> m) ∅ agents.

Definition surplusAvailableDeletionTargets (vms : list OwnedVMStatus) (agents : list AgentInfo)
    (alreadySelected : list OwnedVMStatus) (surplus : Z) : list OwnedVMStatus * list AgentInfo :=
  if surplus <=? 0 then ([], [])
  else surplusLoop (selectedVMNames alreadySelected) (unboundAgents agents) surplus vms [] [].

Definition orphanedTarget (now : Time) (selected : gset string) (vm : OwnedVMStatus) : bool :=
  negb ((vm_Name vm == "") || negb (vmEligibleForCleanup vm) || (vm_Phase vm != phaseOrphaned)) &&
  orphanedVMCleanupDue vm now && negb (bool_decide (vm_Name vm ∈ selected)).

Definition orphanedDeletionTargets (now : Time) (vms alreadySelected : list OwnedVMStatus)
    : list OwnedVMStatus :=
  List.filter (orphanedTarget now (selectedVMNames alreadySelected)) vms.

Definition agentDeletionReason (vm : OwnedVMStatus) : string :=
  if vm_Phase vm == phaseAvailable then "Owned available Agent exceeds current AgentMachine demand"
  else if vm_Phase vm == phaseReleased then
    if vm_Reason vm == reasonAgentReleased then "Owned released Agent exceeds current AgentMachine demand"
    else reasonMachineDeletedPolicy
  else reasonMachineDeletedPolicy.

Definition agentDeletionReasonsByName (vms : list OwnedVMStatus) : gmap string string :=
  foldl (λ reasons vm, if ownedVMAgentName vm == "" then reasons
                       else <[ownedVMAgentName vm := agentDeletionReason vm]> reasons) ∅ vms.

(** The reason of the DeleteVM action of a VM. *)
Definition vmDeletionReason (vm : OwnedVMStatus) : string :=
  if vm_Phase vm == phaseAvailable then "Owned available Agent exceeds current AgentMachine demand"
  else if vm_Phase vm == phaseReleased then
    if vm_Reason vm != reasonMachineDeleted then "Owned released Agent exceeds current AgentMachine demand"
    else reasonMachineDeletedPolicy
  else if vm_Phase vm == phaseOrphaned then
    "Owned VM no longer has a matching Agent and is eligible for cleanup"
  else reasonMachineDeletedPolicy.

(** ** buildPlan *)

(** The test of the loop that collects the Agents to patch. *)
Definition agentToPatch (pool : VsphereAgentPool) (snapshot : PoolSnapshot) (agent : AgentInfo) : bool :=
  if ai_Bound agent || ai_Deleting agent then false
  else
    let needsPatch := agentNeedsPatch pool agent in
    let needsPatch :=
      if negb needsPatch && (0 <? sn_WaitingAgentMachines snapshot) &&
         agentNeedsSelectionLabelPatch agent &&
         agentAssociatedWithActiveOwnedVM (sn_OwnedVMs snapshot) agent
      then true else needsPatch in
    needsPatch && agentAssociatedWithOwnedVM (sn_OwnedVMs snapshot) agent.

(** The deletion targets of a plan (the block guarded by cleanupEnabled). *)
Definition deletionTargets (now : Time) (pool : VsphereAgentPool) (snapshot : PoolSnapshot)
    (availableAgents : Z) : list OwnedVMStatus * list AgentInfo :=
  if cleanupEnabled pool then
    let '(vmsToDelete, agentsToDelete) :=
      deletedMachineTargets (sn_OwnedVMs snapshot) (sn_MatchingAgents snapshot) in
    let '(vmsToDelete, agentsToDelete) :=
      if (sn_WaitingAgentMachines snapshot == 0) && (sn_AgentMachinesWithoutAgent snapshot == 0) &&
         (0 <? availableAgents)
      then
        let '(surplusVMs, surplusAgents) :=
          surplusAvailableDeletionTargets (sn_OwnedVMs snapshot) (sn_MatchingAgents snapshot)
            vmsToDelete availableAgents in
        (vmsToDelete ++ surplusVMs, agentsToDelete ++ surplusAgents)
      else (vmsToDelete, agentsToDelete) in
    (vmsToDelete ++ orphanedDeletionTargets now (sn_OwnedVMs snapshot) vmsToDelete, agentsToDelete)
  else ([], []).

Definition deficitReason (waiting available pending : Z) : string :=
  fmt_d waiting +:+ " AgentMachines are waiting for suitable Agents, with " +:+ fmt_d available +:+
  " available Agents and " +:+ fmt_d pending +:+ " owned provisioning VMs".

Definition buildPlan (now : Time) (pool : VsphereAgentPool) (snapshot : PoolSnapshot) : PoolPlan :=
  let agents := sn_MatchingAgents snapshot in
  let waiting := sn_WaitingAgentMachines snapshot in
  let boundAgents := count32 ai_Bound agents in
  let availableAgents := count32 (λ a, negb (ai_Bound a)) agents in
  let matchingAgents := len32 agents in
  let pendingOwnedVMs := countPendingOwnedVMs (sn_OwnedVMs snapshot) in
  let deficit := sub32 (sub32 waiting availableAgents) pendingOwnedVMs in
  let deficit := if deficit <? 0 then 0 else deficit in
  let deficitActions :=
    replicate (Z.to_nat deficit)
      (mkPlannedActionStatus actionDemandDeficit "" (deficitReason waiting availableAgents pendingOwnedVMs)) in
  let agentsToPatch := List.filter (agentToPatch pool snapshot) agents in
  let patchActions :=
    map (λ a, mkPlannedActionStatus actionPatchAgent (ai_Name a)
                "Candidate Agent metadata does not match the pool") agentsToPatch in
  let '(vmsToDelete, agentsToDelete) := deletionTargets now pool snapshot availableAgents in
  let vmActions :=
    map (λ vm, mkPlannedActionStatus actionDeleteVM (vm_Name vm) (vmDeletionReason vm)) vmsToDelete in
  let agentDeleteReasons := agentDeletionReasonsByName vmsToDelete in
  let agentActions :=
    map (λ a, mkPlannedActionStatus actionDeleteAgent (ai_Name a)
                (if mapGet agentDeleteReasons (ai_Name a) == "" then reasonMachineDeletedPolicy
                 else mapGet agentDeleteReasons (ai_Name a))) agentsToDelete in
  let actions := deficitActions ++ patchActions ++ vmActions ++ agentActions in
  let actions :=
    if (length actions =? 0)%nat
    then [mkPlannedActionStatus actionNoop "" "Agent capacity satisfies current AgentMachine demand"]
    else actions in
  mkPoolPlan (sn_AgentMachines snapshot) waiting (sn_UnreadyAgentMachines snapshot)
    (sn_AgentMachinesWithoutAgent snapshot) (sn_AgentMachines snapshot) matchingAgents
    boundAgents availableAgents pendingOwnedVMs deficit vmsToDelete agentsToDelete agentsToPatch actions.

(** ** Counting *)
Lemma count32_filter {A} (test : A → bool) (l : list A) :
  Z.of_nat (length l) < int32_half → count32 test l = Z.of_nat (length (List.filter test l)).
Proof.
  assert (∀ c, 0 ≤ c → c + Z.of_nat (length l) < int32_half →
    foldl (λ c x, if test x then add32 c 1 else c) c l = c + Z.of_nat (length (List.filter test l))) as Hgen.
  { induction l as [|x l IH]; intros c Hc Hl; simpl in *; [lia|].
    destruct (test x); simpl.
    - unfold add32. rewrite wrap32_small by (unfold int32_half in *; lia).
      rewrite IH by lia. lia.
    - rewrite IH by lia. lia. }
  intros Hl. unfold count32. rewrite Hgen; lia.
Qed.

Lemma filter_split_length {A} (test : A → bool) (l : list A) :
  (length (List.filter test l) + length (List.filter (λ x, negb (test x)) l) = length l)%nat.
Proof. induction l as [|x l IH]; simpl; [done|]. destruct (test x); simpl; lia. Qed.

Lemma filter_length_le {A} (test : A → bool) (l : list A) :
  (length (List.filter test l) ≤ length l)%nat.
Proof. pose proof (filter_split_length test l). lia. Qed.

Lemma filter_replicate_same {A} (test : A → bool) n x :
  test x = true → List.filter test (replicate n x) = replicate n x.
Proof. intros Hx. induction n as [|n IH]; simpl; [done|]. by rewrite Hx, IH. Qed.

Lemma filter_none {A} (test : A → bool) (l : list A) :
  (∀ x, In x l → test x = false) → List.filter test l = [].
Proof.
  intros H. induction l as [|x l IH]; simpl; [done|].
  rewrite (H x (or_introl eq_refl)). apply IH. intros y Hy. apply H. by right.
Qed.

(** ** Membership in the selections *)
Lemma selectedVMNames_spec vms n :
  n ∈ selectedVMNames vms ↔ n ≠ "" ∧ ∃ vm, In vm vms ∧ vm_Name vm = n.
Proof.
  unfold selectedVMNames. induction vms as [|vm vms IH] using rev_ind; simpl.
  { split; [set_solver|]. intros (_ & ? & [] & _). }
  rewrite foldl_snoc. setoid_rewrite in_app_iff. simpl.
  destruct (decide (vm_Name vm = "")) as [He|He]; bdsimp;
    [|rewrite elem_of_union, elem_of_singleton]; rewrite IH; naive_solver.
Qed.

Lemma deletedMachineTarget_spec vm :
  deletedMachineTarget vm = true ↔
  vm_Name vm ≠ "" ∧ vmEligibleForCleanup vm = true ∧ vm_Phase vm = phaseReleased ∧
  vm_Reason vm = reasonMachineDeleted.
Proof.
  unfold deletedMachineTarget. split.
  - intros H. gobool. auto.
  - intros (? & -> & ? & ?). by bdsimp.
Qed.

Lemma surplusCandidate_spec vm :
  surplusCandidate vm = true ↔
  vm_Name vm ≠ "" ∧ vmEligibleForCleanup vm = true ∧
  (vm_Phase vm = phaseAvailable ∨ (vm_Phase vm = phaseReleased ∧ vm_Reason vm = reasonAgentReleased)).
Proof.
  unfold surplusCandidate. split.
  - intros H. gobool; auto.
  - intros (? & -> & [?|[Hp ?]]); [by bdsimp|].
    rewrite Hp. by bdsimp.
Qed.

Lemma orphanedTarget_spec now selected vm :
  orphanedTarget now selected vm = true ↔
  vm_Name vm ≠ "" ∧ vmEligibleForCleanup vm = true ∧ vm_Phase vm = phaseOrphaned ∧
  orphanedVMCleanupDue vm now = true ∧ vm_Name vm ∉ selected.
Proof.
  unfold orphanedTarget. split.
  - intros H. gobool. auto.
  - intros (? & -> & ? & -> & ?). by bdsimp.
Qed.

(** A VM due for orphan cleanup has been orphaned for the grace period. *)
Lemma orphanedVMCleanupDue_spec vm now :
  orphanedVMCleanupDue vm now = true ↔
  vm_LastTransitionTime vm = 0 ∨ vm_LastTransitionTime vm + orphanedOwnedVMGracePeriod ≤ now.
Proof.
  unfold orphanedVMCleanupDue, IsZero, Before.
  destruct (decide (vm_LastTransitionTime vm = 0)) as [H|H]; bdsimp; [naive_solver|].
  split; intros Hd; gobool.
  - by right.
  - destruct Hd as [?|?]; [done|]. apply negb_true_iff, Z.ltb_ge. lia.
Qed.

Lemma unboundAgents_spec agents n a :
  unboundAgents agents !! n = Some a → In a agents ∧ ai_Name a = n ∧ n ≠ "" ∧ ai_Bound a = false.
Proof.
  unfold unboundAgents. induction agents as [|x agents IH] using rev_ind; simpl; [done|].
  rewrite foldl_snoc, in_app_iff. destruct (_ || _) eqn:E.
  - intros H. naive_solver.
  - gobool. rewrite lookup_insert. case_decide; intros; simplify_eq; [|naive_solver].
    split_and!; auto. right. by left.
Qed.

(** The surplus loop only appends to its accumulator unselected candidates whose
    Agent is known and unbound, in the order of the VMs. *)
Definition surplusPick (selected : gset string) (unbound : gmap string AgentInfo) (vm : OwnedVMStatus) : Prop :=
  surplusCandidate vm = true ∧ (vm_Name vm ∉ selected) ∧
  ownedVMAgentName vm ≠ "" ∧ is_Some (unbound !! ownedVMAgentName vm).

Lemma surplusLoop_spec selected unbound surplus vms accV accA :
  ∃ picked, (surplusLoop selected unbound surplus vms accV accA).1 = accV ++ picked ∧
    sublist picked vms ∧ ∀ vm, In vm picked → surplusPick selected unbound vm.
Proof.
  revert accV accA. induction vms as [|vm vms IH]; intros accV accA; simpl.
  { exists []. rewrite app_nil_r. naive_solver. }
  destruct (surplus <=? len32 accV).
  { exists []. rewrite app_nil_r. split; [done|]. split; [apply sublist_nil_l|done]. }
  assert (∃ picked, (surplusLoop selected unbound surplus vms accV accA).1 = accV ++ picked ∧
    sublist picked (vm :: vms) ∧ ∀ v, In v picked → surplusPick selected unbound v) as Hskip.
  { destruct (IH accV accA) as (p & ? & ? & ?). exists p.
    split_and!; [done|by apply sublist_cons|done]. }
  destruct (surplusCandidate vm) eqn:Hc; simpl; [|done].
  destruct (bool_decide (vm_Name vm ∈ selected)) eqn:Hs; [done|].
  destruct (ownedVMAgentName vm == "") eqn:Hn; [done|].
  destruct (unbound !! ownedVMAgentName vm) as [a|] eqn:Ha; [|done].
  destruct (IH (accV ++ [vm]) (accA ++ [a])) as (p & Hp & Hsub & Hall).
  exists (vm :: p). gobool. split_and!.
  - by rewrite Hp, <- app_assoc.
  - by apply sublist_skip.
  - intros v [<-|Hv]; [|auto]. by split_and!; eauto.
Qed.

Lemma surplusLoop_bound selected unbound surplus vms accV accA :
  Z.of_nat (length accV + length vms) < int32_half → Z.of_nat (length accV) ≤ surplus →
  Z.of_nat (length (surplusLoop selected unbound surplus vms accV accA).1) ≤ surplus.
Proof.
  revert accV accA. induction vms as [|vm vms IH]; intros accV accA Hb Ha; simpl in *; [done|].
  rewrite len32_small by lia.
  destruct (surplus <=? Z.of_nat (length accV)) eqn:E; gobool; [done|].
  destruct (surplusCandidate vm); simpl; [|apply IH; lia].
  destruct (bool_decide (vm_Name vm ∈ selected)); [apply IH; lia|].
  destruct (ownedVMAgentName vm == ""); [apply IH; lia|].
  destruct (unbound !! ownedVMAgentName vm); [|apply IH; lia].
  apply IH; rewrite length_app; simpl; lia.
Qed.

Lemma surplusTargets_spec vms agents already surplus :
  ∃ picked, (surplusAvailableDeletionTargets vms agents already surplus).1 = picked ∧
    sublist picked vms ∧
    ∀ vm, In vm picked → surplusPick (selectedVMNames already) (unboundAgents agents) vm.
Proof.
  unfold surplusAvailableDeletionTargets. destruct (surplus <=? 0).
  - exists []. split; [done|]. split; [apply sublist_nil_l|done].
  - destruct (surplusLoop_spec (selectedVMNames already) (unboundAgents agents) surplus vms [] [])
      as (p & Hp & ? & ?). by exists p.
Qed.

(** ** The structure of the deletion targets *)

(** The three selections a plan deletes from: VMs whose Machine is gone, surplus
    capacity (only without waiting or unassigned AgentMachines), and orphans. *)
Lemma deletionTargets_split now pool snap available :
  ∃ deleted surplus orphans,
    (deletionTargets now pool snap available).1 = deleted ++ surplus ++ orphans ∧
    (cleanupEnabled pool = false → deleted ++ surplus ++ orphans = []) ∧
    (deleted = [] ∨ deleted = List.filter deletedMachineTarget (sn_OwnedVMs snap)) ∧
    (surplus = [] ∨
      (sn_WaitingAgentMachines snap = 0 ∧ sn_AgentMachinesWithoutAgent snap = 0 ∧
       surplus = (surplusAvailableDeletionTargets (sn_OwnedVMs snap) (sn_MatchingAgents snap)
                    deleted available).1)) ∧
    (orphans = [] ∨ orphans = orphanedDeletionTargets now (sn_OwnedVMs snap) (deleted ++ surplus)).
Proof.
  unfold deletionTargets. destruct (cleanupEnabled pool).
  2: { exists [], [], []. naive_solver. }
  destruct (deletedMachineTargets _ _) as [dv da] eqn:Hd. injection Hd as Hdv Hda.
  destruct (_ && _ && _) eqn:Hc.
  - destruct (surplusAvailableDeletionTargets _ _ _ _) as [sv sa] eqn:Hs. simpl.
    exists dv, sv, (orphanedDeletionTargets now (sn_OwnedVMs snap) (dv ++ sv)).
    gobool. rewrite Hs. split_and!; auto; [by rewrite <- app_assoc|done].
  - simpl. exists dv, [], (orphanedDeletionTargets now (sn_OwnedVMs snap) dv).
    rewrite app_nil_r. simpl. split_and!; auto. done.
Qed.

Lemma buildPlan_VMsToDelete now pool snap :
  pp_VMsToDelete (buildPlan now pool snap) =
  (deletionTargets now pool snap (count32 (λ a, negb (ai_Bound a)) (sn_MatchingAgents snap))).1.
Proof. unfold buildPlan. by destruct (deletionTargets _ _ _ _). Qed.

(** An orphan is deleted only when its cleanup is due. *)
Lemma deletionTargets_phase now pool snap available vm :
  In vm (deletionTargets now pool snap available).1 →
  vm_Phase vm ≠ phaseOrphaned ∨ orphanedVMCleanupDue vm now = true.
Proof.
  destruct (deletionTargets_split now pool snap available)
    as (deleted & surplus & orphans & -> & _ & Hd & Hs & Ho).
  rewrite !in_app_iff. intros [Hvm|[Hvm|Hvm]].
  - left. destruct Hd as [->| ->]; [done|]. apply in_filter_true in Hvm as [_ H].
    apply deletedMachineTarget_spec in H as (_ & _ & -> & _). done.
  - left. destruct Hs as [->|(_ & _ & ->)]; [done|].
    destruct (surplusTargets_spec (sn_OwnedVMs snap) (sn_MatchingAgents snap) deleted available)
      as (p & Hp & _ & Hall).
    rewrite Hp in Hvm. destruct (Hall _ Hvm) as (Hc & _).
    apply surplusCandidate_spec in Hc as (_ & _ & [->|[-> _]]); done.
  - right. destruct Ho as [->| ->]; [done|]. apply in_filter_true in Hvm as [_ H].
    by apply orphanedTarget_spec in H as (_ & _ & _ & ? & _).
Qed.

(** What makes the deletion of a VM legitimate. *)
Inductive deletable (now : Time) (snap : PoolSnapshot) (vm : OwnedVMStatus) : Prop :=
| deletable_machine_gone :
    vm_Phase vm = phaseReleased → vm_Reason vm = reasonMachineDeleted → deletable now snap vm
| deletable_surplus agent :
    sn_WaitingAgentMachines snap = 0 → sn_AgentMachinesWithoutAgent snap = 0 →
    vm_Phase vm = phaseAvailable ∨ (vm_Phase vm = phaseReleased ∧ vm_Reason vm = reasonAgentReleased) →
    In agent (sn_MatchingAgents snap) → ai_Name agent = ownedVMAgentName vm → ai_Bound agent = false →
    deletable now snap vm
| deletable_orphan :
    vm_Phase vm = phaseOrphaned →
    (vm_LastTransitionTime vm = 0 ∨ vm_LastTransitionTime vm + orphanedOwnedVMGracePeriod ≤ now) →
    deletable now snap vm.

(** What a planned deletion rests on. *)
Lemma buildPlan_deletable (now : Time) (pool : VsphereAgentPool) (snap : PoolSnapshot)
    (vm : OwnedVMStatus) (Hvm : In vm (pp_VMsToDelete (buildPlan now pool snap))) :
  cleanupEnabled pool = true ∧ In vm (sn_OwnedVMs snap) ∧ vm_Name vm ≠ "" ∧
  vm_Source vm ≠ vmSourceDiscoveredAgent ∧ deletable now snap vm.
Proof.
  rewrite buildPlan_VMsToDelete in Hvm.
  destruct (deletionTargets_split now pool snap
    (count32 (λ a, negb (ai_Bound a)) (sn_MatchingAgents snap)))
    as (deleted & surplus & orphans & Heq & Hoff & Hd & Hs & Ho).
  rewrite Heq in Hvm. split.
  { destruct (cleanupEnabled pool); [done|]. by rewrite (Hoff eq_refl) in Hvm. }
  assert (∀ v, vmEligibleForCleanup v = true → vm_Source v ≠ vmSourceDiscoveredAgent) as Hsrc.
  { unfold vmEligibleForCleanup. intros v H. by gobool. }
  rewrite !in_app_iff in Hvm. destruct Hvm as [Hvm|[Hvm|Hvm]].
  - destruct Hd as [->| ->]; [done|]. apply in_filter_true in Hvm as [Hin H].
    apply deletedMachineTarget_spec in H as (? & ? & ? & ?).
    split_and!; auto. by apply deletable_machine_gone.
  - destruct Hs as [->|(Hw & Hn & ->)]; [done|].
    destruct (surplusTargets_spec (sn_OwnedVMs snap) (sn_MatchingAgents snap) deleted
      (count32 (λ a, negb (ai_Bound a)) (sn_MatchingAgents snap))) as (p & Hp & Hsub & Hall).
    rewrite Hp in Hvm. destruct (Hall _ Hvm) as (Hc & _ & _ & [a Ha]).
    apply surplusCandidate_spec in Hc as (? & ? & ?).
    apply unboundAgents_spec in Ha as (? & ? & ? & ?).
    split_and!; auto; [|by eapply deletable_surplus].
    apply list_elem_of_In. eapply elem_of_sublist; [|done]. by apply list_elem_of_In.
  - destruct Ho as [->| ->]; [done|]. apply in_filter_true in Hvm as [Hin H].
    apply orphanedTarget_spec in H as (? & ? & ? & Hdue & ?).
    apply orphanedVMCleanupDue_spec in Hdue.
    split_and!; auto. by apply deletable_orphan.
Qed.

(** C7: every VM a plan deletes is an owned, named VM that a VsphereAgent backs
    (never one only discovered through an Agent), cleanup is enabled, and the VM
    was released by a deleted Machine, or is surplus with an unbound Agent while
    no AgentMachine waits or lacks an Agent, or has been orphaned for the grace
    period; in particular bound and provisioning VMs are never deleted. *)
Theorem buildPlan_deletes_only_deletable (now : Time) (pool : VsphereAgentPool) (snap : PoolSnapshot)
    (vm : OwnedVMStatus) (Hvm : In vm (pp_VMsToDelete (buildPlan now pool snap))) :
  cleanupEnabled pool = true ∧ In vm (sn_OwnedVMs snap) ∧ vm_Name vm ≠ "" ∧
  vm_Source vm ≠ vmSourceDiscoveredAgent ∧ deletable now snap vm.
Proof. by apply buildPlan_deletable. Qed.

(** ** Counting in a plan *)

(** The fields of a plan that do not depend on the deletion targets. *)
Lemma buildPlan_fields now pool snap :
  let plan := buildPlan now pool snap in
  let deficit := sub32 (sub32 (sn_WaitingAgentMachines snap)
    (count32 (λ a, negb (ai_Bound a)) (sn_MatchingAgents snap))) (countPendingOwnedVMs (sn_OwnedVMs snap)) in
  pp_AvailableAgents plan = count32 (λ a, negb (ai_Bound a)) (sn_MatchingAgents snap) ∧
  pp_BoundAgents plan = count32 ai_Bound (sn_MatchingAgents snap) ∧
  pp_MatchingAgents plan = len32 (sn_MatchingAgents snap) ∧
  pp_PendingOwnedVMs plan = countPendingOwnedVMs (sn_OwnedVMs snap) ∧
  pp_DemandDeficit plan = Z.max 0 deficit ∧
  pp_AgentsToPatch plan = List.filter (agentToPatch pool snap) (sn_MatchingAgents snap).
Proof.
  unfold buildPlan. destruct (deletionTargets _ _ _ _). simpl. split_and!; try done.
  destruct (_ <? 0) eqn:E; gobool; lia.
Qed.

(** The actions of a plan are those of its four work lists, in that order, or a
    single Noop when there is no work. *)
Definition workActions (plan : PoolPlan) (reason : string) : list PlannedActionStatus :=
  replicate (Z.to_nat (pp_DemandDeficit plan)) (mkPlannedActionStatus actionDemandDeficit "" reason) ++
  map (λ a, mkPlannedActionStatus actionPatchAgent (ai_Name a)
              "Candidate Agent metadata does not match the pool") (pp_AgentsToPatch plan) ++
  map (λ vm, mkPlannedActionStatus actionDeleteVM (vm_Name vm) (vmDeletionReason vm)) (pp_VMsToDelete plan) ++
  map (λ a, mkPlannedActionStatus actionDeleteAgent (ai_Name a)
              (orElse (mapGet (agentDeletionReasonsByName (pp_VMsToDelete plan)) (ai_Name a))
                 reasonMachineDeletedPolicy)) (pp_AgentsToDelete plan).

Lemma buildPlan_actions now pool snap :
  let plan := buildPlan now pool snap in
  let work := workActions plan (deficitReason (pp_WaitingAgentMachines plan) (pp_AvailableAgents plan)
                (pp_PendingOwnedVMs plan)) in
  pp_Actions plan =
    match work with
    | [] => [mkPlannedActionStatus actionNoop "" "Agent capacity satisfies current AgentMachine demand"]
    | _ => work
    end.
Proof.
  unfold buildPlan, workActions. destruct (deletionTargets _ _ _ _) as [vms ags]. simpl.
  match goal with |- (if (length ?l =? 0)%nat then _ else _) = _ => set (work := l) end.
  unfold orElse. fold work. by destruct work.
Qed.

Lemma countPending_filter vms :
  Z.of_nat (length vms) < int32_half →
  countPendingOwnedVMs vms =
    Z.of_nat (length (List.filter (λ vm, (vm_Name vm != "") && (vm_Phase vm == phaseProvisioning)) vms)).
Proof.
  intros H. unfold countPendingOwnedVMs. rewrite count32_filter by done. do 2 f_equal.
  apply List.filter_ext. intros vm. by rewrite negb_orb, negb_involutive.
Qed.

Definition hasType (t : string) (a : PlannedActionStatus) : bool := pa_Type a == t.

Lemma filter_hasType_map {A} t (f : A → PlannedActionStatus) l t' :
  (∀ x, pa_Type (f x) = t') →
  List.filter (hasType t) (map f l) = if t' == t then map f l else [].
Proof.
  intros Hf. destruct (decide (t' = t)) as [<-|Hne]; bdsimp.
  - induction l as [|x l IH]; simpl; [done|]. unfold hasType at 1. rewrite Hf. bdsimp. by rewrite IH.
  - apply filter_none. intros x (y & <- & _)%in_map_iff. unfold hasType. rewrite Hf. by bdsimp.
Qed.

(** ** Lists of names *)
Lemma nodup_map_sublist {A B} (g : A → B) (l1 l2 : list A) :
  sublist l1 l2 → List.NoDup (map g l2) → List.NoDup (map g l1).
Proof.
  induction 1 as [|x l1 l2 Hs IH|x l1 l2 Hs IH]; simpl; [done| |]; inversion_clear 1; [|auto].
  constructor; [|auto]. intros (y & Hy & Hin)%in_map_iff. apply H0. rewrite <- Hy.
  apply in_map, list_elem_of_In. eapply elem_of_sublist; [|done]. by apply list_elem_of_In.
Qed.

(** Three selections that avoid the names selected before them have distinct names. *)
Lemma nodup_selections (l1 l2 l3 : list OwnedVMStatus) :
  List.NoDup (map vm_Name l1) → List.NoDup (map vm_Name l2) → List.NoDup (map vm_Name l3) →
  (∀ vm, In vm l2 → vm_Name vm ≠ "" ∧ (vm_Name vm ∉ selectedVMNames l1)) →
  (∀ vm, In vm l3 → vm_Name vm ≠ "" ∧ (vm_Name vm ∉ selectedVMNames (l1 ++ l2))) →
  List.NoDup (map vm_Name (l1 ++ l2 ++ l3)).
Proof.
  intros H1 H2 H3 H12 H123. rewrite !map_app.
  assert (∀ l l', (∀ vm, In vm l' → vm_Name vm ≠ "" ∧ (vm_Name vm ∉ selectedVMNames l)) →
    ∀ n, In n (map vm_Name l) → ¬ In n (map vm_Name l')) as Hdis.
  { intros l l' Hl n (x & <- & Hx)%in_map_iff (y & Hy & Hy')%in_map_iff.
    destruct (Hl _ Hy') as [? Hnot]. apply Hnot, selectedVMNames_spec. eauto. }
  rewrite app_assoc. apply nodup_app_disjoint; [apply nodup_app_disjoint|done|]; auto;
    [by apply Hdis|]. intros n.
  rewrite <- map_app. by apply Hdis.
Qed.

Lemma nodup_orphans now selected vms :
  List.NoDup (map vm_Name vms) →
  List.NoDup (map vm_Name (List.filter (orphanedTarget now selected) vms)).
Proof. apply nodup_map_filter. Qed.

(** ** Properties of the plan *)

(** C27: on counts that fit int32 the deficit is the waiting demand not covered
    by unbound Agents and provisioning VMs, cut at zero, and the plan announces
    exactly that many DemandDeficit actions. *)
Theorem buildPlan_deficit_exact (now : Time) (pool : VsphereAgentPool) (snap : PoolSnapshot)
    (Hwaiting : 0 ≤ sn_WaitingAgentMachines snap < int32_half)
    (Hfits : Z.of_nat (length (sn_MatchingAgents snap) + length (sn_OwnedVMs snap)) < int32_half) :
  let plan := buildPlan now pool snap in
  let unbound := List.filter (λ a, negb (ai_Bound a)) (sn_MatchingAgents snap) in
  let provisioning := List.filter (λ vm, (vm_Name vm != "") && (vm_Phase vm == phaseProvisioning))
                        (sn_OwnedVMs snap) in
  pp_DemandDeficit plan =
    Z.max 0 (sn_WaitingAgentMachines snap - Z.of_nat (length unbound) - Z.of_nat (length provisioning)) ∧
  Z.of_nat (length (List.filter (hasType actionDemandDeficit) (pp_Actions plan))) = pp_DemandDeficit plan.
Proof.
  intros plan unbound provisioning.
  destruct (buildPlan_fields now pool snap) as (_ & _ & _ & _ & Hd & _).
  assert (length unbound ≤ length (sn_MatchingAgents snap))%nat as H by apply filter_length_le.
  assert (length provisioning ≤ length (sn_OwnedVMs snap))%nat as H0 by apply filter_length_le.
  split.
  - subst plan. rewrite Hd, countPending_filter, count32_filter by lia.
    unfold sub32. fold unbound. fold provisioning.
    rewrite (wrap32_small (_ - Z.of_nat (length unbound))), wrap32_small
      by (unfold int32_half in *; lia). done.
  - pose proof (buildPlan_actions now pool snap) as Ha. fold plan in Ha. cbv zeta in Ha. rewrite Ha.
    assert (Hpos : 0 ≤ pp_DemandDeficit plan) by (subst plan; lia).
    match goal with |- context [match ?w with [] => _ | _ => _ end] =>
      assert (Z.of_nat (length (List.filter (hasType actionDemandDeficit) w)) = pp_DemandDeficit plan) as Hw
    end.
    { unfold workActions. rewrite !List.filter_app.
      rewrite !(filter_hasType_map _ _ _ actionPatchAgent), (filter_hasType_map _ _ _ actionDeleteVM),
        (filter_hasType_map _ _ _ actionDeleteAgent) by done.
      rewrite filter_replicate_same by done. bdsimp. rewrite app_nil_r, length_replicate. lia. }
    by destruct (workActions _ _).
Qed.

(** The three phases a deletion starts from exclude each other. *)
Lemma surplusCandidate_exclusive now selected vm :
  deletedMachineTarget vm = true ∨ orphanedTarget now selected vm = true → surplusCandidate vm = false.
Proof.
  intros H. destruct (surplusCandidate vm) eqn:E; [|done].
  apply surplusCandidate_spec in E as (_ & _ & Hs).
  destruct H as [H|H];
    [apply deletedMachineTarget_spec in H as (_ & _ & ? & ?)
    |apply orphanedTarget_spec in H as (_ & _ & ? & _)];
    exfalso; destruct Hs as [?|[? ?]]; unfold phaseAvailable, phaseReleased, phaseOrphaned,
      reasonMachineDeleted, reasonAgentReleased in *; congruence.
Qed.

(** C28: a plan never deletes more available or returned VMs than there are
    unbound Agents, and none while an AgentMachine waits or lacks an Agent. *)
Theorem buildPlan_surplus_bound (now : Time) (pool : VsphereAgentPool) (snap : PoolSnapshot)
    (Hagents : Z.of_nat (length (sn_MatchingAgents snap)) < int32_half)
    (Hvms : Z.of_nat (length (sn_OwnedVMs snap)) < int32_half) :
  let surplus := List.filter surplusCandidate (pp_VMsToDelete (buildPlan now pool snap)) in
  (length surplus ≤ length (List.filter (λ a, negb (ai_Bound a)) (sn_MatchingAgents snap)))%nat ∧
  (sn_WaitingAgentMachines snap ≠ 0 ∨ sn_AgentMachinesWithoutAgent snap ≠ 0 → surplus = []).
Proof.
  intros surplus. subst surplus. rewrite buildPlan_VMsToDelete.
  rewrite count32_filter by done.
  set (unbound := List.filter (λ a, negb (ai_Bound a)) (sn_MatchingAgents snap)).
  destruct (deletionTargets_split now pool snap (Z.of_nat (length unbound)))
    as (deleted & surplus & orphans & -> & _ & Hd & Hs & Ho).
  rewrite !List.filter_app.
  rewrite (filter_none _ deleted), (filter_none _ orphans), app_nil_r; simpl.
  - destruct Hs as [->|(Hw & Hn & ->)]; simpl; [split; [lia|done]|].
    split; [|intros [?|?]; congruence].
    etrans; [apply filter_length_le|]. unfold surplusAvailableDeletionTargets.
    destruct (_ <=? 0) eqn:E; gobool; simpl; [lia|].
    pose proof (surplusLoop_bound (selectedVMNames deleted) (unboundAgents (sn_MatchingAgents snap))
      (Z.of_nat (length unbound)) (sn_OwnedVMs snap) [] []). simpl in *. lia.
  - destruct Ho as [->| ->]; [done|]. intros x [_ Hx]%in_filter_true.
    eapply surplusCandidate_exclusive. by right.
  - destruct Hd as [->| ->]; [done|]. intros x [_ Hx]%in_filter_true.
    apply (surplusCandidate_exclusive now ∅). by left.
Qed.

(** When the owned VMs have distinct names, so do the VMs a plan deletes: no
    VM is handed to the provider twice in one pass. *)
Theorem buildPlan_VMsToDelete_NoDup (now : Time) (pool : VsphereAgentPool) (snap : PoolSnapshot)
    (Hnd : List.NoDup (map vm_Name (sn_OwnedVMs snap))) :
  List.NoDup (map vm_Name (pp_VMsToDelete (buildPlan now pool snap))).
Proof.
  rewrite buildPlan_VMsToDelete.
  set (available := count32 _ _).
  destruct (deletionTargets_split now pool snap available)
    as (deleted & surplus & orphans & -> & _ & Hd & Hs & Ho).
  destruct (surplusTargets_spec (sn_OwnedVMs snap) (sn_MatchingAgents snap) deleted available)
    as (picked & Hp & Hsub & Hall).
  apply nodup_selections.
  - destruct Hd as [->| ->]; [constructor|by apply nodup_map_filter].
  - destruct Hs as [->|(_ & _ & ->)]; [constructor|]. rewrite Hp. by eapply nodup_map_sublist.
  - destruct Ho as [->| ->]; [constructor|by apply nodup_map_filter].
  - intros vm Hvm. destruct Hs as [->|(_ & _ & ->)]; [done|]. rewrite Hp in Hvm.
    destruct (Hall _ Hvm) as (Hc & ? & _). by apply surplusCandidate_spec in Hc as (? & _).
  - intros vm Hvm. destruct Ho as [->| ->]; [done|].
    apply in_filter_true in Hvm as [_ Ht]. by apply orphanedTarget_spec in Ht as (? & _ & _ & _ & ?).
Qed.

(** An Agent is patched exactly when it is observed, unbound, not being
    deleted, associated with an owned VM, and either its metadata differs from
    the pool or demand is waiting and its selection label is stale while its VM
    is active. *)
Theorem buildPlan_patches (now : Time) (pool : VsphereAgentPool) (snap : PoolSnapshot) (a : AgentInfo) :
  In a (pp_AgentsToPatch (buildPlan now pool snap)) ↔
  In a (sn_MatchingAgents snap) ∧ ai_Bound a = false ∧ ai_Deleting a = false ∧
  agentAssociatedWithOwnedVM (sn_OwnedVMs snap) a = true ∧
  (agentNeedsPatch pool a = true ∨
   (0 < sn_WaitingAgentMachines snap ∧ agentNeedsSelectionLabelPatch a = true ∧
    agentAssociatedWithActiveOwnedVM (sn_OwnedVMs snap) a = true)).
Proof.
  destruct (buildPlan_fields now pool snap) as (_ & _ & _ & _ & _ & ->).
  rewrite filter_In. unfold agentToPatch.
  destruct (ai_Bound a), (ai_Deleting a); simpl; try naive_solver.
  destruct (0 <? sn_WaitingAgentMachines snap) eqn:E; gobool;
    destruct (agentNeedsPatch pool a), (agentNeedsSelectionLabelPatch a),
      (agentAssociatedWithActiveOwnedVM (sn_OwnedVMs snap) a),
      (agentAssociatedWithOwnedVM (sn_OwnedVMs snap) a); simpl; try naive_solver lia.
Qed.

(** The plan is the single action Noop exactly when there is no deficit and
    no Agent or VM to patch or delete; otherwise it lists the actions of its
    work lists in order, one per element. *)
Theorem buildPlan_noop_iff (now : Time) (pool : VsphereAgentPool) (snap : PoolSnapshot) :
  let plan := buildPlan now pool snap in
  (List.filter (hasType actionNoop) (pp_Actions plan) ≠ [] ↔
   pp_DemandDeficit plan = 0 ∧ pp_AgentsToPatch plan = [] ∧ pp_VMsToDelete plan = [] ∧
   pp_AgentsToDelete plan = []) ∧
  (length (pp_Actions plan) =
   Nat.max 1 (Z.to_nat (pp_DemandDeficit plan) + length (pp_AgentsToPatch plan) +
              length (pp_VMsToDelete plan) + length (pp_AgentsToDelete plan)))%nat.
Proof.
  intros plan. pose proof (buildPlan_actions now pool snap) as Ha. fold plan in Ha. cbv zeta in Ha.
  destruct (buildPlan_fields now pool snap) as (_ & _ & _ & _ & Hd & _). fold plan in Hd.
  rewrite Ha. clear Ha.
  match goal with |- context [workActions plan ?r] => set (reason := r) end.
  assert (List.filter (hasType actionNoop) (workActions plan reason) = []) as Hno.
  { unfold workActions. rewrite !List.filter_app.
    rewrite !(filter_hasType_map _ _ _ actionPatchAgent), (filter_hasType_map _ _ _ actionDeleteVM),
      (filter_hasType_map _ _ _ actionDeleteAgent) by done.
    rewrite filter_none; [done|]. intros x ->%list_elem_of_In%elem_of_replicate_inv. done. }
  assert (length (workActions plan reason) = Z.to_nat (pp_DemandDeficit plan) +
    length (pp_AgentsToPatch plan) + length (pp_VMsToDelete plan) + length (pp_AgentsToDelete plan))%nat as Hlen.
  { unfold workActions. rewrite !length_app, length_replicate, !length_map. lia. }
  rewrite <- Hlen. destruct (workActions plan reason) as [|w ws] eqn:Hw; simpl in Hlen.
  - simpl. split; [|done]. split; [intros _|done].
    split; [lia|]. split_and!; apply nil_length_inv; lia.
  - rewrite Hno. split; [|simpl; lia]. split; [done|].
    intros (H0 & H1 & H2 & H3). rewrite H0, H1, H2, H3 in Hlen. simpl in Hlen. lia.
Qed.
