(* ===== verification/Metrics.v ===== *)
(** * Metrics

    internal/controller/metrics.go: the six metric vectors, what the controllers
    do to them, and the series a pool leaves behind.  The vectors live in the
    Prometheus client library; its operations are those of the class [Prometheus]
    and their documented behaviour is [PrometheusLaws].

    Values are float64 in the library.  The gauges are set to an int32, possibly
    multiplied by a power of two below 2^31, and the counters are incremented by
    one: every such value below 2^53 counts is a float64 exactly, so a value is an
    integer here. *)
From S2P Require Import Prelude Api Planner.

(** ** The vectors *)
Inductive metricVec :=
| vmOperationsTotal | isoOperationsTotal
| poolCapacityGauge | poolVMCPUCoresGauge | poolVMMemoryBytesGauge | poolVMDiskBytesGauge.

#[export] Instance metricVec_eq_dec : EqDecision metricVec.
Proof. solve_decision. Defined.

Definition poolMetricNamespaceLabel : string := "namespace".
Definition poolMetricPoolLabel : string := "pool".
Definition poolMetricStateLabel : string := "state".

Definition metricName (v : metricVec) : string :=
  match v with
  | vmOperationsTotal => "agent_forge_vsphere_vm_operations_total"
  | isoOperationsTotal => "agent_forge_iso_operations_total"
  | poolCapacityGauge => "agent_forge_pool_capacity"
  | poolVMCPUCoresGauge => "agent_forge_pool_vm_cpu_cores"
  | poolVMMemoryBytesGauge => "agent_forge_pool_vm_memory_bytes"
  | poolVMDiskBytesGauge => "agent_forge_pool_vm_disk_bytes"
  end.

(** The label names a vector is declared with. *)
Definition vecLabels (v : metricVec) : list string :=
  match v with
  | vmOperationsTotal | isoOperationsTotal => ["operation"; "result"]
  | poolCapacityGauge => [poolMetricNamespaceLabel; poolMetricPoolLabel; poolMetricStateLabel]
  | poolVMCPUCoresGauge | poolVMMemoryBytesGauge | poolVMDiskBytesGauge =>
      [poolMetricNamespaceLabel; poolMetricPoolLabel]
  end.

(** The gauges that describe a pool. *)
Definition isPoolGauge (v : metricVec) : bool :=
  match v with vmOperationsTotal | isoOperationsTotal => false | _ => true end.

(** prometheus.Labels, and the labels of WithLabelValues. *)
Abbreviation Labels := (gmap string string).
Definition labelValues (v : metricVec) (values : list string) : Labels :=
  list_to_map (zip (vecLabels v) values).

(** Operations on a vector. *)
Inductive metricOp :=
| Inc (v : metricVec) (l : Labels)
| SetTo (v : metricVec) (l : Labels) (value : Z)
| DeleteLabels (v : metricVec) (l : Labels)
| DeletePartialMatch (v : metricVec) (l : Labels).

(** With and WithLabelValues panic unless the labels given are the labels of the
    vector. *)
Definition consistent (op : metricOp) : Prop :=
  match op with
  | Inc v l | SetTo v l _ => dom l = list_to_set (vecLabels v)
  | DeleteLabels _ _ | DeletePartialMatch _ _ => True
  end.

(** ** What the controllers record *)
Definition metricResult (failed : bool) : string := if failed then "error" else "success".

(** The map literal of recordPoolCapacityMetrics. *)
Definition capacityStates (plan : PoolPlan) : list (string * Z) :=
  [("desired", pp_DesiredReplicas plan);
   ("agent_machines", pp_AgentMachines plan);
   ("waiting_agent_machines", pp_WaitingAgentMachines plan);
   ("unready_agent_machines", pp_UnreadyAgentMachines plan);
   ("without_agent", pp_AgentMachinesWithoutAgent plan);
   ("matching_agents", pp_MatchingAgents plan);
   ("bound_agents", pp_BoundAgents plan);
   ("available_agents", pp_AvailableAgents plan);
   ("pending_owned_vms", pp_PendingOwnedVMs plan);
   ("demand_deficit", pp_DemandDeficit plan)].

Definition poolLabels (pool : VsphereAgentPool) : Labels :=
  <[poolMetricNamespaceLabel := om_Namespace (pl_Meta pool)]>
    {[poolMetricPoolLabel := om_Name (pl_Meta pool)]}.

Definition labelsWithState (pool : VsphereAgentPool) (state : string) : Labels :=
  <[poolMetricStateLabel := state]> (poolLabels pool).

(** The loop ranges over a map: its order is not determined.  The operations are
    given for any enumeration of the map; [setPoolCapacity_order] shows that the
    outcome does not depend on it. *)
Definition capacityOps (pool : VsphereAgentPool) (states : list (string * Z)) : list metricOp :=
  map (λ sv, SetTo poolCapacityGauge (labelsWithState pool sv.1) sv.2) states.

Definition templateOps (pool : VsphereAgentPool) : list metricOp :=
  let template := ps_Template (pl_Spec pool) in
  [SetTo poolVMCPUCoresGauge (poolLabels pool) (vt_NumCPUs template);
   SetTo poolVMMemoryBytesGauge (poolLabels pool) (vt_MemoryMiB template * 1024 * 1024);
   SetTo poolVMDiskBytesGauge (poolLabels pool) (vt_DiskGiB template * 1024 * 1024 * 1024)].

Definition poolCapacityOps (pool : VsphereAgentPool) (plan : PoolPlan) : list metricOp :=
  capacityOps pool (capacityStates plan) ++ templateOps pool.

Definition deletePoolOps (pool : VsphereAgentPool) : list metricOp :=
  [DeletePartialMatch poolCapacityGauge (poolLabels pool);
   DeleteLabels poolVMCPUCoresGauge (poolLabels pool);
   DeleteLabels poolVMMemoryBytesGauge (poolLabels pool);
   DeleteLabels poolVMDiskBytesGauge (poolLabels pool)].

(** ** The client library

    A registry holds the series of the vectors: [series r v l] is the value of the
    series of [v] with the labels [l], if there is one. *)
Class Prometheus := {
  Registry : Type;
  series : Registry → metricVec → Labels → option Z;
  metricStep : metricOp → Registry → Registry }.

(** Inc and Set create a series that is missing, starting from zero.  Delete removes
    the series with exactly the labels given, DeletePartialMatch every series that
    carries them. *)
Class PrometheusLaws `{Prometheus} : Prop := {
  series_Inc r v l v' l' : consistent (Inc v l) →
    series (metricStep (Inc v l) r) v' l' =
      if decide (v = v' ∧ l = l') then Some (default 0 (series r v l) + 1) else series r v' l';
  series_SetTo r v l x v' l' : consistent (SetTo v l x) →
    series (metricStep (SetTo v l x) r) v' l' = if decide (v = v' ∧ l = l') then Some x else series r v' l';
  series_DeleteLabels r v l v' l' :
    series (metricStep (DeleteLabels v l) r) v' l' = if decide (v = v' ∧ l = l') then None else series r v' l';
  series_DeletePartialMatch r v l v' l' :
    series (metricStep (DeletePartialMatch v l) r) v' l' = if decide (v = v' ∧ l ⊆ l') then None else series r v' l' }.

(** The series of a pool. *)
Definition seriesOfPool (pool : VsphereAgentPool) (v : metricVec) (l : Labels) : Prop :=
  isPoolGauge v = true ∧ poolLabels pool ⊆ l.

(** An operation that leaves the gauges of other pools alone. *)
Definition opOfPool (pool : VsphereAgentPool) (op : metricOp) : Prop :=
  match op with
  | Inc v _ => isPoolGauge v = false
  | SetTo v l _ | DeleteLabels v l | DeletePartialMatch v l => isPoolGauge v = true → seriesOfPool pool v l
  end.

(** The value of the capacity gauge after its states were set. *)
Definition stateShown (pool : VsphereAgentPool) (states : list (string * Z)) (l : Labels) : option Z :=
  match l !! poolMetricStateLabel with
  | Some state => if decide (l = labelsWithState pool state)
                  then (list_to_map states : gmap string Z) !! state else None
  | None => None
  end.

(** The value a gauge of the pool shows after a plan was published. *)
Definition capacityShown (pool : VsphereAgentPool) (plan : PoolPlan) (v : metricVec) (l : Labels) : option Z :=
  let template := ps_Template (pl_Spec pool) in
  match v with
  | poolCapacityGauge => stateShown pool (capacityStates plan) l
  | poolVMCPUCoresGauge => if decide (l = poolLabels pool) then Some (vt_NumCPUs template) else None
  | poolVMMemoryBytesGauge => if decide (l = poolLabels pool) then Some (vt_MemoryMiB template * 1024 * 1024) else None
  | poolVMDiskBytesGauge => if decide (l = poolLabels pool) then Some (vt_DiskGiB template * 1024 * 1024 * 1024) else None
  | _ => None
  end.

Section registry.
Context `{Prometheus}.

(** Operations in the order they are made. *)
Definition metricSteps (ops : list metricOp) (r : Registry) : Registry :=
  foldl (λ r op, metricStep op r) r ops.

(** Every series carries the labels of its vector. *)
Definition wellLabelled (r : Registry) : Prop :=
  ∀ v l, is_Some (series r v l) → dom l = list_to_set (vecLabels v).

Definition noSeries (pool : VsphereAgentPool) (r : Registry) : Prop :=
  ∀ v l, seriesOfPool pool v l → series r v l = None.
End registry.

(** ** Lemmas *)
Lemma dom_poolLabels pool : dom (poolLabels pool) = list_to_set [poolMetricNamespaceLabel; poolMetricPoolLabel].
Proof. unfold poolLabels. rewrite dom_insert_L, dom_singleton_L. simpl. set_solver. Qed.

Lemma dom_labelsWithState pool state :
  dom (labelsWithState pool state) =
  list_to_set [poolMetricNamespaceLabel; poolMetricPoolLabel; poolMetricStateLabel].
Proof. unfold labelsWithState. rewrite dom_insert_L, dom_poolLabels. simpl. set_solver. Qed.

Lemma poolLabels_state pool : poolLabels pool !! poolMetricStateLabel = None.
Proof. by vm_compute. Qed.

Lemma poolLabels_subseteq_state pool state : poolLabels pool ⊆ labelsWithState pool state.
Proof. apply insert_subseteq, poolLabels_state. Qed.

(** Labels with the label names of a pool's gauges that carry those of the pool. *)
Lemma subseteq_same_dom (l l' : Labels) : l ⊆ l' → dom l' ⊆ dom l → l' = l.
Proof.
  intros Hs Hd. apply map_eq. intros k. destruct (l' !! k) as [x|] eqn:E.
  - assert (is_Some (l !! k)) as [y Hy] by (apply elem_of_dom, Hd, elem_of_dom; eauto).
    pose proof (lookup_weaken _ _ _ _ Hy Hs). congruence.
  - destruct (l !! k) as [y|] eqn:E'; [|done]. pose proof (lookup_weaken _ _ _ _ E' Hs). congruence.
Qed.

Section laws.
Context `{Prometheus} `{!PrometheusLaws}.

Lemma step_wellLabelled op r : consistent op → wellLabelled r → wellLabelled (metricStep op r).
Proof.
  intros Hc Hr v l. destruct op as [v' l'|v' l' x|v' l'|v' l'];
    rewrite ?series_Inc, ?series_SetTo, ?series_DeleteLabels, ?series_DeletePartialMatch by done;
    destruct (decide _) as [[-> ->]|?] || (destruct (decide _) as [_|?]); try (by intros [? [=]]); try (intros; by apply Hr).
Qed.

(** An operation of one pool leaves the gauges of the others alone. *)
Lemma step_other pool op r v l :
  consistent op → opOfPool pool op → isPoolGauge v = true → ¬ seriesOfPool pool v l →
  series (metricStep op r) v l = series r v l.
Proof.
  intros Hc Ho Hv Hs. destruct op as [v' l'|v' l' x|v' l'|v' l'];
    rewrite ?series_Inc, ?series_SetTo, ?series_DeleteLabels, ?series_DeletePartialMatch by done;
    destruct (decide _) as [[-> Hl]|?]; try done; simpl in Ho; [congruence|..];
    subst; try (destruct Hs; by apply Ho).
  destruct Hs. destruct (Ho Hv) as [_ ?]. split; [done|]. by transitivity l'.
Qed.

Lemma steps_cons op ops r : metricSteps (op :: ops) r = metricSteps ops (metricStep op r).
Proof. done. Qed.

Lemma labelsWithState_state pool state : labelsWithState pool state !! poolMetricStateLabel = Some state.
Proof. apply lookup_insert_eq. Qed.

(** Setting the states of the capacity gauge, in the order of any enumeration of
    the map. *)
Lemma setPoolCapacity pool states r v l :
  NoDup states.*1 →
  series (metricSteps (capacityOps pool states) r) v l =
  (if decide (v = poolCapacityGauge) then stateShown pool states l else None) ∪ series r v l.
Proof.
  revert r. induction states as [|[s x] states IH]; intros r Hnd; cbn [capacityOps map].
  { unfold stateShown. simpl. destruct (decide (v = _)), (l !! poolMetricStateLabel) as [s|];
      rewrite ?lookup_empty; try destruct (decide (l = labelsWithState pool s)); by destruct (series r v l). }
  apply NoDup_cons in Hnd as [Hs Hnd]. rewrite steps_cons. unfold capacityOps in IH. rewrite (IH _ Hnd), series_SetTo.
  2: { apply dom_labelsWithState. }
  unfold stateShown. simpl. destruct (decide (v = poolCapacityGauge)) as [->|Hv].
  2: { rewrite decide_False by naive_solver. by destruct (series r v l). }
  destruct (decide (poolCapacityGauge = poolCapacityGauge ∧ labelsWithState pool s = l)) as [[_ <-]|Hne].
  - rewrite labelsWithState_state, lookup_insert_eq, decide_True by done.
    rewrite (not_elem_of_list_to_map_1 states s) by done.
    rewrite decide_True by done. by destruct (series r _ _).
  - destruct (l !! _) as [s'|]; [|done]. destruct (decide (l = _)) as [->|]; [|done].
    rewrite lookup_insert_ne by naive_solver. done.
Qed.

Lemma setPoolCapacity_order pool states states' r v l :
  NoDup states.*1 → states ≡ₚ states' →
  series (metricSteps (capacityOps pool states) r) v l = series (metricSteps (capacityOps pool states') r) v l.
Proof.
  intros Hnd Hp. rewrite !setPoolCapacity; [|by rewrite <- Hp|done]. unfold stateShown.
  by rewrite (list_to_map_proper states states').
Qed.

Lemma capacityStates_NoDup plan : NoDup (capacityStates plan).*1.
Proof. simpl. repeat constructor; set_solver. Qed.

(** After a plan was published, the gauges of the pool show it and the other series
    are as before. *)
Lemma poolCapacityOps_series pool plan r v l :
  series (metricSteps (poolCapacityOps pool plan) r) v l = capacityShown pool plan v l ∪ series r v l.
Proof.
  unfold poolCapacityOps, metricSteps. rewrite foldl_app. fold (metricSteps (capacityOps pool (capacityStates plan)) r).
  unfold templateOps. cbn [foldl]. rewrite !series_SetTo by apply dom_poolLabels.
  rewrite setPoolCapacity by apply capacityStates_NoDup. unfold capacityShown.
  destruct v; repeat (rewrite decide_False by naive_solver); rewrite ?decide_True by done; try done;
    destruct (series r _ l); repeat destruct (decide _); naive_solver.
Qed.

(** After the series of a pool were deleted there is none, and the other series are as
    before. *)
Lemma deletePoolOps_noSeries pool r : wellLabelled r → noSeries pool (metricSteps (deletePoolOps pool) r).
Proof.
  intros Hr v l [Hv Hl]. unfold deletePoolOps, metricSteps. cbn [foldl].
  rewrite !series_DeleteLabels, series_DeletePartialMatch.
  destruct v; try done; repeat (rewrite decide_False by naive_solver); [by rewrite decide_True by done|..];
    (destruct (decide _) as [|Hne]; [done|]); rewrite ?decide_False by naive_solver;
    (destruct (series r _ l) eqn:E; [|done]); destruct Hne; (split; [done|]); symmetry; apply subseteq_same_dom; try done;
    rewrite (Hr _ _ (mk_is_Some _ _ E)), dom_poolLabels; done.
Qed.

Lemma poolCapacityOps_ok pool plan : Forall (λ op, consistent op ∧ opOfPool pool op) (poolCapacityOps pool plan).
Proof.
  unfold poolCapacityOps. apply Forall_app. split.
  - apply Forall_map, Forall_true. intros [s x]. split; [apply dom_labelsWithState|].
    intros _. split; [done|]. apply poolLabels_subseteq_state.
  - repeat constructor; try apply dom_poolLabels; done.
Qed.

Lemma deletePoolOps_ok pool : Forall (λ op, consistent op ∧ opOfPool pool op) (deletePoolOps pool).
Proof. repeat constructor; done. Qed.
End laws.

(** The registry as a finite map satisfies the laws. *)
Section instance.
#[local] Instance metricVec_countable : Countable metricVec.
Proof.
  refine (inj_countable metricName (λ s, List.find (λ v, metricName v == s)
    [vmOperationsTotal; isoOperationsTotal; poolCapacityGauge; poolVMCPUCoresGauge; poolVMMemoryBytesGauge;
     poolVMDiskBytesGauge]) _). by intros [].
Defined.

Definition gmapRegistry : Prometheus := {|
  Registry := gmap (metricVec * Labels) Z;
  series r v l := r !! (v, l);
  metricStep op r := match op with
    | Inc v l => <[(v, l) := default 0 (r !! (v, l)) + 1]> r
    | SetTo v l x => <[(v, l) := x]> r
    | DeleteLabels v l => delete (v, l) r
    | DeletePartialMatch v l => filter (λ kv, ¬ (v = kv.1.1 ∧ l ⊆ kv.1.2)) r
    end |}.

Lemma gmapRegistry_laws : @PrometheusLaws gmapRegistry.
Proof.
  split; intros; simpl.
  - destruct (decide _) as [[-> ->]|?]; [apply lookup_insert_eq|apply lookup_insert_ne; naive_solver].
  - destruct (decide _) as [[-> ->]|?]; [apply lookup_insert_eq|apply lookup_insert_ne; naive_solver].
  - destruct (decide _) as [[-> ->]|?]; [apply lookup_delete_eq|apply lookup_delete_ne; naive_solver].
  - destruct (decide _) as [Hd|Hd].
    + apply map_lookup_filter_None. right. intros x _. naive_solver.
    + destruct (r !! (v', l')) as [x|] eqn:E.
      * etransitivity; [by apply map_lookup_filter_Some|by symmetry].
      * etransitivity; [apply map_lookup_filter_None; by left|by symmetry].
Qed.
End instance.
