(* ===== verification/OwnedVMs.v ===== *)
(** * The lifecycle of the owned VMs

    internal/controller/vsphereagentpool_controller.go: how one reconcile pass
    of a pool advances the status of its owned VMs.  refreshOwnedVMStatuses
    correlates the recorded VMs with the observed Agents and Machines; a VM
    moves between the phases Provisioning, Available, Bound, Released and
    Orphaned.

    Time: [now] is the value of time.Now read once by refreshOwnedVMStatuses.
    Every setOwnedVMPhase reads the clock again; the argument [clock i k] is the
    value read by the k-th such call while the i-th entry is computed, so that
    the theorems hold for every behaviour of the clock. *)
From S2P Require Import Prelude Api Identity Planner.

(** ** Data *)
Record MachineInfo := mkMachineInfo {
  mi_Name : string;
  mi_Deleting : bool }.

Definition agentGroupVersion : string := "agent-install.openshift.io/v1beta1".
Definition machineGroupVersion : string := "cluster.x-k8s.io/v1beta1".
Definition k8sKindAgent : string := "Agent".
Definition k8sKindMachine : string := "Machine".

Definition agentObjectReference (pool : VsphereAgentPool) (name : string) : ObjectReference :=
  mkObjectReference agentGroupVersion k8sKindAgent (om_Namespace (pl_Meta pool)) name "".

Definition machineObjectReference (pool : VsphereAgentPool) (name : string) : ObjectReference :=
  mkObjectReference machineGroupVersion k8sKindMachine (ps_ControlPlaneNamespace (pl_Spec pool)) name "".

(** ** Phase changes *)
Definition setOwnedVMPhase (t : Time) (vm : OwnedVMStatus) (phase reason : string) : OwnedVMStatus :=
  if (vm_Phase vm == phase) && (vm_Reason vm == reason) then vm
  else vm <| vm_Phase := phase |> <| vm_Reason := reason |> <| vm_LastTransitionTime := t |>.

Definition vmHadDiscoveredAgent (vm : OwnedVMStatus) : bool :=
  if match vm_AgentRef vm with Some ref => or_Name ref != "" | None => false end then true
  else (vm_Phase vm == phaseAvailable) || (vm_Phase vm == phaseBound) || (vm_Phase vm == phaseReleased).

Definition ownedVMDiscoveryExpired (vm : OwnedVMStatus) (now : Time) : bool :=
  if vm_Phase vm == phaseOrphaned then true
  else if (vm_Phase vm != phaseProvisioning) || (vm_Reason vm != reasonAgentNotDiscovered) ||
          IsZero (vm_LastTransitionTime vm) then false
  else negb (Before now (vm_LastTransitionTime vm + orphanedOwnedVMGracePeriod)).

Definition markOwnedVMWithoutMatchingAgent (t : Time) (vm : OwnedVMStatus) (now : Time) : OwnedVMStatus :=
  let wasOrphaned := vm_Phase vm == phaseOrphaned in
  let hadDiscoveredAgent := vmHadDiscoveredAgent vm in
  let previousTransitionTime := vm_LastTransitionTime vm in
  if wasOrphaned then vm
  else if hadDiscoveredAgent then setOwnedVMPhase t vm phaseOrphaned "AgentMissing"
  else if ownedVMDiscoveryExpired vm now then
    let vm' := setOwnedVMPhase t vm phaseOrphaned "AgentDiscoveryExpired" in
    if negb (IsZero previousTransitionTime)
    then vm' <| vm_LastTransitionTime := previousTransitionTime |> else vm'
  else setOwnedVMPhase t vm phaseProvisioning reasonAgentNotDiscovered.

Definition applyAgentToOwnedVMStatus (t : Time) (pool : VsphereAgentPool) (vm : OwnedVMStatus)
    (agent : AgentInfo) : OwnedVMStatus :=
  let vm := vm <| vm_AgentRef := Some (agentObjectReference pool (ai_Name agent)) |> in
  let vm := if ai_MAC agent != "" then vm <| vm_MACAddress := ai_MAC agent |> else vm in
  let vm := if ai_BIOSUUID agent != "" then vm <| vm_BIOSUUID := ai_BIOSUUID agent |> else vm in
  let vm := if ai_MachineName agent != ""
            then vm <| vm_MachineRef := Some (machineObjectReference pool (ai_MachineName agent)) |>
            else vm <| vm_MachineRef := None |> in
  if ai_Bound agent then setOwnedVMPhase t vm phaseBound "AgentBound"
  else if (vm_Phase vm == phaseBound) || (vm_Phase vm == phaseReleased)
       then setOwnedVMPhase t vm phaseReleased reasonAgentReleased
       else setOwnedVMPhase t vm phaseAvailable "AgentAvailable".

Definition applyMachineStateToOwnedVMStatus (t : Time) (vm : OwnedVMStatus)
    (machines : gmap string MachineInfo) : OwnedVMStatus :=
  if objectReferenceName (vm_MachineRef vm) == "" then
    if (vm_Phase vm == phaseReleased) && (vm_Reason vm == reasonMachineDeleting)
    then setOwnedVMPhase t vm phaseReleased reasonMachineDeleted else vm
  else match machines !! objectReferenceName (vm_MachineRef vm) with
       | None =>
           if (vm_Phase vm == phaseReleased) &&
              ((vm_Reason vm == reasonMachineDeleting) || (vm_Reason vm == reasonAgentReleased))
           then setOwnedVMPhase t vm phaseReleased reasonMachineDeleted else vm
       | Some machine =>
           if mi_Deleting machine then setOwnedVMPhase t vm phaseReleased reasonMachineDeleting else vm
       end.

Definition agentOwnedVMStatus (clk : nat → Time) (pool : VsphereAgentPool) (agent : AgentInfo)
    (hostname : string) : OwnedVMStatus :=
  applyAgentToOwnedVMStatus (clk 1%nat) pool
    (mkOwnedVMStatus hostname "" vmSourceDiscoveredAgent "" (ai_MAC agent) None None "" "" (clk 0%nat))
    agent.

Definition newOwnedVMStatus (t : Time) (name : string) : OwnedVMStatus :=
  mkOwnedVMStatus name "" vmSourceVsphereAgent "" "" None None phaseProvisioning reasonVMCreateRequested t.

(** The name is not unique in general: only the first VM of that name is changed. *)
Fixpoint markOwnedVMAvailable (t : Time) (pool : VsphereAgentPool) (vms : list OwnedVMStatus)
    (hostname agentName : string) : list OwnedVMStatus :=
  match vms with
  | [] => []
  | vm :: rest =>
      if vm_Name vm != hostname then vm :: markOwnedVMAvailable t pool rest hostname agentName
      else setOwnedVMPhase t (vm <| vm_AgentRef := Some (agentObjectReference pool agentName) |>
                                 <| vm_MachineRef := None |>) phaseAvailable "AgentPrepared" :: rest
  end.

(** ** refreshOwnedVMStatuses *)
Definition machineStatesOf (machines : list MachineInfo) : gmap string MachineInfo :=
  foldl (λ m machine, <[mi_Name machine := machine]> m) ∅ machines.

(** The body of the first loop for a VM with a matching Agent. *)
Definition refreshMatchedVM (clk : nat → Time) (pool : VsphereAgentPool)
    (machineStates : gmap string MachineInfo) (vm : OwnedVMStatus) (agent : AgentInfo) : OwnedVMStatus :=
  let wasMachineDeleting := (vm_Phase vm == phaseReleased) && (vm_Reason vm == reasonMachineDeleting) in
  let previousMachineRef := vm_MachineRef vm in
  let vm := applyAgentToOwnedVMStatus (clk 0%nat) pool vm agent in
  let vm := if negb (ai_Bound agent) && (vm_MachineRef vm == None) && (previousMachineRef != None)
            then vm <| vm_MachineRef := previousMachineRef |> else vm in
  let vm := if wasMachineDeleting then
              let vm := if (objectReferenceName (vm_MachineRef vm) == "") &&
                           (objectReferenceName previousMachineRef != "")
                        then vm <| vm_MachineRef := previousMachineRef |> else vm in
              setOwnedVMPhase (clk 1%nat) vm phaseReleased reasonMachineDeleting
            else vm in
  applyMachineStateToOwnedVMStatus (clk 2%nat) vm machineStates.

(** The body of the first loop for a VM without a matching Agent. *)
Definition refreshUnmatchedVM (clk : nat → Time) (now : Time)
    (machineStates : gmap string MachineInfo) (vm : OwnedVMStatus) : OwnedVMStatus :=
  match machineStates !! objectReferenceName (vm_MachineRef vm) with
  | Some machine =>
      if mi_Deleting machine then setOwnedVMPhase (clk 0%nat) vm phaseReleased reasonMachineDeleting else vm
  | None => markOwnedVMWithoutMatchingAgent (clk 0%nat) vm now
  end.

Definition refreshVM (clk : nat → Time) (now : Time) (pool : VsphereAgentPool)
    (agentLookup : agentIdentityLookup) (machineStates : gmap string MachineInfo)
    (vm : OwnedVMStatus) : OwnedVMStatus :=
  match lookupMatch agentLookup vm with
  | None => refreshUnmatchedVM clk now machineStates vm
  | Some agent => refreshMatchedVM clk pool machineStates vm agent
  end.

(** The names of the Agents matched by the first loop. *)
Definition matchedAgentNames (agentLookup : agentIdentityLookup) (vms : list OwnedVMStatus) : gset string :=
  list_to_set (omap (λ vm, ai_Name <$> lookupMatch agentLookup vm) vms).

(** The second loop adds an entry for every Agent without one. *)
Fixpoint discoveredLoop (clock : nat → nat → Time) (i : nat) (pool : VsphereAgentPool)
    (machineStates : gmap string MachineInfo) (matchedAgents knownVMNames : gset string)
    (agents : list AgentInfo) : list OwnedVMStatus :=
  match agents with
  | [] => []
  | agent :: rest =>
      let hostname := agentObservedHostname agent in
      if bool_decide (ai_Name agent ∈ matchedAgents) || (hostname == "") ||
         bool_decide (hostname ∈ knownVMNames)
      then discoveredLoop clock (S i) pool machineStates matchedAgents knownVMNames rest
      else applyMachineStateToOwnedVMStatus (clock i 2%nat)
             (agentOwnedVMStatus (clock i) pool agent hostname) machineStates ::
           discoveredLoop clock (S i) pool machineStates matchedAgents ({[hostname]} ∪ knownVMNames) rest
  end.

Definition refreshOwnedVMStatuses (clock : nat → nat → Time) (now : Time) (pool : VsphereAgentPool)
    (agents : list AgentInfo) (machines : list MachineInfo) : list OwnedVMStatus :=
  let agentLookup := newAgentIdentityLookup agents in
  let machineStates := machineStatesOf machines in
  let owned := pt_OwnedVMs (pl_Status pool) in
  imap (λ i vm, refreshVM (clock i) now pool agentLookup machineStates vm) owned ++
  discoveredLoop clock (length owned) pool machineStates (matchedAgentNames agentLookup owned)
    (selectedVMNames owned) agents.

(** ** Reference definition of the lifecycle

    What is known of the Machine a VM refers to. *)
Inductive machineObservation :=
| NoMachine      (* no Machine is referenced *)
| MachineGone    (* the referenced Machine does not exist *)
| MachineAlive
| MachineGoing.  (* the referenced Machine is being deleted *)

Definition observeMachine (machineStates : gmap string MachineInfo) (name : string) : machineObservation :=
  if name == "" then NoMachine
  else match machineStates !! name with
       | None => MachineGone
       | Some m => if mi_Deleting m then MachineGoing else MachineAlive
       end.

(** The Machine a VM with a matching Agent refers to afterwards: the Agent's,
    else the previous one when the Agent was released or the Machine was seen
    going. *)
Definition matchedMachineName (vm : OwnedVMStatus) (agent : AgentInfo) (wasMachineDeleting : bool) : string :=
  if ai_MachineName agent != "" then ai_MachineName agent
  else if negb (ai_Bound agent) || wasMachineDeleting then objectReferenceName (vm_MachineRef vm)
  else "".

(** Phase and reason of a VM with a matching Agent. *)
Definition matchedLifecycle (obs : machineObservation) (wasMachineDeleting bound wasUsed : bool) : string * string :=
  match obs with
  | MachineGoing => (phaseReleased, reasonMachineDeleting)
  | _ =>
      if wasMachineDeleting then
        (phaseReleased, match obs with MachineAlive => reasonMachineDeleting | _ => reasonMachineDeleted end)
      else if bound then (phaseBound, "AgentBound")
      else if wasUsed then
        (phaseReleased, match obs with MachineGone => reasonMachineDeleted | _ => reasonAgentReleased end)
      else (phaseAvailable, "AgentAvailable")
  end.

(** ** Lemmas on the field updates *)
Section set_phase.
Context (t : Time) (vm : OwnedVMStatus) (phase reason : string).

Lemma setPhase_Phase : vm_Phase (setOwnedVMPhase t vm phase reason) = phase.
Proof. unfold setOwnedVMPhase. by gocases. Qed.
Lemma setPhase_Reason : vm_Reason (setOwnedVMPhase t vm phase reason) = reason.
Proof. unfold setOwnedVMPhase. by gocases. Qed.
Lemma setPhase_Name : vm_Name (setOwnedVMPhase t vm phase reason) = vm_Name vm.
Proof. unfold setOwnedVMPhase. by gocases. Qed.
Lemma setPhase_Source : vm_Source (setOwnedVMPhase t vm phase reason) = vm_Source vm.
Proof. unfold setOwnedVMPhase. by gocases. Qed.
Lemma setPhase_AgentRef : vm_AgentRef (setOwnedVMPhase t vm phase reason) = vm_AgentRef vm.
Proof. unfold setOwnedVMPhase. by gocases. Qed.
Lemma setPhase_MachineRef : vm_MachineRef (setOwnedVMPhase t vm phase reason) = vm_MachineRef vm.
Proof. unfold setOwnedVMPhase. by gocases. Qed.
Lemma setPhase_OwnerUID : vm_OwnerUID (setOwnedVMPhase t vm phase reason) = vm_OwnerUID vm.
Proof. unfold setOwnedVMPhase. by gocases. Qed.

(** The transition time moves exactly when phase or reason do. *)
Lemma setPhase_time :
  vm_LastTransitionTime (setOwnedVMPhase t vm phase reason) =
  if bool_decide (vm_Phase vm = phase ∧ vm_Reason vm = reason) then vm_LastTransitionTime vm else t.
Proof. unfold setOwnedVMPhase. rewrite bool_decide_and. by destruct (_ && _). Qed.
End set_phase.

#[export] Hint Rewrite setPhase_Phase setPhase_Reason setPhase_Name setPhase_Source setPhase_AgentRef
  setPhase_MachineRef setPhase_OwnerUID : gorw.

(** What an Agent's observation makes of a VM. *)
Section apply_agent.
Context (t : Time) (pool : VsphereAgentPool) (vm : OwnedVMStatus) (agent : AgentInfo).

Lemma applyAgent_state :
  let vm' := applyAgentToOwnedVMStatus t pool vm agent in
  (vm_Phase vm', vm_Reason vm') =
    matchedLifecycle NoMachine false (ai_Bound agent)
      ((vm_Phase vm == phaseBound) || (vm_Phase vm == phaseReleased)) ∧
  vm_MachineRef vm' = (if ai_MachineName agent != ""
                       then Some (machineObjectReference pool (ai_MachineName agent)) else None) ∧
  vm_AgentRef vm' = Some (agentObjectReference pool (ai_Name agent)) ∧
  vm_Name vm' = vm_Name vm ∧ vm_Source vm' = vm_Source vm ∧ vm_OwnerUID vm' = vm_OwnerUID vm.
Proof.
  cbv zeta. unfold applyAgentToOwnedVMStatus, matchedLifecycle.
  destruct (ai_MAC agent != ""), (ai_BIOSUUID agent != ""), (ai_MachineName agent != ""),
    (ai_Bound agent); simpl; autorewrite with gorw; simpl; try done;
    destruct (_ || _); by autorewrite with gorw.
Qed.
End apply_agent.

(** What the observation of the Machine makes of a VM. *)
Lemma applyMachineState_state t vm machineStates :
  let vm' := applyMachineStateToOwnedVMStatus t vm machineStates in
  let obs := observeMachine machineStates (objectReferenceName (vm_MachineRef vm)) in
  let deleting := (vm_Phase vm == phaseReleased) && (vm_Reason vm == reasonMachineDeleting) in
  let released := (vm_Phase vm == phaseReleased) && (vm_Reason vm == reasonAgentReleased) in
  (vm_Phase vm', vm_Reason vm') =
    match obs with
    | MachineGoing => (phaseReleased, reasonMachineDeleting)
    | MachineAlive => (vm_Phase vm, vm_Reason vm)
    | MachineGone => if deleting || released then (phaseReleased, reasonMachineDeleted)
                     else (vm_Phase vm, vm_Reason vm)
    | NoMachine => if deleting then (phaseReleased, reasonMachineDeleted) else (vm_Phase vm, vm_Reason vm)
    end ∧
  vm_MachineRef vm' = vm_MachineRef vm ∧ vm_AgentRef vm' = vm_AgentRef vm ∧
  vm_Name vm' = vm_Name vm ∧ vm_Source vm' = vm_Source vm ∧ vm_OwnerUID vm' = vm_OwnerUID vm.
Proof.
  unfold applyMachineStateToOwnedVMStatus, observeMachine. cbv zeta.
  destruct (objectReferenceName (vm_MachineRef vm) == "").
  { destruct (_ && _); by autorewrite with gorw. }
  destruct (machineStates !! _) as [m|].
  { destruct (mi_Deleting m); by autorewrite with gorw. }
  rewrite <- andb_orb_distrib_r. destruct (_ && _); by autorewrite with gorw.
Qed.

(** The two observations combine to the lifecycle of the reference definition. *)
Lemma matchedLifecycle_machine obs (was bound used : bool) (phase reason : string) :
  (phase, reason) = (if was then (phaseReleased, reasonMachineDeleting)
                     else matchedLifecycle NoMachine false bound used) →
  let deleting := (phase == phaseReleased) && (reason == reasonMachineDeleting) in
  let released := (phase == phaseReleased) && (reason == reasonAgentReleased) in
  match obs with
  | MachineGoing => (phaseReleased, reasonMachineDeleting)
  | MachineAlive => (phase, reason)
  | MachineGone => if deleting || released then (phaseReleased, reasonMachineDeleted) else (phase, reason)
  | NoMachine => if deleting then (phaseReleased, reasonMachineDeleted) else (phase, reason)
  end = matchedLifecycle obs was bound used.
Proof.
  destruct was, bound, used; cbn [matchedLifecycle]; intros [= -> ->]; destruct obs; reflexivity.
Qed.

(** The matched branch of refreshOwnedVMStatuses. *)
Lemma refreshMatchedVM_state clk pool machineStates vm agent :
  let vm' := refreshMatchedVM clk pool machineStates vm agent in
  let wasMachineDeleting := (vm_Phase vm == phaseReleased) && (vm_Reason vm == reasonMachineDeleting) in
  let machine := matchedMachineName vm agent wasMachineDeleting in
  (vm_Phase vm', vm_Reason vm') =
    matchedLifecycle (observeMachine machineStates machine) wasMachineDeleting (ai_Bound agent)
      ((vm_Phase vm == phaseBound) || (vm_Phase vm == phaseReleased)) ∧
  objectReferenceName (vm_MachineRef vm') = machine ∧
  vm_AgentRef vm' = Some (agentObjectReference pool (ai_Name agent)) ∧
  vm_Name vm' = vm_Name vm ∧ vm_Source vm' = vm_Source vm ∧ vm_OwnerUID vm' = vm_OwnerUID vm.
Proof.
  cbv zeta. unfold refreshMatchedVM.
  pose proof (applyAgent_state (clk 0%nat) pool vm agent) as HA. cbv zeta in HA.
  set (vm1 := applyAgentToOwnedVMStatus _ pool vm agent) in *.
  destruct HA as (Hst & Hmr & Har & Hn & Hs & Ho).
  match goal with |- context [applyMachineStateToOwnedVMStatus (clk 2%nat) ?v machineStates] =>
    set (vm2 := v) end.
  pose proof (applyMachineState_state (clk 2%nat) vm2 machineStates) as HB. cbv zeta in HB.
  destruct HB as (Hst2 & Hmr2 & Har2 & Hn2 & Hs2 & Ho2).
  set (was := (vm_Phase vm == phaseReleased) && (vm_Reason vm == reasonMachineDeleting)) in *.
  assert (objectReferenceName (vm_MachineRef vm2) = matchedMachineName vm agent was) as Hname.
  { subst vm2. unfold matchedMachineName.
    destruct (ai_MachineName agent != "") eqn:Em, (ai_Bound agent), was; rewrite ?Hmr; simpl;
      destruct (vm_MachineRef vm) as [ref|] eqn:Er; simpl; bdsimp; autorewrite with gorw; simpl;
      rewrite ?Hmr; simpl; gobool; bdsimp; rewrite ?Hmr; try done;
      by destruct (decide (or_Name ref = "")); bdsimp; rewrite ?Hmr. }
  rewrite Hname in Hst2.
  assert ((vm_Phase vm2, vm_Reason vm2) = if was then (phaseReleased, reasonMachineDeleting)
            else (vm_Phase vm1, vm_Reason vm1)) as Hst12
    by (subst vm2; destruct was; autorewrite with gorw; [done|]; by destruct (_ && _ && _)).
  rewrite Hst in Hst12.
  assert (vm_AgentRef vm2 = vm_AgentRef vm1 ∧ vm_Name vm2 = vm_Name vm1 ∧
          vm_Source vm2 = vm_Source vm1 ∧ vm_OwnerUID vm2 = vm_OwnerUID vm1) as (E1 & E2 & E3 & E4)
    by (subst vm2; destruct was; autorewrite with gorw; destruct (_ && _ && _); simpl;
        try destruct (_ && _); done).
  split; [|by rewrite Hmr2, Har2, Hn2, Hs2, Ho2, E1, E2, E3, E4].
  rewrite Hst2. by apply matchedLifecycle_machine.
Qed.

(** A VM with a matching Agent is never Orphaned, and MachineDeleted only when
    its Machine is not there. *)
Lemma refreshMatchedVM_not_orphaned clk pool machineStates vm agent :
  vm_Phase (refreshMatchedVM clk pool machineStates vm agent) ≠ phaseOrphaned.
Proof.
  destruct (refreshMatchedVM_state clk pool machineStates vm agent) as (Hst & _).
  apply (f_equal fst) in Hst. simpl in Hst. rewrite Hst.
  generalize (observeMachine machineStates (matchedMachineName vm agent
    ((vm_Phase vm == phaseReleased) && (vm_Reason vm == reasonMachineDeleting)))).
  intros obs. unfold matchedLifecycle. destruct obs, (_ && _), (ai_Bound agent), (_ || _); done.
Qed.

Lemma matchedLifecycle_deleted obs (was bound used : bool) :
  (matchedLifecycle obs was bound used).2 = reasonMachineDeleted →
  (matchedLifecycle obs was bound used).1 = phaseReleased ∧ (obs = NoMachine ∨ obs = MachineGone).
Proof. destruct obs, was, bound, used; simpl; auto; done. Qed.

Lemma observeMachine_gone machineStates n :
  observeMachine machineStates n = NoMachine ∨ observeMachine machineStates n = MachineGone →
  n = "" ∨ machineStates !! n = None.
Proof.
  unfold observeMachine. destruct (n == "") eqn:E; gobool; [by left|].
  destruct (machineStates !! n) as [m|]; [|by right]. destruct (mi_Deleting m); naive_solver.
Qed.

(** The unmatched branch of refreshOwnedVMStatuses. *)
Lemma refreshUnmatchedVM_kept clk now machineStates vm :
  let vm' := refreshUnmatchedVM clk now machineStates vm in
  vm_Name vm' = vm_Name vm ∧ vm_Source vm' = vm_Source vm ∧ vm_OwnerUID vm' = vm_OwnerUID vm ∧
  vm_AgentRef vm' = vm_AgentRef vm ∧ vm_MachineRef vm' = vm_MachineRef vm.
Proof.
  cbv zeta. unfold refreshUnmatchedVM, markOwnedVMWithoutMatchingAgent.
  destruct (machineStates !! _) as [m|]; [destruct (mi_Deleting m); by autorewrite with gorw|].
  destruct (vm_Phase vm == phaseOrphaned); [done|].
  destruct (vmHadDiscoveredAgent vm); [by autorewrite with gorw|].
  destruct (ownedVMDiscoveryExpired vm now); [|by autorewrite with gorw].
  destruct (IsZero _); simpl; by autorewrite with gorw.
Qed.

Lemma discoveryExpired_spec vm now :
  ownedVMDiscoveryExpired vm now = true → vm_Phase vm ≠ phaseOrphaned →
  vm_Phase vm = phaseProvisioning ∧ vm_Reason vm = reasonAgentNotDiscovered ∧ vm_LastTransitionTime vm ≠ 0 ∧
  vm_LastTransitionTime vm + orphanedOwnedVMGracePeriod ≤ now.
Proof.
  unfold ownedVMDiscoveryExpired, IsZero, Before. intros He Hp. rewrite (bool_decide_false _ Hp) in He.
  destruct (_ || _) eqn:E; [done|]. gobool. unfold Time in *. split_and!; [done|done|done|lia].
Qed.

(** A VM becomes Orphaned only without a Machine, on losing its Agent (timed
    now) or on an expired discovery (timed at the start of the discovery). *)
Lemma refreshUnmatchedVM_orphaned clk now machineStates vm :
  let vm' := refreshUnmatchedVM clk now machineStates vm in
  vm_Phase vm' = phaseOrphaned →
  vm' = vm ∨
  (machineStates !! objectReferenceName (vm_MachineRef vm) = None ∧
   ((vmHadDiscoveredAgent vm = true ∧ vm_Reason vm' = "AgentMissing" ∧ vm_LastTransitionTime vm' = clk 0%nat) ∨
    (vmHadDiscoveredAgent vm = false ∧ ownedVMDiscoveryExpired vm now = true ∧
     vm_Reason vm' = "AgentDiscoveryExpired" ∧ vm_LastTransitionTime vm' = vm_LastTransitionTime vm))).
Proof.
  cbv zeta. unfold refreshUnmatchedVM.
  destruct (machineStates !! _) as [m|].
  { destruct (mi_Deleting m); [autorewrite with gorw; done|by left]. }
  unfold markOwnedVMWithoutMatchingAgent.
  destruct (vm_Phase vm == phaseOrphaned) eqn:Ep; gobool; [by left|].
  destruct (vmHadDiscoveredAgent vm) eqn:Eh.
  { intros _. right. split; [done|]. left. autorewrite with gorw. rewrite setPhase_time.
    rewrite bool_decide_false by naive_solver. done. }
  destruct (ownedVMDiscoveryExpired vm now) eqn:Ee; [|by autorewrite with gorw].
  intros _. right. split; [done|]. right.
  assert (IsZero (vm_LastTransitionTime vm) = false) as Hz.
  { unfold ownedVMDiscoveryExpired in Ee. rewrite (bool_decide_false _ Ep) in Ee.
    destruct (IsZero (vm_LastTransitionTime vm)); [by rewrite orb_true_r in Ee|done]. }
  rewrite Hz. simpl. by autorewrite with gorw.
Qed.

(** MachineDeleted is not introduced without a matching Agent. *)
Lemma refreshUnmatchedVM_machineDeleted clk now machineStates vm :
  let vm' := refreshUnmatchedVM clk now machineStates vm in
  vm_Reason vm' = reasonMachineDeleted → vm' = vm.
Proof.
  cbv zeta. unfold refreshUnmatchedVM, markOwnedVMWithoutMatchingAgent.
  destruct (machineStates !! _) as [m|]; [destruct (mi_Deleting m); by autorewrite with gorw|].
  destruct (vm_Phase vm == phaseOrphaned); [done|].
  destruct (vmHadDiscoveredAgent vm); [by autorewrite with gorw|].
  destruct (ownedVMDiscoveryExpired vm now); [|by autorewrite with gorw].
  destruct (IsZero _); simpl; by autorewrite with gorw.
Qed.

Lemma refreshVM_kept clk now pool lookup machineStates vm :
  let vm' := refreshVM clk now pool lookup machineStates vm in
  vm_Name vm' = vm_Name vm ∧ vm_Source vm' = vm_Source vm ∧ vm_OwnerUID vm' = vm_OwnerUID vm.
Proof.
  cbv zeta. unfold refreshVM. destruct (lookupMatch lookup vm) as [a|].
  - pose proof (refreshMatchedVM_state clk pool machineStates vm a). naive_solver.
  - pose proof (refreshUnmatchedVM_kept clk now machineStates vm). naive_solver.
Qed.

Lemma machineStates_None machines n :
  machineStatesOf machines !! n = None ↔ ¬ In n (map mi_Name machines).
Proof.
  unfold machineStatesOf. induction machines as [|m machines IH] using rev_ind; simpl.
  { rewrite lookup_empty. tauto. }
  rewrite foldl_snoc, map_app, in_app_iff, lookup_insert. simpl.
  case_decide; naive_solver.
Qed.

Lemma machineStates_Some machines n m :
  machineStatesOf machines !! n = Some m → In m machines ∧ mi_Name m = n.
Proof.
  unfold machineStatesOf. induction machines as [|x machines IH] using rev_ind; simpl; [done|].
  rewrite foldl_snoc, in_app_iff, lookup_insert. simpl. case_decide; naive_solver.
Qed.

Lemma matchedAgentNames_spec lookup vms vm a :
  In vm vms → lookupMatch lookup vm = Some a → ai_Name a ∈ matchedAgentNames lookup vms.
Proof.
  intros Hin Ha. apply elem_of_list_to_set, list_elem_of_omap. exists vm. split; [by apply list_elem_of_In|by rewrite Ha].
Qed.

(** The entries of the second loop describe Agents without an owned VM; they
    carry the source DiscoveredAgent, and new, distinct, non-empty names. *)
Lemma discoveredLoop_spec clock i pool machineStates matched known agents :
  let extra := discoveredLoop clock i pool machineStates matched known agents in
  List.NoDup (map vm_Name extra) ∧
  ∀ vm, In vm extra → vm_Name vm ≠ "" ∧ (vm_Name vm ∉ known) ∧ vm_Source vm = vmSourceDiscoveredAgent ∧
    ∃ agent, In agent agents ∧ agentObservedHostname agent = vm_Name vm ∧ (ai_Name agent ∉ matched).
Proof.
  cbv zeta. revert i known. induction agents as [|a agents IH]; intros i known; simpl.
  { split; [constructor|done]. }
  destruct (_ || _ || _) eqn:E.
  { destruct (IH (S i) known) as [Hnd Hall]. split; [done|]. naive_solver. }
  gobool. destruct (IH (S i) ({[agentObservedHostname a]} ∪ known)) as [Hnd Hall].
  pose proof (applyMachineState_state (clock i 2%nat)
    (agentOwnedVMStatus (clock i) pool a (agentObservedHostname a)) machineStates) as HB.
  pose proof (applyAgent_state (clock i 1%nat) pool (mkOwnedVMStatus (agentObservedHostname a) ""
    vmSourceDiscoveredAgent "" (ai_MAC a) None None "" "" (clock i 0%nat)) a) as HA.
  cbv zeta in HA, HB. destruct HA as (_ & _ & _ & HnA & HsA & _).
  destruct HB as (_ & _ & _ & HnB & HsB & _).
  unfold agentOwnedVMStatus in *. rewrite HnA in HnB. rewrite HsA in HsB. simpl in HnB, HsB.
  split.
  - cbn [map]. rewrite HnB. constructor; [|done]. intros (v & Hv & Hin)%in_map_iff.
    apply Hall in Hin as (_ & Hk & _). set_solver.
  - intros vm [<-|Hin].
    + rewrite HnB, HsB. split_and!; auto. exists a. auto.
    + apply Hall in Hin as (? & Hk & ? & b & ? & ? & ?). split_and!; [done|set_solver|done|].
      exists b. auto.
Qed.

Lemma refresh_lookup clock now pool agents machines i vm :
  pt_OwnedVMs (pl_Status pool) !! i = Some vm →
  refreshOwnedVMStatuses clock now pool agents machines !! i =
    Some (refreshVM (clock i) now pool (newAgentIdentityLookup agents) (machineStatesOf machines) vm).
Proof.
  intros Hi. unfold refreshOwnedVMStatuses. cbv zeta. rewrite lookup_app_l.
  - rewrite list_lookup_imap, Hi. done.
  - rewrite length_imap. by eapply lookup_lt_Some.
Qed.

Lemma imap_names {A} (f : nat → A → A) (name : A → string) l :
  (∀ i a, name (f i a) = name a) → map name (imap f l) = map name l.
Proof.
  intros Hf. revert f Hf. induction l as [|a l IH]; intros f Hf; simpl; [done|].
  rewrite Hf. f_equal. apply IH. intros i b. apply Hf.
Qed.

(** ** Properties of refreshOwnedVMStatuses *)

(** C25: a pass keeps every recorded VM at its position with its name, source and
    owner.  The entries it appends carry the source DiscoveredAgent, so no plan
    deletes them; each has the non-empty name of an observed Agent
    that no recorded VM matched, and a name no recorded VM has.  Distinct names stay
    distinct. *)
Theorem refresh_keeps_vms (clock : nat → nat → Time) (now : Time) (pool : VsphereAgentPool)
    (agents : list AgentInfo) (machines : list MachineInfo) :
  let owned := pt_OwnedVMs (pl_Status pool) in
  let result := refreshOwnedVMStatuses clock now pool agents machines in
  (∀ i vm, owned !! i = Some vm → ∃ vm', result !! i = Some vm' ∧
     vm_Name vm' = vm_Name vm ∧ vm_Source vm' = vm_Source vm ∧ vm_OwnerUID vm' = vm_OwnerUID vm) ∧
  (∀ i vm, (length owned ≤ i)%nat → result !! i = Some vm →
     vm_Name vm ≠ "" ∧ ¬ In (vm_Name vm) (map vm_Name owned) ∧ vm_Source vm = vmSourceDiscoveredAgent ∧
     (∃ agent, In agent agents ∧ agentObservedHostname agent = vm_Name vm ∧
        ∀ recorded, In recorded owned → ∀ b, lookupMatch (newAgentIdentityLookup agents) recorded = Some b →
          ai_Name b ≠ ai_Name agent) ∧
     ∀ planNow pool' snap, ¬ In vm (pp_VMsToDelete (buildPlan planNow pool' snap))) ∧
  (List.NoDup (map vm_Name owned) → List.NoDup (map vm_Name result)).
Proof.
  intros owned result. set (lookup := newAgentIdentityLookup agents).
  destruct (discoveredLoop_spec clock (length owned) pool (machineStatesOf machines)
    (matchedAgentNames lookup owned) (selectedVMNames owned) agents) as [Hnd Hall].
  set (extra := discoveredLoop _ _ _ _ _ _ _) in *.
  assert (∀ n, In n (map vm_Name extra) → ¬ In n (map vm_Name owned)) as Hnew.
  { intros n (w & <- & Hin')%in_map_iff (v & Hv & Hin)%in_map_iff.
    apply Hall in Hin' as (Hne & Hk & _). apply Hk, selectedVMNames_spec. eauto. }
  split_and!.
  - intros i vm Hi. eexists. split; [by apply refresh_lookup|]. apply refreshVM_kept.
  - intros i vm Hi Hvm. assert (In vm extra) as Hin.
    { unfold result, refreshOwnedVMStatuses in Hvm. rewrite lookup_app_r in Hvm by by rewrite length_imap.
      eapply list_elem_of_In, list_elem_of_lookup_2, Hvm. }
    destruct (Hall vm Hin) as (? & _ & Hs & a & ? & ? & Hm). split_and!; [done|by apply Hnew, in_map|done| |].
    + exists a. split_and!; [done|done|]. intros v Hv b Hb Hab. apply Hm. rewrite <- Hab. by eapply matchedAgentNames_spec.
    + intros planNow pool' snap Hd. by apply buildPlan_deletable in Hd as (_ & _ & _ & Hsrc & _).
  - intros Hnd1. assert (map vm_Name result = map vm_Name owned ++ map vm_Name extra) as ->.
    { unfold result, refreshOwnedVMStatuses. cbv zeta. rewrite map_app. f_equal. apply imap_names.
      intros i a. apply refreshVM_kept. }
    apply nodup_app_disjoint; [done|done|]. intros n Ho He. by eapply Hnew.
Qed.

(** C23: the phase, reason and Machine of a VM with a matching Agent are those of
    the reference lifecycle: releasing while its Machine goes, Bound while the
    Agent is bound, released when a used Agent is unbound (machine-deleted once
    its Machine is gone) and available otherwise. *)
Theorem refresh_matched_lifecycle (clock : nat → nat → Time) (now : Time) (pool : VsphereAgentPool)
    (agents : list AgentInfo) (machines : list MachineInfo) (i : nat) (vm : OwnedVMStatus) (a : AgentInfo)
    (Hvm : pt_OwnedVMs (pl_Status pool) !! i = Some vm)
    (Hmatch : lookupMatch (newAgentIdentityLookup agents) vm = Some a) :
  let wasMachineDeleting := (vm_Phase vm == phaseReleased) && (vm_Reason vm == reasonMachineDeleting) in
  let machine := matchedMachineName vm a wasMachineDeleting in
  ∃ vm', refreshOwnedVMStatuses clock now pool agents machines !! i = Some vm' ∧
    (vm_Phase vm', vm_Reason vm') =
      matchedLifecycle (observeMachine (machineStatesOf machines) machine) wasMachineDeleting (ai_Bound a)
        ((vm_Phase vm == phaseBound) || (vm_Phase vm == phaseReleased)) ∧
    objectReferenceName (vm_MachineRef vm') = machine ∧ ownedVMAgentName vm' = ai_Name a.
Proof.
  intros was machine. rewrite (refresh_lookup _ _ _ _ _ _ _ Hvm). unfold refreshVM. rewrite Hmatch.
  eexists; split; [reflexivity|].
  destruct (refreshMatchedVM_state (clock i) pool (machineStatesOf machines) vm a)
    as (Hst & Hm & Ha & _). unfold ownedVMAgentName. by rewrite Ha.
Qed.

(** A VM ends a pass Orphaned only if no Agent matches it and either it was
    already Orphaned and is left as it was, or no Machine of the pool carries the
    name it refers to.  A VM whose Machine still exists is never newly orphaned. *)
Theorem refresh_orphans_only_lost (clock : nat → nat → Time) (now : Time) (pool : VsphereAgentPool)
    (agents : list AgentInfo) (machines : list MachineInfo) (i : nat) (vm vm' : OwnedVMStatus)
    (Hvm : pt_OwnedVMs (pl_Status pool) !! i = Some vm)
    (Hvm' : refreshOwnedVMStatuses clock now pool agents machines !! i = Some vm')
    (Horphaned : vm_Phase vm' = phaseOrphaned) :
  lookupMatch (newAgentIdentityLookup agents) vm = None ∧
  (vm' = vm ∨
   (¬ In (objectReferenceName (vm_MachineRef vm)) (map mi_Name machines) ∧
    ((vmHadDiscoveredAgent vm = true ∧ vm_LastTransitionTime vm' = clock i 0%nat) ∨
     (ownedVMDiscoveryExpired vm now = true ∧ vm_LastTransitionTime vm' = vm_LastTransitionTime vm)))).
Proof.
  rewrite (refresh_lookup _ _ _ _ _ _ _ Hvm) in Hvm'. injection Hvm' as <-.
  unfold refreshVM in *. destruct (lookupMatch _ vm) as [a|].
  - by apply refreshMatchedVM_not_orphaned in Horphaned.
  - split; [done|]. destruct (refreshUnmatchedVM_orphaned _ _ _ _ Horphaned) as [?|[Hm Hor]]; [by left|].
    right. rewrite <- machineStates_None. naive_solver.
Qed.

(** A VM that a pass marks MachineDeleted, the state from which it is
    deleted, refers to no Machine or to one that is not in the pool any more. *)
Theorem refresh_machineDeleted_sound (clock : nat → nat → Time) (now : Time) (pool : VsphereAgentPool)
    (agents : list AgentInfo) (machines : list MachineInfo) (i : nat) (vm vm' : OwnedVMStatus)
    (Hvm : pt_OwnedVMs (pl_Status pool) !! i = Some vm)
    (Hvm' : refreshOwnedVMStatuses clock now pool agents machines !! i = Some vm')
    (Hdeleted : vm_Reason vm' = reasonMachineDeleted) (Hnew : vm' ≠ vm) :
  (∃ a, lookupMatch (newAgentIdentityLookup agents) vm = Some a) ∧ vm_Phase vm' = phaseReleased ∧
  (objectReferenceName (vm_MachineRef vm') = "" ∨
   ¬ In (objectReferenceName (vm_MachineRef vm')) (map mi_Name machines)).
Proof.
  rewrite (refresh_lookup _ _ _ _ _ _ _ Hvm) in Hvm'. injection Hvm' as <-.
  unfold refreshVM in *. destruct (lookupMatch _ vm) as [a|].
  2: { by apply refreshUnmatchedVM_machineDeleted in Hdeleted. }
  split; [eauto|].
  destruct (refreshMatchedVM_state (clock i) pool (machineStatesOf machines) vm a) as (Hst & Hm & _).
  assert (Hd := matchedLifecycle_deleted _ _ _ _ (eq_trans (eq_sym (f_equal snd Hst)) Hdeleted)).
  rewrite <- Hst in Hd. destruct Hd as [Hp Hobs]. split; [exact Hp|].
  rewrite Hm, <- machineStates_None. by apply observeMachine_gone.
Qed.

(** C24: the grace periods of a lost VM.  A VM that a pass newly orphans and a plan
    deletes in that state either had a discovered Agent, and then the
    plan is made at least thirty minutes after the time the pass orphaned it at, or never had one, and then it had
    been waiting for its Agent's discovery for at least thirty minutes when the pass ran:
    it was Provisioning with AgentNotDiscovered since a recorded time that far back.  The
    clock of the pass does not read the zero time, which stands for no time at all. *)
Theorem refresh_plan_grace_period (clock : nat → nat → Time) (now planNow : Time) (pool : VsphereAgentPool)
    (agents : list AgentInfo) (machines : list MachineInfo) (i : nat) (planned : VsphereAgentPool) (snap : PoolSnapshot)
    (vm vm' : OwnedVMStatus)
    (Hvm : pt_OwnedVMs (pl_Status pool) !! i = Some vm)
    (Hvm' : refreshOwnedVMStatuses clock now pool agents machines !! i = Some vm')
    (Horphaned : vm_Phase vm' = phaseOrphaned) (Hwas : vm_Phase vm ≠ phaseOrphaned)
    (Hclock : clock i 0%nat ≠ 0)
    (Hdeleted : In vm' (pp_VMsToDelete (buildPlan planNow planned snap))) :
  if vmHadDiscoveredAgent vm then clock i 0%nat + orphanedOwnedVMGracePeriod ≤ planNow
  else vm_Phase vm = phaseProvisioning ∧ vm_Reason vm = reasonAgentNotDiscovered ∧ vm_LastTransitionTime vm ≠ 0 ∧
       vm_LastTransitionTime vm + orphanedOwnedVMGracePeriod ≤ now.
Proof.
  rewrite (refresh_lookup _ _ _ _ _ _ _ Hvm) in Hvm'. injection Hvm' as Heq. rewrite <- Heq in Horphaned.
  unfold refreshVM in *. destruct (lookupMatch _ vm) as [a|]; [by apply refreshMatchedVM_not_orphaned in Horphaned|].
  destruct (refreshUnmatchedVM_orphaned _ _ _ _ Horphaned) as [Hs|[_ Hor]]; [congruence|].
  rewrite Heq in Hor, Horphaned. destruct Hor as [(-> & _ & Ht)|(-> & He & _)].
  - rewrite buildPlan_VMsToDelete in Hdeleted. apply deletionTargets_phase in Hdeleted as [Hp|Hin]; [congruence|].
    apply orphanedVMCleanupDue_spec in Hin. rewrite Ht in Hin. unfold Time in *. lia.
  - by apply discoveryExpired_spec in He.
Qed.

Lemma applyAgent_not_deleting t pool vm agent :
  vm_Reason (applyAgentToOwnedVMStatus t pool vm agent) ≠ reasonMachineDeleting.
Proof.
  destruct (applyAgent_state t pool vm agent) as (Hst & _). apply (f_equal snd) in Hst. simpl in Hst.
  rewrite Hst. destruct (ai_Bound agent); [done|]. by destruct (_ || _).
Qed.

Lemma applyMachineState_going t vm machineStates :
  observeMachine machineStates (objectReferenceName (vm_MachineRef vm)) = MachineGoing →
  vm_Phase vm = phaseReleased → vm_Reason vm = reasonMachineDeleting →
  applyMachineStateToOwnedVMStatus t vm machineStates = vm.
Proof.
  unfold observeMachine, applyMachineStateToOwnedVMStatus, setOwnedVMPhase. intros Hobs Hp Hr.
  destruct (objectReferenceName (vm_MachineRef vm) == ""); [done|].
  destruct (machineStates !! _) as [m|]; [|done]. destruct (mi_Deleting m); [|done].
  by rewrite (bool_decide_true _ Hp), (bool_decide_true _ Hr).
Qed.

(** While the Machine of a VM is being deleted and its Agent is still there,
    every pass moves the transition time of the VM although neither its phase nor
    its reason changes. *)
Theorem refresh_moves_transition_time (clock : nat → nat → Time) (now : Time) (pool : VsphereAgentPool)
    (agents : list AgentInfo) (machines : list MachineInfo) (i : nat) (vm : OwnedVMStatus) (a : AgentInfo)
    (Hvm : pt_OwnedVMs (pl_Status pool) !! i = Some vm)
    (Hmatch : lookupMatch (newAgentIdentityLookup agents) vm = Some a)
    (Hphase : vm_Phase vm = phaseReleased) (Hreason : vm_Reason vm = reasonMachineDeleting)
    (Hgoing : observeMachine (machineStatesOf machines) (matchedMachineName vm a true) = MachineGoing) :
  ∃ vm', refreshOwnedVMStatuses clock now pool agents machines !! i = Some vm' ∧
    vm_Phase vm' = vm_Phase vm ∧ vm_Reason vm' = vm_Reason vm ∧
    vm_LastTransitionTime vm' = clock i 1%nat.
Proof.
  eexists. split; [by apply refresh_lookup|]. unfold refreshVM. rewrite Hmatch.
  pose proof (refreshMatchedVM_state (clock i) pool (machineStatesOf machines) vm a) as Hst.
  cbv zeta in Hst. rewrite (bool_decide_true _ Hphase), (bool_decide_true _ Hreason) in Hst.
  simpl andb in Hst. rewrite Hgoing in Hst. destruct Hst as ([= Hp Hr] & Hname & _).
  rewrite Hp, Hr, Hphase, Hreason. split_and!; [done|done|].
  revert Hname Hp Hr. unfold refreshMatchedVM.
  rewrite (bool_decide_true _ Hphase), (bool_decide_true _ Hreason). cbv zeta. cbn [andb].
  match goal with |- context [setOwnedVMPhase (clock i 1%nat) ?v _ _] => set (vm1 := v) end.
  intros Hname _ _. destruct (applyMachineState_state (clock i 2%nat)
    (setOwnedVMPhase (clock i 1%nat) vm1 phaseReleased reasonMachineDeleting)
    (machineStatesOf machines)) as (_ & Hm & _). rewrite Hm in Hname.
  rewrite applyMachineState_going by (rewrite ?Hname; by autorewrite with gorw).
  rewrite setPhase_time, bool_decide_false; [done|]. intros [_ Hd]. revert Hd. subst vm1.
  pose proof (applyAgent_not_deleting (clock i 0%nat) pool vm a). by repeat case_match.
Qed.
