(* ===== verification/VsphereObjects.v ===== *)
(** * Pools and VsphereAgents

    The parts of vsphereagentpool_controller.go and agentmachine_controller.go
    that compute on VsphereAgentPools and VsphereAgents: the defaults of a pool
    spec, which pool a VsphereAgent belongs to, which VM it stands for, and which
    Agents are claimed by the VsphereAgents of another pool. *)
From S2P Require Import Prelude Api Identity Planner OwnedVMs.

(** ** Constants of agentmachine_controller.go *)
Definition vsphereAgentPoolNameLabel : string := "agent-forge.containeroo.ch/vsphere-agent-pool".
Definition vsphereAgentCreatedForLabel : string := "agent-forge.containeroo.ch/created-for".
Definition vsphereAgentCreatedForAdopted : string := "adopted".
Definition vsphereAgentCreatedForDemand : string := "agent-machine".
Definition vsphereAgentFinalizerName : string := "agent-forge.containeroo.ch/vsphere-agent".
Definition vsphereAgentVMNameAnnotation : string := "agent-forge.containeroo.ch/vm-name".

(** ** applySpecDefaults *)
Definition defaultDatacenter : string := "dc1".
Definition defaultAgentRole : string := "worker".

Definition orZero (a b : Z) : Z := if a == 0 then b else a.

(** The assignments of applySpecDefaults, struct by struct. *)
Definition defaultPlacement (v : VspherePlacementSpec) : VspherePlacementSpec :=
  mkVspherePlacementSpec (vp_CredentialsSecretRef v) (orElse (vp_Datacenter v) defaultDatacenter)
    (vp_DatastoreCluster v) (vp_ISODatastore v) (vp_ResourcePool v) (vp_Folder v) (vp_Network v) (vp_VMTags v)
    (orElse (vp_GuestID v) "rhel9_64Guest") (orElse (vp_SCSIType v) "pvscsi") (orElse (vp_Firmware v) "efi")
    (orElse (vp_NetworkAdapterType v) "vmxnet3") (vp_DiskEagerlyScrub v).

Definition defaultTemplate (t : VMTemplateSpec) : VMTemplateSpec :=
  mkVMTemplateSpec (vt_NamePrefix t) (orZero (vt_NumCPUs t) 4) (orZero (vt_MemoryMiB t) 16384)
    (orZero (vt_DiskGiB t) 100).

Definition defaultBinding (a : AgentBindingSpec) : AgentBindingSpec :=
  mkAgentBindingSpec (orElse (ab_Role a) defaultAgentRole) (ab_Labels a) (ab_Approve a).

Definition defaultISO (iso : ISOCacheSpec) : ISOCacheSpec :=
  mkISOCacheSpec (ic_EjectAfterInstall iso) (orZero (ic_CheckInterval iso) (10 * minute))
    (orZero (ic_RetainVersions iso) 2) (ic_PathPrefix iso).

Definition applySpecDefaults (pool : VsphereAgentPool) : VsphereAgentPool :=
  let spec := pl_Spec pool in
  mkVsphereAgentPool (pl_Meta pool)
    (mkVsphereAgentPoolSpec (ps_HostedClusterRef spec) (ps_NodePoolRef spec) (ps_InfraEnvRef spec)
       (ps_ControlPlaneNamespace spec) (defaultPlacement (ps_VSphere spec)) (defaultTemplate (ps_Template spec))
       (defaultBinding (ps_Agent spec)) (defaultISO (ps_ISO spec))
       (orElse (ps_CleanupPolicy spec) CleanupPolicyDelete))
    (pl_Status pool).

(** ** VsphereAgents *)
Definition vaLabel (agent : VsphereAgent) (k : string) : string := mapGet (om_Labels (va_Meta agent)) k.
Definition vaAnnotation (agent : VsphereAgent) (k : string) : string := mapGet (om_Annotations (va_Meta agent)) k.

Definition vsphereAgentBelongsToPool (agent : VsphereAgent) (poolName : string) : bool :=
  if lor_Name (vs_PoolRef (va_Spec agent)) != "" then lor_Name (vs_PoolRef (va_Spec agent)) == poolName
  else vaLabel agent vsphereAgentPoolNameLabel == poolName.

Definition vsphereAgentVMName (agent : VsphereAgent) : string :=
  if vaAnnotation agent vsphereAgentVMNameAnnotation != "" then vaAnnotation agent vsphereAgentVMNameAnnotation
  else om_Name (va_Meta agent).

Definition vsphereAgentHasPoolRef (agent : VsphereAgent) : bool :=
  (lor_Name (vs_PoolRef (va_Spec agent)) != "") || (vaLabel agent vsphereAgentPoolNameLabel != "").

Definition vsphereAgentClaimsAgent (vsphereAgent : VsphereAgent) (agent : AgentInfo) : bool :=
  let vm := vst_VM (va_Status vsphereAgent) in
  if objectReferenceName (vm_AgentRef vm) == ai_Name agent then true
  else if vmMatchesAgentIdentity vm agent then true
  else
    let hostname := agentObservedHostname agent in
    if hostname == "" then false
    else if (vm_Name vm == hostname) && negb (vmIdentityConflictsAgent vm agent) then true
    else (om_Name (va_Meta vsphereAgent) == hostname) && negb (vmIdentityConflictsAgent vm agent).

Definition agentClaimedByOtherPool (agent : AgentInfo) (pool : VsphereAgentPool)
    (vsphereAgents : list VsphereAgent) : bool :=
  existsb (λ va,
    if match om_DeletionTimestamp (va_Meta va) with Some _ => true | None => false end ||
       negb (vsphereAgentHasPoolRef va) || vsphereAgentBelongsToPool va (om_Name (pl_Meta pool))
    then false else vsphereAgentClaimsAgent va agent) vsphereAgents.

(** The VM of a VsphereAgent as listVsphereAgentVMs reports it. *)
Definition vsphereAgentVM (t : Time) (agent : VsphereAgent) : OwnedVMStatus :=
  let vm := vst_VM (va_Status agent) in
  if vm_Name vm == "" then
    (newOwnedVMStatus t (vsphereAgentVMName agent))
      <| vm_Reason := "VMCreatePending" |> <| vm_OwnerUID := om_UID (va_Meta agent) |>
  else vm.

Definition sameVMIdentity (a b : OwnedVMStatus) : bool :=
  if (vm_BIOSUUID a != "") && (vm_BIOSUUID b != "") && (vm_BIOSUUID a == vm_BIOSUUID b) then true
  else (vm_MACAddress a != "") && (vm_MACAddress b != "") && (vm_MACAddress a == vm_MACAddress b).

Definition duplicateCanBeDeletedWithoutVMDelete (current other : VsphereAgent) : bool :=
  if (vaLabel current vsphereAgentCreatedForLabel == vsphereAgentCreatedForAdopted) &&
     (vaLabel other vsphereAgentCreatedForLabel != vsphereAgentCreatedForAdopted) then true
  else om_Name (va_Meta current) != vm_Name (vst_VM (va_Status current)).

Definition ownedVMStatusForVsphereAgent (pool : VsphereAgentPool) (agent : VsphereAgent) : option OwnedVMStatus :=
  let name := vm_Name (vst_VM (va_Status agent)) in
  if name == "" then None
  else List.find (λ vm, vm_Name vm == name) (pt_OwnedVMs (pl_Status pool)).

(** ** Properties *)

(** The defaults make every optional field of a pool spec usable, keep every
    value the user set, and applying them twice changes nothing. *)
Theorem applySpecDefaults_idempotent (pool : VsphereAgentPool) :
  let d := applySpecDefaults pool in
  applySpecDefaults d = d ∧
  vp_Datacenter (ps_VSphere (pl_Spec d)) ≠ "" ∧ ab_Role (ps_Agent (pl_Spec d)) ≠ "" ∧
  ic_RetainVersions (ps_ISO (pl_Spec d)) ≠ 0 ∧ ic_CheckInterval (ps_ISO (pl_Spec d)) ≠ 0 ∧
  vt_NumCPUs (ps_Template (pl_Spec d)) ≠ 0 ∧ vt_MemoryMiB (ps_Template (pl_Spec d)) ≠ 0 ∧
  vt_DiskGiB (ps_Template (pl_Spec d)) ≠ 0 ∧
  cleanupEnabled d = cleanupEnabled pool ∧ pl_Status d = pl_Status pool ∧ pl_Meta d = pl_Meta pool.
Proof.
  assert (∀ a b, b ≠ "" → orElse a b ≠ "") as He.
  { intros a b Hb. unfold orElse. destruct (a == "") eqn:E; by gobool. }
  assert (∀ a b, b ≠ 0 → orZero a b ≠ 0) as Hz.
  { intros a b Hb. unfold orZero. destruct (a == 0) eqn:E; by gobool. }
  assert (∀ a b, b ≠ "" → orElse (orElse a b) b = orElse a b) as Hee by (intros; apply orElse_keeps; auto).
  assert (∀ a b, b ≠ 0 → orZero (orZero a b) b = orZero a b) as Hzz.
  { intros a b Hb. unfold orZero at 1. rewrite bool_decide_false by auto. done. }
  cbv zeta. split.
  { unfold applySpecDefaults, defaultPlacement, defaultTemplate, defaultBinding, defaultISO. simpl.
    rewrite !Hee, !Hzz by discriminate. reflexivity. }
  split; [apply He; discriminate|]. split; [apply He; discriminate|].
  do 5 (split; [apply Hz; discriminate|]). split; [|done].
  unfold cleanupEnabled. simpl. unfold orElse. destruct (_ == "") eqn:E; [|done]. gobool. by rewrite E.
Qed.
