(* ===== verification/Sha256.v ===== *)
(** * SHA-256 and hexadecimal encoding

    crypto/sha256 and encoding/hex as the operator uses them: downloadURLHash,
    the content addresses of cached ISO images and the suffix of alternate
    names.  Words are 32-bit integers kept in [0, 2^32). *)
From S2P Require Import Prelude.

Definition mask32 : Z := 4294967295.
Definition addw (a b : Z) : Z := Z.land (a + b) mask32.
Definition rotr (n x : Z) : Z := Z.land (Z.lor (Z.shiftr x n) (Z.shiftl x (32 - n))) mask32.
Definition notw (x : Z) : Z := Z.lxor x mask32.

Definition ch (x y z : Z) : Z := Z.lxor (Z.land x y) (Z.land (notw x) z).
Definition maj (x y z : Z) : Z := Z.lxor (Z.lxor (Z.land x y) (Z.land x z)) (Z.land y z).
Definition bigSigma0 (x : Z) : Z := Z.lxor (Z.lxor (rotr 2 x) (rotr 13 x)) (rotr 22 x).
Definition bigSigma1 (x : Z) : Z := Z.lxor (Z.lxor (rotr 6 x) (rotr 11 x)) (rotr 25 x).
Definition smallSigma0 (x : Z) : Z := Z.lxor (Z.lxor (rotr 7 x) (rotr 18 x)) (Z.shiftr x 3).
Definition smallSigma1 (x : Z) : Z := Z.lxor (Z.lxor (rotr 17 x) (rotr 19 x)) (Z.shiftr x 10).

Definition roundConstants : list Z :=
  [1116352408; 1899447441; 3049323471; 3921009573; 961987163; 1508970993; 2453635748; 2870763221;
   3624381080; 310598401; 607225278; 1426881987; 1925078388; 2162078206; 2614888103; 3248222580;
   3835390401; 4022224774; 264347078; 604807628; 770255983; 1249150122; 1555081692; 1996064986;
   2554220882; 2821834349; 2952996808; 3210313671; 3336571891; 3584528711; 113926993; 338241895;
   666307205; 773529912; 1294757372; 1396182291; 1695183700; 1986661051; 2177026350; 2456956037;
   2730485921; 2820302411; 3259730800; 3345764771; 3516065817; 3600352804; 4094571909; 275423344;
   430227734; 506948616; 659060556; 883997877; 958139571; 1322822218; 1537002063; 1747873779;
   1955562222; 2024104815; 2227730452; 2361852424; 2428436474; 2756734187; 3204031479; 3329325298].

Definition initialState : list Z :=
  [1779033703; 3144134277; 1013904242; 2773480762; 1359893119; 2600822924; 528734635; 1541459225].

(** Bytes of a string, and the padded message. *)
Fixpoint stringBytes (s : string) : list Z :=
  match s with
  | EmptyString => []
  | String c s' => Z.of_nat (nat_of_ascii c) :: stringBytes s'
  end.

Fixpoint beBytes (n : nat) (z : Z) : list Z :=
  match n with
  | O => []
  | S n' => Z.land (Z.shiftr z (8 * Z.of_nat n')) 255 :: beBytes n' z
  end.

Definition padMessage (m : list Z) : list Z :=
  let len := Z.of_nat (length m) in
  m ++ [128] ++ replicate (Z.to_nat ((55 - len) mod 64)) 0 ++ beBytes 8 (8 * len).

(** Big-endian words of a block. *)
Fixpoint beWords (bs : list Z) : list Z :=
  match bs with
  | a :: b :: c :: d :: rest =>
      Z.lor (Z.lor (Z.shiftl a 24) (Z.shiftl b 16)) (Z.lor (Z.shiftl c 8) d) :: beWords rest
  | _ => []
  end.

(** The message schedule, newest word first. *)
Fixpoint extendSchedule (n : nat) (w : list Z) : list Z :=
  match n with
  | O => w
  | S n' =>
      let at_ i := nth i w 0 in
      extendSchedule n'
        (addw (addw (smallSigma1 (at_ 1%nat)) (at_ 6%nat)) (addw (smallSigma0 (at_ 14%nat)) (at_ 15%nat)) :: w)
  end.

Definition schedule (block : list Z) : list Z := rev (extendSchedule 48 (rev (beWords block))).

Definition roundStep (st : list Z) (kw : Z * Z) : list Z :=
  match st with
  | [a; b; c; d; e; f; g; h] =>
      let t1 := addw (addw (addw h (bigSigma1 e)) (ch e f g)) (addw kw.1 kw.2) in
      let t2 := addw (bigSigma0 a) (maj a b c) in
      [addw t1 t2; a; b; c; addw d t1; e; f; g]
  | _ => st
  end.

Definition compress (st block : list Z) : list Z :=
  zip_with addw st (foldl roundStep st (combine roundConstants (schedule block))).

Fixpoint hashBlocks (fuel : nat) (st m : list Z) : list Z :=
  match fuel, m with
  | S fuel', _ :: _ => hashBlocks fuel' (compress st (take 64 m)) (drop 64 m)
  | _, _ => st
  end.

(** The digest as bytes; one block per 64 bytes of the padded message. *)
Definition sha256 (s : string) : list Z :=
  let m := padMessage (stringBytes s) in
  flat_map (beBytes 4) (hashBlocks (length m) initialState m).

Definition hexDigit (z : Z) : ascii :=
  ascii_of_nat (Z.to_nat (if z <? 10 then 48 + z else 87 + z)).

(** hex.EncodeToString. *)
Fixpoint hexEncode (bs : list Z) : string :=
  match bs with
  | [] => ""
  | b :: rest => String (hexDigit (Z.shiftr b 4)) (String (hexDigit (Z.land b 15)) (hexEncode rest))
  end.

Definition sha256Hex (s : string) : string := hexEncode (sha256 s).

(** ** Test vectors of FIPS 180 and lengths *)
Example sha256_empty : sha256Hex "" = "e3b0c44298fc1c149afbf4c8996fb92427ae41e4649b934ca495991b7852b855".
Proof. vm_compute. reflexivity. Qed.

Example sha256_abc : sha256Hex "abc" = "ba7816bf8f01cfea414140de5dae2223b00361a396177a9cb410ff61f20015ad".
Proof. vm_compute. reflexivity. Qed.

Example sha256_two_blocks :
  sha256Hex "abcdbcdecdefdefgefghfghighijhijkijkljklmklmnlmnomnopnopq" =
  "248d6a61d20638b8e5c026930c3e6039a33ce45964ff2167f6ecedd419db06c1".
Proof. vm_compute. reflexivity. Qed.

Lemma hexEncode_length bs : String.length (hexEncode bs) = (2 * length bs)%nat.
Proof. induction bs as [|b bs IH]; simpl; [done|]. rewrite IH. lia. Qed.

Lemma roundStep_length st kw : length (roundStep st kw) = length st.
Proof. unfold roundStep. by repeat (destruct st as [|? st]; try done). Qed.

Lemma compress_length st block : length (compress st block) = length st.
Proof.
  unfold compress. rewrite length_zip_with.
  assert (∀ l st', length (foldl roundStep st' l) = length st') as ->; [|lia].
  induction l as [|kw l IH]; intros st'; simpl; [done|]. by rewrite IH, roundStep_length.
Qed.

Lemma hashBlocks_length fuel st m : length (hashBlocks fuel st m) = length st.
Proof.
  revert st m. induction fuel as [|fuel IH]; intros st [|b m]; simpl; try done.
  by rewrite IH, compress_length.
Qed.

Lemma beBytes_length n z : length (beBytes n z) = n.
Proof. induction n as [|n IH]; simpl; congruence. Qed.

Lemma sha256Hex_length s : String.length (sha256Hex s) = 64%nat.
Proof.
  unfold sha256Hex, sha256. rewrite hexEncode_length.
  assert (∀ l, length (flat_map (beBytes 4) l) = (4 * length l)%nat) as ->.
  { induction l as [|z l IH]; [done|]. cbn [flat_map]. rewrite length_app, IH, beBytes_length. simpl. lia. }
  rewrite hashBlocks_length. done.
Qed.

(** The digits of a digest. *)
Definition isHexChar (c : ascii) : bool :=
  let n := nat_of_ascii c in ((48 <=? n)%nat && (n <=? 57)%nat) || ((97 <=? n)%nat && (n <=? 102)%nat).

Lemma hexDigit_hex z : 0 ≤ z < 16 → isHexChar (hexDigit z) = true.
Proof.
  intros Hz. assert (∃ n, z = Z.of_nat n ∧ (n < 16)%nat) as (n & -> & Hn) by (exists (Z.to_nat z); lia).
  do 16 (destruct n as [|n]; [reflexivity|]). lia.
Qed.

Lemma beBytes_range n z : Forall (λ b, 0 ≤ b < 256) (beBytes n z).
Proof.
  induction n as [|n IH]; simpl; constructor; auto.
  change 255 with (Z.ones 8). rewrite Z.land_ones by lia. apply Z.mod_pos_bound. lia.
Qed.

Lemma hexEncode_hex bs : Forall (λ b, 0 ≤ b < 256) bs → forallString isHexChar (hexEncode bs) = true.
Proof.
  induction 1 as [|b bs Hb _ IH]; [done|]. cbn [hexEncode forallString]. rewrite !hexDigit_hex, IH; [done| |].
  - change 15 with (Z.ones 4). rewrite Z.land_ones by lia. apply Z.mod_pos_bound. lia.
  - rewrite Z.shiftr_div_pow2 by lia. change (2 ^ 4) with 16. split; [apply Z.div_pos; lia|].
    apply Z.div_lt_upper_bound; lia.
Qed.

Lemma sha256Hex_hex s : forallString isHexChar (sha256Hex s) = true.
Proof.
  unfold sha256Hex, sha256. apply hexEncode_hex.
  generalize (hashBlocks (length (padMessage (stringBytes s))) initialState (padMessage (stringBytes s))).
  intros l. induction l as [|z l IH]; [constructor|]. cbn [flat_map]. apply Forall_app. split; [apply (beBytes_range 4)|done].
Qed.
