(* ===== verification/Effects.v ===== *)
(** * Programs with effects

    The controllers are sequential Go functions that talk to the API server, to
    govc and to the OpenStack services.  A Go function with effects is a [prog]:
    it returns, or performs a call [e : E X] and continues with the answer
    [x : X].  Answers are chosen by the environment; a history records the calls
    and answers so far, newest first.

    [reach] is the operational semantics (every environment, every prefix of
    every run), [exec] runs a program against a concrete environment, and
    [safe] is the corresponding verification condition: every call meets its
    precondition in every history the environment can produce and every
    returned value meets the postcondition.  [safe_reach] connects the two. *)
From S2P Require Import Prelude OpenStackErrors.

(** ** Go errors

    An error is classified by what the code tests with errors.Is and the
    predicates of apierrors, and carries its message. *)
Inductive errorClass :=
| ClassNotFound              (* apierrors.IsNotFound *)
| ClassAlreadyExists         (* apierrors.IsAlreadyExists *)
| ClassConflict              (* apierrors.IsConflict *)
| ClassVMDeletionBlocked     (* errVMDeletionBlocked, vm_cleanup.go *)
| ClassVMNotFound            (* errVMNotFound, vsphere_provider.go *)
| ClassVMOwnershipMismatch   (* errVMOwnershipMismatch, vsphere_provider.go *)
| ClassOpenStack (e : osError) (* *openstack.Error *)
| ClassOther.

#[export] Instance errorClass_eq_dec : EqDecision errorClass.
Proof. solve_decision. Defined.

Record error := mkError {
  err_Class : errorClass;
  err_Error : string }.

(** The pair (value, error) of a Go function: a value or a non-nil error. *)
Inductive result (A : Type) :=
| Ok (a : A)
| Err (e : error).
Arguments Ok {_} _.
Arguments Err {_} _.

Definition isNil {A} (r : result A) : bool := match r with Ok _ => true | Err _ => false end.

(** fmt.Errorf without [%w]. *)
Definition Errorf {A} (msg : string) : result A := Err (mkError ClassOther msg).

(** An error of the OpenStack client, and errors.Is with one of its sentinels. *)
Definition osErr (e : osError) : error := mkError (ClassOpenStack e) (errorMessage e).
Definition osErrorIs (e : error) (target : osError) : bool :=
  match err_Class e with ClassOpenStack o => errorIs o target | _ => false end.

Definition IsNotFound (e : error) : bool := err_Class e == ClassNotFound.
Definition IsAlreadyExists (e : error) : bool := err_Class e == ClassAlreadyExists.
Definition IsConflict (e : error) : bool := err_Class e == ClassConflict.

(** client.IgnoreNotFound on the error of a call whose value is not used. *)
Definition IgnoreNotFound (e : error) : result unit :=
  if IsNotFound e then Ok tt else Err e.

(** ** Programs *)
Inductive prog (E : Type → Type) (A : Type) : Type :=
| Return (a : A)
| Call {X : Type} (e : E X) (k : X → prog E A).
Arguments Return {_ _} _.
Arguments Call {_ _ _} _ _.

Fixpoint bind {E A B} (p : prog E A) (f : A → prog E B) : prog E B :=
  match p with
  | Return a => f a
  | Call e k => Call e (λ x, bind (k x) f)
  end.

Definition call {E X} (e : E X) : prog E X := Call e Return.

(** [let! x := p in q] sequences; [let? x := p in q] also returns early on an error, the
    idiom [if err != nil { return err }]. *)
Definition bindOk {E A B} (p : prog E (result A)) (f : A → prog E (result B)) : prog E (result B) :=
  bind p (λ r, match r with Ok a => f a | Err e => Return (Err e) end).

Notation "'let!' x ':=' p 'in' q" := (bind p (λ x, q))
  (at level 10, x pattern, p at level 100, q at level 200,
   format "'let!'  x  ':='  p  'in'  '//' q") : go_scope.
Notation "'let?' x ':=' p 'in' q" := (bindOk p (λ x, q))
  (at level 10, x pattern, p at level 100, q at level 200,
   format "'let?'  x  ':='  p  'in'  '//' q") : go_scope.

(** The same for a function that mutates a value of the caller through a pointer:
    [let* (s, x) := p in q] also hands the mutated value on with an early error. *)
Definition bindSt {E S A B} (p : prog E (S * result A)) (f : S * A → prog E (S * result B))
    : prog E (S * result B) :=
  bind p (λ r, match r.2 with Ok a => f (r.1, a) | Err e => Return (r.1, Err e) end).

Notation "'let*' x ':=' p 'in' q" := (bindSt p (λ x, q))
  (at level 10, x pattern, p at level 100, q at level 200,
   format "'let*'  x  ':='  p  'in'  '//' q") : go_scope.

(** Loops over a slice: a body that may fail stops the loop, as an early
    [return err] in the body does. *)
Fixpoint forEach {E A} (l : list A) (body : A → prog E (result unit)) : prog E (result unit) :=
  match l with
  | [] => Return (Ok tt)
  | a :: l' => let? _ := body a in forEach l' body
  end.

(** A loop that threads a value through its iterations. *)
Fixpoint forFold {E A S} (l : list A) (s : S) (body : S → A → prog E (result S)) : prog E (result S) :=
  match l with
  | [] => Return (Ok s)
  | a :: l' => let? s' := body s a in forFold l' s' body
  end.

(** ** Histories and runs *)
Inductive event (E : Type → Type) : Type :=
| Event {X : Type} (e : E X) (x : X).
Arguments Event {_ _} _ _.

Definition history (E : Type → Type) : Type := list (event E).

(** An environment answers a call, knowing the history. *)
Definition environment (E : Type → Type) : Type := ∀ X, history E → E X → X.

Fixpoint exec {E A} (env : environment E) (h : history E) (p : prog E A) : history E * A :=
  match p with
  | Return a => (h, a)
  | Call e k => exec env (Event e (env _ h e) :: h) (k (env _ h e))
  end.

(** The same run, up to the first call that passes the test. *)
Fixpoint runTo {E A} (stop : ∀ X, E X → bool) (env : environment E) (h : history E) (p : prog E A)
    : history E * prog E A :=
  match p with
  | Return a => (h, Return a)
  | Call e k => if stop _ e then (h, Call e k)
                else runTo stop env (Event e (env _ h e) :: h) (k (env _ h e))
  end.

(** The environments considered: which answers may be given in a history. *)
Definition answers (E : Type → Type) : Type := ∀ X, history E → E X → X → Prop.
Definition anyAnswer {E} : answers E := λ _ _ _ _, True.

(** [reach rely h p h' p']: from the history [h] the program [p] can get to the
    point [p'] with the history [h']. *)
Inductive reach {E A} (rely : answers E) : history E → prog E A → history E → prog E A → Prop :=
| reach_here h p : reach rely h p h p
| reach_call X h (e : E X) (x : X) k h' p' :
    rely X h e x → reach rely (Event e x :: h) (k x) h' p' → reach rely h (Call e k) h' p'.

(** A run has not started, or it starts with the first call. *)
Lemma reach_inv {E A} (rely : answers E) h (p : prog E A) h' q :
  reach rely h p h' q →
  (h' = h ∧ q = p) ∨
  match p with
  | Return _ => False
  | Call e k => ∃ x, rely _ h e x ∧ reach rely (Event e x :: h) (k x) h' q
  end.
Proof. destruct 1; [by left|right; eauto]. Qed.

(** Histories only grow. *)
Definition grows {E} (h h' : history E) : Prop := ∃ new, h' = new ++ h.

Lemma grows_refl {E} (h : history E) : grows h h.
Proof. by exists []. Qed.

Lemma grows_cons {E} (h h' : history E) ev : grows h h' → grows h (ev :: h').
Proof. intros [new ->]. by exists (ev :: new). Qed.

Lemma grows_trans {E} (h1 h2 h3 : history E) : grows h1 h2 → grows h2 h3 → grows h1 h3.
Proof. intros [n1 ->] [n2 ->]. exists (n2 ++ n1). by rewrite app_assoc. Qed.

Lemma In_grows {E} (h h' : history E) ev : grows h h' → In ev h → In ev h'.
Proof. intros [new ->] ?. apply in_app_iff. by right. Qed.

Create HintDb grows discriminated.
#[export] Hint Resolve grows_refl grows_cons grows_trans In_grows in_eq in_cons : grows.

(** ** Verification conditions *)
Definition precondition (E : Type → Type) : Type := ∀ X, history E → E X → Prop.

Fixpoint safe {E A} (rely : answers E) (ok : precondition E) (h : history E) (p : prog E A)
    (Q : history E → A → Prop) : Prop :=
  match p with
  | Return a => Q h a
  | Call e k => ok _ h e ∧ ∀ x, rely _ h e x → safe rely ok (Event e x :: h) (k x) Q
  end.

(** ** Lemmas *)
Section effects.
Context {E : Type → Type} (rely : answers E) (ok : precondition E).

Lemma safe_mono {A} h (p : prog E A) (Q Q' : history E → A → Prop) :
  safe rely ok h p Q → (∀ h' a, Q h' a → Q' h' a) → safe rely ok h p Q'.
Proof.
  intros Hp HQ. revert h Hp. induction p as [a|X e k IH]; simpl; intros h Hp; [auto|].
  destruct Hp as [He Hk]. split; [done|]. intros x Hx. apply IH, Hk, Hx.
Qed.

Lemma safe_bind {A B} h (p : prog E A) (f : A → prog E B) (Q : history E → B → Prop) :
  safe rely ok h p (λ h' a, safe rely ok h' (f a) Q) → safe rely ok h (bind p f) Q.
Proof.
  revert h. induction p as [a|X e k IH]; simpl; intros h Hp; [done|].
  destruct Hp as [He Hk]. split; [done|]. intros x Hx. apply IH, Hk, Hx.
Qed.

Lemma safe_bindOk {A B} h (p : prog E (result A)) (f : A → prog E (result B)) Q :
  safe rely ok h p (λ h' r, match r with Ok a => safe rely ok h' (f a) Q | Err e => Q h' (Err e) end) →
  safe rely ok h (bindOk p f) Q.
Proof. intros Hp. apply safe_bind. eapply safe_mono; [exact Hp|]. by intros h' [a|e]. Qed.

Lemma safe_bindSt {S A B} h (p : prog E (S * result A)) (f : S * A → prog E (S * result B)) Q :
  safe rely ok h p (λ h' r, match r.2 with Ok a => safe rely ok h' (f (r.1, a)) Q
                                         | Err e => Q h' (r.1, Err e) end) →
  safe rely ok h (bindSt p f) Q.
Proof. intros Hp. apply safe_bind. eapply safe_mono; [exact Hp|]. by intros h' [s [a|e]]. Qed.

(** A loop keeps an invariant of the elements processed so far and the history. *)
Lemma safe_forEach_from {A} h (done rest : list A) body (I : list A → history E → Prop)
    (Q : history E → result unit → Prop) :
  I done h →
  (∀ pre a post h', done ++ rest = pre ++ a :: post → I pre h' →
     safe rely ok h' (body a) (λ h'' r, match r with Ok _ => I (pre ++ [a]) h'' | Err e => Q h'' (Err e) end)) →
  (∀ h', I (done ++ rest) h' → Q h' (Ok tt)) →
  safe rely ok h (forEach rest body) Q.
Proof.
  revert h done. induction rest as [|a rest IH]; simpl; intros h ds Hh Hbody HQ.
  { apply HQ. by rewrite app_nil_r. }
  apply safe_bindOk. eapply safe_mono; [by apply (Hbody ds a rest)|].
  intros h' [[]|e]; simpl; [|done]. intros HI.
  apply (IH h' (ds ++ [a])); [done| |]; rewrite <- app_assoc; simpl; done.
Qed.

Lemma safe_forEach {A} h (l : list A) body (I : list A → history E → Prop)
    (Q : history E → result unit → Prop) :
  I [] h →
  (∀ pre a post h', l = pre ++ a :: post → I pre h' →
     safe rely ok h' (body a) (λ h'' r, match r with Ok _ => I (pre ++ [a]) h'' | Err e => Q h'' (Err e) end)) →
  (∀ h', I l h' → Q h' (Ok tt)) →
  safe rely ok h (forEach l body) Q.
Proof. intros. by apply (safe_forEach_from h [] l body I Q). Qed.

(** A loop that threads a value keeps an invariant of the value and the history. *)
Lemma safe_forFold {A S} h (l : list A) (s : S) body (I : S → history E → Prop)
    (Q : history E → result S → Prop) :
  I s h →
  (∀ a s' h', In a l → I s' h' →
     safe rely ok h' (body s' a) (λ h'' r, match r with Ok s'' => I s'' h'' | Err e => Q h'' (Err e) end)) →
  (∀ s' h', I s' h' → Q h' (Ok s')) →
  safe rely ok h (forFold l s body) Q.
Proof.
  revert h s. induction l as [|a l IH]; simpl; intros h s Hs Hbody HQ; [auto|].
  apply safe_bindOk. eapply safe_mono; [apply Hbody; auto|].
  intros h' [s'|e] Hr; [|done]. apply IH; auto.
Qed.

(** The precondition holds at every call the program can reach, and the
    postcondition at every return. *)
Theorem safe_reach {A} h (p : prog E A) Q h' p' :
  safe rely ok h p Q → reach rely h p h' p' →
  match p' with Return a => Q h' a | Call e _ => ok _ h' e end.
Proof.
  intros Hsafe Hreach. revert Hsafe.
  induction Hreach as [h p|X h e x k h' p' Hx Hreach IH]; simpl.
  - destruct p; simpl; [done|]. by intros [? _].
  - intros [_ Hk]. by apply IH, Hk.
Qed.

(** Every call of a history met its precondition when it was made. *)
Fixpoint metAll (h : history E) : Prop :=
  match h with [] => True | Event e _ :: h' => ok _ h' e ∧ metAll h' end.

Lemma reach_metAll {A} h (p : prog E A) Q h' p' :
  metAll h → safe rely ok h p Q → reach rely h p h' p' → metAll h'.
Proof.
  intros Hm Hsafe Hreach. revert Hm Hsafe.
  induction Hreach as [h p|X h e x k h' p' Hx Hreach IH]; simpl; [done|].
  intros Hm [He Hk]. apply IH; [done|by apply Hk].
Qed.

Lemma metAll_app newer X (e : E X) x older : metAll (newer ++ Event e x :: older) → ok X older e ∧ metAll older.
Proof. induction newer as [|[Y e' y] newer IH]; simpl; [done|]. intros [_ Hm]. by apply IH. Qed.

(** A run against an environment that respects [rely] is one of the runs. *)
Lemma exec_reach {A} (env : environment E) h (p : prog E A) :
  (∀ X h (e : E X), rely X h e (env X h e)) →
  reach rely h p (exec env h p).1 (Return (exec env h p).2).
Proof.
  intros Henv. revert h. induction p as [a|X e k IH]; simpl; intros h; [constructor|].
  eapply reach_call; [apply Henv|apply IH].
Qed.

Lemma runTo_reach {A} stop (env : environment E) h (p : prog E A) :
  (∀ X h (e : E X), rely X h e (env X h e)) → reach rely h p (runTo stop env h p).1 (runTo stop env h p).2.
Proof.
  intros Henv. revert h. induction p as [a|X e k IH]; simpl; intros h; [constructor|].
  destruct (stop X e); simpl; [constructor|]. eapply reach_call; [apply Henv|apply IH].
Qed.

(** The same when the environment respects [rely] only in the histories of its runs. *)
Lemma runTo_reach_from {A} (I : history E → Prop) stop (env : environment E) h (p : prog E A) :
  (∀ X h (e : E X), I h → rely X h e (env X h e) ∧ I (Event e (env X h e) :: h)) → I h →
  reach rely h p (runTo stop env h p).1 (runTo stop env h p).2 ∧ I (runTo stop env h p).1.
Proof.
  intros Henv. revert h. induction p as [a|X e k IH]; simpl; intros h Hh; [split; [constructor|done]|].
  destruct (stop X e); simpl; [split; [constructor|done]|]. destruct (Henv X h e Hh) as [Hr Hi].
  destruct (IH (env X h e) _ Hi) as [? ?]. split; [by eapply reach_call|done].
Qed.

(** Weakening of the precondition. *)
Lemma safe_ok_mono {A} (ok' : precondition E) h (p : prog E A) Q :
  safe rely ok h p Q → (∀ X h (e : E X), ok X h e → ok' X h e) → safe rely ok' h p Q.
Proof.
  intros Hp Hok. revert h Hp. induction p as [a|X e k IH]; simpl; intros h Hp; [done|].
  destruct Hp as [He Hk]. split; [auto|]. intros x Hx. apply IH, Hk, Hx.
Qed.

Lemma safe_ok_mono_ext {A} (ok' : precondition E) h (p : prog E A) Q :
  safe rely ok h p Q → (∀ X new (e : E X), ok X (new ++ h) e → ok' X (new ++ h) e) → safe rely ok' h p Q.
Proof.
  revert h. induction p as [a|X e k IH]; simpl; intros h Hp Hok; [done|].
  destruct Hp as [He Hk]. split; [by apply (Hok X [])|]. intros x Hx. apply IH; [by apply Hk|].
  intros Y new e'. specialize (Hok Y (new ++ [Event e x]) e').
  rewrite <- app_assoc in Hok. exact Hok.
Qed.

(** Without a precondition every program is safe. *)
Lemma safe_trivial {A} h (p : prog E A) : safe rely (λ _ _ _, True) h p (λ _ _, True).
Proof. revert h. induction p as [a|X e k IH]; simpl; auto. Qed.

(** Histories only grow. *)
Lemma safe_extends {A} h (p : prog E A) Q :
  safe rely ok h p Q → safe rely ok h p (λ h' a, Q h' a ∧ ∃ new, h' = new ++ h).
Proof.
  revert h. induction p as [a|X e k IH]; simpl; intros h Hp; [split; [done|by exists []]|].
  destruct Hp as [He Hk]. split; [done|]. intros x Hx.
  eapply safe_mono; [by apply IH, Hk|]. simpl. intros h' a [? [new ->]]. split; [done|].
  exists (new ++ [Event e x]). by rewrite <- app_assoc.
Qed.

(** A postcondition proved without a precondition. *)
Lemma safe_ok_mono_post {A} h (p : prog E A) Q Q' :
  safe rely ok h p Q' → safe rely (λ _ _ _, True) h p Q → safe rely ok h p Q.
Proof.
  revert h. induction p as [a|X e k IH]; simpl; intros h H1 H2; [done|].
  destruct H1 as [He H1], H2 as [_ H2]. split; [done|]. intros x Hx. apply IH; auto.
Qed.

Lemma safe_and {A} h (p : prog E A) Q1 Q2 :
  safe rely ok h p Q1 → safe rely ok h p Q2 → safe rely ok h p (λ h a, Q1 h a ∧ Q2 h a).
Proof.
  revert h. induction p as [a|X e k IH]; simpl; intros h H1 H2; [auto|].
  destruct H1 as [He H1], H2 as [_ H2]. split; [done|]. intros x Hx. apply IH; auto.
Qed.
End effects.

(** Two preconditions at once. *)
Lemma safe_ok_and {E A} (rely : answers E) (ok ok' : precondition E) h (p : prog E A) Q Q' :
  safe rely ok h p Q → safe rely ok' h p Q' → safe rely (λ X h e, ok X h e ∧ ok' X h e) h p Q.
Proof.
  revert h. induction p as [a|X e k IH]; simpl; intros h H1 H2; [done|].
  destruct H1 as [He H1], H2 as [He' H2]. split; [done|]. intros x Hx. apply IH; auto.
Qed.

(** A run with restricted answers is a run, and its answers are the restricted ones. *)
Lemma reach_any {E A} (rely : answers E) h (p : prog E A) h' q : reach rely h p h' q → reach anyAnswer h p h' q.
Proof. induction 1 as [|X h e x k h' q _ _ IH]; [constructor|]. by apply (reach_call _ _ _ _ x). Qed.

Lemma reach_relied {E A} (R : ∀ X, E X → X → Prop) h (p : prog E A) h' q :
  reach (λ X _ e x, R X e x) h p h' q → Forall (λ ev, match ev with Event e x => R _ e x end) h →
  Forall (λ ev, match ev with Event e x => R _ e x end) h'.
Proof. induction 1 as [|X h e x k h' q Hx _ IH]; [done|]. intros Hh. apply IH. by constructor. Qed.

(** Every call of a program, with the rest of the program after it. *)
Fixpoint allCalls {E A} (P : ∀ X, E X → (X → prog E A) → Prop) (p : prog E A) : Prop :=
  match p with
  | Return _ => True
  | Call e k => P _ e k ∧ ∀ x, allCalls P (k x)
  end.

Lemma allCalls_reach {E A} (P : ∀ X, E X → (X → prog E A) → Prop) (rely : answers E) h p h' q :
  reach rely h p h' q → allCalls P p → allCalls P q.
Proof. induction 1 as [|X h e x k h' q _ _ IH]; [done|]. intros [_ Hk]. by apply IH. Qed.

(** The program was run to an answer, within a history. *)
Definition ran {E A} (p : prog E A) (a : A) (h : history E) : Prop :=
  ∃ h1 h2, reach anyAnswer h1 p h2 (Return a) ∧ grows h2 h.

Lemma ran_grows {E A} (p : prog E A) a h h' : grows h h' → ran p a h → ran p a h'.
Proof. intros Hg (h1 & h2 & Hr & Hg2). exists h1, h2. split; [done|]. by eapply grows_trans. Qed.

Lemma safe_ran {E A} (ok : precondition E) h (p : prog E A) Q :
  safe anyAnswer ok h p Q → safe anyAnswer ok h p (λ h' a, Q h' a ∧ grows h h' ∧ ran p a h').
Proof.
  intros Hp. enough (safe anyAnswer ok h p (λ h' a, Q h' a ∧ reach anyAnswer h p h' (Return a))) as Hr.
  { eapply safe_mono; [apply safe_extends, Hr|]. intros h' a [[HQ Hra] Hg]. split; [done|]. split; [done|].
    exists h, h'. split; [done|apply grows_refl]. }
  revert h Hp. induction p as [a|X e k IH]; simpl; intros h Hp; [split; [done|constructor]|]. destruct Hp as [He Hk]. split; [done|].
  intros x Hx. eapply safe_mono; [apply IH, Hk, Hx|]. intros h' a [HQ Hr]. split; [done|]. by eapply reach_call.
Qed.

(** Fewer answers. *)
Lemma safe_rely_mono {E A} (rely rely' : answers E) (ok : precondition E) h (p : prog E A) Q :
  safe rely ok h p Q → (∀ X h (e : E X) x, rely' X h e x → rely X h e x) → safe rely' ok h p Q.
Proof.
  intros Hp Hr. revert h Hp. induction p as [a|X e k IH]; simpl; intros h Hp; [done|].
  destruct Hp as [He Hk]. split; [done|]. intros x Hx. apply IH, Hk. auto.
Qed.

(** ** Programs whose calls all satisfy a predicate

    [always ok p]: from every history and whatever is answered, every
    call of [p] satisfies [ok]. *)
Definition always {E A} (ok : precondition E) (p : prog E A) : Prop :=
  ∀ h, safe anyAnswer ok h p (λ _ _, True).

Create HintDb always discriminated.

Section always.
Context {E : Type → Type} (ok : precondition E).

Lemma always_return {A} (a : A) : always ok (Return a).
Proof. by intros h. Qed.

Lemma always_call {X} (e : E X) : (∀ h, ok X h e) → always ok (call e).
Proof. intros He h. split; [apply He|done]. Qed.

Lemma always_bind {A B} (p : prog E A) (f : A → prog E B) :
  always ok p → (∀ a, always ok (f a)) → always ok (bind p f).
Proof. intros Hp Hf h. apply safe_bind. eapply safe_mono; [apply Hp|]. intros h' a _. apply Hf. Qed.

(** A part whose calls all meet the precondition and whose result is of no matter. *)
Lemma safe_skip {A B} h (p : prog E A) (f : A → prog E B) Q :
  always ok p → (∀ h' a, grows h h' → safe anyAnswer ok h' (f a) Q) → safe anyAnswer ok h (bind p f) Q.
Proof.
  intros Hp Hf. apply safe_bind. eapply safe_mono; [apply safe_extends, Hp|]. intros h' a [_ Hg]. by apply Hf.
Qed.

Lemma always_bindOk {A B} (p : prog E (result A)) (f : A → prog E (result B)) :
  always ok p → (∀ a, always ok (f a)) → always ok (bindOk p f).
Proof. intros Hp Hf. apply always_bind; [done|]. intros [a|e]; [apply Hf|apply always_return]. Qed.

Lemma always_bindSt {S A B} (p : prog E (S * result A)) (f : S * A → prog E (S * result B)) :
  always ok p → (∀ a, always ok (f a)) → always ok (bindSt p f).
Proof. intros Hp Hf. apply always_bind; [done|]. intros [s [a|e]]; [apply Hf|apply always_return]. Qed.

Lemma always_forEach {A} (l : list A) body :
  (∀ a, always ok (body a)) → always ok (forEach l body).
Proof.
  intros Hb. induction l as [|a l IH]; simpl; [apply always_return|]. by apply always_bindOk.
Qed.

Lemma always_forFold {A S} (l : list A) (s : S) body :
  (∀ s a, always ok (body s a)) → always ok (forFold l s body).
Proof.
  intros Hb. revert s. induction l as [|a l IH]; intros s; simpl; [apply always_return|].
  by apply always_bindOk.
Qed.

Lemma always_mono {A} (ok' : precondition E) (p : prog E A) :
  always ok p → (∀ X h (e : E X), ok X h e → ok' X h e) → always ok' p.
Proof. intros Hp Hok h. eapply safe_ok_mono; [apply Hp|]. simpl. auto. Qed.
End always.

(** Decompose a program along its structure; calls of named programs are left
    to the hints of the database [always]. *)
Ltac always_step :=
  lazymatch goal with
  | |- always _ (Return _) => apply always_return
  | |- always _ (call _) => apply always_call; intros ?; try exact I
  | |- always _ (bindOk _ _) => apply always_bindOk; [|intros ?]
  | |- always _ (bindSt _ _) => apply always_bindSt; [|intros [? ?]]
  | |- always _ (bind _ _) => apply always_bind; [|intros ?]
  | |- always _ (forEach _ _) => apply always_forEach; intros ?
  | |- always _ (forFold _ _ _) => apply always_forFold; intros ? ?
  | |- always _ (match ?x with _ => _ end) => destruct x
  | |- always _ (let _ := _ in _) => cbv zeta
  | |- always _ _ => solve [eauto 4 with always]
  end.
Ltac solve_always := repeat always_step.

(** One step of a verification condition: a call, a return, a sequence. *)
Ltac vcstep :=
  lazymatch goal with
  | |- safe _ _ _ (bindOk _ _) _ => apply safe_bindOk
  | |- safe _ _ _ (bindSt _ _) _ => apply safe_bindSt
  | |- safe _ _ _ (bind _ _) _ => apply safe_bind
  | |- safe _ _ _ (call _) _ => split; [try exact I|let x := fresh "x" in intros x _]
  | |- safe _ _ _ (Call _ _) _ => split; [try exact I|let x := fresh "x" in intros x _]
  | |- safe _ _ _ (Return _) _ => cbn [safe]
  end.

(** ** Runs against a world with a state

    The world answers a call and changes its state. *)
Fixpoint runState {E : Type → Type} {W A : Type} (answer : ∀ X, E X → W → W * X) (w : W) (p : prog E A) : W * A :=
  match p with
  | Return a => (w, a)
  | Call e k => let r := answer _ e w in runState answer r.1 (k r.2)
  end.

Section runState.
Context {E : Type → Type} {W : Type} (answer : ∀ X, E X → W → W * X).

Lemma run_bind {A B} w (p : prog E A) (f : A → prog E B) w' a :
  runState answer w p = (w', a) → runState answer w (bind p f) = runState answer w' (f a).
Proof.
  revert w. induction p as [b|X e k IH]; simpl; intros w Hp; [by simplify_eq|]. by apply IH.
Qed.

Lemma run_bind_eq {A B} w (p q : prog E A) (f : A → prog E B) :
  runState answer w p = runState answer w q → runState answer w (bind p f) = runState answer w (bind q f).
Proof.
  intros Hpq. destruct (runState answer w q) as [w' a] eqn:Hq. by rewrite (run_bind _ _ _ _ _ Hpq), (run_bind _ _ _ _ _ Hq).
Qed.

Lemma run_bindOk {A B} w (p : prog E (result A)) (f : A → prog E (result B)) w' a :
  runState answer w p = (w', Ok a) → runState answer w (bindOk p f) = runState answer w' (f a).
Proof. apply (run_bind w p (λ r, match r with Ok a => f a | Err e => Return (Err e) end)). Qed.

Lemma run_bindSt {S A B} w (p : prog E (S * result A)) (f : S * A → prog E (S * result B)) w' s a :
  runState answer w p = (w', (s, Ok a)) → runState answer w (bindSt p f) = runState answer w' (f (s, a)).
Proof. apply (run_bind w p (λ r, match r.2 with Ok a => f (r.1, a) | Err e => Return (r.1, Err e) end)). Qed.

(** A loop whose iterations succeed and leave the world as it is. *)
Lemma run_forEach {A} w (l : list A) body :
  (∀ a, In a l → runState answer w (body a) = (w, Ok tt)) → runState answer w (forEach l body) = (w, Ok tt).
Proof.
  induction l as [|a l IH]; simpl; intros Hb; [done|]. erewrite run_bindOk by (apply Hb; auto). apply IH. auto.
Qed.
End runState.

(** Rounds that decrease a measure by one reach their goal in the round after it
    is zero. *)
Lemma iter_progress {W : Type} (round : W → W) (inv goal : W → Prop) (measure : W → nat) :
  (∀ w, inv w → measure w = 0%nat → goal (round w)) →
  (∀ w n, inv w → measure w = S n → inv (round w) ∧ measure (round w) = n) →
  ∀ w, inv w → goal (Nat.iter (S (measure w)) round w).
Proof.
  intros H0 HS w Hw. remember (measure w) as n eqn:Hn. symmetry in Hn. revert w Hw Hn.
  induction n as [|n IH]; intros w Hw Hn; [by apply H0|].
  destruct (HS w n Hw Hn) as [Hw' Hn']. rewrite Nat.iter_succ_r. by apply IH.
Qed.
