(* ===== verification/K8s.v ===== *)
(** * The API server and the other services

    The objects the controllers read and write, the calls they make and the
    parts of the Kubernetes libraries they use.  The client library, the API
    server, govc and the OpenStack services are not part of the repository: a
    call is answered by an arbitrary environment (Effects.v), and the pure
    library functions are operations of the class [KubeLib] with the documented
    behaviour the proofs rely on stated in [KubeLaws]. *)
From S2P Require Import Prelude OpenStackErrors Api Metrics Effects.

(** ** Dynamic values

    The Go type [any] as it occurs in the content of an unstructured object. *)
Inductive any :=
| ANil
| ABool (b : bool)
| AInt (z : Z)
| AString (s : string)
| ASlice (l : list any)
| AMap (m : list (string * any)).

(** The type assertion [v.(string)] with its zero value, and the map read of an
    item [v.(map[string]any)[key]]. *)
Definition asString (v : any) : option string := match v with AString s => Some s | _ => None end.
Definition asStringOr (v : option any) : string :=
  match v with Some (AString s) => s | _ => "" end.
Definition asMap (v : any) : option (list (string * any)) :=
  match v with AMap m => Some m | _ => None end.
Definition mapRead (m : list (string * any)) (key : string) : option any :=
  snd <$> List.find (λ kv, kv.1 == key) m.
(** The comparison [m[key] == s] of a dynamic value with a string. *)
Definition isStringAt (m : list (string * any)) (key s : string) : bool :=
  match mapRead m key with Some (AString v) => v == s | _ => false end.

(** An unstructured object: its metadata, read and written through the
    accessors of metav1.Object, and its remaining content. *)
Record Unstructured := mkUnstructured {
  un_Meta : ObjectMeta;
  un_Object : any }.

Record Secret := mkSecret {
  sec_Meta : ObjectMeta;
  sec_Data : gmap string string }.

Record ConfigMap := mkConfigMap {
  cm_Meta : ObjectMeta;
  cm_Data : gmap string string }.

#[export] Instance eta_Unstructured : Eta Unstructured := λ r, mkUnstructured (un_Meta r) (un_Object r).
#[export] Instance eta_Secret : Eta Secret := λ r, mkSecret (sec_Meta r) (sec_Data r).
#[export] Instance eta_ConfigMap : Eta ConfigMap := λ r, mkConfigMap (cm_Meta r) (cm_Data r).

(** ** Kinds *)
Inductive kind :=
| KVsphereAgentPool | KVsphereAgent | KOpenStackAgentPool | KOpenStackAgent
| KMachine | KAgentMachine | KInfraEnv | KAgent
| KSecret | KConfigMap.

#[export] Instance kind_eq_dec : EqDecision kind.
Proof. solve_decision. Defined.

Definition obj (k : kind) : Type :=
  match k with
  | KVsphereAgentPool => VsphereAgentPool
  | KVsphereAgent => VsphereAgent
  | KOpenStackAgentPool => OpenStackAgentPool
  | KOpenStackAgent => OpenStackAgent
  | KMachine | KAgentMachine | KInfraEnv | KAgent => Unstructured
  | KSecret => Secret
  | KConfigMap => ConfigMap
  end.

Definition objMeta {k : kind} : obj k → ObjectMeta :=
  match k with
  | KVsphereAgentPool => pl_Meta
  | KVsphereAgent => va_Meta
  | KOpenStackAgentPool => osp_Meta
  | KOpenStackAgent => oa_Meta
  | KMachine | KAgentMachine | KInfraEnv | KAgent => un_Meta
  | KSecret => sec_Meta
  | KConfigMap => cm_Meta
  end.

(** The reader of a read: the cache of the manager's client or the API server. *)
Inductive reader := Cached | Live.

#[export] Instance reader_eq_dec : EqDecision reader.
Proof. solve_decision. Defined.

(** The options of a list: client.InNamespace and client.MatchingFields. *)
Record listOptions := mkListOptions {
  lo_Namespace : option string;
  lo_Fields : list (string * string) }.

Definition AllNamespaces : listOptions := mkListOptions None [].
Definition InNamespace (ns : string) : listOptions := mkListOptions (Some ns) [].
Definition MatchingField (index value : string) : listOptions := mkListOptions None [(index, value)].

(** client.Preconditions of a delete. *)
Record Preconditions := mkPreconditions {
  pc_UID : string;
  pc_ResourceVersion : string }.

(** A download answered by an HTTP server: the parts of http.Response that are
    read. *)
Record httpResponse := mkHttpResponse {
  hr_StatusCode : Z;
  hr_ContentLength : Z;
  hr_LastModified : string;
  hr_Body : result string }.

(** The outcome of a Go [select] over a running command, the context and a
    ticker. *)
Inductive selectOutcome :=
| CommandDone (err : result unit)
| ContextDone (e : error)
| Tick.

(** ** The OpenStack client

    internal/openstack/client.go, the interface Client: the controllers use a
    client they get from a Factory.  The only client of the repository is the
    struct cloud, so a client is a value of it; the controllers read its Scope
    and call it, and what the calls do is OpenStackClient.v. *)
Record Resource := mkResource {
  rs_ID : string;
  rs_Name : string;
  rs_Owner : string;
  rs_State : string;
  rs_MAC : string;
  rs_Attached : bool;
  rs_Bootable : bool;
  rs_SizeBytes : Z }.

Record cloud := mkCloud { cl_scope : string; cl_project : string; cl_expires : Time }.
Abbreviation osClient := cloud.
(** The method Scope. *)
Definition oc_Scope (c : cloud) : string := cl_scope c.

#[export] Instance eta_Resource : Eta Resource := λ r,
  mkResource (rs_ID r) (rs_Name r) (rs_Owner r) (rs_State r) (rs_MAC r) (rs_Attached r) (rs_Bootable r) (rs_SizeBytes r).
#[export] Instance Resource_eq_dec : EqDecision Resource.
Proof. solve_decision. Defined.

Inductive osClientE : Type → Type :=
| OSFactory (cfg : OpenStackPlacementSpec) (secret : Secret) : osClientE (result osClient)
| OSFind (p : osClient) (k : Kind) (name owner : string) : osClientE (result Resource)
| OSGet (p : osClient) (k : Kind) (id owner : string) : osClientE (result Resource)
| OSCreate (p : osClient) (k : Kind) (name owner : string) (a : OpenStackAgent) : osClientE (result Resource)
| OSSetBootable (p : osClient) (id owner : string) : osClientE (result unit)
| OSUploadImage (p : osClient) (id owner content : string) : osClientE (result unit)
| OSDelete (p : osClient) (k : Kind) (id owner : string) : osClientE (result unit).

(** ** Calls

    Now reads the clock; Clock answers the successive readings of a pure function
    that stamps several VMs.
    Metric is an operation on a metric vector (Metrics.v), Eventf records a
    Kubernetes event about an object.
    GovcStart starts a govc command in a goroutine; Select waits for it.
    A write of an object answers with the object as the server stored it.  A
    merge patch is given by the object before and after the change;
    [optimisticLock] says that it carries the resource version of [before]. *)
Inductive callE : Type → Type :=
| Get (r : reader) (k : kind) (ns name : string) : callE (result (obj k))
| ListObjs (r : reader) (k : kind) (opts : listOptions) : callE (result (list (obj k)))
| Create (k : kind) (o : obj k) : callE (result (obj k))
| Update (k : kind) (o : obj k) : callE (result (obj k))
| StatusUpdate (k : kind) (o : obj k) : callE (result (obj k))
| Patch (k : kind) (before after : obj k) (optimisticLock : bool) : callE (result (obj k))
| Delete (k : kind) (o : obj k) (pre : option Preconditions) : callE (result unit)
| Now : callE Time
| Clock : callE (nat → nat → Time)
| Govc (args : list string) : callE (result string)
| GovcStart (args : list string) : callE unit
| Select : callE selectOutcome
| MkdirTemp : callE (result string)
| HttpGet (url ifModifiedSince : string) : callE (result httpResponse)
| ReadFile (path : string) : callE (result string)
| WriteFile (path content : string) : callE (result unit)
| CreateTemp (pattern : string) : callE (result string)
| CloseFile (path : string) : callE (result unit)
| RemoveFile (path : string) : callE unit
| Metric (op : metricOp) : callE unit
| Eventf (k : kind) (regarding : obj k) (eventtype reason action note : string) : callE unit
| OpenStack {X : Type} (e : osClientE X) : callE X.

Abbreviation program A := (prog callE A).
Abbreviation hist := (history callE).

Definition now : program Time := call Now.

(** The API server keeps the name, namespace and UID of an object it patches. *)
Definition sameObject (m m' : ObjectMeta) : Prop :=
  om_Name m = om_Name m' ∧ om_Namespace m = om_Namespace m' ∧ om_UID m = om_UID m'.

Definition keepsIdentity : answers callE := λ X _ e,
  match e in callE X return X → Prop with
  | Patch k before _ _ => λ r, match r with Ok o => sameObject (objMeta before) (objMeta o) | Err _ => True end
  | _ => λ _, True
  end.

(** ** Library functions

    k8s.io/apimachinery (unstructured.Nested*, meta conditions), client-go's
    retry, controller-runtime's controllerutil.  [SetControllerReference k owner m]
    makes the object of kind [k] with metadata [owner] the controller of [m].  The value a Nested* function
    returns for a missing or ill-typed field is the zero value.  AddFinalizer
    also says whether it changed the object. *)
Class KubeLib := {
  NestedString : any → list string → string;
  NestedBool : any → list string → bool;
  NestedSlice : any → list string → option (list any);
  NestedStringMap : any → list string → result (option (gmap string string));
  SetNestedField : any → any → list string → result any;
  SetNestedStringMap : any → gmap string string → list string → result any;
  SetStatusCondition : list Condition → Condition → list Condition;
  FindStatusCondition : list Condition → string → option Condition;
  ContainsFinalizer : ObjectMeta → string → bool;
  AddFinalizer : ObjectMeta → string → bool * ObjectMeta;
  RemoveFinalizer : ObjectMeta → string → ObjectMeta;
  SetControllerReference : kind → ObjectMeta → ObjectMeta → result ObjectMeta;
  RetryOnConflict : ∀ A, program (result A) → program (result A) }.
Arguments RetryOnConflict {_ _} _.

Definition IsStatusConditionTrue `{KubeLib} (conditions : list Condition) (t : string) : bool :=
  match FindStatusCondition conditions t with
  | Some c => cd_Status c == ConditionTrue
  | None => false
  end.

(** ** Documented behaviour of the library

    A body retried while it returns a conflict, [S n] attempts at most. *)
Fixpoint retryTimes {A} (n : nat) (body : program (result A)) : program (result A) :=
  match n with
  | O => body
  | S n' =>
      let! r := body in
      match r with
      | Err e => if IsConflict e then retryTimes n' body else Return (Err e)
      | Ok a => Return (Ok a)
      end
  end.

Fixpoint pathsDiverge (p q : list string) : bool :=
  match p, q with
  | a :: p', b :: q' => if a == b then pathsDiverge p' q' else true
  | _, _ => false
  end.

(** A field or map that was set is read back, setting one field leaves fields on other
    paths alone, a condition that was set is found with its contents while the
    conditions of other types are kept, finalizers form a set, a controller
    reference changes the owner references only, and a body is retried on conflict only. *)
Class KubeLaws `{KubeLib} : Prop := {
  SetNestedField_bool o b path o' :
    SetNestedField o (ABool b) path = Ok o' → NestedBool o' path = b;
  SetNestedField_string o s path o' :
    SetNestedField o (AString s) path = Ok o' → NestedString o' path = s;
  SetNestedStringMap_read o m path o' :
    SetNestedStringMap o m path = Ok o' → NestedStringMap o' path = Ok (Some m);
  SetNestedField_other o v path o' path' :
    SetNestedField o v path = Ok o' → pathsDiverge path path' = true →
    NestedString o' path' = NestedString o path' ∧ NestedBool o' path' = NestedBool o path' ∧
    NestedSlice o' path' = NestedSlice o path';
  SetStatusCondition_find cs c :
    ∃ c', FindStatusCondition (SetStatusCondition cs c) (cd_Type c) = Some c' ∧
      cd_Type c' = cd_Type c ∧ cd_Status c' = cd_Status c ∧ cd_Reason c' = cd_Reason c ∧
      cd_Message c' = cd_Message c ∧ cd_ObservedGeneration c' = cd_ObservedGeneration c;
  SetStatusCondition_other cs c t :
    t ≠ cd_Type c → FindStatusCondition (SetStatusCondition cs c) t = FindStatusCondition cs t;
  FindStatusCondition_type cs t c : FindStatusCondition cs t = Some c → cd_Type c = t;
  AddFinalizer_spec m f :
    AddFinalizer m f = if ContainsFinalizer m f then (false, m)
                       else (true, m <| om_Finalizers := om_Finalizers m ++ [f] |>);
  ContainsFinalizer_spec m f : ContainsFinalizer m f = bool_decide (f ∈ om_Finalizers m);
  RemoveFinalizer_spec m f :
    RemoveFinalizer m f = m <| om_Finalizers := List.filter (λ g, g != f) (om_Finalizers m) |>;
  SetControllerReference_spec k owner m m' :
    SetControllerReference k owner m = Ok m' →
    ∃ refs, m' = m <| om_OwnerReferences := refs |> ∧
      Exists (λ ref, ow_Name ref = om_Name owner ∧ ow_UID ref = om_UID owner) refs;
  RetryOnConflict_spec : ∃ n, ∀ A (body : program (result A)), RetryOnConflict body = retryTimes n body }.

Lemma always_retry `{KubeLaws} {A} ok (body : program (result A)) :
  always ok body → always ok (RetryOnConflict body).
Proof.
  intros Hb. destruct RetryOnConflict_spec as [n Hn]. rewrite Hn. clear Hn.
  induction n as [|n IH]; simpl; [done|]. apply always_bind; [done|].
  intros [a|e]; [apply always_return|]. destruct (IsConflict e); [done|apply always_return].
Qed.
#[export] Hint Resolve always_retry : always.

Lemma ContainsFinalizer_removed `{KubeLaws} m f : ContainsFinalizer (RemoveFinalizer m f) f = false.
Proof.
  rewrite RemoveFinalizer_spec, ContainsFinalizer_spec. apply bool_decide_eq_false_2.
  intros Hin%list_elem_of_In. apply filter_In in Hin as [_ Hin]. by gobool.
Qed.

Lemma AddFinalizer_contains `{KubeLaws} m f added meta : AddFinalizer m f = (added, meta) → ContainsFinalizer meta f = true.
Proof.
  rewrite AddFinalizer_spec. destruct (ContainsFinalizer m f) eqn:E; intros [= <- <-]; [done|].
  rewrite ContainsFinalizer_spec. apply bool_decide_eq_true_2. simpl. set_solver.
Qed.

(** ** A reference implementation

    It shows that the documented behaviour can be met, and makes the models
    executable. *)
Module RefLib.

Fixpoint getPath (path : list string) (o : any) : option any :=
  match path with
  | [] => Some o
  | k :: path' => match o with AMap m => match mapRead m k with Some v => getPath path' v | None => None end
                             | _ => None end
  end.

Definition setKey (m : list (string * any)) (k : string) (v : any) : list (string * any) :=
  (k, v) :: List.filter (λ kv, kv.1 != k) m.

Fixpoint setPath (path : list string) (v o : any) : result any :=
  match path with
  | [] => Ok v
  | k :: path' =>
      match o with
      | AMap m =>
          match setPath path' v (default (AMap []) (mapRead m k)) with
          | Ok o' => Ok (AMap (setKey m k o'))
          | Err e => Err e
          end
      | _ => Errorf "value is not a map"
      end
  end.

Definition stringMap (m : list (string * any)) : gmap string string :=
  list_to_map (omap (λ kv, match kv.2 with AString s => Some (kv.1, s) | _ => None end) m).

Definition setCondition (cs : list Condition) (c : Condition) : list Condition :=
  if existsb (λ d, cd_Type d == cd_Type c) cs
  then map (λ d, if cd_Type d == cd_Type c then c else d) cs
  else cs ++ [c].

Definition ownerGVK (k : kind) : string * string :=
  match k with
  | KVsphereAgentPool => ("agent-forge.containeroo.ch/v1alpha1", "VsphereAgentPool")
  | KOpenStackAgentPool => ("agent-forge.containeroo.ch/v1alpha1", "OpenStackAgentPool")
  | _ => ("v1", "")
  end.

Definition attempts : nat := 4.
End RefLib.

Definition refKubeLib : KubeLib := {|
  NestedString o path := match RefLib.getPath path o with Some (AString s) => s | _ => "" end;
  NestedBool o path := match RefLib.getPath path o with Some (ABool b) => b | _ => false end;
  NestedSlice o path := match RefLib.getPath path o with Some (ASlice l) => Some l | _ => None end;
  NestedStringMap o path :=
    match RefLib.getPath path o with
    | Some (AMap m) => Ok (Some (RefLib.stringMap m))
    | Some _ => Errorf "value is not a map"
    | None => Ok None
    end;
  SetNestedField o v path := RefLib.setPath path v o;
  SetNestedStringMap o m path := RefLib.setPath path (AMap (prod_map id AString <$> map_to_list m)) o;
  SetStatusCondition := RefLib.setCondition;
  FindStatusCondition cs t := List.find (λ c, cd_Type c == t) cs;
  ContainsFinalizer m f := bool_decide (f ∈ om_Finalizers m);
  AddFinalizer m f :=
    if bool_decide (f ∈ om_Finalizers m) then (false, m)
    else (true, m <| om_Finalizers := om_Finalizers m ++ [f] |>);
  RemoveFinalizer m f := m <| om_Finalizers := List.filter (λ g, g != f) (om_Finalizers m) |>;
  SetControllerReference k owner m :=
    let '(version, kindName) := RefLib.ownerGVK k in
    Ok (m <| om_OwnerReferences :=
           om_OwnerReferences m ++ [mkOwnerReference version kindName (om_Name owner) (om_UID owner)] |>);
  RetryOnConflict A := retryTimes RefLib.attempts |}.

(** ** The reference implementation meets the documented behaviour *)
Lemma mapRead_filter_ne m (k k' : string) :
  k' ≠ k → mapRead (List.filter (λ kv, kv.1 != k) m) k' = mapRead m k'.
Proof.
  intros Hne. unfold mapRead. induction m as [|[a v] m IH]; simpl; [done|].
  destruct (decide (a = k)) as [->|Ha]; bdsimp; [by rewrite IH|].
  destruct (a == k'); [done|]. apply IH.
Qed.

Lemma mapRead_setKey_eq m k v : mapRead (RefLib.setKey m k v) k = Some v.
Proof. unfold mapRead, RefLib.setKey. simpl. by bdsimp. Qed.

Lemma mapRead_setKey_ne m (k k' : string) v :
  k' ≠ k → mapRead (RefLib.setKey m k v) k' = mapRead m k'.
Proof.
  intros Hne. rewrite <- (mapRead_filter_ne m k k') by done. unfold mapRead, RefLib.setKey. simpl.
  by rewrite (bool_decide_false (k = k')) by done.
Qed.

Lemma getPath_setPath path v o o' :
  RefLib.setPath path v o = Ok o' → RefLib.getPath path o' = Some v.
Proof.
  revert o o'. induction path as [|k path IH]; simpl; intros o o' H; [by injection H as ->|].
  destruct o; try discriminate. destruct (RefLib.setPath path v _) as [o1|] eqn:E; [|done].
  injection H as <-. rewrite mapRead_setKey_eq. by eapply IH.
Qed.

Lemma getPath_setPath_other path path' v o o' :
  RefLib.setPath path v o = Ok o' → pathsDiverge path path' = true →
  RefLib.getPath path' o' = RefLib.getPath path' o.
Proof.
  revert path' o o'. induction path as [|k path IH]; intros [|k' path'] o o'; simpl; try done.
  intros H Hd. destruct o; try discriminate.
  destruct (RefLib.setPath path v _) as [o1|] eqn:E; [|done]. injection H as <-.
  destruct (decide (k = k')) as [<-|Hne].
  - rewrite bool_decide_true in Hd by done. rewrite mapRead_setKey_eq.
    rewrite (IH _ _ _ E Hd). destruct (mapRead m k) as [w|]; simpl; [done|].
    destruct path'; [by destruct path|done].
  - rewrite mapRead_setKey_ne by congruence. done.
Qed.

Lemma setCondition_find cs c :
  List.find (λ d, cd_Type d == cd_Type c) (RefLib.setCondition cs c) = Some c.
Proof.
  unfold RefLib.setCondition. destruct (existsb _ cs) eqn:E.
  - induction cs as [|d cs IH]; simpl in *; [done|].
    destruct (cd_Type d == cd_Type c) eqn:Ed; simpl; [by bdsimp|].
    rewrite Ed. by apply IH.
  - induction cs as [|d cs IH]; simpl in *; [by bdsimp|].
    apply orb_false_elim in E as [Ed E]. rewrite Ed. by apply IH.
Qed.

Lemma setCondition_other cs c t :
  t ≠ cd_Type c →
  List.find (λ d, cd_Type d == t) (RefLib.setCondition cs c) = List.find (λ d, cd_Type d == t) cs.
Proof.
  intros Ht. unfold RefLib.setCondition. destruct (existsb _ cs).
  - induction cs as [|d cs IH]; simpl; [done|].
    destruct (decide (cd_Type d = cd_Type c)) as [Hd|Hd];
      rewrite ?(bool_decide_true _ Hd), ?(bool_decide_false _ Hd).
    + rewrite !bool_decide_false by congruence. apply IH.
    + destruct (cd_Type d == t); [done|]. apply IH.
  - induction cs as [|d cs IH]; simpl; [by rewrite bool_decide_false|].
    destruct (cd_Type d == t); [done|]. apply IH.
Qed.

Lemma stringMap_strings (m : gmap string string) :
  RefLib.stringMap (prod_map id AString <$> map_to_list m) = m.
Proof.
  unfold RefLib.stringMap. rewrite <- (list_to_map_to_list m) at 2. f_equal.
  induction (map_to_list m) as [|[k v] l IH]; [done|]. csimpl. by rewrite IH.
Qed.

Lemma refKubeLaws : @KubeLaws refKubeLib.
Proof.
  split; simpl.
  - intros o b path o' H. by rewrite (getPath_setPath _ _ _ _ H).
  - intros o b path o' H. by rewrite (getPath_setPath _ _ _ _ H).
  - intros o m path o' H. by rewrite (getPath_setPath _ _ _ _ H), stringMap_strings.
  - intros o v path o' path' H Hd. by rewrite (getPath_setPath_other _ _ _ _ _ H Hd).
  - intros cs c. exists c. split; [apply setCondition_find|]. done.
  - intros cs c t Ht. by apply setCondition_other.
  - intros cs t c [_ Hc]%find_some. by gobool.
  - done.
  - done.
  - done.
  - intros k owner m m' Hm. destruct (RefLib.ownerGVK k) as [v n]. injection Hm as <-. eexists. split; [reflexivity|].
    apply Exists_app. right. by constructor.
  - by exists RefLib.attempts.
Qed.
