(* ===== verification/Telemetry.v ===== *)
(** * Events and metrics of the vSphere controllers

    internal/controller/event_recorder.go, the functions of metrics.go the
    controllers call, and the event helpers of vsphereagentpool_controller.go.
    The controllers check that they have a recorder; SetupWithManager gives every
    reconciler one (Startup.v), so the check is not repeated here. *)
From S2P Require Import Prelude Api Planner Metrics Effects K8s.

Definition EventTypeNormal : string := "Normal".
Definition EventTypeWarning : string := "Warning".

(** ** Events *)
Definition recordEvent (k : kind) (object : obj k) (eventtype reason message : string) : program unit :=
  call (Eventf k object eventtype reason reason message).

(** [note] is the message after formatting. *)
Definition recordEventf (k : kind) (object : obj k) (eventtype reason note : string) : program unit :=
  call (Eventf k object eventtype reason reason note).

Definition recordWarning (pool : VsphereAgentPool) (reason message : string) : program unit :=
  recordEvent KVsphereAgentPool pool EventTypeWarning reason message.

Definition recordNormal (pool : VsphereAgentPool) (reason message : string) : program unit :=
  recordEvent KVsphereAgentPool pool EventTypeNormal reason message.

Definition summarizeActions (actions : list PlannedActionStatus) : string :=
  Join (map (λ action, if pa_Name action == "" then pa_Type action
                       else pa_Type action +:+ "/" +:+ pa_Name action) actions) ", ".

Definition onlyNoop (actions : list PlannedActionStatus) : bool :=
  match actions with [action] => pa_Type action == actionNoop | _ => false end.

Definition recordPlan (pool : VsphereAgentPool) (plan : PoolPlan) (reason : string) : program unit :=
  if onlyNoop (pp_Actions plan) then Return tt
  else recordEventf KVsphereAgentPool pool EventTypeNormal reason
         ("planned " +:+ fmt_d (Z.of_nat (length (pp_Actions plan))) +:+ " action(s): " +:+
          summarizeActions (pp_Actions plan)).

(** ** Metrics *)
Fixpoint metricCalls (ops : list metricOp) : program unit :=
  match ops with
  | [] => Return tt
  | op :: ops => let! _ := call (Metric op) in metricCalls ops
  end.

Definition countedAs (v : metricVec) (operation outcome : string) : metricOp :=
  Inc v (labelValues v [operation; outcome]).

Definition recordVMOperation {A} (operation : string) (err : result A) : program unit :=
  call (Metric (countedAs vmOperationsTotal operation (metricResult (negb (isNil err))))).

Definition recordISOOperation {A} (operation : string) (err : result A) : program unit :=
  call (Metric (countedAs isoOperationsTotal operation (metricResult (negb (isNil err))))).

Definition recordPoolCapacityMetrics (pool : VsphereAgentPool) (plan : PoolPlan) : program unit :=
  metricCalls (poolCapacityOps pool plan).

Definition deletePoolCapacityMetrics (pool : VsphereAgentPool) : program unit :=
  metricCalls (deletePoolOps pool).

(** ** Lemmas *)

(** A property that holds of every metric and event call. *)
Class Unobserved (ok : precondition callE) : Prop := {
  unobserved_metric h op : ok unit h (Metric op);
  unobserved_event h k o t r a n : ok unit h (Eventf k o t r a n) }.

Lemma unobserved (ok : precondition callE) :
  (∀ h op, ok unit h (Metric op)) → (∀ h k o t r a n, ok unit h (Eventf k o t r a n)) → Unobserved ok.
Proof. by split. Qed.

Section unobserved.
Context (ok : precondition callE) `{!Unobserved ok}.

Lemma recordEvent_always k o t r m : always ok (recordEvent k o t r m).
Proof. apply always_call. intros h. apply unobserved_event. Qed.
Lemma recordEventf_always k o t r m : always ok (recordEventf k o t r m).
Proof. apply always_call. intros h. apply unobserved_event. Qed.
Lemma recordWarning_always pool r m : always ok (recordWarning pool r m).
Proof. apply recordEvent_always. Qed.
Lemma recordNormal_always pool r m : always ok (recordNormal pool r m).
Proof. apply recordEvent_always. Qed.
Lemma recordPlan_always pool plan r : always ok (recordPlan pool plan r).
Proof. unfold recordPlan. destruct (onlyNoop _); [apply always_return|apply recordEventf_always]. Qed.

Lemma metricCalls_always ops : always ok (metricCalls ops).
Proof.
  induction ops as [|op ops IH]; cbn [metricCalls]; [apply always_return|].
  apply always_bind; [|done]. apply always_call. intros h. apply unobserved_metric.
Qed.
Lemma recordVMOperation_always {A} o (err : result A) : always ok (recordVMOperation o err).
Proof. apply always_call. intros h. apply unobserved_metric. Qed.
Lemma recordISOOperation_always {A} o (err : result A) : always ok (recordISOOperation o err).
Proof. apply always_call. intros h. apply unobserved_metric. Qed.
Lemma recordPoolCapacityMetrics_always pool plan : always ok (recordPoolCapacityMetrics pool plan).
Proof. apply metricCalls_always. Qed.
Lemma deletePoolCapacityMetrics_always pool : always ok (deletePoolCapacityMetrics pool).
Proof. apply metricCalls_always. Qed.
End unobserved.

#[export] Hint Extern 2 (Unobserved _) => (apply unobserved; intros; exact I) : typeclass_instances always.
#[export] Hint Resolve recordEvent_always recordEventf_always recordWarning_always recordNormal_always
  recordPlan_always recordVMOperation_always recordISOOperation_always recordPoolCapacityMetrics_always
  deletePoolCapacityMetrics_always : always.
