(* ===== verification/Objects.v ===== *)
(** * Reading cluster objects

    internal/controller/vsphereagentpool_controller.go: what the operator reads
    from Agents, Machines, AgentMachines and InfraEnvs, the demand it counts, and
    the watch predicates that decide whether an update is worth a reconcile.  The
    theorems say that an update a predicate drops cannot change what is read. *)
From S2P Require Import Prelude Api Identity Planner OwnedVMs Effects K8s.

(** ** Constants *)
Definition conditionReady : string := "Ready".
Definition nodePoolAnnotation : string := "hypershift.openshift.io/nodePool".
Definition roleLabelKey : string := "hypershift.openshift.io/nodepool-role".
Definition agentMachineRefKey : string := "agentMachineRef".
Definition agentMachineSelectionLabel : string := "agent-forge.containeroo.ch/agent-machine".
Definition agentCleanupAnnotation : string := "agent-forge.containeroo.ch/cleanup-vm".
Definition k8sKindInfraEnv : string := "InfraEnv".

Section objects.
Context `{KubeLib}.

(** ** Accessors *)
Definition GetName (o : Unstructured) : string := om_Name (un_Meta o).
Definition GetNamespace (o : Unstructured) : string := om_Namespace (un_Meta o).
Definition label (o : Unstructured) (k : string) : string := mapGet (om_Labels (un_Meta o)) k.
Definition annotation (o : Unstructured) (k : string) : string := mapGet (om_Annotations (un_Meta o)) k.
Definition isDeleting (m : ObjectMeta) : bool :=
  match om_DeletionTimestamp m with Some _ => true | None => false end.

(** ** Conditions *)
Fixpoint findCondition (items : list any) (conditionType : string) : option (list (string * any)) :=
  match items with
  | [] => None
  | item :: rest =>
      match asMap item with
      | Some condition => if isStringAt condition "type" conditionType then Some condition
                          else findCondition rest conditionType
      | None => findCondition rest conditionType
      end
  end.

Definition objectConditionStatusReason (o : Unstructured) (conditionType : string) : string * string :=
  match NestedSlice (un_Object o) ["status"; "conditions"] with
  | None => (ConditionUnknown, "")
  | Some conditions =>
      match findCondition conditions conditionType with
      | Some condition => (asStringOr (mapRead condition "status"), asStringOr (mapRead condition "reason"))
      | None => (ConditionUnknown, "")
      end
  end.

Definition objectConditionReason (o : Unstructured) (conditionType : string) : string :=
  let '(status, reason) := objectConditionStatusReason o conditionType in
  if status != ConditionFalse then "" else reason.

Definition objectConditionStatus (o : Unstructured) (conditionType : string) : string :=
  (objectConditionStatusReason o conditionType).1.

Definition infraEnvStatusCondition (infraEnv : Unstructured) (conditionType : string)
    : option (string * string * string) :=
  let conditions := default [] (NestedSlice (un_Object infraEnv) ["status"; "conditions"]) in
  match findCondition conditions conditionType with
  | Some c => Some (asStringOr (mapRead c "status"), asStringOr (mapRead c "reason"),
                    asStringOr (mapRead c "message"))
  | None => None
  end.

(** ** AgentMachines and Machines *)
Definition agentMachineWaitingForAgent (am : Unstructured) : bool :=
  objectConditionReason am conditionReady == "NoSuitableAgents".

Definition agentMachineReady (am : Unstructured) : bool :=
  objectConditionStatus am conditionReady == ConditionTrue.

Definition agentMachineHasAssignedAgent (am : Unstructured) : bool :=
  if NestedString (un_Object am) ["status"; "agentRef"; "name"] != "" then true
  else HasPrefix (NestedString (un_Object am) ["spec"; "providerID"]) "agent://".

Definition machinePhase (machine : Unstructured) : string :=
  NestedString (un_Object machine) ["status"; "phase"].

Definition controlPlaneObjectMatchesPool (o : Unstructured) (pool : VsphereAgentPool) : bool :=
  if ps_ControlPlaneNamespace (pl_Spec pool) != GetNamespace o then false
  else
    let expectedNodePool :=
      om_Namespace (pl_Meta pool) +:+ "/" +:+ lor_Name (ps_NodePoolRef (pl_Spec pool)) in
    annotation o nodePoolAnnotation == expectedNodePool.

Record AgentMachineDemand := mkAgentMachineDemand {
  dm_Total : Z;
  dm_Waiting : Z;
  dm_Unready : Z;
  dm_WithoutAgent : Z }.

(** One iteration of the loop of countAgentMachineDemand. *)
Definition addDemand (pool : VsphereAgentPool) (d : AgentMachineDemand) (am : Unstructured) : AgentMachineDemand :=
  if isDeleting (un_Meta am) then d
  else if negb (controlPlaneObjectMatchesPool am pool) then d
  else
    let ready := agentMachineReady am in
    mkAgentMachineDemand (add32 (dm_Total d) 1)
      (if agentMachineWaitingForAgent am then add32 (dm_Waiting d) 1 else dm_Waiting d)
      (if negb ready then add32 (dm_Unready d) 1 else dm_Unready d)
      (if negb ready && negb (agentMachineHasAssignedAgent am) then add32 (dm_WithoutAgent d) 1
       else dm_WithoutAgent d).

Definition demandOf (pool : VsphereAgentPool) (items : list Unstructured) : AgentMachineDemand :=
  foldl (addDemand pool) (mkAgentMachineDemand 0 0 0 0) items.

(** The machines listed by listNodePoolMachines. *)
Definition machineInfoOf (machine : Unstructured) : MachineInfo :=
  mkMachineInfo (GetName machine) (isDeleting (un_Meta machine) || (machinePhase machine == "Deleting")).

Definition machinesOf (pool : VsphereAgentPool) (items : list Unstructured) : list MachineInfo :=
  map machineInfoOf (List.filter (λ m, controlPlaneObjectMatchesPool m pool) items).

(** ** Agents *)
Fixpoint primaryMAC (interfaces : list any) : string :=
  match interfaces with
  | [] => ""
  | item :: rest =>
      match asMap item with
      | None => primaryMAC rest
      | Some iface =>
          let value key := asStringOr (mapRead iface key) in
          if TrimSpace (value "macAddress") != "" then value "macAddress"
          else if TrimSpace (value "mac") != "" then value "mac"
          else primaryMAC rest
      end
  end.

Definition agentPrimaryMAC (agent : Unstructured) : string :=
  match NestedSlice (un_Object agent) ["status"; "inventory"; "interfaces"] with
  | None => ""
  | Some interfaces => primaryMAC interfaces
  end.

Definition agentSerialNumber (agent : Unstructured) : string :=
  NestedString (un_Object agent) ["status"; "inventory"; "systemVendor"; "serialNumber"].
Definition agentInventoryHostname (agent : Unstructured) : string :=
  NestedString (un_Object agent) ["status"; "inventory"; "hostname"].
Definition agentSpecHostname (agent : Unstructured) : string :=
  NestedString (un_Object agent) ["spec"; "hostname"].
Definition agentClusterName (agent : Unstructured) : string :=
  NestedString (un_Object agent) ["spec"; "clusterDeploymentName"; "name"].

Definition agentBelongsToInfraEnv (agent : Unstructured) (infraEnvName : string) : bool :=
  if label agent "infraenvs.agent-install.openshift.io" == infraEnvName then true
  else existsb (λ ref, (ow_Kind ref == k8sKindInfraEnv) && (ow_Name ref == infraEnvName))
         (om_OwnerReferences (un_Meta agent)).

Definition agentDeletionBlocker (agent : Unstructured) : string :=
  if label agent agentMachineRefKey != ""
  then "still bound to AgentMachine " +:+ label agent agentMachineRefKey
  else if agentClusterName agent != ""
  then "still bound to ClusterDeployment " +:+ agentClusterName agent
  else "".

(** The Machine that owns an AgentMachine (the loop over its owner references
    in listMatchingAgents). *)
Definition owningMachineName (refs : list OwnerReference) : string :=
  match List.find (λ o, (ow_Kind o == "Machine") && HasPrefix (ow_APIVersion o) "cluster.x-k8s.io/") refs with
  | Some o => ow_Name o
  | None => ""
  end.

(** The AgentInfo built by listMatchingAgents. *)
Definition agentInfoOf (agent : Unstructured) (machineName : string) : AgentInfo :=
  mkAgentInfo (GetName agent)
    ((label agent agentMachineRefKey != "") || (agentClusterName agent != ""))
    (annotation agent agentCleanupAnnotation != "")
    machineName
    (NestedBool (un_Object agent) ["spec"; "approved"])
    (NestedString (un_Object agent) ["spec"; "role"])
    (label agent roleLabelKey)
    (label agent poolLabelKey)
    (label agent agentMachineSelectionLabel)
    (agentSpecHostname agent)
    (agentInventoryHostname agent)
    (normalizeMAC (agentPrimaryMAC agent))
    (normalizeVMwareSerialUUID (agentSerialNumber agent)).

Definition agentCandidateLabels (pool : VsphereAgentPool) : gmap string string :=
  filter (λ kv, ¬ (kv.1 = roleLabelKey ∨ kv.1 = poolLabelKey ∨ kv.1 = agentMachineSelectionLabel ∨
                   kv.1 = agentMachineRefKey)) (ab_Labels (ps_Agent (pl_Spec pool))).

Definition agentMatchesPoolDiscriminator (pool : VsphereAgentPool) (agent : AgentInfo) : bool :=
  match ab_Labels (ps_Agent (pl_Spec pool)) !! poolLabelKey with
  | None => ai_PoolLabel agent == ""
  | Some desiredPoolLabel =>
      if ai_PoolLabel agent == desiredPoolLabel then true
      else if (ai_PoolLabel agent != "") || ai_Bound agent then false
      else agentAssociatedWithOwnedVM (pt_OwnedVMs (pl_Status pool)) agent
  end.

(** ** Watch predicates: the UpdateFunc of each predicate.  Create and delete
    events always pass. *)
Definition deletionTimestampChanged (oldObj newObj : ObjectMeta) : bool :=
  negb (Bool.eqb (isDeleting oldObj) (isDeleting newObj)).

Definition agentInventoryIdentityChanged (oldObj newObj : Unstructured) : bool :=
  if agentInventoryHostname oldObj != agentInventoryHostname newObj then true
  else if agentSerialNumber oldObj != agentSerialNumber newObj then true
  else normalizeMAC (agentPrimaryMAC oldObj) != normalizeMAC (agentPrimaryMAC newObj).

Definition agentChangePredicate (oldObj newObj : Unstructured) : bool :=
  if deletionTimestampChanged (un_Meta oldObj) (un_Meta newObj) then true
  else if om_Generation (un_Meta oldObj) != om_Generation (un_Meta newObj) then true
  else if om_Labels (un_Meta oldObj) != om_Labels (un_Meta newObj) then true
  else if om_OwnerReferences (un_Meta oldObj) != om_OwnerReferences (un_Meta newObj) then true
  else agentInventoryIdentityChanged oldObj newObj.

Definition objectConditionStatusReasonChanged (oldObj newObj : Unstructured) (conditionType : string) : bool :=
  objectConditionStatusReason oldObj conditionType != objectConditionStatusReason newObj conditionType.

Definition agentMachineAssignmentChanged (oldObj newObj : Unstructured) : bool :=
  let changed path := NestedString (un_Object oldObj) path != NestedString (un_Object newObj) path in
  if changed ["status"; "agentRef"; "name"] then true else changed ["spec"; "providerID"].

Definition agentMachineChangePredicate (oldObj newObj : Unstructured) : bool :=
  if deletionTimestampChanged (un_Meta oldObj) (un_Meta newObj) then true
  else if om_Annotations (un_Meta oldObj) != om_Annotations (un_Meta newObj) then true
  else if objectConditionStatusReasonChanged oldObj newObj conditionReady then true
  else agentMachineAssignmentChanged oldObj newObj.

Definition machineChangePredicate (oldObj newObj : Unstructured) : bool :=
  if deletionTimestampChanged (un_Meta oldObj) (un_Meta newObj) then true
  else if om_Annotations (un_Meta oldObj) != om_Annotations (un_Meta newObj) then true
  else machinePhase oldObj != machinePhase newObj.

Definition vsphereAgentPoolChangePredicate (oldObj newObj : VsphereAgentPool) : bool :=
  let o := pl_Meta oldObj in let n := pl_Meta newObj in
  if deletionTimestampChanged o n then true
  else if om_Generation o != om_Generation n then true
  else if om_Annotations o != om_Annotations n then true
  else om_Finalizers o != om_Finalizers n.

End objects.

(** ** Lemmas and properties *)
Section object_lemmas.
Context `{KubeLib}.

(** A waiting AgentMachine has a Ready condition that is False, so it is not ready. *)
Lemma waiting_not_ready am : agentMachineWaitingForAgent am = true → agentMachineReady am = false.
Proof.
  unfold agentMachineWaitingForAgent, agentMachineReady, objectConditionReason, objectConditionStatus.
  destruct (objectConditionStatusReason am conditionReady) as [status reason]. simpl.
  destruct (decide (status = ConditionFalse)) as [->|Hne]; bdsimp; [done|done].
Qed.

(** The counted demand is consistent: nothing is negative, waiting and
    unassigned AgentMachines are unready, and unready ones are counted in the
    total, which is at most the number of objects listed. *)
Theorem demandOf_consistent (pool : VsphereAgentPool) (items : list Unstructured)
    (Hfits : Z.of_nat (length items) < int32_half) :
  let d := demandOf pool items in
  0 ≤ dm_Waiting d ≤ dm_Unready d ∧ 0 ≤ dm_WithoutAgent d ≤ dm_Unready d ∧
  dm_Unready d ≤ dm_Total d ≤ Z.of_nat (length items).
Proof.
  cbv zeta. unfold demandOf. induction items as [|am items IH] using rev_ind; [done|].
  rewrite length_app in Hfits. simpl in Hfits.
  rewrite foldl_snoc, length_app. simpl. destruct IH as (? & ? & ?); [lia|].
  set (d := foldl (addDemand pool) _ items) in *. unfold addDemand.
  destruct (isDeleting (un_Meta am)); [lia|]. destruct (negb _); [lia|].
  pose proof (waiting_not_ready am) as Hw.
  destruct (agentMachineReady am), (agentMachineWaitingForAgent am),
    (agentMachineHasAssignedAgent am); simpl; try (by discriminate Hw);
    unfold add32; rewrite ?wrap32_small by (unfold int32_half in *; lia); lia.
Qed.

Lemma controlPlaneObjectMatchesPool_ext o o' pool :
  GetNamespace o = GetNamespace o' → om_Annotations (un_Meta o) = om_Annotations (un_Meta o') →
  controlPlaneObjectMatchesPool o pool = controlPlaneObjectMatchesPool o' pool.
Proof. unfold controlPlaneObjectMatchesPool, annotation. by intros -> ->. Qed.

Lemma deletionTimestampChanged_false o n :
  deletionTimestampChanged o n = false → isDeleting o = isDeleting n.
Proof. unfold deletionTimestampChanged. intros Hd. gobool. by apply eqb_prop in Hd. Qed.

(** An update of an AgentMachine that the watch predicate drops does not
    change the demand of any pool, whatever the other AgentMachines are. *)
Theorem agentMachineChangePredicate_complete (pool : VsphereAgentPool) (l1 l2 : list Unstructured)
    (oldObj newObj : Unstructured) (Hns : GetNamespace oldObj = GetNamespace newObj)
    (Hdropped : agentMachineChangePredicate oldObj newObj = false) :
  demandOf pool (l1 ++ oldObj :: l2) = demandOf pool (l1 ++ newObj :: l2).
Proof.
  unfold agentMachineChangePredicate in Hdropped.
  destruct (deletionTimestampChanged _ _) eqn:Hd; [done|].
  apply deletionTimestampChanged_false in Hd.
  destruct (om_Annotations (un_Meta oldObj) != _) eqn:Ha; [done|]. gobool.
  destruct (objectConditionStatusReasonChanged _ _ _) eqn:Hc; [done|].
  unfold objectConditionStatusReasonChanged in Hc. gobool.
  unfold agentMachineAssignmentChanged in Hdropped.
  destruct (NestedString (un_Object oldObj) ["status"; "agentRef"; "name"] != _) eqn:Hr; [done|]. gobool.
  unfold demandOf. rewrite !foldl_app. simpl. f_equal. unfold addDemand.
  rewrite Hd, (controlPlaneObjectMatchesPool_ext oldObj newObj) by done.
  unfold agentMachineReady, agentMachineWaitingForAgent, agentMachineHasAssignedAgent,
    objectConditionReason, objectConditionStatus. by rewrite Hc, Hr, Hdropped.
Qed.

(** An update of a Machine that the watch predicate drops does not change the
    Machines any pool observes. *)
Theorem machineChangePredicate_complete (pool : VsphereAgentPool) (l1 l2 : list Unstructured)
    (oldObj newObj : Unstructured) (Hname : GetName oldObj = GetName newObj)
    (Hns : GetNamespace oldObj = GetNamespace newObj)
    (Hdropped : machineChangePredicate oldObj newObj = false) :
  machinesOf pool (l1 ++ oldObj :: l2) = machinesOf pool (l1 ++ newObj :: l2).
Proof.
  unfold machineChangePredicate in Hdropped.
  destruct (deletionTimestampChanged _ _) eqn:Hd; [done|].
  apply deletionTimestampChanged_false in Hd.
  destruct (om_Annotations (un_Meta oldObj) != _) eqn:Ha; [done|]. gobool.
  unfold machinesOf. rewrite !List.filter_app. simpl.
  rewrite (controlPlaneObjectMatchesPool_ext oldObj newObj) by done.
  assert (machineInfoOf oldObj = machineInfoOf newObj) as Hi
    by (unfold machineInfoOf; by rewrite Hname, Hd, Hdropped).
  rewrite !map_app. f_equal. destruct (controlPlaneObjectMatchesPool newObj pool); simpl; by rewrite ?Hi.
Qed.

(** An update of an Agent that the watch predicate drops and that keeps the
    annotations does not change what the planner knows of the Agent, given the
    API server's rule that the spec is unchanged when the generation is. *)
Theorem agentChangePredicate_complete (oldObj newObj : Unstructured) (machineName : string)
    (Hname : GetName oldObj = GetName newObj)
    (Hann : om_Annotations (un_Meta oldObj) = om_Annotations (un_Meta newObj))
    (Hgeneration : om_Generation (un_Meta oldObj) = om_Generation (un_Meta newObj) →
       ∀ path, NestedString (un_Object oldObj) ("spec" :: path) = NestedString (un_Object newObj) ("spec" :: path) ∧
               NestedBool (un_Object oldObj) ("spec" :: path) = NestedBool (un_Object newObj) ("spec" :: path))
    (Hdropped : agentChangePredicate oldObj newObj = false) :
  agentInfoOf oldObj machineName = agentInfoOf newObj machineName ∧
  ∀ infraEnv, agentBelongsToInfraEnv oldObj infraEnv = agentBelongsToInfraEnv newObj infraEnv.
Proof.
  unfold agentChangePredicate in Hdropped.
  destruct (deletionTimestampChanged _ _); [done|].
  destruct (om_Generation (un_Meta oldObj) != _) eqn:Hg; [done|].
  destruct (om_Labels (un_Meta oldObj) != _) eqn:Hl; [done|].
  destruct (om_OwnerReferences (un_Meta oldObj) != _) eqn:Ho; [done|]. gobool.
  unfold agentInventoryIdentityChanged in Hdropped.
  destruct (agentInventoryHostname oldObj != _) eqn:Hh; [done|].
  destruct (agentSerialNumber oldObj != _) eqn:Hs; [done|]. gobool.
  specialize (Hgeneration Hg).
  assert (∀ k, label oldObj k = label newObj k) as Hlab by (intros; unfold label; by rewrite Hl).
  split.
  - unfold agentInfoOf, agentClusterName, agentSpecHostname, annotation.
    rewrite Hname, Hann, Hh, Hs, Hdropped, !Hlab.
    rewrite !(proj1 (Hgeneration _)), (proj2 (Hgeneration _)). done.
  - intros infraEnv. unfold agentBelongsToInfraEnv. by rewrite Hlab, Ho.
Qed.

End object_lemmas.
