(* ===== verification/VmCleanup.v ===== *)
(** * Preparing the deletion of a VM

    internal/controller/vm_cleanup.go: before a VM is deleted its Machine must be
    gone and every Agent that may run on it must be unbound; each of these Agents
    is unapproved and marked under an optimistic lock, so that a concurrent CAPI
    reservation either wins (and blocks the deletion) or fails.  The theorems say
    what a successful preparation has established with the API server. *)
From S2P Require Import Prelude Api Identity Planner OwnedVMs Effects K8s Objects.

Section cleanup.
Context `{KubeLib}.

(** ** Operations *)
Definition errVMDeletionBlocked (detail : string) : error :=
  mkError ClassVMDeletionBlocked ("VM deletion blocked: " +:+ detail).

(** The identity agentsForVM reads from an Agent. *)
Definition cleanupAgentInfo (obj : Unstructured) : AgentInfo :=
  mkAgentInfo (GetName obj) false false "" false "" "" "" "" (agentSpecHostname obj)
    (agentInventoryHostname obj) (normalizeMAC (agentPrimaryMAC obj))
    (normalizeVMwareSerialUUID (agentSerialNumber obj)).

(** Whether an Agent may run on the VM: the test of the loop of agentsForVM. *)
Definition agentOnVM (vm : OwnedVMStatus) (obj : Unstructured) : bool :=
  let info := cleanupAgentInfo obj in
  vmMatchesAgentIdentity vm info || vmMatchesAgentRef vm info ||
  ((vm_Name vm == agentObservedHostname info) && negb (vmIdentityConflictsAgent vm info)).

Definition agentsForVM (r : reader) (pool : VsphereAgentPool) (vm : OwnedVMStatus)
    : program (result (list Unstructured)) :=
  let? items := call (ListObjs r KAgent (InNamespace (om_Namespace (pl_Meta pool)))) in
  Return (Ok (List.filter (agentOnVM vm) items)).

(** The Machine a VM refers to, with the namespace the reference defaults to. *)
Definition machineKey (pool : VsphereAgentPool) (vm : OwnedVMStatus) : option (string * string) :=
  match vm_MachineRef vm with
  | Some ref =>
      if or_Name ref == "" then None
      else Some (if or_Namespace ref == "" then ps_ControlPlaneNamespace (pl_Spec pool) else or_Namespace ref,
                 or_Name ref)
  | None => None
  end.

(** The loop body of prepareVMDeletion. *)
Definition markAgentForCleanup (vm : OwnedVMStatus) (agent : Unstructured) : program (result unit) :=
  let blocker := agentDeletionBlocker agent in
  if blocker != "" then
    Return (Err (errVMDeletionBlocked
      ("VM " +:+ vm_Name vm +:+ ": Agent " +:+ GetName agent +:+ " " +:+ blocker)))
  else
    match SetNestedField (un_Object agent) (ABool false) ["spec"; "approved"] with
    | Err e => Return (Err e)
    | Ok object =>
        let meta := (un_Meta agent)
          <| om_Annotations := <[agentCleanupAnnotation := vm_Name vm]> (om_Annotations (un_Meta agent)) |> in
        let? _ := call (Patch KAgent agent (mkUnstructured meta object) true) in
        Return (Ok tt)
    end.

Definition prepareVMDeletion (r : reader) (pool : VsphereAgentPool) (vm : OwnedVMStatus)
    : program (result unit) :=
  let? _ :=
    match machineKey pool vm with
    | None => Return (Ok tt)
    | Some (ns, name) =>
        let! machine := call (Get r KMachine ns name) in
        match machine with
        | Ok _ => Return (Err (errVMDeletionBlocked
            ("VM " +:+ vm_Name vm +:+ " still has Machine " +:+ ns +:+ "/" +:+ name)))
        | Err e => if negb (IsNotFound e) then Return (Err e) else Return (Ok tt)
        end
    end in
  let? agents := agentsForVM r pool vm in
  forEach agents (markAgentForCleanup vm).

(** The loop body of deleteVMAgents. *)
Definition deleteUnboundAgent (agent : Unstructured) : program (result unit) :=
  let blocker := agentDeletionBlocker agent in
  if blocker != "" then Return (Errorf ("cannot delete Agent " +:+ GetName agent +:+ ": " +:+ blocker))
  else
    let! r := call (Delete KAgent agent
      (Some (mkPreconditions (om_UID (un_Meta agent)) (om_ResourceVersion (un_Meta agent))))) in
    match r with
    | Err e => if negb (IsNotFound e) then Return (Err e) else Return (Ok tt)
    | Ok _ => Return (Ok tt)
    end.

Definition deleteVMAgents (r : reader) (pool : VsphereAgentPool) (vm : OwnedVMStatus) : program (result unit) :=
  let? agents := agentsForVM r pool vm in
  forEach agents deleteUnboundAgent.

(** ** What a successful preparation establishes *)

(** The Agent was observed unbound, and the patch that unapproves and marks it
    was accepted for exactly the observed version. *)
Definition agentMarked (vm : OwnedVMStatus) (h : hist) (agent : Unstructured) : Prop :=
  agentDeletionBlocker agent = "" ∧
  ∃ after stored, In (Event (Patch KAgent agent after true) (Ok stored)) h ∧
    NestedBool (un_Object after) ["spec"; "approved"] = false ∧
    annotation after agentCleanupAnnotation = vm_Name vm.

Record prepared (r : reader) (pool : VsphereAgentPool) (vm : OwnedVMStatus) (h : hist) : Prop := {
  prepared_machine ns name : machineKey pool vm = Some (ns, name) →
    ∃ e, IsNotFound e = true ∧ In (Event (Get r KMachine ns name) (Err e)) h;
  prepared_agents : ∃ items,
    In (Event (ListObjs r KAgent (InNamespace (om_Namespace (pl_Meta pool)))) (Ok items)) h ∧
    ∀ agent, In agent items → agentOnVM vm agent = true → agentMarked vm h agent }.

(** The API server accepted the deletion of the Agent, unbound in the version
    observed and named by UID and version, or answered that it is gone. *)
Definition agentDeleted (h : hist) (agent : Unstructured) : Prop :=
  agentDeletionBlocker agent = "" ∧
  ∃ r, In (Event (Delete KAgent agent
                    (Some (mkPreconditions (om_UID (un_Meta agent)) (om_ResourceVersion (un_Meta agent))))) r) h ∧
    match r with Ok _ => True | Err e => IsNotFound e = true end.

(** After the history [older] the Agents were listed and those on the VM deleted. *)
Definition agentsDeletedAfter (r : reader) (pool : VsphereAgentPool) (vm : OwnedVMStatus) (older h : hist) : Prop :=
  ∃ items newer, h = newer ++ Event (ListObjs r KAgent (InNamespace (om_Namespace (pl_Meta pool)))) (Ok items) :: older ∧
    ∀ agent, In agent items → agentOnVM vm agent = true → agentDeleted newer agent.

End cleanup.

(** ** Proofs *)
Section cleanup_proofs.
Context `{KubeLib} `{!KubeLaws}.
Context (rely : answers callE) (ok : precondition callE).

Lemma agentMarked_mono vm h ev agent : agentMarked vm h agent → agentMarked vm (ev :: h) agent.
Proof. intros [Hb (a & s & Hin & ? & ?)]. split; [done|]. exists a, s. split; [by right|done]. Qed.

Lemma prepared_mono r pool vm h ev : prepared r pool vm h → prepared r pool vm (ev :: h).
Proof.
  intros [Hm (items & Hin & Hall)]. split.
  - intros ns name Hk. destruct (Hm ns name Hk) as (e & ? & ?). exists e. split; [done|by right].
  - exists items. split; [by right|]. intros. apply agentMarked_mono; auto.
Qed.

(** The calls prepareVMDeletion makes: reads, and locked patches of unbound Agents. *)
Definition prepareCall : precondition callE := λ X h e,
  match e with
  | Get _ _ _ _ => True
  | ListObjs _ _ _ => True
  | Patch KAgent before after lock => lock = true ∧ agentDeletionBlocker before = ""
  | _ => False
  end.

Lemma markAgent_safe h vm agent (Q : hist → result unit → Prop) :
  (∀ X h (e : callE X), prepareCall X h e → ok X h e) →
  (∀ h' ev, h' = ev :: h → agentMarked vm h' agent → Q h' (Ok tt)) →
  (∀ h' e, (h' = h ∨ ∃ ev, h' = ev :: h) → Q h' (Err e)) →
  safe rely ok h (markAgentForCleanup vm agent) Q.
Proof.
  intros Hok HQ HE. unfold markAgentForCleanup.
  destruct (agentDeletionBlocker agent != "") eqn:Eb; gobool; [apply HE; by left|].
  destruct (SetNestedField _ _ _) as [object|e] eqn:Es; [|apply HE; by left].
  apply safe_bindOk. split; [by apply Hok|]. intros [stored|e] _; simpl; [|apply HE; by eauto].
  eapply HQ; [done|]. split; [done|]. do 2 eexists. split; [by left|]. split; simpl.
  - by apply SetNestedField_bool in Es.
  - unfold annotation, mapGet. simpl. by rewrite lookup_insert_eq.
Qed.

Lemma prepareVMDeletion_safe h r pool vm (Q : hist → result unit → Prop) :
  (∀ X h (e : callE X), prepareCall X h e → ok X h e) →
  (∀ h', (∃ new, h' = new ++ h) → prepared r pool vm h' → Q h' (Ok tt)) →
  (∀ h' e, (∃ new, h' = new ++ h) → Q h' (Err e)) →
  safe rely ok h (prepareVMDeletion r pool vm) Q.
Proof.
  intros Hok HQ HE. unfold prepareVMDeletion. apply safe_bindOk.
  assert (∀ h1, (∃ new, h1 = new ++ h) →
    (∀ ns name, machineKey pool vm = Some (ns, name) →
       ∃ e, IsNotFound e = true ∧ In (Event (Get r KMachine ns name) (Err e)) h1) →
    safe rely ok h1 (let? agents := agentsForVM r pool vm in forEach agents (markAgentForCleanup vm)) Q) as Hrest.
  { intros h1 [new1 ->] Hmachine. apply safe_bindOk. unfold agentsForVM. apply safe_bindOk.
    split; [by apply Hok|]. intros [items|e] _; simpl; [|apply HE; by exists (Event (ListObjs r KAgent (InNamespace (om_Namespace (pl_Meta pool)))) (Err e) :: new1)].
    set (ev := Event _ (Ok items)).
    apply (safe_forEach _ _ _ _ _ (λ done h', (∃ new, h' = new ++ ev :: new1 ++ h) ∧
      ∀ a, In a done → agentMarked vm h' a)).
    - split; [by exists []|done].
    - intros pre a post h' Hl [[new ->] Hdone]. apply markAgent_safe; [done| |].
      + intros h'' ev' -> Hm. split; [by exists (ev' :: new)|].
        intros b [Hb|[<-|[]]]%in_app_iff; [by apply agentMarked_mono, Hdone|done].
      + intros h'' e Hh. apply HE.
        destruct Hh as [->|[ev' ->]]; [exists (new ++ ev :: new1)|exists (ev' :: new ++ ev :: new1)];
          simpl; by rewrite <- app_assoc.
    - intros h' [[new ->] Hdone]. apply HQ.
      { exists (new ++ ev :: new1). by rewrite <- app_assoc. }
      split.
      + intros ns name Hk. destruct (Hmachine ns name Hk) as (e & ? & ?). exists e. split; [done|].
        apply in_app_iff. right. by right.
      + exists items. split; [apply in_app_iff; right; by left|].
        intros a Ha Hon. apply Hdone, filter_In. done. }
  destruct (machineKey pool vm) as [[ns name]|] eqn:Ek.
  - apply safe_bind. split; [by apply Hok|]. intros [m|e] _; simpl.
    + apply HE. by exists [Event (Get r KMachine ns name) (Ok m)].
    + destruct (IsNotFound e) eqn:En; simpl.
      * apply Hrest; [by exists [Event (Get r KMachine ns name) (Err e)]|].
        intros ns' name' [= <- <-]. exists e. split; [done|by left].
      * apply HE. by exists [Event (Get r KMachine ns name) (Err e)].
  - simpl. apply Hrest; [by exists []|done].
Qed.

Lemma agentDeleted_mono agent h ev : agentDeleted h agent → agentDeleted (ev :: h) agent.
Proof. intros (Hb & r & Hin & Hr). split; [done|]. exists r. split; [by right|done]. Qed.

Lemma agentsDeletedAfter_app r pool vm older h new :
  agentsDeletedAfter r pool vm older h → agentsDeletedAfter r pool vm older (new ++ h).
Proof.
  intros (items & newer & -> & Hall). exists items, (new ++ newer). split; [by rewrite <- app_assoc|].
  intros a Ha Hon. specialize (Hall a Ha Hon). clear -Hall. induction new; [done|by apply agentDeleted_mono].
Qed.

(** The calls of deleteVMAgents: the listing, and deletions of unbound Agents. *)
Definition deleteAgentsCall : precondition callE := λ X h e,
  match e with
  | ListObjs _ _ _ => True
  | Delete KAgent a _ => agentDeletionBlocker a = ""
  | _ => False
  end.

Lemma deleteVMAgents_post h r pool vm :
  (∀ X h (e : callE X), deleteAgentsCall X h e → ok X h e) →
  safe rely ok h (deleteVMAgents r pool vm)
    (λ h' res, match res with Ok _ => agentsDeletedAfter r pool vm h h' | Err _ => True end).
Proof.
  intros Hok. unfold deleteVMAgents, agentsForVM. apply safe_bindOk, safe_bindOk. split; [by apply Hok|].
  intros [items|e] _; cbn [safe]; [|done]. set (ev := Event _ _).
  apply (safe_forEach _ _ _ _ _ (λ done h', ∃ newer, h' = newer ++ ev :: h ∧ ∀ a, In a done → agentDeleted newer a)).
  - by exists [].
  - intros pre a post h' _ (newer & -> & Hdone). unfold deleteUnboundAgent.
    destruct (agentDeletionBlocker a != "") eqn:Eb; gobool; [done|]. cbv zeta. apply safe_bind. split; [by apply Hok|].
    intros res _. cbn [safe].
    assert (match res with Ok _ => True | Err e => IsNotFound e = true end →
      ∃ newer', Event (Delete KAgent a (Some (mkPreconditions (om_UID (un_Meta a)) (om_ResourceVersion (un_Meta a))))) res
                  :: newer ++ ev :: h = newer' ++ ev :: h ∧ ∀ b, In b (pre ++ [a]) → agentDeleted newer' b) as Hstep.
    { intros Hres. eexists (_ :: newer). split; [done|]. intros b [Hb|[<-|[]]]%in_app_iff.
      - by apply agentDeleted_mono, Hdone.
      - split; [done|]. exists res. split; [by left|done]. }
    destruct res as [[]|e]; [by apply Hstep|]. destruct (IsNotFound e); cbn [negb safe]; [by apply Hstep|done].
  - intros h' (newer & -> & Hdone). exists items, newer. split; [done|]. intros a Ha Hon. by apply Hdone, filter_In.
Qed.

End cleanup_proofs.
