(* ===== verification/VMProvider.v ===== *)
(** * The vSphere provider interface

    internal/controller/vsphere_provider.go declares the interface VMProvider
    through which the controllers change VMs and ISO images.  Here it is a class:
    [VMProvider] has the operations and [VMProviderLaws] says which calls each of
    them may make and what its success means, so that the controllers are
    verified against the interface (VsphereAgent.v) and the govc implementation
    discharges it (Govc.v). *)
From S2P Require Import Prelude Api Identity Effects K8s.

(** ** Requests and results *)
Record VMCreateRequest := mkVMCreateRequest {
  cr_Name : string;
  cr_ISOPath : string;
  cr_OwnerUID : string }.

Record ISOEnsureResult := mkISOEnsureResult {
  ie_VerificationDeferred : bool;
  ie_LastModified : string;
  ie_Path : string;
  ie_SHA256 : string;
  ie_SizeBytes : Z;
  ie_Uploaded : bool }.

(** ** Operations

    EjectISO mutates the operation record it is given and calls the checkpoint
    between mutations.  The checkpoint works on state of the caller, so the
    operation threads a caller state [S] through the checkpoints; the final
    operation record is returned together with the error. *)
Class VMProvider := {
  EnsureISO : VsphereAgentPool → string → program (result ISOEnsureResult);
  CreateVM : VsphereAgentPool → VMCreateRequest → program (result OwnedVMStatus);
  VMStatus : VsphereAgentPool → string → program (result OwnedVMStatus);
  DeleteVM : VsphereAgentPool → OwnedVMStatus → program (result unit);
  PrepareISOEjection : VsphereAgentPool → OwnedVMStatus → program (result (option ISOEjectionStatus));
  EjectISO : ∀ S, VsphereAgentPool → ISOEjectionStatus → (S → ISOEjectionStatus → program (S * result unit)) →
    S → program (S * ISOEjectionStatus * result unit);
  DeleteISO : VsphereAgentPool → string → program (result unit) }.
Arguments EjectISO {_ _} _ _ _ _.

(** ** govc error classification

    The functions of the source take a nil error too and then answer false; they
    are applied to errors here. *)
Definition errMessage (e : error) : string := ToLower (err_Error e).

Definition isGovcVMNotFound (e : error) : bool :=
  let message := errMessage e in
  Contains message "no such vm" || (Contains message "vm " && Contains message " not found").

Definition isGovcVMAlreadyExists (e : error) : bool :=
  let message := errMessage e in
  Contains message "already exists" || Contains message "duplicatename" || Contains message "duplicate name".

Definition isGovcDeviceAlreadyExists (e : error) : bool :=
  let message := errMessage e in
  Contains message "already exists" || Contains message "already present" ||
  (Contains message "device" && Contains message "exists").

Definition isGovcTagAlreadyAttached (e : error) : bool :=
  let message := errMessage e in
  Contains message "already attached" || Contains message "already exists".

Definition isGovcVMAlreadyPoweredOn (e : error) : bool :=
  let message := errMessage e in
  Contains message "already powered on" || (Contains message "current state" && Contains message "poweredon").

Definition isGovcDatastorePathNotFound (e : error) : bool :=
  let message := errMessage e in
  Contains message "no such file" || Contains message "filenotfound" || Contains message "not found" ||
  Contains message "no such object".

Definition isGovcDatastorePathAlreadyExists (e : error) : bool :=
  let message := errMessage e in
  Contains message "already exists" || Contains message "file exists".

(** ** What govc reports of a VM *)
Record govcVMQuestion := mkGovcVMQuestion {
  gq_ID : string;
  gq_MessageIDs : list string;
  gq_ChoiceInfo : list (string * string) }.  (* key and label *)

Record govcDevice := mkGovcDevice {
  gd_Key : Z;
  gd_FileName : string;
  gd_MACAddress : string }.

Record govcVirtualMachine := mkGovcVirtualMachine {
  gv_UUID : string;
  gv_Annotation : string;
  gv_Device : list govcDevice;
  gv_Question : option govcVMQuestion }.

(** The decoding of the JSON that govc prints for vm.info. *)
Class GovcJSON := UnmarshalVMInfo : string → result (list govcVirtualMachine).

Definition vmFolder (pool : VsphereAgentPool) : string :=
  if vp_Folder (ps_VSphere (pl_Spec pool)) != "" then vp_Folder (ps_VSphere (pl_Spec pool))
  else lor_Name (ps_HostedClusterRef (pl_Spec pool)).

Definition datacenter (pool : VsphereAgentPool) : string := vp_Datacenter (ps_VSphere (pl_Spec pool)).
Definition isoDatastore (pool : VsphereAgentPool) : string := vp_ISODatastore (ps_VSphere (pl_Spec pool)).

Definition vmInventoryPath (pool : VsphereAgentPool) (name : string) : string :=
  let folder := Trim (vmFolder pool) "/"%char in
  if folder == "" then "/" +:+ datacenter pool +:+ "/vm/" +:+ name
  else "/" +:+ datacenter pool +:+ "/vm/" +:+ folder +:+ "/" +:+ name.

Definition infoArgs (pool : VsphereAgentPool) (selector value : string) : list string :=
  ["vm.info"; "-json"; "-dc"; datacenter pool; selector; value].

Definition destroyArgs (pool : VsphereAgentPool) (selector value : string) : list string :=
  ["vm.destroy"; "-dc"; datacenter pool; selector; value].

Definition vmOwnerAnnotationPrefix : string := "agent-forge.containeroo.ch/vsphere-agent-uid=".

(** ** Calls of a provider *)
Definition govcCommand (args : list string) : string := default "" (head args).

(** Commands that destroy a VM. *)
Definition isDestroy (args : list string) : bool := govcCommand args == "vm.destroy".

(** A provider never writes to the API server; [destroys] says which commands
    that destroy a VM it may run after which history. *)
Definition providerCall (destroys : hist → list string → Prop) : precondition callE := λ X h e,
  match e with
  | Govc args => isDestroy args = true → destroys h args
  | GovcStart args => isDestroy args = false
  | Now | Select | MkdirTemp | HttpGet _ _ | ReadFile _ | WriteFile _ _ => True
  | _ => False
  end.

Definition destroysNothing : hist → list string → Prop := λ _ _, False.

(** The error runOutput makes of a failed command; [err_Error e] stands for what
    follows the prefix: the exit error and the sanitised output of the command, or
    the error of the expired context. *)
Definition govcError (args : list string) (e : error) : error :=
  mkError ClassOther ("govc " +:+ Join args " " +:+ " failed: " +:+ err_Error e).

(** Evidence in a history that a command failed with an error of some kind, or
    that it succeeded or had nothing to do. *)
Definition govcFailed (h : hist) (args : list string) (kind : error → bool) : Prop :=
  ∃ e, In (Event (Govc args) (Err e)) h ∧ kind (govcError args e) = true.

Definition govcSucceeded (h : hist) (args : list string) (notFound : error → bool) : Prop :=
  (∃ out, In (Event (Govc args) (Ok out)) h) ∨ govcFailed h args notFound.

(** The VM that a deletion inspects: by UUID when one is recorded. *)
Definition deletionSelector (pool : VsphereAgentPool) (vm : OwnedVMStatus) : string * string :=
  if vm_BIOSUUID vm != "" then ("-vm.uuid", vm_BIOSUUID vm)
  else ("-vm.ipath", vmInventoryPath pool (vm_Name vm)).

(** vCenter answered that the inspected VM carries the owner annotation, and the
    destroy command names that VM. *)
Definition ownershipVerified `{GovcJSON} (pool : VsphereAgentPool) (vm : OwnedVMStatus) (args : list string) (h : hist) : Prop :=
  let '(selector, value) := deletionSelector pool vm in
  ∃ out d rest, In (Event (Govc (infoArgs pool selector value)) (Ok out)) h ∧
    UnmarshalVMInfo out = Ok (d :: rest) ∧
    gv_Annotation d = vmOwnerAnnotationPrefix +:+ vm_OwnerUID vm ∧
    (args = destroyArgs pool "-vm.uuid" (normalizeVMwareSerialUUID (gv_UUID d)) ∨
     (normalizeVMwareSerialUUID (gv_UUID d) = "" ∧
      (args = destroyArgs pool "-vm.uuid" (vm_BIOSUUID vm) ∨
       args = destroyArgs pool "-vm.ipath" (vmInventoryPath pool (vm_Name vm))))).

(** The command that destroys the VM: with a recorded owner, of the VM that was
    inspected and carries the owner's mark; without one, of the recorded UUID or
    the inventory path of the VM. *)
Definition deletionTarget `{GovcJSON} (pool : VsphereAgentPool) (vm : OwnedVMStatus) (h : hist) (args : list string) : Prop :=
  if vm_OwnerUID vm == ""
  then args = if TrimSpace (vm_BIOSUUID vm) != "" then destroyArgs pool "-vm.uuid" (vm_BIOSUUID vm)
              else destroyArgs pool "-vm.ipath" (vmInventoryPath pool (vm_Name vm))
  else ownershipVerified pool vm args h.

(** The VM was created with the mark of its owner. *)
Definition vmCreated (vm : OwnedVMStatus) (h : hist) : Prop :=
  ∃ args out, In (Event (Govc args) (Ok out)) h ∧ govcCommand args = "vm.create" ∧
    last args = Some (vm_Name vm) ∧ In (vmOwnerAnnotationPrefix +:+ vm_OwnerUID vm) args.

(** The command that destroys a partially created VM: the VM of the request, which
    vm.create made and which carries the mark of the request's owner. *)
Definition creationTarget `{GovcJSON} (pool : VsphereAgentPool) (req : VMCreateRequest) (h : hist) (args : list string) : Prop :=
  ∃ vm, vm_Name vm = TrimSpace (cr_Name req) ∧ vm_OwnerUID vm = TrimSpace (cr_OwnerUID req) ∧ vm_OwnerUID vm ≠ "" ∧
    vm_BIOSUUID vm = "" ∧ vmCreated vm h ∧ ownershipVerified pool vm args h.

(** The VM is gone: the command that destroys it succeeded or found no VM, or
    vCenter knows no VM of its UUID or path. *)
Definition vmGone `{GovcJSON} (pool : VsphereAgentPool) (vm : OwnedVMStatus) (h : hist) : Prop :=
  (∃ args, isDestroy args = true ∧ deletionTarget pool vm h args ∧ govcSucceeded h args isGovcVMNotFound) ∨
  (vm_OwnerUID vm ≠ "" ∧
   let '(selector, value) := deletionSelector pool vm in
   govcFailed h (infoArgs pool selector value) isGovcVMNotFound ∨
   (∃ out, In (Event (Govc (infoArgs pool selector value)) (Ok out)) h ∧ UnmarshalVMInfo out = Ok [])).

Definition isoDeleted (pool : VsphereAgentPool) (path : string) (h : hist) : Prop :=
  TrimSpace path = "" ∨
  govcSucceeded h ["datastore.rm"; "-f"; "-dc"; datacenter pool; "-ds"; isoDatastore pool; path] isGovcDatastorePathNotFound.

(** ** The contract

    Every operation only makes provider calls.  Only DeleteVM and the cleanup of
    a partially created VM destroy VMs, and only the VM they are asked to; a successful DeleteVM leaves evidence
    that the VM is gone, a successful DeleteISO that the path is gone; EjectISO
    otherwise only runs checkpoints. *)
Class VMProviderLaws `{GovcJSON} `{VMProvider} : Prop := {
  EnsureISO_calls h pool url : safe anyAnswer (providerCall destroysNothing) h (EnsureISO pool url) (λ _ _, True);
  CreateVM_calls h pool req : safe anyAnswer (providerCall (creationTarget pool req)) h (CreateVM pool req) (λ _ _, True);
  VMStatus_calls h pool name : safe anyAnswer (providerCall destroysNothing) h (VMStatus pool name) (λ _ _, True);
  PrepareISOEjection_calls h pool vm :
    safe anyAnswer (providerCall destroysNothing) h (PrepareISOEjection pool vm) (λ _ _, True);
  DeleteISO_calls h pool path :
    safe anyAnswer (providerCall destroysNothing) h (DeleteISO pool path)
      (λ h' r, match r with Ok _ => isoDeleted pool path h' | Err _ => True end);
  DeleteVM_calls h pool vm :
    safe anyAnswer (providerCall (deletionTarget pool vm)) h (DeleteVM pool vm)
      (λ h' r, match r with Ok _ => vmGone pool vm h' | Err _ => True end);
  EjectISO_calls S h pool op (checkpoint : S → ISOEjectionStatus → program (S * result unit)) s
      (ok : precondition callE) :
    (∀ X h (e : callE X), providerCall destroysNothing X h e → ok X h e) →
    (∀ h s op, safe anyAnswer ok h (checkpoint s op) (λ _ _, True)) →
    safe anyAnswer ok h (EjectISO pool op checkpoint s) (λ _ _, True) }.
