(* ===== verification/IsoCache.v ===== *)
(** * The discovery ISO cache of a vSphere pool

    internal/controller/iso_cache.go and the cache helpers of
    vsphereagentpool_controller.go and vsphere_provider.go: when the cache is
    checked, how the bounded history of uploaded images is maintained, and which
    images are deleted from the datastore.  The theorems say that the history and
    the set of deleted paths are complementary: a retained or current image is
    never deleted, and no uploaded image is forgotten without being deleted. *)
From S2P Require Import Prelude Api Identity Planner OwnedVMs Sha256 Metrics Effects K8s Telemetry Objects VMProvider.

(** ** Constants *)
Definition forceISORefreshAnnotation : string := "agent-forge.containeroo.ch/force-iso-refresh".
Definition conditionISOReady : string := "ISOReady".

(** ** net/url

    Parsing and printing of URLs is left to the library; the code reads the path
    and the query and clears the parts that may hold credentials. *)
Class NetURL := {
  URL : Type;
  url_Parse : string → option URL;
  url_Path : URL → string;
  url_QueryGet : URL → string → string;
  url_ClearSecrets : URL → URL;
  url_String : URL → string }.

Section iso.
Context `{KubeLib} `{NetURL}.

(** ** Paths and hashes *)
Definition isoPathPrefix (pool : VsphereAgentPool) : string :=
  let fallback := "agent-forge/" +:+ om_Namespace (pl_Meta pool) +:+ "/" +:+ om_Name (pl_Meta pool) in
  let prefix := Trim (TrimSpace (ic_PathPrefix (ps_ISO (pl_Spec pool)))) "/"%char in
  let prefix := if prefix == "" then fallback else prefix in
  let prefix := Trim (CleanRooted prefix) "/"%char in
  if prefix == "" then fallback else prefix.

Definition isoContentPath (pool : VsphereAgentPool) (sha : string) : string :=
  isoPathPrefix pool +:+ "/" +:+ sha +:+ ".iso".

Definition downloadURLHash (rawURL : string) : string := sha256Hex rawURL.

Definition redactedDownloadURL (rawURL : string) : string :=
  match url_Parse rawURL with
  | None => "<invalid-url>"
  | Some parsed => url_String (url_ClearSecrets parsed)
  end.

(** ** Policy *)
Definition isoCheckInterval (pool : VsphereAgentPool) : Duration :=
  if 0 <? ic_CheckInterval (ps_ISO (pl_Spec pool)) then ic_CheckInterval (ps_ISO (pl_Spec pool))
  else 10 * minute.

Definition isoRetainVersions (pool : VsphereAgentPool) : Z :=
  if 0 <? ic_RetainVersions (ps_ISO (pl_Spec pool)) then ic_RetainVersions (ps_ISO (pl_Spec pool)) else 2.

Definition isoCacheDue (pool : VsphereAgentPool) (isoDownloadURL forceToken : string) (now : Time) : bool :=
  let iso := pt_ISO (pl_Status pool) in
  if (is_Path iso == "") || (is_SHA256 iso == "") then true
  else if is_URLHash iso != downloadURLHash isoDownloadURL then true
  else if negb (HasPrefix (is_Path iso) (isoPathPrefix pool +:+ "/")) then true
  else if (forceToken != "") && (forceToken != is_ForceRefreshToken iso) then true
  else if IsZero (is_CheckedAt iso) then true
  else negb (Before now (is_CheckedAt iso + isoCheckInterval pool)).

(** ** History *)
Definition findISOHistoryEntry (history : list ISOCacheHistoryEntry) (path : string)
    : option ISOCacheHistoryEntry :=
  List.find (λ entry, ih_Path entry == path) history.

Definition ensureISOHistoryEntry (history : list ISOCacheHistoryEntry) (entry : ISOCacheHistoryEntry)
    : list ISOCacheHistoryEntry :=
  if ih_Path entry == "" then history
  else match findISOHistoryEntry history (ih_Path entry) with
       | Some _ => history
       | None => history ++ [entry]
       end.

(** The loop of updatedISOHistory with its result slice. *)
Fixpoint historyLoop (history : list ISOCacheHistoryEntry) (currentPath : string) (retain : Z)
    (result : list ISOCacheHistoryEntry) : list ISOCacheHistoryEntry :=
  match history with
  | [] => result
  | entry :: rest =>
      if (ih_Path entry == "") || (ih_Path entry == currentPath)
      then historyLoop rest currentPath retain result
      else
        let result := result ++ [entry] in
        if retain <=? Z.of_nat (length result) then result
        else historyLoop rest currentPath retain result
  end.

Definition updatedISOHistory (history : list ISOCacheHistoryEntry) (current : ISOCacheHistoryEntry)
    (retain : Z) : list ISOCacheHistoryEntry :=
  let retain := if retain <? 1 then 1 else retain in
  let result := [current] in
  if retain <=? Z.of_nat (length result) then result
  else historyLoop history (ih_Path current) retain result.

(** The first loop of staleISOPaths: the paths kept, and their count. *)
Fixpoint keptLoop (history : list ISOCacheHistoryEntry) (currentPath : string) (retain : Z)
    (kept : gset string) (keptCount : Z) : gset string :=
  match history with
  | [] => kept
  | entry :: rest =>
      if retain <=? keptCount then kept
      else if (ih_Path entry == "") || (ih_Path entry == currentPath)
      then keptLoop rest currentPath retain kept keptCount
      else keptLoop rest currentPath retain ({[ih_Path entry]} ∪ kept) (keptCount + 1)
  end.

(** The state of the second half of staleISOPaths. *)
Record staleState := mkStaleState {
  ss_kept : gset string;
  ss_staleSet : gset string;
  ss_stale : list string }.

Definition addStale (s : staleState) (path : string) : staleState :=
  if bool_decide (path ∈ ss_staleSet s) then s
  else mkStaleState (ss_kept s) ({[path]} ∪ ss_staleSet s) (ss_stale s ++ [path]).

Definition staleStep (currentPath : string) (s : staleState) (entry : ISOCacheHistoryEntry) : staleState :=
  if (ih_Path entry == "") || (ih_Path entry == currentPath) then s
  else if bool_decide (ih_Path entry ∈ ss_kept s) then s
  else addStale (mkStaleState ({[ih_Path entry]} ∪ ss_kept s) (ss_staleSet s) (ss_stale s)) (ih_Path entry).

Definition staleISOPaths (history : list ISOCacheHistoryEntry) (previousPath currentPath : string)
    (retain : Z) : list string :=
  let retain := if retain <? 1 then 1 else retain in
  let kept := keptLoop history currentPath retain {[currentPath]} 1 in
  let s := mkStaleState kept ∅ [] in
  let s := if (previousPath != "") && (previousPath != currentPath) then
             if bool_decide (previousPath ∈ kept) then s else addStale s previousPath
           else s in
  ss_stale (foldl (staleStep currentPath) s history).

(** ** Error messages

    The pattern /tmp/agent-forge-iso-[^[:space:]]+ is replaced everywhere. *)
Definition isPosixSpace (c : ascii) : bool :=
  let n := nat_of_ascii c in (n =? 32)%nat || ((9 <=? n)%nat && (n <=? 13)%nat).

Fixpoint dropNonSpace (s : string) : string :=
  match s with
  | EmptyString => ""
  | String c s' => if isPosixSpace c then s else dropNonSpace s'
  end.

Definition tempISOPrefix : string := "/tmp/agent-forge-iso-".

(** The string after a match of the pattern at the start of [s]. *)
Definition matchTempISO (s : string) : option string :=
  if HasPrefix s tempISOPrefix then
    match dropString (String.length tempISOPrefix) s with
    | String c rest => if isPosixSpace c then None else Some (dropNonSpace rest)
    | EmptyString => None
    end
  else None.

Fixpoint replaceTempISO (fuel : nat) (s : string) : string :=
  match fuel with
  | O => s
  | S fuel' =>
      match matchTempISO s with
      | Some rest => "<temp-iso>" +:+ replaceTempISO fuel' rest
      | None => match s with
                | EmptyString => ""
                | String c s' => String c (replaceTempISO fuel' s')
                end
      end
  end.

Definition stableErrorMessage (e : error) : string :=
  replaceTempISO (S (String.length (err_Error e))) (err_Error e).

(** ** ensureISOCache

    Returns the pool with its updated status and the path of the image.  On an
    error before the update the pool is unchanged. *)
Definition setISOReady (pool : VsphereAgentPool) (status reason message : string) : VsphereAgentPool :=
  pool <| pl_Status := (pl_Status pool)
    <| pt_Conditions := SetStatusCondition (pt_Conditions (pl_Status pool))
         (mkCondition conditionISOReady status (om_Generation (pl_Meta pool)) 0 reason message) |> |>.

Definition setISO (pool : VsphereAgentPool) (iso : ISOCacheStatus) : VsphereAgentPool :=
  pool <| pl_Status := (pl_Status pool) <| pt_ISO := iso |> |>.

(** The loop that prunes stale images: an image whose deletion fails stays in
    the history. *)
Fixpoint pruneLoop `{VMProvider} (pool : VsphereAgentPool) (previousHistory : list ISOCacheHistoryEntry)
    (stale : list string) (history : list ISOCacheHistoryEntry) : program (list ISOCacheHistoryEntry) :=
  match stale with
  | [] => Return history
  | stalePath :: rest =>
      let! r := DeleteISO pool stalePath in
      let! _ := recordISOOperation "delete" r in
      match r with
      | Ok _ => pruneLoop pool previousHistory rest history
      | Err e =>
          let! _ := recordEvent KVsphereAgentPool pool EventTypeWarning "ISOPruneFailed" (stableErrorMessage e) in
          match findISOHistoryEntry previousHistory stalePath with
          | Some entry => pruneLoop pool previousHistory rest (ensureISOHistoryEntry history entry)
          | None => pruneLoop pool previousHistory rest history
          end
      end
  end.

(** The history before the update: the recorded one and the current image. *)
Definition previousISOHistory (iso : ISOCacheStatus) : list ISOCacheHistoryEntry :=
  ensureISOHistoryEntry (is_History iso)
    (mkISOCacheHistoryEntry (is_Path iso) (is_SHA256 iso) (is_SizeBytes iso) (is_UploadedAt iso)).

(** The status after an image was ensured, before pruning. *)
Definition ensuredISOStatus (pool : VsphereAgentPool) (isoDownloadURL token : string) (now : Time)
    (res : ISOEnsureResult) : ISOCacheStatus :=
  let iso := pt_ISO (pl_Status pool) in
  let uploadedAt :=
    if ie_Uploaded res || IsZero (is_UploadedAt iso) || (ie_Path res != is_Path iso) then now
    else is_UploadedAt iso in
  mkISOCacheStatus (redactedDownloadURL isoDownloadURL) (downloadURLHash isoDownloadURL) (ie_Path res)
    (ie_SHA256 res) (ie_SizeBytes res) (ie_LastModified res) now uploadedAt token
    (updatedISOHistory (previousISOHistory iso)
       (mkISOCacheHistoryEntry (ie_Path res) (ie_SHA256 res) (ie_SizeBytes res) uploadedAt)
       (isoRetainVersions pool)).

Definition ensureISOCache `{VMProvider} (pool : VsphereAgentPool) (isoDownloadURL : string)
    : program (VsphereAgentPool * result string) :=
  let! now := call Now in
  let token := mapGet (om_Annotations (pl_Meta pool)) forceISORefreshAnnotation in
  let iso := pt_ISO (pl_Status pool) in
  if negb (isoCacheDue pool isoDownloadURL token now) then Return (pool, Ok (is_Path iso))
  else
    let! ensured := EnsureISO pool isoDownloadURL in
    match ensured with
    | Err e =>
        let! _ := recordISOOperation "ensure" ensured in
        let! _ := recordEvent KVsphereAgentPool pool EventTypeWarning "ISORefreshFailed" (stableErrorMessage e) in
        Return (pool, Err e)
    | Ok res =>
        if ie_VerificationDeferred res then
          let! _ := call (Metric (countedAs isoOperationsTotal "ensure" "deferred")) in
          Return (setISOReady pool ConditionTrue "VerificationDeferred"
            "Source unchanged; cached ISO is attached to a VM, checksum verification will resume after ejection",
            Ok (ie_Path res))
        else
          let! _ := recordISOOperation "ensure" ensured in
          let previousHistory := previousISOHistory iso in
          let iso' := ensuredISOStatus pool isoDownloadURL token now res in
          let pool := setISO pool iso' in
          let! history :=
            pruneLoop pool previousHistory
              (staleISOPaths previousHistory (is_Path iso) (ie_Path res) (isoRetainVersions pool))
              (is_History iso') in
          let pool := setISO pool (iso' <| is_History := history |>) in
          let '(reason, message) :=
            if ie_Uploaded res then ("Uploaded", "Uploaded cached ISO " +:+ ie_Path res)
            else ("Reused", "Reused cached ISO " +:+ ie_Path res) in
          let pool := setISOReady pool ConditionTrue reason message in
          let! _ := recordEvent KVsphereAgentPool pool EventTypeNormal ("ISO" +:+ reason) message in
          Return (pool, Ok (ie_Path res))
    end.

End iso.

(** ** The history *)
Section history.
Context `{KubeLib}.

(** The entries of a history that compete for retention. *)
Definition candidates (history : list ISOCacheHistoryEntry) (currentPath : string) : list ISOCacheHistoryEntry :=
  List.filter (λ e, negb ((ih_Path e == "") || (ih_Path e == currentPath))) history.

Definition retained (retain : Z) : nat := Z.to_nat (Z.max 1 retain - 1).

Lemma candidates_in history cur e :
  In e (candidates history cur) ↔ In e history ∧ ih_Path e ≠ "" ∧ ih_Path e ≠ cur.
Proof.
  unfold candidates. rewrite filter_In. split.
  - intros [? Hc]. gobool. done.
  - intros (? & ? & ?). split; [done|]. by bdsimp.
Qed.

Lemma historyLoop_take history cur retain res :
  Z.of_nat (length res) < retain →
  historyLoop history cur retain res =
    res ++ take (Z.to_nat (retain - Z.of_nat (length res))) (candidates history cur).
Proof.
  revert res. induction history as [|e history IH]; intros res Hres; simpl.
  { by rewrite take_nil, app_nil_r. }
  destruct (_ || _) eqn:E; simpl; [by apply IH|].
  rewrite length_app. simpl. destruct (retain <=? _) eqn:El; gobool.
  - replace (Z.to_nat (retain - Z.of_nat (length res))) with 1%nat by lia. by rewrite firstn_cons, take_0.
  - rewrite IH by (rewrite length_app; simpl; lia). rewrite length_app. simpl. rewrite <- app_assoc. simpl.
    replace (Z.to_nat (retain - Z.of_nat (length res)))
      with (S (Z.to_nat (retain - Z.of_nat (length res + 1)))) by lia.
    done.
Qed.

Lemma updatedISOHistory_take history current retain :
  updatedISOHistory history current retain =
    current :: take (retained retain) (candidates history (ih_Path current)).
Proof.
  unfold updatedISOHistory, retained. cbv zeta. cbn [length].
  destruct (retain <? 1) eqn:E1; gobool.
  - simpl. replace (Z.to_nat (Z.max 1 retain - 1)) with 0%nat by lia. by rewrite take_0.
  - destruct (retain <=? Z.of_nat 1) eqn:E2; gobool.
    + replace (Z.to_nat (Z.max 1 retain - 1)) with 0%nat by lia. by rewrite take_0.
    + rewrite historyLoop_take by (simpl; lia). simpl. do 2 f_equal. lia.
Qed.

Lemma keptLoop_take history cur retain kept n p :
  p ∈ keptLoop history cur retain kept n ↔
  p ∈ kept ∨ In p (map ih_Path (take (Z.to_nat (retain - n)) (candidates history cur))).
Proof.
  revert kept n. induction history as [|e history IH]; intros kept n; simpl.
  { rewrite take_nil. simpl. tauto. }
  destruct (retain <=? n) eqn:E; gobool.
  { replace (Z.to_nat (retain - n)) with 0%nat by lia. rewrite take_0. simpl. tauto. }
  destruct (_ || _) eqn:Ec; simpl; [apply IH|].
  rewrite IH. replace (Z.to_nat (retain - n)) with (S (Z.to_nat (retain - (n + 1)))) by lia. simpl.
  rewrite elem_of_union, elem_of_singleton. intuition congruence.
Qed.

(** What the second half of staleISOPaths accumulates. *)
Definition staleInv (kept0 : gset string) (cur prev : string) (seen : list ISOCacheHistoryEntry)
    (s : staleState) : Prop :=
  List.NoDup (ss_stale s) ∧ (∀ p, p ∈ ss_staleSet s ↔ In p (ss_stale s)) ∧
  (∀ p, p ∈ ss_kept s ↔ p ∈ kept0 ∨ In p (map ih_Path (candidates seen cur))) ∧
  ∀ p, In p (ss_stale s) ↔
    (p ∉ kept0) ∧ p ≠ "" ∧ p ≠ cur ∧ (p = prev ∨ In p (map ih_Path (candidates seen cur))).

Lemma addStale_spec s path :
  List.NoDup (ss_stale s) → (∀ p, p ∈ ss_staleSet s ↔ In p (ss_stale s)) →
  let s' := addStale s path in
  List.NoDup (ss_stale s') ∧ (∀ p, p ∈ ss_staleSet s' ↔ In p (ss_stale s')) ∧
  ss_kept s' = ss_kept s ∧ ∀ p, In p (ss_stale s') ↔ In p (ss_stale s) ∨ p = path.
Proof.
  intros Hnd Hset. unfold addStale. cbv zeta. destruct (bool_decide _) eqn:E; gobool.
  - split_and!; auto. intros p. split; [tauto|]. intros [?| ->]; [done|by apply Hset].
  - simpl. split_and!; auto.
    + apply nodup_app_disjoint; [done|by repeat constructor; intros []|].
      intros x Hx [<-|[]]. by apply E, Hset.
    + intros p. rewrite in_app_iff, elem_of_union, elem_of_singleton, Hset. simpl. intuition congruence.
    + intros p. rewrite in_app_iff. simpl. intuition congruence.
Qed.

Lemma staleStep_inv kept0 cur prev seen s e :
  staleInv kept0 cur prev seen s → staleInv kept0 cur prev (seen ++ [e]) (staleStep cur s e).
Proof.
  intros (Hnd & Hset & Hkept & Hin). unfold staleStep, staleInv, candidates.
  rewrite List.filter_app. simpl. fold (candidates seen cur).
  destruct (_ || _) eqn:Ec; simpl.
  { rewrite app_nil_r. by split_and!. }
  gobool. setoid_rewrite map_app. setoid_rewrite in_app_iff. simpl.
  destruct (bool_decide _) eqn:Ek; gobool.
  - split_and!; auto.
    + intros p. rewrite Hkept. apply Hkept in Ek. intuition (subst; tauto).
    + intros p. rewrite Hin. apply Hkept in Ek. split; [tauto|].
      intros (? & ? & ? & Hp). split_and!; auto.
      destruct Hp as [?|[?|[<-|[]]]]; [tauto|tauto|]. destruct Ek; tauto.
  - destruct (addStale_spec (mkStaleState ({[ih_Path e]} ∪ ss_kept s) (ss_staleSet s) (ss_stale s))
      (ih_Path e) Hnd Hset) as (M1 & M2 & M3 & M4).
    split_and!; [done|done| |].
    + intros p. rewrite M3. simpl. rewrite elem_of_union, elem_of_singleton, Hkept. intuition congruence.
    + intros p. rewrite M4. simpl. rewrite Hin. rewrite Hkept in Ek.
      split; [|intuition congruence].
      intros [?| ->]; [tauto|]. tauto.
Qed.

Lemma staleISOPaths_spec history prev cur retain :
  let stale := staleISOPaths history prev cur retain in
  let kept := map ih_Path (take (retained retain) (candidates history cur)) in
  List.NoDup stale ∧
  ∀ p, In p stale ↔ p ≠ "" ∧ p ≠ cur ∧ ¬ In p kept ∧ (p = prev ∨ In p (map ih_Path history)).
Proof.
  cbv zeta. unfold staleISOPaths. set (R := if retain <? 1 then 1 else retain).
  set (kept0 := keptLoop history cur R {[cur]} 1).
  assert (∀ p, p ∈ kept0 ↔ p = cur ∨ In p (map ih_Path (take (retained retain) (candidates history cur))))
    as Hk0.
  { intros p. unfold kept0. rewrite keptLoop_take, elem_of_singleton. unfold retained, R.
    destruct (retain <? 1) eqn:E; gobool; [|by replace (Z.max 1 retain - 1) with (retain - 1) by lia].
    replace (Z.to_nat (1 - 1)) with 0%nat by lia. by replace (Z.to_nat (Z.max 1 retain - 1)) with 0%nat by lia. }
  match goal with |- context [foldl _ ?init history] => set (s0 := init) end.
  assert (staleInv kept0 cur prev [] s0) as Hs0.
  { unfold s0. destruct (_ && _) eqn:E; gobool.
    - destruct (bool_decide (prev ∈ kept0)) eqn:Ek; gobool; unfold staleInv; simpl.
      + split_and!; [constructor|set_solver|tauto|]. intros p. split; [tauto|].
        intros (? & _ & _ & [->|[]]). done.
      + unfold addStale. simpl. rewrite bool_decide_false by set_solver. simpl.
        split_and!; [repeat constructor; intros []|set_solver|tauto|].
        intros p. split; [intros [<-|[]]; auto|]. intros (_ & _ & _ & [->|[]]). by left.
    - unfold staleInv. simpl. split_and!; [constructor|set_solver|tauto|]. intros p.
      split; [tauto|]. intros (? & ? & ? & [->|[]]). congruence.
    - unfold staleInv. simpl. split_and!; [constructor|set_solver|tauto|]. intros p.
      split; [tauto|]. intros (? & ? & ? & [->|[]]). congruence. }
  assert (∀ seen l s, staleInv kept0 cur prev seen s →
    staleInv kept0 cur prev (seen ++ l) (foldl (staleStep cur) s l)) as Hfold.
  { intros seen l. revert seen. induction l as [|e l IH]; intros seen s Hs; simpl.
    - by rewrite app_nil_r.
    - replace (seen ++ e :: l) with ((seen ++ [e]) ++ l) by (by rewrite <- app_assoc).
      apply IH. by apply staleStep_inv. }
  destruct (Hfold [] history s0 Hs0) as (Hnd & _ & _ & Hin). split; [done|].
  intros p. rewrite Hin, Hk0. simpl. rewrite !in_map_iff. setoid_rewrite candidates_in.
  split; [naive_solver|]. intros (? & ? & Hnk & Hp). split_and!; auto.
  - intros [?|?]; naive_solver.
  - destruct Hp as [?|(e & <- & ?)]; [by left|]. right. exists e. auto.
Qed.
End history.

(** ** Properties of the cache *)

(** The images a refresh deletes are exactly the known ones (the previous
    image and the history) that the new history does not list, each once; the
    current image is never among them, and the new history starts with the
    current image and is no longer than the retention limit. *)
Theorem iso_history_partition (history : list ISOCacheHistoryEntry) (current : ISOCacheHistoryEntry)
    (previousPath : string) (retain : Z) :
  let stale := staleISOPaths history previousPath (ih_Path current) retain in
  let updated := updatedISOHistory history current retain in
  List.NoDup stale ∧ ¬ In (ih_Path current) stale ∧
  (∀ p, In p stale ↔ p ≠ "" ∧ (p = previousPath ∨ In p (map ih_Path history)) ∧
                     ¬ In p (map ih_Path updated)) ∧
  head updated = Some current ∧ Z.of_nat (length updated) ≤ Z.max 1 retain.
Proof.
  cbv zeta. destruct (staleISOPaths_spec history previousPath (ih_Path current) retain) as [Hnd Hin].
  split; [done|]. split; [rewrite Hin; tauto|].
  rewrite updatedISOHistory_take. split_and!.
  - intros p. rewrite Hin. simpl. intuition congruence.
  - done.
  - simpl. unfold retained. rewrite length_take. lia.
Qed.

Section prune.
Context `{KubeLib} `{NetURL} `{GovcJSON} `{VMProvider} `{!VMProviderLaws}.

Lemma govcSucceeded_app h new args nf : govcSucceeded h args nf → govcSucceeded (new ++ h) args nf.
Proof.
  intros [[out Hin]|(e & Hin & He)]; [left; exists out|right; exists e; split; [|done]];
    apply in_app_iff; by right.
Qed.

Lemma isoDeleted_app pool p h new : isoDeleted pool p h → isoDeleted pool p (new ++ h).
Proof. intros [?|?]; [by left|right; by apply govcSucceeded_app]. Qed.

Lemma ensureEntry_in history entry p :
  In p (map ih_Path history) → In p (map ih_Path (ensureISOHistoryEntry history entry)).
Proof.
  unfold ensureISOHistoryEntry. destruct (_ == ""); [done|].
  destruct (findISOHistoryEntry _ _); [done|]. rewrite map_app, in_app_iff. by left.
Qed.

Lemma ensureEntry_self history entry :
  ih_Path entry ≠ "" → In (ih_Path entry) (map ih_Path (ensureISOHistoryEntry history entry)).
Proof.
  intros Hne. unfold ensureISOHistoryEntry. bdsimp.
  destruct (findISOHistoryEntry history (ih_Path entry)) as [e|] eqn:Ef.
  - apply find_some in Ef as [Hin Hp]. gobool. rewrite <- Hp. by apply in_map.
  - rewrite map_app, in_app_iff. right. by left.
Qed.

Lemma findISOHistoryEntry_path history p e : findISOHistoryEntry history p = Some e → ih_Path e = p.
Proof. intros [_ Hp]%find_some. by gobool. Qed.

(** Pruning forgets only images whose deletion succeeded. *)
Lemma pruneLoop_safe h pool previousHistory stale history :
  (∀ p, In p stale → p ≠ "" ∧ In p (map ih_Path previousHistory)) →
  safe anyAnswer (λ _ _ _, True) h (pruneLoop pool previousHistory stale history) (λ h' history',
    (∀ p, In p (map ih_Path history) → In p (map ih_Path history')) ∧
    ∀ p, In p stale → In p (map ih_Path history') ∨ isoDeleted pool p h').
Proof.
  revert h history. induction stale as [|p stale IH]; intros h history Hst; simpl.
  { split; [done|]. intros ? []. }
  apply safe_bind. eapply safe_mono; [eapply safe_ok_mono; [apply safe_extends, DeleteISO_calls|done]|].
  intros h1 [[]|e] [Hdel _]; simpl; (split; [done|]); intros [] _.
  - eapply safe_mono; [apply safe_extends, IH; intros; apply Hst; by right|].
    intros h2 history' [[Hk Hs] [new ->]]. split; [done|].
    intros q [<-|Hq]; [|by apply Hs]. right. apply isoDeleted_app. by apply (isoDeleted_app _ _ _ [_]).
  - split; [done|]. intros [] _. destruct (Hst p (or_introl eq_refl)) as [Hne Hin].
    assert (∃ entry, findISOHistoryEntry previousHistory p = Some entry) as [entry Hf].
    { unfold findISOHistoryEntry. destruct (List.find _ _) as [e'|] eqn:Ef; [by exists e'|].
      apply in_map_iff in Hin as (e' & He' & Hin). apply (find_none _ _ Ef) in Hin. by gobool. }
    rewrite Hf. pose proof (findISOHistoryEntry_path _ _ _ Hf) as Hp.
    eapply safe_mono; [apply IH; intros; apply Hst; by right|].
    intros h2 history' [Hk Hs]. split.
    + intros q Hq. by apply Hk, ensureEntry_in.
    + intros q [<-|Hq]; [|by apply Hs]. left. apply Hk. rewrite <- Hp. apply ensureEntry_self. congruence.
Qed.

(** C37: no cached image is leaked.  When ensureISOCache succeeds, every image it
    knew of before (the history and the current image) is still in the recorded
    history, or its deletion from the datastore succeeded. *)
Theorem ensureISOCache_no_leak (pool pool' : VsphereAgentPool) (url path : string) (h : hist)
    (Hrun : reach anyAnswer [] (ensureISOCache pool url) h (Return (pool', Ok path))) (p : string)
    (Hknown : In p (map ih_Path (previousISOHistory (pt_ISO (pl_Status pool))))) (Hne : p ≠ "") :
  In p (map ih_Path (previousISOHistory (pt_ISO (pl_Status pool')))) ∨ isoDeleted pool' p h.
Proof.
  pose (Q := λ (h' : hist) (r : VsphereAgentPool * result string), ∀ p,
    In p (map ih_Path (previousISOHistory (pt_ISO (pl_Status pool)))) → p ≠ "" →
    isNil r.2 = true →
    In p (map ih_Path (previousISOHistory (pt_ISO (pl_Status r.1)))) ∨ isoDeleted r.1 p h').
  enough (safe anyAnswer (λ _ _ _, True) [] (ensureISOCache pool url) Q) as Hsafe.
  { apply (safe_reach _ _ _ _ _ _ _ Hsafe) in Hrun. simpl in Hrun. by apply Hrun. }
  unfold ensureISOCache. apply safe_bind. split; [done|]. intros now _. simpl.
  destruct (isoCacheDue _ _ _ _); simpl; [|intros q Hq _ _; by left].
  apply safe_bind. eapply safe_mono; [eapply safe_ok_mono; [apply EnsureISO_calls|done]|].
  intros h1 [res|e] _; simpl; [|split; [done|intros [] _; split; [done|intros [] _ q _ _ [=]]]].
  destruct (ie_VerificationDeferred res); simpl; [split; [done|intros [] _ q Hq _ _; by left]|].
  split; [done|]. intros [] _.
  set (prev := previousISOHistory (pt_ISO (pl_Status pool))) in *.
  set (iso' := ensuredISOStatus _ _ _ _ _).
  destruct (staleISOPaths_spec prev (is_Path (pt_ISO (pl_Status pool))) (ie_Path res) (isoRetainVersions pool))
    as [_ Hstale].
  apply safe_bind. eapply safe_mono; [apply pruneLoop_safe|].
  { intros q (Hq & _ & _ & [Hp|Hin])%Hstale; split; auto.
    subst q. unfold prev, previousISOHistory. by apply (ensureEntry_self _ (mkISOCacheHistoryEntry _ _ _ _)). }
  intros h2 history' [Hk Hs]. simpl.
  assert (∀ r, safe anyAnswer (λ _ _ _, True) h2
    (let pool := setISOReady (setISO (setISO pool iso') (iso' <| is_History := history' |>)) ConditionTrue r.1 r.2 in
     let! _ := recordEvent KVsphereAgentPool pool EventTypeNormal ("ISO" +:+ r.1) r.2 in
     Return (pool, Ok (ie_Path res))) Q) as Hret.
  { intros r. split; [done|]. intros [] _ q Hq Hne' _. simpl. fold prev in Hq.
    unfold previousISOHistory at 1. simpl.
    destruct (in_dec String.string_dec q (map ih_Path (is_History iso'))) as [Hin|Hnin].
    - left. by apply ensureEntry_in, Hk.
    - unfold iso', ensuredISOStatus in Hnin. simpl in Hnin. rewrite updatedISOHistory_take in Hnin.
      simpl in Hnin. destruct (Hs q) as [?|Hd]; [|left; by apply ensureEntry_in|right; by apply (isoDeleted_app _ _ _ [_])].
      apply Hstale. split_and!; auto. }
  destruct (ie_Uploaded res); [apply (Hret ("Uploaded", _))|apply (Hret ("Reused", _))].
Qed.

(** A refresh changes the status of the pool only. *)
Lemma ensureISOCache_spec pool url h :
  safe anyAnswer (λ _ _ _, True) h (ensureISOCache pool url) (λ _ r, pl_Spec r.1 = pl_Spec pool).
Proof.
  unfold ensureISOCache. apply safe_bind. split; [done|]. intros t _. cbn [safe]. destruct (negb _); [done|].
  apply safe_bind. eapply safe_mono; [apply safe_trivial|]. intros h1 [res|e] _.
  - destruct (ie_VerificationDeferred res); [by split|]. split; [done|]. intros [] _. cbn [bind].
    apply safe_bind. eapply safe_mono; [apply safe_trivial|]. intros h2 hs _.
    destruct (if ie_Uploaded res then _ else _) as [reason message]. by split.
  - split; [done|]. intros [] _. by split.
Qed.
End prune.
