(* ===== verification/InfraEnv.v ===== *)
(** * Availability of the discovery ISO

    internal/controller/vsphereagentpool_controller.go, discoveryISOAvailable:
    an InfraEnv offers a discovery image when it was created, has a download URL
    and does not carry an image of another OpenShift version than requested. *)
From S2P Require Import Prelude Api Identity Planner OwnedVMs Sha256 Effects K8s Objects VMProvider IsoCache.

Section infraenv.
Context `{KubeLib} `{NetURL}.

(** ** Versions *)
Definition isDigit (c : ascii) : bool :=
  let n := nat_of_ascii c in (48 <=? n)%nat && (n <=? 57)%nat.

Definition isNumber (s : string) : bool := (s != "") && forallString isDigit s.

(** The pattern ^(\d+\.\d+)(?:\.\d+)?$ and its first group. *)
Definition openshiftMajorMinor (version : string) : string :=
  match Split version "."%char with
  | [major; minor] => if isNumber major && isNumber minor then major +:+ "." +:+ minor else ""
  | [major; minor; patch] =>
      if isNumber major && isNumber minor && isNumber patch then major +:+ "." +:+ minor else ""
  | _ => ""
  end.

(** The first non-empty version of a list. *)
Fixpoint firstVersion (versions : list string) : string :=
  match versions with
  | [] => ""
  | v :: rest => if v != "" then v else firstVersion rest
  end.

Definition imageURLVersion (rawURL : string) : string :=
  match url_Parse rawURL with
  | None => ""
  | Some parsed =>
      let version := openshiftMajorMinor (url_QueryGet parsed "version") in
      if version != "" then version
      else firstVersion (map openshiftMajorMinor (Split (Trim (url_Path parsed) "/"%char) "/"%char))
  end.

Definition infraEnvStatusImageVersion (infraEnv : Unstructured) (isoURL : string) : string :=
  let artifact field := NestedString (un_Object infraEnv) ["status"; "bootArtifacts"; field] in
  firstVersion (map imageURLVersion [isoURL; artifact "rootfs"; artifact "initrd"]).

(** ** discoveryISOAvailable: whether the image is available, its URL and a
    message *)
Definition infraEnvVerdict (infraEnv : Unstructured) : bool * string * string :=
  match infraEnvStatusCondition infraEnv "ImageCreated" with
  | Some (status, reason, message) =>
      if status != ConditionTrue then
        let detail := "InfraEnv ImageCreated condition is " +:+ status in
        let detail := if reason != "" then detail +:+ " (" +:+ reason +:+ ")" else detail in
        let detail := if message != "" then detail +:+ ": " +:+ message else detail in
        (false, "", detail)
      else (true, "", "")
  | None => (true, "", "")
  end.

Definition infraEnvImage (infraEnv : Unstructured) : bool * string * string :=
  let isoURL := NestedString (un_Object infraEnv) ["status"; "isoDownloadURL"] in
  if isoURL == "" then (false, "", "InfraEnv status.isoDownloadURL is empty")
  else
    let expectedVersion := openshiftMajorMinor (NestedString (un_Object infraEnv) ["spec"; "osImageVersion"]) in
    let actualVersion := infraEnvStatusImageVersion infraEnv isoURL in
    if (expectedVersion != "") && (actualVersion != "") && (actualVersion != expectedVersion) then
      (false, "", "InfraEnv discovery image version " +:+ actualVersion +:+
        " does not match spec.osImageVersion " +:+ expectedVersion)
    else (true, isoURL, "InfraEnv exposes discovery ISO").

Definition discoveryISOAvailable (r : reader) (namespace name : string) : program (bool * string * string) :=
  let! infraEnv := call (Get r KInfraEnv namespace name) in
  match infraEnv with
  | Err e => if IsNotFound e then Return (false, "", err_Error e)
             else Return (false, "", "failed to read InfraEnv: " +:+ err_Error e)
  | Ok infraEnv =>
      let '(created, url, detail) := infraEnvVerdict infraEnv in
      if negb created then Return (created, url, detail) else Return (infraEnvImage infraEnv)
  end.

Definition infraEnvAvailable (r : reader) (pool : VsphereAgentPool) : program (bool * string * string) :=
  discoveryISOAvailable r (om_Namespace (pl_Meta pool)) (lor_Name (ps_InfraEnvRef (pl_Spec pool))).

End infraenv.

(** ** Properties *)
Section infraenv_proofs.
Context `{KubeLib} `{NetURL}.

Lemma infraEnvImage_sound infraEnv url msg :
  infraEnvImage infraEnv = (true, url, msg) →
  url = NestedString (un_Object infraEnv) ["status"; "isoDownloadURL"] ∧ url ≠ "" ∧
  (openshiftMajorMinor (NestedString (un_Object infraEnv) ["spec"; "osImageVersion"]) = "" ∨
   infraEnvStatusImageVersion infraEnv url = "" ∨
   infraEnvStatusImageVersion infraEnv url =
     openshiftMajorMinor (NestedString (un_Object infraEnv) ["spec"; "osImageVersion"])).
Proof.
  unfold infraEnvImage. destruct (NestedString _ ["status"; "isoDownloadURL"] == "") eqn:Eu; [done|].
  destruct (_ && _) eqn:Ev; [done|]. intros [= <- <-]. gobool; auto.
Qed.

(** An available discovery image comes from an InfraEnv that was read, whose
    ImageCreated condition is not negative, that has a download URL, and whose
    image version, when it can be told, is the requested one. *)
Theorem discoveryISOAvailable_sound (r : reader) (ns name url msg : string) (h : hist)
    (Hrun : reach anyAnswer [] (discoveryISOAvailable r ns name) h (Return (true, url, msg))) :
  ∃ infraEnv, h = [Event (Get r KInfraEnv ns name) (Ok infraEnv)] ∧
    url = NestedString (un_Object infraEnv) ["status"; "isoDownloadURL"] ∧ url ≠ "" ∧
    (∀ status reason message,
       infraEnvStatusCondition infraEnv "ImageCreated" = Some (status, reason, message) → status = ConditionTrue) ∧
    (openshiftMajorMinor (NestedString (un_Object infraEnv) ["spec"; "osImageVersion"]) = "" ∨
     infraEnvStatusImageVersion infraEnv url = "" ∨
     infraEnvStatusImageVersion infraEnv url =
       openshiftMajorMinor (NestedString (un_Object infraEnv) ["spec"; "osImageVersion"])).
Proof.
  pose (Q := λ (h' : hist) (x : bool * string * string), x = (true, url, msg) →
    ∃ infraEnv, h' = [Event (Get r KInfraEnv ns name) (Ok infraEnv)] ∧
      (infraEnvVerdict infraEnv).1.1 = true ∧ infraEnvImage infraEnv = (true, url, msg)).
  assert (safe anyAnswer (λ _ _ _, True) [] (discoveryISOAvailable r ns name) Q) as Hsafe.
  { unfold discoveryISOAvailable. apply safe_bind. split; [done|]. intros [ie|e] _; simpl.
    - destruct (infraEnvVerdict ie) as [[[] u] d] eqn:Ev; simpl; [|done].
      intros Heq. exists ie. by rewrite Ev.
    - destruct (IsNotFound e); simpl; intros [=]. }
  apply (safe_reach _ _ _ _ _ _ _ Hsafe) in Hrun.
  destruct (Hrun eq_refl) as (ie & -> & Hv & Himg). exists ie.
  apply infraEnvImage_sound in Himg as (? & ? & ?). split_and!; auto.
  intros status reason message Hc. unfold infraEnvVerdict in Hv. rewrite Hc in Hv.
  destruct (status != ConditionTrue) eqn:Es; gobool; [by simpl in Hv|done].
Qed.
End infraenv_proofs.
