(* ===== verification/AgentMachine.v ===== *)
(** * The AgentMachine controller: from demand to inventory

    internal/controller/agentmachine_controller.go and the demand half of
    openstackagentpool_controller.go.  An AgentMachine that waits for an Agent is
    matched with the pools of its NodePool; the single matching pool claims it
    under an optimistic lock, pins its selector to an Agent of its own, and
    creates one VsphereAgent or OpenStackAgent for it.  The theorems say that
    nothing is created for a demand that is not claimed by the creating pool, that
    a claim is never stolen, and which object is created.

    A Patch answers with the object as stored, and the Go client decodes it into
    the object it was given: the functions that patch return the stored object. *)
From S2P Require Import Prelude Api Identity Planner OwnedVMs VsphereObjects Sha256 Effects K8s Objects.

(** ** Constants *)
Definition vsphereAgentPoolControlPlaneNamespaceIndex : string := ".spec.controlPlaneNamespace".
Definition openStackFinalizer : string := "agent-forge.containeroo.ch/openstack".
Definition openStackPoolLabel : string := "agent-forge.containeroo.ch/openstack-agent-pool".
Definition demandClaimAnnotation : string := "agent-forge.containeroo.ch/demand-owner".

(** ** OpenStack pools *)
Definition defaultOpenStackPlacement (p : OpenStackPlacementSpec) : OpenStackPlacementSpec :=
  mkOpenStackPlacementSpec (op_CredentialsSecretRef p) (op_Region p) (op_NetworkID p) (op_NetworkName p)
    (op_FlavorID p) (op_FlavorName p) (op_SubnetID p) (op_DHCPEnabled p) (op_PortSecurityEnabled p)
    (op_SecurityGroupIDs p) (op_PortTags p) (op_AvailabilityZone p) (orZero (op_APITimeoutSeconds p) 60).

Definition defaultOpenStackTemplate (t : OpenStackTemplateSpec) : OpenStackTemplateSpec :=
  mkOpenStackTemplateSpec (orZero (ot_DiskGiB t) 120) (ot_VolumeType t) (ot_VolumeAvailabilityZone t)
    (ot_VolumeMetadata t) (orZero (ot_DiscoveryVolumeMinGiB t) 2) (ot_DiscoveryVolumeType t)
    (orElse (ot_OSDiskBus t) "virtio") (orElse (ot_DiscoveryDiskBus t) "ide")
    (orElse (ot_InstallationDisk t) "/dev/vda") (orElse (ot_OSVolumePolicy t) CleanupPolicyDelete).

Definition openStackDefaults (s : OpenStackAgentPoolSpec) : OpenStackAgentPoolSpec :=
  mkOpenStackAgentPoolSpec (os_HostedClusterRef s) (os_NodePoolRef s) (os_InfraEnvRef s)
    (os_ControlPlaneNamespace s) (defaultOpenStackPlacement (os_OpenStack s))
    (defaultOpenStackTemplate (os_Template s)) (defaultBinding (os_Agent s))
    (orElse (os_CleanupPolicy s) CleanupPolicyDelete) (orZero (os_DiscoveryTimeoutSeconds s) 1800).

Definition openStackDemandMatches (o : Unstructured) (p : OpenStackAgentPool) : bool :=
  (GetNamespace o == os_ControlPlaneNamespace (osp_Spec p)) &&
  (annotation o nodePoolAnnotation ==
     om_Namespace (osp_Meta p) +:+ "/" +:+ lor_Name (os_NodePoolRef (osp_Spec p))).

(** ** Names *)
Definition maxAgentNameLength : nat := 253.

Definition alternateVsphereAgentName (pool : VsphereAgentPool) (agentMachine : Unstructured) : string :=
  let sum := sha256Hex (om_Namespace (pl_Meta pool) +:+ "/" +:+ om_Name (pl_Meta pool) +:+ "/" +:+
                        GetNamespace agentMachine +:+ "/" +:+ GetName agentMachine) in
  let suffix := takeString 10 sum in
  let base := Trim (GetName agentMachine +:+ "-" +:+ om_Name (pl_Meta pool)) "-"%char in
  let maxBaseLength := (maxAgentNameLength - String.length suffix - 1)%nat in
  let base := if (maxBaseLength <? String.length base)%nat then Trim (takeString maxBaseLength base) "-"%char
              else base in
  if base == "" then suffix else base +:+ "-" +:+ suffix.

Definition matchingPoolNames (pools : list VsphereAgentPool) : string :=
  Join (map (λ pool, om_Namespace (pl_Meta pool) +:+ "/" +:+ om_Name (pl_Meta pool)) pools) ", ".

(** ** VsphereAgents of a demand *)
Definition newVsphereAgentForAgentMachine (name : string) (pool : VsphereAgentPool) (agentMachine : Unstructured)
    : VsphereAgent :=
  mkVsphereAgent
    (mkObjectMeta name (om_Namespace (pl_Meta pool)) "" "" 0 None
       (<[vsphereAgentPoolNameLabel := om_Name (pl_Meta pool)]>
        (<[vsphereAgentCreatedForLabel := vsphereAgentCreatedForDemand]>
         (<[agentMachineSelectionLabel := GetName agentMachine]> ∅)))
       (<[vsphereAgentVMNameAnnotation := GetName agentMachine]> ∅) [] [])
    (mkVsphereAgentSpec (mkLocalObjectReference (om_Name (pl_Meta pool))))
    (mkVsphereAgentStatus 0 (mkOwnedVMStatus "" "" "" "" "" None None "" "" 0) None []).

Definition vsphereAgentCreatedForAgentMachine (agent : VsphereAgent) (pool : VsphereAgentPool)
    (agentMachine : Unstructured) : bool :=
  if negb (vsphereAgentBelongsToPool agent (om_Name (pl_Meta pool))) then false
  else if vaLabel agent agentMachineSelectionLabel == GetName agentMachine then true
  else if vaAnnotation agent vsphereAgentVMNameAnnotation == GetName agentMachine then true
  else (vaLabel agent vsphereAgentCreatedForLabel == vsphereAgentCreatedForDemand) &&
       (om_Name (va_Meta agent) == GetName agentMachine).

Section demand.
Context `{KubeLib}.

(** ** Claims *)
Definition claimOf (kindName uid : string) : string := kindName +:+ "/" +:+ uid.

Definition claimDemand (am : Unstructured) (kindName uid : string) : program (result Unstructured) :=
  let claim := claimOf kindName uid in
  let existing := annotation am demandClaimAnnotation in
  if existing != "" then
    if existing != claim then Return (Errorf "AgentMachine is claimed by another infrastructure pool")
    else Return (Ok am)
  else
    let meta := (un_Meta am) <| om_Annotations := <[demandClaimAnnotation := claim]> (om_Annotations (un_Meta am)) |> in
    call (Patch KAgentMachine am (mkUnstructured meta (un_Object am)) true).

(** ** Selectors *)
Definition selectorPath : list string := ["spec"; "agentLabelSelector"; "matchLabels"].

Definition ensureAgentMachineSelectorPinned (agentMachine : Unstructured) : program (result Unstructured) :=
  match NestedStringMap (un_Object agentMachine) selectorPath with
  | Err e => Return (Err e)
  | Ok matchLabels =>
      let matchLabels := default ∅ matchLabels in
      if mapGet matchLabels agentMachineSelectionLabel == GetName agentMachine then Return (Ok agentMachine)
      else
        match SetNestedStringMap (un_Object agentMachine)
                (<[agentMachineSelectionLabel := GetName agentMachine]> matchLabels) selectorPath with
        | Err e => Return (Err e)
        | Ok object =>
            call (Patch KAgentMachine agentMachine (mkUnstructured (un_Meta agentMachine) object) false)
        end
  end.

(** ** vSphere inventory *)
Definition findVsphereAgentForAgentMachine (pool : VsphereAgentPool) (agentMachine : Unstructured)
    : program (result (option VsphereAgent)) :=
  let? items := call (ListObjs Cached KVsphereAgent (InNamespace (om_Namespace (pl_Meta pool)))) in
  Return (Ok (List.find (λ agent, negb (isDeleting (va_Meta agent)) &&
                                  vsphereAgentCreatedForAgentMachine agent pool agentMachine) items)).

(** The loop over the deterministic names. *)
Fixpoint createUnderName (pool : VsphereAgentPool) (agentMachine : Unstructured) (names : list string)
    : program (result unit) :=
  match names with
  | [] => Return (Errorf ("could not create VsphereAgent for AgentMachine " +:+ GetNamespace agentMachine +:+ "/" +:+
            GetName agentMachine +:+ " because deterministic names are already used by other demand"))
  | name :: rest =>
      let agent := newVsphereAgentForAgentMachine name pool agentMachine in
      match SetControllerReference KVsphereAgentPool (pl_Meta pool) (va_Meta agent) with
      | Err e => Return (Err e)
      | Ok meta =>
          let! created := call (Create KVsphereAgent (agent <| va_Meta := meta |>)) in
          match created with
          | Ok _ => Return (Ok tt)
          | Err e =>
              if negb (IsAlreadyExists e) then Return (Err e)
              else
                let? existing := call (Get Cached KVsphereAgent (om_Namespace meta) (om_Name meta)) in
                if vsphereAgentCreatedForAgentMachine existing pool agentMachine then Return (Ok tt)
                else createUnderName pool agentMachine rest
          end
      end
  end.

Definition ensureVsphereAgentForAgentMachine (pool : VsphereAgentPool) (agentMachine : Unstructured)
    : program (result unit) :=
  let? existing := findVsphereAgentForAgentMachine pool agentMachine in
  match existing with
  | Some _ => Return (Ok tt)
  | None => createUnderName pool agentMachine [GetName agentMachine; alternateVsphereAgentName pool agentMachine]
  end.

(** ** OpenStack inventory *)
Definition matchingOpenStackPools (am : Unstructured) : program (result (list OpenStackAgentPool)) :=
  let? items := call (ListObjs Cached KOpenStackAgentPool AllNamespaces) in
  Return (Ok (List.filter (λ p, negb (isDeleting (osp_Meta p)) && openStackDemandMatches am p) items)).

Definition openStackAgentName (am : Unstructured) : string := "osa-" +:+ om_UID (un_Meta am).

(** The Machine of the last owner reference of kind Machine (the loop overwrites). *)
Definition machineOwnerRef (am : Unstructured) : option ObjectReference :=
  foldl (λ acc owner,
    if ow_Kind owner == k8sKindMachine
    then Some (mkObjectReference (ow_APIVersion owner) (ow_Kind owner) (GetNamespace am) (ow_Name owner) (ow_UID owner))
    else acc) None (om_OwnerReferences (un_Meta am)).

Definition newOpenStackAgent (p : OpenStackAgentPool) (am : Unstructured) : OpenStackAgent :=
  mkOpenStackAgent
    (mkObjectMeta (openStackAgentName am) (om_Namespace (osp_Meta p)) "" "" 0 None
       (<[openStackPoolLabel := om_Name (osp_Meta p)]> (<[agentMachineSelectionLabel := GetName am]> ∅))
       ∅ [] [openStackFinalizer])
    (mkOpenStackAgentSpec (mkLocalObjectReference (om_Name (osp_Meta p))) (om_UID (osp_Meta p))
       (mkObjectReference (NestedString (un_Object am) ["apiVersion"]) (NestedString (un_Object am) ["kind"])
          (GetNamespace am) (GetName am) (om_UID (un_Meta am)))
       (machineOwnerRef am) (openStackDefaults (osp_Spec p)) "")
    (mkOpenStackAgentStatus 0 "" "" "" "" "" "" "" "" "" "" 0 "" "" None None []).

Definition isWorkerOf (am : Unstructured) (worker : OpenStackAgent) : bool :=
  or_UID (oas_AgentMachineRef (oa_Spec worker)) == om_UID (un_Meta am).

(** The number of workers of the demand; a worker of another pool is an error. *)
Fixpoint countWorkers (p : OpenStackAgentPool) (am : Unstructured) (workers : list OpenStackAgent) (matches : nat)
    : result nat :=
  match workers with
  | [] => Ok matches
  | worker :: rest =>
      if isWorkerOf am worker then
        if oas_PoolUID (oa_Spec worker) != om_UID (osp_Meta p)
        then Errorf "AgentMachine already has another pool's worker"
        else countWorkers p am rest (S matches)
      else countWorkers p am rest matches
  end.

Definition createOpenStackAgent (p : OpenStackAgentPool) (am : Unstructured) : program (result unit) :=
  let a := newOpenStackAgent p am in
  match SetControllerReference KOpenStackAgentPool (osp_Meta p) (oa_Meta a) with
  | Err e => Return (Err e)
  | Ok meta =>
      let! created := call (Create KOpenStackAgent (a <| oa_Meta := meta |>)) in
      match created with
      | Ok _ => Return (Ok tt)
      | Err e =>
          if negb (IsAlreadyExists e) then Return (Err e)
          else
            let? current := call (Get Cached KOpenStackAgent (om_Namespace meta) (om_Name meta)) in
            if (oas_PoolUID (oa_Spec current) != om_UID (osp_Meta p)) ||
               (or_UID (oas_AgentMachineRef (oa_Spec current)) != om_UID (un_Meta am))
            then Return (Errorf "OpenStackAgent demand ownership mismatch")
            else Return (Ok tt)
      end
  end.

Definition ensureOpenStackAgent (p : OpenStackAgentPool) (am : Unstructured) : program (result unit) :=
  if agentMachineHasAssignedAgent am then Return (Ok tt)
  else
    let? am := claimDemand am "OpenStackAgentPool" (om_UID (osp_Meta p)) in
    let? am := ensureAgentMachineSelectorPinned am in
    let? workers := call (ListObjs Cached KOpenStackAgent (InNamespace (om_Namespace (osp_Meta p)))) in
    match countWorkers p am workers 0 with
    | Err e => Return (Err e)
    | Ok O => createOpenStackAgent p am
    | Ok 1%nat => Return (Ok tt)
    | Ok _ => Return (Errorf "AgentMachine has multiple OpenStack workers")
    end.

(** ** Reconcile *)
Definition matchingVspherePools (agentMachine : Unstructured) (items : list VsphereAgentPool)
    : list VsphereAgentPool :=
  List.filter (controlPlaneObjectMatchesPool agentMachine)
    (map applySpecDefaults (List.filter (λ pool, negb (isDeleting (pl_Meta pool))) items)).

Definition serveFromVsphere (pool : VsphereAgentPool) (agentMachine : Unstructured) : program (result Duration) :=
  let? agentMachine := claimDemand agentMachine "VsphereAgentPool" (om_UID (pl_Meta pool)) in
  let? agentMachine := ensureAgentMachineSelectorPinned agentMachine in
  let? _ := ensureVsphereAgentForAgentMachine pool agentMachine in
  Return (Ok (30 * second)).

Definition serveDemand (agentMachine : Unstructured) (matchingPools : list VsphereAgentPool)
    (openStackPools : list OpenStackAgentPool) : program (result Duration) :=
  if (0 <? length openStackPools)%nat && (1 <? length matchingPools + length openStackPools)%nat
  then Return (Errorf "AgentMachine matches multiple infrastructure pools")
  else
    match openStackPools, matchingPools with
    | [p], _ => let? _ := ensureOpenStackAgent p agentMachine in Return (Ok (30 * second))
    | _, [] => Return (Ok (30 * second))
    | _, [pool] => serveFromVsphere pool agentMachine
    | _, _ => Return (Errorf ("AgentMachine " +:+ GetNamespace agentMachine +:+ "/" +:+ GetName agentMachine +:+
                " matches multiple VsphereAgentPools: " +:+ matchingPoolNames matchingPools))
    end.

Definition Reconcile (ns name : string) : program (result Duration) :=
  let! am := call (Get Cached KAgentMachine ns name) in
  match am with
  | Err e => if IsNotFound e then Return (Ok 0) else Return (Err e)
  | Ok am =>
      if isDeleting (un_Meta am) || negb (agentMachineWaitingForAgent am) then Return (Ok 0)
      else
        let? pools := call (ListObjs Cached KVsphereAgentPool (MatchingField vsphereAgentPoolControlPlaneNamespaceIndex ns)) in
        let? openStackPools := matchingOpenStackPools am in
        serveDemand am (matchingVspherePools am pools) openStackPools
  end.

(** The request a change of a VsphereAgent maps to. *)
Definition requestsForVsphereAgent (agent : VsphereAgent) : program (list (string * string)) :=
  if vaLabel agent vsphereAgentCreatedForLabel != vsphereAgentCreatedForDemand then Return []
  else
    let! pool := call (Get Cached KVsphereAgentPool (om_Namespace (va_Meta agent)) (lor_Name (vs_PoolRef (va_Spec agent)))) in
    match pool with
    | Err _ => Return []
    | Ok pool =>
        let name := vaLabel agent agentMachineSelectionLabel in
        let name := if name == "" then vsphereAgentVMName agent else name in
        Return [(ps_ControlPlaneNamespace (pl_Spec pool), name)]
    end.

End demand.

(** ** What the creation of a worker rests on *)

(** The demand carries the claim, or a locked patch of the unclaimed demand that
    adds it was accepted. *)
Definition claimedBy (am : Unstructured) (claim : string) (h : hist) : Prop :=
  annotation am demandClaimAnnotation = claim ∨
  (annotation am demandClaimAnnotation = "" ∧
   ∃ after stored, annotation after demandClaimAnnotation = claim ∧
     In (Event (Patch KAgentMachine am after true) (Ok stored)) h).

Section authority.
Context `{KubeLib}.

(** The selector of the object admits only Agents labelled for it. *)
Definition selectorPinned (o : Unstructured) : Prop :=
  ∃ labels, NestedStringMap (un_Object o) selectorPath = Ok labels ∧
    mapGet (default ∅ labels) agentMachineSelectionLabel = GetName o.

(** The selector of the demand [am] is pinned: in a version of it that was read or
    stored, or in a version whose patch was accepted. *)
Definition pinnedIn (am : Unstructured) (h : hist) : Prop :=
  ∃ o, sameObject (un_Meta am) (un_Meta o) ∧ selectorPinned o ∧
    (o = am ∨
     (∃ before after, In (Event (Patch KAgentMachine before after true) (Ok o)) h) ∨
     (∃ before stored, In (Event (Patch KAgentMachine before o false) (Ok stored)) h)).

(** The demand of a run: read, waiting and not being deleted, and its pools. *)
Record demandOfRun (ns name : string) (am : Unstructured) (vspherePools : list VsphereAgentPool)
    (openStackPools : list OpenStackAgentPool) (h : hist) : Prop := {
  dr_read : In (Event (Get Cached KAgentMachine ns name) (Ok am)) h;
  dr_live : isDeleting (un_Meta am) = false;
  dr_waiting : agentMachineWaitingForAgent am = true;
  dr_vsphere : ∃ pools, vspherePools = matchingVspherePools am pools ∧
    In (Event (ListObjs Cached KVsphereAgentPool
                 (MatchingField vsphereAgentPoolControlPlaneNamespaceIndex ns)) (Ok pools)) h;
  dr_openstack : ∃ pools,
    openStackPools = List.filter (λ p, negb (isDeleting (osp_Meta p)) && openStackDemandMatches am p) pools ∧
    In (Event (ListObjs Cached KOpenStackAgentPool AllNamespaces) (Ok pools)) h }.

(** A VsphereAgent may be created for the demand: one pool matches, it claimed the
    demand and pinned its selector, no live VsphereAgent serves it yet, and the
    new one is of that pool and for that demand. *)
Record vsphereCreateAuthorised (ns name : string) (h : hist) (o : VsphereAgent) (am : Unstructured)
    (pool : VsphereAgentPool) : Prop := {
  vc_demand : demandOfRun ns name am [pool] [] h;
  vc_claimed : claimedBy am (claimOf "VsphereAgentPool" (om_UID (pl_Meta pool))) h;
  vc_pinned : pinnedIn am h;
  vc_unserved : ∃ items,
    In (Event (ListObjs Cached KVsphereAgent (InNamespace (om_Namespace (pl_Meta pool)))) (Ok items)) h ∧
    ∀ a, In a items → isDeleting (va_Meta a) = false → vsphereAgentCreatedForAgentMachine a pool am = false;
  vc_for : vsphereAgentCreatedForAgentMachine o pool am = true;
  vc_namespace : om_Namespace (va_Meta o) = om_Namespace (pl_Meta pool);
  vc_name : om_Name (va_Meta o) = GetName am ∨ om_Name (va_Meta o) = alternateVsphereAgentName pool am }.

(** Likewise for an OpenStackAgent, whose name is made of the UID of the demand. *)
Record openStackCreateAuthorised (ns name : string) (h : hist) (o : OpenStackAgent) (am : Unstructured)
    (pool : OpenStackAgentPool) : Prop := {
  oc_demand : demandOfRun ns name am [] [pool] h;
  oc_unassigned : agentMachineHasAssignedAgent am = false;
  oc_claimed : claimedBy am (claimOf "OpenStackAgentPool" (om_UID (osp_Meta pool))) h;
  oc_pinned : pinnedIn am h;
  oc_unserved : ∃ items,
    In (Event (ListObjs Cached KOpenStackAgent (InNamespace (om_Namespace (osp_Meta pool)))) (Ok items)) h ∧
    ∀ a, In a items → or_UID (oas_AgentMachineRef (oa_Spec a)) ≠ om_UID (un_Meta am);
  oc_pool : oas_PoolUID (oa_Spec o) = om_UID (osp_Meta pool);
  oc_for : or_UID (oas_AgentMachineRef (oa_Spec o)) = om_UID (un_Meta am);
  oc_config : oas_Configuration (oa_Spec o) = openStackDefaults (osp_Spec pool);
  oc_name : om_Name (oa_Meta o) = openStackAgentName am }.

(** Every creation of a run of Reconcile is authorised. *)
Definition createsAuthorised (ns name : string) : precondition callE := λ X h e,
  match e with
  | Create KVsphereAgent o => ∃ am pool, vsphereCreateAuthorised ns name h o am pool
  | Create KOpenStackAgent o => ∃ am pool, openStackCreateAuthorised ns name h o am pool
  | Create _ _ => False
  | _ => True
  end.

(** A patch of an AgentMachine: a claim is only added, under the lock, to an
    unclaimed demand, and the other labels of the selector are kept. *)
Definition patchesRespectClaims : precondition callE := λ X _ e,
  match e with
  | Patch KAgentMachine before after lock =>
      let claim o := annotation o demandClaimAnnotation in
      ((claim after = claim before) ∨ (claim before = "" ∧ lock = true)) ∧
      ∀ labels, NestedStringMap (un_Object before) selectorPath = Ok labels →
        ∃ labels', NestedStringMap (un_Object after) selectorPath = Ok labels' ∧
          ∀ k, k ≠ agentMachineSelectionLabel → mapGet (default ∅ labels') k = mapGet (default ∅ labels) k
  | _ => True
  end.
End authority.

(** ** Proofs *)
Lemma sameObject_refl m : sameObject m m.
Proof. done. Qed.

Lemma sameObject_trans m1 m2 m3 : sameObject m1 m2 → sameObject m2 m3 → sameObject m1 m3.
Proof. intros (?&?&?) (?&?&?). repeat split; congruence. Qed.

Lemma createdFor_same agent pool am am' :
  sameObject (un_Meta am) (un_Meta am') →
  vsphereAgentCreatedForAgentMachine agent pool am' = vsphereAgentCreatedForAgentMachine agent pool am.
Proof. intros (Hn&_&_). unfold vsphereAgentCreatedForAgentMachine, GetName. by rewrite Hn. Qed.

Lemma alternateName_same pool am am' :
  sameObject (un_Meta am) (un_Meta am') → alternateVsphereAgentName pool am' = alternateVsphereAgentName pool am.
Proof. intros (Hn&Hns&_). unfold alternateVsphereAgentName, GetName, GetNamespace. by rewrite Hn, Hns. Qed.

Lemma newVsphereAgent_for name pool am :
  vsphereAgentCreatedForAgentMachine (newVsphereAgentForAgentMachine name pool am) pool am = true.
Proof.
  unfold vsphereAgentCreatedForAgentMachine, vsphereAgentBelongsToPool, vaLabel, vaAnnotation, mapGet. simpl.
  rewrite (lookup_insert_ne _ vsphereAgentPoolNameLabel agentMachineSelectionLabel) by discriminate.
  rewrite (lookup_insert_ne _ vsphereAgentCreatedForLabel agentMachineSelectionLabel) by discriminate.
  rewrite !lookup_insert_eq. cbn [default from_option id].
  destruct (om_Name (pl_Meta pool) != "") eqn:E; gobool; rewrite ?E; by bdsimp.
Qed.

(** The workers counted are those of the demand. *)
Lemma countWorkers_bound p am workers m r :
  countWorkers p am workers m = Ok r → (m ≤ r)%nat.
Proof.
  revert m. induction workers as [|w ws IH]; intros m; simpl; [intros [= ->]; done|].
  destruct (isWorkerOf am w); [destruct (_ != _); [done|]|]; intros Hr%IH; lia.
Qed.

Lemma countWorkers_zero p am workers a :
  countWorkers p am workers 0 = Ok 0%nat → In a workers → isWorkerOf am a = false.
Proof.
  induction workers as [|w ws IH]; simpl; [done|]. destruct (isWorkerOf am w) eqn:E.
  - destruct (_ != _); [done|]. intros Hr%countWorkers_bound. lia.
  - intros Hr [<-|Hin]; auto.
Qed.

Section demand_proofs.
Context `{KubeLib} `{!KubeLaws}.
Context (ok : precondition callE).
Hypothesis ok_patch : ∀ h before after lock, ok _ h (Patch KAgentMachine before after lock).

Lemma claimDemand_safe h am kindName uid (Q : hist → result Unstructured → Prop) :
  (∀ h' am', grows h h' → sameObject (un_Meta am) (un_Meta am') → claimedBy am (claimOf kindName uid) h' →
     (am' = am ∨ ∃ before after, In (Event (Patch KAgentMachine before after true) (Ok am')) h') → Q h' (Ok am')) →
  (∀ h' e, Q h' (Err e)) →
  safe keepsIdentity ok h (claimDemand am kindName uid) Q.
Proof.
  intros HQ HE. unfold claimDemand. destruct (annotation am demandClaimAnnotation != "") eqn:E1.
  - destruct (_ != claimOf kindName uid) eqn:E2; gobool; [apply HE|].
    apply HQ; [apply grows_refl|done|by left|by left].
  - gobool. split; [apply ok_patch|]. intros [stored|e] Hs; cbn [safe]; [|apply HE].
    apply HQ; [eauto with grows|exact Hs| |right; eauto 10 with grows].
    right. split; [done|]. do 2 eexists. split; [|apply in_eq].
    unfold annotation, mapGet. simpl. by rewrite lookup_insert_eq.
Qed.

Lemma ensureSelectorPinned_safe h am (Q : hist → result Unstructured → Prop) :
  (∀ h' am' o, grows h h' → sameObject (un_Meta am) (un_Meta am') → sameObject (un_Meta am) (un_Meta o) →
     selectorPinned o →
     (o = am ∨ ∃ before stored, In (Event (Patch KAgentMachine before o false) (Ok stored)) h') → Q h' (Ok am')) →
  (∀ h' e, Q h' (Err e)) →
  safe keepsIdentity ok h (ensureAgentMachineSelectorPinned am) Q.
Proof.
  intros HQ HE. unfold ensureAgentMachineSelectorPinned.
  destruct (NestedStringMap _ _) as [labels|e] eqn:En; [|apply HE].
  destruct (mapGet _ _ == _) eqn:Em; gobool.
  { apply (HQ h am am); [apply grows_refl|done|done|by exists labels|by left]. }
  destruct (SetNestedStringMap _ _ _) as [object|e] eqn:Es; [|apply HE].
  split; [apply ok_patch|]. intros [stored|e] Hs; cbn [safe]; [|apply HE].
  apply (HQ _ stored (mkUnstructured (un_Meta am) object)); [eauto with grows|exact Hs|done| |right; eauto with grows].
  exists (Some (<[agentMachineSelectionLabel := GetName am]> (default ∅ labels))).
  split; [by apply SetNestedStringMap_read in Es|]. simpl. unfold mapGet. by rewrite lookup_insert_eq.
Qed.

(** Claiming and pinning establish the authority over the demand. *)
Lemma claimAndPin_safe {A} h am kindName uid (f : Unstructured → program (result A)) (Q : hist → result A → Prop) :
  (∀ h' am', grows h h' → sameObject (un_Meta am) (un_Meta am') → claimedBy am (claimOf kindName uid) h' →
     pinnedIn am h' → safe keepsIdentity ok h' (f am') Q) →
  (∀ h' e, Q h' (Err e)) →
  safe keepsIdentity ok h
    (let? am := claimDemand am kindName uid in let? am := ensureAgentMachineSelectorPinned am in f am) Q.
Proof.
  intros HQ HE. apply safe_bindOk. apply claimDemand_safe; [|apply HE].
  intros h1 am1 Hg1 Hs1 Hc Hseen. apply safe_bindOk. apply ensureSelectorPinned_safe; [|apply HE].
  intros h2 am2 o Hg2 Hs2 Hso Hpin Ho. apply HQ.
  - by eapply grows_trans.
  - by eapply sameObject_trans.
  - destruct Hc as [Hc|(Hc & after & stored & ? & Hin)]; [by left|right].
    split; [done|]. exists after, stored. split; [done|]. by eapply In_grows.
  - exists o. split; [by eapply sameObject_trans|]. split; [done|].
    destruct Ho as [->|Ho]; [|by right; right].
    destruct Hseen as [->|(b & a & Hin)]; [by left|right; left]. exists b, a. by eapply In_grows.
Qed.
End demand_proofs.

Section reconcile_proofs.
Context `{KubeLib} `{!KubeLaws}.
Context (ns name : string).

Lemma demandOfRun_grows am vps ops h h' :
  grows h h' → demandOfRun ns name am vps ops h → demandOfRun ns name am vps ops h'.
Proof.
  intros Hg [? ? ? (ps & ? & ?) (os & ? & ?)].
  split; [by eapply In_grows|done|done|exists ps|exists os]; split; try done; by eapply In_grows.
Qed.

Lemma claimedBy_grows am claim h h' : grows h h' → claimedBy am claim h → claimedBy am claim h'.
Proof.
  intros Hg [?|(? & after & stored & ? & ?)]; [by left|right]. split; [done|].
  exists after, stored. split; [done|]. by eapply In_grows.
Qed.

Lemma pinnedIn_grows am h h' : grows h h' → pinnedIn am h → pinnedIn am h'.
Proof.
  intros Hg (o & ? & ? & Ho). exists o. split; [done|]. split; [done|].
  destruct Ho as [?|[(b & a & ?)|(b & a & ?)]]; [by left|right; left|right; right];
    exists b, a; by eapply In_grows.
Qed.

(** The loop over the names, once the demand is claimed, pinned and unserved. *)
Lemma createUnderName_safe h am am' pool items names :
  demandOfRun ns name am [pool] [] h → sameObject (un_Meta am) (un_Meta am') →
  claimedBy am (claimOf "VsphereAgentPool" (om_UID (pl_Meta pool))) h → pinnedIn am h →
  In (Event (ListObjs Cached KVsphereAgent (InNamespace (om_Namespace (pl_Meta pool)))) (Ok items)) h →
  (∀ a, In a items → isDeleting (va_Meta a) = false → vsphereAgentCreatedForAgentMachine a pool am = false) →
  (∀ n, In n names → n = GetName am ∨ n = alternateVsphereAgentName pool am) →
  safe keepsIdentity (createsAuthorised ns name) h (createUnderName pool am' names) (λ _ _, True).
Proof.
  intros Hd Hs Hc Hp Hl Hun Hn. revert h Hd Hc Hp Hl.
  induction names as [|n names IH]; intros h Hd Hc Hp Hl; cbn [createUnderName]; [done|].
  destruct (SetControllerReference _ _ _) as [meta|e] eqn:Em; [|done].
  apply SetControllerReference_spec in Em as (refs & -> & _). apply safe_bind. split.
  - exists am, pool. split; [done|done|done|by exists items| |done|by apply Hn; left].
    rewrite <- (createdFor_same _ _ _ _ Hs). apply (newVsphereAgent_for n pool am').
  - intros [o|e] _; [done|]. cbn [safe]. destruct (IsAlreadyExists e); [|done]. cbn [negb].
    apply safe_bindOk. split; [done|]. intros [existing|e'] _; cbn [safe]; [|done].
    destruct (vsphereAgentCreatedForAgentMachine existing pool am'); [done|].
    assert (∀ ev1 ev2, grows h (ev1 :: ev2 :: h)) as Hg by eauto with grows.
    apply IH; [intros; apply Hn; by right| | | |].
    + eapply demandOfRun_grows; [apply Hg|done].
    + eapply claimedBy_grows; [apply Hg|done].
    + eapply pinnedIn_grows; [apply Hg|done].
    + eapply In_grows; [apply Hg|done].
Qed.

Lemma serveFromVsphere_safe h am pool :
  demandOfRun ns name am [pool] [] h →
  safe keepsIdentity (createsAuthorised ns name) h (serveFromVsphere pool am) (λ _ _, True).
Proof.
  intros Hd. unfold serveFromVsphere. apply claimAndPin_safe; [done| |done].
  intros h1 am' Hg Hs Hc Hp. apply safe_bindOk. unfold ensureVsphereAgentForAgentMachine. apply safe_bindOk.
  unfold findVsphereAgentForAgentMachine. apply safe_bindOk. split; [done|].
  intros [items|e] _; cbn [safe]; [|done]. destruct (List.find _ _) as [x|] eqn:Ef; [done|].
  eapply safe_mono; [|by intros h' [[]|e] _].
  set (ev := Event _ (Ok items)).
  apply (createUnderName_safe _ am am' pool items); try done.
  - eapply demandOfRun_grows; [|done]. eauto with grows.
  - eapply claimedBy_grows; [|done]. eauto with grows.
  - eapply pinnedIn_grows; [|done]. eauto with grows.
  - apply in_eq.
  - intros a Ha Hlive. rewrite <- (createdFor_same _ _ _ _ Hs).
    apply (find_none _ _ Ef) in Ha. rewrite Hlive in Ha. exact Ha.
  - intros n [<-|[<-|[]]]; [left|right].
    + unfold GetName. by destruct Hs as (-> & _).
    + by apply alternateName_same.
Qed.

Lemma ensureOpenStackAgent_safe h am pool :
  demandOfRun ns name am [] [pool] h →
  safe keepsIdentity (createsAuthorised ns name) h (ensureOpenStackAgent pool am) (λ _ _, True).
Proof.
  intros Hd. unfold ensureOpenStackAgent. destruct (agentMachineHasAssignedAgent am) eqn:Ea; [done|].
  apply claimAndPin_safe; [done| |done].
  intros h1 am' Hg Hs Hc Hp. apply safe_bindOk. split; [done|]. intros [items|e] _; cbn [safe]; [|done].
  destruct (countWorkers pool am' items 0) as [[|[|?]]|e] eqn:Ew; [|done|done|done].
  unfold createOpenStackAgent. destruct (SetControllerReference _ _ _) as [meta|e] eqn:Em; [|done].
  apply SetControllerReference_spec in Em as (refs & -> & _). apply safe_bind. split.
  - exists am, pool. destruct Hs as (Hname & Hns & Huid). split; try done.
    + eapply demandOfRun_grows; [|done]. eauto with grows.
    + eapply claimedBy_grows; [|done]. eauto with grows.
    + eapply pinnedIn_grows; [|done]. eauto with grows.
    + exists items. split; [apply in_eq|]. intros a Ha Heq.
      apply (countWorkers_zero _ _ _ _ Ew) in Ha. unfold isWorkerOf in Ha. gobool. congruence.
    + simpl. unfold openStackAgentName. by rewrite Huid.
  - intros [o|e] _; [done|]. cbn [safe]. destruct (IsAlreadyExists e); [|done]. cbn [negb].
    apply safe_bindOk. split; [done|]. intros [current|e'] _; cbn [safe]; [|done]. by destruct (_ || _).
Qed.

Lemma Reconcile_authorised :
  safe keepsIdentity (createsAuthorised ns name) [] (Reconcile ns name) (λ _ _, True).
Proof.
  unfold Reconcile. apply safe_bind. split; [done|]. intros [am|e] _; cbn [safe]; [|by destruct (IsNotFound e)].
  destruct (isDeleting (un_Meta am)) eqn:Ed; [done|]. destruct (agentMachineWaitingForAgent am) eqn:Ew; [|done].
  cbn [orb negb]. apply safe_bindOk. split; [done|]. intros [pools|e] _; cbn [safe]; [|done].
  apply safe_bindOk. unfold matchingOpenStackPools. apply safe_bindOk. split; [done|].
  intros [ospools|e] _; cbn [safe]; [|done].
  assert (demandOfRun ns name am (matchingVspherePools am pools)
    (List.filter (λ p, negb (isDeleting (osp_Meta p)) && openStackDemandMatches am p) ospools)
    [Event (ListObjs Cached KOpenStackAgentPool AllNamespaces) (Ok ospools);
     Event (ListObjs Cached KVsphereAgentPool (MatchingField vsphereAgentPoolControlPlaneNamespaceIndex ns)) (Ok pools);
     Event (Get Cached KAgentMachine ns name) (Ok am)]) as Hd.
  { split; [by do 2 right; left|done|done|exists pools|exists ospools]; split; try done; [by right; left|by left]. }
  revert Hd. generalize (matchingVspherePools am pools) as vps.
  generalize (List.filter (λ p, negb (isDeleting (osp_Meta p)) && openStackDemandMatches am p) ospools) as ops.
  intros ops vps Hd. unfold serveDemand.
  destruct ops as [|p [|p2 ops]], vps as [|v [|v2 vps]]; try done; simpl.
  - by apply serveFromVsphere_safe.
  - apply safe_bindOk. eapply safe_mono; [by apply ensureOpenStackAgent_safe|]. by intros h' [[]|e] _.
Qed.

Lemma ensureSelectorPinned_claims am :
  always patchesRespectClaims (ensureAgentMachineSelectorPinned am).
Proof.
  unfold ensureAgentMachineSelectorPinned. destruct (NestedStringMap _ _) as [labels|e] eqn:En; [|solve_always].
  destruct (_ == _); [solve_always|]. destruct (SetNestedStringMap _ _ _) as [object|e] eqn:Es; solve_always.
  split; [by left|]. simpl. rewrite En. intros labels0 [= <-]. eexists.
  split; [by apply SetNestedStringMap_read in Es|]. intros k Hk. simpl. unfold mapGet.
  by rewrite lookup_insert_ne.
Qed.

Lemma claimDemand_claims am kindName uid : always patchesRespectClaims (claimDemand am kindName uid).
Proof.
  unfold claimDemand. destruct (_ != "") eqn:E; gobool; solve_always.
  split; [by right|]. simpl. intros labels Hl. by exists labels.
Qed.

Hint Resolve ensureSelectorPinned_claims claimDemand_claims : always.

Lemma Reconcile_claims : always patchesRespectClaims (Reconcile ns name).
Proof.
  unfold Reconcile, matchingOpenStackPools, serveDemand, serveFromVsphere, ensureVsphereAgentForAgentMachine,
    findVsphereAgentForAgentMachine, ensureOpenStackAgent, createOpenStackAgent.
  assert (∀ pool am names, always patchesRespectClaims (createUnderName pool am names)) as Hc.
  { intros pool am names. induction names; cbn [createUnderName]; solve_always. }
  solve_always.
Qed.

(** C15: an AgentMachine gets a VsphereAgent only while it waits for an Agent and is
    not being deleted, from the one pool that matches it and no OpenStack pool
    does, after that pool's claim is recorded and the selector is pinned, and only
    if no live VsphereAgent serves it yet; the VsphereAgent created is of that pool
    and for that AgentMachine, under one of its two deterministic names. *)
Theorem Reconcile_creates_vsphere_authorised (h : hist) (o : VsphereAgent)
    (k : result VsphereAgent → program (result Duration))
    (Hreach : reach keepsIdentity [] (Reconcile ns name) h (Call (Create KVsphereAgent o) k)) :
  ∃ am pool, vsphereCreateAuthorised ns name h o am pool.
Proof. exact (safe_reach _ _ _ _ _ _ _ Reconcile_authorised Hreach). Qed.

(** C16: an OpenStackAgent is created only for an AgentMachine without an Agent that
    waits and is not being deleted, matched by that OpenStack pool alone, claimed
    by it and pinned, with no worker yet; it names the pool's and the
    AgentMachine's UIDs and freezes the defaulted configuration of the pool. *)
Theorem Reconcile_creates_openstack_authorised (h : hist) (o : OpenStackAgent)
    (k : result OpenStackAgent → program (result Duration))
    (Hreach : reach keepsIdentity [] (Reconcile ns name) h (Call (Create KOpenStackAgent o) k)) :
  ∃ am pool, openStackCreateAuthorised ns name h o am pool.
Proof. exact (safe_reach _ _ _ _ _ _ _ Reconcile_authorised Hreach). Qed.

(** C17: claims are never stolen.  Whatever the server answers, a patch of an
    AgentMachine keeps its claim, or adds one to an unclaimed AgentMachine under
    the optimistic lock; the labels of the selector other than the pinned one are
    kept. *)
Theorem Reconcile_never_steals_claims (h : hist) (before after : Unstructured) (lock : bool)
    (k : result Unstructured → program (result Duration))
    (Hreach : reach anyAnswer [] (Reconcile ns name) h (Call (Patch KAgentMachine before after lock) k)) :
  (annotation after demandClaimAnnotation = annotation before demandClaimAnnotation ∨
   (annotation before demandClaimAnnotation = "" ∧ lock = true)) ∧
  ∀ labels, NestedStringMap (un_Object before) selectorPath = Ok labels →
    ∃ labels', NestedStringMap (un_Object after) selectorPath = Ok labels' ∧
      ∀ key, key ≠ agentMachineSelectionLabel → mapGet (default ∅ labels') key = mapGet (default ∅ labels) key.
Proof. exact (safe_reach _ _ _ _ _ _ _ (Reconcile_claims []) Hreach). Qed.
End reconcile_proofs.

(** The alternate name of a VsphereAgent is a valid object name when the names
    it is made of are: between 10 and 253 bytes, made of their characters, dashes
    and hexadecimal digits. *)
Theorem alternateVsphereAgentName_valid (pool : VsphereAgentPool) (am : Unstructured) (allowed : ascii → bool)
    (Hdash : allowed "-"%char = true) (Hhex : ∀ c, isHexChar c = true → allowed c = true)
    (Ham : forallString allowed (GetName am) = true)
    (Hpool : forallString allowed (om_Name (pl_Meta pool)) = true) :
  (10 ≤ String.length (alternateVsphereAgentName pool am) ≤ maxAgentNameLength)%nat ∧
  forallString allowed (alternateVsphereAgentName pool am) = true.
Proof.
  unfold alternateVsphereAgentName. set (sum := sha256Hex _).
  assert (String.length (takeString 10 sum) = 10%nat) as Hlen.
  { rewrite takeString_length. unfold sum. by rewrite sha256Hex_length. }
  assert (forallString allowed (takeString 10 sum) = true) as Hsum.
  { apply forallString_take. apply (forallString_impl isHexChar); [done|apply sha256Hex_hex]. }
  assert (forallString allowed (Trim (GetName am +:+ "-" +:+ om_Name (pl_Meta pool)) "-"%char) = true) as Hbase.
  { apply forallString_trimBoth. rewrite !forallString_app, Ham, Hpool. cbn [forallString]. by rewrite Hdash. }
  revert Hlen Hsum Hbase. generalize (takeString 10 sum) as suffix.
  generalize (Trim (GetName am +:+ "-" +:+ om_Name (pl_Meta pool)) "-"%char) as base0. clear sum.
  intros base0 suffix Hlen Hsum Hbase. cbv zeta. rewrite Hlen.
  set (base := if (_ <? _)%nat then _ else base0).
  assert (forallString allowed base = true ∧ (String.length base ≤ 242)%nat) as [Hb Hbl].
  { unfold base. destruct (_ <? _)%nat eqn:E; [split|split; [done|apply Nat.ltb_ge in E; exact E]].
    - by apply forallString_trimBoth, forallString_take.
    - etransitivity; [apply trimBoth_length|]. rewrite takeString_length. apply Nat.le_min_l. }
  destruct (base == ""); [rewrite Hlen; unfold maxAgentNameLength; split; [lia|done]|].
  rewrite !string_length_app, !forallString_app, Hlen, Hsum, Hb. cbn [forallString String.length]. rewrite Hdash.
  unfold maxAgentNameLength. split; [lia|done].
Qed.
