(* ===== verification/VsphereAgent.v ===== *)
(** * The VsphereAgent controller

    internal/controller/vsphereagent_controller.go: one VsphereAgent is
    reconciled into one vSphere VM.  The whole Reconcile is modelled: the
    recorded ISO ejection is finished first, deletion prepares and destroys the
    VM before the finalizer goes, an existing VM has its identity refreshed and
    its discovery ISO ejected after installation, a missing VM is created from
    the cached ISO.

    The reader [apiReader] is the API server, or the cached client when none is
    configured; the provider comes from a factory, any provider that meets the
    contract of VMProvider.v.  Events and metrics are those of Telemetry.v; logs are left out.  A Go
    function that mutates the object it is given returns the mutated object. *)
From S2P Require Import Prelude Api Identity Planner OwnedVMs VsphereObjects Sha256 Metrics Effects K8s Telemetry Objects.
From S2P Require Import VmCleanup VMProvider IsoCache InfraEnv.

Definition reasonInfraEnvUnavailable : string := "InfraEnvUnavailable".
Definition reasonVMAdopted : string := "VMAdopted".
Definition vsphereAgentPoolOwnerFieldIndex : string := ".spec.poolRef.name".
Definition conditionISOEjected : string := "ISOEjected".

Section controller.
Context `{KubeLib} `{NetURL} `{GovcJSON}.
Context (apiReader : reader) (ProviderFactory : VsphereAgentPool → Secret → result VMProvider).

(** ** Status and finalizer *)
Definition setVACondition (agent : VsphereAgent) (t status reason message : string) : VsphereAgent :=
  agent <| va_Status := (va_Status agent)
    <| vst_Conditions := SetStatusCondition (vst_Conditions (va_Status agent))
         (mkCondition t status (om_Generation (va_Meta agent)) 0 reason message) |> |>.

Definition setISOEjectionCondition (agent : VsphereAgent) (status reason message : string) : VsphereAgent :=
  setVACondition agent conditionISOEjected status reason message.

Definition setVM (agent : VsphereAgent) (vm : OwnedVMStatus) : VsphereAgent :=
  agent <| va_Status := (va_Status agent) <| vst_VM := vm |> |>.

Definition setISOEjection (agent : VsphereAgent) (op : option ISOEjectionStatus) : VsphereAgent :=
  agent <| va_Status := (va_Status agent) <| vst_ISOEjection := op |> |>.

Definition vaNamespace (agent : VsphereAgent) : string := om_Namespace (va_Meta agent).
Definition vaName (agent : VsphereAgent) : string := om_Name (va_Meta agent).

(** On success the object carries a deep copy of its status. *)
Definition updateStatus (agent : VsphereAgent) : program (VsphereAgent * result unit) :=
  let desired := (va_Status agent) <| vst_ObservedGeneration := om_Generation (va_Meta agent) |> in
  let! r := RetryOnConflict
    (let? current := call (Get Cached KVsphereAgent (vaNamespace agent) (vaName agent)) in
     if va_Status current == desired then Return (Ok tt)
     else
       let? _ := call (StatusUpdate KVsphereAgent (current <| va_Status := desired |>)) in
       Return (Ok tt)) in
  match r with
  | Err e => Return (agent, Err e)
  | Ok _ => Return (agent <| va_Status := desired |>, Ok tt)
  end.

(** Persist the status, then requeue after [d]. *)
Definition updateStatusThen (agent : VsphereAgent) (d : Duration) : program (result Duration) :=
  let! r := updateStatus agent in
  match r.2 with Err e => Return (Err e) | Ok _ => Return (Ok d) end.

Definition patchFinalizer (agent : VsphereAgent) : program (result unit) :=
  let? current := call (Get apiReader KVsphereAgent (vaNamespace agent) (vaName agent)) in
  let meta := va_Meta current in
  let meta := if ContainsFinalizer (va_Meta agent) vsphereAgentFinalizerName
              then (AddFinalizer meta vsphereAgentFinalizerName).2
              else RemoveFinalizer meta vsphereAgentFinalizerName in
  let? _ := call (Patch KVsphereAgent current (current <| va_Meta := meta |>) false) in
  Return (Ok tt).

Definition patchPoolISOStatus (pool : VsphereAgentPool) : program (result unit) :=
  RetryOnConflict
    (let? current := call (Get apiReader KVsphereAgentPool (om_Namespace (pl_Meta pool)) (om_Name (pl_Meta pool))) in
     if Before (is_CheckedAt (pt_ISO (pl_Status pool))) (is_CheckedAt (pt_ISO (pl_Status current)))
     then Return (Ok tt)
     else
       let before := pl_Status current in
       let status := before <| pt_ISO := pt_ISO (pl_Status pool) |> in
       let status := match FindStatusCondition (pt_Conditions (pl_Status pool)) conditionISOReady with
                     | Some condition =>
                         status <| pt_Conditions := SetStatusCondition (pt_Conditions status) condition |>
                     | None => status
                     end in
       if before == status then Return (Ok tt)
       else
         let? _ := call (StatusUpdate KVsphereAgentPool (current <| pl_Status := status |>)) in
         Return (Ok tt)).

(** ** Provider *)
Definition provider (pool : VsphereAgentPool) : program (result VMProvider) :=
  let ref := vp_CredentialsSecretRef (ps_VSphere (pl_Spec pool)) in
  let secretNamespace := if sr_Namespace ref == "" then om_Namespace (pl_Meta pool) else sr_Namespace ref in
  let? secret := call (Get apiReader KSecret secretNamespace (sr_Name ref)) in
  Return (ProviderFactory pool secret).

(** ** Identity of the VM *)
Definition ownershipMismatch {A} (detail : string) : result A :=
  Err (mkError ClassVMOwnershipMismatch ("vSphere VM ownership mismatch: " +:+ detail)).

(** The checks and updates of refreshVMIdentity once the VM was discovered. *)
Definition mergeDiscovered (vm discovered : OwnedVMStatus) (expectedOwnerUID : string) : result OwnedVMStatus :=
  if (expectedOwnerUID != "") && (vm_OwnerUID discovered != "") && (vm_OwnerUID discovered != expectedOwnerUID)
  then ownershipMismatch ("VM " +:+ fmt_q (vm_Name vm) +:+ " belongs to another VsphereAgent")
  else if (expectedOwnerUID != "") && (vm_OwnerUID vm != "") && (vm_OwnerUID discovered == "")
  then ownershipMismatch ("VM " +:+ fmt_q (vm_Name vm) +:+ " ownership annotation is missing")
  else if (vm_BIOSUUID vm != "") && (vm_BIOSUUID discovered != "") && (vm_BIOSUUID vm != vm_BIOSUUID discovered)
  then ownershipMismatch ("VM " +:+ fmt_q (vm_Name vm) +:+ " UUID changed")
  else Ok (vm <| vm_BIOSUUID := orElse (vm_BIOSUUID discovered) (vm_BIOSUUID vm) |>
              <| vm_MACAddress := orElse (vm_MACAddress discovered) (vm_MACAddress vm) |>
              <| vm_OwnerUID := orElse (vm_OwnerUID discovered) (vm_OwnerUID vm) |>).

Definition refreshVMIdentity (pool : VsphereAgentPool) (vm : OwnedVMStatus) (expectedOwnerUID : string)
    : program (result OwnedVMStatus) :=
  if vm_Name vm == "" then Return (Ok vm)
  else
    let? prov := provider pool in
    let? discovered := @VMStatus prov pool (vm_Name vm) in
    Return (mergeDiscovered vm discovered expectedOwnerUID).

(** ** ISO ejection *)

(** The identity of the host as ejectInstalledAgentISO reads it. *)
Definition hostIdentity (host : Unstructured) : AgentInfo :=
  mkAgentInfo "" false false "" false "" "" "" "" "" "" (normalizeMAC (agentPrimaryMAC host))
    (normalizeVMwareSerialUUID (agentSerialNumber host)).

(** The checks on the live Agent before media is touched. *)
Definition hostMayEject (vm : OwnedVMStatus) (ref : ObjectReference) (host : Unstructured) : bool :=
  negb ((annotation host agentCleanupAnnotation != "") || isDeleting (un_Meta host) ||
        (objectConditionStatus host "Installed" != ConditionTrue)) &&
  negb ((or_UID ref != "") && (or_UID ref != om_UID (un_Meta host))) &&
  vmMatchesAgentIdentity vm (hostIdentity host).

(** From the check of the AgentRef on. *)
Definition ejectFromHost (agent : VsphereAgent) (pool : VsphereAgentPool) : program (VsphereAgent * result unit) :=
  let vm := vst_VM (va_Status agent) in
  match vm_AgentRef vm with
  | None => Return (agent, Ok tt)
  | Some ref =>
      if or_Name ref == "" then Return (agent, Ok tt)
      else if (or_Namespace ref != "") && (or_Namespace ref != vaNamespace agent) then Return (agent, Ok tt)
      else
        let! host := call (Get apiReader KAgent (vaNamespace agent) (or_Name ref)) in
        match host with
        | Err e => Return (agent, IgnoreNotFound e)
        | Ok host =>
            if negb (hostMayEject vm ref host) then Return (agent, Ok tt)
            else
              let! prov := provider pool in
              match prov with
              | Err e => Return (agent, Err e)
              | Ok prov =>
                  let! op := @PrepareISOEjection prov pool vm in
                  match op with
                  | Err e => Return (agent, Err e)
                  | Ok None =>
                      Return (setISOEjectionCondition agent ConditionTrue "Ejected"
                                "No cached discovery media remains attached", Ok tt)
                  | Ok (Some op) =>
                      Return (setISOEjectionCondition (setISOEjection agent (Some op)) ConditionFalse
                                "EjectionInProgress"
                                "Discovery media ejection is recorded; disconnect will resume on reconciliation",
                              Ok tt)
                  end
              end
        end
  end.

Definition ejectInstalledAgentISO (agent : VsphereAgent) (pool : VsphereAgentPool)
    : program (VsphereAgent * result unit) :=
  let ejected := IsStatusConditionTrue (vst_Conditions (va_Status agent)) conditionISOEjected in
  if negb (ic_EjectAfterInstall (ps_ISO (pl_Spec pool))) then
    Return (if negb ejected
            then setISOEjectionCondition agent ConditionFalse "Disabled"
                   "Automatic discovery ISO ejection is disabled for this pool"
            else agent, Ok tt)
  else
    let agent := if negb ejected
                 then setISOEjectionCondition agent ConditionFalse "WaitingForInstallation"
                        "Waiting for a matching installed Agent outside deletion or reclaim"
                 else agent in
    let vm := vst_VM (va_Status agent) in
    if isDeleting (pl_Meta pool) || (vm_Phase vm == phaseReleased) then Return (agent, Ok tt)
    else
      match machineKey pool vm with
      | None => ejectFromHost agent pool
      | Some (ns, name) =>
          let! machine := call (Get apiReader KMachine ns name) in
          match machine with
          | Err e => Return (agent, IgnoreNotFound e)
          | Ok machine => if isDeleting (un_Meta machine) then Return (agent, Ok tt) else ejectFromHost agent pool
          end
      end.

(** The checkpoint handed to EjectISO closes over the VsphereAgent.  The
    operation record is shared with the VsphereAgent's status until updateStatus
    replaces the status by a deep copy: [aliased] says whether the status still
    points to the record the provider mutates. *)
Definition ejectState : Type := VsphereAgent * bool.

Definition ejectCheckpoint (s : ejectState) (op : ISOEjectionStatus) : program (ejectState * result unit) :=
  let '(agent, aliased) := s in
  let agent := if aliased then setISOEjection agent (Some op) else agent in
  let! r := updateStatus agent in
  match r.2 with
  | Err e => Return ((agent, aliased), Err e)
  | Ok _ => Return ((r.1, false), Ok tt)
  end.

Definition finishISOEjection (agent : VsphereAgent) (op : ISOEjectionStatus) (pool : VsphereAgentPool)
    : program (VsphereAgent * result unit) :=
  let! prov := provider pool in
  match prov with
  | Err e => Return (agent, Err e)
  | Ok prov =>
      let! r := @EjectISO prov ejectState pool op ejectCheckpoint (agent, true) in
      let '((agent, aliased), op, err) := r in
      let! _ := recordISOOperation "eject" err in
      match err with
      | Err e => Return (if aliased then setISOEjection agent (Some op) else agent, Err e)
      | Ok _ =>
          Return (setISOEjectionCondition (setISOEjection agent None) ConditionTrue "Ejected"
                    "Recorded discovery media was disconnected and ejected", Ok tt)
      end
  end.

(** ** Deletion *)
Definition vmManagedByAnother (agent : VsphereAgent) (vm : OwnedVMStatus) (items : list VsphereAgent) : bool :=
  existsb (λ other,
    if (vaName other == vaName agent) || isDeleting (va_Meta other) then false
    else if negb (vsphereAgentBelongsToPool other (lor_Name (vs_PoolRef (va_Spec agent)))) then false
    else (vm_Name (vst_VM (va_Status other)) == vm_Name vm) || (vsphereAgentVMName other == vm_Name vm) ||
         (sameVMIdentity (vst_VM (va_Status other)) vm && duplicateCanBeDeletedWithoutVMDelete agent other)) items.

Definition vmManagedByAnotherVsphereAgent (agent : VsphereAgent) (vm : OwnedVMStatus) : program (result bool) :=
  if (vm_Name vm == "") || (lor_Name (vs_PoolRef (va_Spec agent)) == "") then Return (Ok false)
  else
    let? items := call (ListObjs Cached KVsphereAgent (InNamespace (vaNamespace agent))) in
    Return (Ok (vmManagedByAnother agent vm items)).

(** The VM a deletion works on: the recorded one, or the one the VsphereAgent
    may have created without recording it. *)
Definition deletionVM (agent : VsphereAgent) : program OwnedVMStatus :=
  let vm := vst_VM (va_Status agent) in
  if vm_Name vm == "" then
    let! t := call Now in
    Return ((newOwnedVMStatus t (vsphereAgentVMName agent)) <| vm_OwnerUID := om_UID (va_Meta agent) |>)
  else Return vm.

(** The part of reconcileDelete guarded by the cleanup policy. *)
Definition deleteVMAndAgents (agent : VsphereAgent) (pool : VsphereAgentPool) (vm : OwnedVMStatus)
    : program (result unit) :=
  let? managedByAnotherAgent := vmManagedByAnotherVsphereAgent agent vm in
  if managedByAnotherAgent then Return (Ok tt)
  else
    let? _ := prepareVMDeletion apiReader pool vm in
    let? prov := provider pool in
    let! deleted := @DeleteVM prov pool vm in
    let! _ := recordVMOperation "delete" deleted in
    let? _ := Return deleted in
    deleteVMAgents apiReader pool vm.

Definition removeFinalizer (agent : VsphereAgent) : program (result Duration) :=
  let? _ := patchFinalizer (agent <| va_Meta := RemoveFinalizer (va_Meta agent) vsphereAgentFinalizerName |>) in
  Return (Ok 0).

Definition reconcileDelete (agent : VsphereAgent) (pool : VsphereAgentPool) : program (result Duration) :=
  let! vm := deletionVM agent in
  let? _ := if cleanupEnabled pool && (vm_Name vm != "") then deleteVMAndAgents agent pool vm
            else Return (Ok tt) in
  removeFinalizer agent.

(** ** Creation and observation *)
Definition isAdopted (agent : VsphereAgent) : bool :=
  vaLabel agent vsphereAgentCreatedForLabel == vsphereAgentCreatedForAdopted.

(** The status recorded when the VM of a VsphereAgent could not be observed. *)
Definition vmObservationFailed (agent : VsphereAgent) (e : error) : VsphereAgent :=
  match err_Class e with
  | ClassVMNotFound =>
      setVACondition (if negb (isAdopted agent)
                      then setVM agent (mkOwnedVMStatus "" "" "" "" "" None None "" "" 0) else agent)
        conditionReady ConditionFalse "VMNotFound" "vSphere VM no longer exists"
  | ClassVMOwnershipMismatch =>
      setVACondition agent conditionReady ConditionFalse "VMOwnershipMismatch"
        "vSphere VM ownership does not match this VsphereAgent"
  | _ => setVACondition agent conditionReady ConditionFalse "VMStatusFailed" (stableErrorMessage e)
  end.

Definition reconcileExistingVM (agent : VsphereAgent) (pool : VsphereAgentPool) : program (result Duration) :=
  let agent := match ownedVMStatusForVsphereAgent pool agent with Some vm => setVM agent vm | None => agent end in
  let expectedOwnerUID := if isAdopted agent then "" else om_UID (va_Meta agent) in
  let! refreshed := refreshVMIdentity pool (vst_VM (va_Status agent)) expectedOwnerUID in
  match refreshed with
  | Err e => updateStatusThen (vmObservationFailed agent e) (30 * second)
  | Ok vm =>
      let old := vst_VM (va_Status agent) in
      let agent := setVM agent (old <| vm_BIOSUUID := vm_BIOSUUID vm |> <| vm_MACAddress := vm_MACAddress vm |>
                                    <| vm_OwnerUID := orElse (vm_OwnerUID vm) (vm_OwnerUID old) |>) in
      let! ejected := ejectInstalledAgentISO agent pool in
      let '(agent, err) := ejected in
      match err with
      | Err e =>
          let! r := updateStatus (setVACondition agent conditionISOEjected ConditionFalse "EjectionFailed"
                                    (stableErrorMessage e)) in
          match r.2 with Err statusErr => Return (Err statusErr) | Ok _ => Return (Err e) end
      | Ok _ =>
          let agent :=
            if isAdopted agent
            then setVACondition agent conditionReady ConditionTrue reasonVMAdopted "vSphere VM has been adopted"
            else setVACondition agent conditionReady ConditionTrue "VMCreated" "vSphere VM has been created" in
          updateStatusThen agent
            (match vst_ISOEjection (va_Status agent) with Some _ => second | None => minute end)
      end
  end.

Definition notReady (agent : VsphereAgent) (reason message : string) (d : Duration) : program (result Duration) :=
  updateStatusThen (setVACondition agent conditionReady ConditionFalse reason message) d.

Definition adoptVM (agent : VsphereAgent) (pool : VsphereAgentPool) (vmName : string) : program (result Duration) :=
  let! t := call Now in
  let agent := setVM agent ((newOwnedVMStatus t vmName) <| vm_Reason := reasonVMAdopted |>) in
  let! refreshed := refreshVMIdentity pool (vst_VM (va_Status agent)) "" in
  match refreshed with
  | Err e => notReady agent "AdoptedVMUnavailable" (stableErrorMessage e) (30 * second)
  | Ok vm =>
      let agent := setVM agent ((vst_VM (va_Status agent))
                     <| vm_BIOSUUID := vm_BIOSUUID vm |> <| vm_MACAddress := vm_MACAddress vm |>
                     <| vm_OwnerUID := vm_OwnerUID vm |>) in
      updateStatusThen (setVACondition agent conditionReady ConditionTrue reasonVMAdopted
                          "vSphere VM has been adopted") minute
  end.

Definition createVM (agent : VsphereAgent) (pool : VsphereAgentPool) (vmName : string) : program (result Duration) :=
  let! avail := infraEnvAvailable Cached pool in
  let '(available, infraEnvISOURL, infraEnvMessage) := avail in
  if negb available then notReady agent reasonInfraEnvUnavailable infraEnvMessage (30 * second)
  else
    let! prov := provider pool in
    match prov with
    | Err e => notReady agent "ProviderUnavailable" (stableErrorMessage e) (30 * second)
    | Ok prov =>
        let! cached := @ensureISOCache _ _ prov pool infraEnvISOURL in
        let '(pool, isoPath) := cached in
        match isoPath with
        | Err e => notReady agent "ISORefreshFailed" (stableErrorMessage e) (30 * second)
        | Ok isoPath =>
            let? _ := patchPoolISOStatus pool in
            let! vm := @CreateVM prov pool (mkVMCreateRequest vmName isoPath (om_UID (va_Meta agent))) in
            let! _ := recordVMOperation "create" vm in
            match vm with
            | Err e => notReady agent "VMCreateFailed" (stableErrorMessage e) (30 * second)
            | Ok vm =>
                updateStatusThen (setVACondition (setVM agent vm) conditionReady ConditionTrue "VMCreated"
                                    "vSphere VM has been created") minute
            end
        end
    end.

(** ** Reconcile *)
Definition reconcilePoolMissing (agent : VsphereAgent) : program (result Duration) :=
  if isDeleting (va_Meta agent) then
    let! _ := if vm_Name (vst_VM (va_Status agent)) != ""
              then recordEvent KVsphereAgent agent EventTypeWarning "PoolNotFound"
                     "referenced VsphereAgentPool is gone; retaining VM and removing finalizer"
              else Return tt in
    removeFinalizer agent
  else notReady agent "PoolNotFound" "referenced VsphereAgentPool does not exist" minute.

Definition reconcileEjection (agent : VsphereAgent) (op : ISOEjectionStatus) (pool : VsphereAgentPool)
    : program (result Duration) :=
  let! finished := finishISOEjection agent op pool in
  let '(agent, err) := finished in
  let agent := match err with
               | Err e => setISOEjectionCondition agent ConditionFalse "EjectionFailed" (stableErrorMessage e)
               | Ok _ => agent
               end in
  let! r := updateStatus agent in
  match r.2 with
  | Err statusErr => Return (Err statusErr)
  | Ok _ => match err with Err e => Return (Err e) | Ok _ => Return (Ok second) end
  end.

(** From the finalizer on, for a VsphereAgent that is not being deleted. *)
Definition reconcileLive (agent : VsphereAgent) (pool : VsphereAgentPool) : program (result Duration) :=
  let '(added, meta) := AddFinalizer (va_Meta agent) vsphereAgentFinalizerName in
  if added then
    let? _ := patchFinalizer (agent <| va_Meta := meta |>) in Return (Ok 0)
  else if vm_Name (vst_VM (va_Status agent)) != "" then reconcileExistingVM agent pool
  else if isAdopted agent then adoptVM agent pool (vsphereAgentVMName agent)
  else createVM agent pool (vsphereAgentVMName agent).

Definition Reconcile (ns name : string) : program (result Duration) :=
  let! agent := call (Get apiReader KVsphereAgent ns name) in
  match agent with
  | Err e => if IsNotFound e then Return (Ok 0) else Return (Err e)
  | Ok agent =>
      let! pool := call (Get apiReader KVsphereAgentPool (vaNamespace agent) (lor_Name (vs_PoolRef (va_Spec agent)))) in
      match pool with
      | Err e => if IsNotFound e then reconcilePoolMissing agent else Return (Err e)
      | Ok pool =>
          let pool := applySpecDefaults pool in
          match vst_ISOEjection (va_Status agent) with
          | Some op => reconcileEjection agent op pool
          | None => if negb (isDeleting (va_Meta agent)) then reconcileLive agent pool
                    else reconcileDelete agent pool
          end
      end
  end.

(** The VsphereAgents a change of a pool is mapped to. *)
Definition requestsForPool (pool : VsphereAgentPool) : program (list (string * string)) :=
  let! agents := call (ListObjs Cached KVsphereAgent
                         (mkListOptions (Some (om_Namespace (pl_Meta pool)))
                            [(vsphereAgentPoolOwnerFieldIndex, om_Name (pl_Meta pool))])) in
  match agents with
  | Err _ => Return []
  | Ok agents => Return (map (λ agent, (vaNamespace agent, vaName agent)) agents)
  end.

End controller.

(** ** Proofs *)

(** Calls that destroy no VM and take the finalizer from no VsphereAgent. *)
Definition noDestroy `{KubeLib} : precondition callE := λ X _ e,
  match e with
  | Govc args | GovcStart args => isDestroy args = false
  | Patch KVsphereAgent _ after _ => ContainsFinalizer (va_Meta after) vsphereAgentFinalizerName = true
  | _ => True
  end.

Lemma providerCall_noDestroy `{KubeLib} X h (e : callE X) : providerCall destroysNothing X h e → noDestroy X h e.
Proof. destruct e; simpl; try done. destruct (isDestroy args); [|done]. intros Hd. by destruct (Hd eq_refl). Qed.

(** Provider operations as hints. *)
Section provider_ops.
Context `{KubeLib} `{NetURL} `{GovcJSON} `{VMProvider} `{!VMProviderLaws}.

Lemma EnsureISO_noDestroy pool url : always noDestroy (EnsureISO pool url).
Proof. intros h. eapply safe_ok_mono; [apply EnsureISO_calls|apply providerCall_noDestroy]. Qed.
Lemma VMStatus_noDestroy pool name : always noDestroy (VMStatus pool name).
Proof. intros h. eapply safe_ok_mono; [apply VMStatus_calls|apply providerCall_noDestroy]. Qed.
Lemma PrepareISOEjection_noDestroy pool vm : always noDestroy (PrepareISOEjection pool vm).
Proof. intros h. eapply safe_ok_mono; [apply PrepareISOEjection_calls|apply providerCall_noDestroy]. Qed.
Lemma DeleteISO_noDestroy pool path : always noDestroy (DeleteISO pool path).
Proof.
  intros h. eapply safe_mono; [|done].
  eapply safe_ok_mono; [apply DeleteISO_calls|apply providerCall_noDestroy].
Qed.
Lemma EjectISO_noDestroy S pool op (checkpoint : S → ISOEjectionStatus → program (S * result unit)) s :
  (∀ s op, always noDestroy (checkpoint s op)) → always noDestroy (EjectISO pool op checkpoint s).
Proof.
  intros Hc h. apply EjectISO_calls; [apply providerCall_noDestroy|]. intros h' s' op'. apply Hc.
Qed.
Hint Resolve EnsureISO_noDestroy DeleteISO_noDestroy : always.

Lemma ensureISOCache_noDestroy pool url : always noDestroy (ensureISOCache pool url).
Proof.
  unfold ensureISOCache.
  assert (∀ pool prev stale hs, always noDestroy (pruneLoop pool prev stale hs)) as Hp.
  { intros p prev stale. induction stale as [|st stale IH]; intros hs; cbn [pruneLoop]; solve_always. }
  solve_always.
Qed.
End provider_ops.
#[export] Hint Resolve EnsureISO_noDestroy VMStatus_noDestroy PrepareISOEjection_noDestroy
  DeleteISO_noDestroy EjectISO_noDestroy ensureISOCache_noDestroy : always.

Section controller_proofs.
Context `{KubeLib} `{!KubeLaws} `{NetURL} `{GovcJSON}.
Context (apiReader : reader) (ProviderFactory : VsphereAgentPool → Secret → result VMProvider).
Context (Hfactory : ∀ pool secret prov, ProviderFactory pool secret = Ok prov → @VMProviderLaws _ prov).

Lemma provider_safe (ok : precondition callE) h pool (Q : hist → result VMProvider → Prop) :
  (∀ h ns name, ok _ h (Get apiReader KSecret ns name)) →
  (∀ h' e, (∃ ev, h' = ev :: h) → Q h' (Err e)) →
  (∀ h' prov, (∃ ev, h' = ev :: h) → @VMProviderLaws _ prov → Q h' (Ok prov)) →
  safe anyAnswer ok h (provider apiReader ProviderFactory pool) Q.
Proof.
  intros Hok HE HQ. unfold provider. apply safe_bindOk. split; [apply Hok|]. intros [secret|e] _; simpl.
  - destruct (ProviderFactory pool secret) as [prov|e] eqn:Ef; [apply HQ; eauto|apply HE; eauto].
  - apply HE; eauto.
Qed.

Lemma always_bind_provider {B} pool (f : result VMProvider → program B) :
  (∀ e, always noDestroy (f (Err e))) →
  (∀ prov, @VMProviderLaws _ prov → always noDestroy (f (Ok prov))) →
  always noDestroy (bind (provider apiReader ProviderFactory pool) f).
Proof.
  intros HE HQ h. apply safe_bind. apply provider_safe; [done| |].
  - intros h' e _. apply HE.
  - intros h' prov _ Hl. by apply HQ.
Qed.

Ltac va_step :=
  lazymatch goal with
  | |- always _ (bindOk (provider _ _ _) _) => apply always_bind_provider; intros; cbv beta iota
  | |- always _ (bind (provider _ _ _) _) => apply always_bind_provider; intros; cbv beta iota
  | |- _ => always_step
  end.
Ltac solve_va := repeat va_step.

Lemma updateStatus_noDestroy agent : always noDestroy (updateStatus agent).
Proof. unfold updateStatus. apply always_bind; [apply always_retry|intros ?]; solve_va. Qed.
Hint Resolve updateStatus_noDestroy : always.

Lemma updateStatusThen_noDestroy agent d : always noDestroy (updateStatusThen agent d).
Proof. unfold updateStatusThen. solve_va. Qed.
Hint Resolve updateStatusThen_noDestroy : always.

Lemma notReady_noDestroy agent reason message d : always noDestroy (notReady agent reason message d).
Proof. unfold notReady. auto with always. Qed.
Hint Resolve notReady_noDestroy : always.

(** A patch for a VsphereAgent with the finalizer adds it. *)
Lemma patchFinalizer_noDestroy agent :
  ContainsFinalizer (va_Meta agent) vsphereAgentFinalizerName = true → always noDestroy (patchFinalizer apiReader agent).
Proof.
  intros Hf. unfold patchFinalizer. rewrite Hf. solve_va. simpl. rewrite AddFinalizer_spec.
  destruct (ContainsFinalizer (va_Meta a) vsphereAgentFinalizerName) eqn:Hc; [done|]. simpl. rewrite ContainsFinalizer_spec.
  apply bool_decide_eq_true_2. simpl. set_solver.
Qed.
Hint Resolve patchFinalizer_noDestroy : always.

Lemma patchPoolISOStatus_noDestroy pool : always noDestroy (patchPoolISOStatus apiReader pool).
Proof. unfold patchPoolISOStatus. apply always_retry. solve_va. Qed.
Hint Resolve patchPoolISOStatus_noDestroy : always.

Lemma refreshVMIdentity_noDestroy pool vm uid :
  always noDestroy (refreshVMIdentity apiReader ProviderFactory pool vm uid).
Proof. unfold refreshVMIdentity. solve_va. Qed.
Hint Resolve refreshVMIdentity_noDestroy : always.

Lemma ejectFromHost_noDestroy agent pool :
  always noDestroy (ejectFromHost apiReader ProviderFactory agent pool).
Proof. unfold ejectFromHost. solve_va. Qed.
Hint Resolve ejectFromHost_noDestroy : always.

Lemma ejectInstalled_noDestroy agent pool :
  always noDestroy (ejectInstalledAgentISO apiReader ProviderFactory agent pool).
Proof. unfold ejectInstalledAgentISO. solve_va. Qed.
Hint Resolve ejectInstalled_noDestroy : always.

Lemma ejectCheckpoint_noDestroy s op : always noDestroy (ejectCheckpoint s op).
Proof. unfold ejectCheckpoint. destruct s. solve_va. Qed.
Hint Resolve ejectCheckpoint_noDestroy : always.

Lemma reconcileEjection_noDestroy agent op pool :
  always noDestroy (reconcileEjection apiReader ProviderFactory agent op pool).
Proof.
  unfold reconcileEjection, finishISOEjection. apply always_bind; [|intros [agent' err]; solve_va].
  solve_va.
Qed.

Lemma reconcileExistingVM_noDestroy agent pool :
  always noDestroy (reconcileExistingVM apiReader ProviderFactory agent pool).
Proof. unfold reconcileExistingVM. solve_va. Qed.

Lemma adoptVM_noDestroy agent pool name :
  always noDestroy (adoptVM apiReader ProviderFactory agent pool name).
Proof. unfold adoptVM. solve_va. Qed.

(** ** Deletion *)

(** When a deletion may give up the finalizer: the policy keeps the VM, there is none,
    another VsphereAgent of the pool manages it, or it was prepared and is gone and
    after that the Agents on it were deleted. *)
Definition deletionEvidence (agent : VsphereAgent) (pool : VsphereAgentPool) (vm : OwnedVMStatus) (h : hist) : Prop :=
  cleanupEnabled pool = false ∨ vm_Name vm = "" ∨
  (∃ items, In (Event (ListObjs Cached KVsphereAgent (InNamespace (vaNamespace agent))) (Ok items)) h ∧
     vmManagedByAnother agent vm items = true) ∨
  (prepared apiReader pool vm h ∧ ∃ older, vmGone pool vm older ∧ agentsDeletedAfter apiReader pool vm older h).

(** The VM a deletion works on: the recorded one, or the one of the
    VsphereAgent's name that carries its UID. *)
Definition isDeletionVM (agent : VsphereAgent) (vm : OwnedVMStatus) : Prop :=
  (vm = vst_VM (va_Status agent) ∧ vm_Name vm ≠ "") ∨
  (vm_Name (vst_VM (va_Status agent)) = "" ∧ vm_Name vm = vsphereAgentVMName agent ∧
   vm_OwnerUID vm = om_UID (va_Meta agent) ∧ vm_BIOSUUID vm = "" ∧ vm_MachineRef vm = None ∧ vm_AgentRef vm = None).

(** The precondition of the calls of reconcileDelete. *)
Definition deleteCall (agent : VsphereAgent) (pool : VsphereAgentPool) : precondition callE := λ X h e,
  match e with
  | Govc args => isDestroy args = true →
      ∃ vm, isDeletionVM agent vm ∧ cleanupEnabled pool = true ∧ prepared apiReader pool vm h ∧
        deletionTarget pool vm h args
  | GovcStart args => isDestroy args = false
  | Patch KVsphereAgent before after lock => ∃ vm, isDeletionVM agent vm ∧ deletionEvidence agent pool vm h
  | Metric op => op = countedAs vmOperationsTotal "delete" (metricResult false) →
      ∃ vm, isDeletionVM agent vm ∧ vmGone pool vm h
  | _ => True
  end.

Lemma prepared_app pool vm h new : prepared apiReader pool vm h → prepared apiReader pool vm (new ++ h).
Proof. intros Hp. induction new as [|ev new IH]; simpl; [done|]. by apply prepared_mono. Qed.

Lemma ownershipVerified_app pool vm args h new : ownershipVerified pool vm args h → ownershipVerified pool vm args (new ++ h).
Proof.
  unfold ownershipVerified. destruct (deletionSelector pool vm). intros (out & d & rest & Hin & ?).
  exists out, d, rest. split; [apply in_app_iff; by right|done].
Qed.

Lemma deletionTarget_app pool vm h new args : deletionTarget pool vm h args → deletionTarget pool vm (new ++ h) args.
Proof. unfold deletionTarget. destruct (_ == ""); [done|apply ownershipVerified_app]. Qed.

Lemma vmGone_app pool vm h new : vmGone pool vm h → vmGone pool vm (new ++ h).
Proof.
  intros [(args & Hd & Ht & Hs)|[Ho Hg]].
  - left. exists args. split; [done|]. split; [by apply deletionTarget_app|by apply govcSucceeded_app].
  - right. split; [done|]. destruct (deletionSelector pool vm). destruct Hg as [(e & Hin & ?)|(out & Hin & ?)];
      [left; exists e|right; exists out]; (split; [apply in_app_iff; by right|done]).
Qed.

Lemma deletionEvidence_app agent pool vm h new :
  deletionEvidence agent pool vm h → deletionEvidence agent pool vm (new ++ h).
Proof.
  intros [?|[?|[(items & Hin & ?)|[? (older & ? & ?)]]]]; [by left|by right; left| |].
  - right; right; left. exists items. split; [apply in_app_iff; by right|done].
  - right; right; right. split; [by apply prepared_app|]. exists older.
    split; [done|by apply agentsDeletedAfter_app].
Qed.

Lemma prepareCall_deleteCall agent pool X h (e : callE X) : prepareCall X h e → deleteCall agent pool X h e.
Proof. destruct e; simpl; try done. by destruct k. Qed.

Lemma providerCall_deleteCall agent pool vm X h (e : callE X) :
  isDeletionVM agent vm → cleanupEnabled pool = true → prepared apiReader pool vm h →
  providerCall (deletionTarget pool vm) X h e → deleteCall agent pool X h e.
Proof. destruct e; simpl; try done. intros Hvm Hc Hp Ht Hd. exists vm. split_and!; auto. Qed.

Lemma deleteVMAndAgents_safe agent pool vm h :
  isDeletionVM agent vm → cleanupEnabled pool = true →
  safe anyAnswer (deleteCall agent pool) h (deleteVMAndAgents apiReader ProviderFactory agent pool vm)
    (λ h' r, match r with Ok _ => deletionEvidence agent pool vm h' | Err _ => True end).
Proof.
  intros Hvm Hc. unfold deleteVMAndAgents. apply safe_bindOk.
  assert (∀ h1, safe anyAnswer (deleteCall agent pool) h1
    (let? _ := prepareVMDeletion apiReader pool vm in
     let? prov := provider apiReader ProviderFactory pool in
     let! deleted := @DeleteVM prov pool vm in
     let! _ := recordVMOperation "delete" deleted in
     let? _ := Return deleted in
     deleteVMAgents apiReader pool vm)
    (λ h' r, match r with Ok _ => deletionEvidence agent pool vm h' | Err _ => True end)) as Hmain.
  { intros h1. apply safe_bindOk. apply prepareVMDeletion_safe; [apply prepareCall_deleteCall| |done].
    intros h2 _ Hp. apply safe_bindOk. apply provider_safe; [done|done|].
    intros h3 prov [ev ->] Hl. apply safe_bind.
    apply (prepared_app pool vm h2 [ev]) in Hp.
    eapply safe_mono; [apply safe_extends; eapply safe_ok_mono_ext; [apply DeleteVM_calls|]|].
    - intros X new e. apply (providerCall_deleteCall agent pool vm); [done|done|]. by apply prepared_app.
    - intros h4 [[]|e] [Hgone [new ->]]; (split; [|intros [] _]); [by exists vm| |done|done].
      eapply safe_mono; [apply safe_extends, deleteVMAgents_post; intros X h' e; by destruct e|].
      intros h5 [[]|e] [Hdel [new' ->]]; [|done]. right; right; right.
      split; [by apply prepared_app, (prepared_app _ _ _ (_ :: _))|]. eexists. split; [|exact Hdel].
      by apply (vmGone_app _ _ _ [_]). }
  unfold vmManagedByAnotherVsphereAgent. destruct (_ || _); [apply Hmain|].
  apply safe_bindOk. split; [done|]. intros [items|e] _; simpl; [|done].
  destruct (vmManagedByAnother agent vm items) eqn:Em; [|apply Hmain].
  right; right; left. exists items. split; [by left|done].
Qed.

Lemma removeFinalizer_safe agent pool vm h :
  isDeletionVM agent vm → deletionEvidence agent pool vm h →
  safe anyAnswer (deleteCall agent pool) h (removeFinalizer apiReader agent) (λ _ _, True).
Proof.
  intros Hvm He. unfold removeFinalizer, patchFinalizer.
  apply safe_bindOk, safe_bindOk. split; [done|]. intros [current|e] _; simpl; [|done].
  split; [|intros [o|e] _; done]. exists vm. split; [done|]. by apply (deletionEvidence_app _ _ _ _ [_]).
Qed.

Lemma reconcileDelete_safe agent pool h :
  safe anyAnswer (deleteCall agent pool) h (reconcileDelete apiReader ProviderFactory agent pool) (λ _ _, True).
Proof.
  assert (∀ vm h1, isDeletionVM agent vm → safe anyAnswer (deleteCall agent pool) h1
    (let? _ := (if cleanupEnabled pool && (vm_Name vm != "")
       then deleteVMAndAgents apiReader ProviderFactory agent pool vm else Return (Ok tt)) in
     removeFinalizer apiReader agent) (λ _ _, True)) as Hrest.
  { intros vm h1 Hvm. apply safe_bindOk. destruct (cleanupEnabled pool) eqn:Hc; simpl.
    - destruct (vm_Name vm == "") eqn:En; gobool; simpl.
      + apply (removeFinalizer_safe agent pool vm); [done|]. right. by left.
      + eapply safe_mono; [by apply deleteVMAndAgents_safe|].
        intros h2 [[]|e] He; [|done]. by apply (removeFinalizer_safe agent pool vm).
    - apply (removeFinalizer_safe agent pool vm); [done|]. by left. }
  unfold reconcileDelete, deletionVM. apply safe_bind.
  destruct (vm_Name (vst_VM (va_Status agent)) == "") eqn:En; gobool.
  - apply safe_bind. split; [done|]. intros t _. eapply Hrest. right. by split_and!.
  - eapply Hrest. by left.
Qed.

(** ** The whole reconciliation *)

(** Deleting a VsphereAgent destroys its VM only under the cleanup policy and
    only after the API server answered that the VM's Machine is gone and accepted,
    for every Agent that may run on the VM, the locked patch that unapproves it,
    the Agent being unbound in the version patched. *)
Theorem reconcileDelete_destroys_prepared (agent : VsphereAgent) (pool : VsphereAgentPool) (h : hist)
    (args : list string) (k : result string → program (result Duration))
    (Hreach : reach anyAnswer [] (reconcileDelete apiReader ProviderFactory agent pool) h (Call (Govc args) k))
    (Hdestroy : isDestroy args = true) :
  ∃ vm, isDeletionVM agent vm ∧ cleanupEnabled pool = true ∧ prepared apiReader pool vm h ∧ deletionTarget pool vm h args.
Proof.
  apply (safe_reach _ _ _ _ _ _ _ (reconcileDelete_safe agent pool [])) in Hreach. by apply Hreach.
Qed.

(** The creation destroys only the VM that it created itself. *)
Definition createCall (agent : VsphereAgent) (pool : VsphereAgentPool) : precondition callE := λ X h e,
  match e with
  | Govc args => isDestroy args = true →
      ∃ isoPath, creationTarget pool (mkVMCreateRequest (vsphereAgentVMName agent) isoPath (om_UID (va_Meta agent))) h args
  | e => noDestroy _ h e
  end.

Lemma noDestroy_createCall agent pool X h (e : callE X) : noDestroy X h e → createCall agent pool X h e.
Proof. destruct e; simpl; try done. intros -> [=]. Qed.

Lemma creationTarget_spec pool pool' req h args :
  pl_Spec pool' = pl_Spec pool → creationTarget pool' req h args → creationTarget pool req h args.
Proof.
  intros Hs. unfold creationTarget, ownershipVerified, deletionSelector, destroyArgs, infoArgs, vmInventoryPath, vmFolder, datacenter.
  by rewrite Hs.
Qed.

Lemma always_createCall {A} agent pool h (p : program A) :
  always noDestroy p → safe anyAnswer (createCall agent pool) h p (λ _ _, True).
Proof. intros Hp. eapply safe_ok_mono; [apply Hp|]. intros. by apply noDestroy_createCall. Qed.

Lemma createVM_safe agent pool h :
  safe anyAnswer (createCall agent pool) h (createVM apiReader ProviderFactory agent pool (vsphereAgentVMName agent)) (λ _ _, True).
Proof.
  unfold createVM. apply safe_bind.
  eapply safe_mono; [apply always_createCall; unfold infraEnvAvailable, discoveryISOAvailable; solve_va|].
  intros h1 [[available url] msg] _. destruct (negb available); [apply always_createCall; solve_va|].
  apply safe_bind, provider_safe; [done| |].
  { intros h2 e _. apply always_createCall. solve_va. }
  intros h2 prov _ Hl. apply safe_bind. eapply safe_mono.
  { eapply safe_ok_mono_post; [apply always_createCall, ensureISOCache_noDestroy|apply ensureISOCache_spec]. }
  intros h3 [pool' [isoPath|e]] Hs; [|apply always_createCall; solve_va]. simpl in Hs. apply safe_bindOk.
  eapply safe_mono; [apply always_createCall, patchPoolISOStatus_noDestroy|]. intros h4 [[]|e] _; [|done].
  apply safe_bind. eapply safe_mono; [eapply safe_ok_mono; [apply CreateVM_calls|]|].
  - intros X h' e. destruct e; simpl; try done. intros Hd Hdest. exists isoPath. by apply (creationTarget_spec pool pool'), Hd.
  - intros h5 vm _. apply safe_bind. split; [done|]. intros [] _. apply always_createCall. destruct vm; solve_va.
Qed.

(** The situations in which a reconciliation destroys a VM: the prepared deletion
    of a VsphereAgent, or the cleanup of a VM this reconciliation created
    for a VsphereAgent that holds the finalizer and has no recorded VM. *)
Definition destroysSafely (ns name : string) (h : hist) (args : list string) : Prop :=
  ∃ agent pool0, let pool := applySpecDefaults pool0 in
    In (Event (Get apiReader KVsphereAgent ns name) (Ok agent)) h ∧
    In (Event (Get apiReader KVsphereAgentPool (vaNamespace agent) (lor_Name (vs_PoolRef (va_Spec agent)))) (Ok pool0)) h ∧
    vst_ISOEjection (va_Status agent) = None ∧
    ((isDeleting (va_Meta agent) = true ∧ cleanupEnabled pool = true ∧
      ∃ vm, isDeletionVM agent vm ∧ prepared apiReader pool vm h ∧ deletionTarget pool vm h args) ∨
     (isDeleting (va_Meta agent) = false ∧ ContainsFinalizer (va_Meta agent) vsphereAgentFinalizerName = true ∧
      vm_Name (vst_VM (va_Status agent)) = "" ∧ isAdopted agent = false ∧
      ∃ isoPath, creationTarget pool (mkVMCreateRequest (vsphereAgentVMName agent) isoPath (om_UID (va_Meta agent))) h args)).

(** When a VsphereAgent loses the finalizer: it is being deleted, and its pool is gone or
    the deletion has the evidence it needs. *)
Definition releasesSafely (ns name : string) (h : hist) : Prop :=
  ∃ agent, In (Event (Get apiReader KVsphereAgent ns name) (Ok agent)) h ∧ isDeleting (va_Meta agent) = true ∧
    let poolKey := Get apiReader KVsphereAgentPool (vaNamespace agent) (lor_Name (vs_PoolRef (va_Spec agent))) in
    ((∃ e, In (Event poolKey (Err e)) h ∧ IsNotFound e = true) ∨
     (∃ pool vm, In (Event poolKey (Ok pool)) h ∧ vst_ISOEjection (va_Status agent) = None ∧
        isDeletionVM agent vm ∧ deletionEvidence agent (applySpecDefaults pool) vm h)).

Definition reconcileCall (ns name : string) : precondition callE := λ X h e,
  match e with
  | Govc args => isDestroy args = true → destroysSafely ns name h args
  | GovcStart args => isDestroy args = false
  | Patch KVsphereAgent _ after _ =>
      ContainsFinalizer (va_Meta after) vsphereAgentFinalizerName = false → releasesSafely ns name h
  | _ => True
  end.

Lemma noDestroy_reconcileCall ns name X h (e : callE X) : noDestroy X h e → reconcileCall ns name X h e.
Proof. destruct e; simpl; try done; [destruct k; try done; intros -> [=]|intros -> [=]]. Qed.

Lemma always_reconcile {A} ns name h (p : program A) :
  always noDestroy p → safe anyAnswer (reconcileCall ns name) h p (λ _ _, True).
Proof. intros Hp. eapply safe_ok_mono; [apply Hp|]. intros. by apply noDestroy_reconcileCall. Qed.

Lemma reconcileLive_safe ns name h agent pool :
  In (Event (Get apiReader KVsphereAgent ns name) (Ok agent)) h →
  In (Event (Get apiReader KVsphereAgentPool (vaNamespace agent) (lor_Name (vs_PoolRef (va_Spec agent)))) (Ok pool)) h →
  vst_ISOEjection (va_Status agent) = None → isDeleting (va_Meta agent) = false →
  safe anyAnswer (reconcileCall ns name) h
    (reconcileLive apiReader ProviderFactory agent (applySpecDefaults pool)) (λ _ _, True).
Proof.
  intros Ha Hp Hej Hdel. unfold reconcileLive. rewrite AddFinalizer_spec.
  destruct (ContainsFinalizer (va_Meta agent) vsphereAgentFinalizerName) eqn:Hf.
  - destruct (vm_Name (vst_VM (va_Status agent)) != "") eqn:En; gobool.
    { apply always_reconcile, reconcileExistingVM_noDestroy. }
    destruct (isAdopted agent) eqn:Had; [apply always_reconcile, adoptVM_noDestroy|].
    eapply safe_ok_mono_ext; [apply createVM_safe|]. intros X new e.
    destruct e; simpl; try done; [destruct k; try done; intros -> [=]|].
    intros Ht Hd. exists agent, pool. cbv zeta. rewrite !in_app_iff. split_and!; auto. right. split_and!; auto.
  - apply always_reconcile. apply always_bindOk; [apply patchFinalizer_noDestroy|intros ?; solve_va].
    rewrite ContainsFinalizer_spec. apply bool_decide_eq_true_2. simpl. set_solver.
Qed.

Lemma reconcilePoolMissing_safe ns name h agent e :
  In (Event (Get apiReader KVsphereAgent ns name) (Ok agent)) h →
  In (Event (Get apiReader KVsphereAgentPool (vaNamespace agent) (lor_Name (vs_PoolRef (va_Spec agent)))) (Err e)) h →
  IsNotFound e = true →
  safe anyAnswer (reconcileCall ns name) h (reconcilePoolMissing apiReader agent) (λ _ _, True).
Proof.
  intros Ha Hp He. unfold reconcilePoolMissing. destruct (isDeleting (va_Meta agent)) eqn:Hd; [|apply always_reconcile; solve_va].
  eapply (safe_ok_mono_ext _ (λ X _ e, match e with Govc _ | GovcStart _ => False | _ => True end)).
  - assert (∀ A (p : program A), always (λ X _ e, match e with Govc _ | GovcStart _ => False | _ => True end) p →
      safe anyAnswer (λ X _ e, match e with Govc _ | GovcStart _ => False | _ => True end) h p (λ _ _, True)) as Hw by auto.
    apply Hw. unfold removeFinalizer, patchFinalizer. solve_always.
  - intros X new e'. destruct e'; simpl; try done. destruct k; try done. intros _ _. exists agent.
    rewrite in_app_iff. split_and!; [by right|done|]. left. exists e. rewrite in_app_iff. by split; [right|].
Qed.

Lemma reconcileDelete_reconcile ns name h agent pool :
  In (Event (Get apiReader KVsphereAgent ns name) (Ok agent)) h →
  In (Event (Get apiReader KVsphereAgentPool (vaNamespace agent) (lor_Name (vs_PoolRef (va_Spec agent)))) (Ok pool)) h →
  vst_ISOEjection (va_Status agent) = None → isDeleting (va_Meta agent) = true →
  safe anyAnswer (reconcileCall ns name) h
    (reconcileDelete apiReader ProviderFactory agent (applySpecDefaults pool)) (λ _ _, True).
Proof.
  intros Ha Hp Hej Hdel. eapply safe_ok_mono_ext; [apply reconcileDelete_safe|]. intros X new e. destruct e; simpl; try done.
  - destruct k; try done. intros (vm & Hvm & He) _. exists agent. rewrite in_app_iff. split_and!; [by right|done|].
    right. exists pool, vm. rewrite in_app_iff. split_and!; [by right|done|done|done].
  - intros Hd Hdest. destruct (Hd Hdest) as (vm & ? & ? & ? & ?). exists agent, pool.
    cbv zeta. rewrite !in_app_iff. split_and!; [by right|by right|done|]. left. eauto 7.
Qed.

Lemma Reconcile_safe ns name :
  safe anyAnswer (reconcileCall ns name) [] (Reconcile apiReader ProviderFactory ns name) (λ _ _, True).
Proof.
  unfold Reconcile. apply safe_bind. split; [done|]. intros [agent|e] _; simpl; [|by destruct (IsNotFound e)].
  split; [done|]. intros [pool|e] _; simpl.
  2: { destruct (IsNotFound e) eqn:He; [|done]. by apply (reconcilePoolMissing_safe _ _ _ _ e); [right; left|left|]. }
  destruct (vst_ISOEjection (va_Status agent)) as [op|] eqn:Hej.
  { apply always_reconcile, reconcileEjection_noDestroy. }
  destruct (isDeleting (va_Meta agent)) eqn:Hdel; simpl.
  - by apply reconcileDelete_reconcile; [right; left|left| |].
  - by apply reconcileLive_safe; [right; left|left| |].
Qed.

(** C1: a whole reconciliation of a VsphereAgent destroys a VM in two situations
    only, and never while an ISO ejection is recorded.  Either the VsphereAgent is being
    deleted, its VM is prepared for deletion, and the command destroys that VM: by its
    recorded UUID or path, and with a recorded owner only the VM that was inspected and
    carries the owner's mark.  Or it is live, holds the finalizer and has no recorded VM,
    and the command destroys the VM of its name that this reconciliation created and that carries its UID. *)
Theorem Reconcile_destroys_safely (ns name : string) (h : hist) (args : list string)
    (k : result string → program (result Duration))
    (Hreach : reach anyAnswer [] (Reconcile apiReader ProviderFactory ns name) h (Call (Govc args) k))
    (Hdestroy : isDestroy args = true) :
  ∃ agent pool0, let pool := applySpecDefaults pool0 in
    In (Event (Get apiReader KVsphereAgent ns name) (Ok agent)) h ∧
    In (Event (Get apiReader KVsphereAgentPool (vaNamespace agent) (lor_Name (vs_PoolRef (va_Spec agent)))) (Ok pool0)) h ∧
    vst_ISOEjection (va_Status agent) = None ∧
    ((isDeleting (va_Meta agent) = true ∧ cleanupEnabled pool = true ∧
      ∃ vm, isDeletionVM agent vm ∧ prepared apiReader pool vm h ∧ deletionTarget pool vm h args) ∨
     (isDeleting (va_Meta agent) = false ∧ ContainsFinalizer (va_Meta agent) vsphereAgentFinalizerName = true ∧
      vm_Name (vst_VM (va_Status agent)) = "" ∧ isAdopted agent = false ∧
      ∃ isoPath, creationTarget pool (mkVMCreateRequest (vsphereAgentVMName agent) isoPath (om_UID (va_Meta agent))) h args)).
Proof.
  apply (safe_reach _ _ _ _ _ _ _ (Reconcile_safe ns name)) in Hreach. by apply Hreach.
Qed.

(** C14: a reconciliation takes the finalizer from a VsphereAgent only while it is being deleted, and only if its
    pool does not exist any more, or no ejection is recorded and the deletion is finished: the policy
    keeps the VM, another VsphereAgent of the pool manages it, or the VM was prepared, it is gone (the
    command that destroys exactly this VM succeeded, or vCenter does not know it), and after that the Agents were
    listed again and those on the VM deleted in the version observed. *)
Theorem Reconcile_finalizer_released (ns name : string) (h : hist)
    (before after : VsphereAgent) (lock : bool) (k : result VsphereAgent → program (result Duration))
    (Hreach : reach anyAnswer [] (Reconcile apiReader ProviderFactory ns name) h
                (Call (Patch KVsphereAgent before after lock) k))
    (Hlost : ContainsFinalizer (va_Meta after) vsphereAgentFinalizerName = false) :
  ∃ agent, In (Event (Get apiReader KVsphereAgent ns name) (Ok agent)) h ∧ isDeleting (va_Meta agent) = true ∧
    let poolKey := Get apiReader KVsphereAgentPool (vaNamespace agent) (lor_Name (vs_PoolRef (va_Spec agent))) in
    ((∃ e, In (Event poolKey (Err e)) h ∧ IsNotFound e = true) ∨
     (∃ pool vm, In (Event poolKey (Ok pool)) h ∧ vst_ISOEjection (va_Status agent) = None ∧
        isDeletionVM agent vm ∧ deletionEvidence agent (applySpecDefaults pool) vm h)).
Proof.
  apply (safe_reach _ _ _ _ _ _ _ (Reconcile_safe ns name)) in Hreach. by apply Hreach.
Qed.

(** ** Checkpoints of an ejection *)

(** A write of the status that records the operation [op]. *)
Definition writesEjection (op : option ISOEjectionStatus) : precondition callE := λ X _ e,
  match e with
  | StatusUpdate KVsphereAgent o => vst_ISOEjection (va_Status o) = op
  | _ => True
  end.

Lemma updateStatus_writes agent : always (writesEjection (vst_ISOEjection (va_Status agent))) (updateStatus agent).
Proof.
  unfold updateStatus. apply always_bind; [apply always_retry|intros ?]; solve_always. done.
Qed.

Lemma updateStatus_result agent h :
  safe anyAnswer (λ _ _ _, True) h (updateStatus agent)
    (λ _ r, vst_ISOEjection (va_Status r.1) = vst_ISOEjection (va_Status agent)).
Proof.
  unfold updateStatus. apply safe_bind. eapply safe_mono; [apply safe_trivial|].
  by intros h' [[]|e] _.
Qed.

(** A checkpoint after a successful checkpoint of the same ejection is lost.
    When EjectISO checkpoints twice (the start of the disconnect, then the
    question that it raised), no write ever records the second state: the
    VsphereAgent's status became a copy of the first one. *)
Theorem ejectCheckpoint_second_lost (agent : VsphereAgent) (op1 op2 : ISOEjectionStatus) (h : hist)
    (o : VsphereAgent) (k : result VsphereAgent → program (ejectState * result unit))
    (Hreach : reach anyAnswer []
       (let! c := ejectCheckpoint (agent, true) op1 in
        match c.2 with Err e => Return (c.1, Err e) | Ok _ => ejectCheckpoint c.1 op2 end)
       h (Call (StatusUpdate KVsphereAgent o) k)) :
  vst_ISOEjection (va_Status o) = Some op1.
Proof.
  enough (safe anyAnswer (writesEjection (Some op1)) []
    (let! c := ejectCheckpoint (agent, true) op1 in
     match c.2 with Err e => Return (c.1, Err e) | Ok _ => ejectCheckpoint c.1 op2 end) (λ _ _, True)) as Hsafe
    by (apply (safe_reach _ _ _ _ _ _ _ Hsafe Hreach)).
  apply safe_bind. unfold ejectCheckpoint at 1. apply safe_bind.
  assert (∀ a, vst_ISOEjection (va_Status a) = Some op1 → ∀ h',
    safe anyAnswer (writesEjection (Some op1)) h' (updateStatus a)
      (λ _ r, vst_ISOEjection (va_Status r.1) = Some op1)) as Hw1.
  { intros a <- h'. eapply safe_ok_mono_post; [apply updateStatus_writes|apply updateStatus_result]. }
  eapply safe_mono; [by apply Hw1|].
  intros h1 [agent' [[]|e]] Hej; cbn [safe fst snd]; [|done].
  unfold ejectCheckpoint. apply safe_bind. simpl in Hej.
  eapply safe_mono; [by apply Hw1|]. by intros h2 [agent2 [[]|e]] _.
Qed.

End controller_proofs.
