(* ===== verification/PoolController.v ===== *)
(** * The VsphereAgentPool controller

    internal/controller/vsphereagentpool_controller.go, the parts with effects:
    one pass of Reconcile lists the inventory, pins the selectors of the
    AgentMachines, observes Agents, Machines and demand, refreshes the lifecycle
    of the owned VMs (OwnedVMs.v), plans (Planner.v), applies the plan by patching
    Agents and deleting VsphereAgents, refreshes the ISO cache and publishes the
    status.  The pure steps are those of the files named; here they are composed
    with the calls in the order of the source.

    Events and metrics are those of Telemetry.v; logs are left out. *)
From S2P Require Import Prelude Api Identity Planner OwnedVMs VsphereObjects Sha256 Metrics Effects K8s Telemetry Objects.
From S2P Require Import VmCleanup VMProvider IsoCache InfraEnv AgentMachine VsphereAgent.

(** ** Constants *)
Definition finalizerName : string := "agent-forge.containeroo.ch/vsphere-agent-pool".
Definition vsphereAgentPoolInfraEnvNameIndex : string := ".spec.infraEnvRef.name".
Definition conditionAgentMachineDemand : string := "AgentMachineDemandFound".
Definition conditionInfraEnvAvailable : string := "InfraEnvAvailable".
Definition conditionCapacitySatisfied : string := "CapacitySatisfied".
Definition conditionVsphereReady : string := "VsphereReady".

Definition poolNamespace (pool : VsphereAgentPool) : string := om_Namespace (pl_Meta pool).
Definition poolName (pool : VsphereAgentPool) : string := om_Name (pl_Meta pool).
Definition controlPlaneNamespace (pool : VsphereAgentPool) : string := ps_ControlPlaneNamespace (pl_Spec pool).

Definition conditionStatus (value : bool) : string := if value then ConditionTrue else ConditionFalse.

(** ** Hosts of OpenStack workers (openstackagent_controller.go) *)
Section hosts.
Context `{KubeLib}.

Definition interfaceMatches (a : OpenStackAgent) (raw : any) : bool :=
  match asMap raw with
  | None => false
  | Some iface =>
      existsb (λ key, (st_MACAddress (oa_Status a) != "") &&
                      (normalizeMAC (asStringOr (mapRead iface key)) == normalizeMAC (st_MACAddress (oa_Status a))))
        ["macAddress"; "mac"]
  end.

Definition agentHardwareMatches (a : OpenStackAgent) (host : Unstructured) : bool :=
  let interfaces := default [] (NestedSlice (un_Object host) ["status"; "inventory"; "interfaces"]) in
  if existsb (interfaceMatches a) interfaces then true
  else
    let uuid := NestedString (un_Object host) ["status"; "inventory"; "systemVendor"; "productUUID"] in
    let uuid := if uuid == ""
                then NestedString (un_Object host) ["status"; "inventory"; "systemVendor"; "serialNumber"]
                else uuid in
    (uuid != "") && (st_ServerID (oa_Status a) != "") && EqualFold uuid (st_ServerID (oa_Status a)).

Definition openStackOwnsHost (host : Unstructured) (workers : list OpenStackAgent) : bool :=
  existsb (λ worker, agentHardwareMatches worker host ||
    match st_AgentRef (oa_Status worker) with
    | Some ref => or_UID ref == om_UID (un_Meta host)
    | None => false
    end) workers.
End hosts.

(** ** Status *)
Definition isPoolReconcileCondition (conditionType : string) : bool :=
  (conditionType == conditionReady) || (conditionType == conditionAgentMachineDemand) ||
  (conditionType == conditionInfraEnvAvailable) || (conditionType == conditionCapacitySatisfied) ||
  (conditionType == conditionVsphereReady).

Definition emptyPlan : PoolPlan := mkPoolPlan 0 0 0 0 0 0 0 0 0 0 [] [] [] [].

Section status.
Context `{KubeLib}.

Definition setPoolCondition (pool : VsphereAgentPool) (t status reason message : string) : VsphereAgentPool :=
  pool <| pl_Status := (pl_Status pool)
    <| pt_Conditions := SetStatusCondition (pt_Conditions (pl_Status pool))
         (mkCondition t status (om_Generation (pl_Meta pool)) 0 reason message) |> |>.

Definition setOwnedVMs (pool : VsphereAgentPool) (vms : list OwnedVMStatus) : VsphereAgentPool :=
  mkVsphereAgentPool (pl_Meta pool) (pl_Spec pool) ((pl_Status pool) <| pt_OwnedVMs := vms |>).

Definition mergePoolReconcileConditions (current desired : list Condition) : list Condition :=
  foldl (λ result condition,
    if negb (isPoolReconcileCondition (cd_Type condition)) then result else SetStatusCondition result condition)
    current desired.

Definition mergePoolReconcileStatus (current desired : VsphereAgentPoolStatus) : VsphereAgentPoolStatus :=
  mkVsphereAgentPoolStatus (pt_ObservedGeneration desired) (pt_DesiredReplicas desired) (pt_AgentMachines desired)
    (pt_WaitingAgentMachines desired) (pt_UnreadyAgentMachines desired) (pt_AgentMachinesWithoutAgent desired)
    (pt_MatchingAgents desired) (pt_BoundAgents desired) (pt_AvailableAgents desired) (pt_OwnedVMs desired)
    (pt_PlannedActions desired) (pt_ISO current)
    (mergePoolReconcileConditions (pt_Conditions current) (pt_Conditions desired)).

(** The status updateStatus wants: the pool's, with the counters of the plan. *)
Definition desiredStatus (pool : VsphereAgentPool) (plan : PoolPlan) : VsphereAgentPoolStatus :=
  let s := pl_Status pool in
  mkVsphereAgentPoolStatus (om_Generation (pl_Meta pool)) (pp_DesiredReplicas plan) (pp_AgentMachines plan)
    (pp_WaitingAgentMachines plan) (pp_UnreadyAgentMachines plan) (pp_AgentMachinesWithoutAgent plan)
    (pp_MatchingAgents plan) (pp_BoundAgents plan) (pp_AvailableAgents plan) (pt_OwnedVMs s)
    (pp_Actions plan) (pt_ISO s) (pt_Conditions s).

Definition setStatusError (pool : VsphereAgentPool) (reason message : string) : program VsphereAgentPool :=
  let pool := setPoolCondition pool conditionReady ConditionFalse reason message in
  let! _ := recordWarning pool reason message in
  Return pool.

Definition demandMessage (plan : PoolPlan) : string :=
  "agentMachines=" +:+ fmt_d (pp_AgentMachines plan) +:+
  " waitingForAgents=" +:+ fmt_d (pp_WaitingAgentMachines plan) +:+
  " unready=" +:+ fmt_d (pp_UnreadyAgentMachines plan) +:+
  " withoutAgent=" +:+ fmt_d (pp_AgentMachinesWithoutAgent plan).

Definition capacityMessage (plan : PoolPlan) : string :=
  "agentMachines=" +:+ fmt_d (pp_AgentMachines plan) +:+
  " waitingAgentMachines=" +:+ fmt_d (pp_WaitingAgentMachines plan) +:+
  " unreadyAgentMachines=" +:+ fmt_d (pp_UnreadyAgentMachines plan) +:+
  " agentMachinesWithoutAgent=" +:+ fmt_d (pp_AgentMachinesWithoutAgent plan) +:+
  " matchingAgents=" +:+ fmt_d (pp_MatchingAgents plan) +:+
  " pendingOwnedVMs=" +:+ fmt_d (pp_PendingOwnedVMs plan) +:+
  " boundAgents=" +:+ fmt_d (pp_BoundAgents plan) +:+
  " availableAgents=" +:+ fmt_d (pp_AvailableAgents plan).

Definition setPlanConditions (pool : VsphereAgentPool) (plan : PoolPlan) (errMessage : string) : VsphereAgentPool :=
  let failed := errMessage != "" in
  let pool := setPoolCondition pool conditionReady (if failed then ConditionFalse else ConditionTrue)
                (if failed then "ApplyFailed" else "Reconciled")
                (if failed then errMessage else "Agent capacity bridge reconciled successfully") in
  let pool := setPoolCondition pool conditionAgentMachineDemand ConditionTrue "Observed" (demandMessage plan) in
  let pool := setPoolCondition pool conditionInfraEnvAvailable ConditionTrue phaseAvailable
                "InfraEnv has a discovery ISO URL" in
  let pool := setPoolCondition pool conditionCapacitySatisfied (conditionStatus (pp_DemandDeficit plan == 0))
                (if pp_DemandDeficit plan != 0 then "Deficit" else "Satisfied") (capacityMessage plan) in
  setPoolCondition pool conditionVsphereReady (conditionStatus (errMessage == ""))
    (if failed then "Error" else "Ready") (if failed then errMessage else "vSphere bridge did not report an error").

(** ** Binding Agents *)
Record agentPatchSafety := mkAgentPatchSafety {
  sf_UID : string;
  sf_ResourceVersion : string;
  sf_InstallationDiskID : string }.

Definition keptBindingLabels (binding : AgentBindingSpec) : gmap string string :=
  filter (λ kv, ¬ (kv.1 = roleLabelKey ∨ kv.1 = agentMachineSelectionLabel ∨ kv.1 = agentMachineRefKey))
    (ab_Labels binding).

(** The labels of a patched Agent. *)
Definition boundLabels (binding : AgentBindingSpec) (hostname : string) (labels : gmap string string)
    : gmap string string :=
  <[agentMachineSelectionLabel := hostname]> (<[roleLabelKey := ab_Role binding]>
    (keptBindingLabels binding ∪ labels)).

(** The content of a patched Agent, from the assignment of the role on. *)
Definition boundObject (binding : AgentBindingSpec) (hostname : string) (check : option agentPatchSafety)
    (notFound : error) (object : any) : result any :=
  match SetNestedField object (AString (ab_Role binding)) ["spec"; "role"] with
  | Err e => Err e
  | Ok object =>
      if hostname == "" then Err notFound
      else
        match (if NestedString object ["spec"; "hostname"] != hostname
               then SetNestedField object (AString hostname) ["spec"; "hostname"] else Ok object) with
        | Err e => Err e
        | Ok object =>
            match (match check with
                   | Some c => SetNestedField object (AString (sf_InstallationDiskID c)) ["spec"; "installation_disk_id"]
                   | None => Ok object
                   end) with
            | Err e => Err e
            | Ok object =>
                if match ab_Approve binding with None => true | Some b => b end
                then SetNestedField object (ABool true) ["spec"; "approved"] else Ok object
            end
        end
  end.

Definition patchDiscoveredAgent (r : reader) (namespace : string) (binding : AgentBindingSpec)
    (name hostname : string) (check : option agentPatchSafety) : program (result unit) :=
  let? agent := call (Get r KAgent namespace name) in
  if match check with
     | Some c => (om_UID (un_Meta agent) != sf_UID c) || (om_ResourceVersion (un_Meta agent) != sf_ResourceVersion c)
     | None => false
     end
  then Return (Errorf "agent changed before approval")
  else if (annotation agent agentCleanupAnnotation != "") || (agentDeletionBlocker agent != "") then Return (Ok tt)
  else
    match boundObject binding hostname check
            (mkError ClassOther ("cannot patch Agent " +:+ namespace +:+ "/" +:+ name +:+ " without an owned VM hostname"))
            (un_Object agent) with
    | Err e => Return (Err e)
    | Ok object =>
        let meta := (un_Meta agent) <| om_Labels := boundLabels binding hostname (om_Labels (un_Meta agent)) |> in
        let? _ := call (Patch KAgent agent (mkUnstructured meta object) true) in
        Return (Ok tt)
    end.
End status.

Section pool.
Context `{KubeLib} `{NetURL} `{GovcJSON}.
Context (apiReader : reader) (ProviderFactory : VsphereAgentPool → Secret → result VMProvider).

(** Returns the pool with the published status. *)
Definition updateStatus (pool : VsphereAgentPool) (plan : PoolPlan) : program (result VsphereAgentPool) :=
  let desired := desiredStatus pool plan in
  let? updated := RetryOnConflict
    (let? current := call (Get apiReader KVsphereAgentPool (poolNamespace pool) (poolName pool)) in
     let next := mergePoolReconcileStatus (pl_Status current) desired in
     if pl_Status current == next then Return (Ok (pl_Status current))
     else
       let? _ := call (StatusUpdate KVsphereAgentPool (current <| pl_Status := next |>)) in
       Return (Ok next)) in
  let pool := pool <| pl_Status := updated |> in
  let! _ := recordPoolCapacityMetrics pool plan in
  Return (Ok pool).

Definition patchFinalizer (pool : VsphereAgentPool) : program (result unit) :=
  let? current := call (Get apiReader KVsphereAgentPool (poolNamespace pool) (poolName pool)) in
  let meta := pl_Meta current in
  let meta := if ContainsFinalizer (pl_Meta pool) finalizerName then (AddFinalizer meta finalizerName).2
              else RemoveFinalizer meta finalizerName in
  let? _ := call (Patch KVsphereAgentPool current (current <| pl_Meta := meta |>) false) in
  Return (Ok tt).

(** ** Observation *)
Definition listVsphereAgentsForPool (pool : VsphereAgentPool) : program (result (list VsphereAgent)) :=
  let? items := call (ListObjs Cached KVsphereAgent (InNamespace (poolNamespace pool))) in
  Return (Ok (List.filter (λ agent, vsphereAgentBelongsToPool agent (poolName pool)) items)).

(** The loop of listVsphereAgentVMs; a VM that is only requested is stamped. *)
Fixpoint vmsOfAgents (agents : list VsphereAgent) : program (list OwnedVMStatus) :=
  match agents with
  | [] => Return []
  | agent :: rest =>
      let! vm := if vm_Name (vst_VM (va_Status agent)) == ""
                 then let! t := call Now in Return (vsphereAgentVM t agent)
                 else Return (vst_VM (va_Status agent)) in
      let! vms := vmsOfAgents rest in
      Return (vm :: vms)
  end.

Definition listVsphereAgentVMs (pool : VsphereAgentPool) : program (result (list OwnedVMStatus)) :=
  let? items := listVsphereAgentsForPool pool in
  let! vms := vmsOfAgents items in
  Return (Ok vms).

Definition countAgentMachineDemand (pool : VsphereAgentPool) : program (result AgentMachineDemand) :=
  let? items := call (ListObjs Cached KAgentMachine (InNamespace (controlPlaneNamespace pool))) in
  Return (Ok (demandOf pool items)).

Definition ensureAgentMachineSelectorsPinned (pool : VsphereAgentPool) : program (result unit) :=
  let? items := call (ListObjs Cached KAgentMachine (InNamespace (controlPlaneNamespace pool))) in
  forEach items (λ agentMachine,
    if isDeleting (un_Meta agentMachine) then Return (Ok tt)
    else if negb (controlPlaneObjectMatchesPool agentMachine pool) then Return (Ok tt)
    else let? _ := ensureAgentMachineSelectorPinned agentMachine in Return (Ok tt)).

Definition listNodePoolMachines (pool : VsphereAgentPool) : program (result (list MachineInfo)) :=
  let? items := call (ListObjs Cached KMachine (InNamespace (controlPlaneNamespace pool))) in
  Return (Ok (machinesOf pool items)).

(** The Machine of the AgentMachine a bound Agent refers to. *)
Definition agentMachineName (pool : VsphereAgentPool) (o : Unstructured) : program (result string) :=
  let ref := label o agentMachineRefKey in
  if ref == "" then Return (Ok "")
  else
    let ns := annotation o "agentMachineRefNamespace" in
    let ns := if ns == "" then controlPlaneNamespace pool else ns in
    let! am := call (Get apiReader KAgentMachine ns ref) in
    match am with
    | Err e => if negb (IsNotFound e) then Return (Err e) else Return (Ok "")
    | Ok am => Return (Ok (owningMachineName (om_OwnerReferences (un_Meta am))))
    end.

(** Whether an Agent that is not associated with an owned VM is of the pool. *)
Definition agentIsCandidate (pool : VsphereAgentPool) (o : Unstructured) (agent : AgentInfo) : bool :=
  let clusterName := agentClusterName o in
  negb (negb (agentBelongsToInfraEnv o (lor_Name (ps_InfraEnvRef (pl_Spec pool)))) ||
        ((clusterName != "") && (clusterName != lor_Name (ps_HostedClusterRef (pl_Spec pool)))) ||
        negb (agentMatchesPoolDiscriminator pool agent)) &&
  bool_decide (map_Forall (λ key value, label o key = value) (agentCandidateLabels pool)).

Definition observeAgent (pool : VsphereAgentPool) (workers : list OpenStackAgent) (agents : list AgentInfo)
    (o : Unstructured) : program (result (list AgentInfo)) :=
  if openStackOwnsHost o workers then Return (Ok agents)
  else
    let? machineName := agentMachineName pool o in
    let agent := agentInfoOf o machineName in
    if agentAssociatedWithOwnedVM (pt_OwnedVMs (pl_Status pool)) agent || agentIsCandidate pool o agent
    then Return (Ok (agents ++ [agent]))
    else Return (Ok agents).

Definition filterAgentsClaimedByOtherPools (pool : VsphereAgentPool) (agents : list AgentInfo)
    : program (result (list AgentInfo)) :=
  match agents with
  | [] => Return (Ok agents)
  | _ =>
      let? vsphereAgents := call (ListObjs Cached KVsphereAgent (InNamespace (poolNamespace pool))) in
      match vsphereAgents with
      | [] => Return (Ok agents)
      | _ => Return (Ok (List.filter (λ agent, negb (agentClaimedByOtherPool agent pool vsphereAgents)) agents))
      end
  end.

Definition listMatchingAgents (pool : VsphereAgentPool) : program (result (list AgentInfo)) :=
  let? items := call (ListObjs Cached KAgent (InNamespace (poolNamespace pool))) in
  let? workers := call (ListObjs apiReader KOpenStackAgent (InNamespace (poolNamespace pool))) in
  let? agents := forFold items [] (observeAgent pool workers) in
  filterAgentsClaimedByOtherPools pool agents.

(** ** Applying a plan *)
Definition patchAgent (pool : VsphereAgentPool) (name hostname : string) : program (result unit) :=
  patchDiscoveredAgent apiReader (poolNamespace pool) (ps_Agent (pl_Spec pool)) name hostname None.

Definition namesVM (vm : OwnedVMStatus) (agent : VsphereAgent) : bool :=
  negb ((vm_Name (vst_VM (va_Status agent)) != vm_Name vm) && (vsphereAgentVMName agent != vm_Name vm) &&
        (om_Name (va_Meta agent) != vm_Name vm)).

Definition deleteVsphereAgentForVM (pool : VsphereAgentPool) (vm : OwnedVMStatus) : program (result unit) :=
  let? items := listVsphereAgentsForPool pool in
  forEach items (λ agent,
    if negb (namesVM vm agent) then Return (Ok tt)
    else
      let! r := call (Delete KVsphereAgent agent None) in
      match r with
      | Err e => if negb (IsNotFound e) then Return (Err e) else Return (Ok tt)
      | Ok _ => Return (Ok tt)
      end).

(** The first loop of applyPlan: the pool records the VMs that became available,
    also those before an error. *)
Fixpoint patchAgents (hostnames : gmap string string) (agents : list AgentInfo) (pool : VsphereAgentPool)
    : program (VsphereAgentPool * result unit) :=
  match agents with
  | [] => Return (pool, Ok tt)
  | agent :: rest =>
      let hostname := mapGet hostnames (ai_Name agent) in
      let! r := patchAgent pool (ai_Name agent) hostname in
      match r with
      | Err e => Return (pool, Err e)
      | Ok _ =>
          if hostname != "" then
            let! t := call Now in
            patchAgents hostnames rest
              (setOwnedVMs pool (markOwnedVMAvailable t pool (pt_OwnedVMs (pl_Status pool)) hostname (ai_Name agent)))
          else patchAgents hostnames rest pool
      end
  end.

(** The second loop: a blocked deletion is deferred. *)
Definition deletePlannedVM (pool : VsphereAgentPool) (vm : OwnedVMStatus) : program (result unit) :=
  let! r := prepareVMDeletion apiReader pool vm in
  match r with
  | Err e => if negb (err_Class e == ClassVMDeletionBlocked) then Return (Err e)
             else let! _ := recordNormal pool "AgentDeleteDeferred" (err_Error e) in Return (Ok tt)
  | Ok _ => deleteVsphereAgentForVM pool vm
  end.

Definition applyPlan (pool : VsphereAgentPool) (plan : PoolPlan) : program (VsphereAgentPool * result unit) :=
  let! patched := patchAgents (assignedAgentHostnames pool (pp_AgentsToPatch plan)) (pp_AgentsToPatch plan) pool in
  let '(pool, err) := patched in
  match err with
  | Err e => Return (pool, Err e)
  | Ok _ => let! r := forEach (pp_VMsToDelete plan) (deletePlannedVM pool) in Return (pool, r)
  end.

(** ** Reconcile *)
Definition reconcileDelete (pool : VsphereAgentPool) : program (result Duration) :=
  let? agents := listVsphereAgentsForPool pool in
  match agents with
  | _ :: _ =>
      let? _ := forEach agents (λ agent,
        if isDeleting (va_Meta agent) then Return (Ok tt)
        else
          let! r := call (Delete KVsphereAgent agent None) in
          match r with
          | Err e => if negb (IsNotFound e) then Return (Err e) else Return (Ok tt)
          | Ok _ => Return (Ok tt)
          end) in
      Return (Ok (10 * second))
  | [] =>
      let pool := pool <| pl_Meta := RemoveFinalizer (pl_Meta pool) finalizerName |> in
      let! _ := deletePoolCapacityMetrics pool in
      let? _ := patchFinalizer pool in
      Return (Ok 0)
  end.

(** Publish an error of an observation and return it. *)
Definition failObservation (pool : VsphereAgentPool) (reason : string) (e : error) : program (result Duration) :=
  let! pool := setStatusError pool reason (err_Error e) in
  let? _ := updateStatus pool emptyPlan in
  Return (Err e).

(** Record the outcome of a refresh of the cache. *)
Definition recordISORefresh (refreshed : VsphereAgentPool * option error) : program (result VsphereAgentPool) :=
  let '(pool, err) := refreshed in
  let pool := match err with
              | Some e => setISOReady pool ConditionFalse "ISORefreshFailed" (stableErrorMessage e)
              | None => pool
              end in
  let? _ := patchPoolISOStatus apiReader pool in
  Return (Ok pool).

Definition refreshISO (pool : VsphereAgentPool) (isoURL : string) : program (result VsphereAgentPool) :=
  let! t := call Now in
  if isoCacheDue pool isoURL (mapGet (om_Annotations (pl_Meta pool)) forceISORefreshAnnotation) t then
    let! prov := provider apiReader ProviderFactory pool in
    match prov with
    | Err e => recordISORefresh (pool, Some e)
    | Ok prov =>
        let! cached := @ensureISOCache _ _ prov pool isoURL in
        recordISORefresh (cached.1, match cached.2 with Err e => Some e | Ok _ => None end)
    end
  else Return (Ok pool).

(** From the plan on. *)
Definition runPlan (pool : VsphereAgentPool) (plan : PoolPlan) (isoURL : string) : program (result Duration) :=
  let! applied := applyPlan pool plan in
  let '(pool, err) := applied in
  match err with
  | Err e =>
      let errMessage := stableErrorMessage e in
      let! _ := recordWarning pool "ApplyPlanFailed" errMessage in
      let? _ := updateStatus (setPlanConditions pool plan errMessage) plan in
      Return (Ok (30 * second))
  | Ok _ =>
      let? pool := refreshISO pool isoURL in
      let plan := mkPoolPlan (pp_AgentMachines plan) (pp_WaitingAgentMachines plan) (pp_UnreadyAgentMachines plan)
        (pp_AgentMachinesWithoutAgent plan) (pp_DesiredReplicas plan) (pp_MatchingAgents plan)
        (pp_BoundAgents plan) (pp_AvailableAgents plan) (countPendingOwnedVMs (pt_OwnedVMs (pl_Status pool)))
        (pp_DemandDeficit plan) (pp_VMsToDelete plan) (pp_AgentsToDelete plan) (pp_AgentsToPatch plan)
        (pp_Actions plan) in
      let! _ := recordPlan pool plan "PlanApplied" in
      let? _ := updateStatus (setPlanConditions pool plan "") plan in
      Return (Ok (Z.min minute (isoCheckInterval pool)))
  end.

Definition snapshotOf (demand : AgentMachineDemand) (agents : list AgentInfo) (vms : list OwnedVMStatus)
    : PoolSnapshot :=
  mkPoolSnapshot (dm_Total demand) (dm_Waiting demand) (dm_Unready demand) (dm_WithoutAgent demand) agents vms.

(** The inventory is known; observe, refresh and plan. *)
Definition observeAndPlan (pool : VsphereAgentPool) (isoURL : string) : program (result Duration) :=
  let! pinned := ensureAgentMachineSelectorsPinned pool in
  match pinned with
  | Err e => failObservation pool "AgentMachinePatchFailed" e
  | Ok _ =>
      let! agents := listMatchingAgents pool in
      match agents with
      | Err e => failObservation pool "AgentListFailed" e
      | Ok agents =>
          let! machines := listNodePoolMachines pool in
          match machines with
          | Err e => failObservation pool "MachineListFailed" e
          | Ok machines =>
              let! demand := countAgentMachineDemand pool in
              match demand with
              | Err e => failObservation pool "AgentMachineListFailed" e
              | Ok demand =>
                  let! t := call Now in
                  let! clock := call Clock in
                  let vms := refreshOwnedVMStatuses clock t pool agents machines in
                  let pool := setOwnedVMs pool vms in
                  let! t := call Now in
                  runPlan pool (buildPlan t pool (snapshotOf demand agents vms)) isoURL
              end
          end
      end
  end.

Definition reconcileLivePool (pool : VsphereAgentPool) : program (result Duration) :=
  let! avail := infraEnvAvailable Cached pool in
  let '(available, isoURL, infraEnvMessage) := avail in
  if negb available then
    let! pool := setStatusError pool reasonInfraEnvUnavailable infraEnvMessage in
    let pool := setPoolCondition pool conditionInfraEnvAvailable ConditionFalse reasonInfraEnvUnavailable
                  infraEnvMessage in
    let? _ := updateStatus pool emptyPlan in
    Return (Ok (30 * second))
  else
    let previousOwnedVMs := pt_OwnedVMs (pl_Status pool) in
    let! ownedVMs := listVsphereAgentVMs pool in
    match ownedVMs with
    | Err e => failObservation pool "VsphereAgentListFailed" e
    | Ok ownedVMs => observeAndPlan (setOwnedVMs pool (mergeOwnedVMStatuses previousOwnedVMs ownedVMs)) isoURL
    end.

Definition Reconcile (ns name : string) : program (result Duration) :=
  let! pool := call (Get apiReader KVsphereAgentPool ns name) in
  match pool with
  | Err e => if IsNotFound e then Return (Ok 0) else Return (Err e)
  | Ok pool =>
      let pool := applySpecDefaults pool in
      if negb (isDeleting (pl_Meta pool)) then
        let '(added, meta) := AddFinalizer (pl_Meta pool) finalizerName in
        if added then
          let? _ := patchFinalizer (pool <| pl_Meta := meta |>) in Return (Ok 0)
        else reconcileLivePool pool
      else reconcileDelete pool
  end.

(** ** Requests: which pools a watched change is mapped to *)
Definition poolRequest (pool : VsphereAgentPool) : string * string := (poolNamespace pool, poolName pool).

Definition requestsForControlPlaneObjectChange (o : Unstructured) : program (list (string * string)) :=
  let! pools := call (ListObjs Cached KVsphereAgentPool
                        (MatchingField vsphereAgentPoolControlPlaneNamespaceIndex (GetNamespace o))) in
  match pools with
  | Err _ => Return []
  | Ok pools => Return (map poolRequest (List.filter (controlPlaneObjectMatchesPool o) pools))
  end.

Definition requestsForAgentChange (agent : Unstructured) : program (list (string * string)) :=
  let! pools := call (ListObjs Cached KVsphereAgentPool (InNamespace (GetNamespace agent))) in
  match pools with Err _ => Return [] | Ok pools => Return (map poolRequest pools) end.

Definition requestsForInfraEnvChange (infraEnv : Unstructured) : program (list (string * string)) :=
  let! pools := call (ListObjs Cached KVsphereAgentPool
                        (mkListOptions (Some (GetNamespace infraEnv))
                           [(vsphereAgentPoolInfraEnvNameIndex, GetName infraEnv)])) in
  match pools with Err _ => Return [] | Ok pools => Return (map poolRequest pools) end.

End pool.

(** ** Proofs *)

Lemma setStatusError_always `{KubeLib} (ok : precondition callE) `{!Unobserved ok} pool reason message :
  always ok (setStatusError pool reason message).
Proof. unfold setStatusError. apply always_bind; [by apply recordWarning_always|intros ?; apply always_return]. Qed.
#[export] Hint Resolve setStatusError_always : always.

(** Calls that neither delete an object nor destroy a VM. *)
Definition benign : precondition callE := λ X _ e,
  match e with
  | Delete _ _ _ => False
  | Govc args | GovcStart args => isDestroy args = false
  | _ => True
  end.

Lemma providerCall_benign X h (e : callE X) : providerCall destroysNothing X h e → benign X h e.
Proof. destruct e; simpl; try done. destruct (isDestroy args); [|done]. intros Hd. by destruct (Hd eq_refl). Qed.

Section provider_benign.
Context `{GovcJSON} `{VMProvider} `{!VMProviderLaws}.

Lemma EnsureISO_benign pool url : always benign (EnsureISO pool url).
Proof. intros h. eapply safe_ok_mono; [apply EnsureISO_calls|apply providerCall_benign]. Qed.

Lemma DeleteISO_benign pool path : always benign (DeleteISO pool path).
Proof.
  intros h. eapply safe_mono; [|done]. eapply safe_ok_mono; [apply DeleteISO_calls|apply providerCall_benign].
Qed.
Hint Resolve EnsureISO_benign DeleteISO_benign : always.

Lemma ensureISOCache_benign `{KubeLib} `{NetURL} pool url : always benign (ensureISOCache pool url).
Proof.
  unfold ensureISOCache.
  assert (∀ pool prev stale hs, always benign (pruneLoop pool prev stale hs)) as Hp.
  { intros p prev stale. induction stale as [|s stale IH]; intros hs; cbn [pruneLoop]; solve_always. }
  solve_always.
Qed.
End provider_benign.
#[export] Hint Resolve ensureISOCache_benign : always.

Section pool_proofs.
Context `{KubeLib} `{!KubeLaws} `{NetURL} `{GovcJSON}.
Context (apiReader : reader) (ProviderFactory : VsphereAgentPool → Secret → result VMProvider).
Context (Hfactory : ∀ pool secret prov, ProviderFactory pool secret = Ok prov → @VMProviderLaws _ prov).

Lemma updateStatus_benign pool plan : always benign (updateStatus apiReader pool plan).
Proof. unfold updateStatus. apply always_bindOk; [apply always_retry|intros ?]; solve_always. Qed.

Lemma patchFinalizer_benign pool : always benign (patchFinalizer apiReader pool).
Proof. unfold patchFinalizer. solve_always. Qed.

Lemma patchPoolISOStatus_benign pool : always benign (patchPoolISOStatus apiReader pool).
Proof. unfold patchPoolISOStatus. apply always_retry. solve_always. Qed.
Hint Resolve updateStatus_benign patchFinalizer_benign patchPoolISOStatus_benign : always.

Lemma failObservation_benign pool reason e : always benign (failObservation apiReader pool reason e).
Proof. unfold failObservation. solve_always. Qed.

Lemma listVsphereAgentVMs_benign pool : always benign (listVsphereAgentVMs pool).
Proof.
  unfold listVsphereAgentVMs, listVsphereAgentsForPool.
  assert (∀ agents, always benign (vmsOfAgents agents)) as Hv by (induction agents; cbn [vmsOfAgents]; solve_always).
  solve_always.
Qed.

Lemma selectorsPinned_benign pool : always benign (ensureAgentMachineSelectorsPinned pool).
Proof. unfold ensureAgentMachineSelectorsPinned, ensureAgentMachineSelectorPinned. solve_always. Qed.

Lemma listMatchingAgents_benign pool : always benign (listMatchingAgents apiReader pool).
Proof.
  unfold listMatchingAgents, filterAgentsClaimedByOtherPools, observeAgent, agentMachineName. solve_always.
Qed.

Lemma patchAgents_benign hostnames agents pool : always benign (patchAgents apiReader hostnames agents pool).
Proof.
  revert pool. induction agents as [|a agents IH]; intros pool; cbn [patchAgents]; [solve_always|].
  unfold patchAgent, patchDiscoveredAgent. solve_always.
Qed.

Lemma recordISORefresh_benign refreshed : always benign (recordISORefresh apiReader refreshed).
Proof. unfold recordISORefresh. solve_always. Qed.
Hint Resolve recordISORefresh_benign : always.

Lemma refreshISO_benign pool url : always benign (refreshISO apiReader ProviderFactory pool url).
Proof.
  unfold refreshISO. apply always_bind; [solve_always|intros t]. destruct (isoCacheDue _ _ _ _); [|solve_always].
  intros h. apply safe_bind. apply provider_safe; [done|done| |].
  - intros h' e _. apply recordISORefresh_benign.
  - intros h' prov _ Hl. apply always_bind; [solve_always|intros cached; solve_always].
Qed.

Lemma prepareVMDeletion_benign r pool vm : always benign (prepareVMDeletion r pool vm).
Proof. unfold prepareVMDeletion, agentsForVM, markAgentForCleanup. solve_always. Qed.
Hint Resolve failObservation_benign listVsphereAgentVMs_benign selectorsPinned_benign listMatchingAgents_benign
  patchAgents_benign refreshISO_benign prepareVMDeletion_benign : always.

(** ** Which VsphereAgents are deleted *)

(** The evidence of a preparation depends on the identity of the pool only. *)
Lemma prepared_same r pool pool' vm h :
  pl_Meta pool' = pl_Meta pool → pl_Spec pool' = pl_Spec pool → prepared r pool' vm h → prepared r pool vm h.
Proof.
  intros Hm Hs [Hmachine (items & Hin & Hall)]. split.
  - intros ns name Hk. apply Hmachine. unfold machineKey in *. by rewrite Hs.
  - exists items. rewrite <- Hm. done.
Qed.

(** The VsphereAgents of a planned VM, once the VM is prepared. *)
Definition plannedDelete (pool : VsphereAgentPool) (vms : list OwnedVMStatus) : precondition callE := λ X h e,
  match e with
  | Delete KVsphereAgent o _ => ∃ vm, In vm vms ∧ vsphereAgentBelongsToPool o (poolName pool) = true ∧
      namesVM vm o = true ∧ prepared apiReader pool vm h
  | Delete _ _ _ => False
  | Govc args | GovcStart args => isDestroy args = false
  | _ => True
  end.

Lemma benign_planned pool vms X h (e : callE X) : benign X h e → plannedDelete pool vms X h e.
Proof. by destruct e. Qed.

Lemma deleteVsphereAgentForVM_safe h pool vms vm :
  In vm vms → prepared apiReader pool vm h →
  safe anyAnswer (plannedDelete pool vms) h (deleteVsphereAgentForVM pool vm) (λ _ _, True).
Proof.
  intros Hin Hp. unfold deleteVsphereAgentForVM, listVsphereAgentsForPool. apply safe_bindOk, safe_bindOk.
  split; [done|]. intros [items|e] _; cbn [safe]; [|done].
  apply (safe_forEach _ _ _ _ _ (λ _ h', prepared apiReader pool vm h')); [by apply prepared_mono| |done].
  intros pre a post h' Hl Hp'. destruct (namesVM vm a) eqn:En; cbn [negb]; [|done].
  apply safe_bind. split.
  - exists vm. split; [done|]. split; [|done].
    assert (In a (List.filter (λ agent, vsphereAgentBelongsToPool agent (poolName pool)) items)) as Ha.
    { rewrite Hl. apply in_app_iff. right. by left. }
    by apply filter_In in Ha as [_ Ha].
  - intros [[]|e] _; cbn [safe]; [by apply prepared_mono|]. destruct (IsNotFound e); cbn; [by apply prepared_mono|done].
Qed.

Lemma deletePlannedVM_safe h pool vms vm :
  In vm vms → safe anyAnswer (plannedDelete pool vms) h (deletePlannedVM apiReader pool vm) (λ _ _, True).
Proof.
  intros Hin. unfold deletePlannedVM. apply safe_bind. apply prepareVMDeletion_safe.
  - intros X h0 e. by destruct e.
  - intros h' _ Hp. by apply deleteVsphereAgentForVM_safe.
  - intros h' e _. by destruct (_ == _).
Qed.

Lemma patchAgents_pool hostnames agents pool h :
  safe anyAnswer (λ _ _ _, True) h (patchAgents apiReader hostnames agents pool)
    (λ _ r, pl_Meta r.1 = pl_Meta pool ∧ pl_Spec r.1 = pl_Spec pool).
Proof.
  revert pool h. induction agents as [|a agents IH]; intros pool h; cbn [patchAgents]; [done|].
  apply safe_bind. eapply safe_mono; [apply safe_trivial|]. intros h' [[]|e] _; [|done].
  destruct (_ != ""); [|apply IH]. apply safe_bind. split; [done|]. intros t _. cbn [safe].
  eapply safe_mono; [apply IH|]. by intros h'' r [-> ->].
Qed.

Lemma applyPlan_safe h pool plan :
  safe anyAnswer (plannedDelete pool (pp_VMsToDelete plan)) h (applyPlan apiReader pool plan)
    (λ _ r, pl_Meta r.1 = pl_Meta pool ∧ pl_Spec r.1 = pl_Spec pool).
Proof.
  unfold applyPlan. apply safe_bind. eapply safe_mono.
  { eapply safe_ok_mono_post; [|apply patchAgents_pool].
    eapply safe_ok_mono; [apply patchAgents_benign|apply benign_planned]. }
  intros h1 [pool1 [[]|e]] [Hm Hs]; cbn [fst] in *; cbv beta iota; [|by split]. apply safe_bind.
  apply (safe_mono _ _ _ _ (λ _ _, True)); [|by intros h' r _].
  eapply (safe_ok_mono _ (plannedDelete pool1 (pp_VMsToDelete plan))).
  - apply (safe_forEach _ _ _ _ _ (λ _ _, True)); [done| |done].
    intros pre a post h' Hl _. eapply safe_mono; [apply deletePlannedVM_safe|by intros h'' [[]|e] _].
    rewrite Hl. apply in_app_iff. right. by left.
  - intros X h0 e. destruct e; simpl; try done. destruct k; try done.
    intros (vm & ? & Hb & ? & Hp). exists vm. split; [done|]. unfold poolName in *. rewrite Hm in Hb.
    split; [done|]. split; [done|]. by apply (prepared_same _ pool pool1).
Qed.

(** The snapshot that a pass over the pool plans with at the time [now]: the recorded VMs merged with those of the
    VsphereAgents and refreshed from the Agents and Machines, and the demand, all as observed in the history. *)
Definition planSnapshot (pool0 : VsphereAgentPool) (h : hist) (now : Time) (snap : PoolSnapshot) : Prop :=
  let pool := applySpecDefaults pool0 in
  ∃ ownedVMs agents machines demand t clock,
    let pool1 := setOwnedVMs pool (mergeOwnedVMStatuses (pt_OwnedVMs (pl_Status pool)) ownedVMs) in
    ran (listVsphereAgentVMs pool) (Ok ownedVMs) h ∧ ran (listMatchingAgents apiReader pool1) (Ok agents) h ∧
    ran (listNodePoolMachines pool1) (Ok machines) h ∧ ran (countAgentMachineDemand pool1) (Ok demand) h ∧
    In (Event Now t) h ∧ In (Event Clock clock) h ∧ In (Event Now now) h ∧
    snap = snapshotOf demand agents (refreshOwnedVMStatuses clock t pool1 agents machines).

Lemma planSnapshot_grows pool0 h h' now snap : grows h h' → planSnapshot pool0 h now snap → planSnapshot pool0 h' now snap.
Proof.
  intros Hg (ownedVMs & agents & machines & demand & t & clock & H1' & H2' & H3' & H4' & H5' & H6' & H7' & ->).
  exists ownedVMs, agents, machines, demand, t, clock. split_and!; [by eapply ran_grows..| | | |done]; by eapply In_grows.
Qed.

(** The deletions of a whole pass over the pool [ns]/[name]. *)
Definition poolDeletes (ns name : string) : precondition callE := λ X h e,
  match e with
  | Delete KVsphereAgent o _ => ∃ pool, In (Event (Get apiReader KVsphereAgentPool ns name) (Ok pool)) h ∧
      vsphereAgentBelongsToPool o (poolName pool) = true ∧
      (isDeleting (pl_Meta pool) = true ∨
       ∃ now snap vm, planSnapshot pool h now snap ∧ cleanupEnabled pool = true ∧ In vm (sn_OwnedVMs snap) ∧
         vm_Source vm ≠ vmSourceDiscoveredAgent ∧ deletable now snap vm ∧ namesVM vm o = true ∧
         prepared apiReader (applySpecDefaults pool) vm h)
  | Delete _ _ _ => False
  | Govc args | GovcStart args => isDestroy args = false
  | _ => True
  end.

Lemma benign_poolDeletes ns name X h (e : callE X) : benign X h e → poolDeletes ns name X h e.
Proof. by destruct e. Qed.

Lemma always_poolDeletes {A} ns name (p : program A) h :
  always benign p → safe anyAnswer (poolDeletes ns name) h p (λ _ _, True).
Proof. intros Hp. eapply safe_ok_mono; [apply Hp|apply benign_poolDeletes]. Qed.

Lemma cleanupEnabled_defaults pool : cleanupEnabled (applySpecDefaults pool) = cleanupEnabled pool.
Proof.
  unfold cleanupEnabled, applySpecDefaults. cbn [pl_Spec ps_CleanupPolicy]. unfold orElse.
  destruct (_ == "") eqn:E; [|done]. gobool. by rewrite E.
Qed.

(** From the plan on. *)
Lemma runPlan_safe ns name h pool0 pool snap t url :
  In (Event (Get apiReader KVsphereAgentPool ns name) (Ok pool0)) h →
  pl_Meta pool = pl_Meta pool0 → pl_Spec pool = pl_Spec (applySpecDefaults pool0) → planSnapshot pool0 h t snap →
  safe anyAnswer (poolDeletes ns name) h (runPlan apiReader ProviderFactory pool (buildPlan t pool snap) url)
    (λ _ _, True).
Proof.
  intros Hin Hm Hs Hsnap. unfold runPlan. apply safe_bind. eapply safe_mono.
  { eapply safe_ok_mono_ext; [apply applyPlan_safe|]. intros X new e. destruct e; simpl; try done.
    destruct k; try done. intros (vm & Hvm & Hb & Hn & Hp). exists pool0.
    split; [apply in_app_iff; by right|]. unfold poolName in *. rewrite Hm in Hb. split; [done|]. right.
    apply buildPlan_deletable in Hvm as (Hc & Ho & _ & Hsrc & Hd).
    exists t, snap, vm. rewrite <- cleanupEnabled_defaults. unfold cleanupEnabled in *. rewrite <- Hs.
    split_and!; try done; [eapply planSnapshot_grows; [by exists new|done]|by apply (prepared_same _ _ pool)]. }
  intros h1 [pool1 [[]|e]] [Hm1 Hs1]; cbv beta iota.
  - apply always_poolDeletes. solve_always.
  - apply always_poolDeletes. solve_always.
Qed.

Lemma poolDeletes_bind {A B} ns name pool0 (p : program A) (f : A → program B) h :
  always benign p → In (Event (Get apiReader KVsphereAgentPool ns name) (Ok pool0)) h →
  (∀ h' a, In (Event (Get apiReader KVsphereAgentPool ns name) (Ok pool0)) h' → grows h h' → ran p a h' →
    safe anyAnswer (poolDeletes ns name) h' (f a) (λ _ _, True)) →
  safe anyAnswer (poolDeletes ns name) h (bind p f) (λ _ _, True).
Proof.
  intros Hp Hi Hf. apply safe_bind. eapply safe_mono; [by apply safe_ran, always_poolDeletes|].
  intros h' a (_ & Hg & Hr). apply Hf; [by eapply In_grows|done|done].
Qed.

Lemma ran_call {X} (e : callE X) x h : ran (call e) x h → In (Event e x) h.
Proof.
  intros (h1 & h2 & Hr & Hg). apply (In_grows h2 h _ Hg). apply reach_inv in Hr as [[_ Hr]|(y & _ & Hr)]; [done|].
  apply reach_inv in Hr as [[-> [= ->]]|[]]. by left.
Qed.

Lemma observeAndPlan_safe ns name h pool0 ownedVMs url :
  let pool := applySpecDefaults pool0 in
  In (Event (Get apiReader KVsphereAgentPool ns name) (Ok pool0)) h → ran (listVsphereAgentVMs pool) (Ok ownedVMs) h →
  safe anyAnswer (poolDeletes ns name) h
    (observeAndPlan apiReader ProviderFactory
       (setOwnedVMs pool (mergeOwnedVMStatuses (pt_OwnedVMs (pl_Status pool)) ownedVMs)) url) (λ _ _, True).
Proof.
  intros pool Hin Hvms. unfold observeAndPlan. set (pool1 := setOwnedVMs pool _).
  apply (poolDeletes_bind _ _ pool0); [solve_always|done|].
  intros h1 [[]|e] Hi1 Hg1 _; [|apply always_poolDeletes; solve_always].
  apply (poolDeletes_bind _ _ pool0); [solve_always|done|].
  intros h2 [agents|e] Hi2 Hg2 Ha; [|apply always_poolDeletes; solve_always].
  apply (poolDeletes_bind _ _ pool0); [unfold listNodePoolMachines; solve_always|done|].
  intros h3 [machines|e] Hi3 Hg3 Hma; [|apply always_poolDeletes; solve_always].
  apply (poolDeletes_bind _ _ pool0); [unfold countAgentMachineDemand; solve_always|done|].
  intros h4 [demand|e] Hi4 Hg4 Hde; [|apply always_poolDeletes; solve_always].
  apply (poolDeletes_bind _ _ pool0); [solve_always|done|]. intros h5 t Hi5 Hg5 Ht%ran_call.
  apply (poolDeletes_bind _ _ pool0); [solve_always|done|]. intros h6 clock Hi6 Hg6 Hcl%ran_call.
  apply (poolDeletes_bind _ _ pool0); [solve_always|done|]. intros h7 now Hi7 Hg7 Hnow%ran_call.
  apply (runPlan_safe _ _ _ pool0); [done|done|done|].
  exists ownedVMs, agents, machines, demand, t, clock. cbv zeta. fold pool. fold pool1.
  split_and!; [eapply ran_grows, Hvms|eapply ran_grows, Ha|eapply ran_grows, Hma|eapply ran_grows, Hde|eapply In_grows, Ht|
    eapply In_grows, Hcl|done|done]; eauto 10 with grows.
Qed.

Lemma poolDelete_safe ns name h pool :
  In (Event (Get apiReader KVsphereAgentPool ns name) (Ok pool)) h → isDeleting (pl_Meta pool) = true →
  safe anyAnswer (poolDeletes ns name) h (reconcileDelete apiReader (applySpecDefaults pool)) (λ _ _, True).
Proof.
  intros Hin Hd. unfold reconcileDelete, listVsphereAgentsForPool. apply safe_bindOk, safe_bindOk.
  split; [done|]. intros [items|e] _; cbn [safe]; [|done].
  destruct (List.filter _ items) as [|a0 agents] eqn:Ef.
  { apply always_poolDeletes. solve_always. }
  apply safe_bindOk. eapply (safe_mono _ _ _ _ (λ _ _, True)); [|by intros h' [[]|e] _].
  apply (safe_forEach _ _ _ _ _ (λ _ h', In (Event (Get apiReader KVsphereAgentPool ns name) (Ok pool)) h'));
    [by right| |done].
  intros pre a post h' Hl Hi. destruct (isDeleting (va_Meta a)); [done|]. apply safe_bind. split.
  - exists pool. split; [done|]. split; [|by left].
    assert (In a (List.filter (λ agent, vsphereAgentBelongsToPool agent (poolName pool)) items)) as Ha.
    { unfold poolName in *. cbn [pl_Meta applySpecDefaults] in Ef. rewrite Ef, Hl. apply in_app_iff. right. by left. }
    by apply filter_In in Ha as [_ Ha].
  - intros [[]|e] _; cbn [safe]; [by right|]. destruct (IsNotFound e); cbn; [by right|done].
Qed.

Lemma Reconcile_deletes ns name :
  safe anyAnswer (poolDeletes ns name) [] (Reconcile apiReader ProviderFactory ns name) (λ _ _, True).
Proof.
  unfold Reconcile. apply safe_bind. split; [done|]. intros [pool|e] _; cbn [safe]; [|by destruct (IsNotFound e)].
  destruct (isDeleting (pl_Meta pool)) eqn:Ed; cbn [pl_Meta applySpecDefaults]; rewrite Ed; cbn [negb].
  { apply poolDelete_safe; [by left|done]. }
  destruct (AddFinalizer _ _) as [added meta]. destruct added; [apply always_poolDeletes; solve_always|].
  unfold reconcileLivePool, infraEnvAvailable, discoveryISOAvailable.
  apply (poolDeletes_bind _ _ pool); [solve_always|by left|]. intros h1 [[available url] message] Hi1 _ _.
  destruct available; cbn [negb]; [|apply always_poolDeletes; solve_always].
  apply (poolDeletes_bind _ _ pool); [solve_always|done|].
  intros h2 [vms|e] Hi2 _ Hvms; [|apply always_poolDeletes; solve_always].
  by apply (observeAndPlan_safe _ _ _ pool).
Qed.
End pool_proofs.

(** ** Lemmas for the other properties *)
Section pool_lemmas.
Context `{KubeLib} `{!KubeLaws}.

(** [o'] has the fields of [o] off the path. *)
Definition keepsOff (path : list string) (o o' : any) : Prop :=
  ∀ p, pathsDiverge path p = true → NestedString o' p = NestedString o p ∧ NestedBool o' p = NestedBool o p.

Lemma keepsOff_set o v path o' : SetNestedField o v path = Ok o' → keepsOff path o o'.
Proof. intros Hs p Hp. by destruct (SetNestedField_other _ _ _ _ _ Hs Hp) as (? & ? & _). Qed.

Lemma keepsOff_refl path o : keepsOff path o o.
Proof. done. Qed.

Lemma keepsOff_string path o o' p :
  keepsOff path o o' → pathsDiverge path p = true → NestedString o' p = NestedString o p.
Proof. intros Hk Hp. by apply Hk. Qed.

Lemma keepsOff_bool path o o' p :
  keepsOff path o o' → pathsDiverge path p = true → NestedBool o' p = NestedBool o p.
Proof. intros Hk Hp. by apply Hk. Qed.

(** A patched Agent is what the binding says. *)
Lemma boundObject_spec binding hostname check e object object' :
  boundObject binding hostname check e object = Ok object' →
  hostname ≠ "" ∧ NestedString object' ["spec"; "role"] = ab_Role binding ∧
  NestedString object' ["spec"; "hostname"] = hostname ∧
  NestedBool object' ["spec"; "approved"] =
    (match ab_Approve binding with None => true | Some b => b end || NestedBool object ["spec"; "approved"]) ∧
  NestedString object' ["spec"; "clusterDeploymentName"; "name"] =
    NestedString object ["spec"; "clusterDeploymentName"; "name"].
Proof.
  unfold boundObject. destruct (SetNestedField object _ _) as [o1|] eqn:E1; [|done].
  destruct (hostname == "") eqn:Eh; [done|]. gobool.
  destruct (if NestedString o1 ["spec"; "hostname"] != hostname then _ else _) as [o2|] eqn:E2; [|done].
  destruct (match check with Some c => _ | None => _ end) as [o3|] eqn:E3; [|done].
  set (approve := match ab_Approve binding with None => true | Some b => b end). intros E4.
  pose proof (keepsOff_set _ _ _ _ E1) as D1.
  assert (keepsOff ["spec"; "hostname"] o1 o2 ∧ NestedString o2 ["spec"; "hostname"] = hostname) as [D2 Hh].
  { destruct (_ != hostname) eqn:Ec in E2.
    - split; [by eapply keepsOff_set|by apply SetNestedField_string in E2].
    - injection E2 as <-. by gobool. }
  assert (keepsOff ["spec"; "installation_disk_id"] o2 o3) as D3.
  { destruct check; [by eapply keepsOff_set|by injection E3 as ->]. }
  assert (keepsOff ["spec"; "approved"] o3 object' ∧
    NestedBool object' ["spec"; "approved"] = approve || NestedBool o3 ["spec"; "approved"]) as [D4 Ha].
  { destruct approve; [split; [by eapply keepsOff_set|by apply SetNestedField_bool in E4]|by injection E4 as ->]. }
  apply SetNestedField_string in E1. split; [done|].
  rewrite Ha, !(keepsOff_string _ _ _ _ D4), !(keepsOff_string _ _ _ _ D3) by reflexivity.
  rewrite (keepsOff_bool _ _ _ _ D3), (keepsOff_bool _ _ _ _ D2), (keepsOff_bool _ _ _ _ D1) by reflexivity.
  rewrite (keepsOff_string _ _ _ ["spec"; "role"] D2) by reflexivity.
  rewrite (keepsOff_string _ _ _ ["spec"; "clusterDeploymentName"; "name"] D2) by reflexivity.
  rewrite (keepsOff_string _ _ _ ["spec"; "clusterDeploymentName"; "name"] D1) by reflexivity. done.
Qed.

Lemma boundObject_disk binding hostname c e object object' :
  boundObject binding hostname (Some c) e object = Ok object' →
  NestedString object' ["spec"; "installation_disk_id"] = sf_InstallationDiskID c.
Proof.
  unfold boundObject. destruct (SetNestedField object _ _) as [o1|]; [|done].
  destruct (hostname == ""); [done|].
  destruct (if NestedString o1 ["spec"; "hostname"] != hostname then _ else _) as [o2|]; [|done].
  destruct (SetNestedField o2 _ _) as [o3|] eqn:E3; [|done]. apply SetNestedField_string in E3.
  destruct (match ab_Approve binding with None => true | Some b => b end); [|by intros [= <-]].
  intros E4. by rewrite (proj1 (SetNestedField_other _ _ _ _ ["spec"; "installation_disk_id"] E4 eq_refl)).
Qed.

Lemma boundLabels_ref binding hostname labels :
  boundLabels binding hostname labels !! agentMachineRefKey = labels !! agentMachineRefKey.
Proof.
  unfold boundLabels, keptBindingLabels. rewrite !lookup_insert_ne by discriminate.
  apply lookup_union_r. apply map_lookup_filter_None. right. intros v _ Hn. apply Hn. simpl. auto.
Qed.

(** The patch of an Agent. *)
Definition bindsAgent (r : reader) (namespace : string) (binding : AgentBindingSpec) (name hostname : string)
    (check : option agentPatchSafety) : precondition callE := λ X h e,
  match e with
  | Patch KAgent b a l => ∃ e object, In (Event (Get r KAgent namespace name) (Ok b)) h ∧ l = true ∧
      agentDeletionBlocker b = "" ∧ annotation b agentCleanupAnnotation = "" ∧
      (∀ c, check = Some c → om_UID (un_Meta b) = sf_UID c ∧ om_ResourceVersion (un_Meta b) = sf_ResourceVersion c) ∧
      boundObject binding hostname check e (un_Object b) = Ok object ∧
      a = mkUnstructured ((un_Meta b) <| om_Labels := boundLabels binding hostname (om_Labels (un_Meta b)) |>) object
  | _ => True
  end.

Lemma patchDiscoveredAgent_safe r namespace binding name hostname check h :
  safe anyAnswer (bindsAgent r namespace binding name hostname check) h
    (patchDiscoveredAgent r namespace binding name hostname check) (λ _ _, True).
Proof.
  unfold patchDiscoveredAgent. apply safe_bindOk. split; [done|]. intros [agent|e] _; cbn [safe]; [|done].
  destruct (match check with Some c => _ | None => _ end) eqn:Ec; [done|].
  destruct ((annotation agent agentCleanupAnnotation != "") || _) eqn:Eb; [done|].
  apply orb_false_elim in Eb as [Ea Eb]. gobool.
  destruct (boundObject _ _ _ _ _) as [object|e] eqn:Eo; [|done]. apply safe_bindOk. split; [|by intros [?|?] _].
  do 2 eexists. split; [by left|]. split; [done|]. split; [done|]. split; [done|]. split; [|by split].
  intros c ->. apply orb_false_elim in Ec as [? ?]. by gobool.
Qed.

(** Merging conditions leaves the conditions of the other writers alone. *)
Lemma mergeConditions_foreign current desired t :
  isPoolReconcileCondition t = false →
  FindStatusCondition (mergePoolReconcileConditions current desired) t = FindStatusCondition current t.
Proof.
  intros Ht. unfold mergePoolReconcileConditions. revert current.
  induction desired as [|c desired IH]; intros current; simpl; [done|]. rewrite IH.
  destruct (isPoolReconcileCondition (cd_Type c)) eqn:Ec; simpl; [|done].
  apply SetStatusCondition_other. congruence.
Qed.
End pool_lemmas.

(** The writes of the two writers of a pool's status. *)
Section writers.
Context `{KubeLib} `{!KubeLaws}.
Context (apiReader : reader).

Definition otherFields (s : VsphereAgentPoolStatus) :=
  (pt_ObservedGeneration s, pt_DesiredReplicas s, pt_AgentMachines s, pt_WaitingAgentMachines s,
   pt_UnreadyAgentMachines s, pt_AgentMachinesWithoutAgent s, pt_MatchingAgents s, pt_BoundAgents s,
   pt_AvailableAgents s, pt_OwnedVMs s, pt_PlannedActions s).

(** A write of the status keeps, of the version that was read last, what the
    other writer owns. *)
Definition keepsISO : precondition callE := λ X h e,
  match e with
  | StatusUpdate KVsphereAgentPool o => ∃ ns name current,
      head h = Some (Event (Get apiReader KVsphereAgentPool ns name) (Ok current)) ∧
      pl_Meta o = pl_Meta current ∧ pl_Spec o = pl_Spec current ∧
      pt_ISO (pl_Status o) = pt_ISO (pl_Status current) ∧
      ∀ t, isPoolReconcileCondition t = false →
        FindStatusCondition (pt_Conditions (pl_Status o)) t = FindStatusCondition (pt_Conditions (pl_Status current)) t
  | _ => True
  end.

Definition writesISOOnly : precondition callE := λ X h e,
  match e with
  | StatusUpdate KVsphereAgentPool o => ∃ ns name current,
      head h = Some (Event (Get apiReader KVsphereAgentPool ns name) (Ok current)) ∧
      pl_Meta o = pl_Meta current ∧ pl_Spec o = pl_Spec current ∧
      otherFields (pl_Status o) = otherFields (pl_Status current) ∧
      is_CheckedAt (pt_ISO (pl_Status current)) ≤ is_CheckedAt (pt_ISO (pl_Status o)) ∧
      ∀ t, t ≠ conditionISOReady →
        FindStatusCondition (pt_Conditions (pl_Status o)) t = FindStatusCondition (pt_Conditions (pl_Status current)) t
  | _ => True
  end.

Lemma updateStatus_keepsISO pool plan : always keepsISO (updateStatus apiReader pool plan).
Proof.
  unfold updateStatus. apply always_bindOk; [apply always_retry|intros ?; solve_always].
  intros h. apply safe_bindOk. split; [done|]. intros [current|e] _; cbn [safe]; [|done].
  destruct (_ == _); [done|]. apply safe_bindOk. split; [|by intros [?|?] _].
  exists (poolNamespace pool), (poolName pool), current. split_and!; try done.
  intros t Ht. apply mergeConditions_foreign, Ht.
Qed.

Lemma patchPoolISOStatus_writesISO pool : always writesISOOnly (patchPoolISOStatus apiReader pool).
Proof.
  unfold patchPoolISOStatus. apply always_retry. intros h. apply safe_bindOk. split; [done|].
  intros [current|e] _; cbn [safe]; [|done]. destruct (Before _ _) eqn:Eb; [done|].
  destruct (_ == _); [done|]. apply safe_bindOk. split; [|by intros [?|?] _].
  exists (poolNamespace pool), (poolName pool), current. unfold Before in Eb. apply Z.ltb_ge in Eb.
  destruct (FindStatusCondition (pt_Conditions (pl_Status pool)) conditionISOReady) as [c|] eqn:Ec;
    split_and!; try done.
  apply FindStatusCondition_type in Ec. intros t Ht. apply SetStatusCondition_other. by rewrite Ec.
Qed.
End writers.

(** ** Properties *)
Section pool_properties.
Context `{KubeLib} `{!KubeLaws} `{NetURL} `{GovcJSON}.
Context (apiReader : reader) (ProviderFactory : VsphereAgentPool → Secret → result VMProvider).

(** C5: a pass over a pool deletes a VsphereAgent only if it belongs to the pool,
    and either the pool itself is being deleted, or cleanup is enabled and the
    VsphereAgent names an owned VM that is deletable at the time of the plan in the snapshot that this pass has
    observed (the recorded VMs, refreshed from the Agents and Machines listed, and the demand counted) and was prepared: its Machine
    is gone and its Agents are unbound, unapproved and marked. *)
Theorem pool_deletes_only_deletable
    (Hfactory : ∀ pool secret prov, ProviderFactory pool secret = Ok prov → @VMProviderLaws _ prov)
    (ns name : string) (h : hist) (o : VsphereAgent) (pre : option Preconditions)
    (k : result unit → program (result Duration))
    (Hreach : reach anyAnswer [] (Reconcile apiReader ProviderFactory ns name) h (Call (Delete KVsphereAgent o pre) k)) :
  ∃ pool, In (Event (Get apiReader KVsphereAgentPool ns name) (Ok pool)) h ∧
    vsphereAgentBelongsToPool o (poolName pool) = true ∧
    (isDeleting (pl_Meta pool) = true ∨
     ∃ now snap vm, planSnapshot apiReader pool h now snap ∧ cleanupEnabled pool = true ∧ In vm (sn_OwnedVMs snap) ∧
       vm_Source vm ≠ vmSourceDiscoveredAgent ∧ deletable now snap vm ∧ namesVM vm o = true ∧
       prepared apiReader (applySpecDefaults pool) vm h).
Proof.
  exact (safe_reach _ _ _ _ _ _ _ (Reconcile_deletes apiReader ProviderFactory Hfactory ns name) Hreach).
Qed.

(** The finalizer of a deleted pool is patched away only after a list showed
    no VsphereAgent of the pool any more: all their VMs are handled first. *)
Theorem pool_finalizer_waits_for_agents (pool before after : VsphereAgentPool) (lock : bool) (h : hist)
    (k : result VsphereAgentPool → program (result Duration))
    (Hreach : reach anyAnswer [] (reconcileDelete apiReader pool) h (Call (Patch KVsphereAgentPool before after lock) k)) :
  ContainsFinalizer (pl_Meta after) finalizerName = false ∧
  ∃ items, In (Event (ListObjs Cached KVsphereAgent (InNamespace (poolNamespace pool))) (Ok items)) h ∧
    ∀ a, In a items → vsphereAgentBelongsToPool a (poolName pool) = false.
Proof.
  pose (ok := (λ X h e, match e with
    | Patch KVsphereAgentPool before after lock => ContainsFinalizer (pl_Meta after) finalizerName = false ∧
        ∃ items, In (Event (ListObjs Cached KVsphereAgent (InNamespace (poolNamespace pool))) (Ok items)) h ∧
          ∀ a, In a items → vsphereAgentBelongsToPool a (poolName pool) = false
    | _ => True end) : precondition callE).
  enough (safe anyAnswer ok [] (reconcileDelete apiReader pool) (λ _ _, True)) as Hsafe
    by exact (safe_reach _ _ _ _ _ _ _ Hsafe Hreach).
  unfold reconcileDelete, listVsphereAgentsForPool. apply safe_bindOk, safe_bindOk. split; [done|].
  intros [items|e] _; cbn [safe]; [|done].
  destruct (List.filter _ items) as [|a0 agents] eqn:Ef.
  - cbv zeta. apply safe_skip; [by apply deletePoolCapacityMetrics_always|]. intros h1 _ Hg.
    apply safe_bindOk. unfold patchFinalizer. apply safe_bindOk. split; [done|].
    intros [current|e] _; cbn [safe]; [|done]. apply safe_bindOk. split; [|by intros [?|?] _]. split.
    + simpl. by rewrite !ContainsFinalizer_removed.
    + exists items. split; [right; eapply In_grows; [exact Hg|by left]|]. intros a Ha.
      destruct (vsphereAgentBelongsToPool a (poolName pool)) eqn:Eb; [|done].
      assert (In a (List.filter (λ agent, vsphereAgentBelongsToPool agent (poolName pool)) items)) as Hf
        by by apply filter_In. by rewrite Ef in Hf.
  - assert (∀ p : program (result Duration), always ok p → ∀ h, safe anyAnswer ok h p (λ _ _, True)) as Hal by done.
    apply Hal. solve_always.
Qed.

(** C29: an Agent is bound to a VM only in the version that was read, unbound and
    not marked for cleanup, under the optimistic lock: its labels and spec then
    name the host and the role, its AgentMachine and cluster references are left
    alone, and it is approved unless the binding forbids it.  With a check, the
    version is also the one whose installation disk was verified. *)
Theorem patchDiscoveredAgent_binds (r : reader) (namespace : string) (binding : AgentBindingSpec)
    (name hostname : string) (check : option agentPatchSafety) (h : hist) (before after : Unstructured) (lock : bool)
    (k : result Unstructured → program (result unit))
    (Hreach : reach anyAnswer [] (patchDiscoveredAgent r namespace binding name hostname check) h
                (Call (Patch KAgent before after lock) k)) :
  In (Event (Get r KAgent namespace name) (Ok before)) h ∧ lock = true ∧
  agentDeletionBlocker before = "" ∧ annotation before agentCleanupAnnotation = "" ∧
  (∀ c, check = Some c → om_UID (un_Meta before) = sf_UID c ∧ om_ResourceVersion (un_Meta before) = sf_ResourceVersion c) ∧
  hostname ≠ "" ∧ label after agentMachineSelectionLabel = hostname ∧ agentSpecHostname after = hostname ∧
  label after roleLabelKey = ab_Role binding ∧ NestedString (un_Object after) ["spec"; "role"] = ab_Role binding ∧
  agentDeletionBlocker after = "" ∧
  NestedBool (un_Object after) ["spec"; "approved"] =
    (match ab_Approve binding with None => true | Some b => b end || NestedBool (un_Object before) ["spec"; "approved"]).
Proof.
  destruct (safe_reach _ _ _ _ _ _ _ (patchDiscoveredAgent_safe r namespace binding name hostname check []) Hreach)
    as (e & object & Hin & -> & Hb & Hc & Hcheck & Ho & ->).
  apply boundObject_spec in Ho as (Hh & Hr & Hn & Ha & Hcl). split_and!; try done.
  - unfold label, mapGet. simpl. unfold boundLabels. by rewrite lookup_insert_eq.
  - unfold label, mapGet. simpl. unfold boundLabels. rewrite lookup_insert_ne by discriminate.
    by rewrite lookup_insert_eq.
  - revert Hb. unfold agentDeletionBlocker, label, mapGet, agentClusterName. cbn [un_Meta un_Object].
    rewrite Hcl. change (om_Labels (_ <| om_Labels := ?m |>)) with m. by rewrite boundLabels_ref.
Qed.

(** C30: the two writers of a pool's status do not overwrite each other.  A status
    update of the pool controller keeps the cached image and every condition that
    is not its own of the version it read; a status update after a refresh of the
    image keeps everything but the image and its condition, and never replaces a
    newer check. *)
Theorem pool_status_writers_disjoint (pool : VsphereAgentPool) (plan : PoolPlan) (h h' : hist) (o o' : VsphereAgentPool)
    (k : result VsphereAgentPool → program (result VsphereAgentPool))
    (k' : result VsphereAgentPool → program (result unit))
    (Hreach : reach anyAnswer [] (updateStatus apiReader pool plan) h (Call (StatusUpdate KVsphereAgentPool o) k))
    (Hreach' : reach anyAnswer [] (patchPoolISOStatus apiReader pool) h' (Call (StatusUpdate KVsphereAgentPool o') k')) :
  keepsISO apiReader _ h (StatusUpdate KVsphereAgentPool o) ∧
  writesISOOnly apiReader _ h' (StatusUpdate KVsphereAgentPool o').
Proof.
  split.
  - exact (safe_reach _ _ _ _ _ _ _ (updateStatus_keepsISO apiReader pool plan []) Hreach).
  - exact (safe_reach _ _ _ _ _ _ _ (patchPoolISOStatus_writesISO apiReader pool []) Hreach').
Qed.

Lemma setPoolCondition_find pool t status reason message :
  ∃ c, FindStatusCondition (pt_Conditions (pl_Status (setPoolCondition pool t status reason message))) t = Some c ∧
    cd_Status c = status ∧ cd_Reason c = reason ∧ cd_Message c = message.
Proof.
  destruct (SetStatusCondition_find (pt_Conditions (pl_Status pool))
    (mkCondition t status (om_Generation (pl_Meta pool)) 0 reason message)) as (c & Hc & _ & Hs & Hr & Hm & _).
  by exists c.
Qed.

Lemma setPoolCondition_other pool t status reason message t' :
  t' ≠ t → FindStatusCondition (pt_Conditions (pl_Status (setPoolCondition pool t status reason message))) t' =
    FindStatusCondition (pt_Conditions (pl_Status pool)) t'.
Proof.
  intros Hne. apply (SetStatusCondition_other (pt_Conditions (pl_Status pool))
    (mkCondition t status (om_Generation (pl_Meta pool)) 0 reason message)). done.
Qed.

(** The conditions of a pass that the outcome reads. *)
Lemma setPlanConditions_find (pool : VsphereAgentPool) (plan : PoolPlan) (errMessage : string) :
  let conditions := pt_Conditions (pl_Status (setPlanConditions pool plan errMessage)) in
  (∃ c, FindStatusCondition conditions conditionReady = Some c ∧
     cd_Status c = (if errMessage != "" then ConditionFalse else ConditionTrue) ∧
     cd_Message c = (if errMessage != "" then errMessage else "Agent capacity bridge reconciled successfully")) ∧
  (∃ c, FindStatusCondition conditions conditionVsphereReady = Some c ∧
     cd_Status c = conditionStatus (errMessage == "")) ∧
  (∃ c, FindStatusCondition conditions conditionCapacitySatisfied = Some c ∧
     cd_Status c = conditionStatus (pp_DemandDeficit plan == 0)) ∧
  FindStatusCondition conditions conditionISOReady = FindStatusCondition (pt_Conditions (pl_Status pool)) conditionISOReady.
Proof.
  cbv zeta. unfold setPlanConditions.
  set (p1 := setPoolCondition pool conditionReady _ _ _).
  set (p2 := setPoolCondition p1 conditionAgentMachineDemand _ _ _).
  set (p3 := setPoolCondition p2 conditionInfraEnvAvailable _ _ _).
  set (p4 := setPoolCondition p3 conditionCapacitySatisfied _ _ _).
  rewrite (setPoolCondition_other p4 _ _ _ _ conditionReady), (setPoolCondition_other p4 _ _ _ _ conditionISOReady),
    (setPoolCondition_other p4 _ _ _ _ conditionCapacitySatisfied) by discriminate.
  split; [|split; [|split]].
  - unfold p4, p3, p2. rewrite !setPoolCondition_other by discriminate.
    destruct (setPoolCondition_find pool conditionReady (if errMessage != "" then ConditionFalse else ConditionTrue)
      (if errMessage != "" then "ApplyFailed" else "Reconciled")
      (if errMessage != "" then errMessage else "Agent capacity bridge reconciled successfully"))
      as (c & Hc & Hs & _ & Hm). exists c. split_and!; [exact Hc|done|done].
  - destruct (setPoolCondition_find p4 conditionVsphereReady (conditionStatus (errMessage == ""))
      (if errMessage != "" then "Error" else "Ready")
      (if errMessage != "" then errMessage else "vSphere bridge did not report an error")) as (c & Hc & Hs & _).
    exists c. split; [exact Hc|done].
  - destruct (setPoolCondition_find p3 conditionCapacitySatisfied (conditionStatus (pp_DemandDeficit plan == 0))
      (if pp_DemandDeficit plan != 0 then "Deficit" else "Satisfied") (capacityMessage plan)) as (c & Hc & Hs & _).
    exists c. split; [exact Hc|done].
  - unfold p4, p3, p2, p1. by rewrite !setPoolCondition_other by discriminate.
Qed.

(** The published conditions tell the outcome of the pass: Ready and
    VsphereReady are True exactly when the plan was applied without an error and
    otherwise carry its message, and CapacitySatisfied is True exactly when no
    demand is left uncovered. *)
Theorem setPlanConditions_outcome (pool : VsphereAgentPool) (plan : PoolPlan) (errMessage : string) :
  let conditions := pt_Conditions (pl_Status (setPlanConditions pool plan errMessage)) in
  (IsStatusConditionTrue conditions conditionReady = true ↔ errMessage = "") ∧
  (IsStatusConditionTrue conditions conditionVsphereReady = true ↔ errMessage = "") ∧
  (IsStatusConditionTrue conditions conditionCapacitySatisfied = true ↔ pp_DemandDeficit plan = 0) ∧
  (errMessage ≠ "" → ∃ c, FindStatusCondition conditions conditionReady = Some c ∧ cd_Message c = errMessage) ∧
  FindStatusCondition conditions conditionISOReady = FindStatusCondition (pt_Conditions (pl_Status pool)) conditionISOReady.
Proof.
  destruct (setPlanConditions_find pool plan errMessage) as ((c1 & E1 & Hs1 & Hm1) & (c5 & E5 & Hs5) & (c4 & E4 & Hs4) & EI).
  cbv zeta in *. unfold IsStatusConditionTrue. rewrite E1, E4, E5, EI, Hs1, Hs4, Hs5. unfold conditionStatus.
  assert (∀ b : bool, ((if b then ConditionTrue else ConditionFalse) == ConditionTrue) = b) as Hb by (by intros []).
  rewrite !Hb. split; [destruct (decide (errMessage = "")); by bdsimp|].
  split; [apply bool_decide_eq_true|]. split; [apply bool_decide_eq_true|]. split; [|done].
  intros He. exists c1. split; [done|]. rewrite Hm1. by bdsimp.
Qed.

(** An Agent of the result of listMatchingAgents, before the claims of other
    pools are considered. *)
Definition matchedAgent (pool : VsphereAgentPool) (items : list Unstructured) (workers : list OpenStackAgent)
    (a : AgentInfo) : Prop :=
  ∃ o machineName, In o items ∧ a = agentInfoOf o machineName ∧ openStackOwnsHost o workers = false ∧
    (agentAssociatedWithOwnedVM (pt_OwnedVMs (pl_Status pool)) a = true ∨ agentIsCandidate pool o a = true).

Lemma observeAgents_safe h pool items workers (Q : hist → result (list AgentInfo) → Prop) :
  (∀ h' agents, grows h h' → Forall (matchedAgent pool items workers) agents → Q h' (Ok agents)) →
  (∀ h' e, Q h' (Err e)) →
  safe anyAnswer (λ _ _ _, True) h (forFold items [] (observeAgent apiReader pool workers)) Q.
Proof.
  intros HQ HE.
  apply (safe_forFold _ _ _ _ _ _ (λ agents h', grows h h' ∧ Forall (matchedAgent pool items workers) agents)).
  - split; [apply grows_refl|constructor].
  - intros o agents h' Ho [Hg Hall]. unfold observeAgent. destruct (openStackOwnsHost o workers) eqn:Eo; [done|].
    apply safe_bindOk. eapply safe_mono; [apply safe_extends, safe_trivial|].
    intros h'' [machineName|e] [_ [new ->]]; [|apply HE].
    assert (grows h (new ++ h')) as Hg' by (eapply grows_trans; [done|by exists new]).
    destruct (agentAssociatedWithOwnedVM _ _ || _) eqn:Em; [|done]. split; [done|].
    apply Forall_app. split; [done|]. constructor; [|constructor]. exists o, machineName. split_and!; try done.
    by apply orb_true_iff.
  - intros agents h' [Hg Hall]. by apply HQ.
Qed.

(** An Agent that a pass works with was listed, is not the host of an OpenStack
    worker, is associated with an owned VM or is a candidate of the pool (its
    InfraEnv, cluster, discriminator and labels match), and is not claimed by a
    VsphereAgent of another pool. *)
Theorem listMatchingAgents_sound (pool : VsphereAgentPool) (h : hist) (agents : list AgentInfo)
    (Hrun : reach anyAnswer [] (listMatchingAgents apiReader pool) h (Return (Ok agents))) :
  ∃ items workers,
    In (Event (ListObjs Cached KAgent (InNamespace (poolNamespace pool))) (Ok items)) h ∧
    In (Event (ListObjs apiReader KOpenStackAgent (InNamespace (poolNamespace pool))) (Ok workers)) h ∧
    ∀ a, In a agents → matchedAgent pool items workers a ∧
      ∃ vsphereAgents,
        In (Event (ListObjs Cached KVsphereAgent (InNamespace (poolNamespace pool))) (Ok vsphereAgents)) h ∧
        agentClaimedByOtherPool a pool vsphereAgents = false.
Proof.
  pose (Q := λ (h : hist) (r : result (list AgentInfo)), match r with Err _ => True | Ok agents =>
    ∃ items workers,
      In (Event (ListObjs Cached KAgent (InNamespace (poolNamespace pool))) (Ok items)) h ∧
      In (Event (ListObjs apiReader KOpenStackAgent (InNamespace (poolNamespace pool))) (Ok workers)) h ∧
      ∀ a, In a agents → matchedAgent pool items workers a ∧
        ∃ vsphereAgents,
          In (Event (ListObjs Cached KVsphereAgent (InNamespace (poolNamespace pool))) (Ok vsphereAgents)) h ∧
          agentClaimedByOtherPool a pool vsphereAgents = false end).
  enough (safe anyAnswer (λ _ _ _, True) [] (listMatchingAgents apiReader pool) Q) as Hsafe
    by exact (safe_reach _ _ _ _ _ _ _ Hsafe Hrun).
  clear. unfold listMatchingAgents. apply safe_bindOk. split; [done|]. intros [items|e] _; cbn [safe]; [|done].
  apply safe_bindOk. split; [done|]. intros [workers|e] _; cbn [safe]; [|done].
  apply safe_bindOk. apply (observeAgents_safe _ _ items); [|done]. intros h agents Hg Hall.
  unfold filterAgentsClaimedByOtherPools. destruct agents as [|a0 agents].
  { exists items, workers. split_and!; [| |done]; (eapply In_grows; [exact Hg|]); [right|]; by left. }
  apply safe_bindOk. split; [done|]. intros [vas|e] _; cbn [safe]; [|done].
  rewrite List.Forall_forall in Hall.
  destruct vas as [|v vas]; exists items, workers; split_and!; try (right; eapply In_grows; [exact Hg|]; simpl; tauto).
  - intros a Ha. split; [by apply Hall|]. exists []. split; [by left|done].
  - intros a Ha. apply filter_In in Ha as [Ha Hc]. split; [by apply Hall|]. exists (v :: vas).
    split; [by left|]. by apply negb_true_iff.
Qed.
End pool_properties.
