(* ===== verification/PoolMetrics.v ===== *)
(** * The metric series of a pool

    The metric calls of the VsphereAgentPool controller (Telemetry.v) against a
    registry (Metrics.v): no call panics, a pass changes the gauges of its own pool
    only, a published status is what the gauges show, and a pool that gives up its
    finalizer leaves no series behind. *)
From S2P Require Import Prelude Api Identity Planner OwnedVMs VsphereObjects Sha256 Metrics Effects K8s Telemetry Objects.
From S2P Require Import VmCleanup VMProvider IsoCache InfraEnv AgentMachine VsphereAgent PoolController.

(** The operations of a run, in order. *)
Fixpoint metricsOf (h : hist) : list metricOp :=
  match h with
  | [] => []
  | Event (Metric op) _ :: h => metricsOf h ++ [op]
  | _ :: h => metricsOf h
  end.

Definition registryAfter `{Prometheus} (r : Registry) (h : hist) : Registry := metricSteps (metricsOf h) r.

(** A metric call of the pool: its labels are those of its vector, so With does not
    panic, and a gauge is one of the pool. *)
Definition metricCall (pool : VsphereAgentPool) : precondition callE := λ X _ e,
  match e with Metric op => consistent op ∧ opOfPool pool op | _ => True end.

(** A call of a pass over a pool that is not being deleted: a patch of the pool leaves it its finalizer. *)
Definition liveCall `{KubeLib} (pool : VsphereAgentPool) : precondition callE := λ X h e,
  match e with
  | Metric op => metricCall pool unit h (Metric op)
  | Patch KVsphereAgentPool _ after _ => ContainsFinalizer (pl_Meta after) finalizerName = true
  | _ => True
  end.

(** What the gauges of a pool show of a plan and of the VM template, state by state. *)
Definition planShown `{Prometheus} (pool : VsphereAgentPool) (plan : PoolPlan) (r : Registry) : Prop :=
  let labels : Labels := {[ "namespace" := om_Namespace (pl_Meta pool); "pool" := om_Name (pl_Meta pool) ]} in
  let capacity state := series r poolCapacityGauge (<["state" := state]> labels) in
  let template := ps_Template (pl_Spec pool) in
  capacity "desired" = Some (pp_DesiredReplicas plan) ∧
  capacity "agent_machines" = Some (pp_AgentMachines plan) ∧
  capacity "waiting_agent_machines" = Some (pp_WaitingAgentMachines plan) ∧
  capacity "unready_agent_machines" = Some (pp_UnreadyAgentMachines plan) ∧
  capacity "without_agent" = Some (pp_AgentMachinesWithoutAgent plan) ∧
  capacity "matching_agents" = Some (pp_MatchingAgents plan) ∧
  capacity "bound_agents" = Some (pp_BoundAgents plan) ∧
  capacity "available_agents" = Some (pp_AvailableAgents plan) ∧
  capacity "pending_owned_vms" = Some (pp_PendingOwnedVMs plan) ∧
  capacity "demand_deficit" = Some (pp_DemandDeficit plan) ∧
  series r poolVMCPUCoresGauge labels = Some (vt_NumCPUs template) ∧
  series r poolVMMemoryBytesGauge labels = Some (vt_MemoryMiB template * 2 ^ 20) ∧
  series r poolVMDiskBytesGauge labels = Some (vt_DiskGiB template * 2 ^ 30).

(** ** Lemmas *)
Lemma metricsOf_grows h h' : grows h h' → ∃ ops, metricsOf h' = metricsOf h ++ ops.
Proof.
  intros [new ->]. induction new as [|[X e x] new [ops IH]]; simpl; [exists []; by rewrite app_nil_r|].
  destruct e; try (by exists ops). exists (ops ++ [op]). by rewrite IH, app_assoc.
Qed.

Lemma metricCalls_safe (ok : precondition callE) ops h (Q : hist → unit → Prop) :
  (∀ h op, In op ops → ok unit h (Metric op)) →
  (∀ h', grows h h' → metricsOf h' = metricsOf h ++ ops → Q h' tt) →
  safe anyAnswer ok h (metricCalls ops) Q.
Proof.
  revert h. induction ops as [|op ops IH]; intros h Hok HQ; cbn [metricCalls].
  { apply HQ; [apply grows_refl|by rewrite app_nil_r]. }
  apply safe_bind. split; [apply Hok; by left|]. intros [] _. apply IH; [intros; apply Hok; by right|].
  intros h' Hg Hm. apply HQ; [|by rewrite Hm; simpl; rewrite <- app_assoc].
  eapply grows_trans; [|exact Hg]. apply grows_cons, grows_refl.
Qed.

Lemma poolLabels_meta pool pool' : pl_Meta pool' = pl_Meta pool → poolLabels pool' = poolLabels pool.
Proof. intros Hm. unfold poolLabels. by rewrite Hm. Qed.

Lemma opOfPool_meta pool pool' op : pl_Meta pool' = pl_Meta pool → opOfPool pool' op → opOfPool pool op.
Proof. intros Hm. destruct op; simpl; unfold seriesOfPool; by rewrite ?(poolLabels_meta pool pool') by done. Qed.

Section metrics.
Context `{KubeLib} (pool : VsphereAgentPool).

Lemma mc_event k o t r a n : always (liveCall pool) (call (Eventf k o t r a n)).
Proof. by apply always_call. Qed.

Lemma mc_ops ops : Forall (λ op, consistent op ∧ opOfPool pool op) ops → always (liveCall pool) (metricCalls ops).
Proof. intros Hf h. apply metricCalls_safe; [|done]. intros h' op Hin. by apply (proj1 (List.Forall_forall _ _) Hf). Qed.

Lemma mc_counted v o r : isPoolGauge v = false → always (liveCall pool) (call (Metric (countedAs v o r))).
Proof. intros Hv. apply always_call. intros h. destruct v; try done; (split; [by vm_compute|done]). Qed.

Lemma mc_recordISO {A} o (err : result A) : always (liveCall pool) (recordISOOperation o err).
Proof. by apply mc_counted. Qed.

Lemma mc_recordCapacity pool' plan :
  pl_Meta pool' = pl_Meta pool → always (liveCall pool) (recordPoolCapacityMetrics pool' plan).
Proof.
  intros Hm. apply mc_ops. eapply Forall_impl; [apply poolCapacityOps_ok|]. intros op [? ?].
  split; [done|]. by apply (opOfPool_meta pool pool').
Qed.

Lemma providerCall_metric X h (e : callE X) : providerCall destroysNothing X h e → liveCall pool X h e.
Proof. by destruct e. Qed.
End metrics.
#[export] Hint Resolve mc_event mc_recordISO mc_counted : always.

Section pool_metrics.
Context `{KubeLib} `{!KubeLaws} `{NetURL} `{GovcJSON}.
Context (apiReader : reader) (ProviderFactory : VsphereAgentPool → Secret → result VMProvider).
Context (Hfactory : ∀ pool secret prov, ProviderFactory pool secret = Ok prov → @VMProviderLaws _ prov).
Context (pool0 : VsphereAgentPool).

Abbreviation ok := (liveCall pool0).
Abbreviation ofPool pool := (pl_Meta pool = pl_Meta pool0).

Lemma mc_updateStatus pool plan : ofPool pool → always ok (updateStatus apiReader pool plan).
Proof.
  intros Hm. unfold updateStatus. apply always_bindOk; [apply always_retry; solve_always|intros updated].
  apply always_bind; [by apply mc_recordCapacity|intros ?; solve_always].
Qed.

Lemma mc_setStatusError pool reason message (f : VsphereAgentPool → program (result Duration)) :
  ofPool pool → (∀ pool', ofPool pool' → always ok (f pool')) → always ok (bind (setStatusError pool reason message) f).
Proof. intros Hm Hf h. unfold setStatusError. apply safe_bind. split; [done|]. intros [] _. by apply Hf. Qed.

Lemma mc_failObservation pool reason e : ofPool pool → always ok (failObservation apiReader pool reason e).
Proof.
  intros Hm. apply mc_setStatusError; [done|]. intros pool' Hm'.
  apply always_bindOk; [by apply mc_updateStatus|intros ?; solve_always].
Qed.

(** The image cache. *)
Lemma mc_ensureISOCache `{VMProvider} `{!VMProviderLaws} pool url h :
  ofPool pool → safe anyAnswer ok h (ensureISOCache pool url) (λ _ r, ofPool r.1).
Proof.
  intros Hm. unfold ensureISOCache. apply safe_bind. split; [done|]. intros t _. cbn [safe].
  destruct (negb _); [done|]. apply safe_bind.
  eapply safe_mono; [eapply safe_ok_mono; [apply EnsureISO_calls|apply providerCall_metric]|].
  assert (∀ prev stale pool h hs, safe anyAnswer ok h (pruneLoop pool prev stale hs) (λ _ _, True)) as Hp.
  { intros prev stale. induction stale as [|s stale IH]; intros p h' hs; cbn [pruneLoop]; [done|]. apply safe_bind.
    eapply safe_mono; [eapply safe_ok_mono; [apply DeleteISO_calls|apply providerCall_metric]|].
    intros h1 r _. apply safe_skip; [solve_always|]. intros h2 _ _. destruct r; [apply IH|].
    apply safe_skip; [by apply mc_event|]. intros h3 _ _. destruct (findISOHistoryEntry _ _); apply IH. }
  intros h1 [res|e] _.
  - destruct (ie_VerificationDeferred res); (apply safe_skip; [by first [apply mc_counted|apply mc_recordISO]|]); intros h2 _ _; [done|].
    apply safe_bind. eapply safe_mono; [apply Hp|]. intros h3 hs _.
    destruct (if ie_Uploaded res then _ else _) as [reason message]. cbv zeta.
    apply safe_skip; [by apply mc_event|]. by intros h4 _ _.
  - apply safe_skip; [solve_always|]. intros h2 _ _. apply safe_skip; [by apply mc_event|]. by intros h3 _ _.
Qed.

Lemma mc_recordISORefresh refreshed h :
  ofPool refreshed.1 →
  safe anyAnswer ok h (recordISORefresh apiReader refreshed) (λ _ r, match r with Ok p => ofPool p | Err _ => True end).
Proof.
  destruct refreshed as [pool err]. intros Hm. unfold recordISORefresh. apply safe_bindOk.
  eapply safe_mono; [apply always_retry; solve_always|]. intros h' [[]|e] _; [|done]. by destruct err.
Qed.

Lemma mc_refreshISO pool url h :
  ofPool pool →
  safe anyAnswer ok h (refreshISO apiReader ProviderFactory pool url) (λ _ r, match r with Ok p => ofPool p | Err _ => True end).
Proof.
  intros Hm. unfold refreshISO. apply safe_bind. split; [done|]. intros t _. cbn [safe].
  destruct (isoCacheDue _ _ _ _); [|done]. apply safe_bind. apply provider_safe; [done|done| |].
  - intros h' e _. by apply mc_recordISORefresh.
  - intros h' prov _ Hl. apply safe_bind. eapply safe_mono; [by apply mc_ensureISOCache|].
    intros h2 r Hr. by apply mc_recordISORefresh.
Qed.

(** The plan. *)
Lemma mc_prepareVMDeletion r pool vm : always ok (prepareVMDeletion r pool vm).
Proof. unfold prepareVMDeletion, agentsForVM, markAgentForCleanup. solve_always. Qed.

Lemma mc_deletePlannedVM pool vm : always ok (deletePlannedVM apiReader pool vm).
Proof.
  pose proof mc_prepareVMDeletion. unfold deletePlannedVM, deleteVsphereAgentForVM, listVsphereAgentsForPool,
    recordNormal, recordEvent. solve_always.
Qed.

Lemma mc_patchAgents hostnames agents pool : always ok (patchAgents apiReader hostnames agents pool).
Proof.
  revert pool. induction agents as [|a agents IH]; intros pool; cbn [patchAgents]; [solve_always|].
  unfold patchAgent, patchDiscoveredAgent. solve_always.
Qed.

Lemma mc_applyPlan h pool plan :
  ofPool pool → safe anyAnswer ok h (applyPlan apiReader pool plan) (λ _ r, ofPool r.1).
Proof.
  intros Hm. unfold applyPlan. apply safe_bind.
  eapply safe_mono; [eapply safe_ok_mono_post; [apply mc_patchAgents|apply patchAgents_pool]|].
  intros h1 [pool1 [[]|e]] [Hm1 _]; cbn [fst] in *; cbv beta iota; [|cbn [safe fst]; by rewrite Hm1].
  apply safe_bind. eapply safe_mono; [apply always_forEach; intros vm; apply mc_deletePlannedVM|].
  intros h2 r _. simpl. by rewrite Hm1.
Qed.

Lemma mc_runPlan h pool plan url :
  ofPool pool → safe anyAnswer ok h (runPlan apiReader ProviderFactory pool plan url) (λ _ _, True).
Proof.
  intros Hm. unfold runPlan. apply safe_bind. eapply safe_mono; [by apply mc_applyPlan|].
  intros h1 [pool1 [[]|e]] Hm1; cbn [fst] in *; cbv beta iota zeta.
  - apply safe_bindOk. eapply safe_mono; [by apply mc_refreshISO|]. intros h2 [pool2|e] Hm2; [|done].
    apply safe_skip; [unfold recordPlan, recordEventf; solve_always|]. intros h3 _ _.
    apply safe_bindOk. eapply safe_mono; [by apply mc_updateStatus|]. by intros h4 [?|?] _.
  - apply safe_skip; [by apply mc_event|]. intros h2 _ _.
    apply safe_bindOk. eapply safe_mono; [by apply mc_updateStatus|]. by intros h4 [?|?] _.
Qed.

Lemma mc_observeAndPlan h pool url :
  ofPool pool → safe anyAnswer ok h (observeAndPlan apiReader ProviderFactory pool url) (λ _ _, True).
Proof.
  intros Hm. unfold observeAndPlan.
  apply safe_skip; [unfold ensureAgentMachineSelectorsPinned, ensureAgentMachineSelectorPinned; solve_always|].
  intros h1 [[]|e] _; [|by apply mc_failObservation].
  apply safe_skip; [unfold listMatchingAgents, filterAgentsClaimedByOtherPools, observeAgent, agentMachineName; solve_always|].
  intros h2 [agents|e] _; [|by apply mc_failObservation].
  apply safe_skip; [unfold listNodePoolMachines; solve_always|]. intros h3 [machines|e] _; [|by apply mc_failObservation].
  apply safe_skip; [unfold countAgentMachineDemand; solve_always|]. intros h4 [demand|e] _; [|by apply mc_failObservation].
  do 3 (apply safe_skip; [solve_always|]; intros ? ? _). by apply mc_runPlan.
Qed.

Lemma mc_reconcileLivePool h pool :
  ofPool pool → safe anyAnswer ok h (reconcileLivePool apiReader ProviderFactory pool) (λ _ _, True).
Proof.
  intros Hm. unfold reconcileLivePool. apply safe_skip; [unfold infraEnvAvailable, discoveryISOAvailable; solve_always|].
  intros h1 [[available url] message] _. destruct available; cbn [negb].
  - apply safe_skip.
    { assert (∀ agents, always ok (vmsOfAgents agents)) as Hv by (induction agents; cbn [vmsOfAgents]; solve_always).
      unfold listVsphereAgentVMs, listVsphereAgentsForPool. solve_always. }
    intros h2 [vms|e] _; [by apply mc_observeAndPlan|by apply mc_failObservation].
  - apply mc_setStatusError; [done|]. intros pool' Hm'.
    apply always_bindOk; [by apply mc_updateStatus|intros ?; solve_always].
Qed.

Lemma mc_patchFinalizer pool :
  ContainsFinalizer (pl_Meta pool) finalizerName = true → always ok (patchFinalizer apiReader pool).
Proof.
  intros Hc. unfold patchFinalizer. apply always_bindOk; [solve_always|intros current]. cbv zeta. rewrite Hc.
  apply always_bindOk; [|intros ?; solve_always]. apply always_call. intros h. simpl.
  destruct (AddFinalizer _ _) as [added meta] eqn:Ef. by apply (AddFinalizer_contains _ _ _ _ Ef).
Qed.

Lemma deletedLabels_meta pool :
  poolLabels (pool <| pl_Meta := RemoveFinalizer (pl_Meta pool) finalizerName |>) = poolLabels pool.
Proof. unfold poolLabels. simpl. by rewrite RemoveFinalizer_spec. Qed.

Lemma deletePoolOps_labels pool pool' : poolLabels pool' = poolLabels pool → deletePoolOps pool' = deletePoolOps pool.
Proof. unfold deletePoolOps. by intros ->. Qed.

(** What a pass that deletes the pool does to the metrics: the finalizer is patched
    away after the operations of deletePoolCapacityMetrics and no other. *)
Lemma reconcileDelete_metrics pool h :
  ofPool pool →
  safe anyAnswer (λ X h' e, metricCall pool0 X h' e ∧
      match e with Patch KVsphereAgentPool _ _ _ => metricsOf h' = metricsOf h ++ deletePoolOps pool | _ => True end)
    h (reconcileDelete apiReader pool) (λ _ _, True).
Proof.
  intros Hm. unfold reconcileDelete, listVsphereAgentsForPool. apply safe_bindOk, safe_bindOk. split; [done|].
  intros [items|e] _; cbn [safe]; [|done]. destruct (List.filter _ items) as [|a agents].
  - cbv zeta. apply safe_bind. unfold deletePoolCapacityMetrics.
    rewrite (deletePoolOps_labels pool (pool <| pl_Meta := RemoveFinalizer (pl_Meta pool) finalizerName |>))
      by apply deletedLabels_meta.
    apply metricCalls_safe.
    + intros h1 op Hin. split; [|done]. pose proof (proj1 (List.Forall_forall _ _) (deletePoolOps_ok pool) op Hin) as [? ?].
      split; [done|]. by apply (opOfPool_meta pool0 pool).
    + intros h1 _ Hops. apply safe_bindOk. unfold patchFinalizer. apply safe_bindOk. split; [done|].
      intros [current|e] _; cbn [safe]; [|done]. apply safe_bindOk. split; [|by intros [?|?] _]. done.
  - apply safe_bindOk. eapply safe_mono; [|by intros h' [?|?] _]. apply always_forEach. intros agent. solve_always; done.
Qed.
End pool_metrics.

(** ** A pass over a pool *)
Section properties.
Context `{KubeLib} `{!KubeLaws} `{NetURL} `{GovcJSON}.
Context (apiReader : reader) (ProviderFactory : VsphereAgentPool → Secret → result VMProvider).

(** What a whole pass keeps to: a metric call does not panic and touches the gauges of the pool that was read, and a
    patch that gives up the finalizer comes after the deletion of the pool's series and of nothing else. *)
Definition passCall (ns name : string) : precondition callE := λ X h e,
  match e with
  | Metric op => ∃ pool, In (Event (Get apiReader KVsphereAgentPool ns name) (Ok pool)) h ∧ consistent op ∧ opOfPool pool op
  | Patch KVsphereAgentPool _ after _ => ContainsFinalizer (pl_Meta after) finalizerName = false →
      ∃ pool, In (Event (Get apiReader KVsphereAgentPool ns name) (Ok pool)) h ∧ isDeleting (pl_Meta pool) = true ∧
        metricsOf h = deletePoolOps pool
  | _ => True
  end.

Lemma Reconcile_passCall
    (Hfactory : ∀ pool secret prov, ProviderFactory pool secret = Ok prov → @VMProviderLaws _ prov) ns name :
  safe anyAnswer (passCall ns name) [] (Reconcile apiReader ProviderFactory ns name) (λ _ _, True).
Proof.
  unfold Reconcile. apply safe_bind. split; [done|]. intros [pool|e] _; cbn [safe]; [|by destruct (IsNotFound e)].
  set (h0 := [_]). assert (∀ new, In (Event (Get apiReader KVsphereAgentPool ns name) (Ok pool)) (new ++ h0)) as Hread.
  { intros new. apply in_app_iff. right. by left. }
  destruct (negb _) eqn:Ed.
  - assert (∀ X new (e : callE X), liveCall pool X (new ++ h0) e → passCall ns name X (new ++ h0) e) as Hmono.
    { intros X new e. destruct e; simpl; try done; [by destruct k as [] eqn:?; try congruence|]. intros [? ?]. by exists pool. }
    eapply safe_ok_mono_ext; [|exact Hmono].
    destruct (AddFinalizer _ _) as [[] meta] eqn:Ef; [|by apply mc_reconcileLivePool].
    apply safe_bindOk. eapply safe_mono; [|by intros h' [?|?] _].
    apply mc_patchFinalizer. by apply (AddFinalizer_contains _ _ _ _ Ef).
  - eapply safe_ok_mono_ext; [by apply (reconcileDelete_metrics apiReader pool)|]. gobool.
    intros X new e [Hm Hp]. destruct e; simpl in *; try done; [|destruct Hm; by exists pool].
    destruct k; try done. intros _. by exists pool.
Qed.

Lemma updateStatus_metrics pool plan h :
  safe anyAnswer (λ _ _ _, True) h (updateStatus apiReader pool plan)
    (λ h' r, match r with Ok _ => ∃ hr, metricsOf h' = metricsOf hr ++ poolCapacityOps pool plan ∧
                                        metricsOf hr = metricsOf h | Err _ => True end).
Proof.
  unfold updateStatus. apply safe_bindOk.
  eapply (safe_mono _ _ _ _ (λ h' _, metricsOf h' = metricsOf h)).
  - assert (∀ n (body : program (result VsphereAgentPoolStatus)),
      (∀ h, safe anyAnswer (λ _ _ _, True) h body (λ h' _, metricsOf h' = metricsOf h)) →
      ∀ h, safe anyAnswer (λ _ _ _, True) h (retryTimes n body) (λ h' _, metricsOf h' = metricsOf h)) as Hretry.
    { induction n as [|n IH]; intros body Hb h1; cbn [retryTimes]; [apply Hb|]. apply safe_bind.
      eapply safe_mono; [apply Hb|]. intros h2 [a|e] Hm; [done|]. destruct (IsConflict e); [|done].
      eapply safe_mono; [by apply IH|]. intros h3 r ?. congruence. }
    destruct RetryOnConflict_spec as [n ->]. apply Hretry. intros h1. apply safe_bindOk. split; [done|].
    intros [current|e] _; cbn [safe]; [|done]. destruct (_ == _); [done|]. apply safe_bindOk. split; [done|].
    by intros [?|?] _.
  - intros h1 [updated|e] Hm; [|done]. cbv zeta. apply safe_bind. apply metricCalls_safe; [done|].
    intros h2 _ Hops. exists h1. split; [exact Hops|done].
Qed.

Lemma metricSteps_app `{Prometheus} ops1 ops2 r : metricSteps (ops1 ++ ops2) r = metricSteps ops2 (metricSteps ops1 r).
Proof. apply foldl_app. Qed.

Lemma metricSteps_wellLabelled `{Prometheus} `{!PrometheusLaws} ops r :
  Forall consistent ops → wellLabelled r → wellLabelled (metricSteps ops r).
Proof.
  intros Hf. revert r. induction Hf as [|op ops Hc Hf IH]; intros r Hr; [done|]. apply IH. by apply step_wellLabelled.
Qed.

Lemma metricSteps_other `{Prometheus} `{!PrometheusLaws} pool ops r v l :
  Forall (λ op, consistent op ∧ opOfPool pool op) ops → isPoolGauge v = true → ¬ seriesOfPool pool v l →
  series (metricSteps ops r) v l = series r v l.
Proof.
  intros Hf Hv Hs. revert r. induction Hf as [|op ops [Hc Ho] Hf IH]; intros r; [done|].
  etransitivity; [apply IH|]. by apply (step_other pool).
Qed.

Lemma capacityShown_other pool plan v l : ¬ seriesOfPool pool v l → capacityShown pool plan v l = None.
Proof.
  intros Hs. unfold capacityShown, stateShown.
  destruct v; try done; repeat case_match; try done; subst; destruct Hs; (split; [done|]); try done.
  apply poolLabels_subseteq_state.
Qed.

Lemma stateShown_at pool states state :
  stateShown pool states (<["state" := state]> (poolLabels pool)) = (list_to_map states : gmap string Z) !! state.
Proof.
  unfold stateShown. change (<["state" := state]> (poolLabels pool)) with (labelsWithState pool state).
  by rewrite labelsWithState_state, decide_True by done.
Qed.

Lemma poolCapacityOps_shown `{Prometheus} `{!PrometheusLaws} pool plan r :
  planShown pool plan (metricSteps (poolCapacityOps pool plan) r).
Proof.
  unfold planShown. cbv zeta. rewrite !poolCapacityOps_series.
  change (<["namespace" := om_Namespace (pl_Meta pool)]> {["pool" := om_Name (pl_Meta pool)]} : Labels) with (poolLabels pool).
  unfold capacityShown. rewrite !stateShown_at.
  rewrite !decide_True by done.
  split_and!; destruct (series r _ _); try (vm_compute; reflexivity).
  all: match goal with |- Some ?x ∪ _ = Some ?y => change (Some x = Some y) end; f_equal; lia.
Qed.

(** C31: the gauges follow the life of a pool, from any registry whose series carry the labels of their vectors.
    Once updateStatus has published a plan, each of the ten states of agent_forge_pool_capacity with the namespace and
    name of the pool is the count of that name of the plan, the CPU, memory and disk gauges show the template in
    cores and bytes, and every series that is not of this pool is as before the call.  When Reconcile is about to patch
    the pool's finalizer away, the pool it read is being deleted, no gauge has a series of it left, and the gauges of
    the other pools are as before the pass. *)
Theorem pool_metrics_lifecycle `{Prometheus} `{!PrometheusLaws}
    (Hfactory : ∀ pool secret prov, ProviderFactory pool secret = Ok prov → @VMProviderLaws _ prov)
    (r : Registry) (Hr : wellLabelled r) :
  (∀ pool pool' plan h h', reach anyAnswer h (updateStatus apiReader pool plan) h' (Return (Ok pool')) →
     planShown pool plan (registryAfter r h') ∧
     ∀ v l, ¬ seriesOfPool pool v l → series (registryAfter r h') v l = series (registryAfter r h) v l) ∧
  (∀ ns name h before after lock k,
     reach anyAnswer [] (Reconcile apiReader ProviderFactory ns name) h (Call (Patch KVsphereAgentPool before after lock) k) →
     ContainsFinalizer (pl_Meta after) finalizerName = false →
     ∃ pool, In (Event (Get apiReader KVsphereAgentPool ns name) (Ok pool)) h ∧ isDeleting (pl_Meta pool) = true ∧
       noSeries pool (registryAfter r h) ∧
       ∀ v l, isPoolGauge v = true → ¬ seriesOfPool pool v l → series (registryAfter r h) v l = series r v l).
Proof.
  split.
  - intros pool pool' plan h h' Hpub.
    pose proof (safe_reach _ _ _ _ _ _ _ (updateStatus_metrics pool plan h) Hpub) as (hr & Hops & Hsame).
    unfold registryAfter. rewrite Hops, Hsame, metricSteps_app. split; [apply poolCapacityOps_shown|].
    intros v l Hs. rewrite poolCapacityOps_series, capacityShown_other by done. by destruct (series _ v l).
  - intros ns name h before after lock k Hreach Hc.
    destruct (safe_reach _ _ _ _ _ _ _ (Reconcile_passCall Hfactory ns name) Hreach Hc) as (pool & Hin & Hd & Hops).
    exists pool. unfold registryAfter. rewrite Hops. split_and!; [done|done|by apply deletePoolOps_noSeries|].
    intros v l Hv Hs. apply (metricSteps_other pool); [apply deletePoolOps_ok|done|done].
Qed.
End properties.
