(* ===== verification/Startup.v ===== *)
(** * Start-up of the manager

    cmd/main.go and the SetupWithManager methods: the flags, the TLS options of the
    metrics server, and the order in which the controllers, the field indexes and the
    health checks are registered before the manager is started.  controller-runtime
    is not part of the repository: registration and start are calls [startE] answered
    by an arbitrary environment.  What the cache does with the registered indexes is
    its documented behaviour ([cacheAnswers]), and so is what a watch does with a change of an
    object ([watchRequests]); the theorems connect the registered watches, their predicates and
    mapping functions with the indexes that these list by. *)
From S2P Require Import Prelude Api Identity Planner OwnedVMs VsphereObjects Sha256 Metrics Effects K8s Telemetry Objects.
From S2P Require Import VmCleanup VMProvider IsoCache InfraEnv AgentMachine VsphereAgent PoolController.

(** ** filepath.Join *)
Definition cleanRelStep (stack : list string) (seg : string) : list string :=
  if is_empty seg || (seg == ".") then stack
  else if seg == ".." then
    match stack with
    | [] => [".."]
    | top :: below => if top == ".." then ".." :: stack else below
    end
  else seg :: stack.

Definition filepathClean (p : string) : string :=
  if is_empty p then "."
  else if HasPrefix p "/" then CleanRooted p
  else
    let joined := Join (rev (foldl cleanRelStep [] (Split p "/"%char))) "/" in
    if is_empty joined then "." else joined.

Definition filepathJoin (dir name : string) : string :=
  if is_empty dir then if is_empty name then "" else filepathClean name
  else filepathClean (dir +:+ "/" +:+ name).

(** ** Flags and the metrics server *)
Record flags := mkFlags {
  fl_MetricsAddr : string;
  fl_ProbeAddr : string;
  fl_EnableLeaderElection : bool;
  fl_SecureMetrics : bool;
  fl_MetricsCertPath : string;
  fl_MetricsCertName : string;
  fl_MetricsCertKey : string;
  fl_EnableHTTP2 : bool }.

(** The defaults the flags are declared with. *)
Definition defaultFlags : flags := mkFlags "0" ":8081" false true "" "tls.crt" "tls.key" false.

(** The part of tls.Config that the options set. *)
Record tlsConfig := mkTLSConfig {
  tl_NextProtos : list string;
  tl_Watched : bool }.  (* GetCertificate is the certificate watcher's *)

Inductive tlsOpt := disableHTTP2 | watchCertificate.

Definition applyTLS (c : tlsConfig) (o : tlsOpt) : tlsConfig :=
  match o with
  | disableHTTP2 => mkTLSConfig ["http/1.1"] (tl_Watched c)
  | watchCertificate => mkTLSConfig (tl_NextProtos c) true
  end.

Record metricsOptions := mkMetricsOptions {
  mo_BindAddress : string;
  mo_SecureServing : bool;
  mo_TLSOpts : list tlsOpt;
  mo_Authorised : bool }.  (* FilterProvider: WithAuthenticationAndAuthorization *)

Record managerOptions := mkManagerOptions {
  mg_Metrics : metricsOptions;
  mg_HealthProbeBindAddress : string;
  mg_LeaderElection : bool;
  mg_LeaderElectionID : string }.

Definition metricsServerOptions (f : flags) : metricsOptions :=
  mkMetricsOptions (fl_MetricsAddr f) (fl_SecureMetrics f)
    (if negb (fl_EnableHTTP2 f) then [disableHTTP2] else []) (fl_SecureMetrics f).

Definition addTLSOpt (o : metricsOptions) (t : tlsOpt) : metricsOptions :=
  mkMetricsOptions (mo_BindAddress o) (mo_SecureServing o) (mo_TLSOpts o ++ [t]) (mo_Authorised o).

(** ** Reconcilers and controllers *)
Inductive osFactory := GivenFactory | CachedFactory.

(** The fields of the five reconciler structs: the reader of the API server, the event
    recorder (by the name it was made for) and the factory of OpenStack clients. *)
Record reconciler := mkReconciler {
  rc_APIReader : option reader;
  rc_Recorder : option string;
  rc_ProviderFactory : option osFactory }.

(** The methods apiReader and reader: the reader given, else the cached client. *)
Definition readerOf (r : reconciler) : reader :=
  match rc_APIReader r with Some reader => reader | None => Cached end.

(** The types of the unstructured objects that are watched. *)
Record GroupVersionKind := mkGVK {
  gvk_Group : string;
  gvk_Version : string;
  gvk_Kind : string }.

Definition machineGVK : GroupVersionKind := mkGVK "cluster.x-k8s.io" "v1beta1" "Machine".
Definition agentMachineGVK : GroupVersionKind :=
  mkGVK "capi-provider.agent-install.openshift.io" "v1beta1" "AgentMachine".
Definition infraEnvGVK : GroupVersionKind := mkGVK "agent-install.openshift.io" "v1beta1" "InfraEnv".
Definition agentGVK : GroupVersionKind := mkGVK "agent-install.openshift.io" "v1beta1" "Agent".

#[export] Instance GroupVersionKind_eq_dec : EqDecision GroupVersionKind.
Proof. solve_decision. Defined.

(** The kind of the model that an unstructured watch object stands for. *)
Definition watchObject (gvk : GroupVersionKind) : option kind :=
  if gvk == agentMachineGVK then Some KAgentMachine
  else if gvk == machineGVK then Some KMachine
  else if gvk == agentGVK then Some KAgent
  else if gvk == infraEnvGVK then Some KInfraEnv else None.

Inductive watch :=
| Watch (k : kind) (changed : obj k → obj k → bool) (requests : obj k → program (list (string * string))).

(** The kind a controller reconciles, with the predicate on its updates. *)
Inductive forObject := For (k : kind) (changed : obj k → obj k → bool).

(** What NewControllerManagedBy is told: the objects reconciled, the kinds owned, the
    watches, the concurrency. *)
Record controllerSpec := mkControllerSpec {
  ct_Name : string;
  ct_For : forObject;
  ct_Owns : list kind;
  ct_Watches : list watch;
  ct_MaxConcurrentReconciles : Z;
  ct_Reconciler : reconciler }.

(** The types that a scheme gets: those of Kubernetes, and those of the operator with
    their lists. *)
Inductive schemeGroup :=
| clientgoscheme
| agentforgev1alpha1 (group version : string) (types : list string).

Definition addKnownTypes : schemeGroup :=
  agentforgev1alpha1 "agent-forge.containeroo.ch" "v1alpha1"
    ["OpenStackAgent"; "OpenStackAgentList"; "OpenStackAgentPool"; "OpenStackAgentPoolList";
     "VsphereAgent"; "VsphereAgentList"; "VsphereAgentPool"; "VsphereAgentPoolList"].

(** The vectors that the package of the controllers registers. *)
Definition registeredVecs : list metricVec :=
  [vmOperationsTotal; isoOperationsTotal; poolCapacityGauge; poolVMCPUCoresGauge; poolVMMemoryBytesGauge; poolVMDiskBytesGauge].

Inductive startE : Type → Type :=
| MustRegister (vecs : list metricVec) : startE (result unit)
| AddToScheme (g : schemeGroup) : startE (result unit)
| NewCertWatcher (cert key : string) : startE (result unit)
| GetConfig : startE (result unit)
| NewManager (o : managerOptions) : startE (result unit)
| GetEventRecorder (name : string) : startE unit
| IndexField (k : kind) (index : string) (extract : obj k → list string) : startE (result unit)
| Complete (c : controllerSpec) : startE (result unit)
| AddCertWatcher : startE (result unit)
| AddHealthzCheck (name : string) : startE (result unit)
| AddReadyzCheck (name : string) : startE (result unit)
| Start : startE (result unit).

(** A flag or a name that is not empty, as the value of an index. *)
Definition fieldValue (value : string) : list string := if value == "" then [] else [value].
Definition poolControlPlaneNamespaces (pool : VsphereAgentPool) : list string :=
  fieldValue (ps_ControlPlaneNamespace (pl_Spec pool)).
Definition poolInfraEnvNames (pool : VsphereAgentPool) : list string :=
  fieldValue (lor_Name (ps_InfraEnvRef (pl_Spec pool))).
Definition agentPoolNames (agent : VsphereAgent) : list string :=
  fieldValue (lor_Name (vs_PoolRef (va_Spec agent))).

Definition anyChange {k : kind} (_ _ : obj k) : bool := true.

(** [if r.Recorder == nil { r.Recorder = mgr.GetEventRecorder(name) }]. *)
Definition ensureRecorder (r : reconciler) (name : string) : prog startE reconciler :=
  match rc_Recorder r with
  | Some _ => Return r
  | None => let! _ := call (GetEventRecorder name) in
            Return (mkReconciler (rc_APIReader r) (Some name) (rc_ProviderFactory r))
  end.

Section setup.
Context `{KubeLib}.

(** VsphereAgentPoolReconciler.SetupWithManager *)
Definition setupVsphereAgentPool (r : reconciler) : prog startE (result unit) :=
  let! r := ensureRecorder r "vsphereagentpool-controller" in
  let? _ := call (IndexField KVsphereAgentPool vsphereAgentPoolControlPlaneNamespaceIndex poolControlPlaneNamespaces) in
  let? _ := call (IndexField KVsphereAgentPool vsphereAgentPoolInfraEnvNameIndex poolInfraEnvNames) in
  call (Complete (mkControllerSpec "vsphereagentpool"
    (For KVsphereAgentPool vsphereAgentPoolChangePredicate) [KVsphereAgent]
    [Watch KAgentMachine agentMachineChangePredicate requestsForControlPlaneObjectChange;
     Watch KMachine machineChangePredicate requestsForControlPlaneObjectChange;
     Watch KAgent agentChangePredicate requestsForAgentChange;
     Watch KInfraEnv anyChange requestsForInfraEnvChange] 1 r)).

(** AgentMachineReconciler.SetupWithManager *)
Definition setupAgentMachine (r : reconciler) : prog startE (result unit) :=
  call (Complete (mkControllerSpec "agentmachine" (For KAgentMachine anyChange) []
    [Watch KVsphereAgent anyChange requestsForVsphereAgent] 1 r)).

(** VsphereAgentReconciler.SetupWithManager *)
Definition setupVsphereAgent (r : reconciler) : prog startE (result unit) :=
  let! r := ensureRecorder r "vsphereagent-controller" in
  let? _ := call (IndexField KVsphereAgent vsphereAgentPoolOwnerFieldIndex agentPoolNames) in
  call (Complete (mkControllerSpec "vsphereagent" (For KVsphereAgent anyChange) []
    [Watch KVsphereAgentPool anyChange requestsForPool] 1 r)).

(** OpenStackAgentPoolReconciler.SetupWithManager *)
Definition setupOpenStackAgentPool (r : reconciler) : prog startE (result unit) :=
  call (Complete (mkControllerSpec "openstackagentpool" (For KOpenStackAgentPool anyChange) [KOpenStackAgent] [] 1 r)).

(** OpenStackAgentReconciler.SetupWithManager *)
Definition setupOpenStackAgent (r : reconciler) : prog startE (result unit) :=
  let factory := default CachedFactory (rc_ProviderFactory r) in
  call (Complete (mkControllerSpec "openstackagent" (For KOpenStackAgent anyChange) [] [] 4
    (mkReconciler (rc_APIReader r) (rc_Recorder r) (Some factory)))).

(** ** main

    The exit code: an error at any point ends the program with 1. *)
Definition orExit (p : prog startE (result unit)) (rest : prog startE Z) : prog startE Z :=
  let! r := p in match r with Err _ => Return 1 | Ok _ => rest end.

(** The certificate of the metrics server. *)
Definition withCertWatcher (f : flags) (rest : metricsOptions → prog startE Z) : prog startE Z :=
  if (0 <? String.length (fl_MetricsCertPath f))%nat then
    orExit (call (NewCertWatcher (filepathJoin (fl_MetricsCertPath f) (fl_MetricsCertName f))
                    (filepathJoin (fl_MetricsCertPath f) (fl_MetricsCertKey f))))
      (rest (addTLSOpt (metricsServerOptions f) watchCertificate))
  else rest (metricsServerOptions f).

Definition liveReader : reconciler := mkReconciler (Some Live) None None.
Definition cachedReader : reconciler := mkReconciler None None None.

(** From the controllers on. *)
Definition runManager (watched : bool) : prog startE Z :=
  orExit (setupVsphereAgentPool liveReader)
    (orExit (setupAgentMachine cachedReader)
       (orExit (setupVsphereAgent liveReader)
          (orExit (setupOpenStackAgentPool liveReader)
             (orExit (setupOpenStackAgent liveReader)
                (orExit (if watched then call AddCertWatcher else Return (Ok tt))
                   (orExit (call (AddHealthzCheck "healthz"))
                      (orExit (call (AddReadyzCheck "readyz"))
                         (orExit (call Start) (Return 0))))))))).

Definition main (f : flags) : prog startE Z :=
  withCertWatcher f (λ metrics,
    orExit (call GetConfig)
      (orExit (call (NewManager (mkManagerOptions metrics (fl_ProbeAddr f) (fl_EnableLeaderElection f)
                                   "agent-forge-operator.containeroo.ch")))
         (runManager (0 <? String.length (fl_MetricsCertPath f))%nat))).

(** utilruntime.Must panics, which ends the program with 2. *)
Definition Must (p : prog startE (result unit)) (rest : prog startE Z) : prog startE Z :=
  let! r := p in match r with Err _ => Return 2 | Ok _ => rest end.

(** The initialisation of the controllers' package and of the program, then main. *)
Definition operator (f : flags) : prog startE Z :=
  Must (call (MustRegister registeredVecs))
    (Must (call (AddToScheme clientgoscheme))
       (Must (call (AddToScheme addKnownTypes)) (main f))).
End setup.

(** ** What a started manager has been told *)
Definition answeredOk (ev : event startE) : bool :=
  match ev with
  | Event e x =>
      match e in startE X return X → bool with
      | GetEventRecorder _ => λ _, true
      | MustRegister _ | AddToScheme _ | NewCertWatcher _ _ | GetConfig | NewManager _ | IndexField _ _ _ | Complete _
      | AddCertWatcher | AddHealthzCheck _ | AddReadyzCheck _ | Start => λ r, isNil r
      end x
  end.

(** The controllers, and the options of the manager, oldest first. *)
Definition completedBy (ev : event startE) : list controllerSpec :=
  match ev with Event (Complete c) _ => [c] | _ => [] end.
Definition controllersOf (h : history startE) : list controllerSpec := rev (h ≫= completedBy).

Definition managerOptionsOf (h : history startE) : list managerOptions :=
  rev (h ≫= λ ev, match ev with Event (NewManager o) _ => [o] | _ => [] end).

(** The watches of the controller with a name. *)
Definition watchesOf (h : history startE) (name : string) : list watch :=
  match List.find (λ c, ct_Name c == name) (controllersOf h) with Some c => ct_Watches c | None => [] end.

(** The extractor of an index that was registered. *)
Definition indexedBy (k : kind) (index : string) (ev : event startE) : option (obj k → list string) :=
  match ev with
  | Event (IndexField k' index' extract) _ =>
      match decide (k' = k) with
      | left Hk => if index' == index then Some (eq_rect k' (λ k, obj k → list string) extract k Hk) else None
      | right _ => None
      end
  | _ => None
  end.

Fixpoint indexOf (h : history startE) (k : kind) (index : string) : option (obj k → list string) :=
  match h with
  | [] => None
  | ev :: h' => match indexedBy k index ev with Some extract => Some extract | None => indexOf h' k index end
  end.

(** A vector that the registry serves, and a scheme that knows the custom resources. *)
Definition isRegistered (h : history startE) (v : metricVec) : bool :=
  existsb (λ ev, match ev with Event (MustRegister vecs) _ => bool_decide (v ∈ vecs) | _ => false end) h.

(** The type of a custom resource; the other kinds are unstructured or of Kubernetes. *)
Definition typeName (k : kind) : option string :=
  match k with
  | KVsphereAgentPool => Some "VsphereAgentPool"
  | KVsphereAgent => Some "VsphereAgent"
  | KOpenStackAgentPool => Some "OpenStackAgentPool"
  | KOpenStackAgent => Some "OpenStackAgent"
  | _ => None
  end.
Definition customKinds : list string := omap typeName [KVsphereAgentPool; KVsphereAgent; KOpenStackAgentPool; KOpenStackAgent].
Definition isTyped (h : history startE) : bool :=
  existsb (λ ev, match ev with
                 | Event (AddToScheme (agentforgev1alpha1 _ _ types)) _ =>
                     forallb (λ t, bool_decide (t ∈ types) && bool_decide (t +:+ "List" ∈ types)) customKinds
                 | _ => false
                 end) h.

(** The TLS configuration of the metrics server. *)
Definition metricsTLS (o : managerOptions) (c : tlsConfig) : tlsConfig := foldl applyTLS c (mo_TLSOpts (mg_Metrics o)).

(** The controllers that record events. *)
Definition recordsEvents (name : string) : bool := (name == "vsphereagentpool") || (name == "vsphereagent").

Definition startConfigured `{KubeLib} (f : flags) (h : history startE) : Prop :=
  forallb answeredOk h = true ∧
  (∀ v, isRegistered h v = true) ∧ isTyped h = true ∧
  (∃ o, managerOptionsOf h = [o] ∧
     mo_SecureServing (mg_Metrics o) = fl_SecureMetrics f ∧
     mo_Authorised (mg_Metrics o) = mo_SecureServing (mg_Metrics o) ∧
     ∀ c, tl_NextProtos (metricsTLS o c) = (if fl_EnableHTTP2 f then tl_NextProtos c else ["http/1.1"]) ∧
          tl_Watched (metricsTLS o c) = (tl_Watched c || negb (is_empty (fl_MetricsCertPath f)))) ∧
  map ct_Name (controllersOf h) =
    ["vsphereagentpool"; "agentmachine"; "vsphereagent"; "openstackagentpool"; "openstackagent"] ∧
  Forall (λ c, readerOf (ct_Reconciler c) = if ct_Name c == "agentmachine" then Cached else Live) (controllersOf h) ∧
  Forall (λ c, recordsEvents (ct_Name c) = true → is_Some (rc_Recorder (ct_Reconciler c))) (controllersOf h) ∧
  indexOf h KVsphereAgentPool vsphereAgentPoolControlPlaneNamespaceIndex = Some poolControlPlaneNamespaces ∧
  indexOf h KVsphereAgentPool vsphereAgentPoolInfraEnvNameIndex = Some poolInfraEnvNames ∧
  indexOf h KVsphereAgent vsphereAgentPoolOwnerFieldIndex = Some agentPoolNames ∧
  watchesOf h "vsphereagentpool" =
    [Watch KAgentMachine agentMachineChangePredicate requestsForControlPlaneObjectChange;
     Watch KMachine machineChangePredicate requestsForControlPlaneObjectChange;
     Watch KAgent agentChangePredicate requestsForAgentChange;
     Watch KInfraEnv anyChange requestsForInfraEnvChange] ∧
  watchesOf h "vsphereagent" = [Watch KVsphereAgentPool anyChange requestsForPool].

(** [Start] is called by a configured manager; the exit code is 0 only when it returned without an error. *)
Definition startsConfigured `{KubeLib} (f : flags) : precondition startE := λ X h e,
  match e with Start => startConfigured f h | _ => True end.

Definition exitCodeOf (ev : event startE) : Z :=
  match ev with
  | Event e x =>
      match e in startE X return X → Z with
      | Start => λ r, if isNil r then 0 else 1
      | MustRegister _ | AddToScheme _ => λ _, 2
      | _ => λ _, 1
      end x
  end.

Definition exitCode (h : history startE) (code : Z) : Prop := exitCodeOf <$> head h = Some code.

(** ** The cache

    controller-runtime's cache answers a list from its copy of the cluster: the objects of the
    namespace for which every field selector is among the values of its index.  Without
    the index the list fails. *)
Section cache.
Context (started : history startE) (cluster : ∀ k, list (obj k)).

Definition indexed (k : kind) (opts : listOptions) : bool :=
  forallb (λ field, bool_decide (is_Some (indexOf started k field.1))) (lo_Fields opts).

Definition listed (k : kind) (opts : listOptions) (o : obj k) : bool :=
  match lo_Namespace opts with Some ns => om_Namespace (objMeta o) == ns | None => true end &&
  forallb (λ field, match indexOf started k field.1 with
                    | Some extract => bool_decide (field.2 ∈ extract o)
                    | None => false
                    end) (lo_Fields opts).

Definition cacheAnswers : answers callE := λ X _ e,
  match e in callE X return X → Prop with
  | ListObjs Cached k opts => λ r,
      match r with
      | Ok items => indexed k opts = true ∧ items ≡ₚ List.filter (listed k opts) (cluster k)
      | Err _ => indexed k opts = false
      end
  | _ => λ _, True
  end.
End cache.

(** ** Watch events

    A change that controller-runtime notices of a watched object.  The predicate of a watch filters
    updates; EnqueueRequestsFromMapFunc runs the mapping function on the object, and on both the old and
    the new one of an update. *)
Inductive change (k : kind) := Created (o : obj k) | Updated (old new : obj k) | Deleted (o : obj k).
Arguments Created {_}. Arguments Updated {_}. Arguments Deleted {_}.

Definition delivered {k} (changed : obj k → obj k → bool) (ch : change k) : bool :=
  match ch with Updated old new => changed old new | _ => true end.
Definition mappedObjects {k} (ch : change k) : list (obj k) :=
  match ch with Created o | Deleted o => [o] | Updated old new => [old; new] end.

Definition watchRequests (env : environment callE) {k} (ch : change k) (w : watch) : list (string * string) :=
  match w with
  | Watch k' changed requests =>
      match decide (k = k') with
      | left Hk => let ch := eq_rect k change ch k' Hk in
                   if delivered changed ch then mappedObjects ch ≫= λ o, (exec env [] (requests o)).2 else []
      | right _ => []
      end
  end.

(** What a change enqueues for the controller with a name. *)
Definition enqueued (started : history startE) (env : environment callE) (name : string) {k} (ch : change k) :
    list (string * string) :=
  watchesOf started name ≫= watchRequests env ch.

(** An update is of one object. *)
Definition sameObject {k} (ch : change k) : Prop :=
  match ch with
  | Updated old new => om_Name (objMeta old) = om_Name (objMeta new) ∧ om_Namespace (objMeta old) = om_Namespace (objMeta new)
  | _ => True
  end.

(** Objects of the cluster are named, and those in a namespace carry it. *)
Definition identified {k} (ch : change k) : Prop :=
  sameObject ch ∧ Forall (λ o, om_Name (objMeta o) ≠ "" ∧ om_Namespace (objMeta o) ≠ "") (mappedObjects ch).

(** A change enqueues exactly the requests of the objects of the cluster that it concerns, or is an update that
    enqueues nothing and keeps what the controller reads of the object. *)
Definition enqueues (cluster : ∀ k, list (obj k)) (k' : kind) {k} (requests : list (string * string)) (ch : change k)
    (concerns : obj k → obj k' → bool) (request : obj k' → string * string) (kept : obj k → obj k → Prop) : Prop :=
  (∀ req, In req requests ↔
     ∃ o o', In o (mappedObjects ch) ∧ In o' (cluster k') ∧ concerns o o' = true ∧ req = request o') ∨
  (∃ old new, ch = Updated old new ∧ requests = [] ∧ kept old new).

(** ** Proofs *)
Section proofs.
Context `{KubeLib}.

(** A call that is not [Start]: it fails and the program ends, or the program goes on. *)
Ltac startStep :=
  cbn [Must orExit call bind bindOk safe ensureRecorder rc_Recorder]; split; [exact I|];
  first [intros [[]|e] _; [|reflexivity] | intros [] _].

Lemma start_configured f h (started : startConfigured f h) :
  safe anyAnswer (startsConfigured f) h (orExit (call Start) (Return 0)) exitCode.
Proof. split; [done|]. by intros [[]|e]. Qed.

Lemma operator_safe f : safe anyAnswer (startsConfigured f) [] (operator f) exitCode.
Proof.
  unfold operator, main, withCertWatcher. do 3 startStep.
  destruct (fl_MetricsCertPath f) as [|c path] eqn:Hpath; cbn [String.length Nat.ltb Nat.leb].
  all: repeat startStep; apply start_configured.
  all: unfold startConfigured, metricsTLS; rewrite Hpath; split; [reflexivity|].
  all: split; [by intros []|split; [reflexivity|split; [|by repeat constructor; simpl; eauto]]].
  all: eexists; split; [reflexivity|cbn]; repeat split.
  all: by destruct (fl_EnableHTTP2 f); simpl; rewrite ?orb_true_r, ?orb_false_r.
Qed.

(** The manager is started only after every registration succeeded: the registry serves every metric
    vector and the scheme knows the custom resources and their lists; its metrics endpoint is
    behind authentication and authorisation exactly when it is served securely and speaks
    HTTP/1.1 only unless HTTP/2 was asked for, the five controllers are complete and read
    their objects from the API server (the AgentMachine controller from the cache), those of vSphere
    with an event recorder, and the three field indexes are in place.  The program exits with 0 exactly when the manager was
    started and returned without an error; any other failed call ends it with 1, a registry or a scheme
    that cannot be filled with 2. *)
Theorem manager_starts_configured f :
  (∀ h k, reach anyAnswer [] (operator f) h (Call Start k) → startConfigured f h) ∧
  (∀ h code, reach anyAnswer [] (operator f) h (Return code) → exitCode h code).
Proof.
  split.
  - intros h k Hr. exact (safe_reach _ _ _ _ _ _ _ (operator_safe f) Hr).
  - intros h code Hr. exact (safe_reach _ _ _ _ _ _ _ (operator_safe f) Hr).
Qed.
Lemma elem_fieldValue v w : v ≠ "" → bool_decide (v ∈ fieldValue w) = (w == v).
Proof.
  intros Hv. unfold fieldValue. destruct (decide (w = "")) as [->|Hw].
  - rewrite (bool_decide_eq_true_2 ("" = "")), (bool_decide_eq_false_2 ("" = v)) by done.
    apply bool_decide_eq_false_2. set_solver.
  - rewrite (bool_decide_eq_false_2 (w = "")) by done. apply bool_decide_ext. set_solver.
Qed.

(** A mapping function that lists by registered indexes and keeps some of the objects. *)
Lemma exec_listed started cluster (env : environment callE) k opts (keep spec : obj k → bool)
    (request : obj k → string * string) :
  (∀ X h e, cacheAnswers started cluster X h e (env X h e)) →
  indexed started k opts = true → (∀ o, listed started k opts o && keep o = spec o) →
  (exec env [] (let! r := call (ListObjs Cached k opts) in
                match r with Err _ => Return [] | Ok items => Return (map request (List.filter keep items)) end)).2
    ≡ₚ map request (List.filter spec (cluster k)).
Proof.
  intros Hcache Hindexed Hspec. cbn [bind call exec].
  specialize (Hcache _ [] (ListObjs Cached k opts)). simpl in Hcache.
  destruct (env _ [] (ListObjs Cached k opts)) as [items|e]; [|congruence]. simpl.
  destruct Hcache as [_ Hitems]. apply Permutation_map. rewrite (filter_perm keep _ _ Hitems), filter_filter_and.
  by rewrite (List.filter_ext _ spec Hspec).
Qed.

(** One that keeps them all. *)
Lemma exec_listed_all started cluster (env : environment callE) k opts (spec : obj k → bool)
    (request : obj k → string * string) :
  (∀ X h e, cacheAnswers started cluster X h e (env X h e)) →
  indexed started k opts = true → (∀ o, listed started k opts o = spec o) →
  (exec env [] (let! r := call (ListObjs Cached k opts) in
                match r with Err _ => Return [] | Ok items => Return (map request items) end)).2
    ≡ₚ map request (List.filter spec (cluster k)).
Proof.
  intros Hcache Hindexed Hspec.
  pose proof (exec_listed started cluster env k opts (λ _, true) spec request Hcache Hindexed) as Hall.
  rewrite <- Hall by (intros o; by rewrite andb_true_r, Hspec).
  cbn [bind call exec]. destruct (env _ [] _); [by rewrite filter_true|done].
Qed.

(** The pools whose objects a change in the hosted control plane may concern, the pools of an InfraEnv,
    and the agents of a pool, as the specification reads them off the cluster. *)
Definition poolUsesInfraEnv (infraEnv : Unstructured) (pool : VsphereAgentPool) : bool :=
  (poolNamespace pool == GetNamespace infraEnv) && (lor_Name (ps_InfraEnvRef (pl_Spec pool)) == GetName infraEnv).
Definition agentRefersTo (pool : VsphereAgentPool) (agent : VsphereAgent) : bool :=
  (vaNamespace agent == poolNamespace pool) && (lor_Name (vs_PoolRef (va_Spec agent)) == poolName pool).

(** What the pool controller reads of an AgentMachine, of a Machine and of an Agent: the demand of every pool, the
    Machines every pool observes, and what the planner knows of the Agent.  The API server changes the generation of an
    object with its spec; the cleanup mark is an annotation the operator itself writes. *)
Definition sameDemand (old new : Unstructured) : Prop :=
  ∀ pool l1 l2, demandOf pool (l1 ++ old :: l2) = demandOf pool (l1 ++ new :: l2).
Definition sameMachines (old new : Unstructured) : Prop :=
  ∀ pool l1 l2, machinesOf pool (l1 ++ old :: l2) = machinesOf pool (l1 ++ new :: l2).
Definition sameAgent (old new : Unstructured) : Prop :=
  om_Annotations (un_Meta old) = om_Annotations (un_Meta new) →
  (om_Generation (un_Meta old) = om_Generation (un_Meta new) →
     ∀ path, NestedString (un_Object old) ("spec" :: path) = NestedString (un_Object new) ("spec" :: path) ∧
             NestedBool (un_Object old) ("spec" :: path) = NestedBool (un_Object new) ("spec" :: path)) →
  ∀ machineName, agentInfoOf old machineName = agentInfoOf new machineName.

(** The requests of one watch, with what its mapping function asks for. *)
Lemma watchRequests_enqueues (env : environment callE) cluster {k k'} (ch : change k) changed requests
    (concerns : obj k → obj k' → bool) (request : obj k' → string * string) (kept : obj k → obj k → Prop) :
  identified ch →
  (∀ o, om_Name (objMeta o) ≠ "" → om_Namespace (objMeta o) ≠ "" →
     (exec env [] (requests o)).2 ≡ₚ map request (List.filter (concerns o) (cluster k'))) →
  (∀ old new, sameObject (Updated old new) → changed old new = false → kept old new) →
  enqueues cluster k' (if delivered changed ch then mappedObjects ch ≫= λ o, (exec env [] (requests o)).2 else [])
    ch concerns request kept.
Proof.
  intros [Hsame Hid] Hreq Hkept. destruct (delivered changed ch) eqn:Ed.
  - left. intros req. rewrite <- list_elem_of_In, list_elem_of_bind. rewrite Forall_forall in Hid. split.
    + intros (o & Hr & Ho). destruct (Hid o Ho) as [Hn Hns]. rewrite (Hreq o Hn Hns), list_elem_of_In, in_map_iff in Hr.
      destruct Hr as (o' & <- & [Hc Hk]%filter_In). exists o, o'. by apply list_elem_of_In in Ho.
    + intros (o & o' & Ho%list_elem_of_In & Hc & Hk & ->). exists o. split; [|done]. destruct (Hid o Ho) as [Hn Hns].
      rewrite (Hreq o Hn Hns). apply list_elem_of_In, in_map, filter_In. done.
  - right. destruct ch as [o|old new|o]; [done| |done]. exists old, new. split_and!; [done|done|by apply Hkept].
Qed.

Section mapping.
Context (started : history startE) (cluster : ∀ k, list (obj k)) (env : environment callE).
Context (Hcache : ∀ X h e, cacheAnswers started cluster X h e (env X h e)).

Lemma controlPlane_requests o :
  indexOf started KVsphereAgentPool vsphereAgentPoolControlPlaneNamespaceIndex = Some poolControlPlaneNamespaces →
  GetNamespace o ≠ "" →
  (exec env [] (requestsForControlPlaneObjectChange o)).2
    ≡ₚ map poolRequest (List.filter (controlPlaneObjectMatchesPool o) (cluster KVsphereAgentPool)).
Proof.
  intros Hcp Ho. apply (exec_listed started cluster env KVsphereAgentPool _ (controlPlaneObjectMatchesPool o)); [done|..].
  - unfold indexed. simpl. by rewrite Hcp.
  - intros pool. unfold listed, poolControlPlaneNamespaces. simpl. rewrite Hcp. unfold poolControlPlaneNamespaces.
    rewrite elem_fieldValue, andb_true_r by done. unfold controlPlaneObjectMatchesPool.
    by destruct (bool_decide_reflect (ps_ControlPlaneNamespace (pl_Spec pool) = GetNamespace o)).
Qed.

Lemma agentChange_requests agent :
  (exec env [] (requestsForAgentChange agent)).2
    ≡ₚ map poolRequest (List.filter (λ pool, poolNamespace pool == GetNamespace agent) (cluster KVsphereAgentPool)).
Proof.
  apply (exec_listed_all started cluster env KVsphereAgentPool); [done|done|].
  intros pool. unfold listed. simpl. by rewrite andb_true_r.
Qed.

Lemma infraEnv_requests o :
  indexOf started KVsphereAgentPool vsphereAgentPoolInfraEnvNameIndex = Some poolInfraEnvNames → GetName o ≠ "" →
  (exec env [] (requestsForInfraEnvChange o)).2
    ≡ₚ map poolRequest (List.filter (poolUsesInfraEnv o) (cluster KVsphereAgentPool)).
Proof.
  intros Hie Ho. apply (exec_listed_all started cluster env KVsphereAgentPool); [done|..].
  - unfold indexed. simpl. by rewrite Hie.
  - intros pool. unfold listed. simpl. rewrite Hie. unfold poolInfraEnvNames.
    by rewrite elem_fieldValue, !andb_true_r by done.
Qed.

Lemma poolChange_requests pool :
  indexOf started KVsphereAgent vsphereAgentPoolOwnerFieldIndex = Some agentPoolNames → poolName pool ≠ "" →
  (exec env [] (requestsForPool pool)).2
    ≡ₚ map (λ agent, (vaNamespace agent, vaName agent)) (List.filter (agentRefersTo pool) (cluster KVsphereAgent)).
Proof.
  intros Hpr Ho. apply (exec_listed_all started cluster env KVsphereAgent); [done|..].
  - unfold indexed. simpl. by rewrite Hpr.
  - intros agent. unfold listed. simpl. rewrite Hpr. unfold agentPoolNames.
    by rewrite elem_fieldValue, !andb_true_r by done.
Qed.
End mapping.

(** C26: the watches that start-up registers, with the indexes it registers, miss no object and invent none.  Once the
    manager is started, and whatever the environment does within the documented behaviour of the cache, the
    creation, update or deletion of an AgentMachine or a Machine enqueues exactly the pools that its old or new version
    matches, that of an Agent exactly the pools of its namespace, that of an InfraEnv exactly the pools that refer to it
    (all for the pool controller), and that of a pool exactly the VsphereAgents that refer to it (for the VsphereAgent
    controller).  The only changes that enqueue nothing instead are updates that a predicate drops, and those leave the
    demand of every pool, the Machines every pool observes, or what the planner knows of an Agent whose annotations are
    unchanged as they were. *)
Theorem watch_requests_exact f started k cluster (env : environment callE)
    (Hstart : reach anyAnswer [] (operator f) started (Call Start k))
    (Hcache : ∀ X h e, cacheAnswers started cluster X h e (env X h e)) :
  (∀ ch : change KAgentMachine, identified ch →
     enqueues cluster KVsphereAgentPool (enqueued started env "vsphereagentpool" ch) ch controlPlaneObjectMatchesPool poolRequest sameDemand) ∧
  (∀ ch : change KMachine, identified ch →
     enqueues cluster KVsphereAgentPool (enqueued started env "vsphereagentpool" ch) ch controlPlaneObjectMatchesPool poolRequest sameMachines) ∧
  (∀ ch : change KAgent, identified ch →
     enqueues cluster KVsphereAgentPool (enqueued started env "vsphereagentpool" ch) ch
       (λ agent pool, poolNamespace pool == GetNamespace agent) poolRequest sameAgent) ∧
  (∀ ch : change KInfraEnv, identified ch →
     enqueues cluster KVsphereAgentPool (enqueued started env "vsphereagentpool" ch) ch poolUsesInfraEnv poolRequest (λ _ _, False)) ∧
  (∀ ch : change KVsphereAgentPool, identified ch →
     enqueues cluster KVsphereAgent (enqueued started env "vsphereagent" ch) ch agentRefersTo
       (λ agent, (vaNamespace agent, vaName agent)) (λ _ _, False)).
Proof.
  pose proof (safe_reach _ _ _ _ _ _ _ (operator_safe f) Hstart) as (_ & _ & _ & _ & _ & _ & _ & Hcp & Hie & Hpr & Hwp & Hwa).
  unfold enqueued. rewrite Hwp, Hwa.
  split_and!; intros ch Hch; cbn -[enqueues exec delivered mappedObjects]; rewrite ?app_nil_r; (apply watchRequests_enqueues; [done| |]).
  - intros o _ Hns. by apply (controlPlane_requests started cluster).
  - intros old new [_ Hns] Hd pool l1 l2. by apply agentMachineChangePredicate_complete.
  - intros o _ Hns. by apply (controlPlane_requests started cluster).
  - intros old new [Hn Hns] Hd pool l1 l2. by apply machineChangePredicate_complete.
  - intros o _ _. by apply (agentChange_requests started cluster).
  - intros old new [Hn Hns] Hd Hann Hgen machineName. by apply agentChangePredicate_complete.
  - intros o Hn _. by apply (infraEnv_requests started cluster).
  - done.
  - intros o Hn _. by apply (poolChange_requests started cluster).
  - done.
Qed.
End proofs.
