(* ===== verification/Govc.v ===== *)
(** * The govc provider

    internal/controller/vsphere_provider.go: the implementation of VMProvider
    that runs the govc command.  A run of govc is the call [Govc args]; the
    decoding of its JSON output is a parameter ([GovcJSON]), as are URL parsing
    ([NetURL]) and HTTP dates ([HTTPDate]).  The
    process itself, with its environment, its deadline and its output, is the subject
    of GovcCommand.v.  Contexts are left out here, except that the poll of a running
    disconnect is bounded by the command time-out; so is the removal of the temporary
    directory.  The theorems discharge the contract of
    VMProvider.v and say what the provider checks before it changes anything. *)
From S2P Require Import Prelude Api Identity Planner OwnedVMs Sha256 Effects K8s Objects VMProvider IsoCache.

(** http.ParseTime followed by formatting in GMT; [None] for an invalid date. *)
Class HTTPDate := canonicalHTTPDate : string → option string.

(** ** Constants *)
Definition govcCommandTimeout : Duration := 30 * minute.
Definition maxISODownloadSize : Z := Z.shiftl 10 30.
Definition newline : ascii := ascii_of_nat 10.

Section govc.
Context `{KubeLib} `{NetURL} `{GovcJSON} `{HTTPDate}.

Definition errVMNotFound {A} (detail : string) : result A :=
  Err (mkError ClassVMNotFound ("vSphere VM not found: " +:+ detail)).

(** The output of the command; the message of its failure starts with the
    arguments. *)
Definition runOutput (args : list string) : program (result string) :=
  let! r := call (Govc args) in
  match r with
  | Err e => Return (Err (govcError args e))
  | Ok output => Return (Ok output)
  end.

Definition run (args : list string) : program (result unit) :=
  let? _ := runOutput args in Return (Ok tt).

(** ** Reading a VM *)
Definition vmDetailsWithSelector (pool : VsphereAgentPool) (selector value identity : string)
    : program (result govcVirtualMachine) :=
  let! output := runOutput (infoArgs pool selector value) in
  match output with
  | Err e => if isGovcVMNotFound e then Return (errVMNotFound (err_Error e)) else Return (Err e)
  | Ok output =>
      match UnmarshalVMInfo output with
      | Err e => Return (Errorf (err_Error e))
      | Ok [] => Return (errVMNotFound ("vm.info returned no VM for " +:+ identity))
      | Ok (vm :: _) => Return (Ok vm)
      end
  end.

Definition vmDetails (pool : VsphereAgentPool) (name : string) : program (result govcVirtualMachine) :=
  vmDetailsWithSelector pool "-vm.ipath" (vmInventoryPath pool name) name.

Definition vmDetailsByUUID (pool : VsphereAgentPool) (uuid : string) : program (result govcVirtualMachine) :=
  vmDetailsWithSelector pool "-vm.uuid" uuid uuid.

Definition isVMNotFound (e : error) : bool := err_Class e == ClassVMNotFound.

Definition govcVMStatus (pool : VsphereAgentPool) (name : string) : program (result OwnedVMStatus) :=
  let? vm := vmDetails pool name in
  let! t := call Now in
  let status := newOwnedVMStatus t name in
  let status := if HasPrefix (gv_Annotation vm) vmOwnerAnnotationPrefix
                then status <| vm_OwnerUID := TrimPrefix (gv_Annotation vm) vmOwnerAnnotationPrefix |>
                else status in
  let mac := match List.find (λ d, TrimSpace (gd_MACAddress d) != "") (gv_Device vm) with
             | Some device => normalizeMAC (gd_MACAddress device)
             | None => ""
             end in
  Return (Ok (status <| vm_BIOSUUID := normalizeVMwareSerialUUID (gv_UUID vm) |> <| vm_MACAddress := mac |>)).

(** ** Deleting *)
Definition govcDeleteISO (pool : VsphereAgentPool) (isoPath : string) : program (result unit) :=
  if TrimSpace isoPath == "" then Return (Ok tt)
  else
    let! r := run ["datastore.rm"; "-f"; "-dc"; datacenter pool; "-ds"; isoDatastore pool; isoPath] in
    match r with
    | Err e => if isGovcDatastorePathNotFound e then Return (Ok tt) else Return (Err e)
    | Ok _ => Return (Ok tt)
    end.

(** The destroy command, by UUID when one is known. *)
Definition destroyVM (pool : VsphereAgentPool) (name uuid : string) : program (result unit) :=
  let! r := run (if TrimSpace uuid != "" then destroyArgs pool "-vm.uuid" uuid
                 else destroyArgs pool "-vm.ipath" (vmInventoryPath pool name)) in
  match r with
  | Err e => if isGovcVMNotFound e then Return (Ok tt) else Return (Err e)
  | Ok _ => Return (Ok tt)
  end.

Definition govcDeleteVM (pool : VsphereAgentPool) (vm : OwnedVMStatus) : program (result unit) :=
  if TrimSpace (vm_Name vm) == "" then Return (Errorf "cannot delete VM with empty name")
  else if vm_OwnerUID vm != "" then
    let! discovered := if vm_BIOSUUID vm != "" then vmDetailsByUUID pool (vm_BIOSUUID vm)
                       else vmDetails pool (vm_Name vm) in
    match discovered with
    | Err e =>
        if isVMNotFound e then Return (Ok tt)
        else Return (Err (mkError (err_Class e)
               ("verify VM " +:+ fmt_q (vm_Name vm) +:+ " ownership before delete: " +:+ err_Error e)))
    | Ok discovered =>
        if gv_Annotation discovered != vmOwnerAnnotationPrefix +:+ vm_OwnerUID vm then
          Return (Errorf ("refusing to delete VM " +:+ fmt_q (vm_Name vm) +:+
            ": ownership annotation does not match VsphereAgent UID"))
        else
          let discoveredUUID := normalizeVMwareSerialUUID (gv_UUID discovered) in
          destroyVM pool (vm_Name vm) (if discoveredUUID != "" then discoveredUUID else vm_BIOSUUID vm)
    end
  else destroyVM pool (vm_Name vm) (vm_BIOSUUID vm).

(** ** Creating *)
Definition hasCDROMDevice (output : string) : bool :=
  existsb (λ line, HasPrefix (TrimSpace line) "cdrom-") (Split output newline).

Definition ensureCDROM (pool : VsphereAgentPool) (name : string) : program (result unit) :=
  let vmPath := vmInventoryPath pool name in
  let? output := runOutput (["device.ls"; "-dc"; datacenter pool; "-vm"; vmPath]) in
  if hasCDROMDevice output then Return (Ok tt)
  else
    let! r := run ["device.cdrom.add"; "-dc"; datacenter pool; "-vm"; vmPath] in
    match r with
    | Err e => if negb (isGovcDeviceAlreadyExists e) then Return (Err e) else Return (Ok tt)
    | Ok _ => Return (Ok tt)
    end.

Definition createArgs (pool : VsphereAgentPool) (name ownerAnnotation : string) : list string :=
  let v := ps_VSphere (pl_Spec pool) in
  let t := ps_Template (pl_Spec pool) in
  ["vm.create"; "-annotation"; ownerAnnotation; "-dc"; vp_Datacenter v; "-datastore-cluster"; vp_DatastoreCluster v;
   "-pool"; vp_ResourcePool v; "-folder"; vmFolder pool; "-net"; vp_Network v; "-net.adapter"; vp_NetworkAdapterType v;
   "-g"; vp_GuestID v; "-firmware"; vp_Firmware v; "-c"; fmt_d (vt_NumCPUs t); "-m"; fmt_d (vt_MemoryMiB t);
   "-disk"; fmt_d (vt_DiskGiB t) +:+ "G"; "-disk.controller"; vp_SCSIType v] ++
  (if vp_DiskEagerlyScrub v then ["-disk.eager"] else []) ++ ["-on=false"; name].

(** vm.create, tolerating a VM of that name that this VsphereAgent owns; the
    answer says whether the VM was created now. *)
Definition createOrVerify (pool : VsphereAgentPool) (name ownerAnnotation : string) : program (result bool) :=
  let! r := run (createArgs pool name ownerAnnotation) in
  match r with
  | Ok _ => Return (Ok true)
  | Err e =>
      if isGovcVMAlreadyExists e then
        let! existing := vmDetails pool name in
        match existing with
        | Err e => Return (Err (mkError (err_Class e)
            ("verify existing VM " +:+ fmt_q name +:+ " ownership: " +:+ err_Error e)))
        | Ok existing =>
            if gv_Annotation existing != ownerAnnotation then
              Return (Errorf ("refusing to manage existing VM " +:+ fmt_q name +:+
                ": ownership annotation does not match VsphereAgent UID"))
            else Return (Ok false)
        end
      else Return (Err e)
  end.

(** The steps between creation and discovery of the identity. *)
Definition configureVM (pool : VsphereAgentPool) (name isoPath : string) : program (result unit) :=
  let vmPath := vmInventoryPath pool name in
  let dc := datacenter pool in
  let? _ := run ["vm.change"; "-dc"; dc; "-vm"; vmPath; "-e"; "disk.enableUUID=TRUE"] in
  let? _ := ensureCDROM pool name in
  let? _ := run ["device.cdrom.insert"; "-dc"; dc; "-vm"; vmPath; "-ds"; isoDatastore pool; isoPath] in
  let? _ := forEach (vp_VMTags (ps_VSphere (pl_Spec pool))) (λ tag,
    let! r := run ["tags.attach"; "-dc"; dc; tag; vmPath] in
    match r with
    | Err e => if negb (isGovcTagAlreadyAttached e) then Return (Err e) else Return (Ok tt)
    | Ok _ => Return (Ok tt)
    end) in
  let! r := run ["vm.power"; "-on"; "-dc"; dc; "-vm.ipath"; vmPath] in
  match r with
  | Err e => if negb (isGovcVMAlreadyPoweredOn e) then Return (Err e) else Return (Ok tt)
  | Ok _ => Return (Ok tt)
  end.

Definition cleanupPartialVM (pool : VsphereAgentPool) (created : bool) (name ownerUID : string) (cause : error)
    : program (result OwnedVMStatus) :=
  if negb created then Return (Err cause)
  else
    let! t := call Now in
    let! r := govcDeleteVM pool ((newOwnedVMStatus t name) <| vm_OwnerUID := ownerUID |>) in
    match r with
    | Err e => Return (Err (mkError (err_Class cause)
        (err_Error cause +:+ "; failed to clean up partially created VM " +:+ fmt_q name +:+ ": " +:+ err_Error e)))
    | Ok _ => Return (Err cause)
    end.

Definition govcCreateVM (pool : VsphereAgentPool) (req : VMCreateRequest) : program (result OwnedVMStatus) :=
  let name := TrimSpace (cr_Name req) in
  let ownerUID := TrimSpace (cr_OwnerUID req) in
  if name == "" then Return (Errorf "VM name is required")
  else if cr_ISOPath req == "" then Return (Errorf "cached ISO path is empty")
  else if ownerUID == "" then Return (Errorf "VsphereAgent owner UID is required")
  else
    let? created := createOrVerify pool name (vmOwnerAnnotationPrefix +:+ ownerUID) in
    let! configured := configureVM pool name (cr_ISOPath req) in
    match configured with
    | Err cause => cleanupPartialVM pool created name ownerUID cause
    | Ok _ =>
        let! t := call Now in
        let vm := (newOwnedVMStatus t name) <| vm_OwnerUID := ownerUID |> in
        let! discovered := govcVMStatus pool name in
        match discovered with
        | Ok d => Return (Ok (vm <| vm_OwnerUID := orElse (vm_OwnerUID d) ownerUID |>
                                 <| vm_BIOSUUID := vm_BIOSUUID d |> <| vm_MACAddress := vm_MACAddress d |>))
        | Err _ => Return (Ok vm)
        end
    end.

(** ** ISO images *)
Record isoDownloadResult := mkIsoDownloadResult {
  dl_SHA256 : string;
  dl_SizeBytes : Z;
  dl_LastModified : string;
  dl_NotModified : bool }.

Definition validHTTPDate (value : string) : string := default "" (canonicalHTTPDate value).

Definition stringSize (s : string) : Z := Z.of_nat (String.length s).

(** At most [maxISODownloadSize + 1] bytes of the body are read.  The source
    creates the file before it reads the body; a failed download leaves it in the
    temporary directory, which is removed. *)
Definition downloadISO (rawURL path lastModified : string) : program (result isoDownloadResult) :=
  let safeURL := redactedDownloadURL rawURL in
  match url_Parse rawURL with
  | None => Return (Errorf ("invalid ISO download URL " +:+ fmt_q safeURL))
  | Some _ =>
      let lastModified := validHTTPDate lastModified in
      let! resp := call (HttpGet rawURL lastModified) in
      match resp with
      | Err e => Return (Err (mkError (err_Class e) ("download " +:+ safeURL +:+ " failed: " +:+ err_Error e)))
      | Ok resp =>
          if (hr_StatusCode resp == 304) && (lastModified != "") then Return (Ok (mkIsoDownloadResult "" 0 "" true))
          else if hr_StatusCode resp != 200 then
            Return (Errorf ("download " +:+ safeURL +:+ " returned HTTP " +:+ fmt_d (hr_StatusCode resp)))
          else if maxISODownloadSize <? hr_ContentLength resp then
            Return (Errorf ("download " +:+ safeURL +:+ " is " +:+ fmt_d (hr_ContentLength resp) +:+
              " bytes, exceeding the " +:+ fmt_d maxISODownloadSize +:+ "-byte limit"))
          else
            match hr_Body resp with
            | Err e => Return (Err e)
            | Ok body =>
                if maxISODownloadSize <? stringSize body then
                  Return (Errorf ("download " +:+ safeURL +:+ " exceeds the " +:+
                    fmt_d maxISODownloadSize +:+ "-byte limit"))
                else
                  let? _ := call (WriteFile path body) in
                  Return (Ok (mkIsoDownloadResult (sha256Hex body) (stringSize body)
                                (validHTTPDate (hr_LastModified resp)) false))
            end
      end
  end.

(** Whether a VM of the pool has the image attached. *)
Fixpoint cachedISOInUse (pool : VsphereAgentPool) (vms : list OwnedVMStatus) (backing : string)
    : program (result bool) :=
  match vms with
  | [] => Return (Ok false)
  | vm :: rest =>
      if (vm_BIOSUUID vm == "") && (vm_Name vm == "") then
        Return (Errorf "cannot inspect ISO reference for VM without identity")
      else
        let! details := if vm_BIOSUUID vm != "" then vmDetailsByUUID pool (vm_BIOSUUID vm)
                        else vmDetails pool (vm_Name vm) in
        match details with
        | Err e => if isVMNotFound e then cachedISOInUse pool rest backing else Return (Err e)
        | Ok details =>
            if existsb (λ device, gd_FileName device == backing) (gv_Device details) then Return (Ok true)
            else cachedISOInUse pool rest backing
        end
  end.

Definition backingName (pool : VsphereAgentPool) (remote : string) : string :=
  "[" +:+ isoDatastore pool +:+ "] " +:+ remote.

Definition verifyISO (pool : VsphereAgentPool) (remote local digest : string) : program (result bool) :=
  let! r := run ["datastore.download"; "-dc"; datacenter pool; "-ds"; isoDatastore pool; remote; local] in
  match r with
  | Err e => if isGovcDatastorePathNotFound e then Return (Ok false) else Return (Err e)
  | Ok _ =>
      let? content := call (ReadFile local) in
      Return (Ok (sha256Hex content == digest))
  end.

(** The directories above the image, outermost first: the successive values of
    [current] in ensureDatastoreDirectory. *)
Fixpoint parentDirectories (current : string) (parts : list string) : list string :=
  match parts with
  | [] => []
  | part :: rest =>
      let current := if current == "" then part else current +:+ "/" +:+ part in
      current :: parentDirectories current rest
  end.

Definition ensureDatastoreDirectory (pool : VsphereAgentPool) (dir : string) : program (result unit) :=
  forEach (parentDirectories "" (cleanSegments (TrimSpace dir))) (λ current,
    let! r := run ["datastore.mkdir"; "-dc"; datacenter pool; "-ds"; isoDatastore pool; current] in
    match r with
    | Err e => if negb (isGovcDatastorePathAlreadyExists e) then Return (Err e) else Return (Ok tt)
    | Ok _ => Return (Ok tt)
    end).

(** filepath.Base and path.Dir of a slash-separated path. *)
Definition pathBase (p : string) : string := default "" (last (Split p "/"%char)).
Definition pathDir (p : string) : string := Join (removelast (Split p "/"%char)) "/".

(** The upload through a staging object, which is removed afterwards. *)
Definition uploadISO (pool : VsphereAgentPool) (tmpDir tmpFile isoPath sha : string) : program (result unit) :=
  let dc := datacenter pool in let ds := isoDatastore pool in
  let stagingPath := isoPath +:+ "." +:+ pathBase tmpDir +:+ ".partial" in
  let! r :=
    (let? _ := run ["datastore.upload"; "-dc"; dc; "-ds"; ds; tmpFile; stagingPath] in
     let? valid := verifyISO pool stagingPath (tmpDir +:+ "/uploaded.iso") sha in
     if negb valid then Return (Errorf "uploaded ISO failed content verification")
     else run ["datastore.mv"; "-f=true"; "-dc"; dc; "-ds"; ds; stagingPath; isoPath]) in
  let! _ := govcDeleteISO pool stagingPath in
  Return r.

(** From a complete download on. *)
Definition storeISO (pool : VsphereAgentPool) (tmpDir tmpFile : string) (download : isoDownloadResult)
    : program (result ISOEnsureResult) :=
  let sha := dl_SHA256 download in
  let isoPath := isoContentPath pool sha in
  let res uploaded := mkISOEnsureResult false (dl_LastModified download) isoPath sha (dl_SizeBytes download) uploaded in
  let? valid := verifyISO pool isoPath (tmpDir +:+ "/cached.iso") sha in
  if valid then Return (Ok (res false))
  else
    let? _ := ensureDatastoreDirectory pool (pathDir isoPath) in
    let? _ := uploadISO pool tmpDir tmpFile isoPath sha in
    Return (Ok (res true)).

(** The validator of a conditional download: only for the source and location
    that established it, and not under an explicit refresh. *)
Definition isoValidator (pool : VsphereAgentPool) (downloadURL : string) : string :=
  let cached := pt_ISO (pl_Status pool) in
  let forceToken := mapGet (om_Annotations (pl_Meta pool)) forceISORefreshAnnotation in
  if (is_URLHash cached == downloadURLHash downloadURL) && (is_SHA256 cached != "") &&
     (is_Path cached == isoContentPath pool (is_SHA256 cached)) &&
     ((forceToken == "") || (forceToken == is_ForceRefreshToken cached))
  then validHTTPDate (is_LastModified cached) else "".

Definition wrapError {A} (prefix : string) (e : error) : result A :=
  Err (mkError (err_Class e) (prefix +:+ ": " +:+ err_Error e)).

Definition govcEnsureISO (pool : VsphereAgentPool) (downloadURL : string) : program (result ISOEnsureResult) :=
  if downloadURL == "" then Return (Errorf "InfraEnv ISO download URL is empty")
  else
    let? tmpDir := call MkdirTemp in
    let tmpFile := tmpDir +:+ "/discovery.iso" in
    let cached := pt_ISO (pl_Status pool) in
    let validator := isoValidator pool downloadURL in
    let? download := downloadISO downloadURL tmpFile validator in
    if dl_NotModified download then
      let! inUse := cachedISOInUse pool (pt_OwnedVMs (pl_Status pool)) (backingName pool (is_Path cached)) in
      match inUse with
      | Err e => Return (wrapError "inspect cached ISO references" e)
      | Ok true =>
          Return (Ok (mkISOEnsureResult true validator (is_Path cached) (is_SHA256 cached) (is_SizeBytes cached) false))
      | Ok false =>
          let! valid := verifyISO pool (is_Path cached) (tmpDir +:+ "/cached.iso") (is_SHA256 cached) in
          match valid with
          | Err e => Return (wrapError "verify cached ISO" e)
          | Ok true =>
              Return (Ok (mkISOEnsureResult false validator (is_Path cached) (is_SHA256 cached)
                            (is_SizeBytes cached) false))
          | Ok false =>
              let? download := downloadISO downloadURL tmpFile "" in
              storeISO pool tmpDir tmpFile download
          end
      end
    else storeISO pool tmpDir tmpFile download.

(** ** Ejection *)
Definition cdromLockAnswer (q : govcVMQuestion) : string :=
  if negb (existsb (λ id, id == "msg.cdromdisconnect.locked") (gq_MessageIDs q)) then ""
  else match List.find (λ choice : string * string, let label := TrimSpace choice.2 in
                          EqualFold label "button.yes" || EqualFold label "Yes") (gq_ChoiceInfo q) with
       | Some choice => choice.1
       | None => ""
       end.

(** Whether a device is backed by a cached image: a 32-byte hexadecimal digest
    under the pool's prefix. *)
Definition isCachedISO (pool : VsphereAgentPool) (filename : string) : bool :=
  let prefix := backingName pool (isoPathPrefix pool) +:+ "/" in
  if negb (HasPrefix filename prefix) then false
  else
    let digest := TrimSuffix (TrimPrefix filename prefix) ".iso" in
    HasSuffix filename ".iso" && hexDecodes digest && (String.length digest =? 64)%nat.

Definition identityMismatch (vm : govcVirtualMachine) (uuid ownerUID : string) : bool :=
  (normalizeVMwareSerialUUID (gv_UUID vm) != uuid) ||
  ((ownerUID != "") && (gv_Annotation vm != vmOwnerAnnotationPrefix +:+ ownerUID)).

Definition refuseEjection {A} (name : string) : result A :=
  Err (mkError ClassVMOwnershipMismatch
    ("vSphere VM ownership mismatch: refusing ISO ejection for VM " +:+ fmt_q name)).

Definition govcPrepareISOEjection (pool : VsphereAgentPool) (vm : OwnedVMStatus)
    : program (result (option ISOEjectionStatus)) :=
  if vm_BIOSUUID vm == "" then Return (Errorf "cannot eject ISO without a VM UUID")
  else
    let? details := vmDetailsByUUID pool (vm_BIOSUUID vm) in
    if identityMismatch details (vm_BIOSUUID vm) (vm_OwnerUID vm) then Return (refuseEjection (vm_Name vm))
    else match gv_Question details with
         | Some _ => Return (Errorf ("VM " +:+ fmt_q (vm_Name vm) +:+
                       " has a pending question; refusing new ISO ejection"))
         | None =>
             match List.find (λ d, isCachedISO pool (gd_FileName d)) (gv_Device details) with
             | None => Return (Ok None)
             | Some device =>
                 let! t := call Now in
                 Return (Ok (Some (mkISOEjectionStatus (vm_Name vm) (vm_BIOSUUID vm) (vm_OwnerUID vm)
                   (datacenter pool) (gd_Key device) (gd_FileName device) t false "")))
             end
         end.

Section eject.
Context {S : Type} (checkpoint : S → ISOEjectionStatus → program (S * result unit)).

Definition answerISOLock (pool : VsphereAgentPool) (op : ISOEjectionStatus) (question : govcVMQuestion) (s : S)
    : program (S * ISOEjectionStatus * result unit) :=
  let answer := cdromLockAnswer question in
  if (answer == "") || (gq_ID question == "") || ((ej_QuestionID op != "") && (ej_QuestionID op != gq_ID question))
  then Return (s, op, Errorf ("unexpected VM question during ISO disconnect: " +:+ gq_ID question))
  else
    let answerIt op s :=
      let! r := run ["vm.question"; "-dc"; datacenter pool; "-vm.uuid"; ej_BIOSUUID op; "-answer"; answer] in
      Return (s, op, r) in
    if ej_QuestionID op == "" then
      let op := op <| ej_QuestionID := gq_ID question |> in
      let! c := checkpoint s op in
      match c.2 with Err e => Return (c.1, op, Err e) | Ok _ => answerIt op c.1 end
    else answerIt op s.

(** The select loop of disconnectInstallationMedia; [fuel] bounds the ticks
    before the context expires. *)
Fixpoint disconnectLoop (fuel : nat) (pool : VsphereAgentPool) (op : ISOEjectionStatus) (s : S)
    : program (S * ISOEjectionStatus * result unit) :=
  match fuel with
  | O => Return (s, op, Errorf "context deadline exceeded")
  | Datatypes.S fuel' =>
      let! outcome := call Select in
      match outcome with
      | CommandDone err => Return (s, op, err)
      | ContextDone e => Return (s, op, Err e)
      | Tick =>
          let! details := vmDetailsByUUID pool (ej_BIOSUUID op) in
          match details with
          | Err e => Return (s, op, Err e)
          | Ok details =>
              match gv_Question details with
              | None => disconnectLoop fuel' pool op s
              | Some question =>
                  let! a := answerISOLock pool op question s in
                  match a.2 with
                  | Err e => Return a
                  | Ok _ => disconnectLoop fuel' pool a.1.2 a.1.1
                  end
              end
          end
      end
  end.

Definition disconnectTicks : nat := Z.to_nat (govcCommandTimeout / second) + 2.

Definition disconnectInstallationMedia (pool : VsphereAgentPool) (op : ISOEjectionStatus) (device : string) (s : S)
    : program (S * ISOEjectionStatus * result unit) :=
  let! _ := call (GovcStart ["device.disconnect"; "-dc"; datacenter pool; "-vm.uuid"; ej_BIOSUUID op; device]) in
  disconnectLoop disconnectTicks pool op s.

(** From a disconnected device on. *)
Definition ejectAndVerify (pool : VsphereAgentPool) (op : ISOEjectionStatus) (device : string) : program (result unit) :=
  let? _ := run ["device.cdrom.eject"; "-dc"; datacenter pool; "-vm.uuid"; ej_BIOSUUID op; "-device"; device] in
  let? observed := vmDetailsByUUID pool (ej_BIOSUUID op) in
  if existsb (λ d, (gd_Key d == ej_DeviceKey op) && (gd_FileName d == ej_ISOPath op)) (gv_Device observed)
  then Return (Errorf ("VM " +:+ fmt_q (ej_VMName op) +:+ " still references discovery ISO after ejection"))
  else Return (Ok tt).

(** From the disconnect on: the start is checkpointed before the command. *)
Definition disconnectAndEject (pool : VsphereAgentPool) (op : ISOEjectionStatus) (s : S)
    : program (S * ISOEjectionStatus * result unit) :=
  let device := "cdrom-" +:+ fmt_d (ej_DeviceKey op) in
  let go op s :=
    let! d := disconnectInstallationMedia pool op device s in
    let '(s, op, err) := d in
    match err with
    | Err e => Return (s, op, Err e)
    | Ok _ => let! r := ejectAndVerify pool op device in Return (s, op, r)
    end in
  if negb (ej_DisconnectStarted op) then
    let op := op <| ej_DisconnectStarted := true |> in
    let! c := checkpoint s op in
    match c.2 with Err e => Return (c.1, op, Err e) | Ok _ => go op c.1 end
  else go op s.

Definition govcEjectISO (pool : VsphereAgentPool) (op : ISOEjectionStatus) (s : S)
    : program (S * ISOEjectionStatus * result unit) :=
  if (ej_BIOSUUID op == "") || (ej_ISOPath op == "") then
    Return (s, op, Errorf "incomplete persisted ISO ejection identity")
  else
    let pool := pool <| pl_Spec := (pl_Spec pool)
      <| ps_VSphere := (ps_VSphere (pl_Spec pool)) <| vp_Datacenter := ej_Datacenter op |> |> |> in
    let! details := vmDetailsByUUID pool (ej_BIOSUUID op) in
    match details with
    | Err e => if isVMNotFound e then Return (s, op, Ok tt) else Return (s, op, Err e)
    | Ok details =>
        if identityMismatch details (ej_BIOSUUID op) (ej_OwnerUID op) then
          Return (s, op, refuseEjection (ej_VMName op))
        else
          match List.find (λ d, gd_Key d == ej_DeviceKey op) (gv_Device details) with
          | None => Return (s, op, Ok tt)
          | Some target =>
              if gd_FileName target == "" then Return (s, op, Ok tt)
              else if gd_FileName target != ej_ISOPath op then
                Return (s, op, Errorf ("VM " +:+ fmt_q (ej_VMName op) +:+ " media changed during ISO ejection"))
              else
                match gv_Question details with
                | None => disconnectAndEject pool op s
                | Some question =>
                    if negb (ej_DisconnectStarted op) then
                      Return (s, op, Errorf ("VM " +:+ fmt_q (ej_VMName op) +:+
                        " has a question before disconnect started"))
                    else
                      let! a := answerISOLock pool op question s in
                      match a.2 with
                      | Err e => Return a
                      | Ok _ => disconnectAndEject pool a.1.2 a.1.1
                      end
                end
          end
    end.
End eject.

(** ** The provider and its factory *)
Definition govcVMProvider : VMProvider := {|
  EnsureISO := govcEnsureISO;
  CreateVM := govcCreateVM;
  VMStatus := govcVMStatus;
  DeleteVM := govcDeleteVM;
  PrepareISOEjection := govcPrepareISOEjection;
  EjectISO S pool op checkpoint s := govcEjectISO checkpoint pool op s;
  DeleteISO := govcDeleteISO |}.

(** strconv.ParseBool. *)
Definition ParseBool (s : string) : option bool :=
  if bool_decide (s ∈ ["1"; "t"; "T"; "TRUE"; "true"; "True"]) then Some true
  else if bool_decide (s ∈ ["0"; "f"; "F"; "FALSE"; "false"; "False"]) then Some false
  else None.

(** The keys are checked in the order server, username, password; the source
    ranges over a map, so that with several keys missing the one reported is not
    determined. *)
Definition NewGovcVMProvider (pool : VsphereAgentPool) (secret : Secret) : result VMProvider :=
  let where_ := "vSphere credentials Secret " +:+ om_Namespace (sec_Meta secret) +:+ "/" +:+ om_Name (sec_Meta secret) in
  match List.find (λ key, mapGet (sec_Data secret) key == "") ["server"; "username"; "password"] with
  | Some key => Errorf (where_ +:+ " is missing key " +:+ fmt_q key)
  | None =>
      let insecure := orElse (mapGet (sec_Data secret) "insecure") "false" in
      match ParseBool insecure with
      | None => Errorf (where_ +:+ " has invalid " +:+ fmt_q "insecure" +:+ " value " +:+ fmt_q insecure +:+
          ": strconv.ParseBool: parsing " +:+ fmt_q insecure +:+ ": invalid syntax")
      | Some _ => Ok govcVMProvider
      end
  end.

End govc.

(** ** The provider meets its contract *)
Section govc_laws.
Context `{KubeLib} `{NetURL} `{GovcJSON} `{HTTPDate}.

(** A command a provider may run. *)
Definition mayDestroy (destroys : hist → list string → Prop) (args : list string) : Prop :=
  isDestroy args = true → ∀ h, destroys h args.

Lemma runOutput_ok d args : mayDestroy d args → always (providerCall d) (runOutput args).
Proof. intros Hd. unfold runOutput. solve_always. intros E. exact (Hd E _). Qed.

Lemma run_ok d args : mayDestroy d args → always (providerCall d) (run args).
Proof. intros Hd. unfold run. apply always_bindOk; [by apply runOutput_ok|intros ?; apply always_return]. Qed.

Hint Resolve runOutput_ok run_ok : always.
Hint Extern 1 (mayDestroy _ _) => (let E := fresh in intros E; first [done | discriminate E]) : always.

Ltac govc_call := lazymatch goal with |- always _ _ => fail | |- _ => simpl end; first [exact I | done].
Ltac solve_govc := repeat (always_step; try govc_call).

Lemma vmDetailsWithSelector_ok d pool sel v id : always (providerCall d) (vmDetailsWithSelector pool sel v id).
Proof. unfold vmDetailsWithSelector. solve_govc. Qed.
Hint Resolve vmDetailsWithSelector_ok : always.

Lemma vmDetails_ok d pool name : always (providerCall d) (vmDetails pool name).
Proof. apply vmDetailsWithSelector_ok. Qed.
Lemma vmDetailsByUUID_ok d pool uuid : always (providerCall d) (vmDetailsByUUID pool uuid).
Proof. apply vmDetailsWithSelector_ok. Qed.
Hint Resolve vmDetails_ok vmDetailsByUUID_ok : always.

Lemma govcVMStatus_ok d pool name : always (providerCall d) (govcVMStatus pool name).
Proof. unfold govcVMStatus. solve_govc. Qed.
Hint Resolve govcVMStatus_ok : always.

Lemma govcDeleteISO_ok d pool path : always (providerCall d) (govcDeleteISO pool path).
Proof. unfold govcDeleteISO. solve_govc. Qed.
Hint Resolve govcDeleteISO_ok : always.

Lemma ensureCDROM_ok d pool name : always (providerCall d) (ensureCDROM pool name).
Proof. unfold ensureCDROM. solve_govc. Qed.
Hint Resolve ensureCDROM_ok : always.

Lemma configureVM_ok d pool name path : always (providerCall d) (configureVM pool name path).
Proof. unfold configureVM. solve_govc. Qed.
Hint Resolve configureVM_ok : always.

Lemma createOrVerify_ok d pool name ann : always (providerCall d) (createOrVerify pool name ann).
Proof. unfold createOrVerify. solve_govc. Qed.
Hint Resolve createOrVerify_ok : always.

Lemma downloadISO_ok d url path lm : always (providerCall d) (downloadISO url path lm).
Proof. unfold downloadISO. solve_govc. Qed.
Hint Resolve downloadISO_ok : always.

Lemma cachedISOInUse_ok d pool vms backing : always (providerCall d) (cachedISOInUse pool vms backing).
Proof. induction vms as [|vm vms IH]; simpl; solve_govc; apply IH. Qed.
Hint Resolve cachedISOInUse_ok : always.

Lemma verifyISO_ok d pool remote local digest : always (providerCall d) (verifyISO pool remote local digest).
Proof. unfold verifyISO. solve_govc. Qed.
Hint Resolve verifyISO_ok : always.

Lemma ensureDatastoreDirectory_ok d pool dir : always (providerCall d) (ensureDatastoreDirectory pool dir).
Proof. unfold ensureDatastoreDirectory. solve_govc. Qed.
Hint Resolve ensureDatastoreDirectory_ok : always.

Lemma uploadISO_ok d pool tmpDir tmpFile path sha : always (providerCall d) (uploadISO pool tmpDir tmpFile path sha).
Proof. unfold uploadISO. solve_govc. Qed.
Hint Resolve uploadISO_ok : always.

Lemma storeISO_ok d pool tmpDir tmpFile dl : always (providerCall d) (storeISO pool tmpDir tmpFile dl).
Proof. unfold storeISO. solve_govc. Qed.
Hint Resolve storeISO_ok : always.

Lemma govcEnsureISO_ok pool url : always (providerCall destroysNothing) (govcEnsureISO pool url).
Proof. unfold govcEnsureISO. solve_govc. Qed.

Lemma govcPrepareISOEjection_ok pool vm : always (providerCall destroysNothing) (govcPrepareISOEjection pool vm).
Proof. unfold govcPrepareISOEjection. solve_govc. Qed.

(** Ejection makes provider calls and runs the checkpoint. *)
Section eject_calls.
Context {S : Type} (checkpoint : S → ISOEjectionStatus → program (S * result unit)) (ok : precondition callE).
Context (Hok : ∀ X h (e : callE X), providerCall destroysNothing X h e → ok X h e).
Context (Hcheckpoint : ∀ s op, always ok (checkpoint s op)).

Lemma run_eject args : mayDestroy destroysNothing args → always ok (run args).
Proof. intros Hd. eapply always_mono; [by apply (run_ok destroysNothing)|done]. Qed.
Lemma details_eject pool uuid : always ok (vmDetailsByUUID pool uuid).
Proof. eapply always_mono; [apply (vmDetailsByUUID_ok destroysNothing)|done]. Qed.
Hint Resolve run_eject details_eject Hcheckpoint : always.

Lemma answerISOLock_ok pool op q s : always ok (answerISOLock checkpoint pool op q s).
Proof. unfold answerISOLock. solve_always. Qed.
Hint Resolve answerISOLock_ok : always.

Lemma disconnectLoop_ok fuel pool op s : always ok (disconnectLoop checkpoint fuel pool op s).
Proof.
  revert op s. induction fuel as [|fuel IH]; intros op s; cbn [disconnectLoop]; [apply always_return|].
  solve_always; first [by apply Hok | apply IH].
Qed.
Hint Resolve disconnectLoop_ok : always.

Lemma disconnectAndEject_ok pool op s : always ok (disconnectAndEject checkpoint pool op s).
Proof.
  unfold disconnectAndEject, disconnectInstallationMedia, ejectAndVerify.
  solve_always; by apply Hok.
Qed.
Hint Resolve disconnectAndEject_ok : always.

Lemma govcEjectISO_ok pool op s : always ok (govcEjectISO checkpoint pool op s).
Proof. unfold govcEjectISO. solve_always. Qed.
End eject_calls.

Lemma govcDeleteISO_post h pool path :
  safe anyAnswer (providerCall destroysNothing) h (govcDeleteISO pool path)
    (λ h' r, match r with Ok _ => isoDeleted pool path h' | Err _ => True end).
Proof.
  unfold govcDeleteISO. destruct (TrimSpace path == "") eqn:E; gobool; [by left|].
  apply safe_bind. unfold run, runOutput. apply safe_bindOk, safe_bind. split; [done|].
  intros [out|e] _; cbn [safe].
  - right. left. exists out. by left.
  - destruct (isGovcDatastorePathNotFound (govcError _ e)) eqn:En; cbn [safe]; [|done].
    right. right. exists e. split; [by left|done].
Qed.

(** The destroy command of destroyVM. *)
Definition destroyCommand (pool : VsphereAgentPool) (vm : OwnedVMStatus) (uuid : string) : list string :=
  if TrimSpace uuid != "" then destroyArgs pool "-vm.uuid" uuid
  else destroyArgs pool "-vm.ipath" (vmInventoryPath pool (vm_Name vm)).

Lemma deletionTarget_mono pool vm h h' args : grows h h' → deletionTarget pool vm h args → deletionTarget pool vm h' args.
Proof.
  intros Hg. unfold deletionTarget, ownershipVerified. destruct (vm_OwnerUID vm == ""); [done|].
  destruct (deletionSelector pool vm). intros (out & d & rest & Hin & ?). exists out, d, rest. split; [|done].
  by eapply In_grows.
Qed.

Lemma destroyVM_post h pool vm uuid :
  deletionTarget pool vm h (destroyCommand pool vm uuid) →
  safe anyAnswer (providerCall (deletionTarget pool vm)) h (destroyVM pool (vm_Name vm) uuid)
    (λ h' r, match r with Ok _ => vmGone pool vm h' | Err _ => True end).
Proof.
  intros Ht. unfold destroyVM, run, runOutput. fold (destroyCommand pool vm uuid).
  assert (isDestroy (destroyCommand pool vm uuid) = true) as Hd by (unfold destroyCommand; by destruct (_ != "")).
  apply safe_bind, safe_bindOk, safe_bind. split; [intros _; exact Ht|]. intros x _.
  assert (∀ h', grows h h' → govcSucceeded h' (destroyCommand pool vm uuid) isGovcVMNotFound → vmGone pool vm h') as Hgone.
  { intros h' Hg Hs. left. exists (destroyCommand pool vm uuid). split_and!; [done| |done]. by eapply deletionTarget_mono. }
  destruct x as [out|e]; cbn [safe].
  - apply Hgone; [by eexists [_]|]. left. exists out. by left.
  - destruct (isGovcVMNotFound (govcError _ e)) eqn:En; cbn [safe]; [|done].
    apply Hgone; [by eexists [_]|]. right. exists e. split; [by left|done].
Qed.

(** The details of a VM, with evidence in the history. *)
Lemma vmDetails_evidence (ok : precondition callE) h pool sel v id (Q : hist → result govcVirtualMachine → Prop) :
  ok _ h (Govc (infoArgs pool sel v)) →
  (∀ out vm rest, UnmarshalVMInfo out = Ok (vm :: rest) →
     Q (Event (Govc (infoArgs pool sel v)) (Ok out) :: h) (Ok vm)) →
  (∀ h' e, isVMNotFound e = true →
     (govcFailed h' (infoArgs pool sel v) isGovcVMNotFound ∨
      (∃ out, In (Event (Govc (infoArgs pool sel v)) (Ok out)) h' ∧ UnmarshalVMInfo out = Ok [])) → Q h' (Err e)) →
  (∀ h' e, isVMNotFound e = false → Q h' (Err e)) →
  safe anyAnswer ok h (vmDetailsWithSelector pool sel v id) Q.
Proof.
  intros Hok HQ HN HE. unfold vmDetailsWithSelector, runOutput. apply safe_bind, safe_bind. split; [done|].
  intros [out|e] _; cbn [safe].
  - destruct (UnmarshalVMInfo out) as [[|vm rest]|e] eqn:Eu; cbn [safe].
    + apply HN; [done|]. right. exists out. split; [by left|done].
    + by eapply HQ.
    + by apply HE.
  - destruct (isGovcVMNotFound (govcError _ e)) eqn:En; cbn [safe]; [|by apply HE].
    apply HN; [done|]. left. exists e. split; [by left|done].
Qed.
Lemma deletionDetails_eq pool vm :
  (if vm_BIOSUUID vm != "" then vmDetailsByUUID pool (vm_BIOSUUID vm) else vmDetails pool (vm_Name vm)) =
  vmDetailsWithSelector pool (deletionSelector pool vm).1 (deletionSelector pool vm).2
    (if vm_BIOSUUID vm != "" then vm_BIOSUUID vm else vm_Name vm).
Proof. unfold deletionSelector. by destruct (vm_BIOSUUID vm != ""). Qed.

Lemma govcDeleteVM_post h pool vm :
  safe anyAnswer (providerCall (deletionTarget pool vm)) h (govcDeleteVM pool vm)
    (λ h' r, match r with Ok _ => vmGone pool vm h' | Err _ => True end).
Proof.
  unfold govcDeleteVM. destruct (TrimSpace (vm_Name vm) == ""); [done|].
  destruct (vm_OwnerUID vm != "") eqn:Eo; gobool.
  2: { apply destroyVM_post. unfold deletionTarget. by rewrite Eo. }
  rewrite deletionDetails_eq. apply safe_bind. apply vmDetails_evidence.
  - intros [=].
  - intros out d rest Hu. destruct (gv_Annotation d != _) eqn:Ea; gobool; [done|].
    apply destroyVM_post. unfold deletionTarget. rewrite bool_decide_eq_false_2 by done. unfold ownershipVerified, destroyCommand.
    destruct (deletionSelector pool vm) as [sel v]. exists out, d, rest. split_and!; [by left|done|done|].
    destruct (normalizeVMwareSerialUUID (gv_UUID d) != "") eqn:En; gobool.
    + destruct (TrimSpace (normalizeVMwareSerialUUID (gv_UUID d)) != "") eqn:Et; [by left|]. gobool.
      by apply normalizeUUID_no_space in Et.
    + right. split; [done|]. destruct (TrimSpace (vm_BIOSUUID vm) != ""); auto.
  - intros h' e En Hev. rewrite En. right. split; [done|]. by destruct (deletionSelector pool vm).
  - intros h' e En. by rewrite En.
Qed.

(** The cleanup of a partial VM deletes the VM that was just created. *)
Lemma createOrVerify_post d h pool vm :
  safe anyAnswer (providerCall d) h (createOrVerify pool (vm_Name vm) (vmOwnerAnnotationPrefix +:+ vm_OwnerUID vm))
    (λ h' r, match r with Ok true => vmCreated vm h' | _ => True end).
Proof.
  unfold createOrVerify, run, runOutput. apply safe_bind, safe_bindOk, safe_bind. split; [intros [=]|].
  intros [out|e] _; cbn [safe].
  - do 2 eexists. split; [by left|]. split; [done|]. split; [|simpl; auto].
    unfold createArgs. cbv zeta. rewrite !last_app. simpl. done.
  - destruct (isGovcVMAlreadyExists _); cbn [safe]; [|done]. apply safe_bind.
    eapply safe_mono; [apply vmDetails_ok|]. intros h' [x|e'] _; cbn [safe]; [|done]. by destruct (_ != _).
Qed.

Lemma vmCreated_mono vm h h' : grows h h' → vmCreated vm h → vmCreated vm h'.
Proof. intros Hg (args & out & Hin & ?). exists args, out. split; [by eapply In_grows|done]. Qed.

Lemma govcCreateVM_post h pool req :
  safe anyAnswer (providerCall (creationTarget pool req)) h (govcCreateVM pool req) (λ _ _, True).
Proof.
  unfold govcCreateVM. destruct (TrimSpace (cr_Name req) == ""); [done|]. destruct (cr_ISOPath req == ""); [done|].
  destruct (TrimSpace (cr_OwnerUID req) == "") eqn:Eo; [done|]. gobool. apply safe_bindOk.
  pose (vm t := (newOwnedVMStatus t (TrimSpace (cr_Name req))) <| vm_OwnerUID := TrimSpace (cr_OwnerUID req) |>).
  eapply safe_mono; [apply (createOrVerify_post _ h pool (vm 0))|].
  intros h1 [created|e] Hc; [|done]. apply safe_bind.
  eapply safe_mono; [apply safe_extends, configureVM_ok|]. intros h2 [[]|cause] [_ Hg].
  - apply safe_bind. split; [done|]. intros t _. apply safe_bind.
    eapply safe_mono; [apply govcVMStatus_ok|]. by intros h3 [d|e] _.
  - unfold cleanupPartialVM. destruct created; [|done]. cbn [negb]. apply safe_bind. split; [done|]. intros t _.
    apply safe_bind. eapply safe_mono; [eapply safe_ok_mono_ext; [apply (govcDeleteVM_post _ pool (vm t))|]|by intros h3 [[]|e] _].
    intros X new e. destruct e; simpl; try done. intros Hd Hdest. specialize (Hd Hdest).
    unfold deletionTarget in Hd. rewrite (bool_decide_eq_false_2 (vm_OwnerUID (vm t) = "")) in Hd by done.
    exists (vm t). split_and!; [done|done|done|done| |done].
    apply (vmCreated_mono (vm 0) h1); [|done]. eapply grows_trans; [exact Hg|]. by exists (new ++ [Event Now t]); rewrite <- app_assoc.
Qed.

(** The operations one by one. *)
Lemma govcLaws : @VMProviderLaws _ govcVMProvider.
Proof.
  split; intros.
  - apply govcEnsureISO_ok.
  - apply govcCreateVM_post.
  - apply govcVMStatus_ok.
  - apply govcPrepareISOEjection_ok.
  - apply govcDeleteISO_post.
  - apply govcDeleteVM_post.
  - apply govcEjectISO_ok; [done|]. intros s' op' h'. done.
Qed.

(** C33: the govc provider meets the contract of the VMProvider interface: no
    operation writes to the API server, only deletion and the cleanup of a
    partial VM destroy VMs, namely the VM they are asked to, and a successful deletion of a VM or an image leaves
    evidence that it is gone.  Every provider that the factory makes from a Secret is one. *)
Theorem govc_provider_laws (pool : VsphereAgentPool) (secret : Secret) :
  match NewGovcVMProvider pool secret with
  | Ok prov => @VMProviderLaws _ prov
  | Err _ => True
  end.
Proof.
  unfold NewGovcVMProvider. destruct (List.find _ _); [done|]. destruct (ParseBool _); [apply govcLaws|done].
Qed.

Lemma NewGovc_laws pool secret prov : NewGovcVMProvider pool secret = Ok prov → @VMProviderLaws _ prov.
Proof.
  unfold NewGovcVMProvider. destruct (List.find _ _); [done|]. destruct (ParseBool _); [|done].
  intros [= <-]. apply govcLaws.
Qed.

(** ** Ownership *)

(** C34: a VM with a recorded owner is destroyed only after vCenter reported the
    owner annotation on the inspected VM, and the command names the UUID of
    exactly that VM (or the inspected selector when it has none). *)
Theorem govcDeleteVM_ownership (pool : VsphereAgentPool) (vm : OwnedVMStatus) (h : hist) (args : list string)
    (k : result string → program (result unit))
    (Hreach : reach anyAnswer [] (govcDeleteVM pool vm) h (Call (Govc args) k))
    (Hdestroy : isDestroy args = true) (Howner : vm_OwnerUID vm ≠ "") :
  ownershipVerified pool vm args h.
Proof.
  apply (safe_reach _ _ _ _ _ _ _ (govcDeleteVM_post [] pool vm)) in Hreach as Ht. simpl in Ht. specialize (Ht Hdestroy).
  unfold deletionTarget in Ht. by rewrite bool_decide_eq_false_2 in Ht.
Qed.

(** ** Content addressing *)

(** The last two calls downloaded [remote] from the datastore of the pool into a local file and read that file, and
    what was read has the digest. *)
Definition readBack (pool : VsphereAgentPool) (remote sha : string) (h : hist) : Prop :=
  ∃ local content out older,
    h = Event (ReadFile local) (Ok content) ::
        Event (Govc ["datastore.download"; "-dc"; datacenter pool; "-ds"; isoDatastore pool; remote; local]) (Ok out) :: older ∧
    sha256Hex content = sha.

(** The move of a staged image to its place in the datastore. *)
Definition moveArgs (pool : VsphereAgentPool) (staged path : string) : list string :=
  ["datastore.mv"; "-f=true"; "-dc"; datacenter pool; "-ds"; isoDatastore pool; staged; path].

(** The image at [path] has the digest: it was read back from there, or from the staged object that the next call moved
    there with success. *)
Definition contentRead (pool : VsphereAgentPool) (path sha : string) (h : hist) : Prop :=
  ∃ newer older, h = newer ++ older ∧
    (readBack pool path sha older ∨
     ∃ staged out before, older = Event (Govc (moveArgs pool staged path)) (Ok out) :: before ∧ readBack pool staged sha before).

Lemma contentRead_app pool path sha h new : contentRead pool path sha h → contentRead pool path sha (new ++ h).
Proof. intros (newer & older & -> & Hr). exists (new ++ newer), older. by rewrite app_assoc. Qed.

Lemma readBack_content pool path sha h : readBack pool path sha h → contentRead pool path sha h.
Proof. intros Hr. exists [], h. split; [done|by left]. Qed.

(** The commands that make an image visible under its content address: the object moved has just been read back. *)
Definition publishCall (pool : VsphereAgentPool) : precondition callE := λ X h e,
  match e with
  | Govc args => govcCommand args = "datastore.mv" →
      ∃ staged sha, args = moveArgs pool staged (isoContentPath pool sha) ∧ readBack pool staged sha h
  | _ => True
  end.

Definition noPublish : precondition callE := λ X _ e,
  match e with Govc args => govcCommand args ≠ "datastore.mv" | _ => True end.

Lemma quiet_publish {A} pool (p : program A) :
  always noPublish p →
  always (publishCall pool) p.
Proof. intros Hp. eapply always_mono; [exact Hp|]. intros X h e. destruct e; simpl; try done. Qed.

Lemma verifyISO_safe pool remote local sha h :
  safe anyAnswer (publishCall pool) h (verifyISO pool remote local sha)
    (λ h' r, match r with Ok true => readBack pool remote sha h' | _ => True end).
Proof.
  unfold verifyISO, run, runOutput. apply safe_bind, safe_bindOk, safe_bind. split; [intros [=]|].
  intros [out|e] _; cbn [safe].
  - apply safe_bindOk. split; [done|]. intros [content|e] _; cbn [safe]; [|done].
    destruct (sha256Hex content == sha) eqn:E; gobool; [|done].
    by eexists local, content, out, h.
  - by destruct (isGovcDatastorePathNotFound _).
Qed.

Lemma govc_quiet args : govcCommand args ≠ "datastore.mv" →
  always noPublish (run args).
Proof. intros Hc. unfold run, runOutput. solve_always. exact Hc. Qed.

Lemma govcDeleteISO_quiet pool path : always (publishCall pool) (govcDeleteISO pool path).
Proof.
  apply quiet_publish. unfold govcDeleteISO. destruct (_ == ""); [apply always_return|].
  apply always_bind; [by apply govc_quiet|]. intros ?. solve_always.
Qed.

Lemma uploadISO_safe pool tmpDir tmpFile sha h :
  safe anyAnswer (publishCall pool) h (uploadISO pool tmpDir tmpFile (isoContentPath pool sha) sha)
    (λ h' r, match r with Ok _ => contentRead pool (isoContentPath pool sha) sha h' | _ => True end).
Proof.
  unfold uploadISO. apply safe_bind.
  eapply safe_mono with (Q := λ h' r, match r with Ok _ => contentRead pool (isoContentPath pool sha) sha h' | _ => True end).
  2: { intros h' r Hr. apply safe_bind. eapply safe_mono; [apply safe_extends, govcDeleteISO_quiet|].
       intros h2 r2 [_ [new ->]]. cbn [safe]. destruct r; [by apply contentRead_app|done]. }
  apply safe_bindOk. eapply safe_mono; [apply quiet_publish; by apply govc_quiet|].
  intros h1 [[]|e] _; [|done]. apply safe_bindOk. eapply safe_mono; [apply verifyISO_safe|].
  intros h2 [[]|e] Hv; cbn [negb]; [|done|done].
  unfold run, runOutput. apply safe_bindOk, safe_bind. split.
  - intros _. by eexists _, sha.
  - intros [out|e] _; cbn [safe]; [|done]. eexists [], _.
    split; [done|]. right. by eexists _, out, h2.
Qed.
Hint Resolve govc_quiet : always.
Hint Extern 1 (govcCommand _ ≠ _) => discriminate : always.

Lemma ensureDatastoreDirectory_quiet pool dir : always noPublish (ensureDatastoreDirectory pool dir).
Proof. unfold ensureDatastoreDirectory. solve_always. Qed.

Lemma vmDetailsWithSelector_quiet pool sel v id : always noPublish (vmDetailsWithSelector pool sel v id).
Proof. unfold vmDetailsWithSelector, runOutput. solve_always. discriminate. Qed.

Lemma cachedISOInUse_quiet pool vms backing : always noPublish (cachedISOInUse pool vms backing).
Proof.
  induction vms as [|vm vms IH]; cbn [cachedISOInUse]; solve_always;
    first [apply IH | apply vmDetailsWithSelector_quiet].
Qed.

(** A download is not modified only under a validator. *)
Lemma downloadISO_safe pool url path lm h :
  safe anyAnswer (publishCall pool) h (downloadISO url path lm)
    (λ _ r, match r with Ok d => dl_NotModified d = true → validHTTPDate lm ≠ "" | Err _ => True end).
Proof.
  unfold downloadISO. destruct (url_Parse url); [|done]. apply safe_bind. split; [done|].
  intros [resp|e] _; [|done]. cbn [safe].
  destruct ((hr_StatusCode resp == 304) && (validHTTPDate lm != "")) eqn:E.
  { gobool. by intros _. }
  destruct (_ != 200); [done|]. destruct (_ <? _); [done|]. destruct (hr_Body resp); [|done].
  destruct (_ <? _); [done|]. apply safe_bindOk. split; [done|]. by intros [[]|e'] _.
Qed.

(** What a successful EnsureISO has established: the content of the image, or, when the verification is deferred, that
    the image is the recorded one. *)
Definition ensured (pool : VsphereAgentPool) (h : hist) (r : result ISOEnsureResult) : Prop :=
  match r with
  | Ok res =>
      ie_Path res = isoContentPath pool (ie_SHA256 res) ∧
      if ie_VerificationDeferred res
      then ie_Path res = is_Path (pt_ISO (pl_Status pool)) ∧ ie_SHA256 res = is_SHA256 (pt_ISO (pl_Status pool))
      else contentRead pool (ie_Path res) (ie_SHA256 res) h
  | Err _ => True
  end.

Lemma storeISO_safe pool tmpDir tmpFile dl h :
  safe anyAnswer (publishCall pool) h (storeISO pool tmpDir tmpFile dl) (ensured pool).
Proof.
  unfold storeISO. apply safe_bindOk. eapply safe_mono; [apply verifyISO_safe|].
  intros h1 [[]|e] Hv; cbn [safe]; [by split; [|apply readBack_content]| |done].
  apply safe_bindOk. eapply safe_mono; [apply quiet_publish, ensureDatastoreDirectory_quiet|].
  intros h2 [[]|e] _; [|done]. apply safe_bindOk. eapply safe_mono; [apply uploadISO_safe|].
  by intros h3 [[]|e] Hc.
Qed.

Lemma isoValidator_path pool url :
  validHTTPDate (isoValidator pool url) ≠ "" ∨ isoValidator pool url ≠ "" →
  validHTTPDate "" = "" →
  is_Path (pt_ISO (pl_Status pool)) = isoContentPath pool (is_SHA256 (pt_ISO (pl_Status pool))).
Proof.
  unfold isoValidator. destruct (_ && _ && _ && _) eqn:E; [by gobool|]. intros [?|?]; congruence.
Qed.

Lemma govcEnsureISO_safe pool url (Hempty : validHTTPDate "" = "") h :
  safe anyAnswer (publishCall pool) h (govcEnsureISO pool url) (ensured pool).
Proof.
  unfold govcEnsureISO. destruct (url == ""); [done|]. apply safe_bindOk. split; [done|].
  intros [tmpDir|e] _; [|done]. apply safe_bindOk. eapply safe_mono; [apply downloadISO_safe|].
  intros h1 [dl|e] Hdl; [|done]. destruct (dl_NotModified dl); [|apply storeISO_safe].
  apply safe_bind. eapply safe_mono; [apply quiet_publish, cachedISOInUse_quiet|].
  assert (is_Path (pt_ISO (pl_Status pool)) = isoContentPath pool (is_SHA256 (pt_ISO (pl_Status pool)))) as Hpath
    by (apply (isoValidator_path pool url); [left; by apply Hdl|done]).
  intros h2 [[]|e] _; cbn [safe]; [done| |done].
  apply safe_bind. eapply safe_mono; [apply verifyISO_safe|].
  intros h3 [[]|e] Hv; cbn [safe]; [|  |done].
  - split; [done|by apply readBack_content].
  - apply safe_bindOk. eapply safe_mono; [apply downloadISO_safe|].
    intros h4 [dl2|e] _; [|done]. apply storeISO_safe.
Qed.

(** C36: content addressing.  An image is moved to its content address only when the
    two calls before the move downloaded the staged object from the datastore and read
    the downloaded file, whose bytes have that SHA-256.  A successful EnsureISO reports
    the content address of the digest it reports, and either the image there was read back
    with that digest (downloaded from that path, or moved there with success right after the
    staged object was read back), or its verification is deferred and it is the image
    recorded in the status. *)
Theorem govcEnsureISO_verified (pool : VsphereAgentPool) (url : string) (Hempty : validHTTPDate "" = "") (h : hist)
    (p : program (result ISOEnsureResult)) (Hreach : reach anyAnswer [] (govcEnsureISO pool url) h p) :
  match p with
  | Call e _ => publishCall pool _ h e
  | Return r => ensured pool h r
  end.
Proof. apply (safe_reach _ _ _ _ _ _ _ (govcEnsureISO_safe pool url Hempty []) Hreach). Qed.
End govc_laws.
