(* ===== verification/VsphereProgress.v ===== *)
(** * A deleted VsphereAgent is cleaned up

    The counterpart of the safety theorems on deletions in VsphereAgent.v and Govc.v: in a
    vCenter and a cluster that answer, one reconciliation of a deleted VsphereAgent deletes
    everything that belongs to its VM and nothing else.  The estate is a state that the
    calls change: the VsphereAgent, its VM and the Agents of the namespace.  A patch is
    stored with a new resource version, and a deletion is carried out only if its
    preconditions name the version that is stored. *)
From S2P Require Import Prelude Api Identity Planner OwnedVMs VsphereObjects Sha256 Metrics Effects K8s Telemetry Objects.
From S2P Require Import VmCleanup VMProvider IsoCache InfraEnv VsphereAgent Govc.

(** ** The estate *)
Record estate := mkEstate {
  es_agent : VsphereAgent;
  es_vm : option govcVirtualMachine;
  es_hosts : list Unstructured }.

#[export] Instance eta_estate : Eta estate := λ w, mkEstate (es_agent w) (es_vm w) (es_hosts w).

(** What does not change: the pool and its Secret, the other VsphereAgents, how govc
    prints a VM, the inventory path of the VM, and the time. *)
Record surroundings := mkSurroundings {
  su_Pool : VsphereAgentPool;
  su_Secret : Secret;
  su_Others : list VsphereAgent;
  su_Print : govcVirtualMachine → string;
  su_Path : string;
  su_Now : Time }.

Definition gone {A} : result A := Err (mkError ClassNotFound "not found").
Definition conflict {A} : result A := Err (mkError ClassConflict "conflict").
Definition noSuchVM {A} : result A := Err (mkError ClassOther "exit status 1: govc: no such VM").
Definition noAnswer {A} : result A := Err (mkError ClassOther "unavailable").

Definition stored (host : Unstructured) : Unstructured :=
  host <| un_Meta := (un_Meta host) <| om_ResourceVersion := om_ResourceVersion (un_Meta host) +:+ "'" |> |>.

Definition replaceHost (host : Unstructured) (hosts : list Unstructured) : list Unstructured :=
  map (λ h, if GetName h == GetName host then host else h) hosts.
Definition removeHost (name : string) (hosts : list Unstructured) : list Unstructured :=
  List.filter (λ h, GetName h != name) hosts.

(** The stored Agent is the one a deletion names. *)
Definition matchesPreconditions (o : Unstructured) (pre : option Preconditions) (h : Unstructured) : bool :=
  (GetName h == GetName o) &&
  match pre with
  | Some p => (pc_UID p == om_UID (un_Meta h)) && (pc_ResourceVersion p == om_ResourceVersion (un_Meta h))
  | None => true
  end.

Section estate.
Context (su : surroundings).

(** A selector of a command means the VM. *)
Definition means (selector value : string) (d : govcVirtualMachine) : bool :=
  ((selector == "-vm.ipath") && (value == su_Path su)) ||
  ((selector == "-vm.uuid") && (value == normalizeVMwareSerialUUID (gv_UUID d))).

Definition vcenter (args : list string) (w : estate) : estate * result string :=
  match es_vm w with
  | None => (w, noSuchVM)
  | Some d =>
      match args with
      | ["vm.info"; "-json"; "-dc"; _; selector; value] =>
          (w, if means selector value d then Ok (su_Print su d) else noSuchVM)
      | ["vm.destroy"; "-dc"; _; selector; value] =>
          if means selector value d then (w <| es_vm := None |>, Ok "") else (w, noSuchVM)
      | _ => (w, noAnswer)
      end
  end.

Definition estateGet (w : estate) (k : kind) (ns name : string) : result (obj k) :=
  match k return result (obj k) with
  | KVsphereAgent => if (vaNamespace (es_agent w) == ns) && (vaName (es_agent w) == name) then Ok (es_agent w) else gone
  | KVsphereAgentPool => Ok (su_Pool su)
  | KSecret => Ok (su_Secret su)
  | _ => gone
  end.

Definition estateAnswer (X : Type) (e : callE X) (w : estate) : estate * X :=
  match e in callE X return estate * X with
  | Get _ k ns name => (w, estateGet w k ns name)
  | ListObjs _ k _ =>
      (w, match k return result (list (obj k)) with
          | KVsphereAgent => Ok (es_agent w :: su_Others su)
          | KAgent => Ok (es_hosts w)
          | _ => Ok []
          end)
  | Create _ o => (w, Ok o)
  | Update _ o => (w, Ok o)
  | StatusUpdate _ o => (w, Ok o)
  | Patch k _ after _ =>
      match k return obj k → estate * result (obj k) with
      | KAgent => λ o, (w <| es_hosts := replaceHost (stored o) (es_hosts w) |>, Ok (stored o))
      | KVsphereAgent => λ o, (w <| es_agent := o |>, Ok o)
      | _ => λ o, (w, Ok o)
      end after
  | Delete k o pre =>
      match k return obj k → estate * result unit with
      | KAgent => λ o, if existsb (matchesPreconditions o pre) (es_hosts w)
                       then (w <| es_hosts := removeHost (GetName o) (es_hosts w) |>, Ok tt) else (w, conflict)
      | _ => λ _, (w, noAnswer)
      end o
  | Now => (w, su_Now su)
  | Clock => (w, λ _ _, su_Now su)
  | Govc args => vcenter args w
  | GovcStart _ => (w, tt)
  | Select => (w, CommandDone (Ok tt))
  | MkdirTemp => (w, noAnswer)
  | HttpGet _ _ => (w, noAnswer)
  | ReadFile _ => (w, noAnswer)
  | WriteFile _ _ => (w, noAnswer)
  | CreateTemp _ => (w, noAnswer)
  | CloseFile _ => (w, noAnswer)
  | RemoveFile _ => (w, tt)
  | Metric _ => (w, tt)
  | Eventf _ _ _ _ _ _ => (w, tt)
  | OpenStack e =>
      (w, match e in osClientE X return X with
          | OSFactory _ _ => noAnswer
          | OSFind _ _ _ _ | OSGet _ _ _ _ | OSCreate _ _ _ _ _ => noAnswer
          | OSSetBootable _ _ _ | OSUploadImage _ _ _ _ | OSDelete _ _ _ _ => noAnswer
          end)
  end.
End estate.

(** ** What is to be deleted *)
Section doomed.
Context `{KubeLib} `{NetURL} `{GovcJSON} `{HTTPDate}.
Context (su : surroundings).

Definition thePool : VsphereAgentPool := applySpecDefaults (su_Pool su).

(** The VM of the VsphereAgent: the recorded one, or the one it may have created without recording it. *)
Definition vmOf (agent : VsphereAgent) : OwnedVMStatus :=
  let vm := vst_VM (va_Status agent) in
  if vm_Name vm == "" then (newOwnedVMStatus (su_Now su) (vsphereAgentVMName agent)) <| vm_OwnerUID := om_UID (va_Meta agent) |>
  else vm.

(** The credentials are complete and the pool cleans up. *)
Record answering : Prop := {
  an_credentials : isNil (NewGovcVMProvider thePool (su_Secret su)) = true;
  an_policy : cleanupEnabled thePool = true }.

(** A deleted VsphereAgent whose VM, if there is one, is printed so that it can be read, carries its
    mark and the recorded UUID and is nobody else's, and whose Agents are unbound. *)
Record doomed (w : estate) : Prop := {
  do_deleting : isDeleting (va_Meta (es_agent w)) = true;
  do_ejection : vst_ISOEjection (va_Status (es_agent w)) = None;
  do_name : TrimSpace (vm_Name (vmOf (es_agent w))) ≠ "";
  do_path : su_Path su = vmInventoryPath thePool (vm_Name (vmOf (es_agent w)));
  do_alone : vmManagedByAnother (es_agent w) (vmOf (es_agent w)) (su_Others su) = false;
  do_vm : ∀ d, es_vm w = Some d → UnmarshalVMInfo (su_Print su d) = Ok [d] ∧
    (vm_OwnerUID (vmOf (es_agent w)) ≠ "" →
       gv_Annotation d = vmOwnerAnnotationPrefix +:+ vm_OwnerUID (vmOf (es_agent w))) ∧
    (vm_BIOSUUID (vmOf (es_agent w)) = "" ∨ vm_BIOSUUID (vmOf (es_agent w)) = normalizeVMwareSerialUUID (gv_UUID d));
  do_hosts : List.NoDup (map GetName (es_hosts w));
  do_unbound : ∀ host, In host (es_hosts w) → agentOnVM (vmOf (es_agent w)) host = true →
    agentDeletionBlocker host = "" ∧ ∃ o, SetNestedField (un_Object host) (ABool false) ["spec"; "approved"] = Ok o }.
End doomed.

(** ** Proofs *)
Section progress.
Context `{KubeLib} `{!KubeLaws} `{NetURL} `{GovcJSON} `{HTTPDate}.
Context (apiReader : reader) (su : surroundings) (Hsu : answering su).

Abbreviation run := (runState (estateAnswer su)).
Abbreviation pool := (thePool su).

(** *** The VM *)
Lemma noSuchVM_recognised args e : noSuchVM (A := string) = Err e → isGovcVMNotFound (govcError args e) = true.
Proof.
  intros [= <-]. unfold isGovcVMNotFound, errMessage, govcError. cbn [err_Error]. rewrite !ToLower_app.
  apply orb_true_iff. left. do 3 apply Contains_app_l. reflexivity.
Qed.

Lemma run_command w args w' out : vcenter su args w = (w', Ok out) → run w (runOutput args) = (w', Ok out).
Proof. intros Hv. unfold runOutput. cbn [runState bind call estateAnswer]. by rewrite Hv. Qed.

Lemma run_missing args w : es_vm w = None → ∃ e, run w (runOutput args) = (w, Err (govcError args e)) ∧
  isGovcVMNotFound (govcError args e) = true.
Proof.
  intros Hv. unfold runOutput. cbn [runState bind call estateAnswer]. unfold vcenter. rewrite Hv. cbn [fst snd].
  eexists. split; [reflexivity|by apply noSuchVM_recognised].
Qed.

Lemma means_path d : means su "-vm.ipath" (su_Path su) d = true.
Proof. unfold means. by rewrite (bool_decide_eq_true_2 (su_Path su = su_Path su)). Qed.
Lemma means_uuid d : means su "-vm.uuid" (normalizeVMwareSerialUUID (gv_UUID d)) d = true.
Proof.
  unfold means. set (uuid := normalizeVMwareSerialUUID _). rewrite (bool_decide_eq_true_2 (uuid = uuid)) by done.
  apply orb_true_r.
Qed.

Lemma vcenter_info w d selector value :
  es_vm w = Some d → means su selector value d = true → vcenter su (infoArgs pool selector value) w = (w, Ok (su_Print su d)).
Proof. intros Hv Hm. unfold vcenter. rewrite Hv. cbn. by rewrite Hm. Qed.
Lemma vcenter_destroy w d selector value :
  es_vm w = Some d → means su selector value d = true →
  vcenter su (destroyArgs pool selector value) w = (w <| es_vm := None |>, Ok "").
Proof. intros Hv Hm. unfold vcenter. rewrite Hv. cbn. by rewrite Hm. Qed.

Lemma run_destroy w name uuid d :
  es_vm w = Some d → su_Path su = vmInventoryPath pool name → uuid = "" ∨ uuid = normalizeVMwareSerialUUID (gv_UUID d) →
  run w (destroyVM pool name uuid) = (w <| es_vm := None |>, Ok tt).
Proof.
  intros Hv Hp Hu. unfold destroyVM, Govc.run. destruct (TrimSpace uuid != "") eqn:Et.
  - assert (uuid = normalizeVMwareSerialUUID (gv_UUID d)) as -> by (destruct Hu as [->|]; [by vm_compute in Et|done]).
    erewrite run_bind; [|by erewrite run_bindOk by (exact (run_command _ _ _ _ (vcenter_destroy w d _ _ Hv (means_uuid d))))]. done.
  - rewrite <- Hp.
    erewrite run_bind; [|by erewrite run_bindOk by (exact (run_command _ _ _ _ (vcenter_destroy w d _ _ Hv (means_path d))))]. done.
Qed.

(** A VM that is there is read, one that is not is reported. *)
Lemma run_details w d selector value identity :
  UnmarshalVMInfo (su_Print su d) = Ok [d] → es_vm w = Some d → means su selector value d = true →
  run w (vmDetailsWithSelector pool selector value identity) = (w, Ok d).
Proof.
  intros Hj Hv Hm. unfold vmDetailsWithSelector. erewrite run_bind by exact (run_command _ _ _ _ (vcenter_info w d _ _ Hv Hm)).
  cbv beta iota. by rewrite Hj.
Qed.

Lemma run_details_missing w selector value identity :
  es_vm w = None → ∃ e, run w (vmDetailsWithSelector pool selector value identity) = (w, Err e) ∧ isVMNotFound e = true.
Proof.
  intros Hv. destruct (run_missing (infoArgs pool selector value) w Hv) as (e & Hr & He).
  unfold vmDetailsWithSelector. erewrite run_bind by exact Hr. cbv beta iota. rewrite He. by eexists.
Qed.

Lemma estate_no_vm w : es_vm w = None → w <| es_vm := None |> = w.
Proof. destruct w. simpl. by intros ->. Qed.

Lemma run_deleteVM w0 w :
  doomed su w0 → es_vm w = es_vm w0 → run w (govcDeleteVM pool (vmOf su (es_agent w0))) = (w <| es_vm := None |>, Ok tt).
Proof.
  intros [_ _ Hn Hp _ Hd _ _] Hw. rewrite <- Hw in Hd. set (vm := vmOf su (es_agent w0)) in *. clearbody vm.
  unfold govcDeleteVM.
  rewrite (bool_decide_eq_false_2 (TrimSpace (vm_Name vm) = "")) by done.
  destruct (es_vm w) as [d|] eqn:Hv.
  - destruct (Hd d eq_refl) as (Hj & Ha & Hu). destruct (bool_decide_reflect (vm_OwnerUID vm = "")) as [Ho|Ho]; cbn [negb].
    { by apply (run_destroy w _ _ d). }
    erewrite (run_bind _ w _ _ w (Ok d)).
    2: { unfold vmDetailsByUUID, vmDetails.
         destruct (bool_decide_reflect (vm_BIOSUUID vm = "")) as [Hb|Hb]; cbn [negb].
         - rewrite <- Hp. exact (run_details w d _ _ _ Hj Hv (means_path d)).
         - destruct Hu as [?| ->]; [done|]. exact (run_details w d _ _ _ Hj Hv (means_uuid d)). }
    cbv beta iota. rewrite (Ha Ho), (bool_decide_eq_true_2 (vmOwnerAnnotationPrefix +:+ _ = _)) by done. cbn [negb]. cbv zeta.
    apply (run_destroy w _ _ d); [done|done|].
    destruct (bool_decide_reflect (normalizeVMwareSerialUUID (gv_UUID d) = "")) as [Hz|Hz]; cbn [negb]; [|by right].
    rewrite Hz in Hu. left. by destruct Hu.
  - rewrite (estate_no_vm w) by done. destruct (bool_decide_reflect (vm_OwnerUID vm = "")) as [Ho|Ho]; cbn [negb].
    + unfold destroyVM, Govc.run. set (args := if TrimSpace _ != "" then _ else _).
      destruct (run_missing args w Hv) as (e & Hr & He).
      erewrite run_bind; [|unfold bindOk; erewrite run_bind by exact Hr; reflexivity]. cbv beta iota. by rewrite He.
    + unfold vmDetailsByUUID, vmDetails. destruct (vm_BIOSUUID vm != "").
      all: match goal with |- context [vmDetailsWithSelector _ ?s ?v ?i] =>
             destruct (run_details_missing w s v i Hv) as (e & Hr & He) end.
      all: erewrite run_bind by exact Hr; cbv beta iota; by rewrite He.
Qed.

(** *** Marking the Agents *)

(** An Agent of the estate after some were marked: the same, or marked and still on the VM and unbound. *)
Definition kept (vm : OwnedVMStatus) (h h' : Unstructured) : Prop :=
  h' = h ∨ (agentOnVM vm h = true ∧ agentOnVM vm h' = true ∧ agentDeletionBlocker h' = "" ∧ GetName h' = GetName h).

Lemma kept_name vm h h' : kept vm h h' → GetName h' = GetName h.
Proof. by intros [->|(_ & _ & _ & ?)]. Qed.

Lemma marked_kept vm host o annotations :
  agentOnVM vm host = true → agentDeletionBlocker host = "" →
  SetNestedField (un_Object host) (ABool false) ["spec"; "approved"] = Ok o →
  kept vm host (stored (mkUnstructured ((un_Meta host) <| om_Annotations := annotations |>) o)).
Proof.
  intros Hon Hb Ho. right. split; [done|].
  assert (∀ p, pathsDiverge ["spec"; "approved"] p = true →
            NestedString o p = NestedString (un_Object host) p ∧ NestedSlice o p = NestedSlice (un_Object host) p) as Hp.
  { intros p Hd. by destruct (SetNestedField_other _ _ _ _ _ Ho Hd) as (? & _ & ?). }
  set (host' := stored _). assert (cleanupAgentInfo host' = cleanupAgentInfo host) as Hi.
  { unfold cleanupAgentInfo, agentSpecHostname, agentInventoryHostname, agentPrimaryMAC, agentSerialNumber. simpl.
    by rewrite (proj1 (Hp ["spec"; "hostname"] eq_refl)), (proj1 (Hp ["status"; "inventory"; "hostname"] eq_refl)),
      (proj1 (Hp ["status"; "inventory"; "systemVendor"; "serialNumber"] eq_refl)),
      (proj2 (Hp ["status"; "inventory"; "interfaces"] eq_refl)). }
  split; [unfold agentOnVM; by rewrite Hi|]. split; [|done].
  unfold agentDeletionBlocker, agentClusterName in *. simpl.
  rewrite (proj1 (Hp ["spec"; "clusterDeploymentName"; "name"] eq_refl)). exact Hb.
Qed.

Lemma Forall2_map_In {A B} (R : A → B → Prop) (f : B → B) l l' :
  (∀ a b, In a l → R a b → R a (f b)) → Forall2 R l l' → Forall2 R l (map f l').
Proof. intros Hf Hl. induction Hl as [|a b l l' Hab Hl IH]; constructor; [apply Hf; [by left|done]|]. apply IH. intros ? ? ?. apply Hf. by right. Qed.

Lemma nodup_names_eq (l : list Unstructured) a b :
  List.NoDup (map GetName l) → In a l → In b l → GetName a = GetName b → a = b.
Proof.
  induction l as [|h l IH]; [done|]. simpl. intros Hn. inversion Hn as [|? ? Hin Hn']; subst.
  intros [->|Ha] [->|Hb] He; [done| | |by apply IH].
  - destruct Hin. rewrite He. by apply in_map.
  - destruct Hin. rewrite <- He. by apply in_map.
Qed.

Lemma run_marks vm hosts0 l w :
  List.NoDup (map GetName hosts0) → Forall2 (kept vm) hosts0 (es_hosts w) →
  (∀ a, In a l → In a hosts0 ∧ agentOnVM vm a = true ∧ agentDeletionBlocker a = "" ∧
     ∃ o, SetNestedField (un_Object a) (ABool false) ["spec"; "approved"] = Ok o) →
  ∃ hosts', Forall2 (kept vm) hosts0 hosts' ∧
    run w (forEach l (markAgentForCleanup vm)) = (w <| es_hosts := hosts' |>, Ok tt).
Proof.
  intros Hn. revert w. induction l as [|a l IH]; intros w Hw Ha; cbn [forEach].
  { exists (es_hosts w). split; [done|]. by destruct w. }
  destruct (Ha a (or_introl eq_refl)) as (Hin & Hon & Hb & o & Ho).
  pose proof (marked_kept vm a o (<[agentCleanupAnnotation := vm_Name vm]> (om_Annotations (un_Meta a))) Hon Hb Ho) as Hk.
  set (a' := stored _) in Hk.
  destruct (IH (w <| es_hosts := replaceHost a' (es_hosts w) |>)) as (hosts' & Hk' & Hr).
  { simpl. apply Forall2_map_In; [|done]. intros h0 h Hin0 Hh.
    destruct (bool_decide_reflect (GetName h = GetName a')) as [He|]; [|done].
    assert (h0 = a) as ->; [|done]. apply (nodup_names_eq hosts0); [done|done|done|].
    rewrite <- (kept_name _ _ _ Hh), He. by apply kept_name in Hk. }
  { intros b Hb'. apply Ha. by right. }
  exists hosts'. split; [done|]. erewrite run_bindOk; [by rewrite Hr|].
  unfold markAgentForCleanup. rewrite Hb, Ho. reflexivity.
Qed.

(** *** Deleting them *)
Definition remaining (l hosts : list Unstructured) : list Unstructured :=
  List.filter (λ h, negb (existsb (λ a, GetName a == GetName h) l)) hosts.

Lemma remaining_cons a l hosts : remaining (a :: l) hosts = remaining l (removeHost (GetName a) hosts).
Proof.
  unfold remaining, removeHost. rewrite filter_filter_and. apply List.filter_ext. intros h. simpl.
  rewrite negb_orb. f_equal. f_equal. apply bool_decide_ext. split; congruence.
Qed.

Lemma run_delete a w :
  In a (es_hosts w) → agentDeletionBlocker a = "" →
  run w (deleteUnboundAgent a) = (w <| es_hosts := removeHost (GetName a) (es_hosts w) |>, Ok tt).
Proof.
  intros Hin Hb. unfold deleteUnboundAgent. rewrite Hb, (bool_decide_eq_true_2 ("" = "")) by done. cbn [negb].
  cbv zeta. erewrite run_bind.
  2: { cbn [runState call estateAnswer].
       assert (existsb (matchesPreconditions a (Some (mkPreconditions (om_UID (un_Meta a)) (om_ResourceVersion (un_Meta a)))))
                 (es_hosts w) = true) as ->; [|reflexivity].
       apply existsb_exists. exists a. split; [done|]. unfold matchesPreconditions. simpl. by rewrite !bool_decide_eq_true_2. }
  reflexivity.
Qed.

Lemma run_deletes l w :
  List.NoDup (map GetName l) → (∀ a, In a l → In a (es_hosts w) ∧ agentDeletionBlocker a = "") →
  run w (forEach l deleteUnboundAgent) = (w <| es_hosts := remaining l (es_hosts w) |>, Ok tt).
Proof.
  revert w. induction l as [|a l IH]; intros w Hl Ha; cbn [forEach].
  { unfold remaining. rewrite filter_true. by destruct w. }
  destruct (Ha a (or_introl eq_refl)) as [Hin Hb]. apply NoDup_cons_iff in Hl as [Hnew Hl].
  erewrite run_bindOk.
  2: { by apply run_delete. }
  rewrite IH; [by rewrite remaining_cons|done|]. intros b Hb'. destruct (Ha b (or_intror Hb')) as [Hin' ?].
  split; [|done]. simpl. apply filter_In. split; [done|]. apply negb_true_iff, bool_decide_eq_false_2.
  intros He. apply Hnew. rewrite <- He. by apply in_map.
Qed.

(** The Agents of the VM are the ones that go. *)
Lemma remaining_filter (p : Unstructured → bool) hosts :
  List.NoDup (map GetName hosts) → remaining (List.filter p hosts) hosts = List.filter (λ h, negb (p h)) hosts.
Proof.
  intros Hn. unfold remaining. apply filter_ext_in. intros h Hh. f_equal. apply eq_bool_prop_intro.
  rewrite !Is_true_true, existsb_exists. split.
  - intros (a & [Ha Hp]%filter_In & He). gobool. by rewrite <- (nodup_names_eq hosts a h Hn Ha Hh He).
  - intros Hp. exists h. split; [by apply filter_In|by apply bool_decide_eq_true_2].
Qed.

Lemma kept_names vm hosts0 hosts : Forall2 (kept vm) hosts0 hosts → map GetName hosts = map GetName hosts0.
Proof. induction 1 as [|h h' ? ? Hk ? IH]; simpl; [done|]. by rewrite (kept_name _ _ _ Hk), IH. Qed.

Lemma kept_others vm hosts0 hosts :
  Forall2 (kept vm) hosts0 hosts →
  List.filter (λ h, negb (agentOnVM vm h)) hosts = List.filter (λ h, negb (agentOnVM vm h)) hosts0.
Proof.
  induction 1 as [|h h' ? ? Hk ? IH]; simpl; [done|]. rewrite IH.
  destruct Hk as [->|(-> & -> & _)]; [done|]. done.
Qed.

Lemma kept_unbound vm hosts0 hosts h :
  Forall2 (kept vm) hosts0 hosts → (∀ a, In a hosts0 → agentOnVM vm a = true → agentDeletionBlocker a = "") →
  In h hosts → agentOnVM vm h = true → agentDeletionBlocker h = "".
Proof.
  induction 1 as [|h0 h' ? ? Hk ? IH]; intros Hu; [done|]. intros [->|Hin] Hon.
  - destruct Hk as [->|(_ & _ & ? & _)]; [|done]. apply Hu; [by left|done].
  - apply IH; [|done|done]. intros a Ha. apply Hu. by right.
Qed.

Lemma run_agentsForVM vm w :
  run w (agentsForVM apiReader pool vm) = (w, Ok (List.filter (agentOnVM vm) (es_hosts w))).
Proof. done. Qed.

Lemma run_deleteVMAgents vm hosts0 w :
  List.NoDup (map GetName hosts0) → Forall2 (kept vm) hosts0 (es_hosts w) →
  (∀ a, In a hosts0 → agentOnVM vm a = true → agentDeletionBlocker a = "") →
  run w (deleteVMAgents apiReader pool vm) =
    (w <| es_hosts := List.filter (λ h, negb (agentOnVM vm h)) hosts0 |>, Ok tt).
Proof.
  intros Hn Hk Hu. rewrite <- (kept_names _ _ _ Hk) in Hn. unfold deleteVMAgents.
  erewrite run_bindOk by apply run_agentsForVM. rewrite run_deletes.
  - by rewrite remaining_filter, (kept_others _ _ _ Hk).
  - clear -Hn. induction (es_hosts w) as [|h l IH]; simpl; [constructor|].
    apply NoDup_cons_iff in Hn as [Hh Hn]. destruct (agentOnVM vm h); [|by apply IH]. simpl. constructor; [|by apply IH].
    intros (a & He & [Ha _]%filter_In)%in_map_iff. apply Hh. rewrite <- He. by apply in_map.
  - intros a [Ha Hon]%filter_In. split; [done|]. exact (kept_unbound vm hosts0 _ a Hk Hu Ha Hon).
Qed.

Lemma run_prepareVMDeletion w vm :
  List.NoDup (map GetName (es_hosts w)) →
  (∀ a, In a (es_hosts w) → agentOnVM vm a = true → agentDeletionBlocker a = "" ∧
     ∃ o, SetNestedField (un_Object a) (ABool false) ["spec"; "approved"] = Ok o) →
  ∃ hosts', Forall2 (kept vm) (es_hosts w) hosts' ∧
    run w (prepareVMDeletion apiReader pool vm) = (w <| es_hosts := hosts' |>, Ok tt).
Proof.
  intros Hn Hu. destruct (run_marks vm (es_hosts w) (List.filter (agentOnVM vm) (es_hosts w)) w Hn) as (hosts' & Hk & Hr).
  - apply Forall2_same_length_lookup_2; [done|]. intros i h h' Hh Hh'. left. congruence.
  - intros a [Ha Hon]%filter_In. by destruct (Hu a Ha Hon).
  - exists hosts'. split; [done|]. unfold prepareVMDeletion. erewrite (run_bindOk _ w _ _ w tt).
    + by erewrite run_bindOk by apply run_agentsForVM.
    + by destruct (machineKey pool vm) as [[ns name]|].
Qed.

(** *** The VsphereAgent *)
Lemma run_govcProvider w : run w (provider apiReader NewGovcVMProvider pool) = (w, Ok govcVMProvider).
Proof.
  unfold provider. erewrite run_bindOk by reflexivity. pose proof (an_credentials _ Hsu) as Hc.
  unfold NewGovcVMProvider in *. destruct (List.find _ _); [done|]. by destruct (ParseBool _).
Qed.

Lemma run_managed w : doomed su w →
  run w (vmManagedByAnotherVsphereAgent (es_agent w) (vmOf su (es_agent w))) = (w, Ok false).
Proof.
  intros [_ _ _ _ Ha _ _ _]. unfold vmManagedByAnotherVsphereAgent. destruct (_ || _); [done|].
  erewrite run_bindOk by reflexivity. cbn [runState]. unfold vmManagedByAnother in *. cbn [existsb].
  rewrite (bool_decide_eq_true_2 (vaName (es_agent w) = vaName (es_agent w))) by done. simpl. by rewrite Ha.
Qed.

Lemma run_removeFinalizer w :
  run w (removeFinalizer apiReader (es_agent w)) =
    (w <| es_agent := (es_agent w) <| va_Meta := RemoveFinalizer (va_Meta (es_agent w)) vsphereAgentFinalizerName |> |>, Ok 0).
Proof.
  unfold removeFinalizer, patchFinalizer. erewrite run_bindOk; [reflexivity|]. erewrite run_bindOk.
  2: { cbn [runState call estateAnswer estateGet]. unfold vaNamespace, vaName. simpl. rewrite !RemoveFinalizer_spec. simpl.
       by rewrite (bool_decide_eq_true_2 (om_Namespace (va_Meta (es_agent w)) = _)),
         (bool_decide_eq_true_2 (om_Name (va_Meta (es_agent w)) = _)) by done. }
  cbv zeta. simpl.
  assert (ContainsFinalizer (RemoveFinalizer (va_Meta (es_agent w)) vsphereAgentFinalizerName) vsphereAgentFinalizerName = false) as ->;
    [|done].
  rewrite ContainsFinalizer_spec, RemoveFinalizer_spec. apply bool_decide_eq_false_2. simpl.
  intros [_ Hf]%list_elem_of_In%filter_In. gobool. done.
Qed.

Lemma run_deletionVM w : run w (deletionVM (es_agent w)) = (w, vmOf su (es_agent w)).
Proof. unfold deletionVM, vmOf. by destruct (_ == ""). Qed.

Lemma run_deleteVMAndAgents w : doomed su w →
  run w (deleteVMAndAgents apiReader NewGovcVMProvider (es_agent w) pool (vmOf su (es_agent w))) =
    (mkEstate (es_agent w) None (List.filter (λ h, negb (agentOnVM (vmOf su (es_agent w)) h)) (es_hosts w)), Ok tt).
Proof.
  intros Hd. unfold deleteVMAndAgents. erewrite run_bindOk by exact (run_managed w Hd). cbv beta iota.
  destruct (run_prepareVMDeletion w (vmOf su (es_agent w)) (do_hosts _ _ Hd) (do_unbound _ _ Hd)) as (hosts' & Hk & Hr).
  erewrite run_bindOk by exact Hr. set (w' := w <| es_hosts := hosts' |>).
  erewrite run_bindOk by exact (run_govcProvider w').
  erewrite run_bind by exact (run_deleteVM w w' Hd eq_refl). set (w'' := w' <| es_vm := None |>).
  erewrite (run_bind _ w'' _ _ w'' tt) by reflexivity. erewrite (run_bindOk _ w'' _ _ w'' tt) by reflexivity.
  erewrite (run_deleteVMAgents _ (es_hosts w) w''); [done|exact (do_hosts _ _ Hd)|exact Hk|].
  intros a Ha Hon. by apply (do_unbound _ _ Hd).
Qed.

(** C11: a deleted VsphereAgent is cleaned up in one reconciliation: in an estate that answers, its VM
    is gone afterwards, found by the recorded UUID or by the inventory path, and a VM that was already gone is
    no obstacle; so are exactly the Agents that run on the VM; the VsphereAgent loses the finalizer and
    nothing else changes. *)
Theorem vsphere_cleanup_completes w : doomed su w →
  run w (Reconcile apiReader NewGovcVMProvider (vaNamespace (es_agent w)) (vaName (es_agent w))) =
    (mkEstate ((es_agent w) <| va_Meta := RemoveFinalizer (va_Meta (es_agent w)) vsphereAgentFinalizerName |>) None
       (List.filter (λ h, negb (agentOnVM (vmOf su (es_agent w)) h)) (es_hosts w)), Ok 0).
Proof.
  intros Hd. unfold Reconcile. erewrite run_bind.
  2: { cbn [runState call estateAnswer estateGet].
       rewrite (bool_decide_eq_true_2 (vaNamespace (es_agent w) = _)), (bool_decide_eq_true_2 (vaName (es_agent w) = _)) by done.
       reflexivity. }
  cbn [fst snd andb]. erewrite (run_bind _ w _ _ w (Ok (su_Pool su))) by reflexivity. cbv beta iota zeta. fold pool.
  rewrite (do_ejection _ _ Hd), (do_deleting _ _ Hd). cbn [negb].
  unfold reconcileDelete. erewrite run_bind by apply run_deletionVM. rewrite (an_policy _ Hsu).
  rewrite (bool_decide_eq_false_2 (vm_Name (vmOf su (es_agent w)) = "")).
  2: { intros He. apply (do_name _ _ Hd). by rewrite He. }
  cbn [negb andb]. erewrite run_bindOk by exact (run_deleteVMAndAgents w Hd).
  exact (run_removeFinalizer (mkEstate (es_agent w) None _)).
Qed.
End progress.
