(* ===== verification/GovcCommand.v ===== *)
(** * Running govc

    internal/controller/vsphere_provider.go: the credentials of a provider, the environment
    and the time-out of a command, and what becomes of its output when it fails.  The
    model of the provider (Govc.v) calls [Govc args]; its answer is [commandAnswer]
    of the outcome of the process.  The provider classifies a failure by words of its
    message, so the theorems say which part of the output the message keeps, and
    what a message that repeats the arguments can be mistaken for. *)
From S2P Require Import Prelude Api Identity Planner OwnedVMs Sha256 Effects K8s Objects VMProvider IsoCache Govc.

(** ** Credentials and environment *)
Record govcConfig := mkGovcConfig {
  gc_Server : string;
  gc_Username : string;
  gc_Password : string;
  gc_Insecure : string }.

(** The configuration that NewGovcVMProvider keeps; [ParseBool] has accepted the
    last key. *)
Definition govcConfigOf (secret : Secret) : govcConfig :=
  let get key := mapGet (sec_Data secret) key in
  mkGovcConfig (get "server") (get "username") (get "password")
    (match ParseBool (orElse (get "insecure") "false") with Some true => "true" | _ => "false" end).

(** cmd.Env: the variables of the process are appended to those of the operator. *)
Definition commandEnv (environ : list (string * string)) (config : govcConfig) : list (string * string) :=
  environ ++
  [("HOME", "/tmp"); ("GOVC_PERSIST_SESSION", "false"); ("GOVC_URL", gc_Server config);
   ("GOVC_USERNAME", gc_Username config); ("GOVC_PASSWORD", gc_Password config); ("GOVC_INSECURE", gc_Insecure config)].

(** os/exec: of several values of a variable the process sees the last. *)
Definition Getenv (env : list (string * string)) (key : string) : option string :=
  snd <$> List.find (λ kv, kv.1 == key) (rev env).

(** The deadline of a context, and the default one. *)
Definition contextWithDefaultTimeout (now : Time) (deadline : option Time) (timeout : Duration) : option Time :=
  match deadline with
  | Some d => Some d
  | None => if timeout <=? 0 then None else Some (now + timeout)
  end.

(** ** Output

    The regular expression [\x1b\[[0-9;?]*[ -/]*[@-~]].  Its three classes are disjoint, so
    each repetition takes all it can. *)
Definition inRange (a b : nat) (c : ascii) : bool := let n := nat_of_ascii c in (a <=? n)%nat && (n <=? b)%nat.
Definition isParameterByte (c : ascii) : bool := inRange 48 57 c || Ascii.eqb c ";"%char || Ascii.eqb c "?"%char.
Definition isIntermediateByte (c : ascii) : bool := inRange 32 47 c.
Definition isFinalByte (c : ascii) : bool := inRange 64 126 c.

Fixpoint skipWhile (f : ascii → bool) (s : string) : string :=
  match s with
  | String c s' => if f c then skipWhile f s' else s
  | EmptyString => EmptyString
  end.

(** What follows an escape sequence at the start of [s]. *)
Definition ansiEscape (s : string) : option string :=
  match s with
  | String e (String b s') =>
      if Ascii.eqb e (byte 27) && Ascii.eqb b "["%char then
        match skipWhile isIntermediateByte (skipWhile isParameterByte s') with
        | String c rest => if isFinalByte c then Some rest else None
        | EmptyString => None
        end
      else None
  | _ => None
  end.

(** ReplaceAllString with the empty string, from left to right. *)
Fixpoint removeEscapes (fuel : nat) (s : string) : string :=
  match fuel, s with
  | S fuel', String c s' =>
      match ansiEscape s with
      | Some rest => removeEscapes fuel' rest
      | None => String c (removeEscapes fuel' s')
      end
  | _, _ => s
  end.

Definition carriageReturn : ascii := byte 13.

Definition cleanedOutput (output : string) : string :=
  ReplaceAll (removeEscapes (String.length output) output) carriageReturn newline.

Definition informative (line : string) : bool := negb ((line == "") || Contains line "Uploading...").
Definition outputLines (output : string) : list string :=
  List.filter informative (map TrimSpace (Split (cleanedOutput output) newline)).

Definition sanitizeCommandOutput (output : string) : string :=
  let lines := outputLines output in
  match lines with
  | [] => TrimSpace (cleanedOutput output)
  | _ => Join (drop (length lines - 3) lines) "; "
  end.

(** The outcome of a process: its combined output, its error and the error of its
    context. *)
Record commandOutcome := mkCommandOutcome {
  co_Output : string;
  co_Err : option error;
  co_CtxErr : option error }.

(** The answer of the call [Govc]; runOutput puts the arguments in front of an error
    ([govcError]). *)
Definition commandAnswer (o : commandOutcome) : result string :=
  match co_Err o with
  | None => Ok (co_Output o)
  | Some e =>
      match co_CtxErr o with
      | Some expired => Err expired
      | None => Err (mkError ClassOther (err_Error e +:+ ": " +:+ sanitizeCommandOutput (co_Output o)))
      end
  end.

(** ** Lemmas *)

(** Whatever the environment of the operator is, govc sees the credentials of the Secret and keeps no
    session, and a command has a deadline. *)
Lemma commandEnv_configured environ config :
  Getenv (commandEnv environ config) "GOVC_URL" = Some (gc_Server config) ∧
  Getenv (commandEnv environ config) "GOVC_USERNAME" = Some (gc_Username config) ∧
  Getenv (commandEnv environ config) "GOVC_PASSWORD" = Some (gc_Password config) ∧
  Getenv (commandEnv environ config) "GOVC_INSECURE" = Some (gc_Insecure config) ∧
  Getenv (commandEnv environ config) "GOVC_PERSIST_SESSION" = Some "false".
Proof. unfold Getenv, commandEnv. rewrite rev_app_distr. by split_and!. Qed.

Lemma command_has_deadline now deadline :
  ∃ d, contextWithDefaultTimeout now deadline govcCommandTimeout = Some d ∧
    (deadline = None → d = now + govcCommandTimeout) ∧ (∀ d', deadline = Some d' → d = d').
Proof. destruct deadline as [d|]; simpl; eexists; (split; [reflexivity|]); naive_solver. Qed.

(** The fuel is enough: a sequence is not longer than its text. *)
Lemma skipWhile_length f s : (String.length (skipWhile f s) ≤ String.length s)%nat.
Proof. induction s as [|c s IH]; simpl; [done|]. destruct (f c); simpl; lia. Qed.

Lemma ansiEscape_shorter s rest : ansiEscape s = Some rest → (String.length rest < String.length s)%nat.
Proof.
  destruct s as [|e [|b s]]; simpl; try done. destruct (_ && _); [|done].
  pose proof (skipWhile_length isIntermediateByte (skipWhile isParameterByte s)) as H1.
  pose proof (skipWhile_length isParameterByte s) as H2.
  destruct (skipWhile isIntermediateByte _) as [|c rest']; [done|]. destruct (isFinalByte c); [|done].
  intros [= ->]. simpl in H1. lia.
Qed.

Lemma removeEscapes_fuel n m s :
  (String.length s ≤ n)%nat → (String.length s ≤ m)%nat → removeEscapes n s = removeEscapes m s.
Proof.
  revert m s. induction n as [|n IH]; intros [|m] [|c s]; try done; cbn [String.length]; try lia. intros Hn Hm.
  cbn [removeEscapes]. destruct (ansiEscape (String c s)) as [rest|] eqn:He.
  - apply ansiEscape_shorter in He. cbn [String.length] in He. apply IH; lia.
  - f_equal. apply IH; lia.
Qed.

Lemma sanitize_keeps_last output init l :
  outputLines output = init ++ [l] → ∃ p, sanitizeCommandOutput output = p +:+ l.
Proof.
  intros Hl. unfold sanitizeCommandOutput. rewrite Hl.
  destruct (init ++ [l]) as [|x xs] eqn:E; [by destruct init|]. rewrite <- E, length_app. simpl.
  rewrite drop_app_le by lia. apply Join_snoc.
Qed.

(** The characters of the result. *)
Definition notChar (d c : ascii) : bool := negb (Ascii.eqb c d).

Lemma cleaned_no_CR output : forallString (notChar carriageReturn) (cleanedOutput output) = true.
Proof.
  unfold cleanedOutput, ReplaceAll. rewrite forallString_map. set (s := removeEscapes _ _). clearbody s.
  induction s as [|c s IH]; simpl; [done|]. rewrite IH, andb_true_r. unfold notChar.
  by destruct (Ascii.eqb c carriageReturn) eqn:E; [|rewrite E].
Qed.

Lemma outputLines_forall f output :
  Forall (λ w, forallString f w = true) (Split (cleanedOutput output) newline) →
  Forall (λ w, forallString f w = true) (outputLines output).
Proof.
  intros Hs. unfold outputLines. apply List.Forall_forall. intros w [Hw _]%filter_In.
  apply in_map_iff in Hw as (u & <- & Hu). apply forallString_trimBoth. rewrite List.Forall_forall in Hs. auto.
Qed.

(** ** Properties *)

(** The message of a failed command is short and on one line: whatever the command printed, no
    carriage return is left, and as soon as one of its lines says more than the progress of an upload,
    the message consists of the last three such lines at most, without line breaks, none of them empty. *)
Theorem sanitizeCommandOutput_shape output :
  forallString (notChar carriageReturn) (sanitizeCommandOutput output) = true ∧
  (outputLines output ≠ [] →
     forallString (notChar newline) (sanitizeCommandOutput output) = true ∧
     ∃ dropped kept, outputLines output = dropped ++ kept ∧ length kept = Nat.min 3 (length (outputLines output)) ∧
       Forall (λ line, line ≠ "" ∧ Contains line "Uploading..." = false) kept ∧
       sanitizeCommandOutput output = Join kept "; ").
Proof.
  pose proof (outputLines_forall _ output (Split_forall _ newline _ (cleaned_no_CR output))) as Hcr.
  pose proof (outputLines_forall _ output (Split_no_sep newline (cleanedOutput output))) as Hnl.
  assert (Forall (λ line, line ≠ "" ∧ Contains line "Uploading..." = false) (outputLines output)) as Hinf.
  { apply List.Forall_forall. intros w [_ Hw]%filter_In. unfold informative in Hw. by gobool. }
  unfold sanitizeCommandOutput. destruct (outputLines output) as [|x xs] eqn:E.
  { split; [|done]. apply forallString_trimBoth, cleaned_no_CR. }
  rewrite <- E in *. clear E x xs. set (n := (length (outputLines output) - 3)%nat).
  pose proof (take_drop n (outputLines output)) as Htd. split; [by apply Join_forall, Forall_drop|intros _].
  split; [by apply Join_forall, Forall_drop|].
  exists (take n (outputLines output)), (drop n (outputLines output)). split; [done|]. split; [rewrite length_drop; lia|].
  split; [by apply Forall_drop|done].
Qed.

Section classification.
Context `{KubeLib} `{NetURL} `{GovcJSON} `{HTTPDate}.

(** A failed command whose last informative line names a missing VM. *)
Definition reportsMissing (o : commandOutcome) (l : string) : Prop :=
  is_Some (co_Err o) ∧ co_CtxErr o = None ∧ last (outputLines (co_Output o)) = Some l ∧
  (Contains (ToLower l) "no such vm" = true ∨
   (Contains (ToLower l) "vm " = true ∧ Contains (ToLower l) " not found" = true)).

(** The error keeps that line at its end, and is classified by it. *)
Definition classifiedMissing (args : list string) (answer : result string) (l : string) : Prop :=
  ∃ e shown, answer = Err e ∧ err_Error e = shown +:+ l ∧ isGovcVMNotFound (govcError args e) = true.

Lemma reportsMissing_classified o l args : reportsMissing o l → classifiedMissing args (commandAnswer o) l.
Proof.
  intros ([e He] & Hc & Hl & Hm). apply last_Some in Hl as [init Hl]. unfold commandAnswer. rewrite He, Hc.
  destruct (sanitize_keeps_last _ _ _ Hl) as [p Hp]. rewrite Hp.
  eexists _, (err_Error e +:+ ": " +:+ p). split; [done|]. split; [cbn [err_Error]; by rewrite !string_app_assoc|].
  assert (∀ m, Contains (ToLower l) m = true →
    Contains (errMessage (govcError args (mkError ClassOther (err_Error e +:+ ": " +:+ p +:+ l)))) m = true) as Hw.
  { intros m Hlm. unfold errMessage, govcError. cbn [err_Error]. rewrite !ToLower_app. by repeat apply Contains_app_l. }
  unfold isGovcVMNotFound. destruct Hm as [Hm|[Hm Hm']]; [by rewrite (Hw _ Hm)|].
  by rewrite (Hw _ Hm), (Hw _ Hm'), orb_true_r.
Qed.

(** A govc command after whose failure with a missing VM the program ends with success. *)
Definition endsOnMissing X (e : callE X) (k : X → program (result unit)) : Prop :=
  match e in callE X return (X → program (result unit)) → Prop with
  | Govc args => λ k, ∀ answer l, classifiedMissing args answer l → k answer = Return (Ok tt)
  | _ => λ _, True
  end k.

Lemma destroyVM_endsOnMissing pool name uuid : allCalls endsOnMissing (destroyVM pool name uuid).
Proof.
  unfold destroyVM, run, runOutput. cbn [bindOk bind call allCalls]. set (args := if _ != _ then _ else _). split.
  - intros answer l (e & shown & -> & _ & Hm). cbn [bindOk bind]. by rewrite Hm.
  - intros [out|e]; cbn [bindOk bind]; [done|]. by destruct (isGovcVMNotFound _).
Qed.

Lemma details_endsOnMissing pool sel value id (f : result govcVirtualMachine → program (result unit)) :
  (∀ m, f (errVMNotFound m) = Return (Ok tt)) → (∀ r, allCalls endsOnMissing (f r)) →
  allCalls endsOnMissing (let! r := vmDetailsWithSelector pool sel value id in f r).
Proof.
  intros Hf Hr. unfold vmDetailsWithSelector, runOutput. cbn [bindOk bind call allCalls]. split.
  - intros answer l (e & shown & -> & _ & Hm). cbn [bindOk bind]. rewrite Hm. cbn [bind]. apply Hf.
  - intros [out|e]; cbn [bindOk bind].
    + destruct (UnmarshalVMInfo out) as [[|vm vms]|e]; cbn [bind]; apply Hr.
    + destruct (isGovcVMNotFound _); cbn [bind]; apply Hr.
Qed.

Lemma govcDeleteVM_endsOnMissing pool vm : allCalls endsOnMissing (govcDeleteVM pool vm).
Proof.
  unfold govcDeleteVM. destruct (_ == ""); [done|]. destruct (vm_OwnerUID vm != ""); [|apply destroyVM_endsOnMissing].
  destruct (vm_BIOSUUID vm != ""); (apply details_endsOnMissing; [done|]).
  all: intros [d|e]; [destruct (_ != _); [done|apply destroyVM_endsOnMissing]|by destruct (isVMNotFound e)].
Qed.

(** How DeleteVM looks for a VM whose UUID is not known. *)
Definition unknownUUID (vm : OwnedVMStatus) : Prop :=
  TrimSpace (vm_Name vm) ≠ "" ∧ vm_OwnerUID vm ≠ "" ∧ vm_BIOSUUID vm = "".

Lemma delete_missing pool vm (env : environment callE) e :
  unknownUUID vm →
  env _ [] (Govc (infoArgs pool "-vm.ipath" (vmInventoryPath pool (vm_Name vm)))) = Err e →
  isGovcVMNotFound (govcError (infoArgs pool "-vm.ipath" (vmInventoryPath pool (vm_Name vm))) e) = true →
  (exec env [] (govcDeleteVM pool vm)).2 = Ok tt.
Proof.
  intros (Hn & Ho & Hu) He Hm. unfold govcDeleteVM.
  rewrite (bool_decide_eq_false_2 (TrimSpace (vm_Name vm) = "")), (bool_decide_eq_false_2 (vm_OwnerUID vm = "")) by done.
  cbn [negb]. rewrite (bool_decide_eq_true_2 (vm_BIOSUUID vm = "")) by done. cbn [negb].
  unfold vmDetails, vmDetailsWithSelector, runOutput. cbn [bind call exec]. rewrite He. cbn [bind]. rewrite Hm.
  reflexivity.
Qed.

(** C35: a VM that vCenter does not know counts as deleted.  Whichever command DeleteVM runs, vm.info or vm.destroy,
    by UUID or by inventory path: when it fails without its context having expired, and the last line it printed that
    is neither empty nor the progress of an upload names a missing VM, in upper or lower case, then the error ends in
    that line, is classified as a missing VM, and DeleteVM succeeds without another call. *)
Theorem missing_vm_recognised pool vm h args (k : result string → program (result unit)) o l
    (Hreach : reach anyAnswer [] (govcDeleteVM pool vm) h (Call (Govc args) k)) (Hmissing : reportsMissing o l) :
  classifiedMissing args (commandAnswer o) l ∧ k (commandAnswer o) = Return (Ok tt).
Proof.
  pose proof (reportsMissing_classified o l args Hmissing) as Hc. split; [done|].
  destruct (allCalls_reach _ _ _ _ _ _ Hreach (govcDeleteVM_endsOnMissing pool vm)) as [Hk _]. by apply (Hk _ l).
Qed.

(** The arguments are part of the message: for a VM whose name ends in "vm" every failure that
    says " not found" is taken for a missing VM, a datacenter that is not found as well, and DeleteVM succeeds. *)
Theorem failure_read_as_missing_vm pool vm prefix (env : environment callE) e
    (Hvm : unknownUUID vm) (Hname : vm_Name vm = prefix +:+ "vm")
    (Hanswer : env _ [] (Govc (infoArgs pool "-vm.ipath" (vmInventoryPath pool (vm_Name vm)))) = Err e)
    (Hmessage : Contains (errMessage e) " not found" = true) :
  (exec env [] (govcDeleteVM pool vm)).2 = Ok tt.
Proof.
  apply (delete_missing _ _ _ _ Hvm Hanswer). unfold isGovcVMNotFound, errMessage, govcError. cbn [err_Error].
  destruct (Join_snoc ["vm.info"; "-json"; "-dc"; datacenter pool; "-vm.ipath"] (vmInventoryPath pool (vm_Name vm)) " ") as [p Hp].
  assert (∃ q, vmInventoryPath pool (vm_Name vm) = q +:+ "vm") as [q Hq].
  { unfold vmInventoryPath. rewrite Hname.
    destruct (Trim (vmFolder pool) "/"%char == ""); eexists; rewrite <- !string_app_assoc; reflexivity. }
  unfold infoArgs in *. simpl app in Hp. rewrite Hp, Hq, !string_app_assoc, !ToLower_app.
  apply orb_true_iff. right. apply andb_true_iff. split.
  - do 3 apply Contains_app_l. reflexivity.
  - by do 5 apply Contains_app_l.
Qed.
End classification.
