(* ===== verification/OpenStackClient.v ===== *)
(** * The OpenStack client

    internal/openstack/client.go: the client that the OpenStackAgent controller uses
    through the interface Client.  It is a program over the calls of the SDK
    (gophercloud), which is not part of the repository: the records below are the
    fields of its types that the client reads and writes, a call answers with a
    value or a Go error, and the library functions the client needs are the class
    [OpenStackSDK].  List calls answer all pages.  The theorems say that the client
    acts only on resources of its project that carry the owner it was given. *)
From S2P Require Import Prelude OpenStackErrors Api Identity Planner OwnedVMs VsphereObjects Sha256 Effects K8s.

(** ** The SDK *)
Definition sdk (A : Type) : Type := (A + goError)%type.

Record sdkPort := mkSdkPort {
  sp_ID : string; sp_Name : string; sp_Description : string; sp_Status : string;
  sp_MACAddress : string; sp_DeviceID : string; sp_ProjectID : string }.
Record sdkVolume := mkSdkVolume {
  sv_ID : string; sv_Name : string; sv_Metadata : gmap string string; sv_Status : string;
  sv_Attachments : list string; sv_Bootable : string; sv_TenantID : string }.
Record sdkServer := mkSdkServer {
  ss_ID : string; ss_Name : string; ss_Metadata : gmap string string; ss_Status : string; ss_TenantID : string }.
Record sdkImage := mkSdkImage {
  si_ID : string; si_Name : string; si_Properties : gmap string any; si_Status : string;
  si_SizeBytes : Z; si_Owner : string }.
Record sdkSubnet := mkSdkSubnet { sn_NetworkID : string; sn_EnableDHCP : bool }.

Record portCreateOpts := mkPortCreateOpts {
  po_Name : string; po_NetworkID : string; po_Description : string; po_SecurityGroups : list string;
  po_FixedIPs : list (string * string);  (* subnet and address *)
  po_Security : bool; po_Tags : list string }.
Record volumeCreateOpts := mkVolumeCreateOpts {
  vo_Name : string; vo_Size : Z; vo_VolumeType : string; vo_AvailabilityZone : string;
  vo_Metadata : gmap string string; vo_ImageID : string }.
Record BlockDevice := mkBlockDevice {
  bd_UUID : string; bd_SourceType : string; bd_DestinationType : string; bd_DeviceType : string;
  bd_DiskBus : string; bd_BootIndex : Z; bd_DeleteOnTermination : bool }.
Record serverCreateOpts := mkServerCreateOpts {
  so_Name : string; so_FlavorRef : string; so_NetworkPorts : list string; so_AvailabilityZone : string;
  so_Metadata : gmap string string; so_BlockDevice : list BlockDevice }.
Record imageCreateOpts := mkImageCreateOpts {
  io_ID : string; io_Name : string; io_DiskFormat : string; io_ContainerFormat : string;
  io_Visibility : string; io_Properties : gmap string string }.

Inductive sdkE : Type → Type :=
| PortsGet (id : string) : sdkE (sdk sdkPort)
| PortsList (name project : string) : sdkE (sdk (list sdkPort))
| PortsCreate (opts : portCreateOpts) : sdkE (sdk sdkPort)
| PortsDelete (id : string) : sdkE (sdk unit)
| VolumesGet (id : string) : sdkE (sdk sdkVolume)
| VolumesList (name : string) : sdkE (sdk (list sdkVolume))
| VolumesCreate (opts : volumeCreateOpts) : sdkE (sdk sdkVolume)
| VolumesSetBootable (id : string) (bootable : bool) : sdkE (sdk unit)
| VolumesDelete (id : string) : sdkE (sdk unit)
| ServersGet (id : string) : sdkE (sdk sdkServer)
| ServersList (name : string) : sdkE (sdk (list sdkServer))
| ServersCreate (opts : serverCreateOpts) : sdkE (sdk sdkServer)
| ServersDelete (id : string) : sdkE (sdk unit)
| ImagesGet (id : string) : sdkE (sdk sdkImage)
| ImagesCreate (opts : imageCreateOpts) : sdkE (sdk sdkImage)
| ImagesUpload (id content : string) : sdkE (sdk unit)
| ImagesDelete (id : string) : sdkE (sdk unit)
| NetworksList (name : string) : sdkE (sdk (list string))            (* identifiers *)
| FlavorsList : sdkE (sdk (list (string * string)))                  (* identifiers and names *)
| SubnetsGet (id : string) : sdkE (sdk sdkSubnet)
| NewClient (authURL : string) : sdkE (sdk unit)
| AuthenticateV3 (authURL id secret : string) : sdkE (sdk unit)
| ExtractProject : sdkE (option (sdk (option string)))               (* None: not available *)
| ExtractToken : sdkE (option (sdk Time))                            (* expiry *)
| NewService (service region : string) : sdkE (sdk unit)
| TimeNow : sdkE Time
| RangeKeys (keys : list string) : sdkE (list string).               (* iteration order of a map *)

Abbreviation cloudProgram A := (prog sdkE A).

(** The parts of a parsed URL that are read. *)
Record authURL := mkAuthURL {
  au_Scheme : string; au_Host : string; au_HasUser : bool; au_RawQuery : string; au_Fragment : string }.

(** url.Parse, AppendCertsFromPEM of a certificate pool, gophercloud.ResponseCodeIs. *)
Class OpenStackSDK := {
  parseAuthURL : string → option authURL;
  AppendCertsFromPEM : string → bool;
  ResponseCodeIs : goError → Z → bool }.

(** ** The client *)
Definition schemeHTTP : string := "http".
Definition schemeHTTPS : string := "https".
Definition reasonInvalidResourceKind : string := "InvalidResourceKind".
Definition operationDiscoverEndpoint : string := "discover-endpoint".

(** The error of a failed SDK call, and the deferred labelling of errors. *)
Definition sdkFailed {A} (err : goError) : result A := Err (osErr (SafeError err)).
Definition errorChain (e : error) : goError :=
  match err_Class e with ClassOpenStack o => [CauseSafe o] | _ => [CauseOther (err_Error e)] end.
Definition failAt {A} (service operation : string) (r : result A) : result A :=
  match r with Ok a => Ok a | Err e => Err (osErr (safeErrorAt (errorChain e) service operation)) end.
Definition failResource {A} (kind : Kind) (action : string) (r : result A) : result A :=
  match r with Ok a => Ok a | Err e => Err (osErr (safeResourceError (errorChain e) kind action)) end.

(** The transport refuses a request before it is sent; [allow] is the answer of
    the rate limiter. *)
Definition RoundTrip (allowInsecureHTTP : bool) (scheme : string) (allow : bool) : option osError :=
  if (scheme != schemeHTTPS) && ((scheme != schemeHTTP) || negb allowInsecureHTTP)
  then Some (newError reasonHTTPSRequired false true)
  else if negb allow then Some ErrThrottle else None.

Definition insecureHTTPPolicy (secret : Secret) : result bool :=
  match sec_Data secret !! "allow-insecure-http" with
  | None => Ok false
  | Some value =>
      if value == "true" then Ok true
      else if value == "false" then Ok false
      else Err (osErr (newError "InvalidHTTPPolicy" false true))
  end.

(** The body of a request that creates a port: what the SDK makes of its own options
    ([base]), with two more fields.  Without a map at "port" the type assertion panics. *)
Definition mapWrite (m : list (string * any)) (key : string) (v : any) : list (string * any) :=
  List.filter (λ kv, kv.1 != key) m ++ [(key, v)].

Definition ToPortCreateMap (base : portCreateOpts → result (list (string * any))) (o : portCreateOpts)
    : option (result (list (string * any))) :=
  match base o with
  | Err e => Some (Err e)
  | Ok m =>
      match mapRead m "port" with
      | Some (AMap p) =>
          let p := mapWrite p "port_security_enabled" (ABool (po_Security o)) in
          let p := match po_Tags o with [] => p | tags => mapWrite p "tags" (ASlice (map AString tags)) end in
          Some (Ok (mapWrite m "port" (AMap p)))
      | _ => None
      end
  end.

(** ** Resources *)
Definition portResource (p : sdkPort) : Resource :=
  let owner := if HasPrefix (sp_Description p) (OwnerKey +:+ ":")
               then TrimPrefix (sp_Description p) (OwnerKey +:+ ":") else "" in
  mkResource (sp_ID p) (sp_Name p) owner (sp_Status p) (sp_MACAddress p) (sp_DeviceID p != "") false 0.
Definition volumeResource (v : sdkVolume) : Resource :=
  mkResource (sv_ID v) (sv_Name v) (mapGet (sv_Metadata v) OwnerKey) (sv_Status v) ""
    (match sv_Attachments v with [] => false | _ => true end) (sv_Bootable v == "true") 0.
Definition serverResource (s : sdkServer) : Resource :=
  mkResource (ss_ID s) (ss_Name s) (mapGet (ss_Metadata s) OwnerKey) (ss_Status s) "" false false 0.
Definition imageResource (i : sdkImage) : Resource :=
  mkResource (si_ID i) (si_Name i) (asStringOr (si_Properties i !! OwnerKey)) (si_Status i) "" false false (si_SizeBytes i).

Definition owned (r : Resource) (owner : string) : result Resource :=
  if (owner == "") || (rs_Owner r != owner) then Err (osErr ErrOwnership) else Ok r.

Definition isVolume (kind : Kind) : bool := (kind == OSVolume) || (kind == DiscoveryVolume).
Definition invalidKind {A} : result A := Err (osErr (newError reasonInvalidResourceKind false true)).

(** The resource of a successful answer, when it belongs to the project. *)
Definition inProject {A} (c : cloud) (resource : A → Resource) (project : A → string) (answer : sdk A) : result Resource :=
  match answer with
  | inr err => sdkFailed err
  | inl x => if project x != cl_project c then Err (osErr ErrOwnership) else Ok (resource x)
  end.

(** The switch of Get. *)
Definition getResource (c : cloud) (kind : Kind) (id : string) : cloudProgram (result Resource) :=
  if kind == Port then let! r := call (PortsGet id) in Return (inProject c portResource sp_ProjectID r)
  else if isVolume kind then let! r := call (VolumesGet id) in Return (inProject c volumeResource sv_TenantID r)
  else if kind == Server then let! r := call (ServersGet id) in Return (inProject c serverResource ss_TenantID r)
  else if kind == Image then let! r := call (ImagesGet id) in Return (inProject c imageResource si_Owner r)
  else Return invalidKind.

Definition cloudGet (c : cloud) (kind : Kind) (id owner : string) : cloudProgram (result Resource) :=
  let! r := (let? r := getResource c kind id in Return (owned r owner)) in
  Return (failResource kind "get" r).

(** The switch of Find: the resources with exactly the name, in the project. *)
Definition listResources (c : cloud) (kind : Kind) (name : string) : cloudProgram (result (list Resource)) :=
  if kind == Port then
    let! r := call (PortsList name (cl_project c)) in
    match r with
    | inr err => Return (sdkFailed err)
    | inl l => Return (Ok (map portResource (List.filter (λ p, sp_Name p == name) l)))
    end
  else if isVolume kind then
    let! r := call (VolumesList name) in
    match r with
    | inr err => Return (sdkFailed err)
    | inl l => Return (Ok (map volumeResource
                 (List.filter (λ v, (sv_Name v == name) && (sv_TenantID v == cl_project c)) l)))
    end
  else if kind == Server then
    let! r := call (ServersList name) in
    match r with
    | inr err => Return (sdkFailed err)
    | inl l => Return (Ok (map serverResource
                 (List.filter (λ s, (ss_Name s == name) && (ss_TenantID s == cl_project c)) l)))
    end
  else Return invalidKind.

Definition cloudFind (c : cloud) (kind : Kind) (name owner : string) : cloudProgram (result Resource) :=
  let! r := (let? found := listResources c kind name in
             match found with
             | [] => Return (Err (osErr ErrNotFound))
             | [r] => Return (owned r owner)
             | _ => Return (Err (osErr (newError "AmbiguousResourceIdentity" false true)))
             end) in
  Return (failResource kind "find" r).

(** ** Creation *)
Definition networkID (cfg : OpenStackPlacementSpec) : cloudProgram (result string) :=
  let! r := (if op_NetworkID cfg != "" then Return (Ok (op_NetworkID cfg))
             else
               let! r := call (NetworksList (op_NetworkName cfg)) in
               match r with
               | inr err => Return (sdkFailed err)
               | inl [id] => Return (Ok id)
               | inl _ => Return (Err (osErr (newError "NetworkNotUnique" false true)))
               end) in
  Return (failAt serviceNeutron "resolve-network" r).

Definition flavorID (cfg : OpenStackPlacementSpec) : cloudProgram (result string) :=
  let! r := (if op_FlavorID cfg != "" then Return (Ok (op_FlavorID cfg))
             else
               let! r := call FlavorsList in
               match r with
               | inr err => Return (sdkFailed err)
               | inl l =>
                   match List.filter (λ f, f.2 == op_FlavorName cfg) l with
                   | [f] => Return (Ok f.1)
                   | _ => Return (Err (osErr (newError "FlavorNotUnique" false true)))
                   end
               end) in
  Return (failAt serviceNova "resolve-flavor" r).

Definition BlockDevices (a : OpenStackAgent) : list BlockDevice :=
  let t := os_Template (oas_Configuration (oa_Spec a)) in
  [mkBlockDevice (st_OSVolumeID (oa_Status a)) "volume" "volume" "disk" (ot_OSDiskBus t) 0 false;
   mkBlockDevice (st_DiscoveryVolumeID (oa_Status a)) "volume" "volume" "cdrom" (ot_DiscoveryDiskBus t) 1 false].

(** The checked subnet: its network and DHCP setting are the configured ones. *)
Definition checkSubnet (cfg : OpenStackPlacementSpec) (network : string) : cloudProgram (result unit) :=
  match op_DHCPEnabled cfg with
  | None => Return (Ok tt)
  | Some dhcp =>
      let! r := call (SubnetsGet (op_SubnetID cfg)) in
      match r with
      | inr err => Return (Err (osErr (safeErrorAt err serviceNeutron "get-subnet")))
      | inl subnet =>
          if (sn_NetworkID subnet != network) || negb (eqb (sn_EnableDHCP subnet) dhcp)
          then Return (Err (osErr (newError "SubnetDHCPMismatch" false true))) else Return (Ok tt)
      end
  end.

Definition createPort (name owner : string) (a : OpenStackAgent) : cloudProgram (result Resource) :=
  let cfg := os_OpenStack (oas_Configuration (oa_Spec a)) in
  let? network := networkID cfg in
  let? _ := checkSubnet cfg network in
  let fixed := if (op_SubnetID cfg != "") || (oas_FixedIPAddress (oa_Spec a) != "")
               then [(op_SubnetID cfg, oas_FixedIPAddress (oa_Spec a))] else [] in
  let! r := call (PortsCreate (mkPortCreateOpts name network (OwnerKey +:+ ":" +:+ owner) (op_SecurityGroupIDs cfg) fixed
                                 (default true (op_PortSecurityEnabled cfg)) (op_PortTags cfg))) in
  match r with inr err => Return (sdkFailed err) | inl p => Return (Ok (portResource p)) end.

(** int64 arithmetic. *)
Definition wrap64 (z : Z) : Z := (z + 9223372036854775808) mod 18446744073709551616 - 9223372036854775808.
Definition gibibyte : Z := 1073741824.

(** The size of a discovery volume in GiB: at least the minimum, rounded up. *)
Definition discoveryVolumeSize (minGiB isoSizeBytes : Z) : Z :=
  Z.max minGiB (Z.quot (wrap64 (wrap64 (isoSizeBytes + gibibyte) - 1)) gibibyte).

Definition volumeOpts (kind : Kind) (name owner : string) (a : OpenStackAgent) : volumeCreateOpts :=
  let t := os_Template (oas_Configuration (oa_Spec a)) in
  let metadata := <[OwnerKey := owner]> (ot_VolumeMetadata t) in
  if kind == DiscoveryVolume then
    mkVolumeCreateOpts name (discoveryVolumeSize (ot_DiscoveryVolumeMinGiB t) (st_ISOSizeBytes (oa_Status a)))
      (ot_DiscoveryVolumeType t) (ot_VolumeAvailabilityZone t) metadata (st_ImageID (oa_Status a))
  else mkVolumeCreateOpts name (ot_DiskGiB t) (ot_VolumeType t) (ot_VolumeAvailabilityZone t) metadata "".

Definition createServer (name owner : string) (a : OpenStackAgent) : cloudProgram (result Resource) :=
  let cfg := os_OpenStack (oas_Configuration (oa_Spec a)) in
  let? flavor := flavorID cfg in
  let! r := call (ServersCreate (mkServerCreateOpts name flavor [st_PortID (oa_Status a)] (op_AvailabilityZone cfg)
                                   {[OwnerKey := owner]} (BlockDevices a))) in
  match r with inr err => Return (sdkFailed err) | inl s => Return (Ok (serverResource s)) end.

Definition createImage (name owner : string) (a : OpenStackAgent) : cloudProgram (result Resource) :=
  let! r := call (ImagesCreate (mkImageCreateOpts (st_ImageID (oa_Status a)) name "iso" "bare" "private"
                    (<[OwnerKey := owner]> {["agent_forge_sha256" := st_ISOSHA256 (oa_Status a)]}))) in
  match r with inr err => Return (sdkFailed err) | inl i => Return (Ok (imageResource i)) end.

Definition cloudCreate (kind : Kind) (name owner : string) (a : OpenStackAgent) : cloudProgram (result Resource) :=
  let! r := (if kind == Port then createPort name owner a
             else if isVolume kind then
               let! r := call (VolumesCreate (volumeOpts kind name owner a)) in
               match r with inr err => Return (sdkFailed err) | inl v => Return (Ok (volumeResource v)) end
             else if kind == Server then createServer name owner a
             else if kind == Image then createImage name owner a
             else Return invalidKind) in
  Return (failResource kind "create" r).

(** ** Changes by identifier *)
Definition sdkDone (r : sdk unit) : result unit := match r with inl _ => Ok tt | inr err => sdkFailed err end.

Definition cloudSetBootable (c : cloud) (id owner : string) : cloudProgram (result unit) :=
  let! r := (let? _ := cloudGet c OSVolume id owner in
             let! r := call (VolumesSetBootable id true) in Return (sdkDone r)) in
  Return (failAt serviceCinder "set-bootable" r).

Definition cloudUploadImage (c : cloud) (id owner content : string) : cloudProgram (result unit) :=
  let! r := (let? _ := cloudGet c Image id owner in
             let! r := call (ImagesUpload id content) in Return (sdkDone r)) in
  Return (failAt serviceGlance "upload-image" r).

Abbreviation clientCache := (gmap string cloud).

Section client.
Context `{OpenStackSDK}.

Definition deleteCall (kind : Kind) (id : string) : cloudProgram (sdk unit) :=
  if kind == Port then call (PortsDelete id)
  else if isVolume kind then call (VolumesDelete id)
  else if kind == Server then call (ServersDelete id)
  else if kind == Image then call (ImagesDelete id)
  else Return (inl tt).

Definition resourceBusy (kind : Kind) (r : Resource) : bool :=
  rs_Attached r || (isVolume kind && (rs_State r != "available") && (rs_State r != "error")).

Definition cloudDelete (c : cloud) (kind : Kind) (id owner : string) : cloudProgram (result unit) :=
  let! r := (let! got := cloudGet c kind id owner in
             match got with
             | Err e => if osErrorIs e ErrNotFound then Return (Ok tt) else Return (Err e)
             | Ok r =>
                 if resourceBusy kind r then Return (Err (osErr (newError "ResourceStillAttachedOrBusy" true true)))
                 else
                   let! answer := deleteCall kind id in
                   match answer with
                   | inr err => if ResponseCodeIs err 404 then Return (Ok tt) else Return (sdkFailed err)
                   | inl _ => Return (Ok tt)
                   end
             end) in
  Return (failResource kind "delete" r).
(** ** Authentication *)
Definition credentialKeys : list string := ["application-credential-id"; "application-credential-secret"; "project-id"].
Definition secretValue (secret : Secret) (key : string) : string := mapGet (sec_Data secret) key.

Definition validAuthURL (parsed : authURL) : bool :=
  ((au_Scheme parsed == schemeHTTPS) || (au_Scheme parsed == schemeHTTP)) && (au_Host parsed != "") &&
  negb (au_HasUser parsed) && (au_RawQuery parsed == "") && (au_Fragment parsed == "").

(** The checks of the Secret, before the first request. *)
Definition checkSecret (secret : Secret) : result unit :=
  match insecureHTTPPolicy secret with
  | Err e => Err e
  | Ok allowInsecureHTTP =>
      let rejected reason := Err (osErr (newError reason false true)) in
      match parseAuthURL (secretValue secret "auth-url") with
      | None => rejected "InvalidAuthenticationURL"
      | Some parsed =>
          if negb (validAuthURL parsed) then rejected "InvalidAuthenticationURL"
          else if (au_Scheme parsed == schemeHTTP) && negb allowInsecureHTTP then rejected reasonHTTPSRequired
          else if existsb (λ key, secretValue secret key == "") credentialKeys then rejected "MissingCredentialKey"
          else Ok tt
      end
  end.

(** The end of the use of a client: five minutes from now, or a minute before the
    token expires. *)
Definition clientExpiry (t : Time) (token : option Time) : Time :=
  let expires := t + 5 * minute in
  match token with
  | Some expiresAt => if Before (expiresAt - minute) expires then expiresAt - minute else expires
  | None => expires
  end.

(** [c.compute, err = sdk.NewComputeV2(provider, eo)] and its siblings. *)
Definition discoverService (service region : string) : cloudProgram (result unit) :=
  let! r := call (NewService service region) in Return (failAt service operationDiscoverEndpoint (sdkDone r)).

Definition cloudScope (authURL project region : string) : string :=
  sha256Hex (String.rev (trimLeft ["/"] (String.rev authURL)) +:+ "/" +:+ project +:+ "/" +:+ region).

Definition initializeClient (secret : Secret) : cloudProgram (result unit) :=
  let! r := (let? _ := Return (checkSecret secret) in
             let! provider := call (NewClient (secretValue secret "auth-url")) in
             match provider with
             | inr err => Return (sdkFailed err)
             | inl _ =>
                 let cert := secretValue secret "ca.crt" in
                 if (cert != "") && negb (AppendCertsFromPEM cert)
                 then Return (Err (osErr (newError "InvalidCACertificate" false true))) else Return (Ok tt)
             end) in
  Return (failAt serviceKeystone "initialize-client" r).

Definition authenticate (secret : Secret) : cloudProgram (result unit) :=
  let! r := call (AuthenticateV3 (secretValue secret "auth-url") (secretValue secret "application-credential-id")
                    (secretValue secret "application-credential-secret")) in
  Return (failAt serviceKeystone "authenticate" (sdkDone r)).

(** The project of the token is the one of the Secret; the client expires with it. *)
Definition validateScope (secret : Secret) : cloudProgram (result (string * Time)) :=
  let! r := (let! extracted := call ExtractProject in
             match extracted with
             | None => Return (Err (osErr (newError "ProjectScopeUnavailable" false true)))
             | Some (inl (Some project)) =>
                 if project != secretValue secret "project-id"
                 then Return (Err (osErr (newError "ProjectScopeMismatch" false true)))
                 else
                   let! t := call TimeNow in
                   let! token := call ExtractToken in
                   match token with
                   | None => Return (Ok (project, clientExpiry t None))
                   | Some (inl expiresAt) => Return (Ok (project, clientExpiry t (Some expiresAt)))
                   | Some (inr err) => Return (sdkFailed err)
                   end
             | Some _ => Return (Err (osErr (newError "ProjectScopeMismatch" false true)))
             end) in
  Return (failAt serviceKeystone "validate-project-scope" r).

Definition New (cfg : OpenStackPlacementSpec) (secret : Secret) : cloudProgram (result cloud) :=
  let? _ := initializeClient secret in
  let? _ := authenticate secret in
  let? (project, expires) := validateScope secret in
  let? _ := discoverService serviceNova (op_Region cfg) in
  let? _ := discoverService serviceNeutron (op_Region cfg) in
  let? _ := discoverService serviceCinder (op_Region cfg) in
  let? _ := discoverService serviceGlance (op_Region cfg) in
  Return (Ok (mkCloud (cloudScope (secretValue secret "auth-url") project (op_Region cfg)) project expires)).

(** ** The cache of clients

    Two critical sections under a mutex; [others] is what other reconciliations do
    to the cache between them. *)
Definition clientKey (cfg : OpenStackPlacementSpec) (secret : Secret) : string :=
  om_Namespace (sec_Meta secret) +:+ "/" +:+ om_Name (sec_Meta secret) +:+ "/" +:+ om_UID (sec_Meta secret) +:+ "/" +:+
  om_ResourceVersion (sec_Meta secret) +:+ "/" +:+ op_Region cfg +:+ "/" +:+ fmt_d (op_APITimeoutSeconds cfg).

Definition maxClients : nat := 128.

(** The loop over the map, in the order the runtime chooses. *)
Fixpoint evict (order : list string) (cache : clientCache) : cloudProgram clientCache :=
  match order with
  | [] => Return cache
  | k :: rest =>
      match cache !! k with
      | None => evict rest cache
      | Some entry =>
          let! t := call TimeNow in
          if Before (cl_expires entry) t || (maxClients <=? size cache)%nat then evict rest (delete k cache)
          else evict rest cache
      end
  end.

Definition storeClient (cache : clientCache) (key : string) (c : cloud) : cloudProgram clientCache :=
  let! order := call (RangeKeys (elements (dom cache))) in
  let! cache := evict order cache in
  Return (<[key := c]> cache).

(** [if cached, ok := cache[key]; ok && time.Now().Before(cached.expires)]. *)
Definition cachedClient (cache : clientCache) (key : string) : cloudProgram (option cloud) :=
  match cache !! key with
  | None => Return None
  | Some cached => let! t := call TimeNow in Return (if Before t (cl_expires cached) then Some cached else None)
  end.

Definition NewCachedFactory (others : clientCache → clientCache) (cache : clientCache)
    (cfg : OpenStackPlacementSpec) (secret : Secret) : cloudProgram (clientCache * result cloud) :=
  let key := clientKey cfg secret in
  let! cached := cachedClient cache key in
  match cached with
  | Some c => Return (cache, Ok c)
  | None =>
      let! provider := New cfg secret in
      match provider with
      | Err e => Return (others cache, Err e)
      | Ok c => let! cache := storeClient (others cache) key c in Return (cache, Ok c)
      end
  end.
End client.

(** ** Ownership *)
Section ownership.
Context `{OpenStackSDK}.
Context (c : cloud) (owner : string).

(** The resource was read by its identifier, is in the project and has the owner. *)
Definition seenOwned (h : history sdkE) (kind : Kind) (id : string) (r : Resource) : Prop :=
  rs_Owner r = owner ∧ owner ≠ "" ∧
  ((kind = Port ∧ ∃ x, In (Event (PortsGet id) (inl x)) h ∧ sp_ProjectID x = cl_project c ∧ r = portResource x) ∨
   (isVolume kind = true ∧ ∃ x, In (Event (VolumesGet id) (inl x)) h ∧ sv_TenantID x = cl_project c ∧ r = volumeResource x) ∨
   (kind = Server ∧ ∃ x, In (Event (ServersGet id) (inl x)) h ∧ ss_TenantID x = cl_project c ∧ r = serverResource x) ∨
   (kind = Image ∧ ∃ x, In (Event (ImagesGet id) (inl x)) h ∧ si_Owner x = cl_project c ∧ r = imageResource x)).

(** What a change of a resource needs: nothing is created, and what is changed or
    deleted was seen to be owned, and not to be in use when it is deleted. *)
Definition changesOwned : precondition sdkE := λ X h e,
  match e with
  | PortsDelete id => ∃ r, seenOwned h Port id r ∧ resourceBusy Port r = false
  | VolumesDelete id => ∃ r, seenOwned h OSVolume id r ∧ resourceBusy OSVolume r = false
  | ServersDelete id => ∃ r, seenOwned h Server id r ∧ resourceBusy Server r = false
  | ImagesDelete id => ∃ r, seenOwned h Image id r ∧ resourceBusy Image r = false
  | VolumesSetBootable id _ => ∃ r, seenOwned h OSVolume id r
  | ImagesUpload id _ => ∃ r, seenOwned h Image id r
  | PortsCreate _ | VolumesCreate _ | ServersCreate _ | ImagesCreate _ => False
  | _ => True
  end.

Lemma inProject_ok {A} (resource : A → Resource) (project : A → string) answer r :
  inProject c resource project answer = Ok r → ∃ x, answer = inl x ∧ project x = cl_project c ∧ r = resource x.
Proof.
  unfold inProject. destruct answer as [x|err]; [|done]. destruct (_ != _) eqn:E; [done|]. intros [= <-]. gobool. eauto.
Qed.

Lemma owned_ok r o r' : owned r o = Ok r' → r' = r ∧ rs_Owner r = o ∧ o ≠ "".
Proof. unfold owned. destruct (_ || _) eqn:E; [done|]. intros [= <-]. gobool. done. Qed.

Lemma getResource_safe h kind id :
  safe anyAnswer changesOwned h (getResource c kind id)
    (λ h' r, ∀ x, r = Ok x → rs_Owner x = owner → owner ≠ "" → seenOwned h' kind id x).
Proof.
  assert (∀ A (get : sdkE (sdk A)) (resource : A → Resource) (project : A → string) h,
    changesOwned _ h get →
    (∀ x, project x = cl_project c → rs_Owner (resource x) = owner → owner ≠ "" →
       seenOwned (Event get (inl x) :: h) kind id (resource x)) →
    safe anyAnswer changesOwned h (let! r := call get in Return (inProject c resource project r))
      (λ h' r, ∀ x, r = Ok x → rs_Owner x = owner → owner ≠ "" → seenOwned h' kind id x)) as Hgen.
  { intros A get resource project h' Hok Hev. apply safe_bind. split; [done|]. intros answer _ r Hr Ho Hne.
    apply inProject_ok in Hr as (x & -> & Hp & ->). by apply Hev. }
  unfold getResource. destruct (kind == Port) eqn:E1.
  { apply Hgen; [done|]. intros x Hp Ho Hne. gobool. split; [done|]. split; [done|]. left. eauto using in_eq. }
  destruct (isVolume kind) eqn:E2.
  { apply Hgen; [done|]. intros x Hp Ho Hne. split; [done|]. split; [done|]. right; left. eauto using in_eq. }
  destruct (kind == Server) eqn:E3.
  { apply Hgen; [done|]. intros x Hp Ho Hne. gobool. split; [done|]. split; [done|]. right; right; left. eauto using in_eq. }
  destruct (kind == Image) eqn:E4; [|done].
  apply Hgen; [done|]. intros x Hp Ho Hne. gobool. split; [done|]. split; [done|]. right; right; right. eauto using in_eq.
Qed.

Lemma failResource_ok {A} kind action (r : result A) a : failResource kind action r = Ok a → r = Ok a.
Proof. by destruct r. Qed.

Lemma cloudGet_safe h kind id :
  safe anyAnswer changesOwned h (cloudGet c kind id owner)
    (λ h' r, match r with Ok x => seenOwned h' kind id x | Err _ => True end).
Proof.
  unfold cloudGet. apply safe_bind, safe_bindOk. eapply safe_mono; [apply getResource_safe|].
  intros h' [r|e] Hr; cbn [safe]; [|done]. specialize (Hr r eq_refl).
  destruct (owned r owner) as [r'|e] eqn:Eo; cbn; [|done]. apply owned_ok in Eo as (-> & Ho & Hne). auto.
Qed.

Lemma cloudDelete_safe kind id : safe anyAnswer changesOwned [] (cloudDelete c kind id owner) (λ _ _, True).
Proof.
  unfold cloudDelete. apply safe_bind, safe_bind. eapply safe_mono; [apply cloudGet_safe|].
  intros h [r|e] Hr; cbn [safe]; [|by destruct (osErrorIs e ErrNotFound)].
  destruct (resourceBusy kind r) eqn:Eb; [done|]. apply safe_bind.
  assert (∀ (e : sdkE (sdk unit)), changesOwned _ h e → safe anyAnswer changesOwned h (call e) (λ h' answer,
    safe anyAnswer changesOwned h' (match answer with
      | inr err => if ResponseCodeIs err 404 then Return (Ok tt) else Return (sdkFailed err)
      | inl _ => Return (Ok tt) end)
      (λ h'' a, safe anyAnswer changesOwned h'' (Return (failResource kind "delete" a)) (λ _ _, True)))) as Hcall.
  { intros e He. split; [done|]. intros [[]|err] _; cbn [safe]; [done|]. by destruct (ResponseCodeIs err 404). }
  unfold deleteCall. destruct (kind == Port) eqn:E1; [apply Hcall; gobool; subst kind; by exists r|].
  destruct (isVolume kind) eqn:E2.
  { apply Hcall. exists r. split; [|by rewrite <- Eb; unfold resourceBusy; rewrite E2].
    destruct Hr as (Ho & Hne & Hk). split; [done|]. split; [done|]. right; left. split; [done|].
    destruct Hk as [[Hk _]|[[_ Hv]|[[Hk _]|[Hk _]]]]; [|done|..]; by subst kind. }
  destruct (kind == Server) eqn:E3; [apply Hcall; gobool; subst kind; by exists r|].
  destruct (kind == Image) eqn:E4; [apply Hcall; gobool; subst kind; by exists r|done].
Qed.

Lemma cloudSetBootable_safe id : safe anyAnswer changesOwned [] (cloudSetBootable c id owner) (λ _ _, True).
Proof.
  unfold cloudSetBootable. apply safe_bind, safe_bindOk. eapply safe_mono; [apply cloudGet_safe|].
  intros h [r|e] Hr; cbn [safe]; [|done]. apply safe_bind. split; [by exists r|done].
Qed.

Lemma cloudUploadImage_safe id content : safe anyAnswer changesOwned [] (cloudUploadImage c id owner content) (λ _ _, True).
Proof.
  unfold cloudUploadImage. apply safe_bind, safe_bindOk. eapply safe_mono; [apply cloudGet_safe|].
  intros h [r|e] Hr; cbn [safe]; [|done]. apply safe_bind. split; [by exists r|done].
Qed.

(** C21: the client changes or deletes a resource by its identifier only after it read
    the resource, found it in its own project and marked with the owner it was
    given; a resource is deleted only when it is not attached, a volume only when it
    is available or failed; and none of these operations creates anything. *)
Theorem client_changes_owned (kind : Kind) (id content : string) (p : cloudProgram (result unit))
    (h : history sdkE) (X : Type) (e : sdkE X) (k : X → cloudProgram (result unit))
    (Hp : p = cloudDelete c kind id owner ∨ p = cloudSetBootable c id owner ∨ p = cloudUploadImage c id owner content)
    (Hreach : reach anyAnswer [] p h (Call e k)) :
  changesOwned X h e.
Proof.
  destruct Hp as [->|[->| ->]].
  - by apply (safe_reach _ _ _ _ _ _ _ (cloudDelete_safe kind id)) in Hreach.
  - by apply (safe_reach _ _ _ _ _ _ _ (cloudSetBootable_safe id)) in Hreach.
  - by apply (safe_reach _ _ _ _ _ _ _ (cloudUploadImage_safe id content)) in Hreach.
Qed.
End ownership.

(** ** Look-up by name *)
Lemma listResources_named c kind name h :
  safe anyAnswer (λ _ _ _, True) h (listResources c kind name)
    (λ _ r, match r with Ok l => Forall (λ x, rs_Name x = name) l | Err _ => True end).
Proof.
  assert (∀ A (get : sdkE (sdk (list A))) (resource : A → Resource) (test : A → bool),
    (∀ x, test x = true → rs_Name (resource x) = name) →
    safe anyAnswer (λ _ _ _, True) h
      (let! r := call get in
       match r with
       | inr err => Return (sdkFailed err)
       | inl l => Return (Ok (map resource (List.filter test l)))
       end) (λ _ r, match r with Ok l => Forall (λ x, rs_Name x = name) l | Err _ => True end)) as Hgen.
  { intros A get resource test Ht. apply safe_bind. split; [done|]. intros [l|err] _; cbn [safe]; [|done].
    apply Forall_map, Forall_forall. intros x Hx%list_elem_of_In. apply filter_In in Hx as [_ Hx]. by apply Ht. }
  unfold listResources. destruct (kind == Port); [apply Hgen; intros x Hx; by gobool|].
  destruct (isVolume kind); [apply Hgen; intros x Hx; simpl; by gobool|].
  destruct (kind == Server); [apply Hgen; intros x Hx; simpl; by gobool|done].
Qed.

(** A resource found by name has exactly that name and the owner asked for. *)
Theorem client_finds_owned (c : cloud) (kind : Kind) (name owner : string) (h : history sdkE) (r : Resource)
    (Hreach : reach anyAnswer [] (cloudFind c kind name owner) h (Return (Ok r))) :
  rs_Name r = name ∧ rs_Owner r = owner ∧ owner ≠ "".
Proof.
  enough (safe anyAnswer (λ _ _ _, True) [] (cloudFind c kind name owner)
    (λ _ r, match r with Ok x => rs_Name x = name ∧ rs_Owner x = owner ∧ owner ≠ "" | Err _ => True end)) as Hs.
  { exact (safe_reach _ _ _ _ _ _ _ Hs Hreach). }
  unfold cloudFind. apply safe_bind, safe_bindOk. eapply safe_mono; [apply listResources_named|].
  intros h' [found|e] Hf; cbn [safe]; [|done]. destruct found as [|x [|]]; cbn [safe]; try done.
  destruct (owned x owner) as [x'|e] eqn:Eo; [|done]. apply owned_ok in Eo as (-> & Ho & Hne).
  inversion Hf; subst. done.
Qed.

(** ** Authentication *)
Section authentication.
Context `{OpenStackSDK}.

(** The login with the credentials of the Secret was accepted. *)
Definition loggedIn (secret : Secret) : event sdkE :=
  Event (AuthenticateV3 (secretValue secret "auth-url") (secretValue secret "application-credential-id")
           (secretValue secret "application-credential-secret")) (inl tt).

(** What a client that was made has been checked for: the login was accepted, and after
    it the token was for the project. *)
Record authentic (cfg : OpenStackPlacementSpec) (secret : Secret) (c : cloud) (h : history sdkE) : Prop := {
  at_project : cl_project c = secretValue secret "project-id";
  at_scope : cl_scope c = cloudScope (secretValue secret "auth-url") (cl_project c) (op_Region cfg);
  at_secret : checkSecret secret = Ok tt;
  at_login : ∃ newer older, h = newer ++ Event ExtractProject (Some (inl (Some (cl_project c)))) :: older ∧
    In (loggedIn secret) older }.

Lemma checkSecret_https secret :
  checkSecret secret = Ok tt →
  ∃ parsed, parseAuthURL (secretValue secret "auth-url") = Some parsed ∧
    (au_Scheme parsed = schemeHTTPS ∨ (au_Scheme parsed = schemeHTTP ∧ insecureHTTPPolicy secret = Ok true)).
Proof.
  unfold checkSecret. destruct (insecureHTTPPolicy secret) as [allow|] eqn:Ei; [|done].
  destruct (parseAuthURL _) as [parsed|]; [|done]. destruct (negb _) eqn:Ev; [done|].
  destruct (_ && negb allow) eqn:Eh; [done|]. intros _. exists parsed. split; [done|].
  unfold validAuthURL in Ev. apply negb_false_iff in Ev. rewrite !andb_true_iff in Ev.
  destruct Ev as [[[[Ev _] _] _] _]. apply orb_true_iff in Ev as [Ev|Ev].
  - left. by apply bool_decide_eq_true_1 in Ev.
  - right. rewrite Ev in Eh. apply bool_decide_eq_true_1 in Ev. split; [done|]. by destruct allow.
Qed.

Lemma discoverService_grows h service region (Q : history sdkE → result unit → Prop) :
  (∀ h' r, grows h h' → Q h' r) → safe anyAnswer (λ _ _ _, True) h (discoverService service region) Q.
Proof. intros HQ. unfold discoverService. apply safe_bind. split; [done|]. intros r _. apply HQ. auto with grows. Qed.

Lemma New_safe cfg secret h :
  safe anyAnswer (λ _ _ _, True) h (New cfg secret)
    (λ h r, match r with Ok c => authentic cfg secret c h | Err _ => True end).
Proof.
  unfold New. apply safe_bindOk. unfold initializeClient. apply safe_bind.
  destruct (checkSecret secret) as [[]|e] eqn:Ec; [|done].
  apply safe_bindOk. cbn [safe]. apply safe_bind. split; [done|]. intros [[]|err] _; [|done]. cbn [safe].
  destruct (_ && _); [done|]. cbn [safe failAt]. set (h0 := _ :: h). clearbody h0. clear h.
  apply safe_bindOk. unfold authenticate. apply safe_bind. split; [done|]. intros [[]|err] _; [|done]. cbn [safe sdkDone failAt].
  set (h1 := _ :: h0). assert (In (loggedIn secret) h1) as Hl by (by left).
  clearbody h1. apply safe_bindOk. unfold validateScope. apply safe_bind, safe_bind. split; [done|].
  intros [[[project|]|err]|] _; cbn [safe failAt]; try done. destruct (project != _) eqn:Ep; [done|].
  apply safe_bind. split; [done|]. intros t _. apply safe_bind. split; [done|]. intros token _. cbn [safe].
  set (h2 := _ :: _ :: _ :: h1).
  assert (∀ expires, safe anyAnswer (λ _ _ _, True) h2
    (let? _ := discoverService serviceNova (op_Region cfg) in
     let? _ := discoverService serviceNeutron (op_Region cfg) in
     let? _ := discoverService serviceCinder (op_Region cfg) in
     let? _ := discoverService serviceGlance (op_Region cfg) in
     Return (Ok (mkCloud (cloudScope (secretValue secret "auth-url") project (op_Region cfg)) project expires)))
    (λ h r, match r with Ok c => authentic cfg secret c h | Err _ => True end)) as Hrest.
  { intros expires.
    do 4 (apply safe_bindOk, discoverService_grows; intros ? [[]|?] ?; [|done]).
    assert (grows h2 h'2) as [new ->] by eauto 10 with grows.
    cbn [safe]. gobool. split; [done|done|done|]. exists (new ++ [Event ExtractToken token; Event TimeNow t]), h1.
    split; [by rewrite <- app_assoc|done]. }
  destruct token as [[expiresAt|err]|]; cbn [safe failAt]; [apply Hrest|done|apply Hrest].
Qed.
(** *** The cache *)

(** A map is ranged over in some order of its keys. *)
Definition ranges : answers sdkE := λ X _ e,
  match e in sdkE X return X → Prop with
  | RangeKeys keys => λ order, Permutation order keys
  | _ => λ _, True
  end.

Lemma evict_safe h order cache (Q : history sdkE → clientCache → Prop) :
  (∀ h' cache', cache' ⊆ cache → Q h' cache') → safe ranges (λ _ _ _, True) h (evict order cache) Q.
Proof.
  revert h cache. induction order as [|k order IH]; intros h cache HQ; cbn [evict]; [by apply HQ|].
  destruct (cache !! k) as [entry|] eqn:Ek; [|by apply IH]. apply safe_bind. split; [done|]. intros t _. cbn [safe].
  destruct (_ || _); apply IH; [|done]. intros h' cache' Hsub. apply HQ. etrans; [exact Hsub|apply delete_subseteq].
Qed.

(** From a full cache at least one client is dropped. *)
Lemma evict_bounded h order cache (Q : history sdkE → clientCache → Prop) :
  (size cache ≤ maxClients)%nat → Permutation order (elements (dom cache)) →
  (∀ h' cache', (size cache' < maxClients)%nat → Q h' cache') → safe ranges (λ _ _ _, True) h (evict order cache) Q.
Proof.
  intros Hsize Hperm HQ.
  assert (∀ h' (small cache' : clientCache), (size small < maxClients)%nat → cache' ⊆ small → Q h' cache') as Hsmall.
  { intros h' small cache' Hlt Hsub. apply HQ. apply map_subseteq_size in Hsub. lia. }
  destruct (decide (size cache < maxClients)%nat) as [Hlt|Hge].
  { apply evict_safe. intros h' cache' Hsub. by eapply (Hsmall h' cache). }
  destruct order as [|k order]; cbn [evict].
  { exfalso. apply Permutation_nil in Hperm. assert (size (dom cache) = 0%nat) as Hz by (unfold size, set_size; simpl; by rewrite Hperm).
    rewrite size_dom in Hz. unfold maxClients in *. lia. }
  assert (k ∈ dom cache) as Hk.
  { apply elem_of_elements. rewrite <- Hperm. by left. }
  apply elem_of_dom in Hk as [entry Hk]. rewrite Hk. apply safe_bind. split; [done|]. intros t _. cbn [safe].
  rewrite (proj2 (Nat.leb_le maxClients (size cache))) by lia. rewrite orb_true_r. apply evict_safe.
  intros h' cache' Hsub. eapply (Hsmall h' (delete k cache)); [|done].
  rewrite map_size_delete_Some by done. unfold maxClients in *. lia.
Qed.

(** The answer of the factory: a client that was made for the Secret and region,
    or one that is cached under their key and has not expired. *)
Definition factoryAnswer (cache : clientCache) (cfg : OpenStackPlacementSpec) (secret : Secret)
    (h : history sdkE) (r : result cloud) : Prop :=
  match r with
  | Ok c => authentic cfg secret c h ∨
            (cache !! clientKey cfg secret = Some c ∧ ∃ t, In (Event TimeNow t) h ∧ t < cl_expires c)
  | Err _ => True
  end.

Lemma storeClient_bounded h cache key c (Q : history sdkE → clientCache → Prop) :
  (size cache ≤ maxClients)%nat →
  (∀ h' cache', (size cache' ≤ maxClients)%nat → cache' !! key = Some c → Q h' cache') →
  safe ranges (λ _ _ _, True) h (storeClient cache key c) Q.
Proof.
  intros Hsize HQ. unfold storeClient. apply safe_bind. split; [done|]. intros order Ho. cbn [safe].
  apply safe_bind, evict_bounded; [done|done|]. intros h' cache' Hlt. apply HQ; [|apply lookup_insert_eq].
  rewrite map_size_insert. destruct (cache' !! key); simpl; lia.
Qed.
Lemma NewCachedFactory_safe others cache cfg secret :
  (size cache ≤ maxClients)%nat → (∀ c, (size c ≤ maxClients)%nat → (size (others c) ≤ maxClients)%nat) →
  safe ranges (λ _ _ _, True) [] (NewCachedFactory others cache cfg secret)
    (λ h r, (size r.1 ≤ maxClients)%nat ∧ factoryAnswer cache cfg secret h r.2).
Proof.
  intros Hsize Hothers. unfold NewCachedFactory. cbv zeta. apply safe_bind.
  assert (∀ h, safe ranges (λ _ _ _, True) h
    (let! provider := New cfg secret in
     match provider with
     | Err e => Return (others cache, Err e)
     | Ok c => let! cache := storeClient (others cache) (clientKey cfg secret) c in Return (cache, Ok c)
     end) (λ h r, (size r.1 ≤ maxClients)%nat ∧ factoryAnswer cache cfg secret h r.2)) as Hnew.
  { intros h. apply safe_bind. eapply safe_mono; [eapply (safe_rely_mono anyAnswer); [apply New_safe|done]|].
    intros h1 [c|e] Ha; [|by split; [apply Hothers|]]. apply safe_bind.
    eapply safe_mono; [apply safe_extends, (storeClient_bounded _ _ _ _ (λ _ cache', (size cache' ≤ maxClients)%nat));
                       [by apply Hothers|done]|].
    intros h2 cache' [Hs [new ->]]. split; [done|]. left. destruct Ha as [? ? ? (newer & older & -> & ?)]. split; [done..|].
    exists (new ++ newer), older. split; [by rewrite <- app_assoc|done]. }
  unfold cachedClient. destruct (cache !! clientKey cfg secret) as [cached|] eqn:Ec; [|apply Hnew].
  apply safe_bind. split; [done|]. intros t _. cbn [safe]. destruct (Before t (cl_expires cached)) eqn:Eb; [|apply Hnew].
  split; [done|]. right. split; [done|]. exists t. split; [by left|]. by apply Z.ltb_lt in Eb.
Qed.

(** C22: the factory of clients answers with a client for which Keystone has accepted a
    login with the credentials of the Secret and after that answered with a token for the
    project of the Secret, over HTTPS (or over HTTP when the Secret allows it) and
    scoped to the region, or with an unexpired client cached under the key of the
    same Secret version and region; the cache never holds more than 128 clients. *)
Theorem client_factory_authentic (others : clientCache → clientCache) (cache cache' : clientCache)
    (cfg : OpenStackPlacementSpec) (secret : Secret) (h : history sdkE) (r : result cloud)
    (Hsize : (size cache ≤ maxClients)%nat)
    (Hothers : ∀ c, (size c ≤ maxClients)%nat → (size (others c) ≤ maxClients)%nat)
    (Hreach : reach ranges [] (NewCachedFactory others cache cfg secret) h (Return (cache', r))) :
  (size cache' ≤ maxClients)%nat ∧
  ∀ c, r = Ok c →
    (cache !! clientKey cfg secret = Some c ∧ ∃ t, In (Event TimeNow t) h ∧ t < cl_expires c) ∨
    (cl_project c = secretValue secret "project-id" ∧
     cl_scope c = cloudScope (secretValue secret "auth-url") (cl_project c) (op_Region cfg) ∧
     (∃ newer older, h = newer ++ Event ExtractProject (Some (inl (Some (cl_project c)))) :: older ∧ In (loggedIn secret) older) ∧
     ∃ parsed, parseAuthURL (secretValue secret "auth-url") = Some parsed ∧
       (au_Scheme parsed = schemeHTTPS ∨ (au_Scheme parsed = schemeHTTP ∧ insecureHTTPPolicy secret = Ok true))).
Proof.
  apply (safe_reach _ _ _ _ _ _ _ (NewCachedFactory_safe others cache cfg secret Hsize Hothers)) in Hreach.
  destruct Hreach as [Hs Ha]. split; [done|]. intros c ->.
  destruct Ha as [[Hp Hsc Hck Hl]|Hc]; [right|by left]. split_and!; [done|done|done|by apply checkSecret_https].
Qed.
End authentication.

(** ** Volumes *)

(** The discovery volume holds the image, is not smaller than the minimum, and is
    not larger than needed. *)
Theorem discoveryVolumeSize_fits (minGiB isoSizeBytes : Z)
    (Hsize : 0 ≤ isoSizeBytes < 9223372036854775808 - gibibyte) :
  isoSizeBytes ≤ discoveryVolumeSize minGiB isoSizeBytes * gibibyte ∧
  minGiB ≤ discoveryVolumeSize minGiB isoSizeBytes ∧
  (discoveryVolumeSize minGiB isoSizeBytes = minGiB ∨
   (discoveryVolumeSize minGiB isoSizeBytes - 1) * gibibyte < isoSizeBytes).
Proof.
  unfold discoveryVolumeSize. assert (∀ z, 0 ≤ z < 9223372036854775808 → wrap64 z = z) as Hw.
  { intros z Hz. unfold wrap64. rewrite Z.mod_small; lia. }
  unfold gibibyte in *. rewrite (Hw (isoSizeBytes + 1073741824)) by lia.
  rewrite Hw by lia. rewrite Z.quot_div_nonneg by lia.
  pose proof (Z.div_mod (isoSizeBytes + 1073741824 - 1) 1073741824 ltac:(lia)) as Hd.
  pose proof (Z.mod_pos_bound (isoSizeBytes + 1073741824 - 1) 1073741824 ltac:(lia)) as Hm.
  lia.
Qed.

(** ** The body of a port *)
Lemma mapRead_app m m' key :
  mapRead (m ++ m') key = match mapRead m key with Some v => Some v | None => mapRead m' key end.
Proof. unfold mapRead. induction m as [|[k v] m IH]; simpl; [done|]. by destruct (k == key). Qed.

Lemma mapRead_write m key v key' :
  mapRead (mapWrite m key v) key' = if key' == key then Some v else mapRead m key'.
Proof.
  unfold mapWrite. rewrite mapRead_app. destruct (bool_decide_reflect (key' = key)) as [->|Hne].
  - assert (mapRead (List.filter (λ kv, kv.1 != key) m) key = None) as ->.
    { unfold mapRead. destruct (List.find _ _) as [[k w]|] eqn:E; [|done].
      apply find_some in E as [Hin Hk]. apply filter_In in Hin as [_ Hn]. simpl in *. by rewrite Hk in Hn. }
    unfold mapRead. simpl. by rewrite bool_decide_eq_true_2.
  - assert (mapRead (List.filter (λ kv, kv.1 != key) m) key' = mapRead m key') as ->.
    { unfold mapRead. induction m as [|[k w] m IH]; simpl; [done|].
      destruct (bool_decide_reflect (k = key)) as [->|]; simpl; [by rewrite IH, bool_decide_eq_false_2 by congruence|].
      by destruct (k == key'). }
    destruct (mapRead m key'); [done|]. unfold mapRead. simpl. by rewrite bool_decide_eq_false_2 by congruence.
Qed.

(** The request carries the port security that was asked for, and the tags when there are
    any; all other fields are those of the SDK. *)
Theorem ToPortCreateMap_body base o m p :
  base o = Ok m → mapRead m "port" = Some (AMap p) →
  ∃ m' p', ToPortCreateMap base o = Some (Ok m') ∧ mapRead m' "port" = Some (AMap p') ∧
    mapRead p' "port_security_enabled" = Some (ABool (po_Security o)) ∧
    (po_Tags o ≠ [] → mapRead p' "tags" = Some (ASlice (map AString (po_Tags o)))) ∧
    (∀ key, key ≠ "port_security_enabled" → (key = "tags" → po_Tags o = []) → mapRead p' key = mapRead p key) ∧
    (∀ key, key ≠ "port" → mapRead m' key = mapRead m key).
Proof.
  intros Hb Hp. unfold ToPortCreateMap. rewrite Hb, Hp. do 2 eexists. split; [done|].
  rewrite mapRead_write. split; [by rewrite bool_decide_eq_true_2|]. destruct (po_Tags o) as [|tag tags].
  - rewrite mapRead_write. split_and!; try done; intros key Hk; rewrite ?mapRead_write; intros; by rewrite bool_decide_eq_false_2.
  - rewrite !mapRead_write. split_and!; try done.
    + intros key Hk Ht. rewrite !mapRead_write, !bool_decide_eq_false_2; [done|done|]. intros ->. discriminate (Ht eq_refl).
    + intros key Hk. by rewrite mapRead_write, bool_decide_eq_false_2.
Qed.
