(* ===== verification/OpenStackRoundTrip.v ===== *)
(** * What the client creates it finds again

    The recovery of a creation whose outcome is not known relies on the marks the
    client puts on a resource: its name, and its owner in the description of a port
    or in the metadata of a volume or server.  Against a project that stores what it
    is sent, a resource that was created is found by name and read by identifier,
    with the owner it was created for. *)
From S2P Require Import Prelude OpenStackErrors Api Identity Planner OwnedVMs VsphereObjects Sha256 Effects K8s.
From S2P Require Import OpenStackClient.

(** ** A project *)
Record sdkProject := mkSdkProject {
  sj_ports : list sdkPort;
  sj_volumes : list sdkVolume;
  sj_servers : list sdkServer;
  sj_networks : list string;
  sj_flavors : list (string * string);
  sj_nextID : string }.  (* of the next resource *)

Definition missingSDK {A} : sdk A := inr [CauseResponse false 404 ∅].
Definition findByID {A} (getID : A → string) (id : string) (l : list A) : sdk A :=
  match List.find (λ x, getID x == id) l with Some x => inl x | None => missingSDK end.

(** A project with the identifier [project] stores the options of a creation.  A
    listing of ports is restricted to the project; other listings are not. *)
Definition sdkAnswer (project : string) (subnet : sdkSubnet) (X : Type) (e : sdkE X) (w : sdkProject) : sdkProject * X :=
  let '(mkSdkProject ports volumes servers networks flavors next) := w in
  match e in sdkE X return sdkProject * X with
  | PortsGet id => (w, findByID sp_ID id ports)
  | PortsList _ p => (w, inl (List.filter (λ x, sp_ProjectID x == p) ports))
  | PortsCreate o =>
      let x := mkSdkPort next (po_Name o) (po_Description o) "DOWN" "fa:16:3e:00:00:01" "" project in
      (mkSdkProject (ports ++ [x]) volumes servers networks flavors next, inl x)
  | VolumesGet id => (w, findByID sv_ID id volumes)
  | VolumesList _ => (w, inl volumes)
  | VolumesCreate o =>
      let x := mkSdkVolume next (vo_Name o) (vo_Metadata o) "creating" [] "false" project in
      (mkSdkProject ports (volumes ++ [x]) servers networks flavors next, inl x)
  | ServersGet id => (w, findByID ss_ID id servers)
  | ServersList _ => (w, inl servers)
  | ServersCreate o =>
      let x := mkSdkServer next (so_Name o) (so_Metadata o) "BUILD" project in
      (mkSdkProject ports volumes (servers ++ [x]) networks flavors next, inl x)
  | NetworksList _ => (w, inl networks)
  | FlavorsList => (w, inl flavors)
  | SubnetsGet _ => (w, inl subnet)
  | PortsDelete _ | VolumesDelete _ | ServersDelete _ | ImagesDelete _ => (w, missingSDK)
  | VolumesSetBootable _ _ | ImagesUpload _ _ => (w, missingSDK)
  | ImagesGet _ => (w, missingSDK)
  | ImagesCreate _ => (w, missingSDK)
  | NewClient _ | AuthenticateV3 _ _ _ | NewService _ _ => (w, missingSDK)
  | ExtractProject => (w, None)
  | ExtractToken => (w, None)
  | TimeNow => (w, 0)
  | RangeKeys keys => (w, keys)
  end.

(** No resource of the kind has the name, in any project, or the next identifier. *)
Definition unused (w : sdkProject) (kind : Kind) (name : string) : Prop :=
  if kind == Port then Forall (λ x, sp_Name x ≠ name ∧ sp_ID x ≠ sj_nextID w) (sj_ports w)
  else if isVolume kind then Forall (λ x, sv_Name x ≠ name ∧ sv_ID x ≠ sj_nextID w) (sj_volumes w)
  else Forall (λ x, ss_Name x ≠ name ∧ ss_ID x ≠ sj_nextID w) (sj_servers w).

(** ** Proofs *)
Lemma findByID_last {A} (getID : A → string) l x :
  Forall (λ y, getID y ≠ getID x) l → findByID getID (getID x) (l ++ [x]) = inl x.
Proof.
  intros Hl. unfold findByID. induction Hl as [|y l Hy Hl IH]; simpl; [by bdsimp|].
  rewrite (bool_decide_false (getID y = getID x)) by done. exact IH.
Qed.

Lemma filter_last {A} (test : A → bool) l x :
  Forall (λ y, test y = false) l → test x = true → List.filter test (l ++ [x]) = [x].
Proof.
  intros Hl Hx. rewrite List.filter_app. simpl. rewrite Hx.
  induction Hl as [|y l Hy Hl IH]; simpl; [done|]. by rewrite Hy.
Qed.

(** The owner of a port is read from the description it was written to. *)
Lemma portResource_owner x owner :
  sp_Description x = OwnerKey +:+ ":" +:+ owner → rs_Owner (portResource x) = owner.
Proof.
  intros Hd. unfold portResource. cbn [rs_Owner]. rewrite Hd.
  change (OwnerKey +:+ ":" +:+ owner) with ((OwnerKey +:+ ":") +:+ owner). by rewrite HasPrefix_app, TrimPrefix_app.
Qed.

Lemma owned_same r owner : owner ≠ "" → rs_Owner r = owner → owned r owner = Ok r.
Proof. intros Hne Ho. unfold owned. by bdsimp. Qed.

Section roundtrip.
Context (c : cloud) (subnet : sdkSubnet) (owner : string).
Hypothesis Howner : owner ≠ "".

Abbreviation run := (runState (sdkAnswer (cl_project c) subnet)).

(** A resource of a kind that the project stores last. *)
Definition storedLast (w : sdkProject) (kind : Kind) (name : string) (r : Resource) : Prop :=
  if kind == Port then ∃ l x, sj_ports w = l ++ [x] ∧ r = portResource x ∧ sp_Name x = name ∧
    sp_ProjectID x = cl_project c ∧ rs_Owner r = owner ∧ Forall (λ y, sp_Name y ≠ name ∧ sp_ID y ≠ sp_ID x) l
  else if isVolume kind then ∃ l x, sj_volumes w = l ++ [x] ∧ r = volumeResource x ∧ sv_Name x = name ∧
    sv_TenantID x = cl_project c ∧ rs_Owner r = owner ∧ Forall (λ y, sv_Name y ≠ name ∧ sv_ID y ≠ sv_ID x) l
  else ∃ l x, sj_servers w = l ++ [x] ∧ r = serverResource x ∧ ss_Name x = name ∧
    ss_TenantID x = cl_project c ∧ rs_Owner r = owner ∧ Forall (λ y, ss_Name y ≠ name ∧ ss_ID y ≠ ss_ID x) l.

Definition findable (kind : Kind) : Prop := kind = Port ∨ isVolume kind = true ∨ kind = Server.

Lemma run_find w kind name r :
  findable kind → storedLast w kind name r → run w (cloudFind c kind name owner) = (w, Ok r).
Proof.
  intros Hk Hs. assert (run w (listResources c kind name) = (w, Ok [r])) as Hl.
  { unfold storedLast, listResources in *. destruct w as [ports volumes servers networks flavors next].
    destruct (kind == Port) eqn:E1; [|destruct (isVolume kind) eqn:E2; [|rewrite (bool_decide_true (kind = Server))]].
    - destruct Hs as (l & x & Hw & -> & Hn & Hp & _ & Hf). simpl in *. subst ports. rewrite List.filter_app. simpl. bdsimp.
      rewrite filter_last; [done| |by bdsimp]. apply Forall_forall. intros y Hy%list_elem_of_In.
      apply filter_In in Hy as [Hy _]. rewrite Forall_forall in Hf. destruct (Hf y) as [Hny _]; [by apply list_elem_of_In|].
      by bdsimp.
    - destruct Hs as (l & x & Hw & -> & Hn & Hp & _ & Hf). simpl in *. subst volumes.
      rewrite filter_last; [done| |by bdsimp]. eapply Forall_impl; [exact Hf|]. intros y [Hny _]. by bdsimp.
    - destruct Hs as (l & x & Hw & -> & Hn & Hp & _ & Hf). simpl in *. subst servers.
      rewrite filter_last; [done| |by bdsimp]. eapply Forall_impl; [exact Hf|]. intros y [Hny _]. by bdsimp.
    - apply bool_decide_eq_false_1 in E1. destruct Hk as [?|[?|?]]; congruence. }
  assert (rs_Owner r = owner) as Ho.
  { unfold storedLast in Hs. destruct (kind == Port); [|destruct (isVolume kind)]; by destruct Hs as (? & ? & ? & ? & ? & ? & ? & ?). }
  unfold cloudFind. assert (run w (let? found := listResources c kind name in
    match found with [] => Return (Err (osErr ErrNotFound)) | [r] => Return (owned r owner)
                | _ => Return (Err (osErr (newError "AmbiguousResourceIdentity" false true))) end) = (w, Ok r)) as Hrun.
  { rewrite (run_bindOk _ _ _ _ _ _ Hl). simpl. by rewrite owned_same. }
  by rewrite (run_bind _ _ _ _ _ _ Hrun).
Qed.

Lemma run_get w kind name r :
  findable kind → storedLast w kind name r → run w (cloudGet c kind (rs_ID r) owner) = (w, Ok r).
Proof.
  intros Hk Hs. assert (run w (getResource c kind (rs_ID r)) = (w, Ok r) ∧ rs_Owner r = owner) as [Hg Ho].
  { unfold storedLast, getResource in *. destruct w as [ports volumes servers networks flavors next].
    destruct (kind == Port) eqn:E1; [|destruct (isVolume kind) eqn:E2; [|rewrite (bool_decide_true (kind = Server))]].
    all: try (destruct Hs as (l & x & Hw & -> & Hn & Hp & Ho & Hf); split; [|exact Ho]; simpl in *; subst;
      rewrite findByID_last by (eapply Forall_impl; [exact Hf|]; by intros y [_ ?]); simpl; by bdsimp).
    apply bool_decide_eq_false_1 in E1. destruct Hk as [?|[?|?]]; congruence. }
  unfold cloudGet. assert (run w (let? r := getResource c kind (rs_ID r) in Return (owned r owner)) = (w, Ok r)) as Hrun.
  { rewrite (run_bindOk _ _ _ _ _ _ Hg). simpl. by rewrite owned_same. }
  by rewrite (run_bind _ _ _ _ _ _ Hrun).
Qed.

(** *** Creation *)

(** Reading the network, the flavor and the subnet changes nothing. *)
Definition unchanged {A} (p : cloudProgram A) : Prop := ∀ w, (run w p).1 = w.

Lemma networkID_unchanged cfg : unchanged (networkID cfg).
Proof. intros []. unfold networkID. destruct (_ != ""); [done|]. simpl. by destruct sj_networks0 as [|? [|]]. Qed.
Lemma flavorID_unchanged cfg : unchanged (flavorID cfg).
Proof. intros []. unfold flavorID. destruct (_ != ""); [done|]. simpl. by destruct (List.filter _ _) as [|? [|]]. Qed.
Lemma checkSubnet_unchanged cfg network : unchanged (checkSubnet cfg network).
Proof. intros []. unfold checkSubnet. destruct (op_DHCPEnabled cfg); [|done]. simpl. by destruct (_ || _). Qed.

Lemma run_unchanged_Ok {A B} (p : cloudProgram (result A)) (f : A → cloudProgram (result B)) w w' b :
  unchanged p → run w (bindOk p f) = (w', Ok b) → ∃ a, run w (f a) = (w', Ok b).
Proof.
  intros Hp Hr. specialize (Hp w). destruct (run w p) as [w1 [a|e]] eqn:Er; simpl in Hp; subst w1.
  - rewrite (run_bindOk _ _ _ _ _ _ Er) in Hr. by exists a.
  - unfold bindOk in Hr. rewrite (run_bind _ _ _ _ _ _ Er) in Hr. discriminate Hr.
Qed.

Lemma run_failResource w kind action (p : cloudProgram (result Resource)) w' r :
  run w (let! x := p in Return (failResource kind action x)) = (w', Ok r) → run w p = (w', Ok r).
Proof.
  intros Hr. destruct (run w p) as [w1 [a|e]] eqn:Er; rewrite (run_bind _ _ _ _ _ _ Er) in Hr; simpl in Hr; congruence.
Qed.

Lemma run_create w w' kind name a r :
  findable kind → unused w kind name → run w (cloudCreate kind name owner a) = (w', Ok r) → storedLast w' kind name r.
Proof.
  intros Hk Hu Hr. unfold cloudCreate in Hr. apply run_failResource in Hr. unfold unused, storedLast in *.
  destruct (kind == Port) eqn:E1; [|destruct (isVolume kind) eqn:E2; [|rewrite (bool_decide_true (kind = Server)) in Hr]].
  - unfold createPort in Hr. apply run_unchanged_Ok in Hr as [network Hr]; [|apply networkID_unchanged].
    apply run_unchanged_Ok in Hr as [_ Hr]; [|apply checkSubnet_unchanged]. destruct w. simpl in *. simplify_eq/=.
    eexists sj_ports0, _. split; [done|]. repeat (split; [done|]). split; [|exact Hu].
    exact (portResource_owner (mkSdkPort "" name (OwnerKey +:+ ":" +:+ owner) "" "" "" "") owner eq_refl).
  - destruct w. simpl in *. simplify_eq/=. unfold volumeOpts. eexists sj_volumes0, _. split; [done|].
    destruct (kind == DiscoveryVolume); split_and!; try done; simpl; unfold mapGet; by rewrite lookup_insert_eq.
  - unfold createServer in Hr. apply run_unchanged_Ok in Hr as [flavor Hr]; [|apply flavorID_unchanged].
    destruct w. simpl in *. simplify_eq/=. eexists sj_servers0, _. split; [done|].
    by split_and!.
  - apply bool_decide_eq_false_1 in E1. destruct Hk as [?|[?|?]]; congruence.
Qed.
End roundtrip.

(** ** Properties *)

(** C40: what the client creates it finds again: in a project that stores the
    options of a creation, after a port, volume or server was created under a name
    that was not used, both the look-up by name and the read by identifier answer
    with exactly that resource, for the owner it was created for. *)
Theorem created_is_found (c : cloud) (subnet : sdkSubnet) (w w' : sdkProject) (kind : Kind) (name owner : string)
    (a : OpenStackAgent) (r : Resource)
    (Howner : owner ≠ "") (Hkind : findable kind) (Hunused : unused w kind name)
    (Hcreate : runState (sdkAnswer (cl_project c) subnet) w (cloudCreate kind name owner a) = (w', Ok r)) :
  rs_Owner r = owner ∧ rs_Name r = name ∧
  runState (sdkAnswer (cl_project c) subnet) w' (cloudFind c kind name owner) = (w', Ok r) ∧
  runState (sdkAnswer (cl_project c) subnet) w' (cloudGet c kind (rs_ID r) owner) = (w', Ok r).
Proof.
  apply run_create in Hcreate; [|done|done]. split_and!; [..|by apply run_find|by eapply run_get].
  all: unfold storedLast in Hcreate; destruct (kind == Port); [|destruct (isVolume kind)];
    by destruct Hcreate as (? & ? & ? & -> & ? & ? & ? & ?).
Qed.
