(* ===== verification/OpenStackImages.v ===== *)
(** * Discovery images in OpenStack

    internal/controller/openstack_iso_cache.go: the workers of a project share
    uploaded discovery images.  A ConfigMap records the references to an image;
    the last release turns it into a tombstone (phase Deleting) before the image is
    deleted, so that no worker can acquire an image that is being collected
    (verified in OpenStackImageRefs.v).

    The functions mutate the worker they are given, also when they fail: they
    return it together with their result.  uuid.NewSHA1 is a parameter ([UUID]). *)
From S2P Require Import Prelude OpenStackErrors Api Identity Planner OwnedVMs VsphereObjects Sha256 Effects K8s Objects.
From S2P Require Import VMProvider IsoCache InfraEnv Govc.

(** uuid.NewSHA1(uuid.NameSpaceOID, data).String(). *)
Class UUID := NewSHA1 : string → string.

Section images.
Context `{KubeLib} `{NetURL} `{HTTPDate} `{UUID}.
Context (apiReader : reader).

(** ** Constants and names *)
Definition imageCacheOwnedValue : string := "true".
Definition openStackPhaseRefreshingImage : string := "RefreshingDiscoveryImage".
Definition openStackPhaseDeleting : string := "Deleting".
Definition imageCacheLabel : string := "agent-forge.containeroo.ch/openstack-image-cache".
Definition imageCachePhase : string := "agent-forge.containeroo.ch/cache-phase".

Definition imageCacheKey (scope infraEnvUID sha : string) : string :=
  "os-image-" +:+ takeString 48 (sha256Hex (scope +:+ "/" +:+ infraEnvUID +:+ "/" +:+ sha)).

Definition imageIDForCache (cache : ConfigMap) : string := NewSHA1 (om_UID (cm_Meta cache)).

Definition cacheLabel (cache : ConfigMap) : string := mapGet (om_Labels (cm_Meta cache)) imageCacheLabel.
Definition cachePhase (cache : ConfigMap) : string := mapGet (om_Annotations (cm_Meta cache)) imageCachePhase.

(** ** The worker *)
Definition oaNamespace (a : OpenStackAgent) : string := om_Namespace (oa_Meta a).
Definition oaName (a : OpenStackAgent) : string := om_Name (oa_Meta a).
Definition oaUID (a : OpenStackAgent) : string := om_UID (oa_Meta a).
Definition oaConfiguration (a : OpenStackAgent) : OpenStackAgentPoolSpec := oas_Configuration (oa_Spec a).
Definition updStatus (a : OpenStackAgent) (s : OpenStackAgentStatus) : OpenStackAgent := a <| oa_Status := s |>.
Definition setPhase (a : OpenStackAgent) (phase : string) : OpenStackAgent :=
  updStatus a ((oa_Status a) <| st_Phase := phase |>).

(** Status().Update decodes the stored object into the one it is given. *)
Definition status (a : OpenStackAgent) : program (OpenStackAgent * result unit) :=
  let a := updStatus a ((oa_Status a) <| st_ObservedGeneration := om_Generation (oa_Meta a) |>) in
  let! current := call (Get apiReader KOpenStackAgent (oaNamespace a) (oaName a)) in
  match current with
  | Err e => Return (a, Err e)
  | Ok current =>
      if oa_Status current == oa_Status a then Return (a, Ok tt)
      else
        let! r := call (StatusUpdate KOpenStackAgent a) in
        match r with
        | Ok stored => Return (stored, Ok tt)
        | Err e => Return (a, Err e)
        end
  end.

(** ** Download *)
Definition downloadDiscovery (a : OpenStackAgent) : program (result (string * isoDownloadResult)) :=
  let! (available, url, _) :=
    discoveryISOAvailable apiReader (oaNamespace a) (lor_Name (os_InfraEnvRef (oaConfiguration a))) in
  if negb available then Return (Err (osErr (newError "InfraEnvUnavailable" true true)))
  else
    let! file := call (CreateTemp "agent-forge-openstack-*.iso") in
    match file with
    | Err _ => Return (Err (osErr (newError "ISOTemporaryStorageFailed" true false)))
    | Ok path =>
        let! closed := call (CloseFile path) in
        match closed with
        | Err e => let! _ := call (RemoveFile path) in Return (Err e)
        | Ok _ =>
            let! result := downloadISO url path "" in
            match result with
            | Err _ =>
                let! _ := call (RemoveFile path) in
                Return (Err (osErr (newError "ISODownloadFailed" true false)))
            | Ok result =>
                if dl_SizeBytes result == 0 then
                  let! _ := call (RemoveFile path) in
                  Return (Err (osErr (newError "EmptyDiscoveryImage" false true)))
                else Return (Ok (path, result))
            end
        end
    end.

(** ** References *)
Definition newCache (a : OpenStackAgent) : ConfigMap :=
  mkConfigMap (mkObjectMeta (st_ImageCacheName (oa_Status a)) (oaNamespace a) "" "" 0 None
                 {[imageCacheLabel := imageCacheOwnedValue]} {[imageCachePhase := "Active"]} [] [])
    {[oaUID a := "reference"]}.

Definition acquireCache (a : OpenStackAgent) : program (result ConfigMap) :=
  let! got := call (Get apiReader KConfigMap (oaNamespace a) (st_ImageCacheName (oa_Status a))) in
  match got with
  | Err e => if IsNotFound e then call (Create KConfigMap (newCache a)) else Return (Err e)
  | Ok cache =>
      if cacheLabel cache != imageCacheOwnedValue then Return (Err (osErr ErrOwnership))
      else if (cachePhase cache != "Active") || isDeleting (cm_Meta cache) then
        Return (Err (osErr (newError "ImageCacheDeleting" true false)))
      else if mapGet (cm_Data cache) (oaUID a) == "" then
        call (Update KConfigMap (cache <| cm_Data := <[oaUID a := "reference"]> (cm_Data cache) |>))
      else Return (Ok cache)
  end.

(** The tombstone is written with the last reference; it assigns to the
    annotations, which hold the phase of every cache that was acquired. *)
Definition releaseReference (a : OpenStackAgent) (cache : ConfigMap) : program (result bool) :=
  let data := delete (oaUID a) (cm_Data cache) in
  let cache := cache <| cm_Data := data |> in
  let cache := if decide (data = ∅)
               then cache <| cm_Meta := (cm_Meta cache)
                      <| om_Annotations := <[imageCachePhase := openStackPhaseDeleting]> (om_Annotations (cm_Meta cache)) |> |>
               else cache in
  let? stored := call (Update KConfigMap cache) in
  Return (Ok (negb (bool_decide (cm_Data stored = ∅)))).

Definition collectImage (p : osClient) (cache : ConfigMap) : program (result bool) :=
  let id := imageIDForCache cache in
  let! image := call (OpenStack (OSGet p Image id (om_UID (cm_Meta cache)))) in
  match image with
  | Ok _ => let? _ := call (OpenStack (OSDelete p Image id (om_UID (cm_Meta cache)))) in Return (Ok false)
  | Err e =>
      if negb (osErrorIs e ErrNotFound) then Return (Err e)
      else
        let! r := call (Delete KConfigMap cache
                          (Some (mkPreconditions (om_UID (cm_Meta cache)) (om_ResourceVersion (cm_Meta cache))))) in
        match r with
        | Err e => if negb (IsNotFound e) then Return (Err e) else Return (Ok true)
        | Ok _ => Return (Ok true)
        end
  end.

(** Whether the pinned image is gone, asked with an owner that no image has. *)
Definition pinnedImageGone (p : osClient) (a : OpenStackAgent) (present : result bool) : program (result bool) :=
  let! image := call (OpenStack (OSGet p Image (st_ImageID (oa_Status a)) "missing-cache-owner")) in
  match image with
  | Err e => if osErrorIs e ErrNotFound then Return (Ok true) else Return (Err e)
  | Ok _ => Return present
  end.

Definition releaseDiscoveryImage (p : osClient) (a : OpenStackAgent) : program (result bool) :=
  if st_ImageCacheName (oa_Status a) == "" then Return (Ok true)
  else
    let! got := call (Get apiReader KConfigMap (oaNamespace a) (st_ImageCacheName (oa_Status a))) in
    match got with
    | Err e =>
        if IsNotFound e && (st_ImageID (oa_Status a) == "") then Return (Ok true)
        else if IsNotFound e then pinnedImageGone p a (Ok false)
        else Return (Err e)
    | Ok cache =>
        if cacheLabel cache != imageCacheOwnedValue then Return (Err (osErr ErrOwnership))
        else if (st_ImageID (oa_Status a) != "") && (st_ImageID (oa_Status a) != imageIDForCache cache) then
          pinnedImageGone p a (Err (osErr ErrOwnership))
        else if cachePhase cache != openStackPhaseDeleting then releaseReference a cache
        else collectImage p cache
    end.

(** ** Preparation of the image of a worker *)
Definition canRefreshDiscoveryImage (a : OpenStackAgent) : bool :=
  let s := oa_Status a in
  (st_ServerID s == "") && (st_DiscoveryVolumeID s == "") && (st_PendingCreate s == "") &&
  bool_decide (st_AgentRef s = None) && bool_decide (st_InstanceCreatedAt s = None).

Definition refreshBlocked : error := osErr (newError "DiscoveryImageRefreshBlocked" false true).

Definition refreshDiscoveryImage (p : osClient) (a : OpenStackAgent) : program (OpenStackAgent * result unit) :=
  if negb (canRefreshDiscoveryImage a) then Return (a, Err refreshBlocked)
  else
    let! done := releaseDiscoveryImage p a in
    match done with
    | Err e => Return (a, Err e)
    | Ok false => Return (a, Ok tt)
    | Ok true =>
        Return (updStatus a ((oa_Status a) <| st_ImageCacheName := "" |> <| st_ImageID := "" |> <| st_ISOSHA256 := "" |>
                               <| st_ISOSizeBytes := 0 |> <| st_InfraEnvUID := "" |>
                               <| st_Phase := "PreparingDiscoveryImage" |>), Ok tt)
    end.

Definition uploadFile (p : osClient) (a : OpenStackAgent) (path owner : string) : program (OpenStackAgent * result unit) :=
  let! file := call (ReadFile path) in
  match file with
  | Err e => Return (a, Err e)
  | Ok content =>
      let! r := call (OpenStack (OSUploadImage p (st_ImageID (oa_Status a)) owner content)) in Return (a, r)
  end.

Definition uploadDiscoverySnapshot (p : osClient) (a : OpenStackAgent) (path owner : string)
    : program (OpenStackAgent * result unit) :=
  if path == "" then
    let! got := downloadDiscovery a in
    match got with
    | Err e => Return (a, Err e)
    | Ok (downloaded, result) =>
        let! r := if dl_SHA256 result != st_ISOSHA256 (oa_Status a) then
                    if negb (canRefreshDiscoveryImage a) then Return (a, Err refreshBlocked)
                    else status (setPhase a openStackPhaseRefreshingImage)
                  else uploadFile p a downloaded owner in
        let! _ := call (RemoveFile downloaded) in
        Return r
    end
  else uploadFile p a path owner.

(** The switch over the state of the image. *)
Definition imageReady (p : osClient) (a : OpenStackAgent) (path owner : string) (image : Resource)
    : program (OpenStackAgent * result bool) :=
  if rs_State image == "active" then
    if rs_SizeBytes image != st_ISOSizeBytes (oa_Status a)
    then Return (a, Err (osErr (newError "ImageSizeMismatch" false true)))
    else Return (a, Ok true)
  else if (rs_State image == "saving") || (rs_State image == "importing") then Return (a, Ok false)
  else if rs_State image == "queued" then
    let* (a, _) := uploadDiscoverySnapshot p a path owner in Return (a, Ok false)
  else Return (a, Err (osErr (newError "DiscoveryImageFailed" false true))).

Definition ensureDiscoveryImage (p : osClient) (a : OpenStackAgent) (path : string)
    : program (OpenStackAgent * result bool) :=
  let! acquired := acquireCache a in
  match acquired with
  | Err e => Return (a, Err e)
  | Ok cache =>
      let id := imageIDForCache cache in
      let* (a, _) := if st_ImageID (oa_Status a) == ""
                     then status (updStatus a ((oa_Status a) <| st_ImageID := id |>))
                     else Return (a, Ok tt) in
      if st_ImageID (oa_Status a) != id
      then Return (a, Err (osErr (newError "ImageCacheIdentityChanged" false true)))
      else
        let owner := om_UID (cm_Meta cache) in
        let! image := call (OpenStack (OSGet p Image id owner)) in
        let! image := match image with
                      | Err e => if osErrorIs e ErrNotFound
                                 then call (OpenStack (OSCreate p Image (st_ImageCacheName (oa_Status a)) owner a))
                                 else Return (Err e)
                      | Ok image => Return (Ok image)
                      end in
        match image with
        | Err e => Return (a, Err e)
        | Ok image => imageReady p a path owner image
        end
  end.

Definition prepareDiscoveryImage (p : osClient) (a : OpenStackAgent) : program (OpenStackAgent * result bool) :=
  if st_ImageCacheName (oa_Status a) == "" then
    let! infra := call (Get apiReader KInfraEnv (oaNamespace a) (lor_Name (os_InfraEnvRef (oaConfiguration a)))) in
    match infra with
    | Err e => Return (a, Err e)
    | Ok infra =>
        let! got := downloadDiscovery a in
        match got with
        | Err e => Return (a, Err e)
        | Ok (path, result) =>
            let uid := om_UID (un_Meta infra) in
            let a := updStatus a ((oa_Status a) <| st_InfraEnvUID := uid |> <| st_ISOSHA256 := dl_SHA256 result |>
                                    <| st_ISOSizeBytes := dl_SizeBytes result |>
                                    <| st_ImageCacheName := imageCacheKey (oc_Scope p) uid (dl_SHA256 result) |>) in
            let! r := (let* (a, _) := status a in ensureDiscoveryImage p a path) in
            let! _ := call (RemoveFile path) in
            Return r
        end
    end
  else ensureDiscoveryImage p a "".

End images.
