(* ===== verification/OpenStackAgent.v ===== *)
(** * The OpenStackAgent controller

    internal/controller/openstackagent_controller.go: one worker is a port, an OS
    volume, a discovery volume and a server in an OpenStack project.  A
    reconciliation advances it by one durable step: the intent to create a
    resource is recorded before the request is sent, an outcome that is not known
    is never repeated, and deletion goes in the opposite order once the demand is
    gone and the Agents of the worker are unbound.  The theorem of this file says
    which hosts are bound; OpenStackCreate.v, OpenStackStatus.v, OpenStackCleanup.v,
    OpenStackImageRefs.v, OpenStackLink.v and OpenStackProgress.v verify the
    protocols.

    The functions mutate the worker they are given, also when they fail: they
    return it together with their result. *)
From S2P Require Import Prelude OpenStackErrors Api Identity Planner OwnedVMs VsphereObjects Sha256 Effects K8s Objects.
From S2P Require Import VMProvider IsoCache InfraEnv AgentMachine PoolController Govc OpenStackImages.

Section controller.
Context `{KubeLib} `{NetURL} `{HTTPDate} `{UUID}.
Context (apiReader : reader).

Definition reasonCreateOutcomeUnknown : string := "CreateOutcomeUnknown".
Definition outcomeUnknown : error := osErr (newError reasonCreateOutcomeUnknown true false).
Definition rejection (reason : string) : error := osErr (newError reason false true).

Definition provider (a : OpenStackAgent) : program (result osClient) :=
  let! secret := call (Get apiReader KSecret (oaNamespace a)
                         (lor_Name (op_CredentialsSecretRef (os_OpenStack (oaConfiguration a))))) in
  match secret with
  | Err _ => Return (Err (rejection "CredentialsUnavailable"))
  | Ok secret => call (OpenStack (OSFactory (os_OpenStack (oaConfiguration a)) secret))
  end.

(** Whether the AgentMachine of the worker exists, and whether it is being deleted. *)
Definition demandPresent (a : OpenStackAgent) : program (result (bool * bool)) :=
  let ref := oas_AgentMachineRef (oa_Spec a) in
  if (or_UID ref == "") || (or_Name ref == "") || (or_Namespace ref == "")
  then Return (Errorf "missing AgentMachine identity")
  else
    let! am := call (Get apiReader KAgentMachine (or_Namespace ref) (or_Name ref)) in
    match am with
    | Err e => if IsNotFound e then Return (Ok (false, false)) else Return (Err e)
    | Ok am => if om_UID (un_Meta am) != or_UID ref then Return (Ok (false, false))
               else Return (Ok (true, isDeleting (un_Meta am)))
    end.

(** ** Resources *)
Definition resourceName (a : OpenStackAgent) (k : Kind) : string :=
  "agent-forge-" +:+ oaUID a +:+ "-" +:+ k.

(** The field of the status that records a resource of a kind: what the calls of
    ensureResource and deleteResource pass for the kind. *)
Definition resourceID (k : Kind) (s : OpenStackAgentStatus) : string :=
  if k == Port then st_PortID s
  else if k == OSVolume then st_OSVolumeID s
  else if k == DiscoveryVolume then st_DiscoveryVolumeID s
  else if k == Server then st_ServerID s
  else "".
Definition setResourceID (k : Kind) (id : string) (s : OpenStackAgentStatus) : OpenStackAgentStatus :=
  if k == Port then s <| st_PortID := id |>
  else if k == OSVolume then s <| st_OSVolumeID := id |>
  else if k == DiscoveryVolume then s <| st_DiscoveryVolumeID := id |>
  else if k == Server then s <| st_ServerID := id |>
  else s.
Definition setPending (a : OpenStackAgent) (pending : string) : OpenStackAgent :=
  updStatus a ((oa_Status a) <| st_PendingCreate := pending |>).
(** [*id = found.ID; a.Status.PendingCreate = ""]. *)
Definition recordResource (a : OpenStackAgent) (k : Kind) (found : Resource) : OpenStackAgent :=
  updStatus a ((setResourceID k (rs_ID found) (oa_Status a)) <| st_PendingCreate := "" |>).

Definition isRejected (e : error) : bool :=
  match err_Class e with ClassOpenStack o => oe_Rejected o | _ => false end.

(** The request, once the intent is recorded. *)
Definition createResource (p : osClient) (a : OpenStackAgent) (k : Kind) : program (OpenStackAgent * result Resource) :=
  let! found := call (OpenStack (OSCreate p k (resourceName a k) (oaUID a) a)) in
  match found with
  | Err e => Return (if isRejected e then setPending a "" else a, Err e)
  | Ok found =>
      if rs_ID found == "" then Return (a, Err outcomeUnknown)
      else Return (recordResource a k found, Ok found)
  end.

Definition ensureResource (p : osClient) (a : OpenStackAgent) (k : Kind) : program (OpenStackAgent * result Resource) :=
  let owner := oaUID a in
  if resourceID k (oa_Status a) != "" then
    let! r := call (OpenStack (OSGet p k (resourceID k (oa_Status a)) owner)) in Return (a, r)
  else
    let! found := call (OpenStack (OSFind p k (resourceName a k) owner)) in
    match found with
    | Ok found => Return (recordResource a k found, Ok found)
    | Err e =>
        if negb (osErrorIs e ErrNotFound) then Return (a, Err e)
        else if st_PendingCreate (oa_Status a) != "" then Return (a, Err outcomeUnknown)
        else
          let* (a, _) := status apiReader (setPending a k) in
          createResource p a k
    end.

Definition resourceFailed (resource : Resource) : result unit :=
  if Contains (ToLower (rs_State resource)) "error" then Err (rejection "InfrastructureResourceFailed") else Ok tt.

(** ** Hosts *)
Definition matchingHosts (a : OpenStackAgent) : program (result (list Unstructured)) :=
  let? items := call (ListObjs apiReader KAgent (InNamespace (oaNamespace a))) in
  Return (Ok (List.filter (agentHardwareMatches a) items)).

(** The loop body of installationDisk: the identifier of an acceptable disk. *)
Definition acceptableDisk (a : OpenStackAgent) (raw : any) : option string :=
  match asMap raw with
  | None => None
  | Some disk =>
      let path := asStringOr (mapRead disk "path") in
      let serial := asStringOr (mapRead disk "serial") in
      let id := asStringOr (mapRead disk "id") in
      let drive := asStringOr (mapRead disk "driveType") in
      let eligible := NestedBool (AMap disk) ["installationEligibility"; "eligible"] in
      let volume := st_OSVolumeID (oa_Status a) in
      let serialMatches := (serial == volume) || ((20 <=? String.length serial)%nat && HasPrefix volume serial) in
      if (id != "") && (path == ot_InstallationDisk (os_Template (oaConfiguration a))) && eligible &&
         negb (EqualFold drive "CDROM") && serialMatches
      then Some id else None
  end.

Definition installationDisk (a : OpenStackAgent) (host : Unstructured) : result string :=
  match omap (acceptableDisk a) (default [] (NestedSlice (un_Object host) ["status"; "inventory"; "disks"])) with
  | [id] => Ok id
  | _ => Err (rejection "InstallationDiskNotVerified")
  end.

(** The conflicts a host is checked for, in the order of the source. *)
Definition hostConflict (a : OpenStackAgent) (host : Unstructured) : option string :=
  let am := oas_AgentMachineRef (oa_Spec a) in
  let claim := label host agentMachineSelectionLabel in
  let bound := label host agentMachineRefKey in
  let boundNamespace := annotation host "agentMachineRefNamespace" in
  if isDeleting (un_Meta host) || negb (agentBelongsToInfraEnv host (lor_Name (os_InfraEnvRef (oaConfiguration a))))
  then Some "AgentIdentityConflict"
  else if match st_AgentRef (oa_Status a) with Some ref => or_UID ref != om_UID (un_Meta host) | None => false end
  then Some "AgentIdentityChanged"
  else if (claim != "") && (claim != or_Name am) then Some "AgentClaimConflict"
  else if (bound != "") && ((bound != or_Name am) || ((boundNamespace != "") && (boundNamespace != or_Namespace am)))
  then Some "AgentBindingConflict"
  else None.

(** The single host of the worker, without a conflict. *)
Definition reconcileHost (a : OpenStackAgent) (host : Unstructured) : program (OpenStackAgent * result unit) :=
  let am := oas_AgentMachineRef (oa_Spec a) in
  let bound := label host agentMachineRefKey in
  let a := updStatus a ((oa_Status a) <| st_AgentRef :=
             Some (mkObjectReference (NestedString (un_Object host) ["apiVersion"]) (NestedString (un_Object host) ["kind"])
                     (GetNamespace host) (GetName host) (om_UID (un_Meta host))) |>) in
  if objectConditionStatus host "Installed" == ConditionTrue then
    Return (setPhase a (if bound == or_Name am then conditionReady else "WaitingForAgent"), Ok tt)
  else if objectConditionReason host "Installed" == "InstallationFailed" then
    Return (a, Err (rejection "AgentInstallationFailed"))
  else if bound != "" then Return (setPhase a "WaitingForInstallation", Ok tt)
  else
    match installationDisk a host with
    | Err e => Return (a, Err e)
    | Ok disk =>
        let a := setPhase a "WaitingForAgent" in
        let! r := patchDiscoveredAgent apiReader (oaNamespace a) (os_Agent (oaConfiguration a)) (GetName host) (or_Name am)
                    (Some (mkAgentPatchSafety (om_UID (un_Meta host)) (om_ResourceVersion (un_Meta host)) disk)) in
        Return (a, r)
    end.

Definition reconcileDiscoveredAgent (a : OpenStackAgent) : program (OpenStackAgent * result unit) :=
  let a := setPhase a "WaitingForDiscovery" in
  let! hosts := matchingHosts a in
  match hosts with
  | Err e => Return (a, Err e)
  | Ok [] =>
      match st_InstanceCreatedAt (oa_Status a) with
      | Some created =>
          let! t := call Now in
          if os_DiscoveryTimeoutSeconds (oaConfiguration a) * second <? t - created
          then Return (a, Err (rejection "AgentDiscoveryTimeout")) else Return (a, Ok tt)
      | None => Return (a, Ok tt)
      end
  | Ok [host] =>
      match hostConflict a host with
      | Some reason => Return (a, Err (rejection reason))
      | None => reconcileHost a host
      end
  | Ok _ => Return (a, Err (rejection "AmbiguousAgentIdentity"))
  end.

(** ** Provisioning *)

(** A resource found after a creation whose outcome was not known. *)
Definition recoverResource (a : OpenStackAgent) (kind : Kind) (found : Resource) : program OpenStackAgent :=
  let s := setResourceID kind (rs_ID found) (oa_Status a) in
  let! s := if kind == Port then Return (s <| st_MACAddress := normalizeMAC (rs_MAC found) |>)
            else if kind == Server then let! t := call Now in Return (s <| st_InstanceCreatedAt := Some t |>)
            else Return s in
  Return (updStatus a (s <| st_PendingCreate := "" |> <| st_Phase := "RecoveringResource" |>)).

Definition recoverPending (p : osClient) (a : OpenStackAgent) : program (OpenStackAgent * result unit) :=
  let kind := st_PendingCreate (oa_Status a) in
  let! found := call (OpenStack (OSFind p kind (resourceName a kind) (oaUID a))) in
  match found with
  | Err e => Return (a, Err (if osErrorIs e ErrNotFound then outcomeUnknown else e))
  | Ok found => let! a := recoverResource a kind found in Return (a, Ok tt)
  end.

Definition observeServer (p : osClient) (a : OpenStackAgent) : program (OpenStackAgent * result unit) :=
  let! server := call (OpenStack (OSGet p Server (st_ServerID (oa_Status a)) (oaUID a))) in
  match server with
  | Err e => Return (a, Err e)
  | Ok server =>
      match resourceFailed server with
      | Err e => Return (a, Err e)
      | Ok _ => if rs_State server != "ACTIVE" then Return (setPhase a "CreatingInstance", Ok tt)
                else reconcileDiscoveredAgent a
      end
  end.

Definition createInstance (p : osClient) (a : OpenStackAgent) : program (OpenStackAgent * result unit) :=
  let* (a, _) := status apiReader a in
  let* (a, server) := ensureResource p (setPhase a "CreatingInstance") Server in
  let! a := match st_InstanceCreatedAt (oa_Status a) with
            | None => let! t := call Now in Return (updStatus a ((oa_Status a) <| st_InstanceCreatedAt := Some t |>))
            | Some _ => Return a
            end in
  Return (a, resourceFailed server).

Definition createDiscoveryVolume (p : osClient) (a : OpenStackAgent) : program (OpenStackAgent * result unit) :=
  let* (a, iso) := ensureResource p (setPhase a "CreatingDiscoveryVolume") DiscoveryVolume in
  match resourceFailed iso with
  | Err e => Return (a, Err e)
  | Ok _ => if rs_State iso != "available" then Return (a, Ok tt) else createInstance p a
  end.

Definition createVolumes (p : osClient) (a : OpenStackAgent) : program (OpenStackAgent * result unit) :=
  let* (a, volume) := ensureResource p (setPhase a "CreatingOSVolume") OSVolume in
  match resourceFailed volume with
  | Err e => Return (a, Err e)
  | Ok _ =>
      if rs_State volume != "available" then Return (a, Ok tt)
      else if negb (rs_Bootable volume) then
        let! r := call (OpenStack (OSSetBootable p (rs_ID volume) (oaUID a))) in Return (a, r)
      else
        let* (a, ready) := prepareDiscoveryImage apiReader p (setPhase a "PreparingDiscoveryImage") in
        if negb ready then Return (a, Ok tt) else createDiscoveryVolume p a
  end.

Definition createNetwork (p : osClient) (a : OpenStackAgent) : program (OpenStackAgent * result unit) :=
  let* (a, port) := ensureResource p (setPhase a "CreatingNetwork") Port in
  Return (updStatus a ((oa_Status a) <| st_MACAddress := normalizeMAC (rs_MAC port) |>), Ok tt).

Definition provision (p : osClient) (a : OpenStackAgent) : program (OpenStackAgent * result unit) :=
  let s := oa_Status a in
  if st_Phase s == openStackPhaseRefreshingImage then refreshDiscoveryImage apiReader p a
  else if st_PendingCreate s != "" then recoverPending p a
  else if st_ServerID s != "" then observeServer p a
  else if (st_PortID s == "") || (st_MACAddress s == "") then createNetwork p a
  else createVolumes p a.

(** ** Cleanup *)

(** The loop body of authorizeCleanup. *)
Definition unapproveHost (a : OpenStackAgent) (host : Unstructured) : program (result unit) :=
  if agentDeletionBlocker host != "" then Return (Err (osErr (newError "AgentStillBound" true true)))
  else
    match SetNestedField (un_Object host) (ABool false) ["spec"; "approved"] with
    | Err e => Return (Err e)
    | Ok object =>
        let meta := (un_Meta host) <| om_Annotations := <[agentCleanupAnnotation := oaName a]> (om_Annotations (un_Meta host)) |> in
        let? _ := call (Patch KAgent host (mkUnstructured meta object) true) in
        Return (Ok tt)
    end.

(** The Machine of the worker is gone, or another one has its name. *)
Definition machineGone (a : OpenStackAgent) : program (result unit) :=
  match oas_MachineRef (oa_Spec a) with
  | None => Return (Ok tt)
  | Some ref =>
      let! machine := call (Get apiReader KMachine (or_Namespace ref) (or_Name ref)) in
      match machine with
      | Ok machine => if (or_UID ref == "") || (or_UID ref == om_UID (un_Meta machine))
                      then Return (Err (osErr (newError "MachineStillPresent" true true))) else Return (Ok tt)
      | Err e => if negb (IsNotFound e) then Return (Err e) else Return (Ok tt)
      end
  end.

Definition authorizeCleanup (a : OpenStackAgent) (present : bool) : program (result unit) :=
  if present then Return (Err (osErr (newError "AgentMachineStillPresent" true true)))
  else
    let? _ := machineGone a in
    let? hosts := matchingHosts a in
    forEach hosts (unapproveHost a).

Definition deleteResource (p : osClient) (a : OpenStackAgent) (k : Kind) (id : string)
    : program (OpenStackAgent * result bool) :=
  let! resource := if id == "" then call (OpenStack (OSFind p k (resourceName a k) (oaUID a)))
                   else call (OpenStack (OSGet p k id (oaUID a))) in
  match resource with
  | Err e =>
      if osErrorIs e ErrNotFound then
        if st_PendingCreate (oa_Status a) == k then Return (a, Err outcomeUnknown) else Return (a, Ok true)
      else Return (a, Err e)
  | Ok resource =>
      if rs_Attached resource then Return (a, Err (osErr (newError "ResourceStillAttachedOrBusy" true false)))
      else
        let a := if st_PendingCreate (oa_Status a) == k then setPending a "" else a in
        let! r := call (OpenStack (OSDelete p k (rs_ID resource) (oaUID a))) in
        match r with Err e => Return (a, Err e) | Ok _ => Return (a, Ok false) end
  end.

(** The loop body that deletes the Agents of a worker without resources. *)
Definition deleteHost (host : Unstructured) : program (result unit) :=
  if agentDeletionBlocker host != "" then Return (Err (osErr (newError "AgentStillBound" true false)))
  else
    let! r := call (Delete KAgent host
                      (Some (mkPreconditions (om_UID (un_Meta host)) (om_ResourceVersion (un_Meta host))))) in
    match r with
    | Err e => if negb (IsNotFound e) then Return (Err e) else Return (Ok tt)
    | Ok _ => Return (Ok tt)
    end.

Definition dropFinalizer (a : OpenStackAgent) : program (OpenStackAgent * result unit) :=
  let a := a <| oa_Meta := RemoveFinalizer (oa_Meta a) openStackFinalizer |> in
  let! r := call (Update KOpenStackAgent a) in
  match r with Ok stored => Return (stored, Ok tt) | Err e => Return (a, Err e) end.

(** From the release of the image on. *)
Definition finishCleanup (p : osClient) (a : OpenStackAgent) : program (OpenStackAgent * result unit) :=
  let! released := releaseDiscoveryImage apiReader p a in
  match released with
  | Err e => Return (a, Err e)
  | Ok false => Return (a, Ok tt)
  | Ok true =>
      let! deleted := (let? hosts := matchingHosts a in forEach hosts deleteHost) in
      match deleted with Err e => Return (a, Err e) | Ok _ => dropFinalizer a end
  end.

(** The resources in the order of their deletion, with their recorded identifiers. *)
Definition cleanupOrder (a : OpenStackAgent) : list Kind :=
  [Server; DiscoveryVolume] ++
  (if ot_OSVolumePolicy (os_Template (oaConfiguration a)) != CleanupPolicyRetain then [OSVolume] else []) ++
  [Port].

(** [done, err := deleteResource(...); if err != nil || !done { return err }] for
    one kind after the other. *)
Fixpoint deleteResources (p : osClient) (a : OpenStackAgent) (kinds : list Kind) : program (OpenStackAgent * result unit) :=
  match kinds with
  | [] => finishCleanup p a
  | k :: rest =>
      let* (a, done) := deleteResource p a k (resourceID k (oa_Status a)) in
      if done then deleteResources p a rest else Return (a, Ok tt)
  end.

Definition cleanup (p : osClient) (a : OpenStackAgent) (present : bool) : program (OpenStackAgent * result unit) :=
  let a := setPhase a openStackPhaseDeleting in
  if os_CleanupPolicy (oaConfiguration a) == CleanupPolicyRetain then dropFinalizer a
  else
    let! authorized := authorizeCleanup a present in
    match authorized with
    | Err e => Return (a, Err e)
    | Ok _ => deleteResources p a (cleanupOrder a)
    end.

(** ** Reconcile *)
Definition readyCondition (a : OpenStackAgent) (status reason message : string) : OpenStackAgent :=
  updStatus a ((oa_Status a) <| st_Conditions := SetStatusCondition (st_Conditions (oa_Status a))
    (mkCondition conditionReady status (om_Generation (oa_Meta a)) 0 reason message) |>).

(** A failed step: only a sanitised error is recorded. *)
Definition reconcileFailed (a : OpenStackAgent) (err : error) : program (result Duration) :=
  let safe := match err_Class err with ClassOpenStack o => o | _ => newError "ReconcileFailed" true false end in
  let a := readyCondition a ConditionFalse (oe_Reason safe) (errorMessage safe) in
  let a := if negb (oe_Retryable safe) && (st_Phase (oa_Status a) != openStackPhaseRefreshingImage)
           then setPhase a "Failed" else a in
  let! written := status apiReader a in
  match written.2 with
  | Err e => Return (Err e)
  | Ok _ => if oe_Retryable safe then Return (Err (osErr safe)) else Return (Ok minute)
  end.

Definition reconcileDone (a : OpenStackAgent) : program (result Duration) :=
  if negb (ContainsFinalizer (oa_Meta a) openStackFinalizer) then Return (Ok 0)
  else
    let phase := st_Phase (oa_Status a) in
    let! written := status apiReader (readyCondition a (conditionStatus (phase == conditionReady)) phase phase) in
    match written.2 with Err e => Return (Err e) | Ok _ => Return (Ok (15 * second)) end.

(** One step with the client of the worker. *)
Definition reconcileWith (p : osClient) (a : OpenStackAgent) (present : bool) : program (result Duration) :=
  if st_ScopeHash (oa_Status a) == "" then
    let! written := status apiReader (updStatus a ((oa_Status a) <| st_ScopeHash := oc_Scope p |>)) in
    match written.2 with Err e => Return (Err e) | Ok _ => Return (Ok second) end
  else
    let! stepped := if st_ScopeHash (oa_Status a) != oc_Scope p
                    then Return (a, Err (rejection "CloudScopeChanged"))
                    else if isDeleting (oa_Meta a) then cleanup p a present else provision p a in
    match stepped with
    | (a, Err e) => reconcileFailed a e
    | (a, Ok _) => reconcileDone a
    end.

(** From the observation of the demand on. *)
Definition reconcileDemand (a : OpenStackAgent) (present deleting : bool) : program (result Duration) :=
  let live := negb (isDeleting (oa_Meta a)) in
  if live && negb present then let? _ := call (Delete KOpenStackAgent a None) in Return (Ok 0)
  else if live && deleting then Return (Ok (30 * second))
  else if negb live && (os_CleanupPolicy (oaConfiguration a) == CleanupPolicyRetain) then
    let! dropped := dropFinalizer a in
    match dropped.2 with Err e => Return (Err e) | Ok _ => Return (Ok 0) end
  else
    let! p := provider a in
    match p with
    | Err e => reconcileFailed a e
    | Ok p => reconcileWith p a present
    end.

Definition Reconcile (ns name : string) : program (result Duration) :=
  let! got := call (Get apiReader KOpenStackAgent ns name) in
  match got with
  | Err e => if IsNotFound e then Return (Ok 0) else Return (Err e)
  | Ok a =>
      let a := a <| oa_Spec := (oa_Spec a) <| oas_Configuration := openStackDefaults (oaConfiguration a) |> |> in
      let '(added, meta) := AddFinalizer (oa_Meta a) openStackFinalizer in
      if negb (isDeleting (oa_Meta a)) && added then
        let? _ := call (Update KOpenStackAgent (a <| oa_Meta := meta |>)) in Return (Ok 0)
      else if negb (ContainsFinalizer (oa_Meta a) openStackFinalizer) then Return (Ok 0)
      else
        let? (present, deleting) := demandPresent a in
        reconcileDemand a present deleting
  end.

End controller.

(** ** Binding *)
Section binding.
Context `{KubeLib} `{!KubeLaws}.
Context (apiReader : reader).

(** A disk that was accepted: on the configured path, eligible, not a CD-ROM, and
    its serial number is (a prefix of at least 20 characters of) the OS volume. *)
Definition verifiedDisk (a : OpenStackAgent) (disk : list (string * any)) (id : string) : Prop :=
  id ≠ "" ∧ mapRead disk "id" = Some (AString id) ∧
  asStringOr (mapRead disk "path") = ot_InstallationDisk (os_Template (oaConfiguration a)) ∧
  NestedBool (AMap disk) ["installationEligibility"; "eligible"] = true ∧
  EqualFold (asStringOr (mapRead disk "driveType")) "CDROM" = false ∧
  let serial := asStringOr (mapRead disk "serial") in
  (serial = st_OSVolumeID (oa_Status a) ∨
   ((20 <= String.length serial)%nat ∧ HasPrefix (st_OSVolumeID (oa_Status a)) serial = true)).

Lemma acceptableDisk_verified a raw id :
  acceptableDisk a raw = Some id → ∃ disk, raw = AMap disk ∧ verifiedDisk a disk id.
Proof.
  unfold acceptableDisk. destruct (asMap raw) as [disk|] eqn:Er; [|done]. cbv zeta.
  destruct (_ && _) eqn:Ec; [|done]. intros [= <-]. rewrite !andb_true_iff in Ec.
  destruct Ec as [[[[Hid Hp] He] Hd] Hs]. exists disk. split; [by destruct raw; simplify_eq/=|].
  unfold verifiedDisk. gobool; (split_and!; try done).
  all: try (unfold asStringOr in *; destruct (mapRead disk "id") as [[]|]; congruence).
  - by left.
  - right. split; [|done]. by apply Nat.leb_le.
Qed.

Lemma verifiedDisk_acceptable a disk id : verifiedDisk a disk id → acceptableDisk a (AMap disk) = Some id.
Proof.
  intros (Hid & Hread & Hp & He & Hd & Hs). unfold acceptableDisk. cbn [asMap]. cbv zeta. rewrite He, Hd, Hread. cbn [asStringOr].
  rewrite (bool_decide_eq_false_2 (id = "")) by done. rewrite (bool_decide_eq_true_2 (_ = ot_InstallationDisk _)) by done.
  cbn [negb andb]. destruct Hs as [Hs|[Hl Hs]].
  - by rewrite (bool_decide_eq_true_2 (asStringOr (mapRead disk "serial") = _)).
  - by rewrite Hs, (proj2 (Nat.leb_le 20 _) Hl), orb_true_r.
Qed.

Lemma omap_singleton {A B} (f : A → option B) l y :
  omap f l = [y] → ∃ pre x post, l = pre ++ x :: post ∧ f x = Some y ∧ ∀ z, In z (pre ++ post) → f z = None.
Proof.
  assert (∀ l, omap f l = [] → ∀ z, In z l → f z = None) as Hnone.
  { induction l0 as [|x l0 IH]; [done|]. cbn. destruct (f x) eqn:Ex; [done|]. intros Ho z [->|Hz]; [done|by apply IH]. }
  induction l as [|x l IH]; [done|]. cbn. destruct (f x) as [y'|] eqn:Ex.
  - intros [= -> Ho]. exists [], x, l. split; [done|]. split; [done|]. by apply Hnone.
  - intros Ho. destruct (IH Ho) as (pre & x' & post & -> & Hf & Hz). exists (x :: pre), x', post.
    split; [done|]. split; [done|]. intros z [->|Hin]; [done|by apply Hz].
Qed.

(** Exactly one disk of the inventory can be verified. *)
Definition onlyVerifiedDisk (a : OpenStackAgent) (disks : list any) (id : string) : Prop :=
  ∃ pre disk post, disks = pre ++ AMap disk :: post ∧ verifiedDisk a disk id ∧
    ∀ other id', In (AMap other) (pre ++ post) → ¬ verifiedDisk a other id'.

Lemma installationDisk_unique a host id :
  installationDisk a host = Ok id →
  ∃ disks, NestedSlice (un_Object host) ["status"; "inventory"; "disks"] = Some disks ∧ onlyVerifiedDisk a disks id.
Proof.
  unfold installationDisk. destruct (NestedSlice _ _) as [disks|]; simpl; [|done].
  destruct (omap (acceptableDisk a) disks) as [|x [|]] eqn:Eo; try done. intros [= <-]. exists disks. split; [done|].
  apply omap_singleton in Eo as (pre & raw & post & -> & Hf & Hz).
  destruct (acceptableDisk_verified _ _ _ Hf) as (disk & -> & Hv). exists pre, disk, post. split; [done|]. split; [done|].
  intros other id' Hin Hov. apply Hz in Hin. apply verifiedDisk_acceptable in Hov. congruence.
Qed.

(** What a patch of an Agent by the controller needs. *)
Definition bindsVerified (a : OpenStackAgent) : precondition callE := λ X h e,
  match e with
  | Patch KAgent b o lock => ∃ items host disk,
      In (Event (ListObjs apiReader KAgent (InNamespace (oaNamespace a))) (Ok items)) h ∧
      List.filter (agentHardwareMatches a) items = [host] ∧ hostConflict a host = None ∧
      installationDisk a host = Ok disk ∧ lock = true ∧
      om_UID (un_Meta b) = om_UID (un_Meta host) ∧ om_ResourceVersion (un_Meta b) = om_ResourceVersion (un_Meta host) ∧
      ∃ err, boundObject (os_Agent (oaConfiguration a)) (or_Name (oas_AgentMachineRef (oa_Spec a)))
               (Some (mkAgentPatchSafety (om_UID (un_Meta host)) (om_ResourceVersion (un_Meta host)) disk))
               err (un_Object b) = Ok (un_Object o)
  | _ => True
  end.

Lemma reconcileDiscoveredAgent_safe a :
  safe anyAnswer (bindsVerified a) [] (reconcileDiscoveredAgent apiReader a) (λ _ _, True).
Proof.
  unfold reconcileDiscoveredAgent. cbv zeta. set (a1 := setPhase a _). apply safe_bind. unfold matchingHosts.
  apply safe_bindOk. split; [done|]. intros [items|e] _; cbn [safe]; [|done].
  destruct (List.filter (agentHardwareMatches a1) items) as [|host [|]] eqn:Ef; [|  |done].
  { destruct (st_InstanceCreatedAt _); [|done]. apply safe_bind. split; [done|]. intros now' _. cbn [safe]. by destruct (_ <? _). }
  destruct (hostConflict a1 host) eqn:Ec; [done|]. unfold reconcileHost. cbv zeta.
  destruct (_ == ConditionTrue); [done|]. destruct (_ == "InstallationFailed"); [done|].
  destruct (_ != ""); [done|]. set (a2 := updStatus a1 _).
  destruct (installationDisk a2 host) as [disk|e] eqn:Ed; [|done]. apply safe_bind.
  set (h := [_]). assert (In (Event (ListObjs apiReader KAgent (InNamespace (oaNamespace a))) (Ok items)) h) as Hin by (by left).
  clearbody h. eapply safe_mono; [apply safe_extends; eapply safe_ok_mono_ext; [apply patchDiscoveredAgent_safe|]|by intros ? ? _].
  intros X new e He. destruct e; try done. destruct k; try done.
  destruct He as (err & object & _ & Hl & _ & _ & Hcheck & Hb & ->).
  destruct (Hcheck _ eq_refl) as [Hu Hv]. exists items, host, disk.
  split; [apply in_app_iff; by right|]. split; [exact Ef|]. split; [exact Ec|]. split; [exact Ed|].
  split; [done|]. split; [exact Hu|]. split; [exact Hv|]. exists err. exact Hb.
Qed.

(** C19: a worker binds an Agent only if it is the single host with the hardware of its
    server, has no conflicting deletion, InfraEnv, identity, claim or binding, and has
    exactly one installation disk in its inventory that is eligible, on the configured path, no
    CD-ROM and, by its serial number, the OS volume of the worker; the patch is for the version of the host that was checked, and selects
    that disk. *)
Theorem openstack_binds_verified (a : OpenStackAgent) (h : hist) (before after : Unstructured) (lock : bool)
    (k : result Unstructured → program (OpenStackAgent * result unit))
    (Hreach : reach anyAnswer [] (reconcileDiscoveredAgent apiReader a) h (Call (Patch KAgent before after lock) k)) :
  lock = true ∧ ∃ items host disks id,
    In (Event (ListObjs apiReader KAgent (InNamespace (oaNamespace a))) (Ok items)) h ∧
    List.filter (agentHardwareMatches a) items = [host] ∧ hostConflict a host = None ∧
    NestedSlice (un_Object host) ["status"; "inventory"; "disks"] = Some disks ∧
    onlyVerifiedDisk a disks id ∧
    om_UID (un_Meta before) = om_UID (un_Meta host) ∧
    om_ResourceVersion (un_Meta before) = om_ResourceVersion (un_Meta host) ∧
    NestedString (un_Object after) ["spec"; "installation_disk_id"] = id.
Proof.
  apply (safe_reach _ _ _ _ _ _ _ (reconcileDiscoveredAgent_safe a)) in Hreach.
  destruct Hreach as (items & host & id & Hi & Hf & Hc & Hd & -> & Hu & Hv & err & Hb). split; [done|].
  apply installationDisk_unique in Hd as (disks & Hs & Hver).
  exists items, host, disks, id. split_and!; try done. by apply boundObject_disk in Hb.
Qed.
End binding.
