(* ===== verification/OpenStackCreate.v ===== *)
(** * Resources are created at most once

    The creation protocol of the OpenStackAgent controller over the whole life of a
    worker: a sequence of reconciliations, each of which may be cut anywhere (a
    crash or a restart), against a store that keeps the status written last.  The
    intent to create is durable before the request is sent, and once a request
    may have been carried out, no later reconciliation sends it again. *)
From S2P Require Import Prelude OpenStackErrors Api Identity Planner OwnedVMs VsphereObjects Sha256 Effects K8s Objects.
From S2P Require Import VMProvider IsoCache InfraEnv AgentMachine PoolController Govc OpenStackImages OpenStackAgent.

(** ** The store

    What the API server holds of the worker: its status and whether it is being
    deleted.  Reads of the worker answer what is stored; a deletion is final; a
    status update that succeeds stores the status sent, one that fails may or may
    not have stored it.  Nobody else writes the status. *)
Record store := mkStore { so_Status : OpenStackAgentStatus; so_Deleting : bool }.

Definition workerRead (r : result OpenStackAgent) (s s' : store) : Prop :=
  match r with
  | Ok o => so_Status s = oa_Status o ∧ (so_Deleting s = true → isDeleting (oa_Meta o) = true) ∧
            s' = mkStore (oa_Status o) (isDeleting (oa_Meta o))
  | Err _ => s' = s
  end.

Definition workerWritten (sent : OpenStackAgent) (r : result OpenStackAgent) (s s' : store) : Prop :=
  match r with
  | Ok o => oa_Status o = oa_Status sent ∧ sameObject (oa_Meta sent) (oa_Meta o) ∧
            s' = mkStore (oa_Status sent) (so_Deleting s)
  | Err _ => s' = s ∨ s' = mkStore (oa_Status sent) (so_Deleting s)
  end.

Definition storeStep {X} (e : callE X) : X → store → store → Prop :=
  match e in callE X return X → store → store → Prop with
  | Get _ k _ _ =>
      match k return result (obj k) → store → store → Prop with
      | KOpenStackAgent => workerRead
      | _ => λ _ s s', s' = s
      end
  | StatusUpdate k sent =>
      match k return obj k → result (obj k) → store → store → Prop with
      | KOpenStackAgent => workerWritten
      | _ => λ _ _ s s', s' = s
      end sent
  | _ => λ _ s s', s' = s
  end.

(** What may be stored after a history. *)
Fixpoint stored (s0 : store) (h : hist) (s' : store) : Prop :=
  match h with
  | [] => s' = s0
  | Event e x :: h => ∃ s, stored s0 h s ∧ storeStep e x s s'
  end.

(** Resources that OpenStack reports or creates have an identifier, except that
    the answer of a creation may be empty. *)
Definition identified {X} (e : osClientE X) : X → Prop :=
  match e in osClientE X return X → Prop with
  | OSFind _ _ _ _ => λ r, match r with Ok found => rs_ID found ≠ "" | Err _ => True end
  | _ => λ _, True
  end.

Definition answersIdentified {X} (e : callE X) : X → Prop :=
  match e in callE X return X → Prop with OpenStack e => identified e | _ => λ _, True end.

(** The answers of such a world. *)
Definition world (s0 : store) : answers callE := λ X h e x,
  (∃ s', stored s0 (Event e x :: h) s') ∧ answersIdentified e x.

(** ** Requests *)
Definition resourceKinds : list Kind := [Port; OSVolume; DiscoveryVolume; Server].

(** The request to create a resource of a kind. *)
Definition requests (k : Kind) {X} (e : callE X) : bool :=
  match e with OpenStack (OSCreate _ k' _ _ _) => k' == k | _ => false end.

(** A request whose answer does not say that nothing was created. *)
Definition mayHaveCreated (k : Kind) (ev : event callE) : Prop :=
  match ev with
  | @Event _ X e x =>
      match e in callE X return X → Prop with
      | OpenStack e =>
          match e in osClientE X return X → Prop with
          | OSCreate _ k' _ _ _ => λ r, k' = k ∧ match r with Ok _ => True | Err e => isRejected e = false end
          | _ => λ _, False
          end
      | _ => λ _, False
      end x
  end.

(** The status remembers a resource of the kind: it is recorded or being created. *)
Definition remembers (k : Kind) (s : OpenStackAgentStatus) : Prop :=
  resourceID k s ≠ "" ∨ st_PendingCreate s = k.

(** A run of the controller that got to a point: its history and the rest. *)
Definition run : Type := hist * program (result Duration).

(** Requests of a run: answered ones and the one in flight. *)
Definition requested (k : Kind) (r : run) : Prop :=
  Exists (λ ev, match ev with Event e _ => requests k e = true end) r.1 ∨
  match r.2 with Call e _ => requests k e = true | Return _ => False end.
Definition maybeCreated (k : Kind) (r : run) : Prop :=
  Exists (mayHaveCreated k) r.1 ∨
  match r.2 with Call e _ => requests k e = true | Return _ => False end.

(** The life of a worker: runs of the controller, each cut anywhere. *)
Inductive life `{KubeLib} `{NetURL} `{HTTPDate} `{UUID} (apiReader : reader) (ns name : string)
    : store → list run → store → Prop :=
| life_start s : life apiReader ns name s [] s
| life_run s h p s' rest s'' :
    reach (world s) [] (Reconcile apiReader ns name) h p → stored s h s' →
    life apiReader ns name s' rest s'' → life apiReader ns name s ((h, p) :: rest) s''.

(** ** Resources in a status *)
Definition resources (s : OpenStackAgentStatus) : list string :=
  [st_PortID s; st_OSVolumeID s; st_DiscoveryVolumeID s; st_ServerID s; st_PendingCreate s].
Definition sameResources (a a' : OpenStackAgent) : Prop := resources (oa_Status a) = resources (oa_Status a').

Lemma sameResources_refl a : sameResources a a.
Proof. done. Qed.
Lemma sameResources_trans a1 a2 a3 : sameResources a1 a2 → sameResources a2 a3 → sameResources a1 a3.
Proof. unfold sameResources. congruence. Qed.

Lemma sameResources_pending a a' : sameResources a a' → st_PendingCreate (oa_Status a') = st_PendingCreate (oa_Status a).
Proof. by intros [=]. Qed.
Lemma sameResources_id k a a' : sameResources a a' → resourceID k (oa_Status a') = resourceID k (oa_Status a).
Proof. intros [=]. unfold resourceID. by repeat case_bool_decide. Qed.
Lemma sameResources_remembers k a a' :
  sameResources a a' → remembers k (oa_Status a) → remembers k (oa_Status a').
Proof.
  intros Hs. unfold remembers. by rewrite (sameResources_pending _ _ Hs), (sameResources_id k _ _ Hs).
Qed.

Lemma resourceID_set k k' id s :
  In k' resourceKinds → resourceID k' (setResourceID k id s) = if k == k' then id else resourceID k' s.
Proof.
  intros Hk'. unfold setResourceID. repeat case_bool_decide; subst; try done;
    repeat (destruct Hk' as [<-|Hk']; [done|]); done.
Qed.

Lemma setResourceID_pending k id s : st_PendingCreate (setResourceID k id s) = st_PendingCreate s.
Proof. unfold setResourceID. by repeat case_bool_decide. Qed.

Lemma resourceKinds_nonempty k : In k resourceKinds → k ≠ "".
Proof. intros Hk. repeat (destruct Hk as [<-|Hk]); done. Qed.

Lemma recordResource_remembers a k found k' :
  In k resourceKinds → In k' resourceKinds → rs_ID found ≠ "" →
  st_PendingCreate (oa_Status a) = "" ∨ st_PendingCreate (oa_Status a) = k →
  remembers k' (oa_Status a) ∨ k' = k → remembers k' (oa_Status (recordResource a k found)).
Proof.
  intros Hk Hk' Hid Hp Hr. left.
  assert (resourceID k' (oa_Status (recordResource a k found)) =
          resourceID k' (setResourceID k (rs_ID found) (oa_Status a))) as ->.
  { unfold resourceID. by repeat case_bool_decide. }
  rewrite resourceID_set by done. case_bool_decide as Heq; [done|].
  apply resourceKinds_nonempty in Hk'. unfold remembers in Hr. intuition congruence.
Qed.

Create HintDb leaves discriminated.

(** ** What the store remembers

    [inv]: at every point of a run the store remembers every resource that it
    remembered before the run or that the run may have created.  [tracks]: so
    does the worker in memory. *)
Section create.
Context `{KubeLib} `{NetURL} `{HTTPDate} `{UUID}.
Context (apiReader : reader) (s0 : store).

Definition kept (k : Kind) (s : store) : Prop := so_Deleting s = true ∨ remembers k (so_Status s).

Definition inv (h : hist) : Prop := ∀ k s', In k resourceKinds →
  kept k s0 ∨ Exists (mayHaveCreated k) h → stored s0 h s' → kept k s'.

Definition tracks (h : hist) (a : OpenStackAgent) : Prop := ∀ k, In k resourceKinds →
  remembers k (so_Status s0) ∨ Exists (mayHaveCreated k) h → remembers k (oa_Status a).

(** A request is sent only for a resource that nothing remembers, and with a
    durable intent. *)
Definition createOk : precondition callE := λ X h e,
  inv h ∧ ∀ k, In k resourceKinds → requests k e = true →
    ¬ kept k s0 ∧ ¬ Exists (mayHaveCreated k) h ∧
    ∀ s', stored s0 h s' → st_PendingCreate (so_Status s') = k.

Record good (h : hist) (a : OpenStackAgent) : Prop := {
  good_inv : inv h;
  good_tracks : tracks h a;
  good_live : so_Deleting s0 = false }.

(** Calls that neither request a resource nor write the status. *)
Definition calmCall {X} (e : callE X) : Prop :=
  (∀ k, In k resourceKinds → requests k e = false) ∧
  match e with StatusUpdate KOpenStackAgent _ => False | _ => True end.
Definition calm : precondition callE := λ X _ e, calmCall e.

Lemma calm_not_created {X} (e : callE X) x k :
  In k resourceKinds → requests k e = false → ¬ mayHaveCreated k (Event e x).
Proof.
  intros Hk He Hm. destruct e; try done. destruct e; try done. simpl in *. destruct Hm as [-> _]. by gobool.
Qed.

Lemma exists_created_cons {X} (e : callE X) x k h :
  In k resourceKinds → requests k e = false →
  Exists (mayHaveCreated k) (Event e x :: h) → Exists (mayHaveCreated k) h.
Proof. intros Hk He Hm. inversion Hm; subst; [|done]. exfalso. by eapply calm_not_created. Qed.

Lemma calm_store {X} (e : callE X) x s s' k :
  calmCall e → storeStep e x s s' → kept k s → kept k s'.
Proof.
  intros [_ Hc] Hs Hk. destruct e; simpl in Hs; try (by subst s'); destruct k0; simpl in *; try (by subst s'); try done.
  destruct x; simpl in Hs; [|by subst s']. destruct Hs as (Hst & Hd & ->). destruct Hk as [Hk|Hk]; [left; by apply Hd|].
  right. simpl. by rewrite <- Hst.
Qed.

Lemma inv_calm {X} (e : callE X) x h : calmCall e → inv h → inv (Event e x :: h).
Proof.
  intros Hc Hi k s' Hk Hpre (s & Hs & Hstep). eapply calm_store; [done|done|]. eapply Hi; [done| |done].
  destruct Hpre as [?|Hex]; [by left|right]. by eapply exists_created_cons, Hex; [|apply Hc].
Qed.

Lemma good_calm {X} (e : callE X) x h a : calmCall e → good h a → good (Event e x :: h) a.
Proof.
  intros Hc [Hi Ht Hl]. split; [by apply inv_calm| |done].
  intros k Hk [?|Hex]; apply Ht; try done; [by left|right]. by eapply exists_created_cons, Hex; [|apply Hc].
Qed.

Lemma good_resources h a a' : sameResources a a' → good h a → good h a'.
Proof.
  intros Hs [Hi Ht Hl]. split; [done| |done]. intros k Hk Hpre. eapply sameResources_remembers, Ht; done.
Qed.

Lemma createOk_calm {X} (e : callE X) h : calmCall e → inv h → createOk X h e.
Proof. intros [Hc _] Hi. split; [done|]. intros k Hk Hr. by rewrite Hc in Hr. Qed.

(** A calm program keeps what is known of a worker. *)
Lemma safe_calm {A} h a (p : program A) (Q : hist → A → Prop) :
  always calm p → good h a → (∀ h' r, good h' a → Q h' r) → safe (world s0) createOk h p Q.
Proof.
  intros Hp Hg HQ. specialize (Hp h). revert h Hp Hg.
  induction p as [r|X e k IH]; simpl; intros h Hp Hg; [by apply HQ|].
  destruct Hp as [He Hk]. split; [apply createOk_calm; [done|apply Hg]|].
  intros x _. apply IH; [by apply Hk|by apply good_calm].
Qed.

(** When the worker is being deleted nothing has to be remembered. *)
Definition gone (h : hist) : Prop := ∀ s', stored s0 h s' → so_Deleting s' = true.

Lemma gone_step {X} (e : callE X) x h : gone h → gone (Event e x :: h).
Proof.
  intros Hg s' (s & Hs & Hstep). apply Hg in Hs.
  destruct e; simpl in Hstep; try (by subst s'); destruct k; simpl in *; try (by subst s').
  - destruct x; simpl in Hstep; [|by subst s']. destruct Hstep as (_ & Hd & ->). by apply Hd.
  - destruct x; simpl in Hstep; [by destruct Hstep as (_ & _ & ->)|by destruct Hstep as [->| ->]].
Qed.

Lemma gone_inv h : gone h → inv h.
Proof. intros Hg k s' _ _ Hs. left. by apply Hg. Qed.

Definition noRequest : precondition callE := λ X _ e, ∀ k, In k resourceKinds → requests k e = false.

Lemma safe_gone {A} h (p : program A) :
  always noRequest p → gone h → safe (world s0) createOk h p (λ h' _, inv h').
Proof.
  intros Hp Hg. specialize (Hp h). revert h Hp Hg.
  induction p as [r|X e k IH]; simpl; intros h Hp Hg; [by apply gone_inv|].
  destruct Hp as [He Hk]. split.
  - split; [by apply gone_inv|]. intros k' Hk' Hr. by rewrite He in Hr.
  - intros x _. apply IH; [by apply Hk|by apply gone_step].
Qed.
(** *** Writing the status *)
Lemma inv_written h a (r : result OpenStackAgent) :
  good h a → inv (Event (StatusUpdate KOpenStackAgent a) r :: h).
Proof.
  intros [Hi Ht Hl] k s' Hk Hpre (s & Hs & Hstep).
  assert (kept k s0 ∨ Exists (mayHaveCreated k) h) as Hpre'.
  { destruct Hpre as [?|Hex]; [by left|right]. by eapply exists_created_cons, Hex. }
  assert (remembers k (oa_Status a)) as Ha.
  { apply Ht; [done|]. destruct Hpre' as [[Hd|?]|?]; [congruence|by left|by right]. }
  destruct r; simpl in Hstep; [destruct Hstep as (_ & _ & ->); by right|].
  destruct Hstep as [->| ->]; [by eapply Hi|by right].
Qed.

Lemma good_written h a b (r : result OpenStackAgent) :
  good h a → sameResources a b → good (Event (StatusUpdate KOpenStackAgent a) r :: h) b.
Proof.
  intros Hg Hs. pose proof (good_resources _ _ _ Hs Hg) as [_ Ht Hl].
  split; [by apply inv_written| |done]. intros k Hk [?|Hex]; apply Ht; try done; [by left|right].
  by eapply exists_created_cons, Hex.
Qed.

(** The status of the worker in memory is what is stored. *)
Definition durable (h : hist) (a : OpenStackAgent) : Prop :=
  ∀ s', stored s0 h s' → so_Status s' = oa_Status a.

Lemma status_good h a (Q : hist → OpenStackAgent * result unit → Prop) :
  good h a →
  (∀ h' a' r, good h' a' → sameResources a a' → (r = Ok tt → durable h' a') →
     (∀ k, In k resourceKinds → Exists (mayHaveCreated k) h' → Exists (mayHaveCreated k) h) → Q h' (a', r)) →
  safe (world s0) createOk h (status apiReader a) Q.
Proof.
  intros Hg HQ. unfold status. set (a1 := updStatus a _).
  assert (sameResources a a1) as Hs by done. pose proof (good_resources _ _ _ Hs Hg) as Hg1. clearbody a1.
  apply safe_bind. split; [apply createOk_calm; [done|apply Hg]|]. intros [current|e] _; cbn [safe].
  2: { apply HQ; [by apply good_calm|done|done|]. intros k Hk. by apply exists_created_cons. }
  assert (good (Event (Get apiReader KOpenStackAgent (oaNamespace a1) (oaName a1)) (Ok current) :: h) a1) as Hg2
    by (by apply good_calm).
  destruct (oa_Status current == oa_Status a1) eqn:E.
  - apply HQ; [done|done| |].
    + intros _ s' (s & _ & _ & _ & ->). by gobool.
    + intros k Hk. by apply exists_created_cons.
  - apply safe_bind. split; [split; [apply Hg2|by intros k]|].
    intros [o|e'] [[s' Hw] _]; cbn [safe]; apply HQ; try done.
    + destruct Hw as (s & _ & Ho & _). apply good_written; [done|]. unfold sameResources. by rewrite Ho.
    + destruct Hw as (s & _ & Ho & _). unfold sameResources. by rewrite Ho.
    + intros _ s1 (s & _ & Ho & _ & ->). done.
    + intros k Hk Hex. by eapply exists_created_cons, exists_created_cons, Hex.
    + by apply good_written.
    + intros k Hk Hex. by eapply exists_created_cons, exists_created_cons, Hex.
Qed.
(** *** Programs without requests *)
Lemma calm_call {X} (e : callE X) : calmCall e → always calm (call e).
Proof. intros He. by apply always_call. Qed.

Ltac solve_calmCall :=
  let Hin := fresh "Hin" in
  split; [intros ? Hin; simpl; first [reflexivity|repeat (destruct Hin as [<-|Hin]; [reflexivity|]); destruct Hin]|exact I].
Ltac solve_calm := solve_always; try solve_calmCall.

Lemma discoveryISOAvailable_calm r ns name : always calm (discoveryISOAvailable r ns name).
Proof. unfold discoveryISOAvailable. solve_calm. Qed.
Lemma downloadISO_calm url path t : always calm (downloadISO url path t).
Proof. unfold downloadISO. solve_calm. Qed.
Hint Resolve discoveryISOAvailable_calm downloadISO_calm : always.
Lemma downloadDiscovery_calm a : always calm (downloadDiscovery apiReader a).
Proof. unfold downloadDiscovery. solve_calm. Qed.
Lemma acquireCache_calm a : always calm (acquireCache apiReader a).
Proof. unfold acquireCache. solve_calm. Qed.
Lemma releaseDiscoveryImage_calm p a : always calm (releaseDiscoveryImage apiReader p a).
Proof.
  unfold releaseDiscoveryImage, releaseReference, collectImage, pinnedImageGone. solve_calm.
Qed.
Lemma uploadFile_calm p a path owner : always calm (uploadFile p a path owner).
Proof. unfold uploadFile. solve_calm. Qed.
Lemma matchingHosts_calm a : always calm (matchingHosts apiReader a).
Proof. unfold matchingHosts. solve_calm. Qed.
Lemma patchDiscoveredAgent_calm r ns binding name hostname check :
  always calm (patchDiscoveredAgent r ns binding name hostname check).
Proof. unfold patchDiscoveredAgent. solve_calm. Qed.
Lemma provider_calm a : always calm (provider apiReader a).
Proof. unfold provider. solve_calm. Qed.
Lemma demandPresent_calm a : always calm (demandPresent apiReader a).
Proof. unfold demandPresent. solve_calm. Qed.
Hint Resolve downloadDiscovery_calm acquireCache_calm releaseDiscoveryImage_calm uploadFile_calm matchingHosts_calm
  patchDiscoveredAgent_calm provider_calm demandPresent_calm : always.
(** *** Steps that leave the resources alone *)
Definition leavesResources {A} (h : hist) (a : OpenStackAgent) (p : program (OpenStackAgent * result A)) : Prop :=
  ∀ Q : hist → OpenStackAgent * result A → Prop,
    (∀ h' a' r, good h' a' → sameResources a a' → Q h' (a', r)) → safe (world s0) createOk h p Q.

Lemma leaves_return {A} h a a' (r : result A) :
  good h a → sameResources a a' → leavesResources h a (Return (a', r)).
Proof. intros Hg Hs Q HQ. apply HQ; [by eapply good_resources|done]. Qed.

Lemma leaves_status h a a' : good h a → sameResources a a' → leavesResources h a (status apiReader a').
Proof.
  intros Hg Hs Q HQ. apply status_good; [by eapply good_resources|]. intros h' a'' r Hg' Hs' _ _.
  apply HQ; [done|by eapply sameResources_trans].
Qed.

Lemma leaves_from {A} h a a' (p : program (OpenStackAgent * result A)) :
  sameResources a a' → leavesResources h a' p → leavesResources h a p.
Proof. intros Hs Hp Q HQ. apply Hp. intros h' a'' r Hg Hs'. apply HQ; [done|by eapply sameResources_trans]. Qed.

(** A calm program before, and a sequence. *)
Lemma leaves_bind {A B} h a (p : program A) (f : A → program (OpenStackAgent * result B)) :
  always calm p → good h a → (∀ h' x, good h' a → leavesResources h' a (f x)) → leavesResources h a (bind p f).
Proof. intros Hp Hg Hf Q HQ. apply safe_bind. eapply safe_calm; [done|done|]. intros h' x Hg'. by apply Hf. Qed.

Lemma leaves_bindSt {A B} h a (p : program (OpenStackAgent * result A))
    (f : OpenStackAgent * A → program (OpenStackAgent * result B)) :
  leavesResources h a p → (∀ h' a' x, good h' a' → leavesResources h' a' (f (a', x))) →
  leavesResources h a (bindSt p f).
Proof.
  intros Hp Hf Q HQ. apply safe_bindSt, Hp. intros h' a' [x|e] Hg Hs; cbn; [|by apply HQ].
  apply Hf; [done|]. intros h2 a2 r Hg2 Hs2. apply HQ; [done|by eapply sameResources_trans].
Qed.

(** A deferred call after the step. *)
Lemma leaves_defer {A} h a (p : program (OpenStackAgent * result A)) (d : program unit) :
  leavesResources h a p → always calm d → leavesResources h a (let! r := p in let! _ := d in Return r).
Proof.
  intros Hp Hd Q HQ. apply safe_bind, Hp. intros h' a' r Hg Hs. apply safe_bind.
  eapply safe_calm; [done|done|]. intros h2 [] Hg2. by apply HQ.
Qed.

Ltac leaves_step :=
  lazymatch goal with
  | |- leavesResources _ _ (Return _) => apply leaves_return; [assumption|reflexivity]
  | |- leavesResources _ _ (status _ _) => apply leaves_status; [assumption|reflexivity]
  | |- leavesResources _ _ (let! r := _ in let! _ := call (RemoveFile _) in Return r) => apply leaves_defer
  | |- leavesResources _ _ (bindSt _ _) => apply leaves_bindSt; [|intros ? ? ? ?]
  | |- leavesResources _ _ (bind _ _) => apply leaves_bind; [|assumption|intros ? ? ?]
  | |- leavesResources _ _ (match ?x with _ => _ end) => destruct x
  | |- leavesResources _ _ (let _ := _ in _) => cbv zeta
  | |- leavesResources _ _ _ => solve [eauto with leaves]
  | |- always _ _ => solve [solve_calm]
  end.
Ltac solve_leaves := repeat leaves_step.

Lemma uploadDiscoverySnapshot_leaves h a p path owner :
  good h a → leavesResources h a (uploadDiscoverySnapshot apiReader p a path owner).
Proof. intros Hg. unfold uploadDiscoverySnapshot, uploadFile. solve_leaves. Qed.
Hint Resolve uploadDiscoverySnapshot_leaves : leaves.

Lemma imageReady_leaves h a p path owner image :
  good h a → leavesResources h a (imageReady apiReader p a path owner image).
Proof. intros Hg. unfold imageReady. solve_leaves. Qed.
Hint Resolve imageReady_leaves : leaves.

Lemma ensureDiscoveryImage_leaves h a p path :
  good h a → leavesResources h a (ensureDiscoveryImage apiReader p a path).
Proof. intros Hg. unfold ensureDiscoveryImage. solve_leaves. Qed.
Hint Resolve ensureDiscoveryImage_leaves : leaves.

Lemma prepareDiscoveryImage_leaves h a p :
  good h a → leavesResources h a (prepareDiscoveryImage apiReader p a).
Proof. intros Hg. unfold prepareDiscoveryImage. solve_leaves. Qed.

Lemma refreshDiscoveryImage_leaves h a p :
  good h a → leavesResources h a (refreshDiscoveryImage apiReader p a).
Proof. intros Hg. unfold refreshDiscoveryImage. solve_leaves. Qed.

Lemma reconcileHost_leaves h a host : good h a → leavesResources h a (reconcileHost apiReader a host).
Proof. intros Hg. unfold reconcileHost. solve_leaves. Qed.
Hint Resolve reconcileHost_leaves : leaves.

Lemma reconcileDiscoveredAgent_leaves h a : good h a → leavesResources h a (reconcileDiscoveredAgent apiReader a).
Proof.
  intros Hg. unfold reconcileDiscoveredAgent. set (a' := setPhase a _).
  assert (sameResources a a') as Hs by done. apply (good_resources _ _ _ Hs) in Hg.
  apply (leaves_from _ _ a'); [done|]. clearbody a'. clear Hs a. solve_leaves.
Qed.
Hint Resolve prepareDiscoveryImage_leaves refreshDiscoveryImage_leaves reconcileDiscoveredAgent_leaves : leaves.

Lemma observeServer_leaves h a p : good h a → leavesResources h a (observeServer apiReader p a).
Proof. intros Hg. unfold observeServer. solve_leaves. Qed.
Hint Resolve observeServer_leaves : leaves.
(** *** Requests *)
Lemma exists_requested k' h p k name owner b r :
  Exists (mayHaveCreated k') (Event (OpenStack (OSCreate p k name owner b)) r :: h) →
  (k = k' ∧ match r with Ok _ => True | Err e => isRejected e = false end) ∨ Exists (mayHaveCreated k') h.
Proof. intros Hex. inversion Hex; subst; [by left|by right]. Qed.

Lemma good_requested h a p k name owner b r :
  In k resourceKinds → good h a → st_PendingCreate (oa_Status a) = k → durable h a →
  good (Event (OpenStack (OSCreate p k name owner b)) r :: h) a.
Proof.
  intros Hk [Hi Ht Hl] Hp Hd. split; [|  |done].
  - intros k' s' Hk' Hpre (s & Hs & ->). destruct (decide (k' = k)) as [->|Hne].
    + right. right. by rewrite (Hd s) by done.
    + eapply Hi; [done| |done]. destruct Hpre as [?|Hex]; [by left|right].
      by apply exists_requested in Hex as [[Heq _]|?].
  - intros k' Hk' Hpre. destruct (decide (k' = k)) as [->|Hne]; [by right|]. apply Ht; [done|].
    destruct Hpre as [?|Hex]; [by left|right]. by apply exists_requested in Hex as [[Heq _]|?].
Qed.

(** After a rejection the intent is withdrawn. *)
Lemma good_withdrawn h a p k name owner b e :
  In k resourceKinds → good h a → st_PendingCreate (oa_Status a) = k → durable h a →
  ¬ kept k s0 → ¬ Exists (mayHaveCreated k) h → isRejected e = true →
  good (Event (OpenStack (OSCreate p k name owner b)) (Err e) :: h) (setPending a "").
Proof.
  intros Hk Hg Hp Hd Hno Hnot Hr. pose proof (good_requested h a p k name owner b (Err e) Hk Hg Hp Hd) as [Hi Ht Hl].
  split; [done| |done]. intros k' Hk' Hpre. destruct (decide (k' = k)) as [->|Hne].
  - exfalso. destruct Hpre as [?|Hex]; [apply Hno; by right|].
    apply exists_requested in Hex as [[_ Hf]|?]; [congruence|done].
  - destruct (Ht k' Hk' Hpre) as [Hid|Hpend]; [by left|congruence].
Qed.

Lemma good_recorded h a k found :
  In k resourceKinds → rs_ID found ≠ "" → good h a →
  st_PendingCreate (oa_Status a) = "" ∨ st_PendingCreate (oa_Status a) = k → good h (recordResource a k found).
Proof.
  intros Hk Hid [Hi Ht Hl] Hp. split; [done| |done]. intros k' Hk' Hpre.
  apply recordResource_remembers; auto.
Qed.

(** A step that may create resources leaves no intent behind when it succeeds. *)
Definition ensures {A} (h : hist) (p : program (OpenStackAgent * result A)) : Prop :=
  ∀ Q : hist → OpenStackAgent * result A → Prop,
    (∀ h' a' r, good h' a' → (isNil r = true → st_PendingCreate (oa_Status a') = "") → Q h' (a', r)) →
    safe (world s0) createOk h p Q.

Lemma createResource_ensures h a p k :
  In k resourceKinds → good h a → st_PendingCreate (oa_Status a) = k → durable h a →
  ¬ kept k s0 → ¬ Exists (mayHaveCreated k) h → ensures h (createResource p a k).
Proof.
  intros Hk Hg Hp Hd Hno Hnot Q HQ. unfold createResource. apply safe_bind. split.
  - split; [apply Hg|]. intros k' Hk' Hr. simpl in Hr. gobool. subst k'.
    split; [done|split; [done|]]. intros s' Hs'. by rewrite (Hd s').
  - intros [found|e] _; cbn [safe].
    + pose proof (good_requested h a p k (resourceName a k) (oaUID a) a (Ok found) Hk Hg Hp Hd) as Hg'.
      destruct (rs_ID found == "") eqn:E; cbn [safe]; apply HQ; try done. gobool. apply good_recorded; auto.
    + apply HQ; [|done]. destruct (isRejected e) eqn:Er; [by apply good_withdrawn|by apply good_requested].
Qed.

Lemma good_pending h a k :
  In k resourceKinds → good h a → st_PendingCreate (oa_Status a) = "" → good h (setPending a k).
Proof.
  intros Hk [Hi Ht Hl] Hp. split; [done| |done]. intros k' Hk' Hpre.
  destruct (Ht k' Hk' Hpre) as [Hid|Hpend]; [by left|].
  apply resourceKinds_nonempty in Hk'. congruence.
Qed.

Lemma ensureResource_ensures h a p k :
  In k resourceKinds → good h a → st_PendingCreate (oa_Status a) = "" → ensures h (ensureResource apiReader p a k).
Proof.
  intros Hk Hg Hp Q HQ. unfold ensureResource.
  destruct (resourceID k (oa_Status a) != "") eqn:Eid.
  { apply safe_bind. eapply safe_calm; [apply calm_call; solve_calmCall|done|]. intros h' r Hg'. by apply HQ. }
  apply safe_bind. split; [apply createOk_calm; [solve_calmCall|apply Hg]|].
  intros [found|e] [_ Hid]; cbn [safe].
  { apply HQ; [|done]. apply good_recorded; [done|done| |by left]. apply good_calm; [solve_calmCall|done]. }
  assert (good (Event (OpenStack (OSFind p k (resourceName a k) (oaUID a))) (Err e) :: h) a) as Hg1
    by (apply good_calm; [solve_calmCall|done]).
  destruct (negb (osErrorIs e ErrNotFound)); [by apply HQ|].
  destruct (st_PendingCreate (oa_Status a) != ""); [by apply HQ|].
  assert (¬ remembers k (oa_Status a)) as Hforgot.
  { intros [?|Hpk]; gobool; [done|]. apply resourceKinds_nonempty in Hk. congruence. }
  pose proof (good_tracks _ _ Hg1 k Hk) as Ht.
  apply safe_bindSt, status_good; [by apply good_pending|]. intros h' a' [[]|e'] Hg' Hs Hdur Hcr; cbn; [|by apply HQ].
  apply createResource_ensures; try done; [by rewrite (sameResources_pending _ _ Hs)|by apply Hdur| |].
  - intros [Hd|Hr]; [rewrite (good_live _ _ Hg) in Hd; done|]. apply Hforgot, Ht. by left.
  - intros Hex. apply Hforgot, Ht. right. by apply Hcr.
Qed.
(** *** Provisioning *)
Definition settles {A} (h : hist) (p : program (OpenStackAgent * result A)) : Prop :=
  ∀ Q : hist → OpenStackAgent * result A → Prop,
    (∀ h' a' r, good h' a' → Q h' (a', r)) → safe (world s0) createOk h p Q.

Lemma settles_leaves {A} h a (p : program (OpenStackAgent * result A)) : leavesResources h a p → settles h p.
Proof. intros Hp Q HQ. apply Hp. auto. Qed.

Lemma settles_return {A} h a (r : result A) : good h a → settles h (Return (a, r)).
Proof. intros Hg Q HQ. by apply HQ. Qed.

Lemma settles_ensures {A B} h (p : program (OpenStackAgent * result A)) (f : OpenStackAgent * A → program (OpenStackAgent * result B)) :
  ensures h p → (∀ h' a' x, good h' a' → st_PendingCreate (oa_Status a') = "" → settles h' (f (a', x))) →
  settles h (bindSt p f).
Proof.
  intros Hp Hf Q HQ. apply safe_bindSt, Hp. intros h' a' [x|e] Hg Hs; cbn; [|by apply HQ].
  apply Hf; [done|by apply Hs|done].
Qed.

Lemma ensures_leaves {A} h a (p : program (OpenStackAgent * result A)) :
  st_PendingCreate (oa_Status a) = "" → leavesResources h a p → ensures h p.
Proof.
  intros Hp Hl Q HQ. apply Hl. intros h' a' r Hg Hs. apply HQ; [done|]. by rewrite (sameResources_pending _ _ Hs).
Qed.

Lemma ensureResource_phase h a p phase k :
  In k resourceKinds → good h a → st_PendingCreate (oa_Status a) = "" →
  ensures h (ensureResource apiReader p (setPhase a phase) k).
Proof. intros Hk Hg Hp. by apply ensureResource_ensures; [|eapply good_resources, Hg|]. Qed.

Lemma createInstance_settles h a p :
  good h a → st_PendingCreate (oa_Status a) = "" → settles h (createInstance apiReader p a).
Proof.
  intros Hg Hp. unfold createInstance. apply settles_ensures.
  { eapply ensures_leaves, leaves_status; done. }
  intros h1 a1 _ Hg1 Hp1. apply settles_ensures; [apply ensureResource_phase; simpl; auto 10|].
  intros h2 a2 server Hg2 _ Q HQ. destruct (st_InstanceCreatedAt (oa_Status a2)); [by apply HQ|].
  split; [apply createOk_calm; [solve_calmCall|apply Hg2]|]. intros t _. apply HQ.
  eapply good_resources; [|apply good_calm; [solve_calmCall|exact Hg2]]. done.
Qed.

Lemma createDiscoveryVolume_settles h a p :
  good h a → st_PendingCreate (oa_Status a) = "" → settles h (createDiscoveryVolume apiReader p a).
Proof.
  intros Hg Hp. unfold createDiscoveryVolume. apply settles_ensures; [apply ensureResource_phase; simpl; auto 10|].
  intros h1 a1 iso Hg1 Hp1. cbv iota. destruct (resourceFailed iso); [|by apply settles_return].
  destruct (_ != _); [by apply settles_return|by apply createInstance_settles].
Qed.

Lemma createVolumes_settles h a p :
  good h a → st_PendingCreate (oa_Status a) = "" → settles h (createVolumes apiReader p a).
Proof.
  intros Hg Hp. unfold createVolumes. apply settles_ensures; [apply ensureResource_phase; simpl; auto 10|].
  intros h1 a1 volume Hg1 Hp1. cbv iota. destruct (resourceFailed volume); [|by apply settles_return].
  destruct (_ != _); [by apply settles_return|]. destruct (negb _).
  { apply (settles_leaves _ a1). solve_leaves. }
  apply settles_ensures.
  { eapply (ensures_leaves _ (setPhase a1 _)); [done|]. apply prepareDiscoveryImage_leaves. by eapply good_resources, Hg1. }
  intros h2 a2 ready Hg2 Hp2. cbv iota. destruct (negb ready); [by apply settles_return|by apply createDiscoveryVolume_settles].
Qed.

Lemma createNetwork_settles h a p :
  good h a → st_PendingCreate (oa_Status a) = "" → settles h (createNetwork apiReader p a).
Proof.
  intros Hg Hp. unfold createNetwork. apply settles_ensures; [apply ensureResource_phase; simpl; auto 10|].
  intros h1 a1 port Hg1 _. apply settles_return. by eapply good_resources, Hg1.
Qed.

(** A resource found for a pending creation. *)
Lemma recovered_remembers a kind found s' k :
  In k resourceKinds → rs_ID found ≠ "" → st_PendingCreate (oa_Status a) = kind →
  resources s' = resources ((setResourceID kind (rs_ID found) (oa_Status a)) <| st_PendingCreate := "" |>) →
  remembers k (oa_Status a) → remembers k s'.
Proof.
  intros Hk Hid Hp [= E1 E2 E3 E4 E5] Hr. left.
  assert (resourceID k s' = resourceID k (setResourceID kind (rs_ID found) (oa_Status a))) as ->.
  { unfold resourceID. by rewrite E1, E2, E3, E4. }
  rewrite resourceID_set by done. case_bool_decide; [done|]. destruct Hr as [?|?]; [done|congruence].
Qed.

Lemma good_recovered h a kind found a' :
  rs_ID found ≠ "" → st_PendingCreate (oa_Status a) = kind →
  resources (oa_Status a') = resources ((setResourceID kind (rs_ID found) (oa_Status a)) <| st_PendingCreate := "" |>) →
  good h a → good h a'.
Proof.
  intros Hid Hp Hres [Hi Ht Hl]. split; [done| |done]. intros k Hk Hpre.
  eapply recovered_remembers; eauto.
Qed.

Lemma recoverPending_settles h a p : good h a → settles h (recoverPending p a).
Proof.
  intros Hg Q HQ. unfold recoverPending. apply safe_bind.
  split; [apply createOk_calm; [solve_calmCall|apply Hg]|]. intros [found|e] [_ Hid]; cbn [safe].
  2: { apply HQ. apply good_calm; [solve_calmCall|done]. }
  match goal with |- safe _ _ (?ev :: h) _ _ =>
    assert (good (ev :: h) a) as Hg1 by (apply good_calm; [solve_calmCall|done]); revert Hg1; generalize (ev :: h)
  end.
  clear h Hg. intros h Hg.
  apply safe_bind. unfold recoverResource. apply safe_bind. destruct (_ == Port); [cbn [safe]|].
  { apply HQ. eapply good_recovered; done. }
  destruct (_ == Server); [|cbn [safe]; apply HQ; by eapply good_recovered].
  split; [apply createOk_calm; [solve_calmCall|apply Hg]|]. intros t _. cbn [safe]. apply HQ.
  apply (good_calm Now t) in Hg; [|solve_calmCall]. eapply good_recovered; done.
Qed.

Lemma provision_settles h a p : good h a → settles h (provision apiReader p a).
Proof.
  intros Hg. unfold provision. cbv zeta.
  destruct (st_Phase _ == _); [apply (settles_leaves _ a); by apply refreshDiscoveryImage_leaves|].
  destruct (st_PendingCreate (oa_Status a) != "") eqn:Ep; [by apply recoverPending_settles|].
  assert (st_PendingCreate (oa_Status a) = "") as Hp by (by gobool).
  destruct (st_ServerID _ != _); [apply (settles_leaves _ a); by apply observeServer_leaves|].
  destruct (_ || _); [by apply createNetwork_settles|by apply createVolumes_settles].
Qed.
(** *** The deletion of a worker requests nothing *)
Ltac solve_noRequest := solve_always; try (intros ? ?; reflexivity).

Lemma status_noRequest a : always noRequest (status apiReader a).
Proof. unfold status. solve_noRequest. Qed.
Hint Resolve status_noRequest : always.

Lemma calm_noRequest {A} (p : program A) : always calm p → always noRequest p.
Proof. intros Hp. eapply always_mono; [exact Hp|]. by intros X h e [He _]. Qed.

Lemma matchingHosts_noRequest a : always noRequest (matchingHosts apiReader a).
Proof. apply calm_noRequest, matchingHosts_calm. Qed.
Lemma releaseDiscoveryImage_noRequest p a : always noRequest (releaseDiscoveryImage apiReader p a).
Proof. apply calm_noRequest, releaseDiscoveryImage_calm. Qed.
Lemma provider_noRequest a : always noRequest (provider apiReader a).
Proof. apply calm_noRequest, provider_calm. Qed.
Lemma dropFinalizer_noRequest a : always noRequest (dropFinalizer a).
Proof. unfold dropFinalizer. solve_noRequest. Qed.
Hint Resolve matchingHosts_noRequest releaseDiscoveryImage_noRequest provider_noRequest dropFinalizer_noRequest : always.

Lemma deleteResource_noRequest p a k id : always noRequest (deleteResource p a k id).
Proof. unfold deleteResource. solve_noRequest. Qed.
Lemma finishCleanup_noRequest p a : always noRequest (finishCleanup apiReader p a).
Proof. unfold finishCleanup, deleteHost. solve_noRequest. Qed.
Hint Resolve deleteResource_noRequest finishCleanup_noRequest : always.

Lemma deleteResources_noRequest p a kinds : always noRequest (deleteResources apiReader p a kinds).
Proof. revert a. induction kinds as [|k kinds IH]; intros a; cbn [deleteResources]; solve_noRequest. Qed.
Hint Resolve deleteResources_noRequest : always.

Lemma cleanup_noRequest p a present : always noRequest (cleanup apiReader p a present).
Proof. unfold cleanup, authorizeCleanup, machineGone, unapproveHost. solve_noRequest. Qed.
Lemma reconcileFailed_noRequest a e : always noRequest (reconcileFailed apiReader a e).
Proof. unfold reconcileFailed. solve_noRequest. Qed.
Lemma reconcileDone_noRequest a : always noRequest (reconcileDone apiReader a).
Proof. unfold reconcileDone. solve_noRequest. Qed.
Hint Resolve cleanup_noRequest reconcileFailed_noRequest reconcileDone_noRequest : always.

Lemma reconcileDeleting_noRequest a present deleting :
  isDeleting (oa_Meta a) = true → always noRequest (reconcileDemand apiReader a present deleting).
Proof. intros Hd. unfold reconcileDemand, reconcileWith. rewrite Hd. solve_noRequest. Qed.

(** *** Reconcile *)
Lemma reconcileFailed_inv h a e :
  good h a → safe (world s0) createOk h (reconcileFailed apiReader a e) (λ h' _, inv h').
Proof.
  intros Hg. unfold reconcileFailed. cbv zeta. apply safe_bind, (leaves_status h a); [done|by destruct (_ && _)|].
  intros h' a' [[]|e'] Hg' _; cbn; [|apply Hg']. destruct (oe_Retryable _); apply Hg'.
Qed.

Lemma reconcileDone_inv h a :
  good h a → safe (world s0) createOk h (reconcileDone apiReader a) (λ h' _, inv h').
Proof.
  intros Hg. unfold reconcileDone. destruct (negb _); [apply Hg|].
  apply safe_bind, (leaves_status h a); [done|done|]. intros h' a' [[]|e'] Hg' _; apply Hg'.
Qed.

Lemma reconcileLive_inv h a present deleting :
  isDeleting (oa_Meta a) = false → good h a →
  safe (world s0) createOk h (reconcileDemand apiReader a present deleting) (λ h' _, inv h').
Proof.
  intros Hd Hg. unfold reconcileDemand, reconcileWith. rewrite Hd.
  destruct (_ && negb present). { eapply safe_calm; [solve_calm|done|]. intros h' r Hg'. apply Hg'. }
  destruct (_ && deleting); [apply Hg|]. cbn [negb andb].
  apply safe_bind. eapply safe_calm; [apply provider_calm|done|]. intros h1 [p|e] Hg1; [|by apply reconcileFailed_inv].
  destruct (st_ScopeHash (oa_Status a) == "").
  - apply safe_bind, (leaves_status h1 a); [done|done|]. intros h' a' [[]|e'] Hg' _; apply Hg'.
  - apply safe_bind. destruct (_ != _); [by apply reconcileFailed_inv|].
    apply provision_settles; [done|]. intros h' a' [[]|e'] Hg'; [by apply reconcileDone_inv|by apply reconcileFailed_inv].
Qed.

Lemma Reconcile_inv ns name :
  safe (world s0) createOk [] (Reconcile apiReader ns name) (λ h' _, inv h').
Proof.
  assert (inv []) as Hi.
  { intros k s' Hk [Hkept|Hex] Hs; [by simpl in Hs; subst|inversion Hex]. }
  unfold Reconcile. apply safe_bind. split; [apply createOk_calm; [solve_calmCall|done]|].
  intros [a|e] [[s1 Hw] _].
  2: { cbn. apply (inv_calm (Get apiReader KOpenStackAgent ns name) (Err e)) in Hi; [|solve_calmCall].
       by destruct (IsNotFound e). }
  destruct Hw as (s & -> & Hst & Hdel & ->). cbn [safe]. cbv zeta.
  set (h := [_]).
  set (a1 := a <| oa_Spec := (oa_Spec a) <| oas_Configuration := openStackDefaults (oaConfiguration a) |> |>).
  assert (oa_Status a1 = oa_Status a) as Hst1 by done. assert (oa_Meta a1 = oa_Meta a) as Hm by done.
  destruct (isDeleting (oa_Meta a)) eqn:Ed.
  - assert (gone h) as Hg by (by intros s' (s & -> & _ & _ & ->)). clearbody a1.
    destruct (AddFinalizer (oa_Meta a1) openStackFinalizer) as [added meta]. rewrite Hm, Ed. cbn [negb andb].
    apply (safe_gone h); [|done]. destruct (negb _); [apply always_return|].
    apply always_bindOk; [apply calm_noRequest, demandPresent_calm|]. intros [present deleting].
    apply reconcileDeleting_noRequest. by rewrite Hm.
  - assert (good h a1) as Hg.
    { split; [by apply inv_calm; [solve_calmCall|]| |].
      - intros k Hk [?|Hex]; [by rewrite Hst1, <- Hst|].
        apply exists_created_cons in Hex; [inversion Hex|done|done].
      - destruct (so_Deleting s0); [by specialize (Hdel eq_refl)|done]. }
    clearbody a1 h. destruct (AddFinalizer (oa_Meta a1) openStackFinalizer) as [added meta].
    destruct (_ && added). { eapply safe_calm; [solve_calm|done|]. intros h' r Hg'. apply Hg'. }
    destruct (negb _); [apply Hg|]. apply safe_bindOk. eapply safe_calm; [apply demandPresent_calm|done|].
    intros h1 [[present deleting]|e] Hg1; [|apply Hg1]. by apply reconcileLive_inv; [rewrite Hm|].
Qed.
(** *** One run *)
Lemma run_createOk ns name h p :
  reach (world s0) [] (Reconcile apiReader ns name) h p →
  inv h ∧ metAll createOk h ∧ match p with Call e _ => createOk _ h e | Return _ => True end.
Proof.
  intros Hr. pose proof (safe_reach _ _ _ _ _ _ _ (Reconcile_inv ns name) Hr) as Hp. split_and!.
  - destruct p; [done|apply Hp].
  - eapply (reach_metAll (world s0) createOk []); [done|apply Reconcile_inv|exact Hr].
  - by destruct p.
Qed.

Lemma kept_not_requested ns name h p k :
  In k resourceKinds → reach (world s0) [] (Reconcile apiReader ns name) h p → kept k s0 → ¬ requested k (h, p).
Proof.
  intros Hk (_ & Hm & Hp)%run_createOk Hkept [Hex|Hreq]; simpl in *.
  - clear Hp. induction h as [|[X e x] h IH]; inversion Hex; subst; destruct Hm as [Ho Hm].
    + by destruct (proj2 Ho k Hk) as [Hno _].
    + by apply IH.
  - destruct p; [done|]. by destruct (proj2 Hp k Hk) as [Hno _].
Qed.

Lemma run_keeps ns name h p k s' :
  In k resourceKinds → reach (world s0) [] (Reconcile apiReader ns name) h p → stored s0 h s' →
  kept k s0 ∨ maybeCreated k (h, p) → kept k s'.
Proof.
  intros Hk (Hi & _ & Hp)%run_createOk Hs [?|[?|Hreq]]; [by eapply Hi; eauto|by eapply Hi; eauto|].
  simpl in Hreq. destruct p; [done|]. right. right. by apply (proj2 Hp k).
Qed.
End create.

(** ** Properties *)
Section create_properties.
Context `{KubeLib} `{NetURL} `{HTTPDate} `{UUID}.
Context (apiReader : reader) (ns name : string).

Lemma kept_for_life k s runs s' :
  In k resourceKinds → life apiReader ns name s runs s' → kept k s → ∀ r, In r runs → ¬ requested k r.
Proof.
  intros Hk Hl. induction Hl as [s|s h p s1 rest s2 Hr Hs Hl IH]; [done|]. intros Hkept r [<-|Hin].
  - by eapply kept_not_requested.
  - apply IH; [|done]. eapply run_keeps; eauto.
Qed.

Lemma life_app s before runs s' :
  life apiReader ns name s (before ++ runs) s' →
  ∃ s1, life apiReader ns name s before s1 ∧ life apiReader ns name s1 runs s'.
Proof.
  revert s. induction before as [|r before IH]; simpl; intros s Hl; [exists s; split; [constructor|done]|].
  inversion Hl as [|? h p s1 ? ? Hr Hs Hl']; subst. apply IH in Hl' as (s2 & H1' & H2').
  exists s2. split; [by econstructor|done].
Qed.

(** C2: over the whole life of a worker, reconciled any number of times and
    interrupted anywhere, a resource of a kind is requested from OpenStack again
    only if every earlier request for it was answered with a definite rejection:
    after a request that is in flight, succeeded, or failed with an unknown outcome,
    neither the same reconciliation nor any later one sends another. *)
Theorem create_at_most_once (k : Kind) (s s' : store) (runs : list run)
    (Hk : In k resourceKinds) (Hlife : life apiReader ns name s runs s') :
  (∀ before r between r' after, runs = before ++ r :: between ++ r' :: after →
     maybeCreated k r → ¬ requested k r') ∧
  (∀ r, In r runs →
     (∀ newer X (e : callE X) x older, r.1 = newer ++ Event e x :: older → requests k e = true →
        ¬ Exists (mayHaveCreated k) older) ∧
     match r.2 with Call e _ => requests k e = true → ¬ Exists (mayHaveCreated k) r.1 | Return _ => True end).
Proof.
  split.
  - intros before r between r' after -> Hc. apply life_app in Hlife as (s1 & _ & Hl).
    inversion Hl as [|? h p s2 ? ? Hr Hs Hl']; subst.
    eapply kept_for_life; [done|exact Hl'| |apply in_app_iff; right; by left].
    eapply run_keeps; eauto.
  - intros r Hin. apply in_split in Hin as (before & after & ->).
    apply life_app in Hlife as (s1 & _ & Hl). inversion Hl as [|? h p s2 ? ? Hr Hs Hl']; subst. simpl.
    apply run_createOk in Hr as (_ & Hm & Hp). split.
    + intros newer X e x older -> Hreq. apply metAll_app in Hm as [Ho _]. by apply (proj2 Ho k).
    + destruct p; [done|]. intros Hreq. by apply (proj2 Hp k).
Qed.

(** When a request for a resource is sent, the intent is already stored: the
    worker on the API server names the kind as pending, and before the
    reconciliation it neither recorded nor was creating such a resource, and was
    not being deleted. *)
Theorem create_intent_durable (k : Kind) (s s' : store) (h : hist) (p : osClient) (rname owner : string)
    (a : OpenStackAgent) (c : result Resource → program (result Duration))
    (Hk : In k resourceKinds) (Hstored : stored s h s')
    (Hreach : reach (world s) [] (Reconcile apiReader ns name) h (Call (OpenStack (OSCreate p k rname owner a)) c)) :
  st_PendingCreate (so_Status s') = k ∧ so_Deleting s = false ∧
  resourceID k (so_Status s) = "" ∧ st_PendingCreate (so_Status s) ≠ k.
Proof.
  apply run_createOk in Hreach as (_ & _ & Hp). destruct (proj2 Hp k Hk) as (Hno & _ & Hpend); [simpl; by bdsimp|].
  unfold kept, remembers in Hno. split; [by apply Hpend|].
  destruct (so_Deleting s); [tauto|]. destruct (decide (resourceID k (so_Status s) = "")); tauto.
Qed.
End create_properties.
