(* ===== verification/OpenStackStatus.v ===== *)
(** * The status of a worker is well formed

    The status of an OpenStackAgent is the durable memory of its controller.  It is
    well formed when at most one known kind of resource is pending and nothing is
    recorded for it.  Every operation of the controller keeps this: if the objects
    that the API server answers with are well formed, so is every status written. *)
From S2P Require Import Prelude OpenStackErrors Api Identity Planner OwnedVMs VsphereObjects Sha256 Effects K8s Objects.
From S2P Require Import VMProvider IsoCache InfraEnv AgentMachine PoolController Govc OpenStackImages OpenStackAgent.
From S2P Require Import OpenStackCreate.

Definition wellFormed (s : OpenStackAgentStatus) : Prop :=
  In (st_PendingCreate s) ("" :: resourceKinds) ∧
  (st_PendingCreate s ≠ "" → resourceID (st_PendingCreate s) s = "").

Definition workerOk (r : result OpenStackAgent) : Prop :=
  match r with Ok o => wellFormed (oa_Status o) | Err _ => True end.

(** Workers that are answered are well formed. *)
Definition answersWellFormed : answers callE := λ X _ e,
  match e in callE X return X → Prop with
  | Get _ k _ _ => match k return result (obj k) → Prop with KOpenStackAgent => workerOk | _ => λ _, True end
  | Update k _ => match k return result (obj k) → Prop with KOpenStackAgent => workerOk | _ => λ _, True end
  | StatusUpdate k _ => match k return result (obj k) → Prop with KOpenStackAgent => workerOk | _ => λ _, True end
  | _ => λ _, True
  end.

Definition writesWellFormed : precondition callE := λ X _ e,
  match e with StatusUpdate KOpenStackAgent o => wellFormed (oa_Status o) | _ => True end.

Section wellformed.
Context `{KubeLib} `{!KubeLaws} `{NetURL} `{HTTPDate} `{UUID}.
Context (apiReader : reader).

Abbreviation safely := (safe answersWellFormed writesWellFormed).

(** A program that hands a worker on. *)
Definition keeps {A} (p : program (OpenStackAgent * result A)) : Prop :=
  ∀ h, safely h p (λ _ r, wellFormed (oa_Status r.1)).
Definition plainly {A} (p : program A) : Prop := ∀ h, safely h p (λ _ _, True).

Create HintDb keeps discriminated.

Lemma keeps_return {A} a (r : result A) : wellFormed (oa_Status a) → keeps (Return (a, r)).
Proof. by intros ? h. Qed.
Lemma keeps_bind {A B} (p : program A) (f : A → program (OpenStackAgent * result B)) :
  plainly p → (∀ x, keeps (f x)) → keeps (bind p f).
Proof. intros Hp Hf h. apply safe_bind. eapply safe_mono; [apply Hp|]. intros h' x _. apply Hf. Qed.
Lemma keeps_bindSt {A B} (p : program (OpenStackAgent * result A)) (f : OpenStackAgent * A → program (OpenStackAgent * result B)) :
  keeps p → (∀ a x, wellFormed (oa_Status a) → keeps (f (a, x))) → keeps (bindSt p f).
Proof.
  intros Hp Hf h. apply safe_bindSt. eapply safe_mono; [apply Hp|]. intros h' [a [x|e]] Ha; [by apply Hf|done].
Qed.
Lemma keeps_bindW {A B} (p : program (OpenStackAgent * result A)) (f : OpenStackAgent * result A → program (OpenStackAgent * result B)) :
  keeps p → (∀ a r, wellFormed (oa_Status a) → keeps (f (a, r))) → keeps (bind p f).
Proof. intros Hp Hf h. apply safe_bind. eapply safe_mono; [apply Hp|]. intros h' [a r] Ha. by apply Hf. Qed.
(** The worker is not handed on. *)
Lemma keeps_after {A B} (p : program (OpenStackAgent * result A)) (f : OpenStackAgent * result A → program B) :
  keeps p → (∀ a r, wellFormed (oa_Status a) → plainly (f (a, r))) → plainly (bind p f).
Proof. intros Hp Hf h. apply safe_bind. eapply safe_mono; [apply Hp|]. intros h' [a r] Ha. by apply Hf. Qed.
Lemma plainly_always {A} (p : program A) : always writesWellFormed p → plainly p.
Proof. intros Hp h. eapply safe_rely_mono; [apply Hp|done]. Qed.

Lemma wellFormed_same a a' : sameResources a a' → wellFormed (oa_Status a) → wellFormed (oa_Status a').
Proof.
  intros Hs [Hin Hp]. unfold wellFormed. rewrite (sameResources_pending _ _ Hs), (sameResources_id _ _ _ Hs). done.
Qed.
Lemma wellFormed_settled a : wellFormed (oa_Status (setPending a "")).
Proof. split; [by left|done]. Qed.
Lemma wellFormed_recorded a k found : wellFormed (oa_Status (recordResource a k found)).
Proof. split; [by left|done]. Qed.
Lemma wellFormed_pending a k :
  In k resourceKinds → resourceID k (oa_Status a) = "" → wellFormed (oa_Status (setPending a k)).
Proof.
  intros Hk Hid. split; [by right|]. intros _. simpl. rewrite <- Hid. unfold resourceID. by repeat case_bool_decide.
Qed.
Hint Resolve wellFormed_settled wellFormed_recorded : keeps.
Hint Extern 2 (wellFormed (oa_Status ?a')) =>
  match goal with Hw : wellFormed (oa_Status ?a) |- _ => exact (wellFormed_same a a' eq_refl Hw) end : keeps.

Ltac keeps_step :=
  lazymatch goal with
  | |- keeps (Return _) => apply keeps_return
  | |- keeps (bindSt _ _) => apply keeps_bindSt; [|intros ? ? ?]
  | |- keeps (@bind _ (OpenStackAgent * _) _ _ _) => apply keeps_bindW; [|intros ? ? ?]
  | |- keeps (bind _ _) => apply keeps_bind; [|intros ?]
  | |- keeps (match ?x with _ => _ end) => destruct x eqn:?
  | |- keeps (let _ := _ in _) => cbv zeta
  | |- plainly _ => apply plainly_always; by solve_always
  | |- _ => by eauto with keeps
  end.
Ltac solve_keeps := repeat keeps_step.

Lemma status_keeps a : wellFormed (oa_Status a) → keeps (status apiReader a).
Proof.
  intros Ha h. unfold status. cbv zeta. apply safe_bind. split; [done|]. intros [current|e] _; cbn [safe]; [|done].
  destruct (_ == _); [done|]. apply safe_bind. split; [done|]. by intros [o|e] Ho.
Qed.
Hint Resolve status_keeps : keeps.

(** ** Programs that do not write the status of a worker *)
Lemma downloadDiscovery_writes a : always writesWellFormed (downloadDiscovery apiReader a).
Proof.
  unfold downloadDiscovery, discoveryISOAvailable, downloadISO. by solve_always.
Qed.
Lemma releaseDiscoveryImage_noStatus p a : always writesWellFormed (releaseDiscoveryImage apiReader p a).
Proof. unfold releaseDiscoveryImage, pinnedImageGone, releaseReference, collectImage. by solve_always. Qed.
Lemma matchingHosts_noStatus a : always writesWellFormed (matchingHosts apiReader a).
Proof. unfold matchingHosts. by solve_always. Qed.
Lemma patchDiscoveredAgent_noStatus r n b m hn c : always writesWellFormed (patchDiscoveredAgent r n b m hn c).
Proof. unfold patchDiscoveredAgent. by solve_always. Qed.
Hint Resolve downloadDiscovery_writes releaseDiscoveryImage_noStatus matchingHosts_noStatus
  patchDiscoveredAgent_noStatus : always.

(** ** Images *)
Lemma uploadDiscoverySnapshot_keeps p a path owner :
  wellFormed (oa_Status a) → keeps (uploadDiscoverySnapshot apiReader p a path owner).
Proof. intros Ha. unfold uploadDiscoverySnapshot, uploadFile. solve_keeps. Qed.
Hint Resolve uploadDiscoverySnapshot_keeps : keeps.
Lemma acquireCache_noStatus a : always writesWellFormed (acquireCache apiReader a).
Proof. unfold acquireCache. by solve_always. Qed.
Hint Resolve acquireCache_noStatus : always.
Lemma ensureDiscoveryImage_keeps p a path :
  wellFormed (oa_Status a) → keeps (ensureDiscoveryImage apiReader p a path).
Proof. intros Ha. unfold ensureDiscoveryImage, imageReady. solve_keeps. Qed.
Hint Resolve ensureDiscoveryImage_keeps : keeps.
Lemma prepareDiscoveryImage_keeps p a : wellFormed (oa_Status a) → keeps (prepareDiscoveryImage apiReader p a).
Proof. intros Ha. unfold prepareDiscoveryImage. solve_keeps. Qed.
Lemma refreshDiscoveryImage_keeps p a : wellFormed (oa_Status a) → keeps (refreshDiscoveryImage apiReader p a).
Proof. intros Ha. unfold refreshDiscoveryImage. solve_keeps. Qed.
Hint Resolve prepareDiscoveryImage_keeps refreshDiscoveryImage_keeps : keeps.

(** ** Resources *)
Lemma ensureResource_keeps p a k : In k resourceKinds → wellFormed (oa_Status a) → keeps (ensureResource apiReader p a k).
Proof.
  intros Hk Ha. unfold ensureResource, createResource. cbv zeta.
  destruct (resourceID k (oa_Status a) != "") eqn:Ei; [solve_keeps|]. gobool. solve_keeps.
  - by apply status_keeps, wellFormed_pending.
  - destruct (isRejected _); auto with keeps.
Qed.
Hint Extern 2 (keeps (ensureResource _ _ _ _)) => apply ensureResource_keeps; [unfold resourceKinds; simpl; tauto|] : keeps.

Lemma recoverResource_settled h a kind found :
  safely h (recoverResource a kind found) (λ _ a', wellFormed (oa_Status a')).
Proof.
  unfold recoverResource. cbv zeta. apply safe_bind. destruct (kind == Port); [|destruct (kind == Server)].
  - split; [by left|done].
  - apply safe_bind. split; [done|]. intros t _. split; [by left|done].
  - split; [by left|done].
Qed.
Lemma recoverPending_keeps p a : wellFormed (oa_Status a) → keeps (recoverPending p a).
Proof.
  intros Ha. unfold recoverPending. cbv zeta. apply keeps_bind; [solve_keeps|]. intros [found|e]; [|solve_keeps].
  intros h. apply safe_bind. eapply safe_mono; [apply recoverResource_settled|]. done.
Qed.

Lemma reconcileDiscoveredAgent_keeps a : wellFormed (oa_Status a) → keeps (reconcileDiscoveredAgent apiReader a).
Proof. intros Ha. unfold reconcileDiscoveredAgent, reconcileHost. solve_keeps. Qed.
Hint Resolve recoverPending_keeps reconcileDiscoveredAgent_keeps : keeps.

Lemma createInstance_keeps p a : wellFormed (oa_Status a) → keeps (createInstance apiReader p a).
Proof.
  intros Ha. unfold createInstance. apply keeps_bindSt; [by apply status_keeps|]. intros a1 _ Ha1.
  apply keeps_bindSt; [by auto with keeps|]. intros a2 server Ha2 h. apply safe_bind.
  destruct (st_InstanceCreatedAt _); [done|]. apply safe_bind. split; [done|]. intros t _. exact Ha2.
Qed.
Hint Resolve createInstance_keeps : keeps.
Lemma createDiscoveryVolume_keeps p a : wellFormed (oa_Status a) → keeps (createDiscoveryVolume apiReader p a).
Proof. intros Ha. unfold createDiscoveryVolume. solve_keeps. Qed.
Hint Resolve createDiscoveryVolume_keeps : keeps.
Lemma createVolumes_keeps p a : wellFormed (oa_Status a) → keeps (createVolumes apiReader p a).
Proof. intros Ha. unfold createVolumes. solve_keeps. Qed.
Lemma createNetwork_keeps p a : wellFormed (oa_Status a) → keeps (createNetwork apiReader p a).
Proof. intros Ha. unfold createNetwork. solve_keeps. Qed.
Lemma observeServer_keeps p a : wellFormed (oa_Status a) → keeps (observeServer apiReader p a).
Proof. intros Ha. unfold observeServer. solve_keeps. Qed.
Hint Resolve createVolumes_keeps createNetwork_keeps observeServer_keeps : keeps.
Lemma provision_keeps p a : wellFormed (oa_Status a) → keeps (provision apiReader p a).
Proof. intros Ha. unfold provision. solve_keeps. Qed.

(** ** Cleanup *)
Lemma deleteResource_keeps p a k id : wellFormed (oa_Status a) → keeps (deleteResource p a k id).
Proof.
  intros Ha. unfold deleteResource. apply keeps_bind; [solve_keeps|]. intros [resource|e]; [|solve_keeps].
  destruct (rs_Attached resource); [solve_keeps|]. cbv zeta. set (a1 := if st_PendingCreate (oa_Status a) == k then setPending a "" else a).
  assert (wellFormed (oa_Status a1)) as Ha1 by (unfold a1; destruct (st_PendingCreate _ == k); auto with keeps). clearbody a1. solve_keeps.
Qed.
Lemma dropFinalizer_keeps a : wellFormed (oa_Status a) → keeps (dropFinalizer a).
Proof. intros Ha h. unfold dropFinalizer. apply safe_bind. split; [done|]. by intros [o|e] Ho. Qed.
Hint Resolve deleteResource_keeps dropFinalizer_keeps : keeps.
Lemma finishCleanup_keeps p a : wellFormed (oa_Status a) → keeps (finishCleanup apiReader p a).
Proof. intros Ha. unfold finishCleanup, deleteHost. solve_keeps. Qed.
Hint Resolve finishCleanup_keeps : keeps.
Lemma deleteResources_keeps p a kinds : wellFormed (oa_Status a) → keeps (deleteResources apiReader p a kinds).
Proof.
  revert a. induction kinds as [|k kinds IH]; intros a Ha; cbn [deleteResources]; [auto with keeps|]. solve_keeps.
Qed.
Hint Resolve deleteResources_keeps : keeps.
Lemma cleanup_keeps p a present : wellFormed (oa_Status a) → keeps (cleanup apiReader p a present).
Proof. intros Ha. unfold cleanup, authorizeCleanup, machineGone, unapproveHost. solve_keeps. Qed.

(** ** Reconcile *)
Lemma reconcileFailed_writes a e : wellFormed (oa_Status a) → plainly (reconcileFailed apiReader a e).
Proof.
  intros Ha. unfold reconcileFailed. cbv zeta. apply keeps_after.
  - apply status_keeps. destruct (_ && _); auto with keeps.
  - intros a1 [u|e1] _; solve_keeps.
Qed.
Lemma reconcileDone_writes a : wellFormed (oa_Status a) → plainly (reconcileDone apiReader a).
Proof.
  intros Ha. unfold reconcileDone. destruct (negb _); [solve_keeps|]. cbv zeta. apply keeps_after; [auto with keeps|].
  intros a1 [u|e1] _; solve_keeps.
Qed.

Lemma reconcileWith_writes p a present : wellFormed (oa_Status a) → plainly (reconcileWith apiReader p a present).
Proof.
  intros Ha. unfold reconcileWith. destruct (_ == "").
  { apply keeps_after; [auto with keeps|]. intros a1 [u|e1] _; solve_keeps. }
  apply keeps_after.
  - destruct (_ != _); [solve_keeps|]. destruct (isDeleting _); [by apply cleanup_keeps|by apply provision_keeps].
  - intros a1 [u|e1] Ha1; [by apply reconcileDone_writes|by apply reconcileFailed_writes].
Qed.

Lemma reconcileDemand_writes a present deleting : wellFormed (oa_Status a) → plainly (reconcileDemand apiReader a present deleting).
Proof.
  intros Ha. unfold reconcileDemand. cbv zeta. destruct (_ && _); [solve_keeps|]. destruct (_ && _); [solve_keeps|].
  destruct (_ && _).
  { apply keeps_after; [auto with keeps|]. intros a1 [u|e1] _; solve_keeps. }
  intros h. apply safe_bind. eapply safe_mono; [|].
  { assert (plainly (provider apiReader a)) as Hp by (unfold provider; solve_keeps). apply Hp. }
  intros h' [p|e] _; [by apply reconcileWith_writes|by apply reconcileFailed_writes].
Qed.

Lemma Reconcile_writes ns name : plainly (Reconcile apiReader ns name).
Proof.
  intros h. unfold Reconcile. apply safe_bind. split; [done|]. intros [a|e] Ha; cbn [safe]; [|by destruct (IsNotFound e)].
  cbv zeta. set (b := a <| oa_Spec := _ |>). assert (wellFormed (oa_Status b)) as Hb by exact Ha. clearbody b.
  destruct (AddFinalizer _ _) as [added meta]. destruct (_ && added).
  { apply safe_bindOk. split; [done|]. by intros [o|e] _. }
  destruct (negb _); [done|]. apply safe_bindOk. eapply safe_mono.
  { assert (plainly (demandPresent apiReader b)) as Hp by (unfold demandPresent; solve_keeps). apply Hp. }
  intros h' [[present deleting]|e] _; [|done]. cbv beta iota. by apply reconcileDemand_writes.
Qed.
End wellformed.

(** ** Properties *)
Section wellformed_properties.
Context `{KubeLib} `{!KubeLaws} `{NetURL} `{HTTPDate} `{UUID}.

(** C39: every status that a reconciliation of a worker writes is well formed, if the
    workers the API server answers with are: the pending creation is empty or one of
    the four kinds of resources, and no identifier is recorded for the kind that is
    pending. *)
Theorem status_wellFormed (apiReader : reader) (ns name : string) (h : hist) (o : OpenStackAgent)
    (k : result OpenStackAgent → program (result Duration))
    (Hreach : reach answersWellFormed [] (Reconcile apiReader ns name) h (Call (StatusUpdate KOpenStackAgent o) k)) :
  wellFormed (oa_Status o).
Proof. exact (safe_reach _ _ _ _ _ _ _ (Reconcile_writes apiReader ns name []) Hreach). Qed.
End wellformed_properties.
