(* ===== verification/OpenStackCleanup.v ===== *)
(** * The cleanup of an OpenStack worker

    When the resources of a worker are deleted, in which order, and when the worker
    itself is given up: over every run of the OpenStackAgent controller. *)
From S2P Require Import Prelude OpenStackErrors Api Identity Planner OwnedVMs VsphereObjects Sha256 Effects K8s Objects.
From S2P Require Import VMProvider IsoCache InfraEnv AgentMachine PoolController Govc OpenStackImages OpenStackAgent.

Section evidence.
Context `{KubeLib} `{UUID}.
Context (apiReader : reader).

(** ** Evidence in a history *)

(** The AgentMachine of the worker is gone, or another one has its name. *)
Definition demandGone (a : OpenStackAgent) (h : hist) : Prop :=
  let ref := oas_AgentMachineRef (oa_Spec a) in
  let get := Get apiReader KAgentMachine (or_Namespace ref) (or_Name ref) in
  (∃ e, IsNotFound e = true ∧ In (Event get (Err e)) h) ∨
  (∃ am, om_UID (un_Meta am) ≠ or_UID ref ∧ In (Event get (Ok am)) h).

(** So is its Machine, if it had one. *)
Definition machineSeenGone (a : OpenStackAgent) (h : hist) : Prop :=
  ∀ ref, oas_MachineRef (oa_Spec a) = Some ref →
    let get := Get apiReader KMachine (or_Namespace ref) (or_Name ref) in
    (∃ e, IsNotFound e = true ∧ In (Event get (Err e)) h) ∨
    (∃ m, or_UID ref ≠ "" ∧ om_UID (un_Meta m) ≠ or_UID ref ∧ In (Event get (Ok m)) h).

(** The host was unbound and the patch that unapproves and marks it was accepted
    for exactly the version observed. *)
Definition hostMarked (a : OpenStackAgent) (host : Unstructured) (h : hist) : Prop :=
  agentDeletionBlocker host = "" ∧
  ∃ after stored, In (Event (Patch KAgent host after true) (Ok stored)) h ∧
    NestedBool (un_Object after) ["spec"; "approved"] = false ∧
    annotation after agentCleanupAnnotation = oaName a.

Record authorised (a : OpenStackAgent) (h : hist) : Prop := {
  au_policy : os_CleanupPolicy (oaConfiguration a) ≠ CleanupPolicyRetain;
  au_demand : demandGone a h;
  au_machine : machineSeenGone a h;
  au_hosts : ∃ items, In (Event (ListObjs apiReader KAgent (InNamespace (oaNamespace a))) (Ok items)) h ∧
    ∀ host, In host items → agentHardwareMatches a host = true → hostMarked a host h }.

(** The look-up of a resource of the worker, by its recorded identifier or by name. *)
Definition resourceLookup (p : osClient) (a : OpenStackAgent) (k : Kind) : osClientE (result Resource) :=
  if resourceID k (oa_Status a) == "" then OSFind p k (resourceName a k) (oaUID a)
  else OSGet p k (resourceID k (oa_Status a)) (oaUID a).

(** No resource of the kind exists, and none is being created. *)
Definition absent (p : osClient) (a : OpenStackAgent) (h : hist) (k : Kind) : Prop :=
  st_PendingCreate (oa_Status a) ≠ k ∧
  ∃ e, osErrorIs e ErrNotFound = true ∧ In (Event (OpenStack (resourceLookup p a k)) (Err e)) h.

(** The reference of the worker to its image is gone: it had none, the cache and
    the image are gone, or another reference keeps the image. *)
Definition imageReleased (p : osClient) (a : OpenStackAgent) (h : hist) : Prop :=
  let get := Get apiReader KConfigMap (oaNamespace a) (st_ImageCacheName (oa_Status a)) in
  st_ImageCacheName (oa_Status a) = "" ∨
  (st_ImageID (oa_Status a) = "" ∧ ∃ e, IsNotFound e = true ∧ In (Event get (Err e)) h) ∨
  (∃ id owner e, osErrorIs e ErrNotFound = true ∧ In (Event (OpenStack (OSGet p Image id owner)) (Err e)) h ∧
     (id = st_ImageID (oa_Status a) ∨ ∃ cache, In (Event get (Ok cache)) h ∧ id = imageIDForCache cache)) ∨
  (∃ cache sent stored, In (Event get (Ok cache)) h ∧ cm_Data sent = delete (oaUID a) (cm_Data cache) ∧
     In (Event (Update KConfigMap sent) (Ok stored)) h ∧ cm_Data stored ≠ ∅).

(** The worker as the reconciliation sees it: as stored, with defaults. *)
Definition observed (ns name : string) (a : OpenStackAgent) (h : hist) : Prop :=
  ∃ o, In (Event (Get apiReader KOpenStackAgent ns name) (Ok o)) h ∧
    a = o <| oa_Spec := (oa_Spec o) <| oas_Configuration := openStackDefaults (oaConfiguration o) |> |>.

(** The OS volume is deleted too. *)
Definition deletesOSVolume (a : OpenStackAgent) : Prop :=
  ot_OSVolumePolicy (os_Template (oaConfiguration a)) ≠ CleanupPolicyRetain.

(** The order of the deletions: server, discovery volume, OS volume unless it is
    retained, port.  A kind is deleted when the kinds before it are absent. *)
Definition goneBefore (p : osClient) (a : OpenStackAgent) (h : hist) (k : Kind) : Prop :=
  k = Server ∨
  (k = DiscoveryVolume ∧ absent p a h Server) ∨
  (k = OSVolume ∧ deletesOSVolume a ∧ absent p a h Server ∧ absent p a h DiscoveryVolume) ∨
  (k = Port ∧ absent p a h Server ∧ absent p a h DiscoveryVolume ∧ (deletesOSVolume a → absent p a h OSVolume)).

(** No resource that is to be deleted is left. *)
Definition nothingLeft (p : osClient) (a : OpenStackAgent) (h : hist) : Prop :=
  absent p a h Server ∧ absent p a h DiscoveryVolume ∧ (deletesOSVolume a → absent p a h OSVolume) ∧ absent p a h Port.

(** The client was made for the worker, with the Secret its configuration names. *)
Definition clientOf (a : OpenStackAgent) (p : osClient) (h : hist) : Prop :=
  ∃ secret, In (Event (Get apiReader KSecret (oaNamespace a)
                         (lor_Name (op_CredentialsSecretRef (os_OpenStack (oaConfiguration a))))) (Ok secret)) h ∧
    In (Event (OpenStack (OSFactory (os_OpenStack (oaConfiguration a)) secret)) (Ok p)) h.

(** What a deletion of a resource, and giving up the worker, need. *)
Definition deletionReady (ns name : string) (p : osClient) (k : Kind) (id owner : string) (h : hist) : Prop :=
  ∃ a resource, observed ns name a h ∧ isDeleting (oa_Meta a) = true ∧
    clientOf a p h ∧ oc_Scope p = st_ScopeHash (oa_Status a) ∧ authorised a h ∧ goneBefore p a h k ∧
    In (Event (OpenStack (resourceLookup p a k)) (Ok resource)) h ∧
    rs_Attached resource = false ∧ id = rs_ID resource ∧ owner = oaUID a.

Definition givingUp (ns name : string) (h : hist) : Prop :=
  ∃ a, observed ns name a h ∧ isDeleting (oa_Meta a) = true ∧
    (os_CleanupPolicy (oaConfiguration a) = CleanupPolicyRetain ∨
     ∃ p, clientOf a p h ∧ oc_Scope p = st_ScopeHash (oa_Status a) ∧ authorised a h ∧ nothingLeft p a h ∧
       imageReleased p a h).

Definition cleanupCall (ns name : string) : precondition callE := λ X h e,
  match e with
  | OpenStack (OSDelete p k id owner) => k ≠ Image → deletionReady ns name p k id owner h
  | OpenStack (OSFactory _ secret) => ∃ n m, In (Event (Get apiReader KSecret n m) (Ok secret)) h
  | Update KOpenStackAgent o =>
      ContainsFinalizer (oa_Meta o) openStackFinalizer = false → givingUp ns name h
  | _ => True
  end.
End evidence.

(** ** Evidence stays *)
Section evidence_grows.
Context `{KubeLib} `{UUID}.
Context (apiReader : reader).

Ltac grow := intros; naive_solver eauto using In_grows.

Lemma demandGone_grows a h h' : grows h h' → demandGone apiReader a h → demandGone apiReader a h'.
Proof. unfold demandGone. grow. Qed.
Lemma machineSeenGone_grows a h h' : grows h h' → machineSeenGone apiReader a h → machineSeenGone apiReader a h'.
Proof.
  intros Hg Hm ref Href. destruct (Hm ref Href) as [(e & ? & ?)|(m & ? & ? & ?)]; [left|right]; eauto 6 using In_grows.
Qed.
Lemma hostMarked_grows a host h h' : grows h h' → hostMarked a host h → hostMarked a host h'.
Proof. unfold hostMarked. grow. Qed.
Lemma authorised_grows a h h' : grows h h' → authorised apiReader a h → authorised apiReader a h'.
Proof.
  intros Hg [Hp Hd Hm (items & Hi & Hh)]. split; [done|by eapply demandGone_grows|by eapply machineSeenGone_grows|].
  exists items. split; [by eapply In_grows|]. intros host Hin Hmt. by eapply hostMarked_grows, Hh.
Qed.
Lemma absent_grows p a k h h' : grows h h' → absent p a h k → absent p a h' k.
Proof. unfold absent. grow. Qed.
Lemma absent_all_grows p a ks h h' : grows h h' → Forall (absent p a h) ks → Forall (absent p a h') ks.
Proof. intros Hg Ha. eapply Forall_impl; [exact Ha|]. intros k. by apply absent_grows. Qed.
Lemma observed_grows ns name a h h' : grows h h' → observed apiReader ns name a h → observed apiReader ns name a h'.
Proof. unfold observed. grow. Qed.
Lemma clientOf_grows a p h h' : grows h h' → clientOf apiReader a p h → clientOf apiReader a p h'.
Proof. unfold clientOf. grow. Qed.
Lemma imageReleased_grows p a h h' : grows h h' → imageReleased apiReader p a h → imageReleased apiReader p a h'.
Proof.
  intros Hg [?|[(? & e & ? & ?)|[(id & owner & e & ? & ? & [?|(cache & ? & ?)])|(cache & sent & stored & ? & ? & ? & ?)]]].
  - by left.
  - right; left. eauto 6 using In_grows.
  - right; right; left. exists id, owner, e. eauto 6 using In_grows.
  - right; right; left. exists id, owner, e. eauto 10 using In_grows.
  - right; right; right. exists cache, sent, stored. eauto 6 using In_grows.
Qed.
End evidence_grows.

(** ** Proofs *)
Section cleanup_proofs.
Context `{KubeLib} `{!KubeLaws} `{NetURL} `{HTTPDate} `{UUID}.
Context (apiReader : reader) (ns name : string).

Abbreviation ok := (cleanupCall apiReader ns name).
Abbreviation safely := (safe anyAnswer (cleanupCall apiReader ns name)).

(** *** Programs that delete nothing of the worker *)
Lemma cleanup_plain {X} (e : callE X) :
  match e with
  | OpenStack (OSDelete _ k _ _) => k = Image
  | OpenStack (OSFactory _ _) => False
  | Update KOpenStackAgent _ => False
  | _ => True
  end → ∀ h, ok X h e.
Proof.
  intros He h. destruct e; try done; [by destruct k|]. destruct e; try done. simpl. by intros.
Qed.

Ltac solve_plain := solve_always; try (by apply cleanup_plain).

Lemma status_plain a : always ok (status apiReader a).
Proof. unfold status. solve_plain. Qed.
Lemma discoveryISOAvailable_plain r n m : always ok (discoveryISOAvailable r n m).
Proof. unfold discoveryISOAvailable. solve_plain. Qed.
Lemma downloadISO_plain url path t : always ok (downloadISO url path t).
Proof. unfold downloadISO. solve_plain. Qed.
Hint Resolve status_plain discoveryISOAvailable_plain downloadISO_plain : always.
Lemma downloadDiscovery_plain a : always ok (downloadDiscovery apiReader a).
Proof. unfold downloadDiscovery. solve_plain. Qed.
Lemma releaseDiscoveryImage_plain p a : always ok (releaseDiscoveryImage apiReader p a).
Proof. unfold releaseDiscoveryImage, releaseReference, collectImage, pinnedImageGone. solve_plain. Qed.
Lemma matchingHosts_plain a : always ok (matchingHosts apiReader a).
Proof. unfold matchingHosts. solve_plain. Qed.
Lemma patchDiscoveredAgent_plain r n b m hn c : always ok (patchDiscoveredAgent r n b m hn c).
Proof. unfold patchDiscoveredAgent. solve_plain. Qed.
Lemma ensureResource_plain p a k : always ok (ensureResource apiReader p a k).
Proof. unfold ensureResource, createResource. solve_plain. Qed.
Hint Resolve downloadDiscovery_plain releaseDiscoveryImage_plain matchingHosts_plain patchDiscoveredAgent_plain
  ensureResource_plain : always.
Lemma prepareDiscoveryImage_plain p a : always ok (prepareDiscoveryImage apiReader p a).
Proof.
  unfold prepareDiscoveryImage, ensureDiscoveryImage, acquireCache, imageReady, uploadDiscoverySnapshot, uploadFile.
  solve_plain.
Qed.
Hint Resolve prepareDiscoveryImage_plain : always.
Lemma provision_plain p a : always ok (provision apiReader p a).
Proof.
  unfold provision, refreshDiscoveryImage, recoverPending, recoverResource, observeServer, reconcileDiscoveredAgent,
    reconcileHost, createNetwork, createVolumes, createDiscoveryVolume, createInstance. solve_plain.
Qed.
Lemma osProvider_safe h a (Q : hist → result osClient → Prop) :
  (∀ h' p, grows h h' → clientOf apiReader a p h' → Q h' (Ok p)) → (∀ h' e, grows h h' → Q h' (Err e)) →
  safely h (provider apiReader a) Q.
Proof.
  intros HQ HE. unfold provider. apply safe_bind. split; [by apply cleanup_plain|]. intros [secret|e] _; cbn [safe].
  - split; [do 2 eexists; by left|]. intros [p|e] _; cbn [safe]; [|apply HE; auto with grows].
    apply HQ; [auto with grows|]. exists secret. split; [by right; left|by left].
  - apply HE. auto with grows.
Qed.
Lemma provider_plain a : always ok (provider apiReader a).
Proof. intros h. by apply osProvider_safe. Qed.
Lemma reconcileFailed_plain a e : always ok (reconcileFailed apiReader a e).
Proof. unfold reconcileFailed. solve_plain. Qed.
Lemma reconcileDone_plain a : always ok (reconcileDone apiReader a).
Proof. unfold reconcileDone. solve_plain. Qed.
Hint Resolve provision_plain provider_plain reconcileFailed_plain reconcileDone_plain : always.
(** *** Authorisation *)
Lemma demandPresent_safe h a (Q : hist → result (bool * bool) → Prop) :
  (∀ h' r, grows h h' → (∀ deleting, r = Ok (false, deleting) → demandGone apiReader a h') → Q h' r) →
  safely h (demandPresent apiReader a) Q.
Proof.
  intros HQ. unfold demandPresent. destruct (_ || _); [by apply HQ; [auto with grows|]|].
  apply safe_bind. split; [by apply cleanup_plain|]. intros [am|e] _; cbn [safe].
  - destruct (_ != _) eqn:E; (apply HQ; [auto with grows|]); [|congruence].
    intros _ _. right. exists am. gobool. split; [done|by left].
  - destruct (IsNotFound e) eqn:E; (apply HQ; [auto with grows|]); [|congruence].
    intros _ _. left. exists e. split; [done|by left].
Qed.

Lemma machineGone_safe h a (Q : hist → result unit → Prop) :
  (∀ h', grows h h' → machineSeenGone apiReader a h' → Q h' (Ok tt)) →
  (∀ h' e, grows h h' → Q h' (Err e)) → safely h (machineGone apiReader a) Q.
Proof.
  intros HQ HE. unfold machineGone. destruct (oas_MachineRef (oa_Spec a)) as [ref|] eqn:Er.
  2: { apply HQ; [auto with grows|]. intros ref Hr. congruence. }
  apply safe_bind. split; [by apply cleanup_plain|]. intros [m|e] _; cbn [safe].
  - destruct (_ || _) eqn:E; [apply HE; auto with grows|]. apply HQ; [auto with grows|].
    intros ref' Hr. assert (ref' = ref) as -> by congruence. right. exists m. gobool. split_and!; [done|congruence|by left].
  - destruct (negb _) eqn:E; [apply HE; auto with grows|]. apply HQ; [auto with grows|].
    intros ref' Hr. assert (ref' = ref) as -> by congruence. left. exists e. gobool. split; [done|by left].
Qed.

Lemma unapproveHost_safe h a host (Q : hist → result unit → Prop) :
  (∀ h', grows h h' → hostMarked a host h' → Q h' (Ok tt)) →
  (∀ h' e, grows h h' → Q h' (Err e)) → safely h (unapproveHost a host) Q.
Proof.
  intros HQ HE. unfold unapproveHost. destruct (_ != _) eqn:Eb; [apply HE; auto with grows|].
  destruct (SetNestedField _ _ _) as [object|e] eqn:Es; [|apply HE; auto with grows].
  apply safe_bindOk. split; [by apply cleanup_plain|]. intros [stored|e] _; cbn [safe]; [|apply HE; auto with grows].
  apply HQ; [auto with grows|]. split; [by gobool|]. eexists _, stored. split; [by left|].
  split; [by apply SetNestedField_bool in Es|]. unfold annotation, mapGet. simpl. by rewrite lookup_insert_eq.
Qed.

Lemma matchingHosts_safe h a (Q : hist → result (list Unstructured) → Prop) :
  (∀ h' items, grows h h' → In (Event (ListObjs apiReader KAgent (InNamespace (oaNamespace a))) (Ok items)) h' →
     Q h' (Ok (List.filter (agentHardwareMatches a) items))) →
  (∀ h' e, grows h h' → Q h' (Err e)) → safely h (matchingHosts apiReader a) Q.
Proof.
  intros HQ HE. unfold matchingHosts. apply safe_bindOk. split; [by apply cleanup_plain|].
  intros [items|e] _; cbn [safe]; [|apply HE; auto with grows]. apply HQ; [auto with grows|by left].
Qed.

Lemma authorizeCleanup_safe h a present (Q : hist → result unit → Prop) :
  os_CleanupPolicy (oaConfiguration a) ≠ CleanupPolicyRetain →
  (present = false → demandGone apiReader a h) →
  (∀ h', grows h h' → authorised apiReader a h' → Q h' (Ok tt)) →
  (∀ h' e, grows h h' → Q h' (Err e)) → safely h (authorizeCleanup apiReader a present) Q.
Proof.
  intros Hp Hd HQ HE. unfold authorizeCleanup. destruct present; [apply HE; auto with grows|].
  apply safe_bindOk, machineGone_safe; [|done]. intros h1 Hg1 Hm.
  apply safe_bindOk, matchingHosts_safe; [|eauto with grows]. intros h2 items Hg2 Hi.
  eapply (safe_forEach _ _ _ _ _ (λ seen h', grows h2 h' ∧ ∀ host, In host seen → hostMarked a host h')).
  - split; [auto with grows|done].
  - intros pre host post h3 Heq [Hg3 Hseen]. apply unapproveHost_safe; [|eauto 6 with grows].
    intros h4 Hg4 Hmk. split; [eauto with grows|]. intros host' [Hin|[<-|[]]]%in_app_iff; [|done].
    by eapply hostMarked_grows, Hseen.
  - intros h3 [Hg3 Hall]. apply HQ; [eauto 6 with grows|]. split.
    + done.
    + eapply demandGone_grows, Hd; eauto 6 with grows.
    + eapply machineSeenGone_grows, Hm; eauto 6 with grows.
    + exists items. split; [by eapply In_grows|]. intros host Hin Hmt. apply Hall, filter_In. done.
Qed.

(** *** The image *)
Lemma releaseDiscoveryImage_safe h a p (Q : hist → result bool → Prop) :
  (∀ h' r, grows h h' → (r = Ok true → imageReleased apiReader p a h') → Q h' r) →
  safely h (releaseDiscoveryImage apiReader p a) Q.
Proof.
  intros HQ. unfold releaseDiscoveryImage. destruct (_ == "") eqn:En.
  { apply HQ; [auto with grows|]. intros _. left. by gobool. }
  apply safe_bind. split; [by apply cleanup_plain|]. intros got _. cbn [safe]. set (h1 := _ :: h).
  assert (grows h h1) as Hg1 by (unfold h1; auto with grows).
  assert (∀ present, safely h1 (pinnedImageGone p a present) Q ∨ present = Ok true) as Hpin.
  { intros present. destruct present as [[]|e'] eqn:Ep; [by right|left..].
    all: unfold pinnedImageGone; apply safe_bind; split; [by apply cleanup_plain|]; intros [img|e] _; cbn [safe];
      [by apply HQ; [eauto with grows|]|].
    all: destruct (osErrorIs e ErrNotFound) eqn:Ee; apply HQ; [eauto with grows| |eauto with grows|congruence].
    all: intros _; right; right; left; eexists _, _, e; split; [done|]; split; [by left|by left]. }
  destruct got as [cache|e]; cbv beta iota.
  - destruct (cacheLabel cache != _); [by apply HQ|].
    destruct (_ && _); [by destruct (Hpin (Err (osErr ErrOwnership)))|].
    destruct (cachePhase cache != _).
    + unfold releaseReference. cbv zeta. apply safe_bindOk. split; [by apply cleanup_plain|].
      intros [stored|e] _; cbn [safe]; apply HQ; try by eauto with grows.
      intros [= Hne]. right; right; right. eexists cache, _, stored. split; [by right; left|].
      split; [|split; [by left|by gobool]]. by destruct (decide _).
    + unfold collectImage. cbv zeta. apply safe_bind. split; [by apply cleanup_plain|].
      intros [img|e] _; cbn [safe].
      * apply safe_bindOk. split; [by apply cleanup_plain|]. intros [[]|e] _; cbn [safe]; apply HQ; try by eauto with grows.
      * destruct (osErrorIs e ErrNotFound) eqn:Ee; cbn [negb]; [|by apply HQ; [eauto with grows|]].
        apply safe_bind. split; [by apply cleanup_plain|].
        intros r _. assert (imageReleased apiReader p a (Event (OpenStack (OSGet p Image (imageIDForCache cache)
          (om_UID (cm_Meta cache)))) (Err e) :: h1)) as Hrel.
        { right; right; left. eexists _, _, e. split; [done|]. split; [by left|]. right. exists cache.
          split; [by right; left|done]. }
        assert (∀ ev r, Q (ev :: Event (OpenStack (OSGet p Image (imageIDForCache cache)
          (om_UID (cm_Meta cache)))) (Err e) :: h1) r) as HQ'.
        { intros ev r'. apply HQ; [eauto with grows|]. intros _. eapply imageReleased_grows, Hrel. eauto with grows. }
        destruct r as [[]|e']; cbn [safe]; [apply HQ'|]. destruct (negb _); apply HQ'.
  - destruct (IsNotFound e) eqn:Ee; cbn [andb]; [|by apply HQ].
    destruct (st_ImageID _ == "") eqn:Ei; [|by destruct (Hpin (Ok false))].
    apply HQ; [done|]. intros _. right; left. gobool. split; [done|]. exists e. split; [done|by left].
Qed.
(** *** The resources *)
Section resources.
Context (p : osClient) (a : OpenStackAgent) (h0 : hist).
Hypothesis Hready : ∀ h k resource, grows h0 h → authorised apiReader a h → goneBefore p a h k →
  In (Event (OpenStack (resourceLookup p a k)) (Ok resource)) h →
  rs_Attached resource = false → deletionReady apiReader ns name p k (rs_ID resource) (oaUID a) h.
Hypothesis Hgive : ∀ h, grows h0 h → authorised apiReader a h → nothingLeft p a h →
  imageReleased apiReader p a h → givingUp apiReader ns name h.

(** What was gone through of the order says what is gone. *)
Lemma cleanupOrder_goneBefore h k earlier later :
  cleanupOrder a = earlier ++ k :: later → Forall (absent p a h) earlier → goneBefore p a h k.
Proof.
  unfold cleanupOrder, goneBefore, deletesOSVolume. rewrite Forall_forall.
  destruct (_ != _) eqn:E; gobool; intros Ho Ha;
    do 5 (try (destruct earlier as [|? earlier]; simplify_eq/=)).
  all: first [by left | right; left; split; [done|] | do 2 right; left; split; [done|split; [done|]] | do 3 right; split; [done|]].
  all: split_and?; try (intros Hp; try done); apply Ha; set_solver.
Qed.

Lemma cleanupOrder_nothingLeft h : Forall (absent p a h) (cleanupOrder a) → nothingLeft p a h.
Proof.
  unfold cleanupOrder, nothingLeft, deletesOSVolume. rewrite Forall_forall. intros Ha.
  split_and!; [apply Ha; set_solver|apply Ha; set_solver| |apply Ha; set_solver].
  intros Hp. apply Ha. rewrite (bool_decide_eq_false_2 _ Hp). set_solver.
Qed.

Lemma deleteResource_safe h k earlier later (Q : hist → OpenStackAgent * result bool → Prop) :
  grows h0 h → authorised apiReader a h → cleanupOrder a = earlier ++ k :: later → Forall (absent p a h) earlier →
  (∀ h', grows h h' → absent p a h' k → Q h' (a, Ok true)) →
  (∀ h' a', Q h' (a', Ok false)) → (∀ h' a' e, Q h' (a', Err e)) →
  safely h (deleteResource p a k (resourceID k (oa_Status a))) Q.
Proof.
  intros Hg Hau Hbef Habs HQ HF HE. unfold deleteResource.
  assert ((if resourceID k (oa_Status a) == "" then call (OpenStack (OSFind p k (resourceName a k) (oaUID a)))
           else call (OpenStack (OSGet p k (resourceID k (oa_Status a)) (oaUID a)))) =
          (call (OpenStack (resourceLookup p a k)) : program (result Resource))) as ->.
  { unfold resourceLookup. by destruct (_ == ""). }
  apply safe_bind. split; [apply cleanup_plain; unfold resourceLookup; by destruct (_ == "")|].
  intros [resource|e] _; cbn [safe].
  - destruct (rs_Attached resource) eqn:Ea; [apply HE|]. cbv zeta. 
    set (a1 := if st_PendingCreate (oa_Status a) == k then setPending a "" else a).
    assert (oaUID a1 = oaUID a) as -> by (unfold a1; by destruct (_ == _)). clearbody a1.
    apply safe_bind. split.
    + intros _. eapply Hready; [by apply grows_cons|eapply authorised_grows, Hau; auto with grows| |by left|done].
      eapply cleanupOrder_goneBefore; [exact Hbef|]. eapply absent_all_grows, Habs. auto with grows.
    + intros [[]|e] _; cbn [safe]; [apply HF|apply HE].
  - destruct (osErrorIs e ErrNotFound) eqn:Ee; [|apply HE]. destruct (st_PendingCreate (oa_Status a) == k) eqn:Ep; [apply HE|].
    apply HQ; [auto with grows|]. gobool. split; [done|]. exists e. split; [done|by left].
Qed.

Lemma dropFinalizer_safe h :
  (ContainsFinalizer (oa_Meta (a <| oa_Meta := RemoveFinalizer (oa_Meta a) openStackFinalizer |>)) openStackFinalizer = false →
   givingUp apiReader ns name h) → safely h (dropFinalizer a) (λ _ _, True).
Proof.
  intros Hgv. unfold dropFinalizer. apply safe_bind. split; [exact Hgv|]. intros [?|?] _; done.
Qed.

Lemma finishCleanup_safe h :
  grows h0 h → authorised apiReader a h → Forall (absent p a h) (cleanupOrder a) →
  safely h (finishCleanup apiReader p a) (λ _ _, True).
Proof.
  intros Hg Hau Habs. unfold finishCleanup. apply safe_bind, releaseDiscoveryImage_safe.
  intros h1 [[]|e] Hg1 Hrel; [|done|done]. specialize (Hrel eq_refl).
  apply safe_bind. eapply safe_mono; [apply safe_extends, (always_bindOk ok)|].
  - apply matchingHosts_plain.
  - intros hosts. apply always_forEach. intros host. unfold deleteHost. solve_plain.
  - intros h2 [[]|e] [_ Hg2]; [|done]. apply dropFinalizer_safe. intros _.
    assert (grows h h2) as Hg3 by (eapply grows_trans; eauto).
    apply Hgive; [eauto with grows|by eapply authorised_grows|by eapply cleanupOrder_nothingLeft, absent_all_grows|].
    eapply imageReleased_grows, Hrel. exact Hg2.
Qed.

Lemma deleteResources_safe h earlier kinds :
  grows h0 h → authorised apiReader a h → cleanupOrder a = earlier ++ kinds → Forall (absent p a h) earlier →
  safely h (deleteResources apiReader p a kinds) (λ _ _, True).
Proof.
  revert h earlier. induction kinds as [|k kinds IH]; intros h earlier Hg Hau Heq Habs; cbn [deleteResources].
  { apply finishCleanup_safe; [done|done|]. by rewrite Heq, app_nil_r. }
  apply safe_bindSt. eapply deleteResource_safe; [done|done|exact Heq|done|..]; try done.
  intros h' Hg' Ha. cbn. eapply (IH h' (earlier ++ [k])).
  - eauto with grows.
  - by eapply authorised_grows.
  - by rewrite <- app_assoc.
  - apply Forall_app. split; [by eapply absent_all_grows|by constructor].
Qed.
End resources.

Lemma cleanup_safe h p a present :
  observed apiReader ns name a h → isDeleting (oa_Meta a) = true → clientOf apiReader a p h →
  oc_Scope p = st_ScopeHash (oa_Status a) → (present = false → demandGone apiReader a h) → safely h (cleanup apiReader p a present) (λ _ _, True).
Proof.
  intros Hobs Hdel Hcl Hsc Hd. unfold cleanup. cbv zeta. set (a1 := setPhase a openStackPhaseDeleting).
  destruct (os_CleanupPolicy (oaConfiguration a1) == CleanupPolicyRetain) eqn:Ep.
  { apply dropFinalizer_safe. intros _. exists a. gobool. split; [done|]. split; [done|]. by left. }
  apply safe_bind, authorizeCleanup_safe; [by gobool|exact Hd| |done]. intros h1 Hg1 Hau. cbv beta iota.
  eapply (deleteResources_safe p a1 h1 _ _ _ []); [auto with grows|done|done|done].
  Unshelve.
  - intros h2 k resource Hg2 [A1 A2 A3 A4] Hb Hin Hatt. exists a, resource.
    split; [eapply observed_grows, Hobs; eauto with grows|]. split; [done|].
    split; [eapply clientOf_grows, Hcl; eauto with grows|]. split; [done|]. split; [by split|]. done.
  - intros h2 Hg2 [A1 A2 A3 A4] Habs Hrel. exists a. split; [eapply observed_grows, Hobs; eauto with grows|].
    split; [done|]. right. exists p. split; [eapply clientOf_grows, Hcl; eauto with grows|]. split; [done|]. split; [by split|]. done.
Qed.
(** *** Reconcile *)
Lemma reconcileDemand_safe h a present deleting :
  observed apiReader ns name a h → (present = false → demandGone apiReader a h) →
  safely h (reconcileDemand apiReader a present deleting) (λ _ _, True).
Proof.
  intros Hobs Hd. unfold reconcileDemand. cbv zeta. destruct (isDeleting (oa_Meta a)) eqn:Edel; cbn [negb andb].
  - destruct (os_CleanupPolicy (oaConfiguration a) == CleanupPolicyRetain) eqn:Ep.
    { apply safe_bind. eapply safe_mono; [apply dropFinalizer_safe|].
      - intros _. exists a. gobool. split; [done|]. split; [done|]. by left.
      - intros h1 [a1 [?|?]] _; done. }
    apply safe_bind, osProvider_safe; [|intros h1 e _; apply reconcileFailed_plain].
    intros h1 p Hg1 Hcl. unfold reconcileWith. destruct (_ == "").
    + apply safe_bind. eapply safe_mono; [apply status_plain|]. intros h2 [a2 [?|?]] _; done.
    + apply safe_bind. destruct (_ != oc_Scope p) eqn:Esc; [apply reconcileFailed_plain|]. rewrite Edel.
      eapply safe_mono; [apply cleanup_safe|].
      * by eapply observed_grows.
      * done.
      * done.
      * by gobool.
      * intros Hp. eapply demandGone_grows; [exact Hg1|by apply Hd].
      * intros h2 [a2 [[]|e]] _; [apply reconcileDone_plain|apply reconcileFailed_plain].
  - enough (always ok (reconcileDemand apiReader a present deleting)) as Hal.
    { specialize (Hal h). unfold reconcileDemand in Hal. rewrite Edel in Hal. exact Hal. }
    unfold reconcileDemand, reconcileWith. rewrite Edel. cbn [negb andb]. solve_plain.
Qed.

Lemma Reconcile_cleanup : safely [] (Reconcile apiReader ns name) (λ _ _, True).
Proof.
  unfold Reconcile. apply safe_bind. split; [by apply cleanup_plain|]. intros [o|e] _; cbn [safe].
  2: { by destruct (IsNotFound e). }
  cbv zeta. set (h := [_]).
  set (a := o <| oa_Spec := (oa_Spec o) <| oas_Configuration := openStackDefaults (oaConfiguration o) |> |>).
  assert (observed apiReader ns name a h) as Hobs by (exists o; split; [by left|done]). clearbody a h.
  destruct (AddFinalizer (oa_Meta a) openStackFinalizer) as [added meta] eqn:Ef.
  destruct (_ && added).
  { apply safe_bindOk. split; [|intros [?|?] _; done]. simpl. by rewrite (AddFinalizer_contains _ _ _ _ Ef). }
  destruct (negb _); [done|]. apply safe_bindOk, demandPresent_safe. intros h1 [[present deleting]|e] Hg1 Hd; [|done].
  cbv beta iota. apply reconcileDemand_safe; [by eapply observed_grows|]. intros ->. by eapply Hd.
Qed.
End cleanup_proofs.

(** ** Properties *)
Section cleanup_properties.
Context `{KubeLib} `{!KubeLaws} `{NetURL} `{HTTPDate} `{UUID}.
Context (apiReader : reader).

(** C18: a resource of a worker is deleted only for a worker that is being deleted,
    whose policy is not Retain, with a client made from the worker's Secret for the project recorded for the worker, after its
    AgentMachine and Machine were seen gone and all its hosts were unbound and unapproved under the optimistic lock; the resource
    was looked up and not attached; and it is the server, or the discovery volume after
    the server was seen absent, or the OS volume, if it is not retained, after both, or
    the port after all of these. *)
Theorem openstack_deletes_authorised (ns name : string) (h : hist) (p : osClient) (k : Kind) (id owner : string)
    (c : result unit → program (result Duration))
    (Hreach : reach anyAnswer [] (Reconcile apiReader ns name) h (Call (OpenStack (OSDelete p k id owner)) c))
    (Hk : k ≠ Image) :
  ∃ a resource, observed apiReader ns name a h ∧ isDeleting (oa_Meta a) = true ∧
    clientOf apiReader a p h ∧ oc_Scope p = st_ScopeHash (oa_Status a) ∧ authorised apiReader a h ∧
    (k = Server ∨
     (k = DiscoveryVolume ∧ absent p a h Server) ∨
     (k = OSVolume ∧ deletesOSVolume a ∧ absent p a h Server ∧ absent p a h DiscoveryVolume) ∨
     (k = Port ∧ absent p a h Server ∧ absent p a h DiscoveryVolume ∧ (deletesOSVolume a → absent p a h OSVolume))) ∧
    In (Event (OpenStack (resourceLookup p a k)) (Ok resource)) h ∧
    rs_Attached resource = false ∧ id = rs_ID resource ∧ owner = oaUID a.
Proof.
  apply (safe_reach _ _ _ _ _ _ _ (Reconcile_cleanup apiReader ns name)) in Hreach. by apply Hreach.
Qed.

(** C8: a worker gives up its finalizer only while it is being deleted, and only with
    the policy Retain or after the authorisation, when its server, discovery volume and
    port, and its OS volume unless the policy of the volume is Retain, were
    seen absent with none being created, and its reference to the discovery image
    was released. *)
Theorem openstack_finalizer_released (ns name : string) (h : hist) (o : OpenStackAgent)
    (c : result OpenStackAgent → program (result Duration))
    (Hreach : reach anyAnswer [] (Reconcile apiReader ns name) h (Call (Update KOpenStackAgent o) c))
    (Hgone : ContainsFinalizer (oa_Meta o) openStackFinalizer = false) :
  ∃ a, observed apiReader ns name a h ∧ isDeleting (oa_Meta a) = true ∧
    (os_CleanupPolicy (oaConfiguration a) = CleanupPolicyRetain ∨
     ∃ p, clientOf apiReader a p h ∧ oc_Scope p = st_ScopeHash (oa_Status a) ∧ authorised apiReader a h ∧
       absent p a h Server ∧ absent p a h DiscoveryVolume ∧ (deletesOSVolume a → absent p a h OSVolume) ∧
       absent p a h Port ∧ imageReleased apiReader p a h).
Proof.
  apply (safe_reach _ _ _ _ _ _ _ (Reconcile_cleanup apiReader ns name)) in Hreach.
  destruct (Hreach Hgone) as (a & Hobs & Hdel & [?|(p & Hc & Hs & Ha & (? & ? & ? & ?) & Hi)]); exists a; eauto 15.
Qed.
End cleanup_properties.
