(* ===== verification/OpenStackLink.v ===== *)
(** * The OpenStack controller linked with its client

    The OpenStackAgent controller (OpenStackAgent.v) performs calls of the interface
    Client; the client (OpenStackClient.v) implements them by calls of the SDK.
    [link] replaces every call of the interface by the program of the client, as the
    Go program does by calling the method, with the cache of clients threaded
    through.  A point of the linked program is a point of the controller, or lies
    inside one of its calls ([link_reach]); so the guarantees of the two components
    combine. *)
From S2P Require Import Prelude OpenStackErrors Api Identity Planner OwnedVMs VsphereObjects Sha256 Effects K8s Objects.
From S2P Require Import VMProvider IsoCache InfraEnv AgentMachine PoolController Govc OpenStackClient.
From S2P Require Import OpenStackImages OpenStackAgent OpenStackCleanup.

(** The calls of the linked program. *)
Inductive linkE : Type → Type :=
| Kube {X : Type} (e : callE X) : linkE X
| SDK {X : Type} (e : sdkE X) : linkE X.

Section link.
Context `{OpenStackSDK}.
Context (others : clientCache → clientCache).

(** The methods of the client, and the factory with its cache. *)
Definition serve {X : Type} (cache : clientCache) (e : osClientE X) : cloudProgram (clientCache * X) :=
  let keep {Y : Type} (p : cloudProgram Y) : cloudProgram (clientCache * Y) := let! y := p in Return (cache, y) in
  match e in osClientE X return cloudProgram (clientCache * X) with
  | OSFactory cfg secret => NewCachedFactory others cache cfg secret
  | OSFind c k name owner => keep (cloudFind c k name owner)
  | OSGet c k id owner => keep (cloudGet c k id owner)
  | OSCreate _ k name owner a => keep (cloudCreate k name owner a)
  | OSSetBootable c id owner => keep (cloudSetBootable c id owner)
  | OSUploadImage c id owner content => keep (cloudUploadImage c id owner content)
  | OSDelete c k id owner => keep (cloudDelete c k id owner)
  end.

Fixpoint toSDK {A : Type} (p : cloudProgram A) : prog linkE A :=
  match p with
  | Return a => Return a
  | Call e k => Call (SDK e) (λ x, toSDK (k x))
  end.

Definition linkCall {X : Type} (cache : clientCache) (e : callE X) : prog linkE (clientCache * X) :=
  match e in callE X return prog linkE (clientCache * X) with
  | OpenStack e => toSDK (serve cache e)
  | e => Call (Kube e) (λ x, Return (cache, x))
  end.

Fixpoint link {A : Type} (cache : clientCache) (p : program A) : prog linkE (clientCache * A) :=
  match p with
  | Return a => Return (cache, a)
  | Call e k => let! r := linkCall cache e in link r.1 (k r.2)
  end.

(** ** Histories *)
Definition isPlain (ev : event callE) : bool :=
  match ev with Event (OpenStack _) _ => false | _ => true end.
(** The events of the controller that are not calls of the client. *)
Definition plain (h : hist) : hist := List.filter isPlain h.

Fixpoint kubeEvents (h : history linkE) : hist :=
  match h with
  | [] => []
  | Event (Kube e) x :: h => Event e x :: kubeEvents h
  | Event (SDK _) _ :: h => kubeEvents h
  end.
Fixpoint sdkEvents (h : history linkE) : history sdkE :=
  match h with
  | [] => []
  | Event (SDK e) x :: h => Event e x :: sdkEvents h
  | Event (Kube _) _ :: h => sdkEvents h
  end.
Definition ofSDK (h : history sdkE) : history linkE :=
  map (λ ev, match ev with Event e x => Event (SDK e) x end) h.

Lemma kubeEvents_ofSDK hs h : kubeEvents (ofSDK hs ++ h) = kubeEvents h.
Proof. by induction hs as [|[X e x] hs IH]. Qed.
Lemma sdkEvents_ofSDK hs h : sdkEvents (ofSDK hs ++ h) = hs ++ sdkEvents h.
Proof. induction hs as [|[X e x] hs IH]; simpl; [done|]. by rewrite IH. Qed.

(** ** Points of the linked program *)

(** Inside the program of a method, or past it. *)
Lemma toSDK_reach {A B : Type} (p : cloudProgram A) (f : A → prog linkE B) hs h h' q :
  reach anyAnswer (ofSDK hs ++ h) (bind (toSDK p) f) h' q →
  (∃ hs' Y (d : sdkE Y) k, reach anyAnswer hs p hs' (Call d k) ∧ h' = ofSDK hs' ++ h ∧
     q = Call (SDK d) (λ y, bind (toSDK (k y)) f)) ∨
  (∃ hs' a, reach anyAnswer hs p hs' (Return a) ∧ reach anyAnswer (ofSDK hs' ++ h) (f a) h' q).
Proof.
  revert hs. induction p as [a|Y d k IH]; simpl; intros hs Hr.
  { right. exists hs, a. split; [constructor|done]. }
  apply reach_inv in Hr as [[-> ->]|(y & _ & Hr)].
  { left. exists hs, Y, d, k. split; [constructor|done]. }
  destruct (IH y (Event d y :: hs) Hr) as [(hs' & Z & d' & k' & Hk & ? & ?)|(hs' & a & Hk & ?)];
    [left; exists hs', Z, d', k'|right; exists hs', a]; (split; [by apply (reach_call _ _ _ _ y)|done]).
Qed.

(** A point of the linked program: the controller is at [p'] with the history
    [h'], and returns, performs a call of its own, or is inside a call of the client. *)
Definition linkedPoint {A : Type} (cache : clientCache) (h' : hist) (p' : program A) (h : history linkE)
    (q : prog linkE (clientCache * A)) : Prop :=
  kubeEvents h = plain h' ∧
  match q with
  | Return (_, a) => p' = Return a
  | @Call _ _ Y e _ =>
      match e with
      | Kube e => ∃ k, p' = Call e k
      | SDK d => ∃ X (e : osClientE X) k hs k' h0, p' = Call (OpenStack e) k ∧ h = ofSDK hs ++ h0 ∧
          reach anyAnswer [] (serve cache e) hs (Call d k')
      end
  end.

(** The caches along a history of the controller, newest event first: every call of the
    client was answered by its program, run on the cache at that point. *)
Inductive served (cache0 : clientCache) : hist → clientCache → Prop :=
| served_start : served cache0 [] cache0
| served_plain ev h cache : isPlain ev = true → served cache0 h cache → served cache0 (ev :: h) cache
| served_client X (e : osClientE X) x h cache cache' hs :
    served cache0 h cache → reach anyAnswer [] (serve cache e) hs (Return (cache', x)) →
    served cache0 (Event (OpenStack e) x :: h) cache'.

Lemma link_kube cache0 {A X : Type} (e : callE X) (k : X → program A) cache h hl hl' q :
  (∀ x, isPlain (Event e x) = true) → linkCall cache e = Call (Kube e) (λ x, Return (cache, x)) →
  (∀ x c h hl, kubeEvents hl = plain h → served cache0 h c → reach anyAnswer hl (link c (k x)) hl' q →
     ∃ c' h' p', reach anyAnswer h (k x) h' p' ∧ linkedPoint c' h' p' hl' q ∧ served cache0 h' c') →
  kubeEvents hl = plain h → served cache0 h cache → reach anyAnswer hl (link cache (Call e k)) hl' q →
  ∃ c' h' p', reach anyAnswer h (Call e k) h' p' ∧ linkedPoint c' h' p' hl' q ∧ served cache0 h' c'.
Proof.
  intros Hp He IH Hh Hsv Hr. cbn [link] in Hr. rewrite He in Hr. simpl in Hr.
  apply reach_inv in Hr as [[-> ->]|(x & _ & Hr)].
  - exists cache, h, (Call e k). split; [constructor|]. split; [|done]. split; [done|by exists k].
  - apply (IH x cache (Event e x :: h)) in Hr as (c' & h' & p' & Hr & Hq).
    2: { unfold plain. cbn [kubeEvents List.filter]. by rewrite Hp, Hh. }
    2: { by apply served_plain. }
    exists c', h', p'. split; [by apply (reach_call _ _ _ _ x)|done].
Qed.

Lemma link_reach cache0 {A : Type} (p : program A) cache h hl hl' q :
  kubeEvents hl = plain h → served cache0 h cache → reach anyAnswer hl (link cache p) hl' q →
  ∃ c' h' p', reach anyAnswer h p h' p' ∧ linkedPoint c' h' p' hl' q ∧ served cache0 h' c'.
Proof.
  revert cache h hl. induction p as [a|X e k IH]; intros cache h hl Hh Hsv Hr.
  { apply reach_inv in Hr as [[-> ->]|[]]. exists cache, h, (Return a). split; [constructor|]. by split. }
  destruct e as [| | | | | | | | | | | | | | | | | | | | |X e]; try (by eapply link_kube).
  cbn [link linkCall] in Hr.
  apply (toSDK_reach _ _ []) in Hr as [(hs & Y & d & k' & Hr & -> & ->)|(hs & [c x] & Hr & Hr')].
  - exists cache, h, (Call (OpenStack e) k). split; [constructor|]. split; [|done]. split; [by rewrite kubeEvents_ofSDK|].
    by exists X, e, k, hs, k', hl.
  - apply (IH x c (Event (OpenStack e) x :: h)) in Hr' as (c' & h' & p' & Hr' & Hp).
    2: { by rewrite kubeEvents_ofSDK. }
    2: { by apply (served_client _ _ _ _ _ cache _ hs). }
    exists c', h', p'. split; [by apply (reach_call _ _ _ _ x)|done].
Qed.
End link.

(** ** Deletions end to end *)

(** The SDK calls that delete a resource of a worker. *)
Definition sdkDeletes {X : Type} (e : sdkE X) : option (Kind * string) :=
  match e with
  | PortsDelete id => Some (Port, id)
  | VolumesDelete id => Some (OSVolume, id)
  | ServersDelete id => Some (Server, id)
  | _ => None
  end.

Section deletions.
Context `{OpenStackSDK}.

(** A program without such calls. *)
Definition noDeletion : precondition sdkE := λ X _ e, sdkDeletes e = None.

Lemma evict_noDeletion order cache : always noDeletion (evict order cache).
Proof.
  revert cache. induction order as [|k order IH]; intros cache; cbn [evict]; [apply always_return|]. by solve_always.
Qed.
#[local] Hint Resolve evict_noDeletion : always.
Lemma discoverService_noDeletion s r : always noDeletion (discoverService s r).
Proof. unfold discoverService. by solve_always. Qed.
#[local] Hint Resolve discoverService_noDeletion : always.
Lemma New_noDeletion cfg secret : always noDeletion (New cfg secret).
Proof. unfold New, initializeClient, authenticate, validateScope. by solve_always. Qed.
#[local] Hint Resolve New_noDeletion : always.
Lemma cloudGet_noDeletion c k id owner : always noDeletion (cloudGet c k id owner).
Proof. unfold cloudGet, getResource. by solve_always. Qed.
#[local] Hint Resolve cloudGet_noDeletion : always.

(** Only Delete of the client deletes such a resource: with the given identifier,
    for the given kind, and never for an image. *)
Definition deletesOnly (kind : Kind) (id : string) : precondition sdkE := λ X _ e,
  ∀ kind' id', sdkDeletes e = Some (kind', id') →
    id' = id ∧ kind ≠ Image ∧ (kind' = kind ∨ (isVolume kind = true ∧ kind' = OSVolume)).

Lemma noDeletion_only kind id {A} (p : cloudProgram A) : always noDeletion p → always (deletesOnly kind id) p.
Proof. intros Hp. eapply always_mono; [exact Hp|]. intros X h e He kind' id' Hd. unfold noDeletion in He. congruence. Qed.

Lemma cloudDelete_only c kind id owner : always (deletesOnly kind id) (cloudDelete c kind id owner).
Proof.
  unfold cloudDelete. apply always_bind; [|intros ?; apply always_return].
  apply always_bind; [apply noDeletion_only, cloudGet_noDeletion|]. intros [r|e]; [|solve_always].
  destruct (resourceBusy kind r); [apply always_return|]. apply always_bind; [|intros [|]; solve_always].
  unfold deleteCall. destruct (kind == Port) eqn:E1; [|destruct (isVolume kind) eqn:E2; [|destruct (kind == Server) eqn:E3]].
  4: by solve_always; intros ? ?.
  all: apply always_call; intros h kind' id' [= <- <-]; gobool; split; [done|]; (split; [by intros ->|]); auto.
Qed.

Lemma seenOwned_app c owner hs hs' kind id r : seenOwned c owner hs kind id r → seenOwned c owner (hs ++ hs') kind id r.
Proof.
  intros (Ho & Hne & Hs). split; [done|]. split; [done|].
  destruct Hs as [(? & x & ? & ?)|[(? & x & ? & ?)|[(? & x & ? & ?)|(? & x & ? & ?)]]];
    [left|right; left|right; right; left|right; right; right];
    (split; [done|]; exists x; split; [apply in_app_iff; by left|done]).
Qed.

Lemma safe_at {A} (ok : precondition sdkE) (p : cloudProgram A) hs Y (d : sdkE Y) k Q :
  safe anyAnswer ok [] p Q → reach anyAnswer [] p hs (Call d k) → ok Y hs d.
Proof. intros Hs Hr. exact (safe_reach _ _ _ _ _ _ _ Hs Hr). Qed.

Lemma changesOwned_deletes c owner hs Y (d : sdkE Y) kind id :
  changesOwned c owner Y hs d → sdkDeletes d = Some (kind, id) →
  ∃ r, seenOwned c owner hs kind id r ∧ resourceBusy kind r = false.
Proof. destruct d; simpl; try done; intros Hr [= <- <-]; done. Qed.

Lemma serve_noDeletion others cache {X : Type} (e : osClientE X) :
  match e with OSDelete _ _ _ _ => False | _ => True end → always noDeletion (serve others cache e).
Proof.
  destruct e; try done; intros _; cbn [serve]; unfold NewCachedFactory, cachedClient, storeClient, cloudFind, listResources,
    cloudCreate, createPort, networkID, checkSubnet, createServer, flavorID, createImage, cloudSetBootable, cloudUploadImage;
    by solve_always.
Qed.

Lemma serve_deletes others cache {X : Type} (e : osClientE X) hs Y (d : sdkE Y) k' kind id :
  reach anyAnswer [] (serve others cache e) hs (Call d k') → sdkDeletes d = Some (kind, id) →
  match e with
  | OSDelete c k id' owner => id' = id ∧ k ≠ Image ∧ ∃ r, seenOwned c owner hs kind id r ∧ resourceBusy kind r = false
  | _ => False
  end.
Proof.
  intros Hr Hd. destruct e as [| | | | | |c k id' owner].
  all: try (eapply safe_at in Hr; [|by apply serve_noDeletion]; unfold noDeletion in Hr; congruence).
  assert (deletesOnly k id' Y hs d) as Hk.
  { eapply safe_at; [|exact Hr]. apply always_bind; [apply cloudDelete_only|intros ?; apply always_return]. }
  destruct (Hk _ _ Hd) as (<- & Hi & _). split; [done|]. split; [done|]. eapply changesOwned_deletes; [|done].
  eapply (safe_at _ _ _ _ _ _ (λ _ _, True)); [|exact Hr]. apply safe_bind. eapply safe_mono; [apply cloudDelete_safe|]. by intros ? ? _.
Qed.
End deletions.

(** The evidence of a deletion is in the controller's own calls. *)
Section evidence.
Context `{KubeLib} `{UUID}.
Context (apiReader : reader).

Lemma In_plain ev h : isPlain ev = true → In ev h → In ev (plain h).
Proof. intros. by apply filter_In. Qed.

Lemma observed_plain ns name a h : observed apiReader ns name a h → observed apiReader ns name a (plain h).
Proof. intros (o & Hin & ->). exists o. split; [by apply In_plain|done]. Qed.

Lemma authorised_plain a h : authorised apiReader a h → authorised apiReader a (plain h).
Proof.
  intros [Hp Hd Hm (items & Hi & Hh)]. split; [done| | |].
  - destruct Hd as [(e & ? & ?)|(am & ? & ?)]; [left; exists e|right; exists am]; (split; [done|by apply In_plain]).
  - intros ref Href. destruct (Hm ref Href) as [(e & ? & ?)|(m & ? & ? & ?)].
    + left. exists e. split; [done|by apply In_plain].
    + right. exists m. split; [done|]. split; [done|by apply In_plain].
  - exists items. split; [by apply In_plain|]. intros host Hin Hmt.
    destruct (Hh host Hin Hmt) as (Hb & after & stored & ? & ? & ?). split; [done|].
    exists after, stored. split; [by apply In_plain|done].
Qed.
End evidence.

(** The other methods leave the cache alone. *)
Lemma reach_kept {Y : Type} (p : cloudProgram Y) (cache cache' : clientCache) hs (y : Y) :
  reach anyAnswer [] (let! y := p in Return (cache, y)) hs (Return (cache', y)) → cache' = cache.
Proof.
  intros Hr. enough (safe anyAnswer (λ _ _ _, True) [] (let! y := p in Return (cache, y)) (λ _ r, r.1 = cache)) as Hs.
  { exact (safe_reach _ _ _ _ _ _ _ Hs Hr). }
  apply safe_bind. eapply safe_mono; [apply safe_trivial|done].
Qed.

(** ** The project of a client

    [projectOf] gives the project of a version of a Secret by the key of the clients made
    from it.  A cache is right if every client in it is for the project of its key. *)
Section projects.
Context `{OpenStackSDK}.
Context (others : clientCache → clientCache) (projectOf : string → string).

(** The arguments and the answer of a call of the factory. *)
Definition factoryEvent (ev : event callE) : option (OpenStackPlacementSpec * Secret * result cloud) :=
  match ev with
  | Event (OpenStack e) x =>
      match e in osClientE X return X → option (OpenStackPlacementSpec * Secret * result cloud) with
      | OSFactory cfg secret => λ r, Some (cfg, secret, r)
      | _ => λ _, None
      end x
  | _ => None
  end.

Definition rightCache (cache : clientCache) : Prop := ∀ key c, cache !! key = Some c → cl_project c = projectOf key.

Lemma evict_right h order cache :
  rightCache cache → safe anyAnswer (λ _ _ _, True) h (evict order cache) (λ _ cache', rightCache cache').
Proof.
  revert h cache. induction order as [|k order IH]; intros h cache Hc; cbn [evict]; [done|].
  destruct (cache !! k) as [entry|]; [|by apply IH]. apply safe_bind. split; [done|]. intros t _. cbn [safe].
  destruct (_ || _); [|by apply IH]. apply IH. intros key c Hl. apply lookup_delete_Some in Hl as [_ Hl]. by apply Hc.
Qed.

Lemma factory_right cache cfg secret :
  rightCache cache → (∀ m, rightCache m → rightCache (others m)) →
  projectOf (clientKey cfg secret) = secretValue secret "project-id" →
  safe anyAnswer (λ _ _ _, True) [] (NewCachedFactory others cache cfg secret)
    (λ _ r, rightCache r.1 ∧ match r.2 with Ok c => cl_project c = secretValue secret "project-id" | Err _ => True end).
Proof.
  intros Hc Ho Hk. unfold NewCachedFactory. cbv zeta. apply safe_bind.
  assert (∀ h, safe anyAnswer (λ _ _ _, True) h
    (let! provider := New cfg secret in
     match provider with
     | Err e => Return (others cache, Err e)
     | Ok c => let! cache := storeClient (others cache) (clientKey cfg secret) c in Return (cache, Ok c)
     end) (λ _ r, rightCache r.1 ∧ match r.2 with Ok c => cl_project c = secretValue secret "project-id" | Err _ => True end))
    as Hnew.
  { intros h. apply safe_bind. eapply safe_mono; [apply New_safe|]. intros h1 [c|e] Hau; cbn [safe]; [|split; [by apply Ho|done]].
    apply safe_bind. unfold storeClient. apply safe_bind. split; [done|]. intros order _. cbn [safe]. apply safe_bind.
    eapply safe_mono; [by apply evict_right, Ho|]. intros h2 m Hm. cbn. pose proof (at_project _ _ _ _ Hau) as Hp. split; [|done].
    intros key c' [[<- <-]|[_ Hl]]%lookup_insert_Some; [by rewrite Hk|by apply Hm]. }
  unfold cachedClient. destruct (cache !! clientKey cfg secret) as [c|] eqn:Ec; [|apply Hnew].
  apply safe_bind. split; [done|]. intros t _. cbn [safe]. destruct (Before t (cl_expires c)); [|apply Hnew].
  cbn. split; [done|]. rewrite <- Hk. by apply Hc.
Qed.

Lemma served_right cache0 h cache :
  rightCache cache0 → (∀ m, rightCache m → rightCache (others m)) → served others cache0 h cache →
  (∀ cfg secret r, In (Event (OpenStack (OSFactory cfg secret)) r) h →
     projectOf (clientKey cfg secret) = secretValue secret "project-id") →
  rightCache cache ∧
  ∀ cfg secret c, In (Event (OpenStack (OSFactory cfg secret)) (Ok c)) h → cl_project c = secretValue secret "project-id".
Proof.
  intros H0 Ho Hs. induction Hs as [|ev h cache Hp Hs IH|X e x h cache cache' hs Hs IH Hr]; intros Hv.
  - by split.
  - destruct IH as [IH1 IH2]; [intros cfg secret r Hin; apply (Hv cfg secret r); by right|]. split; [done|].
    intros cfg secret c [->|Hin]; [done|by apply (IH2 cfg)].
  - destruct IH as [IH1 IH2]; [intros cfg secret r Hin; apply (Hv cfg secret r); by right|]. destruct e as [cfg secret| | | | | |].
    2-7: apply reach_kept in Hr as ->; split; [done|]; intros cfg0 secret0 c0 [Heq|Hin]; [inversion Heq|by apply (IH2 cfg0)].
    pose proof (safe_reach _ _ _ _ _ _ _ (factory_right cache cfg secret IH1 Ho (Hv _ _ _ (or_introl eq_refl))) Hr) as [Hc Hx].
    split; [done|]. intros cfg0 secret0 c0 [Heq|Hin]; [|by apply (IH2 cfg0)].
    apply (f_equal factoryEvent) in Heq. cbn in Heq. by simplify_eq.
Qed.
End projects.

Section linked.
Context `{KubeLib} `{!KubeLaws} `{NetURL} `{HTTPDate} `{UUID} `{OpenStackSDK}.
Context (apiReader : reader) (others : clientCache → clientCache).

(** C3: in the controller linked with its client, a call of the SDK deletes a server,
    volume or port only for a worker that is being deleted under a policy other than
    Retain, after its AgentMachine and Machine were seen gone and its hosts were
    unbound and unapproved; and the SDK has just answered that the resource with
    this identifier is in the project that the worker's Secret, as read in this reconciliation, names,
    carries the UID of the worker as its owner, and is not
    attached or busy.  The scope of the client is the one recorded for the worker.  The cache of clients is
    assumed to hold, before the run and after changes by other reconciliations, clients for the project of
    their key, and a key to stand for one version of a Secret. *)
Theorem linked_deletes_owned (cache : clientCache) (projectOf : string → string) (ns name : string) (h : history linkE)
    (Y : Type) (d : sdkE Y) (kind : Kind) (id : string) (k : Y → prog linkE (clientCache * result Duration))
    (Hcache : rightCache projectOf cache) (Hothers : ∀ m, rightCache projectOf m → rightCache projectOf (others m))
    (Hversions : ∀ cfg n m secret, In (Event (Get apiReader KSecret n m) (Ok secret)) (kubeEvents h) →
       projectOf (clientKey cfg secret) = secretValue secret "project-id")
    (Hreach : reach anyAnswer [] (link others cache (Reconcile apiReader ns name)) h (Call (SDK d) k))
    (Hd : sdkDeletes d = Some (kind, id)) :
  ∃ a c r secret, observed apiReader ns name a (kubeEvents h) ∧ isDeleting (oa_Meta a) = true ∧
    authorised apiReader a (kubeEvents h) ∧
    In (Event (Get apiReader KSecret (oaNamespace a)
                 (lor_Name (op_CredentialsSecretRef (os_OpenStack (oaConfiguration a))))) (Ok secret)) (kubeEvents h) ∧
    cl_project c = secretValue secret "project-id" ∧ cl_scope c = st_ScopeHash (oa_Status a) ∧
    seenOwned c (oaUID a) (sdkEvents h) kind id r ∧ resourceBusy kind r = false.
Proof.
  apply (link_reach _ cache _ _ []) in Hreach as (cache' & h' & p' & Hr & [Hh (X & e & kc & hs & k' & h0 & -> & -> & Hs)] & Hsv);
    [|done|constructor].
  eapply serve_deletes in Hs; [|exact Hd]. destruct e; try done. destruct Hs as (-> & Hi & r & Ho & Hb).
  assert (metAll (cleanupCall apiReader ns name) h') as Hmet
    by exact (reach_metAll _ _ [] _ _ _ _ I (Reconcile_cleanup apiReader ns name) Hr).
  apply (safe_reach _ _ _ _ _ _ _ (Reconcile_cleanup apiReader ns name)) in Hr.
  destruct (Hr Hi) as (a & resource & Hobs & Hdel & (secret & Hsec & Hfac) & Hsc & Hau & _ & _ & _ & _ & ->).
  exists a, p, r, secret. rewrite Hh in *. split; [by apply observed_plain|]. split; [done|]. split; [by apply authorised_plain|].
  split; [by apply In_plain|]. split; [|split; [done|]; split; [|done]; rewrite sdkEvents_ofSDK; by apply seenOwned_app].
  eapply (served_right others projectOf cache h' cache'); [done|done|done| |exact Hfac].
  intros cfg secret' res Hin. apply in_split in Hin as (newer & older & ->). apply metAll_app in Hmet as [(n & m & Hget) _].
  apply (Hversions cfg n m). apply In_plain; [done|]. apply in_app_iff. right. by right.
Qed.
End linked.
