(* ===== verification/OpenStackLinkCreate.v ===== *)
(** * Creations down to the SDK

    The creation protocol of a worker (OpenStackCreate.v) in the controller linked with
    its client (OpenStackLink.v): a request that reaches the SDK carries the name and the
    owner by which the worker finds the resource again, and is preceded by the record of
    the intent.  Nothing is assumed of the answers of the API server here. *)
From S2P Require Import Prelude OpenStackErrors Api Identity Planner OwnedVMs VsphereObjects Sha256 Effects K8s Objects.
From S2P Require Import VMProvider IsoCache InfraEnv AgentMachine PoolController Govc OpenStackClient.
From S2P Require Import OpenStackImages OpenStackAgent OpenStackCreate OpenStackCleanup OpenStackLink.

(** ** Requests *)

(** The SDK calls that create a resource of a worker, with the name and the mark of the owner. *)
Definition sdkCreates {X : Type} (e : sdkE X) : option (Kind * string * string) :=
  match e with
  | PortsCreate o => Some (Port, po_Name o, TrimPrefix (po_Description o) (OwnerKey +:+ ":"))
  | VolumesCreate o => Some (OSVolume, vo_Name o, mapGet (vo_Metadata o) OwnerKey)
  | ServersCreate o => Some (Server, so_Name o, mapGet (so_Metadata o) OwnerKey)
  | _ => None
  end.

(** A request of the client for a kind; both volumes are volumes of the SDK. *)
Definition createsAs (kind kind' : Kind) : Prop := kind' = kind ∨ (isVolume kind = true ∧ kind' = OSVolume).

Section protocol.
Context `{KubeLib} `{NetURL} `{HTTPDate} `{UUID}.
Context (apiReader : reader).

(** The intent to create a kind is recorded: the API server answered a write of a status that names
    the kind as pending with the worker [a], or a read showed that status already. *)
Definition intended (k : Kind) (a : OpenStackAgent) (h : hist) : Prop :=
  (∃ sent, In (Event (StatusUpdate KOpenStackAgent sent) (Ok a)) h ∧ st_PendingCreate (oa_Status sent) = k) ∨
  (∃ current, In (Event (Get apiReader KOpenStackAgent (oaNamespace a) (oaName a)) (Ok current)) h ∧
     oa_Status current = oa_Status a ∧ st_PendingCreate (oa_Status a) = k).

Definition createsIntended : precondition callE := λ X h e,
  match e with
  | OpenStack (OSCreate _ k name owner a) =>
      In k resourceKinds → name = resourceName a k ∧ owner = oaUID a ∧ intended k a h
  | _ => True
  end.

Lemma noRequest_intended {A} (p : program A) : always noRequest p → always createsIntended p.
Proof.
  intros Hp. eapply always_mono; [exact Hp|]. intros X h e He. destruct e as [| | | | | | | | | | | | | | | | | | | | |X e]; try done.
  destruct e; try done. simpl. intros Hk. specialize (He k Hk). simpl in He. by rewrite bool_decide_eq_true_2 in He.
Qed.

(** *** Programs without requests *)
Ltac solve_quiet := solve_always; try (intros ? Hin; simpl; first [reflexivity|
  repeat (destruct Hin as [<-|Hin]; [reflexivity|]); destruct Hin]).
#[local] Hint Resolve status_noRequest releaseDiscoveryImage_noRequest provider_noRequest matchingHosts_noRequest
  reconcileFailed_noRequest reconcileDone_noRequest : always.

Lemma calm_hints {A} (p : program A) : always calm p → always noRequest p.
Proof. apply calm_noRequest. Qed.
#[local] Hint Extern 2 (always noRequest _) => (apply calm_hints; solve [eauto using discoveryISOAvailable_calm, downloadISO_calm,
  downloadDiscovery_calm, acquireCache_calm, uploadFile_calm, patchDiscoveredAgent_calm, demandPresent_calm]) : always.

Lemma prepareDiscoveryImage_quiet p a : always noRequest (prepareDiscoveryImage apiReader p a).
Proof. unfold prepareDiscoveryImage, ensureDiscoveryImage, imageReady, uploadDiscoverySnapshot. solve_quiet. Qed.
Lemma refreshDiscoveryImage_quiet p a : always noRequest (refreshDiscoveryImage apiReader p a).
Proof. unfold refreshDiscoveryImage. solve_quiet. Qed.
Lemma observeServer_quiet p a : always noRequest (observeServer apiReader p a).
Proof. unfold observeServer, reconcileDiscoveredAgent, reconcileHost. solve_quiet. Qed.
Lemma recoverPending_quiet p a : always noRequest (recoverPending p a).
Proof. unfold recoverPending, recoverResource. solve_quiet. Qed.

(** *** The request *)

Lemma status_intended a k h (Q : hist → OpenStackAgent * result unit → Prop) :
  (∀ h' a', intended k a' h' → Q h' (a', Ok tt)) → (∀ h' a' e, Q h' (a', Err e)) →
  safe anyAnswer createsIntended h (status apiReader (setPending a k)) Q.
Proof.
  intros Hok Herr. unfold status. cbv zeta. set (a1 := updStatus _ _).
  assert (st_PendingCreate (oa_Status a1) = k) as Hk by done. clearbody a1.
  apply safe_bind. split; [exact I|]. intros [current|e] _; cbn [safe]; [|apply Herr].
  destruct (oa_Status current == oa_Status a1) eqn:E; gobool.
  - apply Hok. right. exists current. split; [by left|done].
  - apply safe_bind. split; [exact I|]. intros [stored|e] _; cbn [safe]; [|apply Herr].
    apply Hok. left. exists a1. split; [by left|done].
Qed.

Lemma ensureResource_intended p a k : always createsIntended (ensureResource apiReader p a k).
Proof.
  intros h. unfold ensureResource. destruct (_ != _); [apply safe_bind; split; [exact I|done]|].
  apply safe_bind. split; [exact I|]. intros [found|e] _; cbn [safe]; [done|].
  destruct (negb _); [done|]. destruct (_ != _); [done|]. apply safe_bindSt, status_intended; cbn; [|done].
  intros h' a' Hi. split; [by intros _|]. intros [r|e'] _; [|done]. cbn. by destruct (_ == _).
Qed.

(** *** The whole reconciliation *)
Lemma provision_intended p a : always createsIntended (provision apiReader p a).
Proof.
  unfold provision, createNetwork, createVolumes, createDiscoveryVolume, createInstance. cbv zeta.
  destruct (_ == _); [apply noRequest_intended, refreshDiscoveryImage_quiet|].
  destruct (_ != _); [apply noRequest_intended, recoverPending_quiet|].
  destruct (_ != _); [apply noRequest_intended, observeServer_quiet|].
  pose proof (λ a, noRequest_intended _ (prepareDiscoveryImage_quiet p a)).
  pose proof (λ a, noRequest_intended _ (status_noRequest apiReader a)).
  pose proof ensureResource_intended.
  solve_always; done.
Qed.

Lemma reconcileDemand_intended a present deleting : always createsIntended (reconcileDemand apiReader a present deleting).
Proof.
  destruct (isDeleting (oa_Meta a)) eqn:Hd; [by apply noRequest_intended, reconcileDeleting_noRequest|].
  unfold reconcileDemand, reconcileWith. rewrite Hd.
  pose proof (λ a, noRequest_intended _ (status_noRequest apiReader a)).
  pose proof (λ a, noRequest_intended _ (provider_noRequest apiReader a)).
  pose proof (λ a e, noRequest_intended _ (reconcileFailed_noRequest apiReader a e)).
  pose proof (λ a, noRequest_intended _ (reconcileDone_noRequest apiReader a)).
  pose proof (λ a, noRequest_intended _ (dropFinalizer_noRequest a)).
  pose proof provision_intended.
  solve_always; done.
Qed.

(** A request is made for a worker that was read and is not being deleted. *)
Definition createsLive (ns name : string) : precondition callE := λ X h e,
  match e with
  | OpenStack (OSCreate _ k rname owner a) =>
      In k resourceKinds → rname = resourceName a k ∧ owner = oaUID a ∧ intended k a h ∧
        ∃ worker, observed apiReader ns name worker h ∧ isDeleting (oa_Meta worker) = false
  | _ => True
  end.

Lemma noRequest_live ns name {A} (p : program A) : always noRequest p → always (createsLive ns name) p.
Proof.
  intros Hp. eapply always_mono; [exact Hp|]. intros X h e He. destruct e as [| | | | | | | | | | | | | | | | | | | | |X e]; try done.
  destruct e; try done. simpl. intros Hk. specialize (He k Hk). simpl in He. by rewrite bool_decide_eq_true_2 in He.
Qed.

Lemma Reconcile_creates ns name :
  safe anyAnswer (createsLive ns name) [] (OpenStackAgent.Reconcile apiReader ns name) (λ _ _, True).
Proof.
  unfold OpenStackAgent.Reconcile. apply safe_bind. split; [exact I|]. intros [o|e] _; [|by cbn; destruct (IsNotFound e)].
  cbn [safe]. cbv zeta. set (h := [_]).
  set (a := o <| oa_Spec := (oa_Spec o) <| oas_Configuration := openStackDefaults (oaConfiguration o) |> |>).
  assert (observed apiReader ns name a h) as Hobs by (exists o; split; [by left|done]). clearbody a h.
  destruct (AddFinalizer (oa_Meta a) openStackFinalizer) as [added meta].
  destruct (isDeleting (oa_Meta a)) eqn:Hd.
  - apply noRequest_live. cbn [negb andb]. destruct (negb _); [apply always_return|].
    apply always_bindOk; [apply calm_noRequest, demandPresent_calm|]. intros [present deleting]. by apply reconcileDeleting_noRequest.
  - eapply safe_ok_mono_ext.
    + match goal with |- safe _ ?ok _ ?p _ => enough (always createsIntended p) as Hp by exact (Hp h) end.
      cbn [negb andb]. destruct added; [solve_always; done|]. destruct (negb _); [apply always_return|].
      apply always_bindOk; [apply noRequest_intended, calm_noRequest, demandPresent_calm|].
      intros [present deleting]. apply reconcileDemand_intended.
    + intros X new e He. destruct e as [| | | | | | | | | | | | | | | | | | | | |X e]; try done. destruct e; try done.
      simpl. intros Hk. destruct (He Hk) as (? & ? & ?). split_and!; try done.
      exists a. split; [|done]. eapply observed_grows, Hobs. by exists new.
Qed.
End protocol.

(** ** The client *)
Section client.
Context `{OpenStackSDK}.

Definition noCreation : precondition sdkE := λ X _ e, sdkCreates e = None.

Definition uncreated (h : history sdkE) : Prop := Forall (λ ev, match ev with Event e _ => sdkCreates e = None end) h.

(** The client creates at most one resource per request, with the name and the owner it was given. *)
Definition createsOne (kind : Kind) (name owner : string) : precondition sdkE := λ X h e,
  ∀ kind' name' owner', sdkCreates e = Some (kind', name', owner') →
    createsAs kind kind' ∧ name' = name ∧ owner' = owner ∧ uncreated h.

Lemma evict_noCreation order cache : always noCreation (evict order cache).
Proof.
  revert cache. induction order as [|k order IH]; intros cache; cbn [evict]; [apply always_return|]. by solve_always.
Qed.
#[local] Hint Resolve evict_noCreation : always.
Lemma discoverService_noCreation s r : always noCreation (discoverService s r).
Proof. unfold discoverService. by solve_always. Qed.
#[local] Hint Resolve discoverService_noCreation : always.
Lemma New_noCreation cfg secret : always noCreation (New cfg secret).
Proof. unfold New, initializeClient, authenticate, validateScope. by solve_always. Qed.
#[local] Hint Resolve New_noCreation : always.
Lemma cloudGet_noCreation c k id owner : always noCreation (cloudGet c k id owner).
Proof. unfold cloudGet, getResource. by solve_always. Qed.
#[local] Hint Resolve cloudGet_noCreation : always.

Lemma serve_noCreation others cache {X : Type} (e : osClientE X) :
  match e with OSCreate _ _ _ _ _ => False | _ => True end → always noCreation (serve others cache e).
Proof.
  destruct e; try done; intros _; cbn [serve]; unfold NewCachedFactory, cachedClient, storeClient, cloudFind, listResources,
    cloudSetBootable, cloudUploadImage, cloudDelete, deleteCall; by solve_always.
Qed.

(** Before the request. *)
Lemma safe_uncreated {A} kind name owner h (p : cloudProgram A) :
  always noCreation p → uncreated h → safe anyAnswer (createsOne kind name owner) h p (λ h' _, uncreated h').
Proof.
  intros Hp. specialize (Hp h). revert h Hp. induction p as [a|X e k IH]; simpl; intros h Hp Hh; [done|].
  destruct Hp as [He Hk]. unfold noCreation in He. split; [intros ???; congruence|].
  intros x _. apply IH; [by apply Hk|by constructor].
Qed.

Lemma createsOne_volume kind name owner a h :
  isVolume kind = true → uncreated h → createsOne kind name owner _ h (VolumesCreate (volumeOpts kind name owner a)).
Proof.
  intros Hk Hh kind' name' owner' [= <- <- <-]. unfold volumeOpts, mapGet.
  destruct (kind == DiscoveryVolume); cbn [vo_Name vo_Metadata]; rewrite lookup_insert_eq; (split; [by right|done]).
Qed.

Lemma cloudCreate_one kind name owner a :
  safe anyAnswer (createsOne kind name owner) [] (cloudCreate kind name owner a) (λ _ _, True).
Proof.
  assert (uncreated []) as Hh by constructor.
  unfold cloudCreate. apply safe_bind. eapply (safe_mono _ _ _ _ (λ _ _, True)); [|done].
  destruct (kind == Port) eqn:Ep; [gobool|destruct (isVolume kind) eqn:Ev; [|destruct (kind == Server) eqn:Es; [gobool|]]].
  - unfold createPort. apply safe_bindOk. eapply safe_mono; [apply safe_uncreated; [unfold networkID; by solve_always|done]|].
    intros h1 [network|e] Hh1; [|done]. apply safe_bindOk.
    eapply safe_mono; [apply safe_uncreated; [unfold checkSubnet; by solve_always|done]|].
    intros h2 [[]|e] Hh2; [|done]. cbv zeta. apply safe_bind. split; [|by intros [?|?] _].
    intros kind' name' owner' [= <- <- <-]. split; [by left|]. split; [done|]. split; [|done].
    cbn [po_Description]. rewrite <- string_app_assoc. apply TrimPrefix_app.
  - split; [by apply createsOne_volume|by intros [?|?] _].
  - unfold createServer. apply safe_bindOk. eapply safe_mono; [apply safe_uncreated; [unfold flavorID; by solve_always|done]|].
    intros h1 [flavor|e] Hh1; [|done]. apply safe_bind. split; [|by intros [?|?] _].
    intros kind' name' owner' [= <- <- <-]. split; [by left|]. split; [done|]. split; [|done].
    cbn [so_Metadata]. unfold mapGet. by rewrite lookup_singleton_eq.
  - destruct (kind == Image); [|done]. split; [by intros ???|by intros [?|?] _].
Qed.

Lemma serve_creates others cache {X : Type} (e : osClientE X) hs Y (d : sdkE Y) k' kind name owner :
  reach anyAnswer [] (serve others cache e) hs (Call d k') → sdkCreates d = Some (kind, name, owner) →
  match e with
  | OSCreate _ k name' owner' _ => createsAs k kind ∧ name = name' ∧ owner = owner' ∧ uncreated hs
  | _ => False
  end.
Proof.
  intros Hr Hd. destruct e as [| | |c k name' owner' a| | |].
  all: try (eapply safe_at in Hr; [|by apply serve_noCreation]; unfold noCreation in Hr; congruence).
  assert (createsOne k name' owner' Y hs d) as Hk; [|by apply Hk].
  eapply (safe_at _ _ _ _ _ _ (λ _ _, True)); [|exact Hr]. apply safe_bind. eapply safe_mono; [apply cloudCreate_one|].
  by intros ? ? _.
Qed.
End client.

(** ** Creations end to end *)
Section linked.
Context `{KubeLib} `{NetURL} `{HTTPDate} `{UUID} `{OpenStackSDK}.
Context (apiReader : reader) (others : clientCache → clientCache).

Lemma intended_plain k a h : intended apiReader k a h → intended apiReader k a (plain h).
Proof.
  intros [(sent & Hin & Hp)|(current & Hin & Hs & Hp)]; [left; exists sent|right; exists current];
    (split; [by apply In_plain|done]).
Qed.

Lemma createsAs_kind k kind : In kind [Port; OSVolume; Server] → createsAs k kind → In k resourceKinds.
Proof.
  intros Hk [->|[Hv _]]; [simpl in *; tauto|]. unfold isVolume in Hv. apply orb_prop in Hv as [Hv|Hv]; gobool; subst; simpl; auto.
Qed.

Lemma sdkCreates_kind Y (d : sdkE Y) kind name owner :
  sdkCreates d = Some (kind, name, owner) → In kind [Port; OSVolume; Server].
Proof. destruct d; try done; intros [= <- <- <-]; simpl; auto. Qed.

(** C4: in the controller linked with its client, whatever is answered, the SDK is asked to create a
    port, volume or server only for a worker that was read and is not being deleted, once the intent is
    recorded: the API server stored, or already held, a status that names the kind as pending; and the
    request carries the name and the owner by which the worker looks for the resource after a crash. *)
Theorem linked_creates_marked (cache : clientCache) (ns name : string) (h : history linkE) (Y : Type) (d : sdkE Y)
    (kind : Kind) (rname owner : string) (k : Y → prog linkE (clientCache * result Duration))
    (Hreach : reach anyAnswer [] (link others cache (OpenStackAgent.Reconcile apiReader ns name)) h (Call (SDK d) k))
    (Hd : sdkCreates d = Some (kind, rname, owner)) :
  ∃ kind' a worker, In kind' resourceKinds ∧ createsAs kind' kind ∧
    rname = resourceName a kind' ∧ owner = oaUID a ∧ intended apiReader kind' a (kubeEvents h) ∧
    observed apiReader ns name worker (kubeEvents h) ∧ isDeleting (oa_Meta worker) = false.
Proof.
  apply (link_reach _ cache _ _ []) in Hreach as (cache' & h' & p' & Hr & [Hh (X & e & kc & hs & k' & h0 & -> & -> & Hs)] & _);
    [|done|constructor].
  pose proof (sdkCreates_kind _ _ _ _ _ Hd) as Hkind.
  eapply serve_creates in Hs; [|exact Hd]. destruct e; try done. destruct Hs as (Has & -> & -> & _).
  pose proof (createsAs_kind _ _ Hkind Has) as Hk.
  apply (safe_reach _ _ _ _ _ _ _ (Reconcile_creates apiReader ns name)) in Hr.
  destruct (Hr Hk) as (-> & -> & Hi & worker & Hobs & Hlive).
  do 3 eexists. rewrite Hh. split; [done|]. split; [done|]. split; [done|]. split; [done|].
  split; [by apply intended_plain|]. split; [by apply observed_plain|done].
Qed.
End linked.
