(* ===== verification/OpenStackProgress.v ===== *)
(** * A deleted worker is cleaned up

    The counterpart of OpenStackCleanup.v: in a project that answers, the protocol
    that deletes a worker does not get stuck.  The project is a state that the calls
    change: the resources of the worker, attached to the server while it exists, the
    cache of its discovery image and the image.  Every reconciliation takes one
    step, and after as many as there are resources and image steps left, and one
    more, the worker gives up its finalizer with nothing of it left. *)
From S2P Require Import Prelude OpenStackErrors Api Identity Planner OwnedVMs VsphereObjects Sha256 Effects K8s Objects.
From S2P Require Import VMProvider IsoCache InfraEnv AgentMachine PoolController Govc OpenStackImages OpenStackAgent.
From S2P Require Import OpenStackCreate.

(** ** The project *)
Record project := mkProject {
  pr_worker : OpenStackAgent;
  pr_resources : gmap Kind Resource;
  pr_cache : option ConfigMap;
  pr_image : option (string * string) }.  (* identifier and owner *)

#[export] Instance eta_project : Eta project := λ w,
  mkProject (pr_worker w) (pr_resources w) (pr_cache w) (pr_image w).

Definition absentErr {A} : result A := Err (mkError ClassNotFound "not found").
Definition unavailable {A} : result A := Err (mkError ClassOther "unavailable").

(** Volumes and ports are attached while there is a server. *)
Definition shown (w : project) (k : Kind) (r : Resource) : Resource :=
  mkResource (rs_ID r) (rs_Name r) (rs_Owner r) (rs_State r) (rs_MAC r)
    ((k != Server) && bool_decide (is_Some (pr_resources w !! Server))) (rs_Bootable r) (rs_SizeBytes r).

Definition imageShown (id owner : string) (image : option (string * string)) : result Resource :=
  match image with
  | Some (id', owner') =>
      if id' != id then Err (osErr ErrNotFound)
      else if owner' != owner then Err (osErr ErrOwnership)
      else Ok (mkResource id "" owner "active" "" false false 0)
  | None => Err (osErr ErrNotFound)
  end.

Definition resourceShown (w : project) (k : Kind) (test : Resource → bool) (owner : string) : result Resource :=
  match pr_resources w !! k with
  | Some r => if negb (test r) then Err (osErr ErrNotFound)
              else if rs_Owner r != owner then Err (osErr ErrOwnership) else Ok (shown w k r)
  | None => Err (osErr ErrNotFound)
  end.

Definition osAnswer (client : osClient) {X : Type} (e : osClientE X) (w : project) : project * X :=
  match e in osClientE X return project * X with
  | OSFactory _ _ => (w, Ok client)
  | OSFind _ k name owner => (w, resourceShown w k (λ r, rs_Name r == name) owner)
  | OSGet _ k id owner =>
      (w, if k == Image then imageShown id owner (pr_image w) else resourceShown w k (λ r, rs_ID r == id) owner)
  | OSCreate _ _ _ _ _ => (w, unavailable)
  | OSSetBootable _ _ _ => (w, unavailable)
  | OSUploadImage _ _ _ _ => (w, unavailable)
  | OSDelete _ k id owner =>
      let found := if k == Image then imageShown id owner (pr_image w)
                   else resourceShown w k (λ r, rs_ID r == id) owner in
      match found with
      | Err e => (w, if osErrorIs e ErrNotFound then Ok tt else Err e)
      | Ok r => if rs_Attached r then (w, Err (osErr (newError "ResourceStillAttachedOrBusy" true true)))
                else (if k == Image then w <| pr_image := None |>
                      else w <| pr_resources := delete k (pr_resources w) |>, Ok tt)
      end
  end.

Definition getAnswer (secret : Secret) (w : project) (k : kind) (ns name : string) : result (obj k) :=
  match k return result (obj k) with
  | KOpenStackAgent => if (oaNamespace (pr_worker w) == ns) && (oaName (pr_worker w) == name)
                       then Ok (pr_worker w) else absentErr
  | KSecret => Ok secret
  | KConfigMap => match pr_cache w with
                  | Some c => if om_Name (cm_Meta c) == name then Ok c else absentErr
                  | None => absentErr
                  end
  | _ => absentErr
  end.

(** The calls of a cluster in which the AgentMachine and the Machine of the worker
    are gone and [hosts] are the Agents; writes are stored as they are sent. *)
Definition projectAnswer (client : osClient) (secret : Secret) (hosts : list Unstructured) (X : Type) (e : callE X)
    (w : project) : project * X :=
  match e in callE X return project * X with
  | Get _ k ns name => (w, getAnswer secret w k ns name)
  | ListObjs _ k _ => (w, match k return result (list (obj k)) with KAgent => Ok hosts | _ => Ok [] end)
  | Create _ o => (w, Ok o)
  | Update k o =>
      (match k return obj k → project with
       | KOpenStackAgent => λ o, w <| pr_worker := o |>
       | KConfigMap => λ o, w <| pr_cache := Some o |>
       | _ => λ _, w
       end o, Ok o)
  | StatusUpdate k o =>
      match k return obj k → project * result (obj k) with
      | KOpenStackAgent => λ o, let o' := updStatus (pr_worker w) (oa_Status o) in (w <| pr_worker := o' |>, Ok o')
      | _ => λ o, (w, Ok o)
      end o
  | Patch _ _ after _ => (w, Ok after)
  | Delete k _ _ => (match k with KConfigMap => w <| pr_cache := None |> | _ => w end, Ok tt)
  | Now => (w, 0)
  | Clock => (w, λ _ _, 0)
  | Govc _ => (w, unavailable)
  | GovcStart _ => (w, tt)
  | Select => (w, CommandDone (Ok tt))
  | MkdirTemp => (w, unavailable)
  | HttpGet _ _ => (w, unavailable)
  | ReadFile _ => (w, unavailable)
  | WriteFile _ _ => (w, unavailable)
  | CreateTemp _ => (w, unavailable)
  | CloseFile _ => (w, unavailable)
  | RemoveFile _ => (w, tt)
  | Metric _ => (w, tt)
  | Eventf _ _ _ _ _ _ => (w, tt)
  | OpenStack e => osAnswer client e w
  end.

(** ** What is left to do *)
Section cleaning.
Context `{KubeLib} `{UUID}.

(** The worker as a reconciliation sees it. *)
Definition defaulted (a : OpenStackAgent) : OpenStackAgent :=
  a <| oa_Spec := (oa_Spec a) <| oas_Configuration := openStackDefaults (oaConfiguration a) |> |>.

Definition exists_ (w : project) (k : Kind) : bool := bool_decide (is_Some (pr_resources w !! k)).

(** The steps left for the image: the tombstone of the last reference, the image. *)
Definition imageSteps (w : project) : nat :=
  match pr_cache w with
  | None => 0
  | Some c =>
      let image := match pr_image w with Some _ => 1%nat | None => 0%nat end in
      if cachePhase c == openStackPhaseDeleting then image
      else if decide (delete (oaUID (pr_worker w)) (cm_Data c) = ∅) then S image else 0
  end.

(** The reconciliations that are left before the last one: one for the server, the discovery volume, the
    port, and the OS volume unless its policy is Retain, each if it exists, and the steps of the image. *)
Definition stepsLeft (w : project) : nat :=
  let left k := if exists_ w k then 1%nat else 0%nat in
  left Server + left DiscoveryVolume + left Port +
  (if ot_OSVolumePolicy (os_Template (oaConfiguration (pr_worker w))) == CleanupPolicyRetain then 0 else left OSVolume) +
  imageSteps w.

(** A deleted worker whose project is in order: its resources carry its name and
    UID and are recorded correctly or not at all, a creation with an unknown outcome
    has produced its resource, and the cache is the one of its image. *)
Record cleanable (client : osClient) (w : project) : Prop := {
  cw_deleting : isDeleting (oa_Meta (pr_worker w)) = true;
  cw_finalizer : ContainsFinalizer (oa_Meta (pr_worker w)) openStackFinalizer = true;
  cw_policy : os_CleanupPolicy (oaConfiguration (pr_worker w)) ≠ CleanupPolicyRetain;
  cw_demand : let ref := oas_AgentMachineRef (oa_Spec (pr_worker w)) in
    or_UID ref ≠ "" ∧ or_Name ref ≠ "" ∧ or_Namespace ref ≠ "";
  cw_scope : st_ScopeHash (oa_Status (pr_worker w)) = oc_Scope client ∧ oc_Scope client ≠ "";
  cw_resources : ∀ k r, pr_resources w !! k = Some r →
    rs_Owner r = oaUID (pr_worker w) ∧ rs_Name r = resourceName (pr_worker w) k ∧
    (resourceID k (oa_Status (pr_worker w)) = "" ∨ rs_ID r = resourceID k (oa_Status (pr_worker w)));
  cw_pending : ∀ k, In k resourceKinds → st_PendingCreate (oa_Status (pr_worker w)) = k → is_Some (pr_resources w !! k);
  cw_cache : ∀ c, pr_cache w = Some c →
    st_ImageCacheName (oa_Status (pr_worker w)) ≠ "" ∧ om_Name (cm_Meta c) = st_ImageCacheName (oa_Status (pr_worker w)) ∧
    cacheLabel c = imageCacheOwnedValue ∧
    (st_ImageID (oa_Status (pr_worker w)) = "" ∨ st_ImageID (oa_Status (pr_worker w)) = imageIDForCache c) ∧
    (pr_image w = None ∨ pr_image w = Some (imageIDForCache c, om_UID (cm_Meta c)));
  cw_image : pr_cache w = None → pr_image w = None }.

(** Nothing of the worker is left: the finalizer is gone, so are its server, discovery volume and port,
    its OS volume unless the policy of the volume is Retain, and
    the image, unless other workers refer to it. *)
Definition cleaned (w : project) : Prop :=
  ContainsFinalizer (oa_Meta (pr_worker w)) openStackFinalizer = false ∧
  pr_resources w !! Server = None ∧ pr_resources w !! DiscoveryVolume = None ∧ pr_resources w !! Port = None ∧
  (ot_OSVolumePolicy (os_Template (oaConfiguration (pr_worker w))) ≠ CleanupPolicyRetain → pr_resources w !! OSVolume = None) ∧
  match pr_cache w with
  | None => pr_image w = None
  | Some c => cm_Data c ≠ ∅ ∧ cm_Data c !! oaUID (pr_worker w) = None
  end.
End cleaning.

(** ** Proofs *)

(** The same in the order of the deletions. *)
Definition orderSteps `{UUID} (w : project) : nat :=
  length (List.filter (exists_ w) (cleanupOrder (pr_worker w))) + imageSteps w.
Definition orderCleaned `{KubeLib} (w : project) : Prop :=
  ContainsFinalizer (oa_Meta (pr_worker w)) openStackFinalizer = false ∧
  Forall (λ k, pr_resources w !! k = None) (cleanupOrder (pr_worker w)) ∧
  match pr_cache w with
  | None => pr_image w = None
  | Some c => cm_Data c ≠ ∅ ∧ cm_Data c !! oaUID (pr_worker w) = None
  end.

Section progress.
Context `{KubeLib} `{!KubeLaws} `{NetURL} `{HTTPDate} `{UUID}.
Context (apiReader : reader) (client : osClient) (secret : Secret) (hosts : list Unstructured).
Hypothesis Hhosts : ∀ host, In host hosts →
  agentDeletionBlocker host = "" ∧ ∃ o, SetNestedField (un_Object host) (ABool false) ["spec"; "approved"] = Ok o.

Abbreviation run := (runState (projectAnswer client secret hosts)).
Abbreviation cleaning w := (setPhase (defaulted (pr_worker w)) openStackPhaseDeleting).

Lemma defaulted_policy a :
  os_CleanupPolicy (oaConfiguration a) ≠ CleanupPolicyRetain →
  os_CleanupPolicy (oaConfiguration (defaulted a)) ≠ CleanupPolicyRetain.
Proof. unfold defaulted, oaConfiguration, openStackDefaults, orElse. simpl. by destruct (_ == _). Qed.

Lemma cleanupOrder_defaulted a : cleanupOrder (setPhase (defaulted a) openStackPhaseDeleting) = cleanupOrder a.
Proof.
  unfold cleanupOrder, defaulted, oaConfiguration, openStackDefaults, defaultOpenStackTemplate, orElse. simpl.
  by destruct (ot_OSVolumePolicy _ == "") eqn:E; gobool; rewrite ?E.
Qed.

Lemma run_demandPresent w :
  cleanable client w → run w (demandPresent apiReader (defaulted (pr_worker w))) = (w, Ok (false, false)).
Proof.
  intros [_ _ _ (H1' & H2' & H3') _ _ _ _ _]. unfold demandPresent. cbv zeta. simpl.
  bdsimp. done.
Qed.

Lemma run_provider w : run w (provider apiReader (defaulted (pr_worker w))) = (w, Ok client).
Proof. done. Qed.

Lemma run_matchingHosts w a : run w (matchingHosts apiReader a) = (w, Ok (List.filter (agentHardwareMatches a) hosts)).
Proof. done. Qed.

Lemma run_authorizeCleanup w a : run w (authorizeCleanup apiReader a false) = (w, Ok tt).
Proof.
  unfold authorizeCleanup. rewrite (run_bindOk _ _ _ _ w tt).
  2: { unfold machineGone. destruct (oas_MachineRef (oa_Spec a)); done. }
  erewrite run_bindOk by apply run_matchingHosts. apply run_forEach. intros host Hin.
  apply filter_In in Hin as [Hin _]. destruct (Hhosts host Hin) as [Hb [o Ho]].
  unfold unapproveHost. rewrite Hb, Ho. done.
Qed.

Lemma run_deleteHosts w a :
  run w (let? found := matchingHosts apiReader a in forEach found deleteHost) = (w, Ok tt).
Proof.
  erewrite run_bindOk by apply run_matchingHosts. apply run_forEach. intros host Hin.
  apply filter_In in Hin as [Hin _]. destruct (Hhosts host Hin) as [Hb _]. unfold deleteHost. rewrite Hb. done.
Qed.

(** *** One resource *)
Lemma cleanupOrder_kinds a k : In k (cleanupOrder a) → In k resourceKinds.
Proof.
  unfold cleanupOrder. destruct (_ != _); simpl; intros Hk; unfold resourceKinds; simpl; tauto.
Qed.
Lemma resourceKinds_not_image k : In k resourceKinds → k ≠ Image.
Proof. intros Hk ->. repeat (destruct Hk as [Hk|Hk]; [discriminate Hk|]). done. Qed.
Lemma cleanupOrder_NoDup a : NoDup (cleanupOrder a).
Proof. unfold cleanupOrder. destruct (_ != _); simpl; apply NoDup_ListNoDup; repeat constructor; simpl; naive_solver. Qed.

(** The look-up of a resource of the worker. *)
Lemma run_lookup w k :
  cleanable client w → In k resourceKinds →
  run w (if resourceID k (oa_Status (pr_worker w)) == ""
         then call (OpenStack (OSFind client k (resourceName (pr_worker w) k) (oaUID (pr_worker w))))
         else call (OpenStack (OSGet client k (resourceID k (oa_Status (pr_worker w))) (oaUID (pr_worker w))))) =
  (w, match pr_resources w !! k with Some r => Ok (shown w k r) | None => Err (osErr ErrNotFound) end).
Proof.
  intros Hc Hk. pose proof (cw_resources _ _ Hc k) as Hr. apply resourceKinds_not_image in Hk.
  destruct (_ == "") eqn:Ei; simpl; rewrite ?(bool_decide_false (k = Image)) by done;
    unfold resourceShown; destruct (pr_resources w !! k) as [r|]; try done;
    destruct (Hr r eq_refl) as (Ho & Hn & Hid); gobool; rewrite Ho, ?Hn; simpl; [by bdsimp|].
  destruct Hid as [?| ->]; [done|]. by bdsimp.
Qed.

Lemma run_deleteResource w k :
  cleanable client w → In k resourceKinds →
  run w (deleteResource client (cleaning w) k (resourceID k (oa_Status (cleaning w)))) =
  match pr_resources w !! k with
  | None => (w, (cleaning w, Ok true))
  | Some r =>
      if (k != Server) && exists_ w Server
      then (w, (cleaning w, Err (osErr (newError "ResourceStillAttachedOrBusy" true false))))
      else (w <| pr_resources := delete k (pr_resources w) |>,
            (if st_PendingCreate (oa_Status (pr_worker w)) == k then setPending (cleaning w) "" else cleaning w, Ok false))
  end.
Proof.
  intros Hc Hk. unfold deleteResource. erewrite run_bind by exact (run_lookup w k Hc Hk).
  destruct (pr_resources w !! k) as [r|] eqn:Ek.
  - simpl. unfold exists_. destruct (_ && _) eqn:Ea; [done|].
    pose proof (resourceKinds_not_image k Hk) as Hi. destruct (cw_resources _ _ Hc k r Ek) as (Ho & _).
    assert (resourceShown w k (λ r', rs_ID r' == rs_ID r) (oaUID (pr_worker w)) = Ok (shown w k r)) as Hs.
    { unfold resourceShown. rewrite Ek, Ho. by bdsimp. }
    set (a1 := if st_PendingCreate _ == k then _ else _).
    assert (oaUID a1 = oaUID (pr_worker w)) as -> by (unfold a1; by destruct (st_PendingCreate (oa_Status (pr_worker w)) == k)).
    simpl. rewrite !(bool_decide_false (k = Image)) by done. rewrite Hs. simpl. by rewrite Ea.
  - assert (st_PendingCreate (oa_Status (pr_worker w)) ≠ k) as Hp.
    { intros Hp. destruct (cw_pending _ _ Hc k Hk Hp) as [r Hr]. congruence. }
    simpl. by rewrite bool_decide_false by done.
Qed.

(** *** The resources in order *)
Lemma run_deleteResources_absent w kinds :
  cleanable client w → (∀ k, In k kinds → In k resourceKinds ∧ pr_resources w !! k = None) →
  run w (deleteResources apiReader client (cleaning w) kinds) = run w (finishCleanup apiReader client (cleaning w)).
Proof.
  intros Hc. induction kinds as [|k kinds IH]; intros Hk; [done|]. destruct (Hk k (or_introl eq_refl)) as [Hin Hn].
  cbn [deleteResources]. pose proof (run_deleteResource w k Hc Hin) as Hr. rewrite Hn in Hr.
  rewrite (run_bindSt _ _ _ _ _ _ _ Hr). apply IH. intros k' ?. apply Hk. by right.
Qed.

Lemma run_deleteResources_present w pre k post :
  cleanable client w → (∀ k', In k' pre → In k' resourceKinds ∧ pr_resources w !! k' = None) → In k resourceKinds →
  exists_ w k = true → (k ≠ Server → exists_ w Server = false) →
  run w (deleteResources apiReader client (cleaning w) (pre ++ k :: post)) =
  (w <| pr_resources := delete k (pr_resources w) |>,
   (if st_PendingCreate (oa_Status (pr_worker w)) == k then setPending (cleaning w) "" else cleaning w, Ok tt)).
Proof.
  intros Hc Hpre Hk He Hserver. induction pre as [|k' pre IH]; cbn [deleteResources app].
  - pose proof (run_deleteResource w k Hc Hk) as Hr. unfold exists_ in He. apply bool_decide_eq_true_1 in He as [r Er].
    rewrite Er in Hr. assert ((k != Server) && exists_ w Server = false) as Hb.
    { destruct (decide (k = Server)) as [->|Hne]; [done|]. by rewrite Hserver, andb_false_r. }
    rewrite Hb in Hr. by rewrite (run_bindSt _ _ _ _ _ _ _ Hr).
  - destruct (Hpre k' (or_introl eq_refl)) as [Hin Hn].
    pose proof (run_deleteResource w k' Hc Hin) as Hr. rewrite Hn in Hr.
    rewrite (run_bindSt _ _ _ _ _ _ _ Hr). apply IH. intros k'' ?. apply Hpre. by right.
Qed.

(** *** The image *)
(** The image of a tombstone is deleted, then the tombstone. *)
Lemma run_collectImage w c :
  cleanable client w → pr_cache w = Some c →
  run w (collectImage client c) =
  match pr_image w with
  | Some _ => (w <| pr_image := None |>, Ok false)
  | None => (w <| pr_cache := None |>, Ok true)
  end.
Proof.
  intros Hc Ec. destruct (cw_cache _ _ Hc c Ec) as (_ & _ & _ & _ & [Hi|Hi]); rewrite Hi;
    unfold collectImage; simpl; rewrite Hi; simpl; bdsimp; [done|]. rewrite Hi. simpl. by bdsimp.
Qed.

(** A reference is removed; the last one leaves the tombstone. *)
Definition releasedCache (w : project) (c : ConfigMap) : ConfigMap :=
  let data := delete (oaUID (pr_worker w)) (cm_Data c) in
  let cache := c <| cm_Data := data |> in
  if decide (data = ∅)
  then cache <| cm_Meta := (cm_Meta cache)
         <| om_Annotations := <[imageCachePhase := openStackPhaseDeleting]> (om_Annotations (cm_Meta cache)) |> |>
  else cache.

Lemma run_releaseReference w c :
  run w (releaseReference (cleaning w) c) =
  (w <| pr_cache := Some (releasedCache w c) |>,
   Ok (negb (bool_decide (delete (oaUID (pr_worker w)) (cm_Data c) = ∅)))).
Proof. unfold releaseReference, releasedCache. simpl. destruct (decide _); done. Qed.

Lemma run_releaseCache w c :
  cleanable client w → pr_cache w = Some c →
  run w (releaseDiscoveryImage apiReader client (cleaning w)) =
  run w (if cachePhase c != openStackPhaseDeleting then releaseReference (cleaning w) c else collectImage client c).
Proof.
  intros Hc Ec. destruct (cw_cache _ _ Hc c Ec) as (Hne & Hn & Hl & Hid & _).
  unfold releaseDiscoveryImage. simpl. rewrite (bool_decide_false (_ = "")) by exact Hne. simpl.
  rewrite Ec, (bool_decide_true (_ = _)) by exact Hn. rewrite Hl. bdsimp.
  destruct Hid as [-> | ->]; bdsimp; by rewrite ?andb_false_r.
Qed.

Lemma cleanable_cache w w' :
  pr_worker w' = pr_worker w → pr_resources w' = pr_resources w →
  (∀ c', pr_cache w' = Some c' → ∃ c, pr_cache w = Some c ∧ om_Name (cm_Meta c') = om_Name (cm_Meta c) ∧
     om_UID (cm_Meta c') = om_UID (cm_Meta c) ∧ cacheLabel c' = cacheLabel c) →
  pr_image w' = None ∨ pr_image w' = pr_image w → (pr_cache w' = None → pr_image w' = None) →
  cleanable client w → cleanable client w'.
Proof.
  intros Hw Hr Hcache Himg Hnone [C1 C2 C3 C4 C5 C6 C7 C8 C9]. split; rewrite ?Hw, ?Hr; try done.
  intros c' Hc'. destruct (Hcache c' Hc') as (c & Hc & Hn & Hu & Hl). destruct (C8 c Hc) as (D1 & D2 & D3 & D4 & D5).
  unfold imageIDForCache in *. rewrite Hn, Hl, Hu. repeat (split; [done|]). destruct Himg as [-> | ->]; [by left|done].
Qed.

Lemma run_release w :
  cleanable client w →
  ∃ w' done, run w (releaseDiscoveryImage apiReader client (cleaning w)) = (w', Ok done) ∧
    pr_worker w' = pr_worker w ∧ pr_resources w' = pr_resources w ∧
    match imageSteps w with
    | 0%nat => done = true ∧
        match pr_cache w' with
        | None => pr_image w' = None
        | Some c => cm_Data c ≠ ∅ ∧ cm_Data c !! oaUID (pr_worker w) = None
        end
    | S n => done = false ∧ imageSteps w' = n ∧ cleanable client w'
    end.
Proof.
  intros Hc. destruct (pr_cache w) as [c|] eqn:Ec.
  2: { exists w, true. unfold imageSteps. rewrite Ec. pose proof (cw_image _ _ Hc Ec) as Hi.
       split; [|done]. unfold releaseDiscoveryImage. simpl. destruct (_ == ""); [done|]. simpl. rewrite Ec. simpl.
       destruct (_ == ""); [done|]. simpl. by rewrite Hi. }
  rewrite (run_releaseCache w c Hc Ec). unfold imageSteps. rewrite Ec.
  destruct (cachePhase c == openStackPhaseDeleting) eqn:Ep; cbn [negb].
  - rewrite (run_collectImage w c Hc Ec). destruct (pr_image w) as [im|] eqn:Ei; eexists _, _; (split; [done|]); simpl.
    + rewrite Ec, Ep. repeat (split; [done|]). eapply cleanable_cache, Hc; try done; simpl; [eauto 10|by left].
    + by rewrite Ei.
  - rewrite run_releaseReference. eexists _, _. split; [done|]. simpl. unfold releasedCache.
    destruct (decide (delete _ _ = ∅)) as [He|He].
    + rewrite bool_decide_true by done. split; [done|]. split; [done|]. split; [done|]. split.
      * unfold imageSteps. simpl. unfold cachePhase, mapGet. simpl. rewrite lookup_insert_eq. simpl. by bdsimp.
      * eapply cleanable_cache, Hc; try done; simpl; [intros c' [= <-]; by exists c|by right].
    + repeat (split; [done|]). rewrite bool_decide_false by done. split; [done|]. split; [done|]. apply lookup_delete_eq.
Qed.

(** *** The status *)

(** The fields of the status that the cleanup reads, apart from the pending creation. *)
Definition agrees (s s' : OpenStackAgentStatus) : Prop :=
  (∀ k, resourceID k s = resourceID k s') ∧ st_ScopeHash s = st_ScopeHash s' ∧
  st_ImageCacheName s = st_ImageCacheName s' ∧ st_ImageID s = st_ImageID s'.

Lemma cleanable_step w res s :
  cleanable client w → (∀ k r, res !! k = Some r → pr_resources w !! k = Some r) → agrees s (oa_Status (pr_worker w)) →
  (∀ k, In k resourceKinds → st_PendingCreate s = k → is_Some (res !! k)) →
  cleanable client (w <| pr_resources := res |> <| pr_worker := updStatus (pr_worker w) s |>).
Proof.
  intros [C1 C2 C3 C4 C5 C6 C7 C8 C9] Hres (A1 & A2 & A3 & A4) Hp. split; simpl; try done.
  - by rewrite A2.
  - intros k r Hr. rewrite A1. apply C6. by apply Hres.
  - intros c Hc. rewrite A3, A4. by apply C8.
Qed.

Lemma run_status w a :
  oa_Meta a = oa_Meta (pr_worker w) →
  ∃ r s, run w (status apiReader a) = (w <| pr_worker := updStatus (pr_worker w) s |>, (r, Ok tt)) ∧
    s = (oa_Status a) <| st_ObservedGeneration := om_Generation (oa_Meta a) |>.
Proof.
  intros Hm. unfold status. cbv zeta. set (s := (oa_Status a) <| st_ObservedGeneration := _ |>).
  cbn [bind call]. cbn [runState projectAnswer getAnswer]. unfold oaNamespace, oaName. simpl. rewrite Hm. bdsimp.
  destruct (oa_Status (pr_worker w) == s) eqn:E; cbn [runState]; [|by eexists _, s].
  exists (updStatus a s), s. split; [|done]. f_equal. gobool. rewrite <- E. by destruct w as [[] ? ? ?].
Qed.

Lemma run_reconcileDone w a :
  oa_Meta a = oa_Meta (pr_worker w) → ContainsFinalizer (oa_Meta (pr_worker w)) openStackFinalizer = true →
  ∃ s, (run w (reconcileDone apiReader a)).1 = w <| pr_worker := updStatus (pr_worker w) s |> ∧
    agrees s (oa_Status a) ∧ st_PendingCreate s = st_PendingCreate (oa_Status a).
Proof.
  intros Hm Hf. unfold reconcileDone. rewrite Hm, Hf. cbn [negb]. cbv zeta. set (b := readyCondition a _ _ _).
  destruct (run_status w b Hm) as (r & s & Hr & ->). rewrite (run_bind _ _ _ _ _ _ Hr). simpl.
  eexists. split; [done|]. split; [|done]. by split_and!.
Qed.

(** *** A reconciliation *)
Definition round (w : project) : project :=
  (run w (Reconcile apiReader (oaNamespace (pr_worker w)) (oaName (pr_worker w)))).1.

Lemma run_cleanup w :
  cleanable client w →
  run w (cleanup apiReader client (defaulted (pr_worker w)) false) =
  run w (deleteResources apiReader client (cleaning w) (cleanupOrder (pr_worker w))).
Proof.
  intros Hc. unfold cleanup. cbv zeta. rewrite bool_decide_false by apply defaulted_policy, Hc.
  rewrite (run_bind _ _ _ _ _ _ (run_authorizeCleanup w _)). by rewrite (cleanupOrder_defaulted (pr_worker w)).
Qed.

Lemma round_cleanup w :
  cleanable client w →
  round w = (run w (let! stepped := deleteResources apiReader client (cleaning w) (cleanupOrder (pr_worker w)) in
                    match stepped with (a, Err e) => reconcileFailed apiReader a e | (a, Ok _) => reconcileDone apiReader a end)).1.
Proof.
  intros Hc. unfold round, Reconcile. cbn [bind call runState projectAnswer getAnswer]. bdsimp.
  change ((pr_worker w) <| oa_Spec := _ |>) with (defaulted (pr_worker w)).
  change (oa_Meta (defaulted (pr_worker w))) with (oa_Meta (pr_worker w)).
  rewrite AddFinalizer_spec, (cw_finalizer _ _ Hc), andb_false_r. cbn [negb].
  rewrite (run_bindOk _ _ _ _ _ _ (run_demandPresent w Hc)). unfold reconcileDemand.
  change (oa_Meta (defaulted (pr_worker w))) with (oa_Meta (pr_worker w)). rewrite (cw_deleting _ _ Hc). cbn [negb andb].
  rewrite bool_decide_false by apply defaulted_policy, Hc.
  rewrite (run_bind _ _ _ _ _ _ (run_provider w)). unfold reconcileWith.
  destruct (cw_scope _ _ Hc) as [Hs Hne].
  change (st_ScopeHash (oa_Status (defaulted (pr_worker w)))) with (st_ScopeHash (oa_Status (pr_worker w))).
  rewrite Hs, (bool_decide_false (oc_Scope client = "")), (bool_decide_true (oc_Scope client = _)) by done. cbn [negb].
  change (oa_Meta (defaulted (pr_worker w))) with (oa_Meta (pr_worker w)). rewrite (cw_deleting _ _ Hc).
  f_equal. apply run_bind_eq, run_cleanup, Hc.
Qed.

Lemma absent_kinds w a kinds :
  (∀ k, In k kinds → In k (cleanupOrder a)) → List.filter (exists_ w) kinds = [] →
  ∀ k, In k kinds → In k resourceKinds ∧ pr_resources w !! k = None.
Proof.
  intros Hin Hf k Hk. split; [by eapply cleanupOrder_kinds, Hin|]. apply eq_None_not_Some. intros Hs.
  assert (In k (List.filter (exists_ w) kinds)) as Hk' by (apply filter_In; split; [done|by apply bool_decide_eq_true_2]).
  by rewrite Hf in Hk'.
Qed.

(** The last reconciliation. *)
Lemma round_last w : cleanable client w → orderSteps w = 0%nat → orderCleaned (round w).
Proof.
  intros Hc Hz. unfold orderSteps in Hz. apply Nat.eq_add_0 in Hz as [Hl Hi]. apply length_zero_iff_nil in Hl.
  pose proof (absent_kinds w _ _ (λ _ Hk, Hk) Hl) as Habs. rewrite (round_cleanup w Hc).
  rewrite (run_bind_eq _ _ _ _ _ (run_deleteResources_absent w _ Hc Habs)).
  destruct (run_release w Hc) as (w' & done & Hr & Hw & Hres & Hd). rewrite Hi in Hd. destruct Hd as [-> Himg].
  assert (run w (finishCleanup apiReader client (cleaning w)) = run w' (dropFinalizer (cleaning w))) as Hf.
  { unfold finishCleanup. rewrite (run_bind _ _ _ _ _ _ Hr). by rewrite (run_bind _ _ _ _ _ _ (run_deleteHosts w' _)). }
  assert (run w' (dropFinalizer (cleaning w)) =
          (w' <| pr_worker := (cleaning w) <| oa_Meta := RemoveFinalizer (oa_Meta (pr_worker w)) openStackFinalizer |> |>,
           ((cleaning w) <| oa_Meta := RemoveFinalizer (oa_Meta (pr_worker w)) openStackFinalizer |>, Ok tt))) as Hdrop by done.
  rewrite (run_bind _ _ _ _ _ _ (eq_trans Hf Hdrop)). unfold reconcileDone. simpl.
  rewrite ContainsFinalizer_removed. simpl. split; [apply ContainsFinalizer_removed|]. simpl. rewrite Hres. split.
  - apply Forall_forall. intros k Hk%list_elem_of_In. apply (Habs k). rewrite <- cleanupOrder_defaulted. exact Hk.
  - rewrite RemoveFinalizer_spec. exact Himg.
Qed.

(** A step: the first resource of the order, or one of the image. *)
Lemma filter_first {A} (test : A → bool) l x rest :
  List.filter test l = x :: rest →
  ∃ pre post, l = pre ++ x :: post ∧ test x = true ∧ List.filter test pre = [] ∧ List.filter test post = rest.
Proof.
  induction l as [|y l IH]; simpl; [done|]. destruct (test y) eqn:Ey.
  - intros [= <- <-]. by exists [], l.
  - intros (pre & post & -> & Hx & Hp & Hr)%IH. exists (y :: pre), post. simpl. by rewrite Ey.
Qed.

Lemma filter_delete w k l :
  ¬ In k l → List.filter (exists_ (w <| pr_resources := delete k (pr_resources w) |>)) l = List.filter (exists_ w) l.
Proof.
  intros Hk. apply filter_ext_in. intros k' Hk'. unfold exists_. simpl. by rewrite lookup_delete_ne by (by intros ->).
Qed.

Lemma cleanupOrder_server a pre k post :
  cleanupOrder a = pre ++ k :: post → k ≠ Server → In Server pre.
Proof. unfold cleanupOrder. destruct pre as [|k' pre]; intros [= -> _] Hne; [done|by left]. Qed.

Lemma round_resource w pre k post :
  cleanable client w → cleanupOrder (pr_worker w) = pre ++ k :: post → exists_ w k = true →
  List.filter (exists_ w) pre = [] →
  cleanable client (round w) ∧
  orderSteps (round w) = (length (List.filter (exists_ w) post) + imageSteps w)%nat.
Proof.
  intros Hc Ho Hk Hpre. rewrite (round_cleanup w Hc), Ho.
  assert (∀ k', In k' pre → In k' resourceKinds ∧ pr_resources w !! k' = None) as Habs.
  { apply (absent_kinds w (pr_worker w)); [|done]. intros k' Hk'. rewrite Ho. apply in_app_iff. by left. }
  assert (In k resourceKinds) as Hkk by (apply (cleanupOrder_kinds (pr_worker w)); rewrite Ho; apply in_app_iff; right; by left).
  assert (NoDup (pre ++ k :: post)) as Hnd by (rewrite <- Ho; apply cleanupOrder_NoDup).
  apply NoDup_app in Hnd as (_ & Hpk & Hkp). apply NoDup_cons in Hkp as [Hkp _].
  assert (k ≠ Server → exists_ w Server = false) as Hsrv.
  { intros Hne. apply bool_decide_eq_false_2. destruct (Habs Server) as [_ ->]; [by eapply cleanupOrder_server|].
    by intros [? ?]. }
  rewrite (run_bind _ _ _ _ _ _ (run_deleteResources_present w pre k post Hc Habs Hkk Hk Hsrv)).
  set (w1 := w <| pr_resources := delete k (pr_resources w) |>). set (a1 := if st_PendingCreate (oa_Status (pr_worker w)) == k then setPending (cleaning w) "" else cleaning w).
  cbv beta iota. destruct (run_reconcileDone w1 a1) as (s & -> & Hag & Hp).
  { unfold a1. by destruct (st_PendingCreate (oa_Status (pr_worker w)) == k). }
  { apply Hc. }
  split.
  - apply (cleanable_step w); [done| | |].
    + intros k' r. rewrite lookup_delete_Some. tauto.
    + unfold a1 in Hag. by destruct (st_PendingCreate (oa_Status (pr_worker w)) == k).
    + intros k' Hk' Hp'. rewrite Hp in Hp'. unfold a1 in Hp'.
      destruct (st_PendingCreate (oa_Status (pr_worker w)) == k) eqn:Ep; simpl in Hp'.
      { apply resourceKinds_nonempty in Hk'. congruence. }
      gobool. rewrite lookup_delete_ne by congruence. by apply (cw_pending _ _ Hc).
  - unfold orderSteps. f_equal. f_equal.
    change (cleanupOrder (pr_worker (w1 <| pr_worker := updStatus (pr_worker w1) s |>))) with (cleanupOrder (pr_worker w)).
    change (exists_ (w1 <| pr_worker := updStatus (pr_worker w1) s |>)) with (exists_ w1). rewrite Ho, List.filter_app. simpl.
    unfold w1 at 2. unfold exists_ at 2. simpl. rewrite lookup_delete_eq. simpl.
    unfold w1. rewrite !filter_delete, Hpre; [done|by rewrite <- list_elem_of_In|].
    intros Hin%list_elem_of_In. apply (Hpk k Hin). by left.
Qed.

Lemma round_image w n :
  cleanable client w → List.filter (exists_ w) (cleanupOrder (pr_worker w)) = [] → imageSteps w = S n →
  cleanable client (round w) ∧ orderSteps (round w) = n.
Proof.
  intros Hc Hl Hi. pose proof (absent_kinds w _ _ (λ _ Hk, Hk) Hl) as Habs. rewrite (round_cleanup w Hc).
  rewrite (run_bind_eq _ _ _ _ _ (run_deleteResources_absent w _ Hc Habs)).
  destruct (run_release w Hc) as (w' & done & Hr & Hw & Hres & Hd). rewrite Hi in Hd. destruct Hd as (-> & Hn & Hc').
  assert (run w (finishCleanup apiReader client (cleaning w)) = (w', (cleaning w, Ok tt))) as Hf.
  { unfold finishCleanup. by rewrite (run_bind _ _ _ _ _ _ Hr). }
  rewrite (run_bind _ _ _ _ _ _ Hf). destruct (run_reconcileDone w' (cleaning w)) as (s & -> & Hag & Hp).
  { by rewrite Hw. } { apply Hc'. }
  assert (w' = w' <| pr_resources := pr_resources w' |>) as Heq by (by destruct w').
  split.
  - rewrite Heq. apply (cleanable_step w'); [done|done|by rewrite Hw|]. intros k Hk Hpk.
    rewrite Hp in Hpk. apply (cw_pending _ _ Hc' k Hk). rewrite Hw. exact Hpk.
  - unfold orderSteps. replace (List.filter _ _) with (@nil Kind); [done|]. symmetry. rewrite <- Hl. simpl. rewrite Hw.
    unfold exists_. simpl. by rewrite Hres.
Qed.

Lemma round_progress w n :
  cleanable client w → orderSteps w = S n → cleanable client (round w) ∧ orderSteps (round w) = n.
Proof.
  intros Hc Hn. unfold orderSteps in Hn. destruct (List.filter (exists_ w) (cleanupOrder (pr_worker w))) as [|k rest] eqn:Ef.
  - by apply round_image.
  - apply filter_first in Ef as (pre & post & Ho & Hk & Hpre & <-).
    destruct (round_resource w pre k post Hc Ho Hk Hpre) as [? ->]. simpl in Hn. split; [done|lia].
Qed.
End progress.

(** ** Properties *)
Section properties.
Context `{KubeLib} `{!KubeLaws} `{NetURL} `{HTTPDate} `{UUID}.

Lemma stepsLeft_order w : stepsLeft w = orderSteps w.
Proof.
  unfold stepsLeft, orderSteps, cleanupOrder. f_equal. destruct (_ == CleanupPolicyRetain); simpl.
  all: destruct (exists_ w Server), (exists_ w DiscoveryVolume), (exists_ w Port), (exists_ w OSVolume); reflexivity.
Qed.

Lemma orderCleaned_cleaned w : orderCleaned w → cleaned w.
Proof.
  intros (Hf & Hall & Hc). rewrite Forall_forall in Hall. unfold cleanupOrder in Hall.
  split; [done|]. split_and!; [apply Hall; set_solver..| |done].
  intros Hp. apply Hall. rewrite (bool_decide_eq_false_2 _ Hp). set_solver.
Qed.

(** C10: the cleanup of a worker terminates with nothing left: in a project that
    answers, where volumes and the port stay attached as long as the server exists,
    and when the Agents of the worker are unbound, the reconciliations of a deleted
    worker delete one resource or take one step of the image each; after one more
    than the steps that were left, the finalizer is given up, and gone are the server, the discovery volume, the
    port, the OS volume unless the policy of the volume is Retain,
    and the image, unless other workers refer to it.  The cleanup policy of the worker is not Retain. *)
Theorem cleanup_terminates (apiReader : reader) (client : osClient) (secret : Secret) (hosts : list Unstructured)
    (w : project)
    (Hhosts : ∀ host, In host hosts → agentDeletionBlocker host = "" ∧
       ∃ o, SetNestedField (un_Object host) (ABool false) ["spec"; "approved"] = Ok o)
    (Hw : cleanable client w) :
  cleaned (Nat.iter (S (stepsLeft w)) (round apiReader client secret hosts) w).
Proof.
  rewrite stepsLeft_order. apply orderCleaned_cleaned.
  apply (iter_progress _ (cleanable client) orderCleaned orderSteps); [|..|done].
  - by apply round_last.
  - by apply round_progress.
Qed.
End properties.
