(* ===== verification/OpenStackProvision.v ===== *)
(** * A worker is provisioned

    The counterpart of OpenStackCreate.v: in a project that cooperates the creation
    protocol does not get stuck.  The project is a state that the calls change: a
    resource that is created is there at once and usable from the next
    reconciliation on (volumes are "creating", an uploaded image is "saving", a
    server is in "BUILD" until then).  Every reconciliation of a live worker takes at
    least one step: the finalizer, the scope of the project, the recovery of a
    creation whose outcome was not recorded, the port, the OS volume, its boot flag,
    the discovery image, the discovery volume and the server; when no step is left,
    the worker has its server. *)
From S2P Require Import Prelude OpenStackErrors Api Identity Planner OwnedVMs VsphereObjects Sha256 Effects K8s Objects.
From S2P Require Import VMProvider IsoCache InfraEnv AgentMachine PoolController Govc OpenStackImages OpenStackAgent.
From S2P Require Import OpenStackCreate OpenStackProgress.

(** ** The site: the project and the cluster of the worker *)
Record site := mkSite {
  si_worker : OpenStackAgent;
  si_resources : gmap Kind Resource;
  si_cache : option ConfigMap;
  si_image : option Resource }.

#[export] Instance eta_site : Eta site := λ w,
  mkSite (si_worker w) (si_resources w) (si_cache w) (si_image w).

(** What the site answers with: the client of the project, the objects the worker
    refers to, the discovery image and the identifiers that are assigned. *)
Record supply := mkSupply {
  sp_Client : osClient;
  sp_Secret : Secret;
  sp_AgentMachine : Unstructured;
  sp_InfraEnv : Unstructured;
  sp_URL : string;
  sp_Body : string;
  sp_NewID : Kind → string;
  sp_MAC : string;
  sp_CacheUID : string;
  sp_Now : Time }.

Section site.
Context (sp : supply).

Definition createdResource (k : Kind) (name owner : string) (a : OpenStackAgent) : Resource :=
  if k == Image then mkResource (st_ImageID (oa_Status a)) name owner "queued" "" false false 0
  else mkResource (sp_NewID sp k) name owner
         (if k == Port then "DOWN" else if k == Server then "BUILD" else "creating")
         (if k == Port then sp_MAC sp else "") false false 0.

Definition owned (owner : string) (r : option Resource) : result Resource :=
  match r with
  | Some r => if rs_Owner r != owner then Err (osErr ErrOwnership) else Ok r
  | None => Err (osErr ErrNotFound)
  end.

Definition siteResource (w : site) (k : Kind) : option Resource :=
  if k == Image then si_image w else si_resources w !! k.

Definition withTest (test : Resource → bool) (r : option Resource) : option Resource :=
  match r with Some r => if test r then Some r else None | None => None end.

Definition siteOS {X : Type} (e : osClientE X) (w : site) : site * X :=
  match e in osClientE X return site * X with
  | OSFactory _ _ => (w, Ok (sp_Client sp))
  | OSFind _ k name owner => (w, owned owner (withTest (λ r, rs_Name r == name) (siteResource w k)))
  | OSGet _ k id owner => (w, owned owner (withTest (λ r, rs_ID r == id) (siteResource w k)))
  | OSCreate _ k name owner a =>
      let r := createdResource k name owner a in
      (if k == Image then w <| si_image := Some r |> else w <| si_resources := <[k := r]> (si_resources w) |>, Ok r)
  | OSSetBootable _ id _ =>
      (w <| si_resources := alter (λ r, r <| rs_Bootable := true |>) OSVolume (si_resources w) |>, Ok tt)
  | OSUploadImage _ id _ content =>
      (w <| si_image := match si_image w with
                        | Some r => Some (r <| rs_State := "saving" |> <| rs_SizeBytes := stringSize content |>)
                        | None => None
                        end |>, Ok tt)
  | OSDelete _ _ _ _ => (w, unavailable)
  end.

Definition siteGet (w : site) (k : kind) (ns name : string) : result (obj k) :=
  match k return result (obj k) with
  | KOpenStackAgent => if (oaNamespace (si_worker w) == ns) && (oaName (si_worker w) == name)
                       then Ok (si_worker w) else absentErr
  | KSecret => Ok (sp_Secret sp)
  | KAgentMachine => Ok (sp_AgentMachine sp)
  | KInfraEnv => Ok (sp_InfraEnv sp)
  | KConfigMap => match si_cache w with
                  | Some c => if om_Name (cm_Meta c) == name then Ok c else absentErr
                  | None => absentErr
                  end
  | _ => absentErr
  end.

(** Writes are stored as they are sent; a ConfigMap that is created gets its UID. *)
Definition siteAnswer (X : Type) (e : callE X) (w : site) : site * X :=
  match e in callE X return site * X with
  | Get _ k ns name => (w, siteGet w k ns name)
  | ListObjs _ k _ => (w, Ok [])
  | Create k o =>
      match k return obj k → site * result (obj k) with
      | KConfigMap => λ c, let c' := c <| cm_Meta := (cm_Meta c) <| om_UID := sp_CacheUID sp |> |> in
                           (w <| si_cache := Some c' |>, Ok c')
      | _ => λ o, (w, Ok o)
      end o
  | Update k o =>
      (match k return obj k → site with
       | KOpenStackAgent => λ o, w <| si_worker := o |>
       | KConfigMap => λ o, w <| si_cache := Some o |>
       | _ => λ _, w
       end o, Ok o)
  | StatusUpdate k o =>
      match k return obj k → site * result (obj k) with
      | KOpenStackAgent => λ o, let o' := updStatus (si_worker w) (oa_Status o) in (w <| si_worker := o' |>, Ok o')
      | _ => λ o, (w, Ok o)
      end o
  | Patch _ _ after _ => (w, Ok after)
  | Delete _ _ _ => (w, unavailable)
  | Now => (w, sp_Now sp)
  | Clock => (w, λ _ _, sp_Now sp)
  | Govc _ => (w, unavailable)
  | GovcStart _ => (w, tt)
  | Select => (w, CommandDone (Ok tt))
  | MkdirTemp => (w, unavailable)
  | HttpGet _ _ => (w, Ok (mkHttpResponse 200 (-1) "" (Ok (sp_Body sp))))
  | ReadFile _ => (w, Ok (sp_Body sp))
  | WriteFile _ _ => (w, Ok tt)
  | CreateTemp _ => (w, Ok "/tmp/agent-forge-openstack-1.iso")
  | CloseFile _ => (w, Ok tt)
  | RemoveFile _ => (w, tt)
  | Metric _ => (w, tt)
  | Eventf _ _ _ _ _ _ => (w, tt)
  | OpenStack e => siteOS e w
  end.

(** Between two reconciliations the project finishes what it has begun. *)
Definition settleResource (r : Resource) : Resource :=
  if rs_State r == "creating" then r <| rs_State := "available" |>
  else if rs_State r == "saving" then r <| rs_State := "active" |>
  else if rs_State r == "BUILD" then r <| rs_State := "ACTIVE" |>
  else r.

Definition settle (w : site) : site :=
  w <| si_resources := settleResource <$> si_resources w |> <| si_image := settleResource <$> si_image w |>.
End site.

(** ** What is left to do *)
Section provisioning.
Context `{KubeLib} `{NetURL} `{UUID}.
Context (sp : supply).

Definition bodySHA : string := sha256Hex (sp_Body sp).
Definition siteCacheName : string := imageCacheKey (oc_Scope (sp_Client sp)) (om_UID (un_Meta (sp_InfraEnv sp))) bodySHA.

(** The supplies suffice: the project has a scope, the discovery image is available
    and of an acceptable size, the identifiers assigned are not empty. *)
Record supplied : Prop := {
  su_scope : oc_Scope (sp_Client sp) ≠ "";
  su_verdict : (infraEnvVerdict (sp_InfraEnv sp)).1.1 = true;
  su_image : ∃ message, infraEnvImage (sp_InfraEnv sp) = (true, sp_URL sp, message);
  su_url : url_Parse (sp_URL sp) ≠ None;
  su_body : 0 < stringSize (sp_Body sp) ≤ maxISODownloadSize;
  su_newID : ∀ k, sp_NewID sp k ≠ "";
  su_mac : normalizeMAC (sp_MAC sp) ≠ "" }.

(** A resource of the worker between two reconciliations. *)
Definition usable (worker : OpenStackAgent) (k : Kind) (r : Resource) : Prop :=
  rs_ID r ≠ "" ∧ rs_Owner r = oaUID worker ∧ rs_Name r = resourceName worker k ∧
  (k = Port → normalizeMAC (rs_MAC r) ≠ "") ∧
  (k = OSVolume ∨ k = DiscoveryVolume → rs_State r = "available") ∧
  (k = Server → rs_State r = "ACTIVE").

Definition hasResource (w : site) (k : Kind) : bool := bool_decide (is_Some (si_resources w !! k)).
Definition bootable (w : site) : bool :=
  match si_resources w !! OSVolume with Some r => rs_Bootable r | None => false end.
Definition imageActive (w : site) : bool :=
  match si_image w with Some r => rs_State r == "active" | None => false end.

Definition one (missing : bool) : nat := if missing then 1 else 0.

(** Everything but the recovery of a pending creation and the server. *)
Definition stepsBeforeServer (w : site) : nat :=
  let s := oa_Status (si_worker w) in
  one (negb (ContainsFinalizer (oa_Meta (si_worker w)) openStackFinalizer)) +
  one (st_ScopeHash s == "") +
  one ((st_PortID s == "") || (st_MACAddress s == "")) +
  one (negb (hasResource w OSVolume)) + one (negb (bootable w)) +
  one (negb (imageActive w)) +
  one (negb (hasResource w DiscoveryVolume)).

Definition stepsToServer (w : site) : nat :=
  let s := oa_Status (si_worker w) in
  stepsBeforeServer w + one (st_PendingCreate s != "") + one (st_ServerID s == "").

(** A live worker that is wanted and whose project is in order: a resource exists
    when it is recorded or its creation is pending, and the cache and the image are
    those of the discovery image. *)
Record provisionable (w : site) : Prop := {
  pv_live : isDeleting (oa_Meta (si_worker w)) = false;
  pv_demand : let ref := oas_AgentMachineRef (oa_Spec (si_worker w)) in
    or_UID ref ≠ "" ∧ or_Name ref ≠ "" ∧ or_Namespace ref ≠ "" ∧
    or_UID ref = om_UID (un_Meta (sp_AgentMachine sp)) ∧ isDeleting (un_Meta (sp_AgentMachine sp)) = false;
  pv_scope : let scope := st_ScopeHash (oa_Status (si_worker w)) in scope = "" ∨ scope = oc_Scope (sp_Client sp);
  pv_phase : st_Phase (oa_Status (si_worker w)) ≠ openStackPhaseRefreshingImage;
  pv_pending : let pending := st_PendingCreate (oa_Status (si_worker w)) in
    pending = "" ∨ (In pending resourceKinds ∧ hasResource w pending = true);
  pv_resources : ∀ k, In k resourceKinds →
    match si_resources w !! k with
    | Some r => usable (si_worker w) k r ∧
        (resourceID k (oa_Status (si_worker w)) = rs_ID r ∨
         (resourceID k (oa_Status (si_worker w)) = "" ∧ st_PendingCreate (oa_Status (si_worker w)) = k))
    | None => resourceID k (oa_Status (si_worker w)) = ""
    end;
  pv_server : hasResource w Server = true → stepsBeforeServer w = 0%nat;
  pv_image : let s := oa_Status (si_worker w) in
    (st_ImageCacheName s = "" ∧ st_ImageID s = "") ∨
    (st_ImageCacheName s = siteCacheName ∧ st_ISOSHA256 s = bodySHA ∧ st_ISOSizeBytes s = stringSize (sp_Body sp) ∧
     (st_ImageID s = "" ∨ ∃ c, si_cache w = Some c ∧ st_ImageID s = imageIDForCache c));
  pv_cache : ∀ c, si_cache w = Some c →
    om_Name (cm_Meta c) = siteCacheName ∧ cacheLabel c = imageCacheOwnedValue ∧ cachePhase c = "Active" ∧
    isDeleting (cm_Meta c) = false;
  pv_stored : ∀ r, si_image w = Some r →
    ∃ c, si_cache w = Some c ∧ rs_ID r = imageIDForCache c ∧ rs_Owner r = om_UID (cm_Meta c) ∧
      (rs_State r = "queued" ∨ (rs_State r = "active" ∧ rs_SizeBytes r = stringSize (sp_Body sp))) }.

(** Everything is there and recorded. *)
Definition provisioned (w : site) : Prop :=
  (∀ k, In k resourceKinds → ∃ r, si_resources w !! k = Some r ∧ resourceID k (oa_Status (si_worker w)) = rs_ID r ∧
     rs_ID r ≠ "" ∧ rs_Owner r = oaUID (si_worker w)) ∧
  bootable w = true ∧ imageActive w = true ∧
  ContainsFinalizer (oa_Meta (si_worker w)) openStackFinalizer = true ∧
  st_ScopeHash (oa_Status (si_worker w)) = oc_Scope (sp_Client sp).
End provisioning.

(** ** Proofs *)

(** The status without what no step reads. *)
Definition core (s : OpenStackAgentStatus) : OpenStackAgentStatus :=
  s <| st_ObservedGeneration := 0 |> <| st_Conditions := [] |>.

Lemma core_eq s s' : core s = core s' →
  st_Phase s = st_Phase s' ∧ st_ScopeHash s = st_ScopeHash s' ∧ st_PendingCreate s = st_PendingCreate s' ∧
  (∀ k, resourceID k s = resourceID k s') ∧ st_MACAddress s = st_MACAddress s' ∧ st_ImageID s = st_ImageID s' ∧
  st_ImageCacheName s = st_ImageCacheName s' ∧ st_ISOSHA256 s = st_ISOSHA256 s' ∧ st_ISOSizeBytes s = st_ISOSizeBytes s'.
Proof. destruct s, s'. intros [=]. subst. by split_and!. Qed.

Lemma core_set {T} (f : OpenStackAgentStatus → T) s s' : (∀ s, f s = f (core s)) → core s = core s' → f s = f s'.
Proof. intros Hf Hc. by rewrite Hf, Hc, <- Hf. Qed.

Lemma settle_state r : settleResource r = r <| rs_State := rs_State (settleResource r) |>.
Proof. unfold settleResource. repeat destruct (_ == _); by destruct r. Qed.

Lemma settle_bootable r b : settleResource (r <| rs_Bootable := b |>) = (settleResource r) <| rs_Bootable := b |>.
Proof. unfold settleResource. simpl. by repeat destruct (_ == _). Qed.

Lemma settle_usable worker k r : usable worker k r → usable worker k (settleResource r).
Proof.
  intros (Hi & Ho & Hn & Hm & Hv & Hs). rewrite settle_state. unfold usable. simpl. split_and!; try done.
  - intros Hk. unfold settleResource. rewrite (Hv Hk). simpl. by apply Hv.
  - intros Hk. unfold settleResource. rewrite (Hs Hk). simpl. by apply Hs.
Qed.

Section proofs.
Context `{KubeLib} `{!KubeLaws} `{NetURL} `{HTTPDate} `{UUID}.
Context (apiReader : reader) (sp : supply) (Hsp : supplied sp).

Abbreviation run := (runState (siteAnswer sp)).
Abbreviation client := (sp_Client sp).
Abbreviation with_status w s := (mkSite (updStatus (si_worker w) s) (si_resources w) (si_cache w) (si_image w)).

Lemma site_eta w : with_status w (oa_Status (si_worker w)) = w.
Proof. by destruct w as [[] ? ? ?]. Qed.

Lemma run_site_status w a :
  oa_Meta a = oa_Meta (si_worker w) →
  ∃ a', run w (status apiReader a) =
      (with_status w ((oa_Status a) <| st_ObservedGeneration := om_Generation (oa_Meta a) |>), (a', Ok tt)) ∧
    oa_Meta a' = oa_Meta a ∧ core (oa_Status a') = core (oa_Status a).
Proof.
  intros Hm. unfold status. cbv zeta. set (s := (oa_Status a) <| st_ObservedGeneration := _ |>).
  cbn [bind call]. cbn [runState siteAnswer siteGet]. unfold oaNamespace, oaName. simpl. rewrite Hm. bdsimp.
  destruct (oa_Status (si_worker w) == s) eqn:E; cbn [runState].
  - exists (updStatus a s). split; [|done]. f_equal. gobool. rewrite <- E. by destruct w as [[] ? ? ?].
  - eexists. split; [done|]. done.
Qed.

Lemma run_site_done w a :
  oa_Meta a = oa_Meta (si_worker w) → ContainsFinalizer (oa_Meta (si_worker w)) openStackFinalizer = true →
  ∃ s, (run w (reconcileDone apiReader a)).1 = with_status w s ∧ core s = core (oa_Status a).
Proof.
  intros Hm Hf. unfold reconcileDone. rewrite Hm, Hf. cbn [negb]. cbv zeta. set (b := readyCondition a _ _ _).
  destruct (run_site_status w b Hm) as (a' & Hr & _). rewrite (run_bind _ _ _ _ _ _ Hr). by eexists.
Qed.

Lemma run_download w a :
  ∃ modified, run w (downloadDiscovery apiReader a) =
    (w, Ok ("/tmp/agent-forge-openstack-1.iso",
            mkIsoDownloadResult (bodySHA sp) (stringSize (sp_Body sp)) modified false)).
Proof.
  destruct Hsp as [_ Hv [msg Hi] Hu [Hb Hb'] _ _]. unfold downloadDiscovery, discoveryISOAvailable. simpl.
  destruct (infraEnvVerdict _) as [[created u] d]. simpl in Hv. subst created. simpl. rewrite Hi. simpl.
  unfold downloadISO. destruct (url_Parse (sp_URL sp)); [|done]. simpl.
  replace (maxISODownloadSize <? stringSize (sp_Body sp)) with false by lia. simpl.
  rewrite bool_decide_false by lia. by eexists.
Qed.

(** *** One resource *)
Lemma resource_not_image k : In k resourceKinds → (k == Image) = false.
Proof. intros Hk. apply bool_decide_eq_false_2. by apply resourceKinds_not_image. Qed.

Lemma server_kind : In Server resourceKinds.
Proof. simpl. tauto. Qed.
Lemma osVolume_kind : In OSVolume resourceKinds.
Proof. simpl. tauto. Qed.
Lemma discoveryVolume_kind : In DiscoveryVolume resourceKinds.
Proof. simpl. tauto. Qed.

(** A resource that is neither there nor pending is created. *)
Lemma run_ensure_new w a k :
  In k resourceKinds → oa_Meta a = oa_Meta (si_worker w) → si_resources w !! k = None →
  resourceID k (oa_Status a) = "" → st_PendingCreate (oa_Status a) = "" →
  ∃ s a' b, let r := createdResource sp k (resourceName a k) (oaUID a) b in
    run w (ensureResource apiReader client a k) =
      ((with_status w s) <| si_resources := <[k := r]> (si_resources w) |>, (a', Ok r)) ∧
    oa_Meta a' = oa_Meta a ∧
    core (oa_Status a') = core ((setResourceID k (sp_NewID sp k) (oa_Status a)) <| st_PendingCreate := "" |>).
Proof.
  intros Hk Hm Hn Hid Hp. unfold ensureResource. cbv zeta. rewrite Hid, Hp.
  change (negb ("" == "")) with false. cbn [bind call runState siteAnswer siteOS fst snd].
  unfold siteResource. rewrite (resource_not_image k Hk), Hn. cbn [withTest owned].
  change (negb (osErrorIs (osErr ErrNotFound) ErrNotFound)) with false. cbv iota.
  destruct (run_site_status w (setPending a k) Hm) as (a1 & Hr & Hm1 & Hc1).
  rewrite (run_bindSt _ _ _ _ _ _ _ Hr). unfold createResource. cbn [bind call]. simpl.
  rewrite (resource_not_image k Hk).
  assert (∀ b, rs_ID (createdResource sp k (resourceName a1 k) (oaUID a1) b) = sp_NewID sp k) as Hnew.
  { intros b. unfold createdResource. by rewrite (resource_not_image k Hk). }
  rewrite Hnew, bool_decide_false by apply (su_newID _ Hsp). simpl.
  assert (oaUID a1 = oaUID a) as Hu by (unfold oaUID; by rewrite Hm1).
  assert (resourceName a1 k = resourceName a k) as Hrn by (unfold resourceName; by rewrite Hu).
  eexists _, _, a1. rewrite Hu, Hrn in *. split; [reflexivity|]. split; [exact Hm1|]. unfold recordResource. rewrite Hnew.
  apply (core_set (λ s, core ((setResourceID k (sp_NewID sp k) s) <| st_PendingCreate := "" |>))) in Hc1.
  - etransitivity; [exact Hc1|]. simpl. unfold setResourceID. by repeat destruct (k == _).
  - intros s. unfold setResourceID. by repeat destruct (k == _).
Qed.

(** A recorded resource is read. *)
Lemma run_ensure_recorded w a k r :
  In k resourceKinds → si_resources w !! k = Some r → usable (si_worker w) k r → oaUID a = oaUID (si_worker w) →
  resourceID k (oa_Status a) = rs_ID r →
  run w (ensureResource apiReader client a k) = (w, (a, Ok r)).
Proof.
  intros Hk Hr (Hne & Ho & _) Hu Hid. unfold ensureResource. cbv zeta. rewrite Hid, bool_decide_false by done.
  cbn [negb bind call]. simpl. unfold siteResource. rewrite (resource_not_image k Hk), Hr, Hu. cbn [withTest]. rewrite bool_decide_true by done. cbn [owned]. rewrite Ho. by bdsimp.
Qed.

(** *** The image *)

(** The cache and the image of the worker's status, as [provisionable] has them. *)
Definition imageInOrder (s : OpenStackAgentStatus) (cache : option ConfigMap) : Prop :=
  st_ImageCacheName s = siteCacheName sp ∧ st_ISOSHA256 s = bodySHA sp ∧ st_ISOSizeBytes s = stringSize (sp_Body sp) ∧
  (st_ImageID s = "" ∨ ∃ c, cache = Some c ∧ st_ImageID s = imageIDForCache c).
Definition cacheInOrder (c : ConfigMap) : Prop :=
  om_Name (cm_Meta c) = siteCacheName sp ∧ cacheLabel c = imageCacheOwnedValue ∧ cachePhase c = "Active" ∧
  isDeleting (cm_Meta c) = false.

(** The fields of the status a preparation leaves alone. *)
Definition withoutImage (s : OpenStackAgentStatus) : OpenStackAgentStatus :=
  (core s) <| st_ImageID := "" |> <| st_ImageCacheName := "" |> <| st_ISOSHA256 := "" |> <| st_ISOSizeBytes := 0 |>
         <| st_InfraEnvUID := "" |>.

Lemma run_acquire w a :
  (∀ c, si_cache w = Some c → cacheInOrder c) → st_ImageCacheName (oa_Status a) = siteCacheName sp →
  ∃ c, run w (acquireCache apiReader a) = (w <| si_cache := Some c |>, Ok c) ∧ cacheInOrder c ∧
    (∀ c', si_cache w = Some c' → om_UID (cm_Meta c) = om_UID (cm_Meta c')).
Proof.
  intros Hc Hn. unfold acquireCache. cbn [bind call runState siteAnswer siteGet fst snd]. rewrite Hn.
  destruct (si_cache w) as [c|] eqn:Ec.
  - destruct (Hc c eq_refl) as (Hname & Hl & Hp & Hd). rewrite bool_decide_true, Hl, Hp, Hd by done. simpl.
    destruct (mapGet _ _ == ""); simpl.
    + eexists. split; [done|]. split; [done|]. by intros c' [= <-].
    + exists c. split; [by destruct w; simplify_eq/=|]. split; [done|]. by intros c' [= <-].
  - eexists. split_and!; try done.
Qed.

(** The image of the cache: missing, queued, or active with the size of the
    discovery image. *)
Definition storedInOrder (image : option Resource) (cache : option ConfigMap) : Prop :=
  ∀ r, image = Some r → ∃ c, cache = Some c ∧ rs_ID r = imageIDForCache c ∧ rs_Owner r = om_UID (cm_Meta c) ∧
    (rs_State r = "queued" ∨ (rs_State r = "active" ∧ rs_SizeBytes r = stringSize (sp_Body sp))).

Lemma run_upload w a path owner r :
  st_ISOSHA256 (oa_Status a) = bodySHA sp → si_image w = Some r →
  run w (uploadDiscoverySnapshot apiReader client a path owner) =
    (w <| si_image := Some (r <| rs_State := "saving" |> <| rs_SizeBytes := stringSize (sp_Body sp) |>) |>, (a, Ok tt)).
Proof.
  intros Hs Hi. unfold uploadDiscoverySnapshot. destruct (path == "").
  - destruct (run_download w a) as [m Hd]. rewrite (run_bind _ _ _ _ _ _ Hd). simpl. rewrite Hs. bdsimp.
    simpl. by rewrite Hi.
  - simpl. by rewrite Hi.
Qed.

Lemma imageReady_queued a path owner image :
  rs_State image = "queued" →
  imageReady apiReader client a path owner image =
    let* (a, _) := uploadDiscoverySnapshot apiReader client a path owner in Return (a, Ok false).
Proof. intros Hq. unfold imageReady. by rewrite Hq. Qed.

(** The image once the cache is acquired and its identifier recorded. *)
Lemma run_image_state w a path c :
  let owner := om_UID (cm_Meta c) in
  si_cache w = Some c → storedInOrder (si_image w) (Some c) → st_ISOSHA256 (oa_Status a) = bodySHA sp →
  st_ISOSizeBytes (oa_Status a) = stringSize (sp_Body sp) → st_ImageID (oa_Status a) = imageIDForCache c →
  ∃ image, run w
      (let! image := call (OpenStack (OSGet client Image (imageIDForCache c) owner)) in
       let! image := match image with
                     | Err e => if osErrorIs e ErrNotFound
                                then call (OpenStack (OSCreate client Image (st_ImageCacheName (oa_Status a)) owner a))
                                else Return (Err e)
                     | Ok image => Return (Ok image)
                     end in
       match image with
       | Err e => Return (a, Err e)
       | Ok image => imageReady apiReader client a path owner image
       end) = (w <| si_image := Some image |>, (a, Ok (imageActive w))) ∧
    rs_ID image = imageIDForCache c ∧ rs_Owner image = owner ∧
    (if imageActive w then si_image w = Some image
     else rs_State image = "saving" ∧ rs_SizeBytes image = stringSize (sp_Body sp)).
Proof.
  cbv zeta. intros Hc Hi Hs Hz Hid. cbn [bind call runState siteAnswer siteOS fst snd]. unfold siteResource.
  change (Image == Image) with true. cbv iota. unfold imageActive. destruct (si_image w) as [r|] eqn:Ei.
  - destruct (Hi r eq_refl) as (c' & [= <-] & Hrid & Hro & Hst). cbn [withTest]. rewrite bool_decide_true by done.
    cbn [owned]. rewrite Hro. change (bind (Return ?x) ?f) with (f x). rewrite bool_decide_true by done. cbn [negb bind].
    destruct Hst as [Hq|[Hq Hsz]].
    + rewrite (imageReady_queued _ _ _ _ Hq), Hq. rewrite (run_bindSt _ _ _ _ _ _ _ (run_upload w a path _ r Hs Ei)). eexists. split; [reflexivity|]. done.
    + unfold imageReady. rewrite Hq, Hsz, Hz. cbn. bdsimp. exists r. split; [|done]. by destruct w; simplify_eq/=.
  - cbn [withTest owned bind].
    change (if osErrorIs (osErr ErrNotFound) ErrNotFound then ?p else _) with p. cbn [call bind runState siteAnswer siteOS fst snd].
    rewrite imageReady_queued by done. erewrite run_bindSt by (apply run_upload; [exact Hs|reflexivity]).
    eexists. split; [reflexivity|]. done.
Qed.

(** What a preparation of the image leaves behind. *)
Record prepared (w : site) (a : OpenStackAgent) (s : OpenStackAgentStatus) (a' : OpenStackAgent) (c : ConfigMap)
    (image : Resource) : Prop := {
  pp_meta : oa_Meta a' = oa_Meta a;
  pp_rest : withoutImage (oa_Status a') = withoutImage (oa_Status a);
  pp_status : imageInOrder (oa_Status a') (Some c);
  pp_cache : cacheInOrder c;
  pp_id : rs_ID image = imageIDForCache c;
  pp_owner : rs_Owner image = om_UID (cm_Meta c);
  pp_image : if imageActive w then si_image w = Some image
             else rs_State image = "saving" ∧ rs_SizeBytes image = stringSize (sp_Body sp) }.

Lemma storedInOrder_same image c c' :
  om_UID (cm_Meta c') = om_UID (cm_Meta c) → storedInOrder image (Some c) → storedInOrder image (Some c').
Proof.
  intros Hu Hs r Hr. destruct (Hs r Hr) as (c0 & [= <-] & Hid & Ho & Hst). exists c'. unfold imageIDForCache in *.
  by rewrite Hu.
Qed.

Lemma run_ensure_image w a path :
  (∀ c, si_cache w = Some c → cacheInOrder c) → imageInOrder (oa_Status a) (si_cache w) →
  storedInOrder (si_image w) (si_cache w) → oa_Meta a = oa_Meta (si_worker w) →
  ∃ s a' c image, run w (ensureDiscoveryImage apiReader client a path) =
      (mkSite (updStatus (si_worker w) s) (si_resources w) (Some c) (Some image), (a', Ok (imageActive w))) ∧
    prepared w a s a' c image.
Proof.
  intros Hc (Hn & Hs & Hz & Hid) Hst Hm. destruct (run_acquire w a Hc Hn) as (c & Ha & Hco & Hu).
  assert (storedInOrder (si_image w) (Some c)) as Hst'.
  { destruct (si_cache w) as [c0|] eqn:Ec; [by apply (storedInOrder_same _ c0), Hst; apply Hu|].
    intros r Hr. by destruct (Hst r Hr) as (? & ? & _). }
  assert (st_ImageID (oa_Status a) = "" ∨ st_ImageID (oa_Status a) = imageIDForCache c) as Hid'.
  { destruct Hid as [?|(c0 & Hc0 & ->)]; [by left|right]. unfold imageIDForCache. by rewrite (Hu c0 Hc0). }
  unfold ensureDiscoveryImage. rewrite (run_bind _ _ _ _ _ _ Ha). cbv zeta.
  set (w1 := w <| si_cache := Some c |>).
  assert (∃ s1 a1, run w1 (if st_ImageID (oa_Status a) == ""
       then status apiReader (updStatus a ((oa_Status a) <| st_ImageID := imageIDForCache c |>)) else Return (a, Ok tt)) =
     (with_status w1 s1, (a1, Ok tt)) ∧ oa_Meta a1 = oa_Meta a ∧ withoutImage (oa_Status a1) = withoutImage (oa_Status a) ∧
     st_ImageID (oa_Status a1) = imageIDForCache c ∧ st_ImageCacheName (oa_Status a1) = siteCacheName sp ∧
     st_ISOSHA256 (oa_Status a1) = bodySHA sp ∧ st_ISOSizeBytes (oa_Status a1) = stringSize (sp_Body sp))
    as (s1 & a1 & Hr & Hm1 & Hw1 & Hid1 & Hn1 & Hs1 & Hz1).
  { destruct (st_ImageID (oa_Status a) == "") eqn:Ei; gobool.
    - destruct (run_site_status w1 (updStatus a ((oa_Status a) <| st_ImageID := imageIDForCache c |>)) Hm)
        as (a1 & Hr & Hm1 & Hc1). eexists _, a1. split; [exact Hr|].
      apply core_eq in Hc1 as Hf. destruct Hf as (_ & _ & _ & _ & _ & -> & -> & -> & ->). split_and!; try done.
      unfold withoutImage. by rewrite Hc1.
    - destruct Hid' as [?|Hid']; [done|]. exists (oa_Status (si_worker w)), a. split_and!; try done.
      by destruct w as [[] ? ? ?]. }
  rewrite (run_bindSt _ _ _ _ _ _ _ Hr). rewrite Hid1, bool_decide_true by done. cbn [negb].
  destruct (run_image_state (with_status w1 s1) a1 path c eq_refl Hst' Hs1 Hz1 Hid1) as (image & Hi & Hii & Hio & Him).
  cbv zeta in Hi. exists s1, a1, c, image. split; [exact Hi|]. split; try done.
  split_and!; try done. right. by exists c.
Qed.

Lemma run_prepare w a :
  (∀ c, si_cache w = Some c → cacheInOrder c) →
  (st_ImageCacheName (oa_Status a) = "" ∧ st_ImageID (oa_Status a) = "") ∨ imageInOrder (oa_Status a) (si_cache w) →
  storedInOrder (si_image w) (si_cache w) → oa_Meta a = oa_Meta (si_worker w) →
  siteCacheName sp ≠ "" →
  ∃ s a' c image, run w (prepareDiscoveryImage apiReader client a) =
      (mkSite (updStatus (si_worker w) s) (si_resources w) (Some c) (Some image), (a', Ok (imageActive w))) ∧
    prepared w a s a' c image.
Proof.
  intros Hc Hi Hst Hm Hne. unfold prepareDiscoveryImage. destruct (st_ImageCacheName (oa_Status a) == "") eqn:En; gobool.
  - destruct Hi as [[_ Hid]|(Hn & _)]; [|by rewrite <- Hn in Hne].
    cbn [bind call runState siteAnswer siteGet fst snd].
    destruct (run_download w a) as [m Hd]. rewrite (run_bind _ _ _ _ _ _ Hd). cbv beta iota zeta. cbn [dl_SHA256 dl_SizeBytes].
    set (a0 := updStatus a _). destruct (run_site_status w a0 Hm) as (a1 & Hr & Hm1 & Hc1).
    set (w1 := with_status w _) in Hr. apply core_eq in Hc1 as Hf. destruct Hf as (_ & _ & _ & _ & _ & Hf1 & Hf2 & Hf3 & Hf4).
    destruct (run_ensure_image w1 a1 "/tmp/agent-forge-openstack-1.iso" Hc) as (s & a' & c & image & Hrun & Hp).
    { unfold imageInOrder. rewrite Hf1, Hf2, Hf3, Hf4. split_and!; try done. left. exact Hid. } { done. } { by rewrite Hm1. }
    assert (run w (let* (a, _) := status apiReader a0 in
                   ensureDiscoveryImage apiReader client a "/tmp/agent-forge-openstack-1.iso") =
            (mkSite (updStatus (si_worker w) s) (si_resources w) (Some c) (Some image), (a', Ok (imageActive w)))) as Hboth.
    { rewrite (run_bindSt _ _ _ _ _ _ _ Hr). exact Hrun. }
    erewrite run_bind by exact Hboth. exists s, a', c, image. split; [done|].
    destruct Hp as [P1 P2 P3 P4 P5 P6 P7]. split; try done; [by rewrite P1, Hm1|].
    rewrite P2. unfold withoutImage. by rewrite Hc1.
  - destruct Hi as [[? _]|Hi]; [done|]. by apply run_ensure_image.
Qed.

(** *** A reconciliation *)
Definition provisionRound (w : site) : site :=
  settle (run w (Reconcile apiReader (oaNamespace (si_worker w)) (oaName (si_worker w)))).1.

Definition post (w : site) (s : OpenStackAgentStatus) (res : gmap Kind Resource) (cache : option ConfigMap)
    (image : option Resource) : site :=
  settle (mkSite (updStatus (si_worker w) s) res cache image).

Lemma siteCacheName_nonempty : siteCacheName sp ≠ "".
Proof. by intros Hne%(f_equal String.length). Qed.

Lemma run_site_demand w :
  provisionable sp w → run w (demandPresent apiReader (defaulted (si_worker w))) = (w, Ok (true, false)).
Proof.
  intros Hp. destruct (pv_demand _ _ Hp) as (H1' & H2' & H3' & Hu & Hd). unfold demandPresent. cbv zeta. simpl in *.
  bdsimp. simpl. rewrite <- Hu, Hd. by bdsimp.
Qed.

(** The part of a reconciliation before the step. *)
Lemma round_start w :
  provisionable sp w → ContainsFinalizer (oa_Meta (si_worker w)) openStackFinalizer = true →
  provisionRound w = settle (run w (reconcileWith apiReader client (defaulted (si_worker w)) true)).1.
Proof.
  intros Hp Hf. unfold provisionRound, Reconcile. f_equal. cbn [bind call runState siteAnswer siteGet]. bdsimp.
  change ((si_worker w) <| oa_Spec := _ |>) with (defaulted (si_worker w)).
  change (oa_Meta (defaulted (si_worker w))) with (oa_Meta (si_worker w)).
  rewrite AddFinalizer_spec, Hf, (pv_live _ _ Hp). cbn [negb andb].
  rewrite (run_bindOk _ _ _ _ _ _ (run_site_demand w Hp)). unfold reconcileDemand.
  change (oa_Meta (defaulted (si_worker w))) with (oa_Meta (si_worker w)). rewrite (pv_live _ _ Hp). done.
Qed.

Lemma round_finalizer w :
  provisionable sp w → ContainsFinalizer (oa_Meta (si_worker w)) openStackFinalizer = false →
  provisionRound w = settle (w <| si_worker := (defaulted (si_worker w)) <| oa_Meta := (oa_Meta (si_worker w))
    <| om_Finalizers := om_Finalizers (oa_Meta (si_worker w)) ++ [openStackFinalizer] |> |> |>).
Proof.
  intros Hp Hf. unfold provisionRound, Reconcile. f_equal. cbn [bind call runState siteAnswer siteGet]. bdsimp.
  change ((si_worker w) <| oa_Spec := _ |>) with (defaulted (si_worker w)).
  change (oa_Meta (defaulted (si_worker w))) with (oa_Meta (si_worker w)).
  rewrite AddFinalizer_spec, Hf, (pv_live _ _ Hp). done.
Qed.

Lemma round_scope w :
  provisionable sp w → ContainsFinalizer (oa_Meta (si_worker w)) openStackFinalizer = true →
  st_ScopeHash (oa_Status (si_worker w)) = "" →
  ∃ s, provisionRound w = post w s (si_resources w) (si_cache w) (si_image w) ∧
    core s = core ((oa_Status (si_worker w)) <| st_ScopeHash := oc_Scope client |>).
Proof.
  intros Hp Hf Hs. rewrite (round_start w Hp Hf). unfold reconcileWith.
  change (st_ScopeHash (oa_Status (defaulted (si_worker w)))) with (st_ScopeHash (oa_Status (si_worker w))).
  rewrite Hs. change ("" == "") with true. cbv iota. set (a := updStatus (defaulted (si_worker w)) _).
  destruct (run_site_status w a eq_refl) as (a' & Hr & _). rewrite (run_bind _ _ _ _ _ _ Hr). by eexists.
Qed.

Lemma round_step w s0 a' res cache image :
  provisionable sp w → ContainsFinalizer (oa_Meta (si_worker w)) openStackFinalizer = true →
  st_ScopeHash (oa_Status (si_worker w)) = oc_Scope client →
  run w (provision apiReader client (defaulted (si_worker w))) =
    (mkSite (updStatus (si_worker w) s0) res cache image, (a', Ok tt)) →
  oa_Meta a' = oa_Meta (si_worker w) →
  ∃ s, provisionRound w = post w s res cache image ∧ core s = core (oa_Status a').
Proof.
  intros Hp Hf Hs Hrun Hm. rewrite (round_start w Hp Hf). unfold reconcileWith.
  change (st_ScopeHash (oa_Status (defaulted (si_worker w)))) with (st_ScopeHash (oa_Status (si_worker w))).
  rewrite Hs, (bool_decide_false (oc_Scope client = "")), (bool_decide_true (oc_Scope client = _))
    by (done || apply (su_scope _ Hsp)). cbn [negb].
  change (oa_Meta (defaulted (si_worker w))) with (oa_Meta (si_worker w)). rewrite (pv_live _ _ Hp).
  rewrite (run_bind _ _ _ _ _ _ Hrun). cbv beta iota.
  destruct (run_site_done (mkSite (updStatus (si_worker w) s0) res cache image) a' Hm Hf) as (s & -> & Hc).
  by exists s.
Qed.

(** *** The invariant after a step *)
Definition recorded (worker : OpenStackAgent) (s : OpenStackAgentStatus) (res : gmap Kind Resource) : Prop :=
  ∀ k, In k resourceKinds →
    match res !! k with
    | Some r => usable worker k (settleResource r) ∧ resourceID k s = rs_ID r
    | None => resourceID k s = ""
    end.

Lemma post_lookup w s res cache image k : si_resources (post w s res cache image) !! k = settleResource <$> res !! k.
Proof. unfold post, settle. simpl. apply lookup_fmap. Qed.

Lemma post_has w s res cache image k : hasResource (post w s res cache image) k = bool_decide (is_Some (res !! k)).
Proof. unfold hasResource. rewrite post_lookup. apply bool_decide_ext. by rewrite fmap_is_Some. Qed.

Lemma post_bootable w s res cache image :
  bootable (post w s res cache image) = match res !! OSVolume with Some r => rs_Bootable r | None => false end.
Proof. unfold bootable. rewrite post_lookup. destruct (res !! OSVolume) as [r|]; simpl; [|done]. by rewrite settle_state. Qed.

Lemma post_provisionable w s res cache image :
  provisionable sp w →
  (st_ScopeHash s = "" ∨ st_ScopeHash s = oc_Scope client) → st_Phase s ≠ openStackPhaseRefreshingImage →
  st_PendingCreate s = "" → recorded (si_worker w) s res →
  (is_Some (res !! Server) → stepsBeforeServer (post w s res cache image) = 0%nat) →
  (st_ImageCacheName s = "" ∧ st_ImageID s = "") ∨ imageInOrder s cache →
  (∀ c, cache = Some c → cacheInOrder c) → storedInOrder (settleResource <$> image) cache →
  provisionable sp (post w s res cache image).
Proof.
  intros Hp Hsc Hph Hpe Hr Hsrv Hi Hc Hst. destruct Hp as [P1 P2 _ _ _ _ _ _ _ _]. split; try done.
  - by left.
  - intros k Hk. rewrite post_lookup. specialize (Hr k Hk). destruct (res !! k) as [r|]; simpl; [|done].
    destruct Hr as [Hu Hid]. split; [exact Hu|]. left. by rewrite settle_state.
  - intros Hs. apply Hsrv. rewrite post_has in Hs. by apply bool_decide_eq_true in Hs.
Qed.

(** *** The steps of a worker without a server *)
Record calm (w : site) : Prop := {
  ca_ok : provisionable sp w;
  ca_finalizer : ContainsFinalizer (oa_Meta (si_worker w)) openStackFinalizer = true;
  ca_scope : st_ScopeHash (oa_Status (si_worker w)) = oc_Scope client;
  ca_pending : st_PendingCreate (oa_Status (si_worker w)) = "";
  ca_server : st_ServerID (oa_Status (si_worker w)) = "" }.

Definition advanced (w w' : site) : Prop := provisionable sp w' ∧ (stepsToServer w' < stepsToServer w)%nat.

Lemma calm_recorded w : calm w → recorded (si_worker w) (oa_Status (si_worker w)) (si_resources w).
Proof.
  intros [Hp _ _ Hpe _] k Hk. pose proof (pv_resources _ _ Hp k Hk) as Hr. destruct (si_resources w !! k) as [r|]; [|done].
  destruct Hr as [Hu [Hid|[_ Hk']]]; [split; [by apply settle_usable|done]|].
  apply resourceKinds_nonempty in Hk. congruence.
Qed.

Lemma calm_usable w k r :
  calm w → In k resourceKinds → si_resources w !! k = Some r →
  usable (si_worker w) k r ∧ resourceID k (oa_Status (si_worker w)) = rs_ID r.
Proof.
  intros Hc Hk Hr. pose proof (pv_resources _ _ (ca_ok _ Hc) k Hk) as H'. rewrite Hr in H'. split; [apply H'|].
  pose proof (calm_recorded w Hc k Hk) as H''. rewrite Hr in H''. apply H''.
Qed.

Lemma recorded_absent worker s res k :
  recorded worker s res → In k resourceKinds → resourceID k s = "" → res !! k = None.
Proof.
  intros Hr Hk Hid. specialize (Hr k Hk). destruct (res !! k) as [r|]; [|done]. destruct Hr as [(Hne & _) Hr].
  rewrite settle_state in Hne. simpl in Hne. congruence.
Qed.

Lemma recorded_insert worker s s' res k r :
  recorded worker s res → In k resourceKinds → usable worker k (settleResource r) → resourceID k s' = rs_ID r →
  (∀ k', In k' resourceKinds → k' ≠ k → resourceID k' s' = resourceID k' s) →
  recorded worker s' (<[k := r]> res).
Proof.
  intros Hr Hk Hu Hid Hother k' Hk'. destruct (decide (k' = k)) as [->|Hne].
  - by rewrite lookup_insert_eq.
  - rewrite lookup_insert_ne, (Hother k' Hk' Hne) by done. by apply Hr.
Qed.

Lemma recorded_same worker s s' res :
  recorded worker s res → (∀ k, resourceID k s' = resourceID k s) → recorded worker s' res.
Proof. intros Hr Hs k Hk. rewrite Hs. by apply Hr. Qed.

Lemma created_usable worker k b :
  In k resourceKinds → usable worker k (settleResource (createdResource sp k (resourceName worker k) (oaUID worker) b)).
Proof.
  intros Hk. unfold createdResource. rewrite (resource_not_image k Hk).
  pose proof (su_newID _ Hsp k) as Hn. pose proof (su_mac _ Hsp) as Hm. unfold usable.
  destruct Hk as [<-|[<-|[<-|[<-|[]]]]]; simpl; split_and!; try done; naive_solver.
Qed.

(** A step is taken when what the worker records is in order again and less is left. *)
Lemma advance w s0 a' res cache image :
  calm w →
  run w (provision apiReader client (defaulted (si_worker w))) =
    (mkSite (updStatus (si_worker w) s0) res cache image, (a', Ok tt)) →
  oa_Meta a' = oa_Meta (si_worker w) →
  (∀ s, core s = core (oa_Status a') →
     st_ScopeHash s = oc_Scope client ∧ st_Phase s ≠ openStackPhaseRefreshingImage ∧ st_PendingCreate s = "" ∧
     recorded (si_worker w) s res ∧
     (is_Some (res !! Server) → stepsBeforeServer (post w s res cache image) = 0%nat) ∧
     ((st_ImageCacheName s = "" ∧ st_ImageID s = "") ∨ imageInOrder s cache) ∧
     (∀ c, cache = Some c → cacheInOrder c) ∧ storedInOrder (settleResource <$> image) cache ∧
     (stepsToServer (post w s res cache image) < stepsToServer w)%nat) →
  advanced w (provisionRound w).
Proof.
  intros [Hp Hf Hs _ _] Hrun Hm Hall. destruct (round_step w s0 a' res cache image Hp Hf Hs Hrun Hm) as (s & -> & Hc).
  destruct (Hall s Hc) as (A1 & A2 & A3 & A4 & A5 & A6 & A7 & A8 & A9). split; [|done].
  apply post_provisionable; auto.
Qed.

(** The steps left, from the parts they depend on. *)
Definition countSteps (m : ObjectMeta) (s : OpenStackAgentStatus) (os disc : option Resource) (active : bool) : nat :=
  one (negb (ContainsFinalizer m openStackFinalizer)) + one (st_ScopeHash s == "") +
  one ((resourceID Port s == "") || (st_MACAddress s == "")) + one (negb (bool_decide (is_Some os))) +
  one (negb (match os with Some r => rs_Bootable r | None => false end)) + one (negb active) +
  one (negb (bool_decide (is_Some disc))).

Lemma before_post w s res cache image :
  stepsBeforeServer (post w s res cache image) =
  countSteps (oa_Meta (si_worker w)) s (res !! OSVolume) (res !! DiscoveryVolume)
    (match settleResource <$> image with Some r => rs_State r == "active" | None => false end).
Proof. unfold stepsBeforeServer. by rewrite !post_has, post_bootable. Qed.

Lemma before_site w :
  stepsBeforeServer w =
  countSteps (oa_Meta (si_worker w)) (oa_Status (si_worker w)) (si_resources w !! OSVolume)
    (si_resources w !! DiscoveryVolume) (imageActive w).
Proof. done. Qed.

Lemma steps_post w s res cache image :
  stepsToServer (post w s res cache image) =
  (stepsBeforeServer (post w s res cache image) + one (st_PendingCreate s != "") + one (resourceID Server s == ""))%nat.
Proof. done. Qed.

Lemma steps_site w :
  stepsToServer w = (stepsBeforeServer w + one (st_PendingCreate (oa_Status (si_worker w)) != "") +
                     one (resourceID Server (oa_Status (si_worker w)) == ""))%nat.
Proof. done. Qed.

(** The image, which is queued or active, is not changed by settling. *)
Lemma settled_image w : provisionable sp w → settleResource <$> si_image w = si_image w.
Proof.
  intros Hp. destruct (si_image w) as [r|] eqn:Ei; [|done]. simpl. f_equal. unfold settleResource.
  destruct (pv_stored _ _ Hp r Ei) as (c & _ & _ & _ & [Hq|[Hq _]]); by rewrite Hq.
Qed.

(** Which step is next. *)
Lemma provision_calm w :
  calm w → provision apiReader client (defaulted (si_worker w)) =
    let s := oa_Status (si_worker w) in
    if (st_PortID s == "") || (st_MACAddress s == "") then createNetwork apiReader client (defaulted (si_worker w))
    else createVolumes apiReader client (defaulted (si_worker w)).
Proof.
  intros [Hp _ _ Hpe Hs]. unfold provision. cbv zeta.
  change (oa_Status (defaulted (si_worker w))) with (oa_Status (si_worker w)).
  rewrite bool_decide_false, Hpe, Hs by apply (pv_phase _ _ Hp). done.
Qed.

Lemma advance_network w :
  calm w → (st_PortID (oa_Status (si_worker w)) == "") || (st_MACAddress (oa_Status (si_worker w)) == "") = true →
  advanced w (provisionRound w).
Proof.
  intros Hc Hmiss. pose proof (calm_recorded w Hc) as Hrec. pose proof (ca_ok _ Hc) as Hp.
  assert (In Port resourceKinds) as HP by (by left).
  assert (∃ s0 a' r res, run w (createNetwork apiReader client (defaulted (si_worker w))) =
      (mkSite (updStatus (si_worker w) s0) res (si_cache w) (si_image w), (a', Ok tt)) ∧
    oa_Meta a' = oa_Meta (si_worker w) ∧ usable (si_worker w) Port (settleResource r) ∧
    res = <[Port := r]> (si_resources w) ∧
    core (oa_Status a') = core ((setResourceID Port (rs_ID r) (oa_Status (si_worker w)))
      <| st_PendingCreate := "" |> <| st_Phase := "CreatingNetwork" |> <| st_MACAddress := normalizeMAC (rs_MAC r) |>))
    as (s0 & a' & r & res & Hrun & Hm & Hu & -> & Hcore).
  { unfold createNetwork. set (a := setPhase (defaulted (si_worker w)) "CreatingNetwork").
    destruct (si_resources w !! Port) as [r|] eqn:Er.
    - destruct (calm_usable w Port r Hc HP Er) as [Hu Hid].
      rewrite (run_bindSt _ _ _ _ _ _ _ (run_ensure_recorded w a Port r HP Er Hu eq_refl Hid)).
      exists (oa_Status (si_worker w)). eexists _, r, _. split; [by rewrite site_eta|]. split; [done|].
      split; [by apply settle_usable|]. split; [symmetry; by apply insert_id|].
      pose proof (ca_pending _ Hc) as Hpe. change (resourceID Port ?s) with (st_PortID s) in Hid.
      simpl. rewrite <- Hid, <- Hpe. by destruct (oa_Status (si_worker w)).
    - destruct (run_ensure_new w a Port HP eq_refl Er) as (s1 & a1 & b & Hr & Hm1 & Hc1);
        [by pose proof (Hrec Port HP) as H'; rewrite Er in H'|apply (ca_pending _ Hc)|].
      cbv zeta in Hr, Hc1. set (r := createdResource _ _ _ _ _) in Hr. rewrite (run_bindSt _ _ _ _ _ _ _ Hr).
      exists s1. eexists _, r, _. split; [reflexivity|]. split; [exact Hm1|]. split; [exact (created_usable (si_worker w) Port b HP)|].
      split; [done|]. simpl.
      apply (core_set (λ s, core (s <| st_MACAddress := normalizeMAC (rs_MAC r) |>))) in Hc1; [|done].
      etransitivity; [exact Hc1|]. reflexivity. }
  assert (resourceID Port (setResourceID Port (rs_ID r) (oa_Status (si_worker w))) = rs_ID r) as Hpid by done.
  eapply (advance w); [done| |exact Hm|].
  { rewrite (provision_calm w Hc). cbv zeta. rewrite Hmiss. exact Hrun. }
  intros s Hs. rewrite Hcore in Hs. apply core_eq in Hs as (F1 & F2 & F3 & F4 & F5 & F6 & F7 & F8 & F9). simpl in *.
  assert (∀ k, In k resourceKinds → k ≠ Port → resourceID k s = resourceID k (oa_Status (si_worker w))) as Hother.
  { intros k Hk Hne. rewrite F4. etransitivity; [by apply (resourceID_set Port k)|]. by rewrite bool_decide_false. }
  assert (resourceID Port s = rs_ID r) as Hport by (by rewrite F4).
  assert (recorded (si_worker w) s (<[Port := r]> (si_resources w))) as Hrec'.
  { apply (recorded_insert _ (oa_Status (si_worker w))); auto. }
  split_and!; try done.
  - rewrite F2. apply Hc.
  - by rewrite F1.
  - intros Hsome. rewrite (recorded_absent _ _ _ Server Hrec') in Hsome; [by destruct Hsome|apply server_kind|].
    rewrite (Hother Server server_kind) by done. apply (ca_server _ Hc).
  - destruct (pv_image _ _ Hp) as [[? ?]|?]; [left|right]; unfold imageInOrder; by rewrite ?F6, ?F7, ?F8, ?F9.
  - exact (pv_cache _ _ Hp).
  - rewrite (settled_image w Hp). exact (pv_stored _ _ Hp).
  - destruct Hu as (Hne & _ & _ & Hmac & _). rewrite settle_state in Hne, Hmac. simpl in Hne, Hmac.
    rewrite steps_post, steps_site, before_post, before_site, (settled_image w Hp), !lookup_insert_ne by done.
    unfold countSteps. rewrite Hport, (Hother Server server_kind), F2, F3, F5 by done.
    change (resourceID Port (oa_Status (si_worker w))) with (st_PortID (oa_Status (si_worker w))). rewrite Hmiss.
    rewrite (bool_decide_false (rs_ID r = "")), (bool_decide_false (normalizeMAC (rs_MAC r) = "")) by auto.
    rewrite (ca_pending _ Hc). unfold imageActive. simpl. lia.
Qed.

(** A volume or the server was created. *)
Lemma advance_created w k s0 a' b cache image s1 :
  calm w → In k resourceKinds → k ≠ Port → si_resources w !! k = None →
  run w (provision apiReader client (defaulted (si_worker w))) =
    (mkSite (updStatus (si_worker w) s0)
       (<[k := createdResource sp k (resourceName (si_worker w) k) (oaUID (si_worker w)) b]> (si_resources w)) cache image,
     (a', Ok tt)) →
  oa_Meta a' = oa_Meta (si_worker w) →
  core (oa_Status a') = core ((setResourceID k (sp_NewID sp k) s1) <| st_PendingCreate := "" |>) →
  st_Phase s1 ≠ openStackPhaseRefreshingImage → st_ScopeHash s1 = oc_Scope client →
  (∀ k, resourceID k s1 = resourceID k (oa_Status (si_worker w))) →
  st_MACAddress s1 = st_MACAddress (oa_Status (si_worker w)) →
  (st_ImageCacheName s1 = "" ∧ st_ImageID s1 = "") ∨ imageInOrder s1 cache →
  (∀ c, cache = Some c → cacheInOrder c) → storedInOrder (settleResource <$> image) cache →
  match settleResource <$> image with Some r => rs_State r == "active" | None => false end = imageActive w →
  (k = Server → stepsBeforeServer w = 0%nat) →
  advanced w (provisionRound w).
Proof.
  intros Hc Hk Hnp Hn Hrun Hm Hcore P1 P2 P3 P4 P5 P6 P7 Hact Hsrv.
  set (r := createdResource _ _ _ _ _) in *. pose proof (created_usable (si_worker w) k b Hk) as Hu. fold r in Hu.
  assert (rs_ID r = sp_NewID sp k) as Hid by (unfold r, createdResource; by rewrite (resource_not_image k Hk)).
  assert (rs_Bootable r = false) as Hb by (unfold r, createdResource; by rewrite (resource_not_image k Hk)).
  eapply (advance w); [done|exact Hrun|exact Hm|]. intros s Hs. rewrite Hcore in Hs.
  apply core_eq in Hs as (F1 & F2 & F3 & F4 & F5 & F6 & F7 & F8 & F9).
  assert (∀ k', In k' resourceKinds → resourceID k' s = if k == k' then rs_ID r else resourceID k' (oa_Status (si_worker w))) as Hids.
  { intros k' Hk'. rewrite F4, Hid, <- P3. by apply (resourceID_set k k'). }
  assert (∀ s, setResourceID k (sp_NewID sp k) s = s <| st_OSVolumeID := st_OSVolumeID (setResourceID k (sp_NewID sp k) s) |>
    <| st_DiscoveryVolumeID := st_DiscoveryVolumeID (setResourceID k (sp_NewID sp k) s) |>
    <| st_ServerID := st_ServerID (setResourceID k (sp_NewID sp k) s) |>) as Hset.
  { intros s'. unfold setResourceID. rewrite (bool_decide_false (k = Port)) by done. by repeat destruct (k == _); destruct s'. }
  rewrite Hset in F1, F2, F5, F6, F7, F8, F9. simpl in F1, F2, F5, F6, F7, F8, F9, F3.
  assert (recorded (si_worker w) s (<[k := r]> (si_resources w))) as Hrec.
  { apply (recorded_insert _ (oa_Status (si_worker w))); auto; [by apply calm_recorded| |].
    - rewrite Hids by done. by rewrite bool_decide_true.
    - intros k' Hk' Hne. rewrite Hids by done. by rewrite bool_decide_false. }
  assert (stepsToServer (post w s (<[k := r]> (si_resources w)) cache image) < stepsToServer w ∧
    (stepsBeforeServer w = 0 → stepsBeforeServer (post w s (<[k := r]> (si_resources w)) cache image) = 0))%nat as [Hlt Hz].
  { rewrite steps_post, steps_site, before_post, before_site, Hact. unfold countSteps.
    rewrite (Hids Port (or_introl eq_refl)), (Hids Server server_kind).
    rewrite (bool_decide_false (k = Port)), F2, P2, F3, F5, P4, (ca_pending _ Hc), (ca_scope _ Hc) by done.
    change (resourceID Server (oa_Status (si_worker w))) with (st_ServerID (oa_Status (si_worker w))). rewrite (ca_server _ Hc).
    destruct Hk as [<-|[<-|[<-|[<-|[]]]]]; [done|..];
      rewrite ?lookup_insert_eq, ?lookup_insert_ne, ?Hn by done; rewrite ?Hb; simpl; try lia.
    rewrite (bool_decide_false (sp_NewID sp Server = "")) by apply (su_newID _ Hsp). simpl. lia. }
  split_and!; try done.
  - congruence.
  - by rewrite F1.
  - intros Hsome. apply Hz, Hsrv. destruct (decide (k = Server)) as [|Hne]; [done|].
    rewrite (recorded_absent _ _ _ Server Hrec server_kind) in Hsome; [by destruct Hsome|].
    rewrite (Hids Server server_kind), bool_decide_false by done. apply (ca_server _ Hc).
  - unfold imageInOrder in *. by rewrite F6, F7, F8, F9.
Qed.

Lemma withoutImage_eq s s' : withoutImage s = withoutImage s' →
  st_Phase s = st_Phase s' ∧ st_ScopeHash s = st_ScopeHash s' ∧ st_PendingCreate s = st_PendingCreate s' ∧
  (∀ k, resourceID k s = resourceID k s') ∧ st_MACAddress s = st_MACAddress s'.
Proof. destruct s, s'. intros [=]. subst. by split_and!. Qed.

Lemma resourceFailed_ok r : (rs_State r = "available" ∨ rs_State r = "creating" ∨ rs_State r = "BUILD") → resourceFailed r = Ok tt.
Proof. intros Hs. unfold resourceFailed. destruct Hs as [-> |[-> | ->]]; done. Qed.

(** The state of the worker once the image is active: only the phase and the fields of
    the image differ. *)
Record imageStep (w : site) (a : OpenStackAgent) (c : ConfigMap) (image : Resource) : Prop := {
  is_meta : oa_Meta a = oa_Meta (si_worker w);
  is_scope : st_ScopeHash (oa_Status a) = oc_Scope client;
  is_pending : st_PendingCreate (oa_Status a) = "";
  is_ids : ∀ k, resourceID k (oa_Status a) = resourceID k (oa_Status (si_worker w));
  is_mac : st_MACAddress (oa_Status a) = st_MACAddress (oa_Status (si_worker w));
  is_image : imageInOrder (oa_Status a) (Some c);
  is_cache : cacheInOrder c;
  is_stored : storedInOrder (Some (settleResource image)) (Some c);
  is_active : rs_State (settleResource image) = "active" }.

Lemma prepared_imageStep w s a' c image :
  calm w → provisionable sp w →
  prepared w (setPhase (setPhase (defaulted (si_worker w)) "CreatingOSVolume") "PreparingDiscoveryImage") s a' c image →
  imageStep w a' c image ∧ st_Phase (oa_Status a') = "PreparingDiscoveryImage".
Proof.
  intros Hc Hp [P1 P2 P3 P4 P5 P6 P7]. apply withoutImage_eq in P2 as (E1 & E2 & E3 & E4 & E5). simpl in *.
  assert (rs_State (settleResource image) = "active" ∧
          (rs_State (settleResource image) = "active" → rs_SizeBytes image = stringSize (sp_Body sp))) as [Hact Hsz].
  { unfold imageActive in P7. destruct (si_image w) as [r|] eqn:Ei.
    - destruct (rs_State r == "active") eqn:Er; gobool.
      + injection P7 as <-. destruct (pv_stored _ _ Hp r Ei) as (c0 & _ & _ & _ & [Hq|[_ Hz]]); [congruence|].
        unfold settleResource. by rewrite Er.
      + destruct P7 as [Hst ->]. unfold settleResource. by rewrite Hst.
    - destruct P7 as [Hst ->]. unfold settleResource. by rewrite Hst. }
  split; [|by rewrite E1]. split; try done.
  - rewrite E2. apply (ca_scope _ Hc).
  - rewrite E3. apply (ca_pending _ Hc).
  - intros r [= <-]. exists c. rewrite settle_state. simpl. split_and!; auto.
Qed.

Section volumes.
Context (w : site) (Hc : calm w).
Context (Hport : (st_PortID (oa_Status (si_worker w)) == "") || (st_MACAddress (oa_Status (si_worker w)) == "") = false).

Abbreviation worker := (defaulted (si_worker w)).
Abbreviation osPhase := (setPhase worker "CreatingOSVolume").

Lemma provision_volumes : provision apiReader client worker = createVolumes apiReader client worker.
Proof. rewrite (provision_calm w Hc). cbv zeta. by rewrite Hport. Qed.

Lemma image_unchanged :
  (st_ImageCacheName (oa_Status (si_worker w)) = "" ∧ st_ImageID (oa_Status (si_worker w)) = "") ∨
  imageInOrder (oa_Status (si_worker w)) (si_cache w).
Proof. apply (pv_image _ _ (ca_ok _ Hc)). Qed.

Lemma stored_unchanged : storedInOrder (settleResource <$> si_image w) (si_cache w).
Proof. rewrite (settled_image w (ca_ok _ Hc)). exact (pv_stored _ _ (ca_ok _ Hc)). Qed.

Lemma active_unchanged :
  match settleResource <$> si_image w with Some r => rs_State r == "active" | None => false end = imageActive w.
Proof. by rewrite (settled_image w (ca_ok _ Hc)). Qed.

Lemma absent_id k : In k resourceKinds → si_resources w !! k = None → resourceID k (oa_Status (si_worker w)) = "".
Proof. intros Hk Hn. pose proof (calm_recorded w Hc k Hk) as Hr. by rewrite Hn in Hr. Qed.

Lemma advance_osVolume : si_resources w !! OSVolume = None → advanced w (provisionRound w).
Proof.
  intros Hn. destruct (run_ensure_new w osPhase OSVolume osVolume_kind eq_refl Hn) as (s1 & a1 & b & Hr & Hm & Hcore);
    [by apply absent_id; [apply osVolume_kind|]|apply (ca_pending _ Hc)|].
  eapply (advance_created w OSVolume); [done|apply osVolume_kind|done|done| |exact Hm|exact Hcore|..]; try done.
  - rewrite provision_volumes. unfold createVolumes. rewrite (run_bindSt _ _ _ _ _ _ _ Hr).
    rewrite resourceFailed_ok by (right; by left). reflexivity.
  - apply (ca_scope _ Hc).
  - exact image_unchanged.
  - exact (pv_cache _ _ (ca_ok _ Hc)).
  - exact stored_unchanged.
  - exact active_unchanged.
Qed.

Context (volume : Resource) (Hvolume : si_resources w !! OSVolume = Some volume).

Lemma volumes_recorded :
  run w (createVolumes apiReader client worker) =
  run w (if negb (rs_Bootable volume) then
           let! r := call (OpenStack (OSSetBootable client (rs_ID volume) (oaUID osPhase))) in Return (osPhase, r)
         else
           let* (a, ready) := prepareDiscoveryImage apiReader client (setPhase osPhase "PreparingDiscoveryImage") in
           if negb ready then Return (a, Ok tt) else createDiscoveryVolume apiReader client a).
Proof.
  destruct (calm_usable w OSVolume volume Hc osVolume_kind Hvolume) as [Hu Hid].
  pose proof Hu as (_ & _ & _ & _ & Hst & _). unfold createVolumes.
  rewrite (run_bindSt _ _ _ _ _ _ _ (run_ensure_recorded w osPhase OSVolume volume osVolume_kind Hvolume Hu eq_refl Hid)).
  rewrite resourceFailed_ok, Hst by auto. done.
Qed.

Lemma advance_bootable : rs_Bootable volume = false → advanced w (provisionRound w).
Proof.
  intros Hb. set (res := alter (λ r, r <| rs_Bootable := true |>) OSVolume (si_resources w)).
  assert (∀ k, res !! k = if decide (k = OSVolume) then Some (volume <| rs_Bootable := true |>) else si_resources w !! k) as Hres.
  { intros k. unfold res. destruct (decide (k = OSVolume)) as [->|]; [|by rewrite lookup_alter_ne].
    by rewrite lookup_alter_eq, Hvolume. }
  eapply (advance w (oa_Status (si_worker w)) osPhase res (si_cache w) (si_image w)); [done| |done|].
  { rewrite provision_volumes, volumes_recorded, Hb. cbn [negb bind call runState siteAnswer siteOS fst snd].
    by destruct w as [[] ? ? ?]. }
  intros s Hs. apply core_eq in Hs as (F1 & F2 & F3 & F4 & F5 & F6 & F7 & F8 & F9). simpl in F1, F2, F3, F5, F6, F7, F8, F9.
  assert (recorded (si_worker w) s res) as Hrec.
  { intros k Hk. rewrite F4, Hres. pose proof (calm_recorded w Hc k Hk) as Hr.
    destruct (decide (k = OSVolume)) as [->|]; [|exact Hr]. rewrite Hvolume in Hr. destruct Hr as [Hu Hid]. split; [|exact Hid].
    rewrite settle_bootable. exact Hu. }
  split_and!; try done.
  - rewrite F2. apply (ca_scope _ Hc).
  - by rewrite F1.
  - rewrite F3. apply (ca_pending _ Hc).
  - rewrite Hres, decide_False by done. rewrite (recorded_absent _ _ _ Server (calm_recorded w Hc) server_kind (ca_server _ Hc)).
    by intros [? ?].
  - unfold imageInOrder. rewrite F6, F7, F8, F9. exact image_unchanged.
  - exact (pv_cache _ _ (ca_ok _ Hc)).
  - exact stored_unchanged.
  - rewrite steps_post, steps_site, before_post, before_site, active_unchanged. unfold countSteps.
    rewrite !Hres, !F4, F2, F3, F5, Hvolume, Hb. rewrite decide_True, decide_False by done.
    change (resourceID ?k (oa_Status osPhase)) with (resourceID k (oa_Status (si_worker w))). simpl. lia.
Qed.

(** The image is prepared; when it is active, the rest of the pass continues with the
    discovery volume. *)
Context (Hboot : rs_Bootable volume = true).

Lemma volumes_prepared :
  ∃ s a c image, imageStep w a c image ∧
    rs_State (settleResource image) = "active" ∧ st_Phase (oa_Status a) = "PreparingDiscoveryImage" ∧
    let w1 := mkSite (updStatus (si_worker w) s) (si_resources w) (Some c) (Some image) in
    run w (provision apiReader client worker) =
      if imageActive w then run w1 (createDiscoveryVolume apiReader client a) else (w1, (a, Ok tt)).
Proof.
  destruct (run_prepare w (setPhase osPhase "PreparingDiscoveryImage")) as (s & a & c & image & Hr & Hpp);
    [exact (pv_cache _ _ (ca_ok _ Hc))|exact image_unchanged|exact (pv_stored _ _ (ca_ok _ Hc))|done|apply siteCacheName_nonempty|].
  destruct (prepared_imageStep w s a c image Hc (ca_ok _ Hc) Hpp) as [Hi Hph].
  exists s, a, c, image. split; [done|]. split; [apply Hi|]. split; [done|]. cbv zeta.
  rewrite provision_volumes, volumes_recorded, Hboot. cbn [negb]. rewrite (run_bindSt _ _ _ _ _ _ _ Hr).
  by destruct (imageActive w).
Qed.

Lemma advance_image : imageActive w = false → advanced w (provisionRound w).
Proof.
  intros Hact. destruct volumes_prepared as (s0 & a & c & image & Hi & Hst & Hph & Hrun). cbv zeta in Hrun. rewrite Hact in Hrun.
  eapply (advance w); [done|exact Hrun|apply Hi|].
  intros s Hs. apply core_eq in Hs as (F1 & F2 & F3 & F4 & F5 & F6 & F7 & F8 & F9).
  destruct Hi as [_ I2 I3 I4 I5 I6 I7 I8 I9].
  assert (recorded (si_worker w) s (si_resources w)) as Hrec.
  { apply (recorded_same _ (oa_Status (si_worker w))); [by apply calm_recorded|]. intros k. by rewrite F4. }
  split_and!; try done; try congruence.
  - by rewrite F1, Hph.
  - rewrite (recorded_absent _ _ _ Server (calm_recorded w Hc) server_kind (ca_server _ Hc)). by intros [? ?].
  - right. unfold imageInOrder in *. by rewrite F6, F7, F8, F9.
  - rewrite steps_post, steps_site, before_post, before_site, Hact. unfold countSteps. simpl.
    rewrite Hst, !F4, !I4, F2, F3, F5, I2, I3, I5, (ca_scope _ Hc), (ca_pending _ Hc). simpl. lia.
Qed.

Context (Hact : imageActive w = true).

(** The discovery volume is created. *)
Lemma advance_discovery : si_resources w !! DiscoveryVolume = None → advanced w (provisionRound w).
Proof.
  intros Hn. destruct volumes_prepared as (s0 & a & c & image & Hi & Hst & Hph & Hrun). cbv zeta in Hrun. rewrite Hact in Hrun.
  destruct Hi as [I1 I2 I3 I4 I5 I6 I7 I8 I9].
  destruct (run_ensure_new (mkSite (updStatus (si_worker w) s0) (si_resources w) (Some c) (Some image))
    (setPhase a "CreatingDiscoveryVolume") DiscoveryVolume discoveryVolume_kind I1 Hn) as (s1 & a1 & b & Hr & Hm & Hcore);
    [simpl; etransitivity; [apply (I4 DiscoveryVolume)|by apply absent_id; [apply discoveryVolume_kind|]]|exact I3|].
  assert (oaUID (setPhase a "CreatingDiscoveryVolume") = oaUID (si_worker w)) as Hu by (unfold oaUID; simpl; by rewrite I1).
  unfold createDiscoveryVolume in Hrun. rewrite (run_bindSt _ _ _ _ _ _ _ Hr) in Hrun.
  rewrite resourceFailed_ok in Hrun by (right; by left). unfold resourceName in Hrun. rewrite Hu in Hrun.
  eapply (advance_created w DiscoveryVolume); [done|apply discoveryVolume_kind|done|done|exact Hrun|by rewrite Hm|exact Hcore|..];
    try done.
  - by right.
  - by intros c' [= <-].
  - simpl. rewrite I9. by rewrite Hact.
Qed.

(** The server is created. *)
Lemma run_createInstance w1 a :
  oa_Meta a = oa_Meta (si_worker w1) → si_resources w1 !! Server = None → resourceID Server (oa_Status a) = "" →
  st_PendingCreate (oa_Status a) = "" →
  ∃ s a' b created, run w1 (createInstance apiReader client a) =
      ((with_status w1 s) <| si_resources := <[Server := createdResource sp Server (resourceName a Server) (oaUID a) b]>
         (si_resources w1) |>, (a', Ok tt)) ∧
    oa_Meta a' = oa_Meta a ∧
    core (oa_Status a') = core ((setResourceID Server (sp_NewID sp Server)
      ((oa_Status a) <| st_Phase := "CreatingInstance" |> <| st_InstanceCreatedAt := created |>)) <| st_PendingCreate := "" |>).
Proof.
  intros Hm Hn Hid Hpe. unfold createInstance. destruct (run_site_status w1 a Hm) as (a1 & Hr & Hm1 & Hc1).
  rewrite (run_bindSt _ _ _ _ _ _ _ Hr). apply core_eq in Hc1 as Hf. destruct Hf as (_ & _ & Hp1 & Hid1 & _).
  destruct (run_ensure_new (with_status w1 ((oa_Status a) <| st_ObservedGeneration := om_Generation (oa_Meta a) |>))
    (setPhase a1 "CreatingInstance") Server server_kind) as (s2 & a2 & b & Hr2 & Hm2 & Hc2).
  { simpl. by rewrite Hm1. } { done. } { etransitivity; [apply (Hid1 Server)|done]. } { simpl. by rewrite Hp1. }
  assert (oaUID (setPhase a1 "CreatingInstance") = oaUID a) as Hu by (unfold oaUID; simpl; by rewrite Hm1).
  rewrite (run_bindSt _ _ _ _ _ _ _ Hr2). unfold resourceName. rewrite Hu.
  rewrite resourceFailed_ok by (right; by right).
  assert (∀ i, core ((oa_Status a2) <| st_InstanceCreatedAt := i |>) = core ((setResourceID Server (sp_NewID sp Server)
      ((oa_Status a) <| st_Phase := "CreatingInstance" |> <| st_InstanceCreatedAt := i |>)) <| st_PendingCreate := "" |>)) as Hcore.
  { intros i. apply (core_set (λ s, core (s <| st_InstanceCreatedAt := i |>))) in Hc2; [|done]. etransitivity; [exact Hc2|].
    apply (core_set (λ s, core ((setResourceID Server (sp_NewID sp Server)
      (s <| st_Phase := "CreatingInstance" |> <| st_InstanceCreatedAt := i |>)) <| st_PendingCreate := "" |>))) in Hc1; [|done].
    exact Hc1. }
  destruct (st_InstanceCreatedAt (oa_Status a2)) as [t|] eqn:Et.
  - exists s2, a2, b, (Some t). split; [reflexivity|]. split; [by rewrite Hm2|]. rewrite <- Hcore, <- Et.
    by destruct (oa_Status a2).
  - exists s2. eexists _, b, (Some (sp_Now sp)). split; [reflexivity|]. split; [by simpl; rewrite Hm2|]. apply Hcore.
Qed.

Lemma advance_server disc : si_resources w !! DiscoveryVolume = Some disc → advanced w (provisionRound w).
Proof.
  intros Hd. destruct volumes_prepared as (s0 & a & c & image & Hi & Hst & Hph & Hrun). cbv zeta in Hrun. rewrite Hact in Hrun.
  destruct Hi as [I1 I2 I3 I4 I5 I6 I7 I8 I9]. set (w1 := mkSite _ _ _ _) in Hrun. set (a1 := setPhase a "CreatingDiscoveryVolume").
  destruct (calm_usable w DiscoveryVolume disc Hc discoveryVolume_kind Hd) as [Hu Hid]. pose proof Hu as (_ & _ & _ & _ & Hds & _).
  assert (si_resources w !! Server = None) as Hns
    by exact (recorded_absent _ _ _ Server (calm_recorded w Hc) server_kind (ca_server _ Hc)).
  assert (oaUID a1 = oaUID (si_worker w)) as Hua by (unfold oaUID; simpl; by rewrite I1).
  assert (run w1 (createDiscoveryVolume apiReader client a) = run w1 (createInstance apiReader client a1)) as Heq.
  { unfold createDiscoveryVolume. fold a1.
    rewrite (run_bindSt _ _ _ _ _ _ _ (run_ensure_recorded w1 a1 DiscoveryVolume disc discoveryVolume_kind Hd Hu Hua
      (eq_trans (I4 DiscoveryVolume) Hid))). rewrite resourceFailed_ok, Hds by auto. done. }
  rewrite Heq in Hrun. destruct (run_createInstance w1 a1 I1 Hns) as (s2 & a2 & b & cr & Hr & Hm & Hcore).
  { etransitivity; [apply (I4 Server)|apply (ca_server _ Hc)]. } { exact I3. }
  rewrite Hr in Hrun. unfold resourceName in Hrun. rewrite Hua in Hrun.
  eapply (advance_created w Server); [done|apply server_kind|done|done|exact Hrun|by rewrite Hm|exact Hcore|..]; try done.
  - by right.
  - by intros c' [= <-].
  - simpl. rewrite I9. by rewrite Hact.
  - intros _. rewrite before_site. unfold countSteps. rewrite (ca_finalizer _ Hc), (ca_scope _ Hc), Hvolume, Hd, Hact, Hboot.
    change (resourceID Port (oa_Status (si_worker w))) with (st_PortID (oa_Status (si_worker w))). rewrite Hport.
    rewrite (bool_decide_false (oc_Scope client = "")) by apply (su_scope _ Hsp). done.
Qed.
End volumes.

Lemma advance_calm w : calm w → advanced w (provisionRound w).
Proof.
  intros Hc. destruct ((st_PortID (oa_Status (si_worker w)) == "") || (st_MACAddress (oa_Status (si_worker w)) == "")) eqn:Hport;
    [by apply advance_network|].
  destruct (si_resources w !! OSVolume) as [volume|] eqn:Hv; [|by apply advance_osVolume].
  destruct (rs_Bootable volume) eqn:Hb; [|by apply (advance_bootable w Hc Hport volume)].
  destruct (imageActive w) eqn:Hact; [|by apply (advance_image w Hc Hport volume)].
  destruct (si_resources w !! DiscoveryVolume) as [disc|] eqn:Hd.
  - by apply (advance_server w Hc Hport volume Hv Hb Hact disc).
  - by apply (advance_discovery w Hc Hport volume).
Qed.

(** *** The steps before *)

(** The finalizer and the scope are written without touching a resource. *)
Lemma provisionable_worker w worker' scope :
  provisionable sp w → stepsBeforeServer w ≠ 0%nat →
  oaUID worker' = oaUID (si_worker w) → isDeleting (oa_Meta worker') = false →
  oas_AgentMachineRef (oa_Spec worker') = oas_AgentMachineRef (oa_Spec (si_worker w)) →
  core (oa_Status worker') = core ((oa_Status (si_worker w)) <| st_ScopeHash := scope |>) →
  scope = "" ∨ scope = oc_Scope client →
  provisionable sp (settle (w <| si_worker := worker' |>)).
Proof.
  intros Hp Hsteps Hu Hl Href Hcore Hsc. apply core_eq in Hcore as (F1 & F2 & F3 & F4 & F5 & F6 & F7 & F8 & F9).
  assert (hasResource w Server = false) as Hns.
  { destruct (hasResource w Server) eqn:E; [|done]. by destruct Hsteps; apply (pv_server _ _ Hp). }
  assert (∀ k, hasResource (settle (w <| si_worker := worker' |>)) k = hasResource w k) as Hhas.
  { intros k. unfold hasResource. simpl. rewrite lookup_fmap. apply bool_decide_ext. by rewrite fmap_is_Some. }
  destruct Hp as [P1 P2 P3 P4 P5 P6 P7 P8 P9 P10]. split; simpl.
  - done.
  - by rewrite Href.
  - by rewrite F2.
  - by rewrite F1.
  - rewrite F3, Hhas. exact P5.
  - intros k Hk. rewrite lookup_fmap, F3, F4. specialize (P6 k Hk). destruct (si_resources w !! k) as [r|]; simpl; [|exact P6].
    destruct P6 as [Hr Hid]. split; [|by rewrite settle_state].
    apply settle_usable in Hr. unfold usable, resourceName in *. by rewrite Hu.
  - rewrite Hhas, Hns. done.
  - rewrite F6, F7, F8, F9. exact P8.
  - exact P9.
  - intros r Hr. destruct (si_image w) as [r0|] eqn:Ei; simpl in Hr; [|done]. injection Hr as <-.
    destruct (P10 r0 eq_refl) as (c & Hc & Hi & Ho & Hst). exists c. unfold settleResource.
    destruct Hst as [Hq|[Hq Hz]]; rewrite Hq; simpl; eauto 10.
Qed.

Lemma before_worker w worker' :
  provisionable sp w →
  stepsBeforeServer (settle (w <| si_worker := worker' |>)) =
  countSteps (oa_Meta worker') (oa_Status worker') (si_resources w !! OSVolume) (si_resources w !! DiscoveryVolume) (imageActive w).
Proof.
  intros Hp. assert (settle (w <| si_worker := worker' |>) =
    post (w <| si_worker := worker' |>) (oa_Status worker') (si_resources w) (si_cache w) (si_image w)) as ->
    by (by destruct worker').
  rewrite before_post. by rewrite (settled_image w Hp).
Qed.

Lemma advance_finalizer w :
  provisionable sp w → ContainsFinalizer (oa_Meta (si_worker w)) openStackFinalizer = false → advanced w (provisionRound w).
Proof.
  intros Hp Hf. rewrite (round_finalizer w Hp Hf). set (worker' := (defaulted (si_worker w)) <| oa_Meta := _ |>).
  assert (stepsBeforeServer w ≠ 0%nat) as Hne by (rewrite before_site; unfold countSteps; rewrite Hf; simpl; lia).
  assert (ContainsFinalizer (oa_Meta worker') openStackFinalizer = true) as Hf'.
  { rewrite ContainsFinalizer_spec. apply bool_decide_eq_true_2. simpl. apply elem_of_app. right. by left. }
  split.
  - apply (provisionable_worker w worker' (st_ScopeHash (oa_Status (si_worker w)))); try done; [apply (pv_live _ _ Hp)|apply (pv_scope _ _ Hp)].
  - unfold stepsToServer. rewrite (before_worker w worker' Hp), before_site. unfold countSteps. rewrite Hf, Hf'. simpl. lia.
Qed.

Lemma advance_scope w :
  provisionable sp w → ContainsFinalizer (oa_Meta (si_worker w)) openStackFinalizer = true →
  st_ScopeHash (oa_Status (si_worker w)) = "" → advanced w (provisionRound w).
Proof.
  intros Hp Hf Hs. destruct (round_scope w Hp Hf Hs) as (s & -> & Hcore).
  split.
  - change (post w s (si_resources w) (si_cache w) (si_image w)) with (settle (w <| si_worker := updStatus (si_worker w) s |>)).
    apply (provisionable_worker w _ (oc_Scope client)); try done; [|apply (pv_live _ _ Hp)|by right].
    rewrite before_site. unfold countSteps. rewrite Hs. simpl. lia.
  - rewrite steps_post, steps_site, before_post, before_site, (settled_image w Hp). unfold countSteps.
    apply core_eq in Hcore as (F1 & F2 & F3 & F4 & F5 & _). rewrite F2, F3, F5, Hs, !F4.
    change (resourceID ?k (_ <| st_ScopeHash := _ |>)) with (resourceID k (oa_Status (si_worker w))). simpl.
    rewrite (bool_decide_false (oc_Scope client = "")) by apply (su_scope _ Hsp). unfold imageActive. simpl. lia.
Qed.

(** A creation whose outcome was not recorded: the resource is found and recorded. *)
Lemma run_recover w k r :
  provisionable sp w → In k resourceKinds → st_PendingCreate (oa_Status (si_worker w)) = k → si_resources w !! k = Some r →
  ∃ a', run w (recoverPending client (defaulted (si_worker w))) = (w, (a', Ok tt)) ∧ oa_Meta a' = oa_Meta (si_worker w) ∧
    let s := oa_Status a' in let s0 := oa_Status (si_worker w) in
    st_Phase s = "RecoveringResource" ∧ st_ScopeHash s = st_ScopeHash s0 ∧ st_PendingCreate s = "" ∧
    (∀ k', In k' resourceKinds → resourceID k' s = if k == k' then rs_ID r else resourceID k' s0) ∧
    st_MACAddress s = (if k == Port then normalizeMAC (rs_MAC r) else st_MACAddress s0) ∧
    st_ImageID s = st_ImageID s0 ∧ st_ImageCacheName s = st_ImageCacheName s0 ∧ st_ISOSHA256 s = st_ISOSHA256 s0 ∧
    st_ISOSizeBytes s = st_ISOSizeBytes s0.
Proof.
  intros Hp Hk Hpe Hr. pose proof (pv_resources _ _ Hp k Hk) as Hres. rewrite Hr in Hres. destruct Hres as [(_ & Ho & Hn & _) _].
  unfold recoverPending. change (oa_Status (defaulted (si_worker w))) with (oa_Status (si_worker w)). rewrite Hpe.
  cbn [bind call runState siteAnswer siteOS fst snd]. unfold siteResource. rewrite (resource_not_image k Hk), Hr.
  cbn [withTest]. rewrite bool_decide_true by exact Hn. cbn [owned].
  change (oaUID (defaulted (si_worker w))) with (oaUID (si_worker w)). rewrite Ho, bool_decide_true by done. cbn [negb].
  unfold recoverResource. destruct Hk as [<-|[<-|[<-|[<-|[]]]]]; simpl;
    eexists; (split; [reflexivity|]); (split; [done|]); simpl; split_and!; try done;
    intros k' Hk'; repeat (destruct Hk' as [<-|Hk']; [done|]); done.
Qed.

Lemma advance_recover w :
  provisionable sp w → ContainsFinalizer (oa_Meta (si_worker w)) openStackFinalizer = true →
  st_ScopeHash (oa_Status (si_worker w)) = oc_Scope client → st_PendingCreate (oa_Status (si_worker w)) ≠ "" →
  advanced w (provisionRound w).
Proof.
  intros Hp Hf Hsc Hpe. set (k := st_PendingCreate (oa_Status (si_worker w))) in *.
  destruct (pv_pending _ _ Hp) as [|[Hk Hhas]]; [done|]. fold k in Hk, Hhas.
  apply bool_decide_eq_true in Hhas as [r Hr].
  destruct (run_recover w k r Hp Hk eq_refl Hr) as (a' & Hrun & Hm & G1 & G2 & G3 & G4 & G5 & G6 & G7 & G8 & G9).
  destruct (round_step w (oa_Status (si_worker w)) a' (si_resources w) (si_cache w) (si_image w) Hp Hf Hsc) as (s & -> & Hc).
  { unfold provision. cbv zeta. change (oa_Status (defaulted (si_worker w))) with (oa_Status (si_worker w)).
    rewrite bool_decide_false, (bool_decide_false (_ = "")) by (done || apply (pv_phase _ _ Hp)). cbn [negb].
    by rewrite site_eta. }
  { exact Hm. }
  apply core_eq in Hc as (F1 & F2 & F3 & F4 & F5 & F6 & F7 & F8 & F9).
  pose proof (pv_resources _ _ Hp k Hk) as Hrk. rewrite Hr in Hrk. destruct Hrk as [Hu _].
  pose proof Hu as (Hne & _ & _ & Hmac & _).
  assert (recorded (si_worker w) s (si_resources w)) as Hrec.
  { intros k' Hk'. rewrite F4, G4 by done. pose proof (pv_resources _ _ Hp k' Hk') as Hr'. fold k in Hr'.
    destruct (decide (k = k')) as [<-|Hneq].
    - rewrite Hr, bool_decide_true by done. split; [by apply settle_usable|done].
    - rewrite bool_decide_false by done. destruct (si_resources w !! k') as [r'|]; [|done].
      destruct Hr' as [Hu' [Hid|[_ ?]]]; [split; [by apply settle_usable|done]|done]. }
  assert (stepsToServer (post w s (si_resources w) (si_cache w) (si_image w)) < stepsToServer w ∧
    (stepsBeforeServer w = 0 → stepsBeforeServer (post w s (si_resources w) (si_cache w) (si_image w)) = 0))%nat as [Hlt Hz].
  { rewrite steps_post, steps_site, before_post, before_site, (settled_image w Hp). unfold countSteps.
    rewrite F2, F3, F5, !F4, G2, G3, G5, (G4 Port (or_introl eq_refl)), (G4 Server server_kind).
    fold k. rewrite (bool_decide_false (k = "")) by done. fold (imageActive w).
    destruct Hk as [Hk|[Hk|[Hk|[Hk|[]]]]]; rewrite <- Hk in *; simpl;
      rewrite ?(bool_decide_false (rs_ID r = "")), ?(bool_decide_false (normalizeMAC (rs_MAC r) = "")) by auto; simpl;
      unfold imageActive; repeat destruct (one (_ || _)); split; lia. }
  split; [|done]. apply post_provisionable; auto.
  - right. congruence.
  - by rewrite F1, G1.
  - by rewrite F3.
  - intros Hsome. apply Hz, (pv_server _ _ Hp). by apply bool_decide_eq_true_2.
  - unfold imageInOrder. rewrite F6, F7, F8, F9, G6, G7, G8, G9. apply (pv_image _ _ Hp).
  - exact (pv_cache _ _ Hp).
  - rewrite (settled_image w Hp). exact (pv_stored _ _ Hp).
Qed.

(** Every reconciliation takes a step. *)
Lemma advance_round w : provisionable sp w → stepsToServer w ≠ 0%nat → advanced w (provisionRound w).
Proof.
  intros Hp Hne. destruct (ContainsFinalizer (oa_Meta (si_worker w)) openStackFinalizer) eqn:Hf; [|by apply advance_finalizer].
  destruct (pv_scope _ _ Hp) as [Hs|Hs]; [by apply advance_scope|].
  destruct (decide (st_PendingCreate (oa_Status (si_worker w)) = "")) as [Hpe|Hpe]; [|by apply advance_recover].
  destruct (decide (st_ServerID (oa_Status (si_worker w)) = "")) as [Hid|Hid]; [by apply advance_calm|].
  destruct Hne. unfold stepsToServer. rewrite Hpe, (bool_decide_false (st_ServerID _ = "")) by done.
  rewrite (pv_server _ _ Hp); [done|]. apply bool_decide_eq_true_2.
  pose proof (pv_resources _ _ Hp Server server_kind) as Hr. destruct (si_resources w !! Server); [by eexists|].
  by destruct Hid.
Qed.

Lemma provisioned_site w : provisionable sp w → stepsToServer w = 0%nat → provisioned sp w.
Proof.
  intros Hp Hz. rewrite steps_site, before_site in Hz. unfold countSteps in Hz.
  assert (∀ b, one b = 0%nat → b = false) as Hone by (by intros []).
  repeat (let Hi := fresh "Hi" in apply Nat.eq_add_0 in Hz as [Hz Hi]; apply Hone in Hi). apply Hone in Hz.
  gobool. split_and!; try done.
  - intros k Hk. pose proof (pv_resources _ _ Hp k Hk) as Hr. destruct (si_resources w !! k) as [r|] eqn:Ek.
    + destruct Hr as [(Hne & Ho & _) [Hid|[_ Hk']]]; [by exists r|]. apply resourceKinds_nonempty in Hk. congruence.
    + exfalso. destruct Hk as [<-|[<-|[<-|[<-|[]]]]]; rewrite ?Ek in *; try done; by apply is_Some_None in Hi1 || by apply is_Some_None in Hi4.
  - by destruct (pv_scope _ _ Hp).
Qed.

(** Rounds that take steps while there are some get to a state without. *)
Lemma provision_reaches w :
  provisionable sp w →
  ∃ n, (n ≤ stepsToServer w)%nat ∧ provisioned sp (Nat.iter n provisionRound w).
Proof.
  intros Hp. remember (stepsToServer w) as m eqn:Hm. revert w Hp Hm.
  induction (lt_wf m) as [m _ IH]. intros w Hp ->. destruct (decide (stepsToServer w = 0%nat)) as [Hz|Hne].
  - exists 0%nat. split; [lia|]. by apply provisioned_site.
  - destruct (advance_round w Hp Hne) as [Hp' Hlt].
    destruct (IH (stepsToServer (provisionRound w)) Hlt (provisionRound w) Hp' eq_refl) as (n & Hn & Hdone).
    exists (S n). split; [lia|]. by rewrite Nat.iter_succ_r.
Qed.
End proofs.

(** ** Properties *)
Section properties.
Context `{KubeLib} `{!KubeLaws} `{NetURL} `{HTTPDate} `{UUID}.

(** C12: the creation of a worker terminates with a server: in a project that
    cooperates, and from any state in which the resources that exist are recorded or
    pending, the reconciliations of a live worker take at least one step each; after
    at most as many reconciliations as there are steps left, and never more than nine,
    the port, the volumes and the server exist, are owned by the worker and recorded
    in its status, the OS volume is bootable and the discovery image is active. *)
Theorem provision_terminates (apiReader : reader) (sp : supply) (w : site) (Hsp : supplied sp)
    (Hw : provisionable sp w) :
  ∃ n, (n ≤ stepsToServer w ≤ 9)%nat ∧ provisioned sp (Nat.iter n (provisionRound apiReader sp) w).
Proof.
  destruct (provision_reaches apiReader sp Hsp w Hw) as (n & Hn & Hdone). exists n. split; [|done]. split; [done|].
  assert (∀ b, (one b ≤ 1)%nat) as Hone by (intros []; simpl; lia).
  unfold stepsToServer, stepsBeforeServer. pose proof Hone. repeat match goal with |- context [one ?b] =>
    lazymatch goal with H : (one b ≤ 1)%nat |- _ => fail | _ => pose proof (Hone b) end end.
  lia.
Qed.
End properties.
