(* ===== verification/OpenStackImageRefs.v ===== *)
(** * References to discovery images

    The ConfigMap that counts the references to a discovery image is written by all
    workers that share the image.  Every write is a step of the state machine
    [cacheStep], taken from the version that was read (the update carries its
    resource version, so the API server refuses it when another worker was faster).
    [cacheLife] is the history of the stored versions over any sequence of writes by
    reconciliations; its invariant is that a tombstone has no references and is the last
    version of its cache, so that an
    image is deleted only when nobody refers to it and nobody can any more. *)
From S2P Require Import Prelude OpenStackErrors Api Identity Planner OwnedVMs VsphereObjects Sha256 Effects K8s Objects.
From S2P Require Import VMProvider IsoCache InfraEnv AgentMachine PoolController Govc OpenStackImages OpenStackAgent.

(** ** The state machine *)
Definition sameVersion (c c' : ConfigMap) : Prop :=
  om_UID (cm_Meta c') = om_UID (cm_Meta c) ∧ om_ResourceVersion (cm_Meta c') = om_ResourceVersion (cm_Meta c).

Inductive cacheStep (worker : string) (c c' : ConfigMap) : Prop :=
| step_acquire :
    cacheLabel c = imageCacheOwnedValue → cachePhase c = "Active" → isDeleting (cm_Meta c) = false →
    cm_Data c' = <[worker := "reference"]> (cm_Data c) → cachePhase c' = cachePhase c → cacheLabel c' = cacheLabel c →
    cacheStep worker c c'
| step_release :
    cacheLabel c = imageCacheOwnedValue → cachePhase c ≠ openStackPhaseDeleting →
    cm_Data c' = delete worker (cm_Data c) →
    cachePhase c' = (if decide (cm_Data c' = ∅) then openStackPhaseDeleting else cachePhase c) →
    cacheLabel c' = cacheLabel c → cacheStep worker c c'.

(** A cache as a worker creates it. *)
Definition freshCache (worker : string) (c : ConfigMap) : Prop :=
  cacheLabel c = imageCacheOwnedValue ∧ cachePhase c = "Active" ∧ cm_Data c = {[worker := "reference"]}.

(** The versions that occur: created by a worker and changed by steps of workers;
    the server only assigns metadata. *)
Inductive cacheVersion : ConfigMap → Prop :=
| version_fresh worker c : freshCache worker c → cacheVersion c
| version_step worker c c' : cacheVersion c → cacheStep worker c c' → cacheVersion c'.

(** The tombstone has no references, and nothing follows it. *)
Lemma tombstone_unreferenced c : cacheVersion c → cachePhase c = openStackPhaseDeleting → cm_Data c = ∅.
Proof.
  induction 1 as [worker c (_ & Hp & _)|worker c c' Hv IH Hs]; intros Hd; [by rewrite Hp in Hd|].
  destruct Hs as [_ Hp _ _ Hp' _|_ Hp Hdata Hp' _]; [by rewrite Hp', Hp in Hd|].
  rewrite Hp' in Hd. by destruct (decide (cm_Data c' = ∅)).
Qed.

Lemma tombstone_final worker c c' : cachePhase c = openStackPhaseDeleting → ¬ cacheStep worker c c'.
Proof. intros Hd [_ Hp|_ Hp]; [by rewrite Hd in Hp|done]. Qed.

(** A version without the label of the caches, or made by the workers' steps. *)
Definition cacheOrForeign (c : ConfigMap) : Prop := cacheLabel c = imageCacheOwnedValue → cacheVersion c.

Section refs.
Context `{KubeLib} `{NetURL} `{HTTPDate} `{UUID}.
Context (apiReader : reader).

(** ** What the workers write *)
Definition cacheWrite (worker : string) : precondition callE := λ X h e,
  match e with
  | Create KConfigMap c => freshCache worker c
  | Update KConfigMap c' => ∃ ns name c, In (Event (Get apiReader KConfigMap ns name) (Ok c)) h ∧
      sameVersion c c' ∧ cacheStep worker c c'
  | Patch KConfigMap _ _ _ | StatusUpdate KConfigMap _ => False
  | _ => True
  end.

Lemma newCache_fresh a : freshCache (oaUID a) (newCache a).
Proof.
  unfold freshCache, cacheLabel, cachePhase, mapGet, newCache. simpl.
  by rewrite !lookup_singleton_eq.
Qed.

Lemma acquireCache_writes a : always (cacheWrite (oaUID a)) (acquireCache apiReader a).
Proof.
  intros h. unfold acquireCache. apply safe_bind. split; [done|]. intros [c|e] _; cbn [safe].
  - destruct (cacheLabel c != _) eqn:El; [done|]. destruct (_ || _) eqn:Ep; [done|].
    destruct (_ == ""); [|done]. split; [|done].
    exists (oaNamespace a), (st_ImageCacheName (oa_Status a)), c. split; [by left|]. split; [done|].
    gobool. by apply step_acquire.
  - destruct (IsNotFound e); [|done]. split; [apply newCache_fresh|done].
Qed.

Lemma pinnedImageGone_writes worker p a present : always (cacheWrite worker) (pinnedImageGone p a present).
Proof. unfold pinnedImageGone. solve_always. Qed.
Lemma collectImage_writes worker p c : always (cacheWrite worker) (collectImage p c).
Proof. unfold collectImage. solve_always. Qed.

Lemma releaseReference_writes a c h ns name :
  In (Event (Get apiReader KConfigMap ns name) (Ok c)) h →
  cacheLabel c = imageCacheOwnedValue → cachePhase c ≠ openStackPhaseDeleting →
  safe anyAnswer (cacheWrite (oaUID a)) h (releaseReference a c) (λ _ _, True).
Proof.
  intros Hin Hl Hp. unfold releaseReference. cbv zeta. apply safe_bindOk. split.
  - exists ns, name, c. split; [done|]. destruct (decide (delete (oaUID a) (cm_Data c) = ∅)) as [He|He].
    + split; [done|]. apply step_release; try done. simpl. rewrite decide_True by done.
      unfold cachePhase, mapGet. simpl. by rewrite lookup_insert_eq.
    + split; [done|]. apply step_release; try done. simpl. by rewrite decide_False.
  - intros [stored|e] _; done.
Qed.

Lemma releaseDiscoveryImage_writes p a : always (cacheWrite (oaUID a)) (releaseDiscoveryImage apiReader p a).
Proof.
  intros h. unfold releaseDiscoveryImage. destruct (_ == ""); [done|]. apply safe_bind. split; [done|].
  intros [c|e] _; cbn [safe].
  - destruct (cacheLabel c != _) eqn:El; [done|]. destruct (_ && _); [apply pinnedImageGone_writes|].
    destruct (cachePhase c != _) eqn:Ep; [|apply collectImage_writes].
    eapply releaseReference_writes; [by left|by gobool|by gobool].
  - destruct (_ && _); [done|]. destruct (IsNotFound e); [apply pinnedImageGone_writes|done].
Qed.

(** A cache is deleted as the tombstone that was read, when its image is gone. *)
Definition cacheProtocol (p : osClient) (worker : string) : precondition callE := λ X h e,
  cacheWrite worker X h e ∧
  match e with
  | Delete KConfigMap c pre => ∃ ns name e, In (Event (Get apiReader KConfigMap ns name) (Ok c)) h ∧
      cachePhase c = openStackPhaseDeleting ∧ osErrorIs e ErrNotFound = true ∧
      In (Event (OpenStack (OSGet p Image (imageIDForCache c) (om_UID (cm_Meta c)))) (Err e)) h ∧
      pre = Some (mkPreconditions (om_UID (cm_Meta c)) (om_ResourceVersion (cm_Meta c)))
  | _ => True
  end.

Definition noConfigMapDelete : precondition callE := λ X h e, match e with Delete KConfigMap _ _ => False | _ => True end.

Lemma acquireCache_protocol p a : always (cacheProtocol p (oaUID a)) (acquireCache apiReader a).
Proof.
  intros h. assert (always noConfigMapDelete (acquireCache apiReader a)) as Hn by (unfold acquireCache; solve_always).
  eapply safe_ok_mono; [apply (safe_ok_and _ _ _ _ _ _ _ (acquireCache_writes a h) (Hn h))|].
  intros X h' e [Hc Ho]. split; [done|]. destruct e; try done. by destruct k.
Qed.

Lemma releaseDiscoveryImage_collects p a h :
  safe anyAnswer (λ X h e, match e with Delete _ _ _ => cacheProtocol p (oaUID a) X h e | _ => True end) h
    (releaseDiscoveryImage apiReader p a) (λ _ _, True).
Proof.
  unfold releaseDiscoveryImage. destruct (_ == ""); [done|]. apply safe_bind. split; [done|].
  set (ok := λ X h e, _).
  assert (∀ present, always ok (pinnedImageGone p a present)) as Hpin by (intros; unfold pinnedImageGone; solve_always).
  intros [c|e] _; cbn [safe].
  - destruct (cacheLabel c != _); [done|]. destruct (_ && _); [apply Hpin|]. destruct (cachePhase c != _) eqn:Ep.
    { unfold releaseReference. cbv zeta. apply safe_bindOk. split; [done|]. by intros [?|?] _. }
    unfold collectImage. cbv zeta. apply safe_bind. split; [done|]. intros [image|e] _; cbn [safe].
    + apply safe_bindOk. split; [done|]. by intros [?|?] _.
    + destruct (osErrorIs e ErrNotFound) eqn:Ee; cbn [negb]; [|done]. apply safe_bind. split.
      * split; [done|]. do 2 eexists. exists e. gobool. split; [by right; left|]. split; [done|]. split; [done|]. split; [by left|done].
      * intros [[]|e'] _; cbn [safe]; [done|]. by destruct (negb (IsNotFound e')).
  - destruct (_ && _); [done|]. destruct (IsNotFound e); [apply Hpin|done].
Qed.

Lemma releaseDiscoveryImage_protocol p a : always (cacheProtocol p (oaUID a)) (releaseDiscoveryImage apiReader p a).
Proof.
  intros h. eapply safe_ok_mono; [apply (safe_ok_and _ _ _ _ _ _ _ (releaseDiscoveryImage_writes p a h) (releaseDiscoveryImage_collects p a h))|].
  intros X h' e [Hc Ho]. split; [done|]. destruct e; try done. destruct k; try done. by destruct Ho.
Qed.

(** ** When an image is deleted *)

(** The calls of a reconciliation on images and their caches: an image is deleted for a
    tombstone that was read, and a cache is written by a step of some worker. *)
Definition imageDelete : precondition callE := λ X h e,
  match e with
  | OpenStack (OSDelete p k id owner) => k = Image → ∃ ns name c,
      In (Event (Get apiReader KConfigMap ns name) (Ok c)) h ∧ cacheLabel c = imageCacheOwnedValue ∧
      cachePhase c = openStackPhaseDeleting ∧ id = imageIDForCache c ∧ owner = om_UID (cm_Meta c)
  | Create KConfigMap c => ∃ worker, freshCache worker c
  | Update KConfigMap c' => ∃ worker ns name c, In (Event (Get apiReader KConfigMap ns name) (Ok c)) h ∧
      sameVersion c c' ∧ cacheStep worker c c'
  | Patch KConfigMap _ _ _ | StatusUpdate KConfigMap _ => False
  | _ => True
  end.

Lemma cacheWrite_imageDelete worker X h (e : callE X) :
  match e with OpenStack (OSDelete _ k _ _) => k ≠ Image | _ => True end → cacheWrite worker X h e → imageDelete X h e.
Proof.
  destruct e; try done; try (destruct k; try done; simpl; by eauto). destruct e; try done. by simpl.
Qed.

Lemma acquireCache_images a : always imageDelete (acquireCache apiReader a).
Proof.
  intros h. pose proof (acquireCache_writes a h) as Hw.
  assert (always (λ X _ e, match e with OpenStack _ => False | _ => True end) (acquireCache apiReader a)) as Hn
    by (unfold acquireCache; solve_always).
  eapply safe_ok_mono; [apply (safe_ok_and _ _ _ _ _ _ _ Hw (Hn h))|]. intros X h' e [Hc Ho].
  eapply cacheWrite_imageDelete; [|exact Hc]. by destruct e.
Qed.

Lemma releaseDiscoveryImage_deletes p a : always imageDelete (releaseDiscoveryImage apiReader p a).
Proof.
  intros h. unfold releaseDiscoveryImage. destruct (_ == ""); [done|]. apply safe_bind. split; [done|].
  assert (∀ present, always imageDelete (pinnedImageGone p a present)) as Hpin
    by (intros; unfold pinnedImageGone; solve_always).
  intros [c|e] _; cbn [safe].
  - destruct (cacheLabel c != _) eqn:El; [done|]. destruct (_ && _); [apply Hpin|].
    destruct (cachePhase c != _) eqn:Ep.
    { gobool. assert (always (λ X _ e, match e with OpenStack _ => False | _ => True end) (releaseReference a c)) as Hn
        by (unfold releaseReference; solve_always).
      eapply safe_ok_mono.
      - eapply safe_ok_and; [|apply Hn]. eapply releaseReference_writes; [by left|done|done].
      - intros X h' e [Hc Ho]. eapply cacheWrite_imageDelete; [|exact Hc]. by destruct e. }
    unfold collectImage. cbv zeta. apply safe_bind. split; [done|]. intros [image|e] _; cbn [safe].
    + apply safe_bindOk. split; [|intros [?|?] _; done]. intros _.
      eexists _, _, c. split; [by right; left|]. by gobool.
    + destruct (negb (osErrorIs e ErrNotFound)); [done|]. apply safe_bind. split; [done|].
      intros [[]|e'] _; cbn [safe]; [done|]. by destruct (negb (IsNotFound e')).
  - destruct (_ && _); [done|]. destruct (IsNotFound e); [apply Hpin|done].
Qed.

Lemma deleteResource_images p a k id : k ≠ Image → always imageDelete (deleteResource p a k id).
Proof. intros Hk. unfold deleteResource. solve_always. by intros ->. Qed.

Ltac solve_images := solve_always; try done.

Lemma status_images a : always imageDelete (status apiReader a).
Proof. unfold status. solve_images. Qed.
Lemma discoveryISOAvailable_images r n m : always imageDelete (discoveryISOAvailable r n m).
Proof. unfold discoveryISOAvailable. solve_images. Qed.
Lemma downloadISO_images url path t : always imageDelete (downloadISO url path t).
Proof. unfold downloadISO. solve_images. Qed.
Hint Resolve status_images discoveryISOAvailable_images downloadISO_images releaseDiscoveryImage_deletes : always.
Lemma downloadDiscovery_images a : always imageDelete (downloadDiscovery apiReader a).
Proof. unfold downloadDiscovery. solve_images. Qed.
Lemma matchingHosts_images a : always imageDelete (matchingHosts apiReader a).
Proof. unfold matchingHosts. solve_images. Qed.
Lemma patchDiscoveredAgent_images r n b m hn c : always imageDelete (patchDiscoveredAgent r n b m hn c).
Proof. unfold patchDiscoveredAgent. solve_images. Qed.
Lemma ensureResource_images p a k : always imageDelete (ensureResource apiReader p a k).
Proof. unfold ensureResource, createResource. solve_images. Qed.
Lemma dropFinalizer_images a : always imageDelete (dropFinalizer a).
Proof. unfold dropFinalizer. solve_images. Qed.
Hint Resolve acquireCache_images downloadDiscovery_images matchingHosts_images patchDiscoveredAgent_images ensureResource_images
  dropFinalizer_images : always.
Lemma prepareDiscoveryImage_images p a : always imageDelete (prepareDiscoveryImage apiReader p a).
Proof.
  unfold prepareDiscoveryImage, ensureDiscoveryImage, imageReady, uploadDiscoverySnapshot, uploadFile.
  solve_images.
Qed.
Hint Resolve prepareDiscoveryImage_images : always.
Lemma provision_images p a : always imageDelete (provision apiReader p a).
Proof.
  unfold provision, refreshDiscoveryImage, recoverPending, recoverResource, observeServer, reconcileDiscoveredAgent,
    reconcileHost, createNetwork, createVolumes, createDiscoveryVolume, createInstance. solve_images.
Qed.

Lemma deleteResources_images p a kinds :
  Forall (λ k, k ≠ Image) kinds → always imageDelete (deleteResources apiReader p a kinds).
Proof.
  intros Hk. revert a. induction Hk as [|k kinds Hk _ IH]; intros a; cbn [deleteResources].
  - unfold finishCleanup, deleteHost. solve_images.
  - apply always_bindSt; [by apply deleteResource_images|]. intros [a' done']. destruct done'; solve_images.
Qed.

Lemma cleanupOrder_no_image a : Forall (λ k, k ≠ Image) (cleanupOrder a).
Proof. unfold cleanupOrder. destruct (_ != _); repeat constructor; done. Qed.

Lemma cleanup_images p a present : always imageDelete (cleanup apiReader p a present).
Proof.
  unfold cleanup, authorizeCleanup, machineGone, unapproveHost.
  solve_always; try done. apply deleteResources_images, cleanupOrder_no_image.
Qed.
Hint Resolve provision_images cleanup_images : always.

Lemma Reconcile_images ns name : always imageDelete (Reconcile apiReader ns name).
Proof.
  unfold Reconcile, demandPresent, reconcileDemand, provider, reconcileWith, reconcileDone, reconcileFailed. solve_images.
Qed.
End refs.

(** ** The life of the caches *)

(** What a reconciliation reads of ConfigMaps are versions that were stored before. *)
Definition readsFrom (vs : list ConfigMap) (X : Type) (e : callE X) : X → Prop :=
  match e in callE X return X → Prop with
  | Get _ k _ _ => match k return result (obj k) → Prop with
                   | KConfigMap => λ r, match r with Ok c => In c vs | Err _ => True end
                   | _ => λ _, True
                   end
  | _ => λ _, True
  end.

(** The version that is stored for a ConfigMap, by its UID. *)
Definition latest (vs : list ConfigMap) (uid : string) : option ConfigMap :=
  List.find (λ v, om_UID (cm_Meta v) == uid) vs.

(** The server stores what it is sent; it assigns the rest of the metadata. *)
Definition storedAs (c stored : ConfigMap) : Prop :=
  cm_Data stored = cm_Data c ∧ om_Labels (cm_Meta stored) = om_Labels (cm_Meta c) ∧
  om_Annotations (cm_Meta stored) = om_Annotations (cm_Meta c).

Definition newUID (vs : list ConfigMap) (c : ConfigMap) : Prop := ∀ v, In v vs → om_UID (cm_Meta v) ≠ om_UID (cm_Meta c).
Definition newVersion (vs : list ConfigMap) (c : ConfigMap) : Prop :=
  ∀ v, In v vs → om_UID (cm_Meta v) = om_UID (cm_Meta c) → om_ResourceVersion (cm_Meta v) ≠ om_ResourceVersion (cm_Meta c).

Section cacheLife.
Context `{KubeLib} `{NetURL} `{HTTPDate} `{UUID}.
Context (apiReader : reader).

(** The versions stored so far, newest first, over any sequence of writes by
    reconciliations of any workers, each at any point of its run and with reads of any earlier versions.  A
    creation gets a new UID; an update is accepted only for the version that is stored, and gets a new
    resource version; ConfigMaps that are not caches come from elsewhere. *)
Inductive cacheLife : list ConfigMap → Prop :=
| life_nothing : cacheLife []
| life_foreign vs c : cacheLife vs → cacheLabel c ≠ imageCacheOwnedValue → newUID vs c → cacheLife (c :: vs)
| life_created vs ns name h c k stored :
    cacheLife vs → reach (λ X _, readsFrom vs X) [] (Reconcile apiReader ns name) h (Call (Create KConfigMap c) k) →
    storedAs c stored → newUID vs stored → cacheLife (stored :: vs)
| life_updated vs ns name h c k current stored :
    cacheLife vs → reach (λ X _, readsFrom vs X) [] (Reconcile apiReader ns name) h (Call (Update KConfigMap c) k) →
    latest vs (om_UID (cm_Meta c)) = Some current →
    om_ResourceVersion (cm_Meta c) = om_ResourceVersion (cm_Meta current) →
    storedAs c stored → om_UID (cm_Meta stored) = om_UID (cm_Meta c) → newVersion vs stored → cacheLife (stored :: vs).

Definition versionKey (c : ConfigMap) : string * string := (om_UID (cm_Meta c), om_ResourceVersion (cm_Meta c)).
Definition isTombstone (c : ConfigMap) : Prop := cacheLabel c = imageCacheOwnedValue ∧ cachePhase c = openStackPhaseDeleting.

(** The invariant: versions are distinct, tombstones are unreferenced, and the last
    version of their cache. *)
Record lifeInv (vs : list ConfigMap) : Prop := {
  li_distinct : List.NoDup (map versionKey vs);
  li_versions : ∀ c, In c vs → cacheOrForeign c;
  li_tombstones : ∀ c, In c vs → isTombstone c → latest vs (om_UID (cm_Meta c)) = Some c }.

Lemma storedAs_version c stored : storedAs c stored → cacheVersion c → cacheVersion stored.
Proof.
  intros (Hd & Hl & Ha) Hv. assert (cacheLabel stored = cacheLabel c ∧ cachePhase stored = cachePhase c) as [Hl' Hp'].
  { unfold cacheLabel, cachePhase. by rewrite Hl, Ha. }
  destruct Hv as [worker c (? & ? & ?)|worker c0 c Hv Hs].
  - apply (version_fresh worker). split_and!; congruence.
  - apply (version_step worker c0); [done|].
    destruct Hs as [? ? ? ? ? ?|? ? ? Hp ?]; [apply step_acquire|apply step_release]; try congruence.
    rewrite Hp', Hp. by rewrite Hd.
Qed.

Lemma latest_In vs uid c : latest vs uid = Some c → In c vs ∧ om_UID (cm_Meta c) = uid.
Proof. intros [? ?]%find_some. by gobool. Qed.

Lemma versionKey_inj vs c c' : List.NoDup (map versionKey vs) → In c vs → In c' vs → versionKey c = versionKey c' → c = c'.
Proof.
  induction vs as [|v vs IH]; [done|]. simpl. intros [Hv Hn]%NoDup_cons_iff [->|Hc] [->|Hc'] Hk; [done| | |by apply IH].
  - destruct Hv. rewrite Hk. by apply in_map.
  - destruct Hv. rewrite <- Hk. by apply in_map.
Qed.

(** A new version after which the tombstones are still the last versions. *)
Lemma lifeInv_cons vs c :
  lifeInv vs → newVersion vs c → cacheOrForeign c →
  (∀ t, In t vs → isTombstone t → om_UID (cm_Meta t) ≠ om_UID (cm_Meta c)) → lifeInv (c :: vs).
Proof.
  intros [Hd Hv Ht] Hn Hc Hu. split.
  - simpl. constructor; [|done]. intros (v & Hk & Hin)%in_map_iff. unfold versionKey in Hk. injection Hk as Hk1 Hk2.
    by apply (Hn v Hin).
  - intros v [<-|Hin]; auto.
  - intros t [<-|Hin] Htomb; unfold latest; simpl.
    + by rewrite (bool_decide_eq_true_2 (om_UID (cm_Meta c) = _)).
    + rewrite (bool_decide_eq_false_2 (om_UID (cm_Meta c) = _)) by (intros He; by apply (Hu t Hin Htomb)). by apply Ht.
Qed.

Lemma newUID_version vs c : newUID vs c → newVersion vs c.
Proof. intros Hn v Hin He. by destruct (Hn v Hin). Qed.

(** What was read of ConfigMaps in a run. *)
Lemma reads_In {A} vs (p : program A) h q n m c :
  reach (λ X _, readsFrom vs X) [] p h q → In (Event (Get apiReader KConfigMap n m) (Ok c)) h → In c vs.
Proof.
  intros Hr Hin. apply (reach_relied (readsFrom vs)) in Hr; [|constructor]. rewrite Forall_forall in Hr.
  apply list_elem_of_In in Hin. exact (Hr _ Hin).
Qed.

Lemma life_invariant vs : cacheLife vs → lifeInv vs.
Proof.
  induction 1 as [|vs c Hl IH Hf Hn|vs ns name h c k stored Hl IH Hr Hs Hn|vs ns name h c k current stored Hl IH Hr Hcur Hrv Hs Hu Hn].
  - split; [constructor|done|done].
  - apply lifeInv_cons; [done|by apply newUID_version|by intros ?|]. intros t Hin _. by apply Hn.
  - apply reach_any, (safe_reach _ _ _ _ _ _ _ (Reconcile_images apiReader ns name [])) in Hr as [worker Hfresh].
    apply lifeInv_cons; [done|by apply newUID_version| |intros t Hin _; by apply Hn].
    intros _. eapply storedAs_version; [exact Hs|]. by eapply version_fresh.
  - pose proof (reach_any _ _ _ _ _ Hr) as Hany.
    apply (safe_reach _ _ _ _ _ _ _ (Reconcile_images apiReader ns name [])) in Hany as (worker & n & m & c0 & Hin & [Hu0 Hr0] & Hstep).
    apply (reads_In vs _ _ _ _ _ _ Hr) in Hin. destruct (latest_In _ _ _ Hcur) as [Hcin Hcu].
    assert (c0 = current) as ->.
    { apply (versionKey_inj vs); [apply IH|done|done|]. unfold versionKey. f_equal; congruence. }
    assert (cacheLabel current = imageCacheOwnedValue) as Hlab by (by destruct Hstep).
    apply lifeInv_cons; [done|done| |].
    + intros _. eapply storedAs_version; [exact Hs|]. eapply version_step; [|exact Hstep]. by apply (li_versions _ IH).
    + intros t Htin Htomb He. rewrite Hu in He. pose proof (li_tombstones _ IH t Htin Htomb) as Hlt. rewrite He, Hcur in Hlt.
      injection Hlt as ->. destruct Htomb as [_ Hp]. by apply (tombstone_final worker t c Hp).
Qed.

(** Nothing is stored after a tombstone. *)
Lemma tombstone_last newer vs c v :
  cacheLife (newer ++ vs) → In c vs → isTombstone c → In v newer → om_UID (cm_Meta v) = om_UID (cm_Meta c) → False.
Proof.
  intros Hl Hc Ht Hv He. destruct (life_invariant _ Hl) as [Hd _ Hlt]. specialize (Hlt c (proj2 (in_app_iff _ _ _) (or_intror Hc)) Ht).
  assert (∃ x, In x newer ∧ latest (newer ++ vs) (om_UID (cm_Meta c)) = Some x) as (x & Hx & Hlx).
  { clear -Hv He. unfold latest. induction newer as [|y newer IH]; [done|]. simpl.
    destruct (bool_decide_reflect (om_UID (cm_Meta y) = om_UID (cm_Meta c))); [by exists y; split; [left|]|].
    destruct Hv as [->|Hv]; [done|]. destruct (IH Hv) as (x & ? & ?). exists x. split; [by right|done]. }
  rewrite Hlt in Hlx. injection Hlx as <-. rewrite map_app in Hd.
  apply NoDup_ListNoDup, NoDup_app in Hd as (_ & Hd & _). apply (Hd (versionKey c)); by apply list_elem_of_In, in_map.
Qed.
End cacheLife.

(** ** Properties *)
Section refs_properties.
Context `{KubeLib} `{NetURL} `{HTTPDate} `{UUID}.
Context (apiReader : reader).

(** C20: acquiring and releasing a discovery image write its cache only as steps of
    the reference-counting machine for the worker: a cache is created active with the
    worker's reference and no other, an update is from exactly the version that was
    read and adds the worker's reference to an active cache or removes it, the removal of the
    last reference being the tombstone; and a cache is deleted only in the version that was read, as a
    tombstone whose image the project does not have any more. *)
Theorem image_cache_protocol (a : OpenStackAgent) (p : osClient) (h : hist) (X : Type) (e : callE X)
    (Hreach : (∃ k, reach anyAnswer [] (acquireCache apiReader a) h (Call e k)) ∨
              (∃ k, reach anyAnswer [] (releaseDiscoveryImage apiReader p a) h (Call e k))) :
  match e with
  | Create KConfigMap c => freshCache (oaUID a) c
  | Update KConfigMap c' => ∃ ns name c, In (Event (Get apiReader KConfigMap ns name) (Ok c)) h ∧
      sameVersion c c' ∧ cacheStep (oaUID a) c c'
  | Delete KConfigMap c pre => ∃ ns name e, In (Event (Get apiReader KConfigMap ns name) (Ok c)) h ∧
      cachePhase c = openStackPhaseDeleting ∧ osErrorIs e ErrNotFound = true ∧
      In (Event (OpenStack (OSGet p Image (imageIDForCache c) (om_UID (cm_Meta c)))) (Err e)) h ∧
      pre = Some (mkPreconditions (om_UID (cm_Meta c)) (om_ResourceVersion (cm_Meta c)))
  | Patch KConfigMap _ _ _ | StatusUpdate KConfigMap _ => False
  | _ => True
  end.
Proof.
  destruct Hreach as [[k Hr]|[k Hr]].
  - apply (safe_reach _ _ _ _ _ _ _ (acquireCache_protocol apiReader p a [])) in Hr as [Hw Hd].
    destruct e; try done; by destruct k0.
  - apply (safe_reach _ _ _ _ _ _ _ (releaseDiscoveryImage_protocol apiReader p a [])) in Hr as [Hw Hd].
    destruct e; try done; by destruct k0.
Qed.

(** C9: over any sequence of writes of the image caches by reconciliations of any workers, a
    reconciliation deletes a discovery image only if the cache of the image is a tombstone that it has read: no
    worker refers to the image in that version, it is the stored version of the cache, and no
    reconciliation ever stores another version of it; and the image is the one of that cache. *)
Theorem image_deleted_unreferenced (vs : list ConfigMap) (ns name : string) (h : hist) (p : osClient) (id owner : string)
    (k : result unit → program (result Duration)) (Hlife : cacheLife apiReader vs)
    (Hreach : reach (λ X _, readsFrom vs X) [] (Reconcile apiReader ns name) h (Call (OpenStack (OSDelete p Image id owner)) k)) :
  ∃ n m c, In (Event (Get apiReader KConfigMap n m) (Ok c)) h ∧ cm_Data c = ∅ ∧
    latest vs (om_UID (cm_Meta c)) = Some c ∧
    (∀ newer v, cacheLife apiReader (newer ++ vs) → In v newer → om_UID (cm_Meta v) ≠ om_UID (cm_Meta c)) ∧
    id = imageIDForCache c ∧ owner = om_UID (cm_Meta c).
Proof.
  pose proof (reach_any _ _ _ _ _ Hreach) as Hany.
  apply (safe_reach _ _ _ _ _ _ _ (Reconcile_images apiReader ns name [])) in Hany.
  destruct (Hany eq_refl) as (n & m & c & Hin & Hlab & Hp & -> & ->). exists n, m, c.
  pose proof (reads_In _ _ _ _ _ _ _ _ Hreach Hin) as Hc. pose proof (life_invariant _ _ Hlife) as Hinv.
  split; [done|]. split; [apply tombstone_unreferenced; [by apply (li_versions _ Hinv)|done]|].
  split; [by apply (li_tombstones _ Hinv)|]. split; [|done]. intros newer v Hl Hv He.
  by apply (tombstone_last apiReader newer vs c v).
Qed.
End refs_properties.
