(* ===== verification/OpenStackPool.v ===== *)
(** * The OpenStackAgentPool controller

    internal/controller/openstackagentpool_controller.go, OpenStackAgentPoolReconciler:
    it reports the capacity of a pool and keeps a deleted pool until its workers are
    gone.  The theorems say when workers are deleted and the pool is given up, and
    what is reported. *)
From S2P Require Import Prelude OpenStackErrors Api Identity Planner OwnedVMs VsphereObjects Sha256 Effects K8s Objects.
From S2P Require Import AgentMachine PoolController.

Section pool.
Context `{KubeLib}.
Context (apiReader : reader).

Definition ownChild (p : OpenStackAgentPool) (a : OpenStackAgent) : bool :=
  oas_PoolUID (oa_Spec a) == om_UID (osp_Meta p).
Definition readyChild (a : OpenStackAgent) : bool := st_Phase (oa_Status a) == conditionReady.

(** The loop over the workers: the counts, or the early return of Reconcile. *)
Fixpoint observeChildren (p : OpenStackAgentPool) (children : list OpenStackAgent) (count ready : Z)
    : program (Z * Z + result unit) :=
  match children with
  | [] => Return (inl (count, ready))
  | a :: rest =>
      if negb (ownChild p a) then observeChildren p rest count ready
      else
        let count := add32 count 1 in
        let ready := if readyChild a then add32 ready 1 else ready in
        if isDeleting (osp_Meta p) && negb (isDeleting (oa_Meta a)) then
          let! r := call (Delete KOpenStackAgent a None) in
          match r with
          | Err e => Return (inr (IgnoreNotFound e))
          | Ok _ => observeChildren p rest count ready
          end
        else observeChildren p rest count ready
  end.

(** The demand counted by the loop over the AgentMachines. *)
Definition demandItem (p : OpenStackAgentPool) (am : Unstructured) : bool :=
  negb (isDeleting (un_Meta am)) && openStackDemandMatches am p.
Definition countDemand (p : OpenStackAgentPool) (items : list Unstructured) : Z :=
  count32 (demandItem p) items.

(** The status published. *)
Definition observedStatus (p : OpenStackAgentPool) (desired ready : Z) : OpenStackAgentPool :=
  let generation := om_Generation (osp_Meta p) in
  let s := (osp_Status p) <| ops_ObservedGeneration := generation |> <| ops_DesiredReplicas := desired |>
             <| ops_ReadyReplicas := ready |> in
  p <| osp_Status := s <| ops_Conditions := SetStatusCondition (ops_Conditions s)
         (mkCondition conditionReady (conditionStatus (ready == desired)) generation 0 "CapacityObserved"
            (fmt_d ready +:+ " installed workers for " +:+ fmt_d desired +:+ " AgentMachines")) |> |>.

Definition reportCapacity (p : OpenStackAgentPool) (ready : Z) : program (result Duration) :=
  let? items := call (ListObjs apiReader KAgentMachine (InNamespace (os_ControlPlaneNamespace (osp_Spec p)))) in
  let p' := observedStatus p (countDemand p items) ready in
  if osp_Status p == osp_Status p' then Return (Ok (30 * second))
  else let? _ := call (StatusUpdate KOpenStackAgentPool p') in Return (Ok (30 * second)).

Definition Reconcile (ns name : string) : program (result Duration) :=
  let! got := call (Get apiReader KOpenStackAgentPool ns name) in
  match got with
  | Err e => if IsNotFound e then Return (Ok 0) else Return (Err e)
  | Ok p =>
      let '(added, meta) := AddFinalizer (osp_Meta p) openStackFinalizer in
      if negb (isDeleting (osp_Meta p)) && added then
        let? _ := call (Update KOpenStackAgentPool (p <| osp_Meta := meta |>)) in Return (Ok 0)
      else
        let? children := call (ListObjs apiReader KOpenStackAgent (InNamespace (om_Namespace (osp_Meta p)))) in
        let! counted := observeChildren p children 0 0 in
        match counted with
        | inr r => match r with Ok _ => Return (Ok 0) | Err e => Return (Err e) end
        | inl (count, ready) =>
            if isDeleting (osp_Meta p) then
              if 0 <? count then Return (Ok (15 * second))
              else
                let? _ := call (Update KOpenStackAgentPool
                  (p <| osp_Meta := RemoveFinalizer (osp_Meta p) openStackFinalizer |>)) in
                Return (Ok 0)
            else reportCapacity p ready
        end
  end.
End pool.

(** ** Proofs *)
Section pool_proofs.
Context `{KubeLib} `{!KubeLaws}.
Context (apiReader : reader) (ns name : string).

Definition readyWorker (p : OpenStackAgentPool) (a : OpenStackAgent) : bool := ownChild p a && readyChild a.

(** The pool and the workers that a pass works with. *)
Definition poolSeen (p : OpenStackAgentPool) (children : list OpenStackAgent) (h : hist) : Prop :=
  In (Event (Get apiReader KOpenStackAgentPool ns name) (Ok p)) h ∧
  In (Event (ListObjs apiReader KOpenStackAgent (InNamespace (om_Namespace (osp_Meta p)))) (Ok children)) h.

Lemma poolSeen_grows p children h h' : grows h h' → poolSeen p children h → poolSeen p children h'.
Proof. intros Hg [? ?]. split; by eapply In_grows. Qed.

Definition poolCall : precondition callE := λ X h e,
  match e with
  | Delete KOpenStackAgent a _ => ∃ p children, poolSeen p children h ∧ isDeleting (osp_Meta p) = true ∧
      In a children ∧ ownChild p a = true ∧ isDeleting (oa_Meta a) = false
  | Update KOpenStackAgentPool o => ContainsFinalizer (osp_Meta o) openStackFinalizer = false →
      ∃ p children, poolSeen p children h ∧ isDeleting (osp_Meta p) = true ∧
        (Z.of_nat (length children) < int32_half → ∀ a, In a children → ownChild p a = false)
  | StatusUpdate KOpenStackAgentPool o => ∃ p children items, poolSeen p children h ∧ isDeleting (osp_Meta p) = false ∧
      In (Event (ListObjs apiReader KAgentMachine (InNamespace (os_ControlPlaneNamespace (osp_Spec p)))) (Ok items)) h ∧
      o = observedStatus p (count32 (demandItem p) items) (count32 (readyWorker p) children)
  | _ => True
  end.

Lemma observeChildren_safe p children rest h count ready (Q : hist → Z * Z + result unit → Prop) :
  poolSeen p children h → (∀ a, In a rest → In a children) →
  (∀ h', grows h h' → Q h' (inl (foldl (λ c a, if ownChild p a then add32 c 1 else c) count rest,
                                 foldl (λ c a, if readyWorker p a then add32 c 1 else c) ready rest))) →
  (∀ h' r, Q h' (inr r)) → safe anyAnswer poolCall h (observeChildren p rest count ready) Q.
Proof.
  revert h count ready. induction rest as [|a rest IH]; intros h count ready Hs Hin HQ HE; cbn [observeChildren].
  { apply HQ. auto with grows. }
  unfold readyWorker in HQ. simpl in HQ. destruct (ownChild p a) eqn:Eo; cbn [negb].
  2: { apply IH; try done. intros b Hb. apply Hin. by right. }
  cbv zeta. simpl in HQ. destruct (isDeleting (osp_Meta p) && _) eqn:Ed.
  - apply safe_bind. split.
    + apply andb_true_iff in Ed as [Ed Ea]. exists p, children. split; [done|]. split; [done|].
      split; [apply Hin; by left|]. split; [done|]. by apply negb_true_iff in Ea.
    + intros [[]|e] _; cbn [safe]; [|apply HE].
      apply IH; [eapply poolSeen_grows, Hs; auto with grows|intros b Hb; apply Hin; by right| |done].
      intros h' Hg. apply HQ. eapply grows_trans, Hg. auto with grows.
  - apply IH; try done. intros b Hb. apply Hin. by right.
Qed.

Lemma count32_zero {A} (test : A → bool) (l : list A) :
  Z.of_nat (length l) < int32_half → (0 <? count32 test l) = false → ∀ x, In x l → test x = false.
Proof.
  intros Hl Hc x Hx. rewrite count32_filter in Hc by done. apply Z.ltb_ge in Hc.
  destruct (test x) eqn:E; [|done]. exfalso.
  assert (In x (List.filter test l)) as Hin by (by apply filter_In).
  destruct (List.filter test l); [done|simpl in Hc; lia].
Qed.

Lemma Reconcile_pool : safe anyAnswer poolCall [] (Reconcile apiReader ns name) (λ _ _, True).
Proof.
  unfold Reconcile. apply safe_bind. split; [done|]. intros [p|e] _; cbn [safe]; [|by destruct (IsNotFound e)].
  destruct (AddFinalizer (osp_Meta p) openStackFinalizer) as [added meta] eqn:Ef. destruct (_ && added) eqn:Ea.
  { apply safe_bindOk. split; [|intros [?|?] _; done]. simpl. intros Hno. exfalso. revert Ef Hno.
    rewrite AddFinalizer_spec, !ContainsFinalizer_spec. apply andb_true_iff in Ea as [_ ->].
    case_bool_decide; intros [= <-]. simpl. intros Hno%bool_decide_eq_false_1. set_solver. }
  apply safe_bindOk. split; [done|]. intros [children|e] _; cbn [safe]; [|done].
  set (h := _ :: _). assert (poolSeen p children h) as Hs by (split; [by right; left|by left]). clearbody h.
  apply safe_bind. eapply observeChildren_safe; [done|done| |intros h' [?|?]; done]. intros h1 Hg. cbv iota.
  apply (poolSeen_grows _ _ _ _ Hg) in Hs. destruct (isDeleting (osp_Meta p)) eqn:Ed.
  - destruct (0 <? _) eqn:Ec; [done|]. apply safe_bindOk. split; [|intros [?|?] _; done].
    intros _. exists p, children. split; [done|]. split; [done|]. intros Hl a Ha. by eapply count32_zero.
  - unfold reportCapacity. apply safe_bindOk. split; [done|]. intros [items|e] _; cbn [safe]; [|done].
    cbv zeta. destruct (_ == _); [done|]. apply safe_bindOk. split; [|intros [?|?] _; done].
    exists p, children, items. split; [eapply poolSeen_grows, Hs; auto with grows|]. split; [done|]. split; [by left|done].
Qed.
End pool_proofs.

(** ** Properties *)
Section pool_properties.
Context `{KubeLib} `{!KubeLaws}.
Context (apiReader : reader).

(** C32: an OpenStack pool deletes a worker only while the pool is being deleted and
    only a worker of its own, and it gives up its finalizer only when the workers
    listed contain none of its own. *)
Theorem openstack_pool_waits (ns name : string) (h : hist) :
  (∀ a pre k, reach anyAnswer [] (Reconcile apiReader ns name) h (Call (Delete KOpenStackAgent a pre) k) →
     ∃ p children, poolSeen apiReader ns name p children h ∧ isDeleting (osp_Meta p) = true ∧
       In a children ∧ ownChild p a = true ∧ isDeleting (oa_Meta a) = false) ∧
  (∀ o k, reach anyAnswer [] (Reconcile apiReader ns name) h (Call (Update KOpenStackAgentPool o) k) →
     ContainsFinalizer (osp_Meta o) openStackFinalizer = false →
     ∃ p children, poolSeen apiReader ns name p children h ∧ isDeleting (osp_Meta p) = true ∧
       (Z.of_nat (length children) < int32_half → ∀ a, In a children → ownChild p a = false)).
Proof.
  split; intros; match goal with Hr : reach _ _ _ _ _ |- _ =>
    apply (safe_reach _ _ _ _ _ _ _ (Reconcile_pool apiReader ns name)) in Hr end; by auto.
Qed.

(** The status of an OpenStack pool reports exactly the AgentMachines that are
    not being deleted and belong to its node pool, and its workers that are ready;
    the pool is ready exactly when the two numbers agree. *)
Theorem openstack_pool_reports (ns name : string) (h : hist) (o : OpenStackAgentPool)
    (k : result OpenStackAgentPool → program (result Duration))
    (Hreach : reach anyAnswer [] (Reconcile apiReader ns name) h (Call (StatusUpdate KOpenStackAgentPool o) k)) :
  ∃ p children items, poolSeen apiReader ns name p children h ∧
    In (Event (ListObjs apiReader KAgentMachine (InNamespace (os_ControlPlaneNamespace (osp_Spec p)))) (Ok items)) h ∧
    (Z.of_nat (length children) < int32_half → Z.of_nat (length items) < int32_half →
     ops_DesiredReplicas (osp_Status o) = Z.of_nat (length (List.filter (demandItem p) items)) ∧
     ops_ReadyReplicas (osp_Status o) = Z.of_nat (length (List.filter (readyWorker p) children))) ∧
    IsStatusConditionTrue (ops_Conditions (osp_Status o)) conditionReady =
      (ops_ReadyReplicas (osp_Status o) == ops_DesiredReplicas (osp_Status o)).
Proof.
  apply (safe_reach _ _ _ _ _ _ _ (Reconcile_pool apiReader ns name)) in Hreach.
  destruct Hreach as (p & children & items & Hs & _ & Hi & ->). exists p, children, items.
  split; [done|]. split; [done|]. split.
  - intros Hc Hl. unfold observedStatus. simpl. by rewrite !count32_filter.
  - unfold IsStatusConditionTrue, observedStatus. simpl.
    match goal with |- context [SetStatusCondition ?cs ?c] =>
      destruct (SetStatusCondition_find cs c) as (c' & Hf & _ & Hst & _) end.
    simpl in Hf. rewrite Hf, Hst. simpl. by destruct (_ == _).
Qed.
End pool_properties.
