(* ===== verification/Fixtures.v ===== *)
(** * Fixtures

    A concrete environment for the models: a fixed cluster, govc that answers from
    a table, and the library instances that the models are run with.  The
    witnesses (Witnesses.v) run the programs against it: [runTo] stops a run at a
    call, and the lemmas below turn the stopped run into a reachable point. *)
From S2P Require Import Prelude OpenStackErrors Api Identity Planner OwnedVMs VsphereObjects Sha256 Effects K8s Objects.
From S2P Require Import VMProvider IsoCache Govc.

(** ** Environments *)
Record fixture := mkFixture {
  fx_Get : ∀ k, string → string → result (obj k);
  fx_List : ∀ k, result (list (obj k));
  fx_Govc : list string → result string;
  fx_OpenStack : ∀ X, osClientE X → X;
  fx_File : string;
  fx_Now : Time }.

Definition notFound {A} : result A := Err (mkError ClassNotFound "not found").

#[export] Instance sameObject_dec m m' : Decision (sameObject m m').
Proof. unfold sameObject. apply _. Defined.

(** Writes are accepted; a patch that changes the identity is not. *)
Definition fixtureEnv (f : fixture) : environment callE := λ X _ e,
  match e in callE X return X with
  | Get _ k ns name => fx_Get f k ns name
  | ListObjs _ k _ => fx_List f k
  | Create _ o => Ok o
  | Update _ o => Ok o
  | StatusUpdate _ o => Ok o
  | Patch _ before after _ =>
      if bool_decide (sameObject (objMeta before) (objMeta after)) then Ok after else notFound
  | Delete _ _ _ => Ok tt
  | Now => fx_Now f
  | Clock => λ _ _, fx_Now f
  | Govc args => fx_Govc f args
  | GovcStart _ => tt
  | Select => CommandDone (Ok tt)
  | MkdirTemp => Ok "/tmp/agent-forge-iso-1"
  | HttpGet _ _ => Ok (mkHttpResponse 200 (-1) "" (Ok (fx_File f)))
  | ReadFile _ => Ok (fx_File f)
  | WriteFile _ _ => Ok tt
  | CreateTemp _ => Ok "/tmp/agent-forge-openstack-1.iso"
  | CloseFile _ => Ok tt
  | RemoveFile _ => tt
  | Metric _ => tt
  | Eventf _ _ _ _ _ _ => tt
  | OpenStack e => fx_OpenStack f _ e
  end.

Lemma fixture_any f X h (e : callE X) : anyAnswer X h e (fixtureEnv f X h e).
Proof. done. Qed.

Lemma fixture_keepsIdentity f X h (e : callE X) : keepsIdentity X h e (fixtureEnv f X h e).
Proof. destruct e; simpl; try done. by case_bool_decide. Qed.

(** ** Reachable points *)
Definition stopped {A} (stop : ∀ X, callE X → bool) (r : hist * program A) : bool :=
  match r.2 with Call e _ => stop _ e | Return _ => false end.

Definition returned {A} (test : A → bool) (r : hist * program A) : bool :=
  match r.2 with Call _ _ => false | Return a => test a end.

Definition atGovc (test : list string → bool) (X : Type) (e : callE X) : bool :=
  match e with Govc args => test args | _ => false end.
Definition atCreateVsphereAgent (X : Type) (e : callE X) : bool :=
  match e with Create KVsphereAgent _ => true | _ => false end.
Definition atCreateOpenStackAgent (X : Type) (e : callE X) : bool :=
  match e with Create KOpenStackAgent _ => true | _ => false end.
Definition atDeleteVsphereAgent (X : Type) (e : callE X) : bool :=
  match e with Delete KVsphereAgent _ _ => true | _ => false end.
Definition atPatch (kind : kind) (X : Type) (e : callE X) : bool :=
  match e with Patch k _ _ _ => k == kind | _ => false end.
Definition atPatchThat (kind : kind) (test : obj kind → bool) (X : Type) (e : callE X) : bool :=
  match e with
  | Patch k _ after _ => match decide (k = kind) with left Hk => test (eq_rect k obj after kind Hk) | right _ => false end
  | _ => false
  end.
Definition atStatusUpdate (kind : kind) (X : Type) (e : callE X) : bool :=
  match e with StatusUpdate k _ => k == kind | _ => false end.
Definition nowhere (X : Type) (e : callE X) : bool := false.

Section reaches.
Context {A : Type} (rely : answers callE) (env : environment callE) (p : program A).
Hypothesis Henv : ∀ X h (e : callE X), rely X h e (env X h e).

Lemma reaches_stop_from h0 stop :
  stopped stop (runTo stop env h0 p) = true →
  ∃ h X (e : callE X) k, reach rely h0 p h (Call e k) ∧ stop X e = true.
Proof.
  pose proof (runTo_reach rely stop env h0 p Henv) as Hr. destruct (runTo stop env h0 p) as [h p'].
  unfold stopped. simpl in *. destruct p' as [a|X e k]; [done|]. intros He. by exists h, X, e, k.
Qed.

Lemma reaches_stop stop :
  stopped stop (runTo stop env [] p) = true →
  ∃ h X (e : callE X) k, reach rely [] p h (Call e k) ∧ stop X e = true.
Proof. apply reaches_stop_from. Qed.

Lemma reaches_govc test :
  stopped (atGovc test) (runTo (atGovc test) env [] p) = true →
  ∃ h args k, reach rely [] p h (Call (Govc args) k) ∧ test args = true.
Proof. intros (h & X & e & k & Hr & He)%reaches_stop. destruct e; try done. by exists h, args, k. Qed.

Lemma reaches_createVsphereAgent :
  stopped atCreateVsphereAgent (runTo atCreateVsphereAgent env [] p) = true →
  ∃ h (o : VsphereAgent) k, reach rely [] p h (Call (Create KVsphereAgent o) k).
Proof.
  intros (h & X & e & k & Hr & He)%reaches_stop. destruct e as [| |kd o| | | | | | | | | | | | | | | | | | |]; try done.
  destruct kd; try done. by exists h, o, k.
Qed.

Lemma reaches_createOpenStackAgent :
  stopped atCreateOpenStackAgent (runTo atCreateOpenStackAgent env [] p) = true →
  ∃ h (o : OpenStackAgent) k, reach rely [] p h (Call (Create KOpenStackAgent o) k).
Proof.
  intros (h & X & e & k & Hr & He)%reaches_stop. destruct e as [| |kd o| | | | | | | | | | | | | | | | | | |]; try done.
  destruct kd; try done. by exists h, o, k.
Qed.

Lemma reaches_deleteVsphereAgent :
  stopped atDeleteVsphereAgent (runTo atDeleteVsphereAgent env [] p) = true →
  ∃ h (o : VsphereAgent) pre k, reach rely [] p h (Call (Delete KVsphereAgent o pre) k).
Proof.
  intros (h & X & e & k & Hr & He)%reaches_stop. destruct e as [| | | | | |kd o pre| | | | | | | | | | | | | | |]; try done.
  destruct kd; try done. by exists h, o, pre, k.
Qed.

Lemma reaches_patch kd :
  stopped (atPatch kd) (runTo (atPatch kd) env [] p) = true →
  ∃ h (before after : obj kd) lock k, reach rely [] p h (Call (Patch kd before after lock) k).
Proof.
  intros (h & X & e & k & Hr & He)%reaches_stop. destruct e as [| | | | |kd' b a l| | | | | | | | | | | | | | | |]; try done.
  simpl in He. gobool. subst kd'. by exists h, b, a, l, k.
Qed.

Lemma reaches_patch_that kd (test : obj kd → bool) :
  stopped (atPatchThat kd test) (runTo (atPatchThat kd test) env [] p) = true →
  ∃ h (before after : obj kd) lock k, reach rely [] p h (Call (Patch kd before after lock) k) ∧ test after = true.
Proof.
  intros (h & X & e & k & Hr & He)%reaches_stop. destruct e as [| | | | |kd' b a l| | | | | | | | | | | | | | | |]; try done.
  simpl in He. destruct (decide (kd' = kd)) as [Hk|]; [|done]. destruct Hk. by exists h, b, a, l, k.
Qed.

Lemma reaches_statusUpdate kd :
  stopped (atStatusUpdate kd) (runTo (atStatusUpdate kd) env [] p) = true →
  ∃ h (o : obj kd) k, reach rely [] p h (Call (StatusUpdate kd o) k).
Proof.
  intros (h & X & e & k & Hr & He)%reaches_stop. destruct e as [| | | |kd' o| | | | | | | | | | | | | | | | |]; try done.
  simpl in He. gobool. subst kd'. by exists h, o, k.
Qed.

Lemma reaches_return test :
  returned test (runTo nowhere env [] p) = true → ∃ h a, reach rely [] p h (Return a) ∧ test a = true.
Proof.
  pose proof (runTo_reach rely nowhere env [] p Henv) as Hr. destruct (runTo nowhere env [] p) as [h p'].
  unfold returned. simpl in *. destruct p' as [a|X e k]; [|done]. intros He. by exists h, a.
Qed.
End reaches.

(** ** Library instances: URLs are not taken apart, govc prints one VM with the
    UUID and the annotation of the fixture, dates are kept *)
Definition fixtureURL : NetURL := {|
  URL := string; url_Parse := Some; url_Path u := u; url_QueryGet _ _ := ""; url_ClearSecrets u := u;
  url_String u := u |}.

Definition fixtureUUID : string := "4211aaaa-bbbb-cccc-dddd-eeeeffff0001".

Definition fixtureJSON : GovcJSON := λ out,
  Ok [mkGovcVirtualMachine fixtureUUID (vmOwnerAnnotationPrefix +:+ "agent-uid") [mkGovcDevice 3000 "" ""] None].

Definition fixtureDate : HTTPDate := λ s, if s == "" then None else Some s.

(** ** A cluster *)
Definition fixtureMeta (name namespace uid : string) (finalizers : list string) : ObjectMeta :=
  mkObjectMeta name namespace uid "1" 1 None ∅ ∅ [] finalizers.

Definition fixturePool : VsphereAgentPool :=
  mkVsphereAgentPool (fixtureMeta "pool" "ns" "pool-uid" ["agent-forge.containeroo.ch/vsphere-agent-pool"])
    (mkVsphereAgentPoolSpec (mkLocalObjectReference "hc") (mkLocalObjectReference "np") (mkLocalObjectReference "ie")
       "cp" (mkVspherePlacementSpec (mkSecretReference "creds" "") "dc1" "" "iso-ds" "" "" "" [] "" "" "" "" false)
       (mkVMTemplateSpec "" 0 0 0) (mkAgentBindingSpec "" ∅ None) (mkISOCacheSpec false 0 0 "") "")
    zeroPoolStatus.

(** A VM released by a deleted Machine. *)
Definition fixtureVM : OwnedVMStatus :=
  mkOwnedVMStatus "vm1" "agent-uid" vmSourceVsphereAgent "" "" None None phaseReleased reasonMachineDeleted 100.

Definition fixtureAgent : VsphereAgent :=
  mkVsphereAgent (fixtureMeta "va1" "ns" "agent-uid" [vsphereAgentFinalizerName])
    (mkVsphereAgentSpec (mkLocalObjectReference "pool")) (mkVsphereAgentStatus 0 fixtureVM None []).

Definition deletedMeta (m : ObjectMeta) : ObjectMeta :=
  mkObjectMeta (om_Name m) (om_Namespace m) (om_UID m) (om_ResourceVersion m) (om_Generation m) (Some 50)
    (om_Labels m) (om_Annotations m) (om_OwnerReferences m) (om_Finalizers m).

Definition deletedAgent : VsphereAgent :=
  mkVsphereAgent (deletedMeta (va_Meta fixtureAgent)) (va_Spec fixtureAgent) (va_Status fixtureAgent).

(** An unbound Agent on the VM. *)
Definition fixtureHost : Unstructured :=
  mkUnstructured (fixtureMeta "host1" "ns" "host-uid" [])
    (AMap [("spec", AMap [("hostname", AString "vm1"); ("approved", ABool true)])]).

Definition fixtureInfraEnv : Unstructured :=
  mkUnstructured (fixtureMeta "ie" "ns" "ie-uid" [])
    (AMap [("status", AMap [("isoDownloadURL", AString "https://assisted/image.iso")])]).

Definition fixtureAgentMachine : Unstructured :=
  mkUnstructured (mkObjectMeta "am1" "cp" "am-uid" "1" 1 None ∅
                    (<[nodePoolAnnotation := "ns/np"]> ∅) [] [])
    (AMap [("status", AMap [("conditions", ASlice [AMap [("type", AString "Ready"); ("status", AString "False");
                                                         ("reason", AString "NoSuitableAgents")]])])]).

Definition fixtureSecret : Secret :=
  mkSecret (fixtureMeta "creds" "ns" "" [])
    (<["server" := "vc"]> (<["username" := "u"]> (<["password" := "p"]> ∅))).

Definition fixtureOpenStackPool : OpenStackAgentPool :=
  mkOpenStackAgentPool (fixtureMeta "ospool" "ns" "ospool-uid" [])
    (mkOpenStackAgentPoolSpec (mkLocalObjectReference "hc") (mkLocalObjectReference "np") (mkLocalObjectReference "ie")
       "cp" (os_OpenStack zeroOpenStackPoolSpec) (os_Template zeroOpenStackPoolSpec) (mkAgentBindingSpec "" ∅ None) "" 0)
    (mkOpenStackAgentPoolStatus 0 0 0 []).

(** An OpenStack project without resources, in which every creation succeeds. *)
Definition emptyProject : ∀ X, osClientE X → X := λ X e,
  match e in osClientE X return X with
  | OSFactory _ _ => Ok (mkCloud "scope" "project" (9000 * second))
  | OSFind _ _ _ _ | OSGet _ _ _ _ => Err (osErr ErrNotFound)
  | OSCreate _ k name owner _ => Ok (mkResource (k +:+ "-id") name owner "available" "AA:BB" false true 3)
  | OSSetBootable _ _ _ | OSUploadImage _ _ _ _ | OSDelete _ _ _ _ => Ok tt
  end.

(** The cluster with the given VsphereAgents, pools and Agents; there are no Machines. *)
Definition cluster (agent : VsphereAgent) (vspherePools : list VsphereAgentPool)
    (openStackPools : list OpenStackAgentPool) (vsphereAgents : list VsphereAgent) (hosts : list Unstructured) : fixture := {|
  fx_Get := λ k, match k return string → string → result (obj k) with
    | KVsphereAgentPool => λ _ _, match vspherePools with p :: _ => Ok p | [] => notFound end
    | KVsphereAgent => λ _ _, Ok agent
    | KAgentMachine => λ _ _, Ok fixtureAgentMachine
    | KInfraEnv => λ _ _, Ok fixtureInfraEnv
    | KAgent => λ _ _, Ok fixtureHost
    | KSecret => λ _ _, Ok fixtureSecret
    | _ => λ _ _, notFound
    end;
  fx_List := λ k, match k return result (list (obj k)) with
    | KVsphereAgentPool => Ok vspherePools
    | KVsphereAgent => Ok vsphereAgents
    | KOpenStackAgentPool => Ok openStackPools
    | KAgentMachine => Ok [fixtureAgentMachine]
    | KAgent => Ok hosts
    | _ => Ok []
    end;
  fx_Govc := λ _, Ok "";
  fx_OpenStack := emptyProject;
  fx_File := "iso";
  fx_Now := 7200 * second |}.
