(* ===== verification/Witnesses.v ===== *)
(** * Witnesses

    Every property with hypotheses is applied here to a concrete input on which
    the hypotheses hold, evaluated by the definitions themselves. *)
From S2P Require Import Prelude Api Identity Planner OwnedVMs VsphereObjects Sha256 Metrics Effects K8s Objects.
From S2P Require Import VmCleanup VMProvider IsoCache InfraEnv Govc GovcCommand Fixtures.
From S2P Require Import AgentMachine VsphereAgent VsphereProgress PoolController PoolMetrics Startup.

(** ** Identity *)
Definition w_agent : AgentInfo :=
  mkAgentInfo "host1" false false "" true "" "" "" "" "vm1" "vm1" "aa:bb" "uuid-1".
Definition w_agent2 : AgentInfo :=
  mkAgentInfo "host2" false false "" true "" "" "" "" "vm2" "vm2" "aa:cc" "uuid-2".
Definition w_vm : OwnedVMStatus :=
  mkOwnedVMStatus "vm1" "uid" vmSourceVsphereAgent "uuid-1" "aa:bb" None None phaseProvisioning reasonVMCreateRequested 100.
Definition w_vm2 : OwnedVMStatus :=
  mkOwnedVMStatus "vm2" "uid2" vmSourceVsphereAgent "uuid-2" "aa:cc" None None phaseProvisioning reasonVMCreateRequested 100.
Definition w_pool (vms : list OwnedVMStatus) : VsphereAgentPool :=
  mkVsphereAgentPool (pl_Meta fixturePool) (pl_Spec fixturePool)
    (mkVsphereAgentPoolStatus 0 0 0 0 0 0 0 0 0 vms [] zeroISO []).

Lemma lookupMatch_sound_witness :
  In w_agent [w_agent; w_agent2] ∧
  lookupMatch (newAgentIdentityLookup [w_agent; w_agent2]) w_vm = Some w_agent.
Proof.
  split; [|vm_compute; reflexivity].
  apply (lookupMatch_sound [w_agent; w_agent2] w_vm w_agent). vm_compute. reflexivity.
Defined.

Lemma assignedAgentHostnames_sound_witness :
  assignedAgentHostnames (w_pool [w_vm; w_vm2]) [w_agent; w_agent2] !! "host2" = Some "vm2" ∧
  ∃ agent vm, In agent [w_agent; w_agent2] ∧ ai_Name agent = "host2" ∧
    In vm (pt_OwnedVMs (pl_Status (w_pool [w_vm; w_vm2]))) ∧ vm_Name vm = "vm2" ∧ "vm2" ≠ "" ∧
    vm_Phase vm ≠ phaseBound ∧ vmIdentityConflictsAgent vm agent = false.
Proof.
  split; [vm_compute; reflexivity|].
  apply (assignedAgentHostnames_sound (w_pool [w_vm; w_vm2]) [w_agent; w_agent2] "host2" "vm2").
  vm_compute. reflexivity.
Defined.

Lemma assignedAgentHostnames_injective_witness :
  assignedAgentHostnames (w_pool [w_vm; w_vm2]) [w_agent; w_agent2] !! "host1" = Some "vm1" ∧ "host1" = "host1".
Proof.
  split; [vm_compute; reflexivity|].
  apply (assignedAgentHostnames_injective (w_pool [w_vm; w_vm2]) [w_agent; w_agent2] "host1" "host1" "vm1");
    vm_compute; reflexivity.
Defined.

(** ** Planner *)
Definition w_snapshot : PoolSnapshot := mkPoolSnapshot 2 1 1 1 [w_agent] [fixtureVM; w_vm2].

Lemma buildPlan_deletes_only_deletable_witness :
  In fixtureVM (pp_VMsToDelete (buildPlan 200 fixturePool w_snapshot)) ∧ deletable 200 w_snapshot fixtureVM.
Proof.
  assert (In fixtureVM (pp_VMsToDelete (buildPlan 200 fixturePool w_snapshot))) as Hin by (vm_compute; by left).
  split; [exact Hin|].
  destruct (buildPlan_deletes_only_deletable 200 fixturePool w_snapshot fixtureVM Hin) as (_ & _ & _ & _ & Hd).
  exact Hd.
Defined.

Definition w_deficit : PoolSnapshot := mkPoolSnapshot 5 5 5 5 [w_agent] [w_vm2].

Lemma buildPlan_deficit_exact_witness :
  pp_DemandDeficit (buildPlan 200 fixturePool w_deficit) = 3 ∧
  Z.of_nat (length (List.filter (hasType actionDemandDeficit) (pp_Actions (buildPlan 200 fixturePool w_deficit)))) = 3.
Proof.
  assert (pp_DemandDeficit (buildPlan 200 fixturePool w_deficit) = 3) as Hd by (vm_compute; reflexivity).
  split; [exact Hd|]. rewrite <- Hd. apply (buildPlan_deficit_exact 200 fixturePool w_deficit).
  - vm_compute. split; [discriminate|reflexivity].
  - vm_compute. reflexivity.
Defined.

Definition w_surplusVM : OwnedVMStatus :=
  mkOwnedVMStatus "vm1" "uid" vmSourceVsphereAgent "uuid-1" "aa:bb" (Some (agentObjectReference fixturePool "host1"))
    None phaseAvailable "AgentAvailable" 100.
Definition w_surplus : PoolSnapshot := mkPoolSnapshot 0 0 0 0 [w_agent] [w_surplusVM; w_vm2].

Lemma buildPlan_surplus_bound_witness :
  pp_VMsToDelete (buildPlan 200 fixturePool w_surplus) = [w_surplusVM] ∧
  Nat.le (length (List.filter surplusCandidate (pp_VMsToDelete (buildPlan 200 fixturePool w_surplus)))) 1.
Proof.
  split; [vm_compute; reflexivity|].
  apply (buildPlan_surplus_bound 200 fixturePool w_surplus); vm_compute; reflexivity.
Defined.

Lemma buildPlan_VMsToDelete_NoDup_witness :
  List.NoDup (map vm_Name (pp_VMsToDelete (buildPlan 200 fixturePool w_snapshot))).
Proof.
  apply (buildPlan_VMsToDelete_NoDup 200 fixturePool w_snapshot).
  constructor; [intros [E|[]]; discriminate E|constructor; [intros []|constructor]].
Defined.

(** ** Owned VMs *)
Definition w_clock : nat → nat → Time := λ i j, 1000 + Z.of_nat i + Z.of_nat j.
Definition w_boundAgent : AgentInfo :=
  mkAgentInfo "host1" true false "m1" true "" "" "" "" "vm1" "vm1" "aa:bb" "uuid-1".
Definition w_usedVM : OwnedVMStatus :=
  mkOwnedVMStatus "vm1" "uid" vmSourceVsphereAgent "uuid-1" "aa:bb" (Some (agentObjectReference fixturePool "host1"))
    (Some (machineObjectReference fixturePool "m1")) phaseReleased reasonMachineDeleting 100.

Lemma refresh_matched_lifecycle_witness :
  ∃ vm', refreshOwnedVMStatuses w_clock 2000 (w_pool [w_usedVM]) [w_agent] [] !! 0%nat = Some vm' ∧
    (vm_Phase vm', vm_Reason vm') = (phaseReleased, reasonMachineDeleted) ∧ ownedVMAgentName vm' = "host1".
Proof.
  destruct (refresh_matched_lifecycle w_clock 2000 (w_pool [w_usedVM]) [w_agent] [] 0 w_usedVM w_agent)
    as (vm' & Hl & Hp & _ & Ha); [vm_compute; reflexivity|vm_compute; reflexivity|].
  exists vm'. split; [exact Hl|]. split; [|exact Ha]. rewrite Hp. vm_compute. reflexivity.
Defined.

Definition w_lostVM : OwnedVMStatus :=
  mkOwnedVMStatus "vm1" "uid" vmSourceVsphereAgent "uuid-1" "aa:bb" (Some (agentObjectReference fixturePool "host1"))
    None phaseAvailable "AgentAvailable" 100.
Definition w_orphanedVM : OwnedVMStatus :=
  default zeroVM (refreshOwnedVMStatuses w_clock 2000 (w_pool [w_lostVM]) [w_agent2] [] !! 0%nat).

Lemma refresh_orphans_only_lost_witness :
  vm_Phase w_orphanedVM = phaseOrphaned ∧
  lookupMatch (newAgentIdentityLookup [w_agent2]) w_lostVM = None.
Proof.
  split; [vm_compute; reflexivity|].
  apply (refresh_orphans_only_lost w_clock 2000 (w_pool [w_lostVM]) [w_agent2] [] 0 w_lostVM w_orphanedVM);
    vm_compute; reflexivity.
Defined.

Definition w_deletedVM : OwnedVMStatus :=
  default zeroVM (refreshOwnedVMStatuses w_clock 2000 (w_pool [w_usedVM]) [w_agent] [] !! 0%nat).

Lemma refresh_machineDeleted_sound_witness :
  vm_Reason w_deletedVM = reasonMachineDeleted ∧
  (∃ a, lookupMatch (newAgentIdentityLookup [w_agent]) w_usedVM = Some a).
Proof.
  split; [vm_compute; reflexivity|].
  apply (refresh_machineDeleted_sound w_clock 2000 (w_pool [w_usedVM]) [w_agent] [] 0 w_usedVM w_deletedVM);
    try (vm_compute; reflexivity). vm_compute. discriminate.
Defined.

(** The VM whose Agent is lost is deleted half an hour later. *)
Lemma refresh_plan_grace_period_witness :
  w_clock 0%nat 0%nat + orphanedOwnedVMGracePeriod ≤ 10000000000000.
Proof.
  apply (refresh_plan_grace_period w_clock 2000 10000000000000 (w_pool [w_lostVM]) [w_agent2] [] 0
           (w_pool [w_lostVM]) (mkPoolSnapshot 0 0 0 0 [w_agent2] [w_orphanedVM]) w_lostVM w_orphanedVM);
    try (vm_compute; reflexivity); [vm_compute; discriminate|vm_compute; discriminate|vm_compute; by left].
Defined.

(** ** Cluster objects *)
#[local] Existing Instance refKubeLib.
#[local] Existing Instance refKubeLaws.
#[local] Existing Instance fixtureURL.
#[local] Existing Instance fixtureJSON.
#[local] Existing Instance fixtureDate.

Lemma demandOf_consistent_witness :
  dm_Waiting (demandOf fixturePool [fixtureAgentMachine]) = 1 ∧
  dm_Total (demandOf fixturePool [fixtureAgentMachine]) ≤ 1.
Proof.
  split; [vm_compute; reflexivity|].
  destruct (demandOf_consistent fixturePool [fixtureAgentMachine]) as (_ & _ & _ & Hmax); [vm_compute; reflexivity|].
  exact Hmax.
Defined.

(** The same AgentMachine with another resource version. *)
Definition w_touched : Unstructured :=
  mkUnstructured (mkObjectMeta "am1" "cp" "am-uid" "2" 1 None ∅ (<[nodePoolAnnotation := "ns/np"]> ∅) [] [])
    (un_Object fixtureAgentMachine).

Lemma agentMachineChangePredicate_complete_witness :
  demandOf fixturePool ([] ++ fixtureAgentMachine :: []) = demandOf fixturePool ([] ++ w_touched :: []).
Proof. apply (agentMachineChangePredicate_complete fixturePool [] [] fixtureAgentMachine w_touched); reflexivity. Defined.

Definition w_touchedHost : Unstructured :=
  mkUnstructured (mkObjectMeta "host1" "ns" "host-uid" "2" 1 None ∅ ∅ [] []) (un_Object fixtureHost).

Lemma agentChangePredicate_complete_witness :
  agentInfoOf fixtureHost "m" = agentInfoOf w_touchedHost "m".
Proof. apply (agentChangePredicate_complete fixtureHost w_touchedHost "m"); reflexivity || (intros _ path; split; reflexivity). Defined.

(** ** ISO cache and InfraEnv *)
Definition w_isoPool : VsphereAgentPool :=
  mkVsphereAgentPool (pl_Meta fixturePool) (pl_Spec fixturePool)
    (mkVsphereAgentPoolStatus 0 0 0 0 0 0 0 0 0 [] []
       (mkISOCacheStatus "u" "h" "old.iso" "sha" 1 "" 0 0 "" [mkISOCacheHistoryEntry "older.iso" "s" 1 0]) []).

Lemma ensureISOCache_no_leak_witness :
  ∃ h pool' path, reach anyAnswer [] (@ensureISOCache _ _ govcVMProvider w_isoPool "https://assisted/image.iso") h
      (Return (pool', Ok path)) ∧
    (In "older.iso" (map ih_Path (previousISOHistory (pt_ISO (pl_Status pool')))) ∨ isoDeleted pool' "older.iso" h).
Proof.
  destruct (reaches_return anyAnswer (fixtureEnv (cluster fixtureAgent [] [] [] []))
    (@ensureISOCache _ _ govcVMProvider w_isoPool "https://assisted/image.iso") (fixture_any _)
    (λ r, isNil r.2)) as (h & [pool' [path|e]] & Hr & Ht); [vm_compute; reflexivity| |discriminate Ht].
  exists h, pool', path. split; [exact Hr|].
  apply (@ensureISOCache_no_leak _ _ _ _ govcLaws w_isoPool pool' "https://assisted/image.iso" path h Hr "older.iso");
    [vm_compute; tauto|discriminate].
Defined.

Lemma discoveryISOAvailable_sound_witness :
  ∃ h msg infraEnv, reach anyAnswer [] (discoveryISOAvailable Cached "ns" "ie") h
      (Return (true, "https://assisted/image.iso", msg)) ∧
    h = [Event (Get Cached KInfraEnv "ns" "ie") (Ok infraEnv)].
Proof.
  destruct (reaches_return anyAnswer (fixtureEnv (cluster fixtureAgent [] [] [] []))
    (discoveryISOAvailable Cached "ns" "ie") (fixture_any _)
    (λ r, r.1.1 && (r.1.2 == "https://assisted/image.iso"))) as (h & [[b url] msg] & Hr & Ht); [vm_compute; reflexivity|].
  destruct b; [|discriminate Ht]. apply bool_decide_eq_true in Ht. simpl in Ht. subst url.
  destruct (discoveryISOAvailable_sound Cached "ns" "ie" _ msg h Hr) as (infraEnv & Hh & _).
  exists h, msg, infraEnv. split; [exact Hr|exact Hh].
Defined.

(** ** VsphereAgent controller: a deleted VsphereAgent whose VM runs an unbound Agent *)
Definition w_deletion : fixture := cluster deletedAgent [fixturePool] [] [deletedAgent] [fixtureHost].

Lemma reconcileDelete_destroys_prepared_witness :
  ∃ h args vm, isDestroy args = true ∧ isDeletionVM deletedAgent vm ∧ prepared Live fixturePool vm h ∧
    deletionTarget fixturePool vm h args.
Proof.
  destruct (reaches_govc anyAnswer (fixtureEnv w_deletion)
    (VsphereAgent.reconcileDelete Live NewGovcVMProvider deletedAgent fixturePool) (fixture_any _) isDestroy)
    as (h & args & k & Hr & Hd); [vm_compute; reflexivity|].
  destruct (reconcileDelete_destroys_prepared Live NewGovcVMProvider NewGovc_laws deletedAgent fixturePool h args k Hr Hd)
    as (vm & Hvm & _ & Hp).
  exists h, args, vm. split; [exact Hd|]. split; [exact Hvm|exact Hp].
Defined.

Lemma Reconcile_finalizer_released_witness :
  ∃ h agent, In (Event (Get Live KVsphereAgent "ns" "va1") (Ok agent)) h ∧ isDeleting (va_Meta agent) = true.
Proof.
  destruct (reaches_patch_that anyAnswer (fixtureEnv w_deletion)
    (VsphereAgent.Reconcile Live NewGovcVMProvider "ns" "va1") (fixture_any _) KVsphereAgent
    (λ after, negb (ContainsFinalizer (va_Meta after) vsphereAgentFinalizerName)))
    as (h & before & after & lock & k & Hr & Hc); [vm_compute; reflexivity|].
  destruct (Reconcile_finalizer_released Live NewGovcVMProvider NewGovc_laws "ns" "va1" h before after lock k Hr)
    as (agent & Hin & Hd & _); [by apply negb_true_iff|].
  exists h, agent. split; [exact Hin|exact Hd].
Defined.

Lemma Reconcile_destroys_safely_witness :
  ∃ h args agent, isDestroy args = true ∧ In (Event (Get Live KVsphereAgent "ns" "va1") (Ok agent)) h ∧
    vst_ISOEjection (va_Status agent) = None.
Proof.
  destruct (reaches_govc anyAnswer (fixtureEnv w_deletion)
    (VsphereAgent.Reconcile Live NewGovcVMProvider "ns" "va1") (fixture_any _) isDestroy)
    as (h & args & k & Hr & Hd); [vm_compute; reflexivity|].
  destruct (Reconcile_destroys_safely Live NewGovcVMProvider NewGovc_laws "ns" "va1" h args k Hr Hd)
    as (agent & pool & Hin & _ & He & _).
  exists h, args, agent. split; [exact Hd|]. split; [exact Hin|exact He].
Defined.

(** The VM and its Agent go, the Agent of another VM stays. *)
Definition w_doomedVM : govcVirtualMachine :=
  mkGovcVirtualMachine fixtureUUID (vmOwnerAnnotationPrefix +:+ "agent-uid") [mkGovcDevice 3000 "" ""] None.
Definition w_otherHost : Unstructured :=
  mkUnstructured (fixtureMeta "host2" "ns" "host2-uid" []) (AMap [("spec", AMap [("hostname", AString "vm2")])]).
Definition w_surroundings : surroundings :=
  mkSurroundings fixturePool fixtureSecret [] (λ _, "") (vmInventoryPath (applySpecDefaults fixturePool) "vm1") 100.
Definition w_estate : estate := mkEstate deletedAgent (Some w_doomedVM) [fixtureHost; w_otherHost].

Lemma vsphere_cleanup_completes_witness :
  ∃ w, runState (estateAnswer w_surroundings) w_estate (VsphereAgent.Reconcile Live NewGovcVMProvider "ns" "va1") = (w, Ok 0) ∧
    es_vm w = None ∧ es_hosts w = [w_otherHost] ∧ om_Finalizers (va_Meta (es_agent w)) = [].
Proof.
  eexists. split; [apply (vsphere_cleanup_completes Live w_surroundings)|split; [reflexivity|split; vm_compute; reflexivity]].
  - split; vm_compute; reflexivity.
  - split.
    + vm_compute; reflexivity.
    + vm_compute; reflexivity.
    + vm_compute; discriminate.
    + vm_compute; reflexivity.
    + vm_compute; reflexivity.
    + intros d [= <-]. split; [vm_compute; reflexivity|]. split; [intros _; vm_compute; reflexivity|left; vm_compute; reflexivity].
    + repeat constructor; vm_compute; intuition discriminate.
    + intros host [<-|[<-|[]]] Hon; [|vm_compute in Hon; discriminate].
      split; [vm_compute; reflexivity|]. eexists. vm_compute; reflexivity.
Defined.

Definition w_ejection (question : string) : ISOEjectionStatus :=
  mkISOEjectionStatus "vm1" fixtureUUID "agent-uid" "dc1" 3000 "[iso-ds] a.iso" 100 true question.

Lemma ejectCheckpoint_second_lost_witness :
  ∃ h o, vst_ISOEjection (va_Status o) = Some (w_ejection "") ∧
    ∃ k, reach anyAnswer []
       (let! c := ejectCheckpoint (fixtureAgent, true) (w_ejection "") in
        match c.2 with Err e => Return (c.1, Err e) | Ok _ => ejectCheckpoint c.1 (w_ejection "q1") end)
       h (Call (StatusUpdate KVsphereAgent o) k).
Proof.
  destruct (reaches_statusUpdate anyAnswer (fixtureEnv w_deletion)
    (let! c := ejectCheckpoint (fixtureAgent, true) (w_ejection "") in
     match c.2 with Err e => Return (c.1, Err e) | Ok _ => ejectCheckpoint c.1 (w_ejection "q1") end)
    (fixture_any _) KVsphereAgent) as (h & o & k & Hr); [vm_compute; reflexivity|].
  exists h, o. split; [|exists k; exact Hr].
  apply (ejectCheckpoint_second_lost fixtureAgent (w_ejection "") (w_ejection "q1") h o k Hr).
Defined.

(** ** govc *)
Lemma govcDeleteVM_ownership_witness :
  ∃ h args, isDestroy args = true ∧ ownershipVerified fixturePool fixtureVM args h.
Proof.
  destruct (reaches_govc anyAnswer (fixtureEnv w_deletion) (govcDeleteVM fixturePool fixtureVM) (fixture_any _) isDestroy)
    as (h & args & k & Hr & Hd); [vm_compute; reflexivity|].
  exists h, args. split; [exact Hd|]. apply (govcDeleteVM_ownership fixturePool fixtureVM h args k Hr Hd). discriminate.
Defined.

Lemma govcEnsureISO_verified_witness :
  ∃ h r, isNil r = true ∧ ensured fixturePool h r.
Proof.
  destruct (reaches_return anyAnswer (fixtureEnv w_deletion) (govcEnsureISO fixturePool "https://assisted/image.iso")
    (fixture_any _) isNil) as (h & r & Hr & Ht); [vm_compute; reflexivity|].
  exists h, r. split; [exact Ht|].
  exact (govcEnsureISO_verified fixturePool "https://assisted/image.iso" eq_refl h (Return r) Hr).
Defined.

(** ** AgentMachine controller *)
Definition w_vsphereDemand : fixture := cluster fixtureAgent [fixturePool] [] [] [].
Definition w_openStackDemand : fixture := cluster fixtureAgent [] [fixtureOpenStackPool] [] [].

Lemma Reconcile_creates_vsphere_authorised_witness :
  ∃ h o am pool, vsphereCreateAuthorised "cp" "am1" h o am pool.
Proof.
  destruct (reaches_createVsphereAgent keepsIdentity (fixtureEnv w_vsphereDemand) (AgentMachine.Reconcile "cp" "am1")
    (fixture_keepsIdentity _)) as (h & o & k & Hr); [vm_compute; reflexivity|].
  exists h, o. apply (Reconcile_creates_vsphere_authorised "cp" "am1" h o k Hr).
Defined.

Lemma Reconcile_creates_openstack_authorised_witness :
  ∃ h o am pool, openStackCreateAuthorised "cp" "am1" h o am pool.
Proof.
  destruct (reaches_createOpenStackAgent keepsIdentity (fixtureEnv w_openStackDemand) (AgentMachine.Reconcile "cp" "am1")
    (fixture_keepsIdentity _)) as (h & o & k & Hr); [vm_compute; reflexivity|].
  exists h, o. apply (Reconcile_creates_openstack_authorised "cp" "am1" h o k Hr).
Defined.

Lemma Reconcile_never_steals_claims_witness :
  ∃ before after lock,
    annotation after demandClaimAnnotation = annotation before demandClaimAnnotation ∨
    (annotation before demandClaimAnnotation = "" ∧ lock = true).
Proof.
  destruct (reaches_patch anyAnswer (fixtureEnv w_vsphereDemand) (AgentMachine.Reconcile "cp" "am1")
    (fixture_any _) KAgentMachine) as (h & before & after & lock & k & Hr); [vm_compute; reflexivity|].
  exists before, after, lock. apply (Reconcile_never_steals_claims "cp" "am1" h before after lock k Hr).
Defined.

Lemma alternateVsphereAgentName_valid_witness :
  Nat.le 10 (String.length (alternateVsphereAgentName fixturePool fixtureAgentMachine)) ∧
  Nat.le (String.length (alternateVsphereAgentName fixturePool fixtureAgentMachine)) maxAgentNameLength.
Proof.
  apply (alternateVsphereAgentName_valid fixturePool fixtureAgentMachine (λ c, true)); reflexivity.
Defined.

(** ** Pool controller: a VM released by a deleted Machine is cleaned up *)
Definition w_releasingVM : OwnedVMStatus :=
  mkOwnedVMStatus "vm1" "agent-uid" vmSourceVsphereAgent "" "" None (Some (machineObjectReference fixturePool "m1"))
    phaseReleased reasonMachineDeleting 100.
Definition w_cleanupPool : VsphereAgentPool := w_pool [w_releasingVM].
Definition w_cleanup : fixture := cluster fixtureAgent [w_cleanupPool] [] [fixtureAgent] [fixtureHost].

Lemma pool_deletes_only_deletable_witness :
  ∃ h o pool, In (Event (Get Live KVsphereAgentPool "ns" "pool") (Ok pool)) h ∧
    vsphereAgentBelongsToPool o (poolName pool) = true.
Proof.
  destruct (reaches_deleteVsphereAgent anyAnswer (fixtureEnv w_cleanup)
    (PoolController.Reconcile Live NewGovcVMProvider "ns" "pool") (fixture_any _)) as (h & o & pre & k & Hr);
    [vm_compute; reflexivity|].
  destruct (pool_deletes_only_deletable Live NewGovcVMProvider NewGovc_laws "ns" "pool" h o pre k Hr)
    as (pool & Hin & Hb & _).
  exists h, o, pool. split; [exact Hin|exact Hb].
Defined.

Lemma pool_finalizer_waits_for_agents_witness :
  ∃ h items, In (Event (ListObjs Cached KVsphereAgent (InNamespace "ns")) (Ok items)) h.
Proof.
  destruct (reaches_patch anyAnswer (fixtureEnv w_vsphereDemand) (PoolController.reconcileDelete Live fixturePool)
    (fixture_any _) KVsphereAgentPool) as (h & before & after & lock & k & Hr); [vm_compute; reflexivity|].
  destruct (pool_finalizer_waits_for_agents Live fixturePool before after lock h k Hr) as (_ & items & Hin & _).
  exists h, items. exact Hin.
Defined.

Lemma patchDiscoveredAgent_binds_witness :
  ∃ before after : Unstructured, agentDeletionBlocker before = "" ∧ agentSpecHostname after = "vm1".
Proof.
  destruct (reaches_patch anyAnswer (fixtureEnv w_cleanup)
    (patchDiscoveredAgent Live "ns" (mkAgentBindingSpec "worker" ∅ None) "host1" "vm1" None)
    (fixture_any _) KAgent) as (h & before & after & lock & k & Hr); [vm_compute; reflexivity|].
  destruct (patchDiscoveredAgent_binds Live "ns" (mkAgentBindingSpec "worker" ∅ None) "host1" "vm1" None h before after lock k Hr)
    as (_ & _ & Hb & _ & _ & _ & _ & Hh & _).
  exists before, after. split; [exact Hb|exact Hh].
Defined.

Lemma pool_status_writers_disjoint_witness :
  ∃ h h' o o', keepsISO Live _ h (StatusUpdate KVsphereAgentPool o) ∧
    writesISOOnly Live _ h' (StatusUpdate KVsphereAgentPool o').
Proof.
  destruct (reaches_statusUpdate anyAnswer (fixtureEnv w_cleanup) (PoolController.updateStatus Live w_isoPool emptyPlan)
    (fixture_any _) KVsphereAgentPool) as (h & o & k & Hr); [vm_compute; reflexivity|].
  destruct (reaches_statusUpdate anyAnswer (fixtureEnv w_cleanup) (patchPoolISOStatus Live w_isoPool)
    (fixture_any _) KVsphereAgentPool) as (h' & o' & k' & Hr'); [vm_compute; reflexivity|].
  exists h, h', o, o'. exact (pool_status_writers_disjoint Live w_isoPool emptyPlan h h' o o' k k' Hr Hr').
Defined.

Lemma setPlanConditions_outcome_witness :
  IsStatusConditionTrue (pt_Conditions (pl_Status (setPlanConditions fixturePool emptyPlan ""))) conditionReady = true.
Proof. apply (setPlanConditions_outcome fixturePool emptyPlan ""). reflexivity. Defined.

Lemma listMatchingAgents_sound_witness :
  ∃ h agents items workers, reach anyAnswer [] (listMatchingAgents Live w_cleanupPool) h (Return (Ok agents)) ∧
    length agents = 1%nat ∧ ∀ a, In a agents → matchedAgent w_cleanupPool items workers a.
Proof.
  destruct (reaches_return anyAnswer (fixtureEnv w_cleanup) (listMatchingAgents Live w_cleanupPool) (fixture_any _)
    (λ r, match r with Ok agents => length agents =? 1 | Err _ => false end)%nat)
    as (h & [agents|e] & Hr & Ht); [vm_compute; reflexivity| |discriminate Ht].
  destruct (listMatchingAgents_sound Live w_cleanupPool h agents Hr) as (items & workers & _ & _ & Hall).
  exists h, agents, items, workers. split; [exact Hr|]. split; [by apply Nat.eqb_eq|].
  intros a Ha. apply (Hall a Ha).
Defined.

(** ** Commands

    An upload that was redrawn with escape sequences, then four lines. *)
Definition w_esc : string := String (byte 27) "[2K".
Definition w_cr : string := String (byte 13) "".
Definition w_lf : string := String newline "".
Definition w_output : string :=
  w_esc +:+ "Uploading... 10%" +:+ w_cr +:+ w_esc +:+ "Uploading... 90%" +:+ w_cr +:+ "one" +:+ w_lf +:+ "two " +:+ w_lf +:+
  w_lf +:+ "three" +:+ w_lf +:+ "govc: VM '/dc1/vm/hc/vm1' not found" +:+ w_lf.

Lemma sanitizeCommandOutput_shape_witness :
  sanitizeCommandOutput w_output = "two; three; govc: VM '/dc1/vm/hc/vm1' not found" ∧
  forallString (notChar newline) (sanitizeCommandOutput w_output) = true.
Proof.
  split; [vm_compute; reflexivity|]. destruct (sanitizeCommandOutput_shape w_output) as [_ Hone].
  apply Hone. vm_compute. discriminate.
Defined.

Definition w_failing (answer : result string) : environment callE := λ X h e,
  match e in callE X return X with
  | Govc _ => answer
  | e => fixtureEnv w_vsphereDemand _ h e
  end.
Definition w_exit : error := mkError ClassOther "exit status 1".
Definition w_outcome : commandOutcome := mkCommandOutcome w_output (Some w_exit) None.
Definition w_namedVM (name : string) : OwnedVMStatus :=
  mkOwnedVMStatus name "agent-uid" vmSourceVsphereAgent "" "" None None phaseProvisioning reasonVMCreateRequested 100.

Lemma unknownUUID_named name : TrimSpace name ≠ "" → unknownUUID (w_namedVM name).
Proof. by repeat split. Qed.

Lemma missing_vm_recognised_witness :
  ∃ args k, classifiedMissing args (commandAnswer w_outcome) "govc: VM '/dc1/vm/hc/vm1' not found" ∧
    (k : result string → program (result unit)) (commandAnswer w_outcome) = Return (Ok tt).
Proof.
  destruct (reaches_govc anyAnswer (fixtureEnv w_deletion) (govcDeleteVM fixturePool (w_namedVM "vm1")) (fixture_any _)
    (λ _, true)) as (h & args & k & Hr & _); [vm_compute; reflexivity|].
  exists args, k. apply (missing_vm_recognised fixturePool (w_namedVM "vm1") h args k w_outcome _ Hr).
  split; [by eexists|]. split; [reflexivity|]. split; [vm_compute; reflexivity|].
  right. split; vm_compute; reflexivity.
Defined.

(** A datacenter that is not found, for a VM named worker-vm and for one named worker-1. *)
Definition w_noDatacenter : result string := Err (mkError ClassOther "exit status 1: govc: datacenter 'dc1' not found").

Lemma failure_read_as_missing_vm_witness :
  (exec (w_failing w_noDatacenter) [] (govcDeleteVM fixturePool (w_namedVM "worker-vm"))).2 = Ok tt ∧
  isNil (exec (w_failing w_noDatacenter) [] (govcDeleteVM fixturePool (w_namedVM "worker-1"))).2 = false.
Proof.
  split; [|vm_compute; reflexivity].
  apply (failure_read_as_missing_vm fixturePool (w_namedVM "worker-vm") "worker-" (w_failing w_noDatacenter)
           (mkError ClassOther "exit status 1: govc: datacenter 'dc1' not found")).
  - apply unknownUUID_named. vm_compute. discriminate.
  - reflexivity.
  - reflexivity.
  - vm_compute. reflexivity.
Defined.

(** ** Metrics and start-up *)
Definition w_plan : PoolPlan := buildPlan 200 fixturePool w_deficit.

Definition w_deletedPool : VsphereAgentPool :=
  mkVsphereAgentPool (deletedMeta (pl_Meta fixturePool)) (pl_Spec fixturePool) (pl_Status fixturePool).
Definition w_poolDeletion : fixture := cluster fixtureAgent [w_deletedPool] [] [] [].

Lemma pool_metrics_lifecycle_witness :
  ∃ h h' pool, @planShown gmapRegistry fixturePool w_plan (@registryAfter gmapRegistry ∅ h) ∧
    isDeleting (pl_Meta pool) = true ∧ @noSeries gmapRegistry pool (@registryAfter gmapRegistry ∅ h').
Proof.
  destruct (reaches_return anyAnswer (fixtureEnv w_vsphereDemand) (updateStatus Live fixturePool w_plan)
    (fixture_any _) isNil) as (h & [pool'|e] & Hp & He); [vm_compute; reflexivity| |discriminate He].
  destruct (reaches_patch_that anyAnswer (fixtureEnv w_poolDeletion) (PoolController.Reconcile Live NewGovcVMProvider "ns" "pool")
    (fixture_any _) KVsphereAgentPool (λ after, negb (ContainsFinalizer (pl_Meta after) finalizerName)))
    as (h' & before & after & lock & k & Hd & Hc); [vm_compute; reflexivity|].
  destruct (@pool_metrics_lifecycle refKubeLib refKubeLaws fixtureURL fixtureJSON Live NewGovcVMProvider gmapRegistry gmapRegistry_laws
              NewGovc_laws ∅ ltac:(intros v l [x Hx]; discriminate Hx)) as [Hshown Hgone].
  destruct (Hshown fixturePool pool' w_plan [] h Hp) as [Hs _].
  destruct (Hgone "ns" "pool" h' before after lock k Hd) as (pool & _ & Hdel & Hno & _); [by apply negb_true_iff|].
  exists h, h', pool. split; [exact Hs|]. split; [exact Hdel|exact Hno].
Defined.

(** A start-up in which every call succeeds. *)
Definition w_startEnv : environment startE := λ X _ e,
  match e in startE X return X with
  | GetEventRecorder _ => tt
  | MustRegister _ | AddToScheme _ | NewCertWatcher _ _ | GetConfig | NewManager _ | IndexField _ _ _ | Complete _
  | AddCertWatcher | AddHealthzCheck _ | AddReadyzCheck _ | Start => Ok tt
  end.
Definition atStart (X : Type) (e : startE X) : bool := match e with Start => true | _ => false end.

Lemma started_run f :
  ∃ h k, reach anyAnswer [] (operator f) h (Call Start k).
Proof.
  pose proof (runTo_reach anyAnswer atStart w_startEnv [] (operator f) (λ _ _ _, I)) as Hr.
  assert (∃ k, (runTo atStart w_startEnv [] (operator f)).2 = Call Start k) as [k Hk].
  { unfold operator, main, withCertWatcher. destruct (fl_MetricsCertPath f); eexists; reflexivity. }
  rewrite Hk in Hr. eauto.
Qed.

Definition w_certFlags : flags := mkFlags ":8443" ":8081" true true "/certs/" "tls.crt" "tls.key" false.

Lemma manager_starts_configured_witness :
  ∃ h o, managerOptionsOf h = [o] ∧ mo_Authorised (mg_Metrics o) = true ∧
         tl_NextProtos (metricsTLS o (mkTLSConfig ["h2"] false)) = ["http/1.1"].
Proof.
  destruct (started_run w_certFlags) as (h & k & Hr).
  destruct (manager_starts_configured w_certFlags) as [Hstart _].
  destruct (Hstart h k Hr) as (_ & _ & _ & (o & Ho & Hs & Ha & Ht) & _).
  exists h, o. split; [exact Ho|]. split; [rewrite Ha, Hs; reflexivity|]. apply (Ht (mkTLSConfig ["h2"] false)).
Defined.

(** The cache of a cluster with two pools, one of them in another control plane namespace. *)
Definition w_otherPool : VsphereAgentPool :=
  mkVsphereAgentPool (fixtureMeta "other" "ns" "other-uid" [])
    ((pl_Spec fixturePool) <| ps_ControlPlaneNamespace := "elsewhere" |>) zeroPoolStatus.
Definition w_objects (k : kind) : list (obj k) :=
  match k return list (obj k) with
  | KVsphereAgentPool => [fixturePool; w_otherPool]
  | KVsphereAgent => [fixtureAgent]
  | _ => []
  end.
Definition w_cacheEnv (started : history startE) : environment callE := λ X h e,
  match e in callE X return X with
  | ListObjs Cached k opts => if indexed started k opts then Ok (List.filter (listed started k opts) (w_objects k)) else notFound
  | e => fixtureEnv w_vsphereDemand _ h e
  end.

Definition w_created : change KAgentMachine := @Created KAgentMachine fixtureAgentMachine.

Lemma watch_requests_exact_witness :
  ∃ started, ∀ req, In req (enqueued started (w_cacheEnv started) "vsphereagentpool" w_created) ↔ req = ("ns", "pool").
Proof.
  destruct (started_run w_certFlags) as (started & k & Hr). exists started. intros req.
  destruct (watch_requests_exact w_certFlags started k w_objects (w_cacheEnv started) Hr) as (Hreq & _).
  - intros X h e. destruct e; try exact I. destruct r; [|exact I]. simpl.
    destruct (indexed started k0 opts); [split; reflexivity|reflexivity].
  - destruct (Hreq w_created) as [Hx|(old & new & Hx & _)]; [|rewrite Hx; clear Hx|discriminate Hx].
    + split; [exact I|]. constructor; [split; vm_compute; discriminate|constructor].
    + split.
      * intros (o & pool & [<-|[]] & [<-|[<-|[]]] & Hm & ->); [reflexivity|vm_compute in Hm; discriminate Hm].
      * intros ->. exists fixtureAgentMachine, fixturePool. split; [by left|]. split; [by left|]. split; vm_compute; reflexivity.
Defined.
