(* ===== verification/OpenStackWitnesses.v ===== *)
(** * Witnesses of the OpenStack components

    As in Witnesses.v: every property with hypotheses is applied to a concrete
    input.  The fixtures are a worker and its cloud: a project whose resources are
    a table, or the SDK itself. *)
From S2P Require Import Prelude OpenStackErrors Api Identity Planner OwnedVMs VsphereObjects Sha256 Effects K8s Objects.
From S2P Require Import VMProvider IsoCache InfraEnv Govc AgentMachine PoolController Fixtures.
From S2P Require Import OpenStackClient OpenStackRoundTrip OpenStackImages OpenStackAgent OpenStackCreate OpenStackStatus OpenStackCleanup.
From S2P Require Import OpenStackLink OpenStackLinkCreate OpenStackProgress OpenStackProvision OpenStackImageRefs OpenStackPool.

#[local] Existing Instance refKubeLib.
#[local] Existing Instance refKubeLaws.
#[local] Existing Instance fixtureURL.
#[local] Existing Instance fixtureDate.

(** ** Library instances *)
Definition fixtureSHA1 : UUID := λ s, "image-of-" +:+ s.
Definition fixtureSDK : OpenStackSDK := {|
  parseAuthURL s := Some (mkAuthURL "https" "keystone" false "" "");
  AppendCertsFromPEM _ := true;
  ResponseCodeIs _ _ := false |}.
#[local] Existing Instance fixtureSHA1.
#[local] Existing Instance fixtureSDK.

(** ** A worker *)
Definition w_scope : string := "scope".
Definition w_spec (am : string) : OpenStackAgentSpec :=
  mkOpenStackAgentSpec (mkLocalObjectReference "ospool") "ospool-uid"
    (mkObjectReference "" "AgentMachine" "cp" "am1" am) None (osp_Spec fixtureOpenStackPool) "".
Definition w_status (scope server cache image : string) : OpenStackAgentStatus :=
  mkOpenStackAgentStatus 0 "" scope "" "" "" "" "" image cache "" 0 "" server None None [].
Definition w_meta : ObjectMeta := fixtureMeta "osa1" "ns" "worker-uid" [openStackFinalizer].

(** A new worker, whose AgentMachine exists, and deleted ones, whose AgentMachine
    was replaced. *)
Definition w_worker : OpenStackAgent := mkOpenStackAgent w_meta (w_spec "am-uid") (w_status w_scope "" "" "").
Definition w_deleted (scope server cache image : string) : OpenStackAgent :=
  mkOpenStackAgent (deletedMeta w_meta) (w_spec "old-am-uid") (w_status scope server cache image).

(** The cluster with a worker and a cache. *)
Definition w_cluster (worker : OpenStackAgent) (cache : result ConfigMap) (host : Unstructured) (secret : Secret)
    (openStack : ∀ X, osClientE X → X) : fixture := {|
  fx_Get := λ k, match k return string → string → result (obj k) with
    | KOpenStackAgent => λ _ _, Ok worker
    | KAgentMachine => λ _ _, Ok fixtureAgentMachine
    | KSecret => λ _ _, Ok secret
    | KConfigMap => λ _ _, cache
    | KAgent => λ _ _, Ok host
    | _ => λ _ _, notFound
    end;
  fx_List := λ k, match k return result (list (obj k)) with KAgent => Ok [host] | KOpenStackAgent => Ok [worker] | _ => Ok [] end;
  fx_Govc := λ _, Ok "";
  fx_OpenStack := openStack;
  fx_File := "iso";
  fx_Now := 7200 * second |}.

(** A project with one server. *)
Definition w_serverProject : ∀ X, osClientE X → X := λ X e,
  match e in osClientE X return X with
  | OSGet _ k id owner => if k == Server then Ok (mkResource id "" owner "ACTIVE" "" false false 0) else Err (osErr ErrNotFound)
  | e => emptyProject _ e
  end.

Definition atOSDelete (kind : Kind) (X : Type) (e : callE X) : bool :=
  match e with OpenStack (OSDelete _ k _ _) => k == kind | _ => false end.
Definition atUpdate (kind : kind) (X : Type) (e : callE X) : bool :=
  match e with Update k _ => k == kind | _ => false end.
Definition atRelease (X : Type) (e : callE X) : bool :=
  match e with Update KOpenStackAgent o => negb (ContainsFinalizer (oa_Meta o) openStackFinalizer) | _ => false end.

Section reaches.
Context {A : Type} (rely : answers callE) (env : environment callE) (p : program A).
Hypothesis Henv : ∀ X h (e : callE X), rely X h e (env X h e).

Lemma reaches_osDelete kind :
  stopped (atOSDelete kind) (runTo (atOSDelete kind) env [] p) = true →
  ∃ h c id owner k, reach rely [] p h (Call (OpenStack (OSDelete c kind id owner)) k).
Proof.
  intros (h & X & e & k & Hr & He)%(reaches_stop rely env p Henv).
  destruct e as [| | | | | | | | | | | | | | | | | | | | |X e]; try done.
  destruct e as [| | | | | |c k' id owner]; try done. simpl in He. gobool. subst k'. by exists h, c, id, owner, k.
Qed.

Lemma reaches_update kd :
  stopped (atUpdate kd) (runTo (atUpdate kd) env [] p) = true →
  ∃ h (o : obj kd) k, reach rely [] p h (Call (Update kd o) k).
Proof.
  intros (h & X & e & k & Hr & He)%(reaches_stop rely env p Henv).
  destruct e as [| | |kd' o| | | | | | | | | | | | | | | | | |]; try done.
  simpl in He. gobool. subst kd'. by exists h, o, k.
Qed.

Lemma reaches_release :
  stopped atRelease (runTo atRelease env [] p) = true →
  ∃ h (o : OpenStackAgent) k, reach rely [] p h (Call (Update KOpenStackAgent o) k) ∧
    ContainsFinalizer (oa_Meta o) openStackFinalizer = false.
Proof.
  intros (h & X & e & k & Hr & He)%(reaches_stop rely env p Henv).
  destruct e as [| | |kd' o| | | | | | | | | | | | | | | | | |]; try done.
  destruct kd'; try done. exists h, o, k. split; [done|]. by apply negb_true_iff.
Qed.
End reaches.

(** ** Cleanup *)
Lemma openstack_deletes_authorised_witness :
  ∃ h a p, observed Live "ns" "osa1" a h ∧ clientOf Live a p h ∧ authorised Live a h.
Proof.
  destruct (reaches_osDelete anyAnswer
    (fixtureEnv (w_cluster (w_deleted w_scope "srv" "" "") notFound fixtureHost fixtureSecret w_serverProject))
    (OpenStackAgent.Reconcile Live "ns" "osa1") (fixture_any _) Server) as (h & c & id & owner & k & Hr); [vm_compute; reflexivity|].
  destruct (openstack_deletes_authorised Live "ns" "osa1" h c Server id owner k Hr) as (a & resource & Ho & _ & Hc & _ & Ha & _);
    [discriminate|].
  exists h, a, c. split; [exact Ho|]. split; [exact Hc|exact Ha].
Defined.

Lemma openstack_finalizer_released_witness :
  ∃ h o a, ContainsFinalizer (oa_Meta o) openStackFinalizer = false ∧ observed Live "ns" "osa1" a h.
Proof.
  destruct (reaches_release anyAnswer
    (fixtureEnv (w_cluster (w_deleted w_scope "" "" "") notFound fixtureHost fixtureSecret emptyProject))
    (OpenStackAgent.Reconcile Live "ns" "osa1") (fixture_any _)) as (h & o & k & Hr & Hf); [vm_compute; reflexivity|].
  destruct (openstack_finalizer_released Live "ns" "osa1" h o k Hr Hf) as (a & Ho & _).
  exists h, o, a. split; [exact Hf|exact Ho].
Defined.

(** *** A project with a server, a port and an image nobody else refers to *)
Definition w_cache : ConfigMap :=
  mkConfigMap (mkObjectMeta "os-image-1" "ns" "cache-uid" "1" 1 None {[imageCacheLabel := imageCacheOwnedValue]}
                 {[imageCachePhase := "Active"]} [] []) {["worker-uid" := "reference"]}.
Definition w_client : osClient := mkCloud w_scope "project" (9000 * second).
Definition w_project : project :=
  mkProject (w_deleted w_scope "srv" "os-image-1" "")
    (<[Server := mkResource "srv" "agent-forge-worker-uid-server" "worker-uid" "ACTIVE" "" false false 0]>
       {[Port := mkResource "p1" "agent-forge-worker-uid-port" "worker-uid" "ACTIVE" "" false false 0]})
    (Some w_cache) (Some ("image-of-cache-uid", "cache-uid")).

Lemma cleanup_terminates_witness :
  stepsLeft w_project = 4%nat ∧
  cleaned (Nat.iter 5 (OpenStackProgress.round Live w_client fixtureSecret [fixtureHost]) w_project).
Proof.
  split; [vm_compute; reflexivity|].
  apply (cleanup_terminates Live w_client fixtureSecret [fixtureHost] w_project).
  - intros host [<-|[]]. split; [vm_compute; reflexivity|]. eexists. vm_compute. reflexivity.
  - split; try (vm_compute; reflexivity).
    + vm_compute. discriminate.
    + vm_compute. split; [discriminate|]. split; discriminate.
    + split; [vm_compute; reflexivity|discriminate].
    + intros k r Hr. simpl in Hr. apply lookup_insert_Some in Hr as [[<- <-]|[_ Hr]];
        [|apply lookup_singleton_Some in Hr as [<- <-]]; (split; [vm_compute; reflexivity|]);
        (split; [vm_compute; reflexivity|]); [right|left]; vm_compute; reflexivity.
    + intros k Hk Hp. vm_compute in Hp. subst k. vm_compute in Hk. tauto || (repeat (destruct Hk as [Hk|Hk]; [discriminate Hk|]); destruct Hk).
    + intros c [= <-]. split; [vm_compute; discriminate|]. split; [vm_compute; reflexivity|].
      split; [vm_compute; reflexivity|]. split; [left; vm_compute; reflexivity|right; vm_compute; reflexivity].
    + discriminate.
Defined.

(** ** Creation: a worker over two reconciliations

    The environment answers reads of the worker with what was written last. *)
Definition w_written {X : Type} (e : callE X) : option OpenStackAgentStatus :=
  match e with
  | StatusUpdate k sent => match k return obj k → option OpenStackAgentStatus with
                           | KOpenStackAgent => λ o, Some (oa_Status o) | _ => λ _, None end sent
  | _ => None
  end.
Fixpoint w_current (s : OpenStackAgentStatus) (h : hist) : OpenStackAgentStatus :=
  match h with
  | [] => s
  | Event e _ :: h => default (w_current s h) (w_written e)
  end.
Definition w_lifeEnv (s : OpenStackAgentStatus) : environment callE := λ X h e,
  fixtureEnv (w_cluster (mkOpenStackAgent w_meta (w_spec "am-uid") (w_current s h)) notFound fixtureHost fixtureSecret emptyProject)
    X h e.

Lemma w_lifeEnv_world s X h (e : callE X) :
  stored (mkStore s false) h (mkStore (w_current s h) false) →
  world (mkStore s false) X h e (w_lifeEnv s X h e) ∧
  stored (mkStore s false) (Event e (w_lifeEnv s X h e) :: h)
    (mkStore (w_current s (Event e (w_lifeEnv s X h e) :: h)) false).
Proof.
  intros Hs. assert (stored (mkStore s false) (Event e (w_lifeEnv s X h e) :: h)
    (mkStore (w_current s (Event e (w_lifeEnv s X h e) :: h)) false)) as Hs'.
  { exists (mkStore (w_current s h) false). split; [exact Hs|].
    destruct e; try done; destruct k; done. }
  split; [|exact Hs']. split; [by eexists|]. destruct e; try done. destruct e; done.
Qed.

Definition atOSCreate (X : Type) (e : callE X) : bool :=
  match e with OpenStack (OSCreate _ _ _ _ _) => true | _ => false end.

(** The first run is cut when the port is requested; the second one starts from the
    status it left. *)
Definition w_run1 : run := runTo atOSCreate (w_lifeEnv (oa_Status w_worker)) [] (OpenStackAgent.Reconcile Live "ns" "osa1").
Definition w_status1 : OpenStackAgentStatus := w_current (oa_Status w_worker) w_run1.1.
Definition w_run2 : run := runTo nowhere (w_lifeEnv w_status1) [] (OpenStackAgent.Reconcile Live "ns" "osa1").

Lemma w_life : ∃ s, life Live "ns" "osa1" (mkStore (oa_Status w_worker) false) [w_run1; w_run2] s.
Proof.
  destruct (runTo_reach_from (world (mkStore (oa_Status w_worker) false))
    (λ h, stored (mkStore (oa_Status w_worker) false) h (mkStore (w_current (oa_Status w_worker) h) false))
    atOSCreate (w_lifeEnv (oa_Status w_worker)) [] (OpenStackAgent.Reconcile Live "ns" "osa1")
    (w_lifeEnv_world _) eq_refl) as [Hr1 Hs1].
  destruct (runTo_reach_from (world (mkStore w_status1 false))
    (λ h, stored (mkStore w_status1 false) h (mkStore (w_current w_status1 h) false))
    nowhere (w_lifeEnv w_status1) [] (OpenStackAgent.Reconcile Live "ns" "osa1")
    (w_lifeEnv_world _) eq_refl) as [Hr2 Hs2].
  eexists. unfold w_run1, w_run2. rewrite (surjective_pairing (runTo atOSCreate _ _ _)), (surjective_pairing (runTo nowhere _ _ _)).
  eapply life_run; [exact Hr1|exact Hs1|]. eapply life_run; [exact Hr2|exact Hs2|]. apply life_start.
Qed.

Lemma create_at_most_once_witness :
  st_PendingCreate w_status1 = Port ∧ maybeCreated Port w_run1 ∧ ¬ requested Port w_run2.
Proof.
  assert (maybeCreated Port w_run1) as Hm by (right; vm_compute; reflexivity).
  split; [vm_compute; reflexivity|]. split; [exact Hm|]. destruct w_life as [s Hl].
  apply (proj1 (create_at_most_once Live "ns" "osa1" Port _ s [w_run1; w_run2] (or_introl eq_refl) Hl)
           [] w_run1 [] w_run2 [] eq_refl Hm).
Defined.

(** ** The SDK: a project with one server of the worker *)
Definition w_server : sdkServer :=
  mkSdkServer "srv" "agent-forge-worker-uid-server" {[OwnerKey := "worker-uid"]} "ACTIVE" "project".
Definition w_noSDK {A} : sdk A := inr [CauseResponse false 404 ∅].
Definition w_sdk (X : Type) (e : sdkE X) : X :=
  match e in sdkE X return X with
  | PortsGet _ => w_noSDK
  | PortsList _ _ => inl []
  | PortsCreate _ => w_noSDK
  | PortsDelete _ => inl tt
  | VolumesGet _ => w_noSDK
  | VolumesList _ => inl []
  | VolumesCreate _ => w_noSDK
  | VolumesSetBootable _ _ => inl tt
  | VolumesDelete _ => inl tt
  | ServersGet _ => inl w_server
  | ServersList _ => inl [w_server]
  | ServersCreate _ => w_noSDK
  | ServersDelete _ => inl tt
  | ImagesGet _ => w_noSDK
  | ImagesCreate _ => w_noSDK
  | ImagesUpload _ _ => inl tt
  | ImagesDelete _ => inl tt
  | NetworksList _ => inl ["net-1"]
  | FlavorsList => inl []
  | SubnetsGet _ => w_noSDK
  | NewClient _ => inl tt
  | AuthenticateV3 _ _ _ => inl tt
  | ExtractProject => Some (inl (Some "project"))
  | ExtractToken => Some (inl (9000 * second))
  | NewService _ _ => inl tt
  | TimeNow => 7200 * second
  | RangeKeys keys => keys
  end.

Definition w_osSecret : Secret :=
  mkSecret (fixtureMeta "creds" "ns" "secret-uid" [])
    (<["auth-url" := "https://keystone"]> (<["application-credential-id" := "id"]>
      (<["application-credential-secret" := "s"]> {["project-id" := "project"]}))).

Definition w_linkEnv (f : fixture) : environment linkE := λ X _ e,
  match e in linkE X return X with Kube e => fixtureEnv f _ [] e | SDK e => w_sdk _ e end.
Definition atSDKDelete (X : Type) (e : linkE X) : bool :=
  match e with SDK d => bool_decide (sdkDeletes d = Some (Server, "srv")) | Kube _ => false end.

(** The Secret read in a history. *)
Definition w_secretRead (ev : event callE) : Prop :=
  match ev with
  | @Event _ X e x =>
      match e in callE X return X → Prop with
      | Get _ k _ _ => match k return result (obj k) → Prop with
                       | KSecret => λ r, match r with Ok secret => secret = w_osSecret | Err _ => True end | _ => λ _, True end
      | _ => λ _, True
      end x
  end.

Definition w_linked : history linkE * prog linkE (clientCache * result Duration) :=
  runTo atSDKDelete
    (w_linkEnv (w_cluster (w_deleted (cloudScope "https://keystone" "project" "") "srv" "" "") notFound fixtureHost
                  w_osSecret emptyProject)) []
    (link id ∅ (OpenStackAgent.Reconcile Live "ns" "osa1")).

Lemma linked_deletes_owned_witness :
  ∃ h a c r, observed Live "ns" "osa1" a (kubeEvents h) ∧ cl_project c = "project" ∧
    seenOwned c (oaUID a) (sdkEvents h) Server "srv" r.
Proof.
  set (env := w_linkEnv (w_cluster (w_deleted (cloudScope "https://keystone" "project" "") "srv" "" "") notFound fixtureHost
                  w_osSecret emptyProject)).
  destruct (runTo_reach_from anyAnswer (λ h, Forall w_secretRead (kubeEvents h)) atSDKDelete env []
    (link id ∅ (OpenStackAgent.Reconcile Live "ns" "osa1"))) as [Hr Hv].
  { intros X h e Hh. split; [exact I|]. destruct e as [X e|X e]; [|exact Hh]. constructor; [|exact Hh].
    destruct e; try exact I. destruct k; try exact I. reflexivity. }
  { constructor. }
  change (runTo atSDKDelete env [] _) with w_linked in Hr, Hv.
  assert (match w_linked.2 with Call e _ => atSDKDelete _ e | Return _ => false end = true) as Hstop by (vm_compute; reflexivity).
  exists w_linked.1. destruct w_linked as [h q]. simpl in *. destruct q as [|X e k]; [discriminate|].
  destruct e as [|X d]; [discriminate|]. simpl in Hstop. apply bool_decide_eq_true in Hstop. rewrite Forall_forall in Hv.
  assert (∀ n m secret, In (Event (Get Live KSecret n m) (Ok secret)) (kubeEvents h) → secret = w_osSecret) as Hsecrets.
  { intros n m secret Hin. exact (Hv _ (proj2 (list_elem_of_In _ _) Hin)). }
  destruct (linked_deletes_owned Live id ∅ (λ _, "project") "ns" "osa1" h X d Server "srv" k)
    as (a & c & r & secret & Ho & _ & _ & Hsec & Hp & _ & Hs & _).
  - intros key c Hc. rewrite lookup_empty in Hc. discriminate Hc.
  - intros m Hm. exact Hm.
  - intros cfg n m secret Hin. rewrite (Hsecrets _ _ _ Hin). vm_compute. reflexivity.
  - exact Hr.
  - exact Hstop.
  - exists a, c, r. split; [exact Ho|]. split; [|exact Hs]. rewrite Hp, (Hsecrets _ _ _ Hsec). vm_compute. reflexivity.
Defined.

(** The same cluster with a live worker: its port is requested. *)
Definition w_liveWorker : OpenStackAgent :=
  mkOpenStackAgent w_meta (w_spec "am-uid") (w_status (cloudScope "https://keystone" "project" "") "" "" "").
Definition atSDKCreate (X : Type) (e : linkE X) : bool :=
  match e with
  | SDK d => bool_decide (sdkCreates d = Some (Port, "agent-forge-worker-uid-port", "worker-uid"))
  | Kube _ => false
  end.
Definition w_linkedCreate : history linkE * prog linkE (clientCache * result Duration) :=
  runTo atSDKCreate (w_linkEnv (w_cluster w_liveWorker notFound fixtureHost w_osSecret emptyProject)) []
    (link id ∅ (OpenStackAgent.Reconcile Live "ns" "osa1")).

Lemma linked_creates_marked_witness :
  ∃ h a, intended Live Port a (kubeEvents h) ∧ oaUID a = "worker-uid".
Proof.
  assert (reach anyAnswer [] (link id ∅ (OpenStackAgent.Reconcile Live "ns" "osa1")) w_linkedCreate.1 w_linkedCreate.2) as Hr
    by exact (runTo_reach anyAnswer atSDKCreate _ [] _ (λ _ _ _, I)).
  assert (match w_linkedCreate.2 with Call e _ => atSDKCreate _ e | Return _ => false end = true) as Hstop
    by (vm_compute; reflexivity).
  exists w_linkedCreate.1. destruct w_linkedCreate as [h q]. simpl in *. destruct q as [|X e k]; [discriminate|].
  destruct e as [|X d]; [discriminate|]. simpl in Hstop. apply bool_decide_eq_true in Hstop.
  destruct (linked_creates_marked Live id ∅ "ns" "osa1" h X d Port "agent-forge-worker-uid-port" "worker-uid" k Hr Hstop)
    as (kind & a & worker & _ & [<-|[_ Hv]] & _ & Ho & Hi & _); [|discriminate Hv].
  exists a. split; [exact Hi|symmetry; exact Ho].
Defined.

(** ** The client *)
Definition w_sdkEnv : environment sdkE := λ X _ e, w_sdk X e.
Definition atServersDelete (X : Type) (e : sdkE X) : bool := match e with ServersDelete id => id == "srv" | _ => false end.

Lemma client_changes_owned_witness :
  ∃ h r, seenOwned (mkCloud "" "project" 0) "worker-uid" h Server "srv" r ∧ resourceBusy Server r = false.
Proof.
  pose proof (runTo_reach anyAnswer atServersDelete w_sdkEnv [] (cloudDelete (mkCloud "" "project" 0) Server "srv" "worker-uid")
    (λ _ _ _, I)) as Hr.
  assert (match (runTo atServersDelete w_sdkEnv [] (cloudDelete (mkCloud "" "project" 0) Server "srv" "worker-uid")).2 with
          | Call e _ => atServersDelete _ e | Return _ => false end = true) as Hstop by (vm_compute; reflexivity).
  destruct (runTo _ _ _ _) as [h q]. simpl in *. destruct q as [|X e k]; [discriminate|]. exists h.
  destruct e; try discriminate. apply bool_decide_eq_true in Hstop. subst id.
  exact (client_changes_owned (mkCloud "" "project" 0) "worker-uid" Server "srv" "" _ h _ _ k (or_introl eq_refl) Hr).
Defined.

Lemma client_factory_authentic_witness :
  ∃ h cache c, reach ranges [] (NewCachedFactory id ∅ (os_OpenStack zeroOpenStackPoolSpec) w_osSecret) h (Return (cache, Ok c)) ∧
    (size cache ≤ maxClients)%nat ∧ cl_project c = "project".
Proof.
  assert (∀ X h (e : sdkE X), ranges X h e (w_sdkEnv X h e)) as Henv by (intros X h e; destruct e; simpl; try exact I; reflexivity).
  pose proof (runTo_reach ranges (λ _ _, false) w_sdkEnv [] (NewCachedFactory id ∅ (os_OpenStack zeroOpenStackPoolSpec) w_osSecret)
    Henv) as Hr.
  assert (match (runTo (λ _ _, false) w_sdkEnv [] (NewCachedFactory id ∅ (os_OpenStack zeroOpenStackPoolSpec) w_osSecret)).2 with
          | Call _ _ => false | Return (_, r) => isNil r end = true) as Hok by (vm_compute; reflexivity).
  destruct (runTo _ _ _ _) as [h q]. simpl in *. destruct q as [[cache [c|e]]|]; try discriminate.
  exists h, cache, c. split; [exact Hr|].
  destruct (client_factory_authentic id ∅ cache (os_OpenStack zeroOpenStackPoolSpec) w_osSecret h (Ok c)) as [Hs Ha].
  - vm_compute. lia.
  - intros c' Hc'. exact Hc'.
  - exact Hr.
  - split; [exact Hs|]. destruct (Ha c eq_refl) as [[Hn _]|(Hp & _)]; [discriminate Hn|]. rewrite Hp. vm_compute. reflexivity.
Defined.

Lemma discoveryVolumeSize_fits_witness :
  discoveryVolumeSize 1 (2 * gibibyte + 1) = 3 ∧ 2 * gibibyte + 1 ≤ discoveryVolumeSize 1 (2 * gibibyte + 1) * gibibyte.
Proof.
  split; [vm_compute; reflexivity|]. apply (discoveryVolumeSize_fits 1 (2 * gibibyte + 1)). unfold gibibyte. lia.
Defined.

(** ** Images: a cache created by the first worker and released by it *)
Definition w_tombstone : ConfigMap :=
  mkConfigMap (mkObjectMeta "os-image-1" "ns" "cache-uid" "2" 1 None {[imageCacheLabel := imageCacheOwnedValue]}
                 {[imageCachePhase := openStackPhaseDeleting]} [] []) ∅.

Definition w_volumeProject : ∀ X, osClientE X → X := λ X e,
  match e in osClientE X return X with
  | OSGet _ k id owner => if k == OSVolume then Ok (mkResource id "" owner "available" "" false true 0) else Err (osErr ErrNotFound)
  | e => emptyProject _ e
  end.
Definition w_imageProject : ∀ X, osClientE X → X := λ X e,
  match e in osClientE X return X with
  | OSGet _ k id owner => if k == Image then Ok (mkResource id "" owner "active" "" false false 0) else Err (osErr ErrNotFound)
  | e => emptyProject _ e
  end.

(** The worker that prepares its image, the same one releasing it, and the collection of the image. *)
Definition w_preparing : OpenStackAgent :=
  mkOpenStackAgent w_meta (w_spec "am-uid")
    (mkOpenStackAgentStatus 0 "" w_scope "" "p1" "aa-bb" "vol-1" "" "" "os-image-1" "sha" 1 "ie-uid" "" None None []).
Definition w_creating : environment callE :=
  fixtureEnv (w_cluster w_preparing notFound fixtureHost fixtureSecret w_volumeProject).
Definition w_releasing : environment callE :=
  fixtureEnv (w_cluster (w_deleted w_scope "" "os-image-1" "") (Ok w_cache) fixtureHost fixtureSecret w_imageProject).
Definition w_collecting : environment callE :=
  fixtureEnv (w_cluster (w_deleted w_scope "" "os-image-1" "") (Ok w_tombstone) fixtureHost fixtureSecret w_imageProject).

#[local] Instance storedAs_dec c stored : Decision (storedAs c stored).
Proof. unfold storedAs. apply _. Defined.
Definition atCacheCreate (stored : ConfigMap) (X : Type) (e : callE X) : bool :=
  match e with Create KConfigMap c => bool_decide (storedAs c stored) | _ => false end.
Definition atCacheUpdate (current stored : ConfigMap) (X : Type) (e : callE X) : bool :=
  match e with
  | Update KConfigMap c => bool_decide (storedAs c stored ∧ om_UID (cm_Meta c) = om_UID (cm_Meta current) ∧
                                        om_ResourceVersion (cm_Meta c) = om_ResourceVersion (cm_Meta current))
  | _ => false
  end.

Lemma w_cache_life : cacheLife Live [w_cache].
Proof.
  destruct (reaches_stop (λ X _, readsFrom [] X) w_creating (OpenStackAgent.Reconcile Live "ns" "osa1"))
    with (stop := atCacheCreate w_cache) as (h & X & e & k & Hr & He); [|vm_compute; reflexivity|].
  { intros X h e. destruct e; try exact I. destruct k; exact I. }
  destruct e as [| |kd c| | | | | | | | | | | | | | | | | | |]; try discriminate. destruct kd; try discriminate.
  apply bool_decide_eq_true in He.
  apply (life_created _ [] "ns" "osa1" h c k w_cache); [constructor|exact Hr|exact He|by intros v []].
Qed.

Lemma w_tombstone_life : cacheLife Live [w_tombstone; w_cache].
Proof.
  destruct (reaches_stop (λ X _, readsFrom [w_cache] X) w_releasing (OpenStackAgent.Reconcile Live "ns" "osa1"))
    with (stop := atCacheUpdate w_cache w_tombstone) as (h & X & e & k & Hr & He); [|vm_compute; reflexivity|].
  { intros X h e. destruct e; try exact I. destruct k; try exact I. by left. }
  destruct e as [| | |kd c| | | | | | | | | | | | | | | | | |]; try discriminate. destruct kd; try discriminate.
  apply bool_decide_eq_true in He as (Hs & Hu & Hv).
  apply (life_updated _ [w_cache] "ns" "osa1" h c k w_cache w_tombstone); try done.
  - apply w_cache_life.
  - rewrite Hu. vm_compute. reflexivity.
  - intros v [<-|[]] _. vm_compute. discriminate.
Qed.

Lemma image_deleted_unreferenced_witness :
  ∃ h n m c, In (Event (Get Live KConfigMap n m) (Ok c)) h ∧ cm_Data c = ∅ ∧
    latest [w_tombstone; w_cache] (om_UID (cm_Meta c)) = Some c.
Proof.
  destruct (reaches_osDelete (λ X _, readsFrom [w_tombstone; w_cache] X) w_collecting (OpenStackAgent.Reconcile Live "ns" "osa1"))
    with (kind := Image) as (h & p & id & owner & k & Hr); [|vm_compute; reflexivity|].
  { intros X h e. destruct e; try exact I. destruct k; try exact I. by left. }
  destruct (image_deleted_unreferenced Live [w_tombstone; w_cache] "ns" "osa1" h p id owner k w_tombstone_life Hr)
    as (n & m & c & Hin & Hd & Hl & _).
  exists h, n, m, c. split; [exact Hin|]. split; [exact Hd|exact Hl].
Defined.

Lemma image_cache_protocol_witness :
  ∃ c c', sameVersion c c' ∧ cacheStep "worker-uid" c c'.
Proof.
  destruct (reaches_update anyAnswer w_releasing
    (releaseDiscoveryImage Live w_client (w_deleted w_scope "" "os-image-1" "")) (fixture_any _) KConfigMap)
    as (h & c' & k & Hr); [vm_compute; reflexivity|].
  destruct (image_cache_protocol Live (w_deleted w_scope "" "os-image-1" "") w_client h _ (Update KConfigMap c')
              (or_intror (ex_intro _ k Hr))) as (n & m & c & _ & Hv & Hs).
  exists c, c'. split; [exact Hv|exact Hs].
Defined.

(** ** Binding: the host of the worker, with the OS volume as its disk *)
Definition w_host : Unstructured :=
  mkUnstructured (mkObjectMeta "host1" "ns" "host-uid" "1" 1 None {["infraenvs.agent-install.openshift.io" := "ie"]} ∅ [] [])
    (AMap [("spec", AMap [("approved", ABool false)]);
           ("status", AMap [("inventory", AMap
              [("interfaces", ASlice [AMap [("macAddress", AString "aa:bb")]]);
               ("disks", ASlice [AMap [("id", AString "disk-1"); ("path", AString "/dev/vda"); ("serial", AString "vol-1");
                                        ("installationEligibility", AMap [("eligible", ABool true)])]])])])]).
Definition w_running : OpenStackAgent :=
  mkOpenStackAgent w_meta (oa_Spec (defaulted (mkOpenStackAgent w_meta (w_spec "am-uid") (w_status "" "" "" ""))))
    (mkOpenStackAgentStatus 0 "" w_scope "" "p1" "aa-bb" "vol-1" "" "" "" "" 0 "" "srv" None None []).

Lemma openstack_binds_verified_witness :
  ∃ after disks id, onlyVerifiedDisk w_running disks id ∧ NestedString (un_Object after) ["spec"; "installation_disk_id"] = id.
Proof.
  destruct (reaches_patch anyAnswer (fixtureEnv (w_cluster w_running notFound w_host fixtureSecret emptyProject))
    (reconcileDiscoveredAgent Live w_running) (fixture_any _) KAgent) as (h & before & after & lock & k & Hr);
    [vm_compute; reflexivity|].
  destruct (openstack_binds_verified Live w_running h before after lock k Hr)
    as (_ & items & host & disks & id & _ & _ & _ & _ & Hv & _ & _ & Hd).
  exists after, disks, id. split; [exact Hv|exact Hd].
Defined.

(** ** The status *)

(** Writes of the worker fail. *)
Definition w_failingEnv : environment callE := λ X h e,
  match e in callE X return X with
  | Update _ _ | StatusUpdate _ _ => notFound
  | e => fixtureEnv (w_cluster w_worker notFound fixtureHost fixtureSecret emptyProject) _ h e
  end.

Lemma status_wellFormed_witness :
  ∃ h o k, reach answersWellFormed [] (OpenStackAgent.Reconcile Live "ns" "osa1") h (Call (StatusUpdate KOpenStackAgent o) k) ∧
    wellFormed (oa_Status o).
Proof.
  destruct (reaches_statusUpdate answersWellFormed w_failingEnv (OpenStackAgent.Reconcile Live "ns" "osa1"))
    with (kd := KOpenStackAgent) as (h & o & k & Hr); [|vm_compute; reflexivity|].
  - intros X h e. destruct e; try exact I; destruct k; try exact I. split; [left; reflexivity|]. intros Hn. destruct Hn. reflexivity.
  - exists h, o, k. split; [exact Hr|]. exact (status_wellFormed Live "ns" "osa1" h o k Hr).
Defined.

(** ** The pool and errors *)
Definition w_deletedPool : OpenStackAgentPool :=
  mkOpenStackAgentPool (deletedMeta (osp_Meta fixtureOpenStackPool)) (osp_Spec fixtureOpenStackPool) (osp_Status fixtureOpenStackPool).
Definition w_poolEnv : environment callE := λ X h e,
  match e in callE X return X with
  | Get _ k _ _ => match k return result (obj k) with KOpenStackAgentPool => Ok w_deletedPool | _ => notFound end
  | e => fixtureEnv (w_cluster w_worker notFound fixtureHost fixtureSecret emptyProject) _ h e
  end.
Definition atDeleteWorker (X : Type) (e : callE X) : bool :=
  match e with Delete KOpenStackAgent _ _ => true | _ => false end.

Lemma openstack_pool_waits_witness :
  ∃ h p children a, poolSeen Live "ns" "ospool" p children h ∧ isDeleting (osp_Meta p) = true ∧ ownChild p a = true.
Proof.
  destruct (reaches_stop anyAnswer w_poolEnv (OpenStackPool.Reconcile Live "ns" "ospool") (λ _ _ _, I) atDeleteWorker)
    as (h & X & e & k & Hr & He); [vm_compute; reflexivity|].
  destruct e as [| | | | | |kd a pre| | | | | | | | | | | | | | |]; try discriminate. destruct kd; try discriminate.
  destruct (proj1 (openstack_pool_waits Live "ns" "ospool" h) a pre k Hr) as (p & children & Hs & Hd & _ & Ho & _).
  exists h, p, children, a. split; [exact Hs|]. split; [exact Hd|exact Ho].
Defined.

Lemma SafeError_sanitised_witness :
  SafeError [CauseOther "secret"; CauseResponse false 403 ∅] = SafeError [CauseOther ""; CauseResponse false 403 ∅] ∧
  oe_Rejected (SafeError [CauseOther "secret"; CauseResponse false 403 ∅]) = true.
Proof.
  split; [|vm_compute; reflexivity].
  transitivity (SafeError (map publicCause [CauseOther "secret"; CauseResponse false 403 ∅])); [|vm_compute; reflexivity].
  symmetry. apply (SafeError_sanitised [CauseOther "secret"; CauseResponse false 403 ∅]).
Defined.

(** ** Round trip: a server is created in an empty project *)
Definition w_emptySDK : sdkProject := mkSdkProject [] [] [] ["net-1"] [("flavor-1", "")] "id-1".
Definition w_subnet : sdkSubnet := mkSdkSubnet "net-1" true.

Lemma created_is_found_witness :
  ∃ w' r, runState (sdkAnswer "project" w_subnet) w_emptySDK (cloudCreate Server "worker-1" "worker-uid" w_worker) = (w', Ok r) ∧
    runState (sdkAnswer "project" w_subnet) w' (cloudFind (mkCloud "" "project" 0) Server "worker-1" "worker-uid") = (w', Ok r).
Proof.
  eexists _, _. split; [vm_compute; reflexivity|].
  apply (created_is_found (mkCloud "" "project" 0) w_subnet w_emptySDK _ Server "worker-1" "worker-uid" w_worker).
  - discriminate.
  - right. right. reflexivity.
  - constructor.
  - vm_compute. reflexivity.
Defined.

(** ** Creation: a worker that was just created, in a project without resources *)
Definition w_supply : supply :=
  mkSupply w_client fixtureSecret fixtureAgentMachine fixtureInfraEnv "https://assisted/image.iso" "iso"
    (λ k, k +:+ "-id") "fa:16:3e:00:00:01" "cache-uid" (7200 * second).
Definition w_newSite : site :=
  mkSite (mkOpenStackAgent (fixtureMeta "osa1" "ns" "worker-uid" []) (w_spec "am-uid") (w_status "" "" "" "")) ∅ None None.

Lemma provision_terminates_witness :
  stepsToServer w_newSite = 8%nat ∧
  ∃ n, (n ≤ 8)%nat ∧ provisioned w_supply (Nat.iter n (provisionRound Live w_supply) w_newSite).
Proof.
  assert (stepsToServer w_newSite = 8%nat) as Hsteps by (vm_compute; reflexivity).
  split; [exact Hsteps|].
  destruct (provision_terminates Live w_supply w_newSite) as (n & [Hn _] & Hdone).
  - split; try (vm_compute; first [reflexivity|discriminate]).
    + eexists. vm_compute. reflexivity.
    + vm_compute. split; [reflexivity|discriminate].
    + intros k. simpl. destruct k; discriminate.
  - split; try (vm_compute; first [reflexivity|discriminate]).
    + vm_compute. repeat split; discriminate.
    + by left.
    + by left.
    + intros k [<-|[<-|[<-|[<-|[]]]]]; vm_compute; reflexivity.
    + left. split; reflexivity.
  - rewrite Hsteps in Hn. exists n. split; [exact Hn|exact Hdone].
Defined.
